(* ===== verification/_CoqProject ===== *)
-Q . S2P
Prelude.v
Machine.v
Strings.v
Endian.v
Uart.v
Uart16550.v
Cpu.v
Pager.v
Pages.v
Scheduler.v
Allocator.v
Blocks.v
Hashmap.v
List.v
Radix.v
Objects.v
Vma.v
VmaFence.v
VmaSpace.v
UserAccess.v
Irq.v
TrapParser.v
Process.v
ProcessSpace.v
Inode.v
FileIO.v
Dentry.v
Syscalls.v
FileCalls.v
Traps.v
Preempt.v
DeviceTree.v
Drivers.v
PagerInit.v
Elf.v
Unsafe.v
TrapEntry.v
Rounds.v
InitProcess.v
AsyncCall.v
ProcessIO.v
PanicReport.v
Tests.v
Boot.v
