(* ===== verification/Prelude.v ===== *)
(** * Toastium: a model of the kernel, and what it does

    Toastium is a RISC-V kernel in C and assembly.  The files of this library
    translate its code function by function into executable definitions and
    prove what they do.  Paths below are relative to [src/src]; a C function and its
    definition have the same name, and a loop body that is a definition of its
    own has the name of its function and a suffix ([_step], [_word], [_page]).

    ** How the code is modelled

    File Machine holds the state and the monad.  Memory is a map from addresses
    to 64-bit words; a field of [n] bytes is part of a word, and an access
    outside the kernel half of the address space or not aligned is the outcome
    [Fault].  The C globals of all files, the control registers the code
    touches (satp, sie, stvec, the interrupt and SUM bits of sstatus), the clock,
    the bytes sent on the serial line, the accesses to device registers, the
    fences and the deadlines given to the firmware are fields of [kstate].  What a
    device register reads as is decided by the device, a function in the state of
    the accesses before.  A C function is a function in the monad [M], whose outcomes are a
    result, [Panic] with the message and the three values of the C macro,
    [Fault], [Undef] for what C leaves undefined (signed overflow, shifts past
    the width, reading an uninitialised local), [Halt] for the wfi loops, and
    [Fuel].  Machine integers are Z with their wrap-around written out: the
    operations of [u64_scope] in this file, [to_s64], [to_s32], [wrap8].

    Assembly is a list of instructions of a hart, with the 31 registers, the
    control registers of traps and [kstate]; [run] executes one with the
    functional meaning of each instruction, and the hardware's part of a trap and
    of [sret] is [take_trap] and [sret] (file TrapEntry).

    A for loop of fixed bounds is [for_each], [for_fold], [for_find] or
    [for_until] over the list of its indices.  Every other loop is [while_true],
    which runs its body at most 2^64 times and then gives [Fuel]: no loop of
    the code that ends takes more steps, since each counts up or walks a list
    of distinct addresses.  The rule [wp_while] proves total correctness from a measure,
    so no theorem below is about a run that stopped for lack of fuel.

    ** The parts

    - Machine: state, monad, loops, rules ([include/types.h], [include/def.h],
      [include/layout.h]).  Objects: the fields of the shared C structs.
    - Strings ([kernel/memory/string.c]), Endian ([include/endian.c]), Uart
      ([drivers/uart/uart.c], over an abstract console, [console_put]), Uart16550
      (the driver, register by register, which implements the console), Cpu
      ([arch_cpu.c], [open_sbi.c], [timer.c]).
    - Pager: [pg_alloc] and [pg_free] ([kernel/memory/pager.c]) over a table of
      pools with bitmaps.  Pages: the interfaces [PageSource] and [PageHeap] the
      files below are proved against, which Pager implements.  PagerInit: how the
      table is made at boot from the device tree.
    - Allocator ([allocator.c]): blocks cut from pages.  Blocks: the interface
      [BlockSource] of its clients.  Hashmap, List, Radix: the containers over
      blocks and pages.
    - Vma, VmaFence, VmaSpace ([arch_vma/virtual_memory.c]): the entries of the
      sv39 tables, the fences, and the trees of tables with the walk of the
      hardware as their abstract meaning.  UserAccess: copies to and from user
      memory.
    - Scheduler, Process: the run queue, the life of a process and the change
      of context; ProcessSpace: the address space of a new process.  TrapParser,
      Traps, Syscalls: from the trap frame to the handlers, and the system calls.
      Preempt: what a timer interrupt does, all of these together.  Unsafe: traps
      before all that is ready.
    - TrapEntry: the instructions that save and load the registers of a process
      and those around them ([trap.S], [state.S], [unsafe_trap.S]), and a trap
      of a user program from its instruction to its next.  InitProcess: the
      two user programs of the kernel ([init_process.s], [idle_process.s]), a
      step relation in which timer interrupts come at any instruction.
      Rounds: timer interrupts one after the other, on any number of
      processes.  AsyncCall: a system call served on the kernel stack of the process, from
      its [ecall] through both handlers and the change of trap frame to its next
      instruction.
    - Inode, FileIO, Dentry: files, descriptors, directories.  FileCalls: the
      calls read and write from the registers of the process to the bytes of the
      file, and ProcessIO from the [ecall] to the instruction after it.  Elf:
      the reader of executables, which nothing calls yet.
    - Irq ([irq.c], the tables of [arch_boot.S]), DeviceTree, Drivers,
      PanicReport, Boot (with the rest of [arch_boot.S]): start-up and its end.
      Tests ([tests/]): the tests the kernel runs on itself.

    The pager gives pages to the allocator, to the scheduler's ring, to page
    tables and to files; the allocator gives blocks to hash maps, radix trees,
    inodes, descriptors and processes.  A trap enters [handle_sync_trap] (file
    Traps), which serves it, changes process through the Scheduler, or leaves
    it to [handle_async_trap] on the kernel stack of the process; [trap_entry] of
    file TrapEntry is the code around both.

    ** What is proved

    - Memory: [pg_alloc] is first fit and gives fresh, cleared, aligned pages;
      [pg_free] is its inverse and refuses foreign addresses; no sequence of
      requests, releases and writes lets two holders share a page; [init_regions]
      establishes the invariant all that rests on, when the bitmap of every
      region ends before its first page.  [mem_alloc] and [mem_free]
      likewise for the blocks of the first data page of a class, [bump_alloc] within
      its page.
      The kernel's own test of the page allocator passes wherever its pages are.
    - Containers: insertion and look-up of hash maps and radix trees; the ordered
      list of boot drivers; the look-up of device tree nodes and of paths.
    - Address spaces: [vma_map_user] gives a range of pages new translations and
      fences, under the identifier of the process or, where the hart has
      none, under 0, and changes no other; a new process
      sees the kernel half, its stack and its trap frame and nothing else;
      [vma_swap] loads the tables.
    - Scheduling: the ring is a FIFO queue.  A
      timer interrupt changes to the first process queued, on its own tables,
      and resumes a process that is alone; any number of processes take their turns
      in the order of the queue, whatever user code does between two interrupts.
    - User memory: [kernel_read_user] refuses ranges that are not of user
      addresses and copies the others through the current tables.
    - Traps: what is made of each value of scause, cause by cause; the privilege is
      user mode for one cause only; hence faults of user code end in a panic; the string output and
      the answers of asynchronous system calls are lost.
    - Entry and exit: a timer interrupt changes no register of a process that is
      alone, and a process that is preempted resumes with all it had when its
      turn comes; a trap before the kernel is ready is reported with its own
      cause.  The init program writes whole lines, and nothing else, on the serial
      port, wherever timer interrupts fall, and makes a line in every 18 of its
      instructions.  A seek of a process goes through the whole kernel and back
      with no change but the position, and without an answer.
    - Files, inside the pages they have: reads and writes copy the right bytes,
      advance the position and, for the size, count a write twice; what is written
      is read back.  The size so counted leads past the pages, and there a read or a
      write is a panic.  The system
      calls move the bytes between the memory the process sees and the file, with
      the exact loss of a read that meets the end of the file.  A process that
      writes, seeks and reads, three [ecall]s with all the kernel does in between,
      finds in its second buffer what was in the first.
    - Start-up: the tables the first instructions make, what setting up the
      interrupts needs of them, the search for the registers of the serial device,
      and that its driver is the console the rest of the library assumes.
    - Text: strings, decimal and hexadecimal output, byte order, ELF headers,
      and the report of a panic, byte for byte, with the stop after it.

    Theorems that show the code doing other than it means to say so in their
    comment.

    ** Bounds of the theorems

    Pools have at most 2 GiB, so that page offsets fit the [s32] the code
    computes them in, and their bitmaps end before their first pages; the scheduler's ring is the page of 512 entries
    [schedular_init] makes; files read and written have at most 15 pages, those
    of the first radix tree, and the range is inside them; a descriptor is named, as
    the code looks it up, by the number before its entry; paths have a second 0
    after the first; the hart number in [trap_data], which nothing sets, is a
    parameter ([stale]), and where a process is changed it is supposed to be the
    hart the process ran on last; [vma_map_user] is treated for ranges inside one
    2 MiB region, of which the kernel maps single pages.  The invariants hold on
    the demonstration states at the end of the files, where every theorem with
    hypotheses is applied.

    ** Not modelled

    - Of the hardware, what the assembly does not touch: floating-point
      registers (the code saves none), the stack and left-over registers of
      compiled C, which are a parameter where assembly calls C.  [la] is one
      instruction.  The jump of [arch_boot.S] from low to high addresses is no
      step of its own: the tables map both alike.
    - Devices: they are a parameter, of which the theorems on the serial driver
      assume what they say.  Fences are recorded; the TLB is not modelled, a walk
      reads the tables in memory.
    - More than one hart at once: each C function runs to its end, and an
      interrupt comes between two of them or between two instructions of a
      user program.
    - The firmware: the error code of its timer call is a function in the state.
    - The assembly of the user library ([userspace/libc]), which nothing starts;
      its [print] and the program that calls it are in InitProcess.  The files
      that are empty ([log.c], [blocks.c]).
    - Of [process] creation, directories, the device tree and system calls
      beyond those above, the code is modelled but few properties are stated. *)
From stdpp Require Export base list gmap numbers strings option.
From Stdlib Require Export ZArith Lia.
#[export] Set Default Goal Selector "!".
#[export] Set Warnings "-clear-no-such-hyp".
Global Open Scope Z_scope.

(** ** Automation *)

Create HintDb kernel.
Create Rewrite HintDb kz.

(** [dlia] is [lia] on goals with division and remainder. *)
Ltac dlia := Z.to_euclidean_division_equations; lia.

(** Closed comparisons and disjunctions of them, by computation. *)
Ltac zdone :=
  lazymatch goal with
  | |- _ /\ _ => split; zdone
  | |- _ \/ _ => first [ (left; zdone) | (right; zdone) ]
  | |- _ => vm_compute; first [ reflexivity | discriminate | (intros; discriminate) ]
  end.

(** Case analysis on every boolean comparison of the goal. *)
Ltac bool_cases :=
  repeat match goal with
  | |- context [Z.eqb ?a ?b] => destruct (Z.eqb_spec a b)
  | |- context [Z.ltb ?a ?b] => destruct (Z.ltb_spec a b)
  | |- context [Z.leb ?a ?b] => destruct (Z.leb_spec a b)
  end.

(** The index set of a C [for (i = lo; i < hi; i++)]. *)
Definition upto (lo hi : Z) : list Z := seqZ lo (hi - lo).

Lemma upto_nil lo hi : hi <= lo -> upto lo hi = [].
Proof. intros H. unfold upto. by rewrite seqZ_nil by lia. Qed.

Lemma upto_cons lo hi : lo < hi -> upto lo hi = lo :: upto (lo + 1) hi.
Proof.
  intros H. unfold upto. rewrite seqZ_cons by lia.
  f_equal. f_equal; lia.
Qed.

Lemma upto_split lo mid hi :
  lo <= mid <= hi -> upto lo hi = upto lo mid ++ upto mid hi.
Proof.
  intros H. unfold upto. replace (hi - lo) with ((mid - lo) + (hi - mid)) by lia.
  rewrite seqZ_app by lia. do 2 f_equal. lia.
Qed.

Lemma elem_of_upto lo hi x : x ∈ upto lo hi <-> lo <= x < hi.
Proof. unfold upto. rewrite elem_of_seqZ. lia. Qed.

(** A property of finitely many indices, one by one. *)
Lemma forall_upto (P : Z -> Prop) n l : upto 0 n = l -> Forall P l -> forall j, 0 <= j < n -> P j.
Proof.
  intros <- H j Hj. rewrite list.Forall_forall in H. apply H, elem_of_upto. lia.
Qed.

Lemma upto_shift k lo hi : upto (k + lo) (k + hi) = Z.add k <$> upto lo hi.
Proof. unfold upto. rewrite fmap_add_seqZ. f_equal. lia. Qed.

Lemma upto_snoc lo hi : lo <= hi -> upto lo (hi + 1) = upto lo hi ++ [hi].
Proof.
  intros H. rewrite (upto_split lo hi (hi + 1)) by lia.
  f_equal. rewrite upto_cons by lia. by rewrite upto_nil by lia.
Qed.

(** ** Machine integers *)

(** Unsigned values of [n] bits are kept as their [Z] in [0, 2^n); every
    operation that can leave the range wraps where the C operation does. *)
Definition wrap64 (z : Z) : Z := z mod 18446744073709551616.
Definition wrap32 (z : Z) : Z := z mod 4294967296.
Definition wrap16 (z : Z) : Z := z mod 65536.
Definition wrap8 (z : Z) : Z := z mod 256.

(** Reading an unsigned 64/32-bit value as signed. *)
Definition to_s64 (z : Z) : Z :=
  if wrap64 z <? 9223372036854775808 then wrap64 z
  else wrap64 z - 18446744073709551616.
Definition to_s32 (z : Z) : Z :=
  if wrap32 z <? 2147483648 then wrap32 z else wrap32 z - 4294967296.

Declare Scope u64_scope.
Delimit Scope u64_scope with u64.
Notation "x ⊕ y" := (wrap64 (x + y)) (at level 50, left associativity) : u64_scope.
Notation "x ⊖ y" := (wrap64 (x - y)) (at level 50, left associativity) : u64_scope.
Notation "x ⊗ y" := (wrap64 (x * y)) (at level 40, left associativity) : u64_scope.
Global Open Scope u64_scope.

Definition u64 (z : Z) : Prop := 0 <= z < 18446744073709551616.

Lemma wrap64_range z : 0 <= wrap64 z < 18446744073709551616.
Proof. apply Z.mod_pos_bound. lia. Qed.

Lemma wrap64_u64 z : u64 (wrap64 z).
Proof. apply wrap64_range. Qed.

Lemma wrap64_small z : 0 <= z < 18446744073709551616 -> wrap64 z = z.
Proof. apply Z.mod_small. Qed.

Lemma wrap64_idem z : wrap64 (wrap64 z) = wrap64 z.
Proof. apply wrap64_small, wrap64_range. Qed.

Lemma wrap64_add_l a b : wrap64 (wrap64 a + b) = wrap64 (a + b).
Proof. unfold wrap64. by rewrite Zplus_mod_idemp_l. Qed.

Lemma wrap64_add_r a b : wrap64 (a + wrap64 b) = wrap64 (a + b).
Proof. unfold wrap64. by rewrite Zplus_mod_idemp_r. Qed.

Lemma wrap32_range z : 0 <= wrap32 z < 4294967296.
Proof. apply Z.mod_pos_bound. lia. Qed.

Lemma wrap8_range z : 0 <= wrap8 z < 256.
Proof. apply Z.mod_pos_bound. lia. Qed.

Lemma wrap32_small z : 0 <= z < 4294967296 -> wrap32 z = z.
Proof. apply Z.mod_small. Qed.

Lemma wrap8_small z : 0 <= z < 256 -> wrap8 z = z.
Proof. apply Z.mod_small. Qed.

Lemma to_s64_small z : 0 <= z < 9223372036854775808 -> to_s64 z = z.
Proof.
  intros H. unfold to_s64. rewrite wrap64_small by lia.
  destruct (Z.ltb_spec z 9223372036854775808); lia.
Qed.

#[export] Hint Resolve wrap64_u64 wrap64_range : kernel.
#[export] Hint Rewrite wrap64_idem wrap64_add_l wrap64_add_r : kz.

(** ** The macros of [include/def.h] and [include/utils.h] *)

Definition U64_MAX : Z := 18446744073709551615.
Definition KERNEL_PAGE_SIZE : Z := 4096.
Definition BIT (bit_num : Z) : Z := wrap64 (Z.shiftl 1 bit_num).
Definition ROUND_MOD_DOWN (number rounder : Z) : Z := (number / rounder) ⊗ rounder.
Definition ROUND_MOD_UP (number rounder : Z) : Z :=
  ((number ⊕ (rounder - 1)) / rounder) ⊗ rounder.
Definition MIN (value_a value_b : Z) : Z := if value_a <? value_b then value_a else value_b.
Definition MAX (value_a value_b : Z) : Z := if value_b <? value_a then value_a else value_b.

(** [~x] on [u64]. *)
Definition not64 (x : Z) : Z := wrap64 (Z.lnot x).

Lemma ROUND_MOD_DOWN_aligned n r :
  0 < r -> u64 n -> (ROUND_MOD_DOWN n r = n <-> n mod r = 0).
Proof.
  intros Hr [? ?]. unfold ROUND_MOD_DOWN.
  assert (0 <= n / r) by (apply Z.div_pos; lia).
  pose proof (Z.mul_div_le n r Hr). pose proof (Z.div_mod n r ltac:(lia)).
  rewrite wrap64_small by nia. lia.
Qed.

(** ** Bits of a word *)

Lemma u64_high_bit x k : u64 x -> 64 <= k -> Z.testbit x k = false.
Proof.
  intros [H0 H1] Hk. destruct (Z.eq_dec x 0) as [->|Hne]; [apply Z.testbit_0_l|].
  apply Z.bits_above_log2; [lia|].
  apply Z.lt_le_trans with 64; [|lia]. apply Z.log2_lt_pow2; lia.
Qed.

Lemma u64_bits_le x : 0 <= x -> (forall k, 64 <= k -> Z.testbit x k = false) -> u64 x.
Proof.
  intros H0 H. split; [done|]. destruct (Z.eq_dec x 0) as [->|Hne]; [lia|].
  destruct (Z.lt_ge_cases x 18446744073709551616) as [|Hge]; [done|].
  assert (64 <= Z.log2 x) as Hl.
  { apply Z.log2_le_pow2; [lia|]. change (2 ^ 64) with 18446744073709551616. lia. }
  specialize (H (Z.log2 x) Hl). rewrite Z.bit_log2 in H by lia. done.
Qed.

Lemma u64_ext x y : u64 x -> u64 y ->
  (forall k, 0 <= k < 64 -> Z.testbit x k = Z.testbit y k) -> x = y.
Proof.
  intros Hx Hy H. apply Z.bits_inj'. intros k Hk.
  destruct (Z.lt_ge_cases k 64); [apply H; lia|].
  by rewrite !u64_high_bit by done.
Qed.

Lemma wrap64_testbit x k : 0 <= k < 64 -> Z.testbit (wrap64 x) k = Z.testbit x k.
Proof.
  intros H. unfold wrap64. change 18446744073709551616 with (2 ^ 64).
  apply Z.mod_pow2_bits_low. lia.
Qed.

Lemma BIT_pow2 b : 0 <= b < 64 -> BIT b = 2 ^ b.
Proof.
  intros H. unfold BIT. rewrite Z.shiftl_1_l. apply wrap64_small.
  split; [apply Z.pow_nonneg; lia|].
  change 18446744073709551616 with (2 ^ 64). apply Z.pow_lt_mono_r; lia.
Qed.

Lemma testbit_BIT b k : 0 <= b < 64 -> 0 <= k -> Z.testbit (BIT b) k = (k =? b).
Proof.
  intros Hb Hk. rewrite BIT_pow2 by done. rewrite Z.pow2_bits_eqb by lia.
  apply Z.eqb_sym.
Qed.

Lemma testbit_not64 x k : 0 <= k < 64 -> Z.testbit (not64 x) k = negb (Z.testbit x k).
Proof.
  intros H. unfold not64. rewrite wrap64_testbit by done. apply Z.lnot_spec. lia.
Qed.

Lemma u64_lor x y : u64 x -> u64 y -> u64 (Z.lor x y).
Proof.
  intros Hx Hy. apply u64_bits_le; [apply Z.lor_nonneg; unfold u64 in *; lia|].
  intros k Hk. rewrite Z.lor_spec. by rewrite !u64_high_bit by done.
Qed.

Lemma u64_land x y : u64 x -> 0 <= y -> u64 (Z.land x y).
Proof.
  intros Hx Hy. apply u64_bits_le; [apply Z.land_nonneg; unfold u64 in *; lia|].
  intros k Hk. rewrite Z.land_spec. by rewrite (u64_high_bit x) by done.
Qed.

Lemma BIT_u64 b : u64 (BIT b).
Proof. apply wrap64_u64. Qed.

Lemma not64_u64 x : u64 (not64 x).
Proof. apply wrap64_u64. Qed.

#[export] Hint Resolve u64_lor u64_land BIT_u64 not64_u64 : kernel.

(** [w |= BIT(b)], [w &= ~BIT(b)] and the test of a bit. *)
Definition set_bit (w b : Z) : Z := Z.lor w (BIT b).
Definition clear_bit (w b : Z) : Z := Z.land w (not64 (BIT b)).

Lemma testbit_set_bit w b k :
  0 <= b < 64 -> 0 <= k -> Z.testbit (set_bit w b) k = Z.testbit w k || (k =? b).
Proof. intros. unfold set_bit. by rewrite Z.lor_spec, testbit_BIT. Qed.

Lemma testbit_clear_bit w b k :
  0 <= b < 64 -> 0 <= k < 64 ->
  Z.testbit (clear_bit w b) k = Z.testbit w k && negb (k =? b).
Proof.
  intros. unfold clear_bit. rewrite Z.land_spec, testbit_not64 by lia.
  by rewrite testbit_BIT by lia.
Qed.

Lemma set_bit_u64 w b : u64 w -> u64 (set_bit w b).
Proof. intros. apply u64_lor; auto with kernel. Qed.

Lemma clear_bit_u64 w b : u64 w -> u64 (clear_bit w b).
Proof. intros. apply u64_land; [done|]. apply wrap64_range. Qed.

#[export] Hint Resolve set_bit_u64 clear_bit_u64 : kernel.

Lemma clear_set_bit w b :
  u64 w -> 0 <= b < 64 -> Z.testbit w b = false -> clear_bit (set_bit w b) b = w.
Proof.
  intros Hw Hb Hf. apply u64_ext; auto with kernel. intros k Hk.
  rewrite testbit_clear_bit, testbit_set_bit by lia.
  destruct (Z.eqb_spec k b) as [->|]; [by rewrite Hf|].
  by rewrite orb_false_r, andb_true_r.
Qed.

Lemma land_BIT_zero w b : 0 <= b < 64 -> Z.land w (BIT b) = 0 <-> Z.testbit w b = false.
Proof.
  intros Hb. split; intros H.
  - apply (f_equal (fun z => Z.testbit z b)) in H.
    rewrite Z.land_spec, testbit_BIT, Z.eqb_refl, Z.testbit_0_l in H by lia.
    by rewrite andb_true_r in H.
  - apply Z.bits_inj'. intros k Hk. rewrite Z.land_spec, testbit_BIT, Z.testbit_0_l by lia.
    destruct (Z.eqb_spec k b) as [->|]; [by rewrite H|by rewrite andb_false_r].
Qed.

Lemma all_ones_bits w : u64 w -> (forall k, 0 <= k < 64 -> Z.testbit w k = true) -> w = U64_MAX.
Proof.
  intros Hw H. apply u64_ext; [done|unfold u64, U64_MAX; lia|].
  intros k Hk. rewrite H by done. unfold U64_MAX.
  change 18446744073709551615 with (Z.ones 64). by rewrite Z.ones_spec_low by lia.
Qed.

Lemma testbit_U64_MAX k : 0 <= k < 64 -> Z.testbit U64_MAX k = true.
Proof.
  intros Hk. change U64_MAX with (Z.ones 64). by rewrite Z.ones_spec_low by lia.
Qed.

(** *** The builtins [__builtin_ctzl] and [__builtin_clzl], whose result is
    unspecified at 0; the callers of the code test for it first. *)

Fixpoint ctz_from (fuel : nat) (i x : Z) : Z :=
  match fuel with
  | O => i
  | S f => if Z.testbit x i then i else ctz_from f (i + 1) x
  end.
Definition ctz64 (x : Z) : Z := ctz_from 64 0 x.
Definition clz64 (x : Z) : Z := 63 - Z.log2 x.

Lemma ctz_from_spec fuel i x k :
  i <= k < i + Z.of_nat fuel -> Z.testbit x k = true ->
  (forall j, i <= j < k -> Z.testbit x j = false) -> ctz_from fuel i x = k.
Proof.
  revert i. induction fuel as [|f IH]; intros i Hk Hb Hlow; [lia|].
  cbn [ctz_from]. destruct (Z.eq_dec i k) as [->|Hne]; [by rewrite Hb|].
  rewrite Hlow by lia. apply IH; [lia|done|]. intros j Hj. apply Hlow. lia.
Qed.

(** [ctz64] is the least set bit. *)
Lemma ctz64_least x k :
  0 <= k < 64 -> Z.testbit x k = true -> (forall j, 0 <= j < k -> Z.testbit x j = false) ->
  ctz64 x = k.
Proof. intros. apply ctz_from_spec; [lia|done..]. Qed.

(** The least index with a boolean property, if there is one. *)
Lemma least_index (P : Z -> bool) (n : nat) :
  (exists k, 0 <= k < Z.of_nat n /\ P k = true /\ forall j, 0 <= j < k -> P j = false) \/
  (forall k, 0 <= k < Z.of_nat n -> P k = false).
Proof.
  induction n as [|n [(k & Hk & HP & Hl)|IH]]; [right; lia| |].
  - left. exists k. split; [lia|done].
  - destruct (P (Z.of_nat n)) eqn:E.
    + left. exists (Z.of_nat n). split; [lia|]. split; [done|]. intros j Hj. apply IH. lia.
    + right. intros k Hk. destruct (Z.eq_dec k (Z.of_nat n)) as [->|]; [done|]. apply IH. lia.
Qed.

Lemma clz64_bounds x k : 2 ^ k <= x < 2 ^ (k + 1) -> 0 <= k -> 63 - clz64 x = k.
Proof.
  intros H Hk. unfold clz64. rewrite (Z.log2_unique x k); [lia|lia|].
  replace (Z.succ k) with (k + 1) by lia. done.
Qed.
