(* ===== verification/Machine.v ===== *)
(** * The machine the kernel runs on

    The state shared by all parts of the kernel (memory, control registers,
    the C globals of every translation unit), the monad in which the C
    functions are modelled, and the rules to reason about it. *)
From S2P Require Import Prelude.

(** ** Constants of [include/layout.h] *)

Definition KERNEL_VMA_START : Z := 0xffffffc000000000.
Definition TRAPFRAME_ADDRESS : Z := 0xFFFFFFFFFFFFE000.
Definition PROC_KERN_STACK_START : Z := 0xFFFFFFFFFFFFA000.
Definition PROC_KERN_STACK_SIZE : Z := 4096 * 4.
Definition PROC_KERN_STACK_TOP : Z := PROC_KERN_STACK_START + PROC_KERN_STACK_SIZE - 1.
Definition HART_KERN_STACK_START : Z := 0xFFFFFFFFFFFF4000.
Definition HART_KERN_STACK_SIZE : Z := 4096 * 4.
Definition KERN_MAPPING_BOTTOM : Z := 0xFFFFFFFFFFFF3000.

(** ** C globals, one record per translation unit *)

Record pager_globals := mkPager {
  pager_bitmap_list : Z;      (* volatile s64 * *)
  last_free_bitmap : Z;       (* s32 *)
  last_free_page_num : Z;     (* s32 *)
}.

Record allocator_globals := mkAllocator {
  bump_page : Z;                  (* bump_allocator_state.page *)
  bump_cnt : Z;                   (* bump_allocator_state.cnt *)
  root_idx_page : list Z;         (* u64 [256] *)
  lowest_free_entry : list Z;     (* u64 [256] *)
}.

Record scheduler_globals := mkScheduler {
  process_queue : Z;          (* volatile u64 *, one page *)
  process_queue_size : Z;
  process_queue_count : Z;
  process_queue_start : Z;
  hart_idle_process : Z;      (* process ** *)
}.

Record vma_globals := mkVma {
  max_asid : Z;
  current_highest_asid : Z;
}.

Record device_globals := mkDevices {
  dtb : Z;                    (* u8 *, arch_device_tree/dtb.c *)
  root_device_node : Z;       (* device_info * *)
  kernel_device_end : Z;      (* u8 * *)
  root_entry : Z;             (* driver_boot_stage_entry * *)
}.

(** Addresses and contents the linker fixes. *)
Record linker_symbols := mkSymbols {
  sym_kernel_start_byte : Z;  (* the byte at _kernel_start *)
  sym_kernel_start : Z;
  sym_kernel_end : Z;
  sym_idle_process : Z;       (* &_kernel_idle_process *)
  sym_init_process : Z;       (* &_kernel_init_process *)
  sym_process_state : Z;      (* &state of process.c *)
  sym_num_hash : Z;           (* the functions hashmap_create points to *)
  sym_num_equal : Z;
  sym_word_hash : Z;
  sym_word_equal : Z;
  sym_trap_entry : Z;         (* &trap_entry *)
}.

(** Where the compiler puts the locals whose address is passed on; the functions
    that have them are not recursive. *)
Record stack_locals := mkLocals {
  loc_new_process : Z;        (* process new_process, new_blank_process *)
  loc_item : Z;               (* u64 item, insert_child *)
  loc_filename : Z;           (* char filename[257], dentry_get_path *)
  loc_path : Z;               (* char path[257], syscall_fs_open *)
  loc_read_data : Z;          (* u8 read_data[0x40], the ELF parser *)
  loc_hmap : Z;               (* hashmap hmap, test_hashmap *)
}.

(** String constants whose address the code passes on. *)
Record string_literals := mkLiterals {
  lit_dot : Z;                (* "." *)
  lit_dotdot : Z;             (* ".." *)
  lit_empty : Z;              (* the empty string *)
  lit_example_name : Z;       (* "example.txt" *)
  lit_example_text : Z;       (* the text of init_dentry *)
  lit_address_cells : Z;      (* "#address-cells" *)
  lit_size_cells : Z;         (* "#size-cells" *)
  lit_memory : Z;             (* "memory" *)
  lit_reg : Z;                (* "reg" *)
  lit_reserved_memory : Z;    (* "reserved-memory" *)
}.

(** The firmware under the kernel: the error code of its timer call. *)
Record firmware := mkFirmware {
  sbi_set_timer : Z -> Z;
}.

(** What a device sees: the value a read gave, or a write.  Bytes and words
    are told apart by the address. *)
Inductive io_event := IoRead (a v : Z) | IoWrite (a v : Z).

(** [sfence.vma rs1, rs2]: [None] is register x0, all addresses or all ids. *)
Inductive tlb_fence := Sfence (va asid : option Z).

(** Devices and the control registers of traps.  What a read of a device gives
    is determined by the events it has seen so far. *)
Record io_globals := mkIO {
  uart_reg_size : Z;                       (* u64, uart_16550.c *)
  io_log : list io_event;                  (* oldest first *)
  io_device : list io_event -> Z -> Z;
  sie : Z;
  stvec : Z;
  fences : list tlb_fence;                 (* oldest first *)
}.

(** ** The state *)

Record kstate := mkState {
  mem : gmap Z Z;             (* 64-bit words, by the address of their first byte *)
  irq_on : bool;              (* sstatus.SIE *)
  sum_on : bool;              (* sstatus.SUM *)
  satp : Z;
  tx : list Z;                (* bytes handed to the UART, oldest first *)
  clock : Z;                  (* the time CSR *)
  timers : list Z;            (* deadlines given to the SBI timer *)
  endian_type : Z;
  pager : pager_globals;
  allocator : allocator_globals;
  scheduler : scheduler_globals;
  vma : vma_globals;
  devices : device_globals;
  hart_stacks_list : Z;
  root_dentry_folder : Z;
  symbols : linker_symbols;
  locals : stack_locals;
  literals : string_literals;
  sbi : firmware;
  io : io_globals;
}.

Definition set_mem (v : gmap Z Z) (s : kstate) : kstate :=
  mkState v (irq_on s) (sum_on s) (satp s) (tx s) (clock s) (timers s) (endian_type s) (pager s)
    (allocator s) (scheduler s) (vma s) (devices s) (hart_stacks_list s) (root_dentry_folder s) (symbols s) (locals s) (literals s) (sbi s) (io s).
Definition set_irq (v : bool) (s : kstate) : kstate :=
  mkState (mem s) v (sum_on s) (satp s) (tx s) (clock s) (timers s) (endian_type s) (pager s)
    (allocator s) (scheduler s) (vma s) (devices s) (hart_stacks_list s) (root_dentry_folder s) (symbols s) (locals s) (literals s) (sbi s) (io s).
Definition set_sum (v : bool) (s : kstate) : kstate :=
  mkState (mem s) (irq_on s) v (satp s) (tx s) (clock s) (timers s) (endian_type s) (pager s)
    (allocator s) (scheduler s) (vma s) (devices s) (hart_stacks_list s) (root_dentry_folder s) (symbols s) (locals s) (literals s) (sbi s) (io s).
Definition set_satp (v : Z) (s : kstate) : kstate :=
  mkState (mem s) (irq_on s) (sum_on s) v (tx s) (clock s) (timers s) (endian_type s) (pager s)
    (allocator s) (scheduler s) (vma s) (devices s) (hart_stacks_list s) (root_dentry_folder s) (symbols s) (locals s) (literals s) (sbi s) (io s).
Definition set_tx (v : list Z) (s : kstate) : kstate :=
  mkState (mem s) (irq_on s) (sum_on s) (satp s) v (clock s) (timers s) (endian_type s) (pager s)
    (allocator s) (scheduler s) (vma s) (devices s) (hart_stacks_list s) (root_dentry_folder s) (symbols s) (locals s) (literals s) (sbi s) (io s).
Definition set_timers (v : list Z) (s : kstate) : kstate :=
  mkState (mem s) (irq_on s) (sum_on s) (satp s) (tx s) (clock s) v (endian_type s) (pager s)
    (allocator s) (scheduler s) (vma s) (devices s) (hart_stacks_list s) (root_dentry_folder s) (symbols s) (locals s) (literals s) (sbi s) (io s).
Definition set_endian (v : Z) (s : kstate) : kstate :=
  mkState (mem s) (irq_on s) (sum_on s) (satp s) (tx s) (clock s) (timers s) v (pager s)
    (allocator s) (scheduler s) (vma s) (devices s) (hart_stacks_list s) (root_dentry_folder s) (symbols s) (locals s) (literals s) (sbi s) (io s).
Definition set_pager (v : pager_globals) (s : kstate) : kstate :=
  mkState (mem s) (irq_on s) (sum_on s) (satp s) (tx s) (clock s) (timers s) (endian_type s) v
    (allocator s) (scheduler s) (vma s) (devices s) (hart_stacks_list s) (root_dentry_folder s) (symbols s) (locals s) (literals s) (sbi s) (io s).
Definition set_allocator (v : allocator_globals) (s : kstate) : kstate :=
  mkState (mem s) (irq_on s) (sum_on s) (satp s) (tx s) (clock s) (timers s) (endian_type s) (pager s)
    v (scheduler s) (vma s) (devices s) (hart_stacks_list s) (root_dentry_folder s) (symbols s) (locals s) (literals s) (sbi s) (io s).
Definition set_scheduler (v : scheduler_globals) (s : kstate) : kstate :=
  mkState (mem s) (irq_on s) (sum_on s) (satp s) (tx s) (clock s) (timers s) (endian_type s) (pager s)
    (allocator s) v (vma s) (devices s) (hart_stacks_list s) (root_dentry_folder s) (symbols s) (locals s) (literals s) (sbi s) (io s).
Definition set_vma (v : vma_globals) (s : kstate) : kstate :=
  mkState (mem s) (irq_on s) (sum_on s) (satp s) (tx s) (clock s) (timers s) (endian_type s) (pager s)
    (allocator s) (scheduler s) v (devices s) (hart_stacks_list s) (root_dentry_folder s) (symbols s) (locals s) (literals s) (sbi s) (io s).
Definition set_devices (v : device_globals) (s : kstate) : kstate :=
  mkState (mem s) (irq_on s) (sum_on s) (satp s) (tx s) (clock s) (timers s) (endian_type s) (pager s)
    (allocator s) (scheduler s) (vma s) v (hart_stacks_list s) (root_dentry_folder s) (symbols s) (locals s) (literals s) (sbi s) (io s).
Definition set_hart_stacks (v : Z) (s : kstate) : kstate :=
  mkState (mem s) (irq_on s) (sum_on s) (satp s) (tx s) (clock s) (timers s) (endian_type s) (pager s)
    (allocator s) (scheduler s) (vma s) (devices s) v (root_dentry_folder s) (symbols s) (locals s) (literals s) (sbi s) (io s).
Definition set_root_dentry (v : Z) (s : kstate) : kstate :=
  mkState (mem s) (irq_on s) (sum_on s) (satp s) (tx s) (clock s) (timers s) (endian_type s) (pager s)
    (allocator s) (scheduler s) (vma s) (devices s) (hart_stacks_list s) v (symbols s) (locals s) (literals s) (sbi s) (io s).

Definition set_io (v : io_globals) (s : kstate) : kstate :=
  mkState (mem s) (irq_on s) (sum_on s) (satp s) (tx s) (clock s) (timers s) (endian_type s) (pager s)
    (allocator s) (scheduler s) (vma s) (devices s) (hart_stacks_list s) (root_dentry_folder s) (symbols s) (locals s) (literals s) (sbi s) v.

Definition set_uart_reg_size (v : Z) (s : kstate) : kstate :=
  set_io (mkIO v (io_log (io s)) (io_device (io s)) (sie (io s)) (stvec (io s)) (fences (io s))) s.
Definition set_io_log (v : list io_event) (s : kstate) : kstate :=
  set_io (mkIO (uart_reg_size (io s)) v (io_device (io s)) (sie (io s)) (stvec (io s)) (fences (io s))) s.
Definition set_sie (v : Z) (s : kstate) : kstate :=
  set_io (mkIO (uart_reg_size (io s)) (io_log (io s)) (io_device (io s)) v (stvec (io s)) (fences (io s))) s.
Definition set_stvec (v : Z) (s : kstate) : kstate :=
  set_io (mkIO (uart_reg_size (io s)) (io_log (io s)) (io_device (io s)) (sie (io s)) v (fences (io s))) s.
Definition set_fences (v : list tlb_fence) (s : kstate) : kstate :=
  set_io (mkIO (uart_reg_size (io s)) (io_log (io s)) (io_device (io s)) (sie (io s)) (stvec (io s)) v) s.

(** ** Outcomes and the monad *)

Inductive outcome (A : Type) : Type :=
| Ret (a : A) (s : kstate)
| Panic (msg : string) (v1 v2 v3 : Z)   (* PANIC: kernel_panic never returns *)
| Fault (addr : Z)                      (* an access outside the kernel mapping or misaligned *)
| Undef (what : string)                 (* undefined behaviour of C *)
| Halt                                  (* wfi, or an empty loop, forever *)
| Fuel.                                 (* the bound given to a loop is too small *)
Arguments Ret {A}.
Arguments Panic {A}.
Arguments Fault {A}.
Arguments Undef {A}.
Arguments Halt {A}.
Arguments Fuel {A}.

Definition M (A : Type) : Type := kstate -> outcome A.

#[export] Instance M_ret : MRet M := fun A a s => Ret a s.
#[export] Instance M_bind : MBind M := fun A B k c s =>
  match c s with
  | Ret a s' => k a s'
  | Panic m a b c => Panic m a b c
  | Fault a => Fault a
  | Undef w => Undef w
  | Halt => Halt
  | Fuel => Fuel
  end.

Definition gets {A} (f : kstate -> A) : M A := fun s => Ret (f s) s.
Definition modify (f : kstate -> kstate) : M unit := fun s => Ret tt (f s).
Definition PANIC {A} (msg : string) (v1 v2 v3 : Z) : M A := fun _ => Panic msg v1 v2 v3.
Definition undef {A} (what : string) : M A := fun _ => Undef what.
Definition halt {A} : M A := fun _ => Halt.
Definition out_of_fuel {A} : M A := fun _ => Fuel.
Definition skip : M unit := mret tt.
Definition when (b : bool) (c : M unit) : M unit := if b then c else skip.

(** ** Memory *)

(** The word at the 8-aligned address [a]; a word never written reads 0. *)
Definition rd (m : gmap Z Z) (a : Z) : Z := wrap64 (default 0 (m !! a)).
Definition wr (m : gmap Z Z) (a v : Z) : gmap Z Z := <[a := v]> m.

(** The upper half of sv39: the only part mapped for supervisor accesses of
    the kernel. *)
Definition kernel_mapped (a : Z) : bool :=
  (KERNEL_VMA_START <=? a) && (a <? 18446744073709551616).

(** [n]-byte naturally aligned accesses, [n] one of 1, 2, 4, 8. *)
Definition access_ok (n a : Z) : bool := kernel_mapped a && (a mod n =? 0).
Definition valid64 (a : Z) : Prop := access_ok 8 a = true.

Definition load64 (a : Z) : M Z := fun s =>
  if access_ok 8 a then Ret (rd (mem s) a) s else Fault a.
Definition store64 (a v : Z) : M unit := fun s =>
  if access_ok 8 a then Ret tt (set_mem (wr (mem s) a v) s) else Fault a.

(** The [n]-byte field at byte offset [a mod 8] of a word (little endian). *)
Definition get_field (n w o : Z) : Z := Z.shiftr w (8 * o) mod 2 ^ (8 * n).
Definition put_field (n w o v : Z) : Z :=
  Z.lor (Z.ldiff w (Z.shiftl (Z.ones (8 * n)) (8 * o)))
        (Z.shiftl (v mod 2 ^ (8 * n)) (8 * o)).
Definition word_of (a : Z) : Z := a - a mod 8.
Definition rd_field (n : Z) (m : gmap Z Z) (a : Z) : Z := get_field n (rd m (word_of a)) (a mod 8).
Definition wr_field (n : Z) (m : gmap Z Z) (a v : Z) : gmap Z Z :=
  wr m (word_of a) (put_field n (rd m (word_of a)) (a mod 8) v).

Definition load_field (n a : Z) : M Z := fun s =>
  if access_ok n a then Ret (rd_field n (mem s) a) s else Fault a.
Definition store_field (n a v : Z) : M unit := fun s =>
  if access_ok n a then Ret tt (set_mem (wr_field n (mem s) a v) s) else Fault a.

Abbreviation load8 := (load_field 1).
Abbreviation load16 := (load_field 2).
Abbreviation load32 := (load_field 4).
Abbreviation store8 := (store_field 1).
Abbreviation store16 := (store_field 2).
Abbreviation store32 := (store_field 4).

(** [base[i]] for a [u64 *base]. *)
Definition elem64 (base i : Z) : Z := base ⊕ 8 * i.

(** ** Devices and fences *)

Definition mmio_read (a : Z) : M Z := fun s =>
  let v := io_device (io s) (io_log (io s)) a in Ret v (set_io_log (io_log (io s) ++ [IoRead a v]) s).
Definition mmio_write (a v : Z) : M unit :=
  modify (fun s => set_io_log (io_log (io s) ++ [IoWrite a v]) s).

Definition sfence_vma (va asid : option Z) : M unit :=
  modify (fun s => set_fences (fences (io s) ++ [Sfence va asid]) s).

(** ** Loops *)

Fixpoint for_each {A} (l : list A) (body : A -> M unit) : M unit :=
  match l with
  | [] => mret tt
  | x :: l' => body x ;; for_each l' body
  end.

(** A loop left early with a value: [None] goes on. *)
Fixpoint for_find {A R} (l : list A) (body : A -> M (option R)) : M (option R) :=
  match l with
  | [] => mret None
  | x :: l' => r ← body x; match r with Some v => mret (Some v) | None => for_find l' body end
  end.

(** A loop with the local variables [acc]. *)
Fixpoint for_fold {A S} (l : list A) (body : S -> A -> M S) (acc : S) : M S :=
  match l with
  | [] => mret acc
  | x :: l' => acc' ← body acc x; for_fold l' body acc'
  end.

(** A loop with the local variables [acc] that [inr] leaves early. *)
Fixpoint for_until {A S R} (l : list A) (body : S -> A -> M (S + R)) (acc : S) : M (S + R) :=
  match l with
  | [] => mret (inl acc)
  | x :: l' =>
      r ← body acc x;
      match r with inl acc' => for_until l' body acc' | inr v => mret (inr v) end
  end.

(** [while (1)] with the local variables [st]: [inl] goes round again, [inr]
    leaves the loop.  [loop_pos p] makes at most [p] rounds; the recursion is
    on the binary digits of [p], so a large bound costs nothing. *)
Fixpoint loop_pos {S R} (p : positive) (body : S -> M (S + R)) (st : S) : M (S + R) :=
  let again (q : positive) (r : S + R) : M (S + R) :=
    match r with inl st' => loop_pos q body st' | inr v => mret (inr v) end in
  match p with
  | xH => body st
  | xO q => r ← loop_pos q body st; again q r
  | xI q => r ← body st; r' ← again q r; again q r'
  end.

(** No loop of the kernel makes 2^64 rounds. *)
Definition while_true {S R} (body : S -> M (S + R)) (st : S) : M R :=
  r ← loop_pos 18446744073709551616 body st;
  match r with inl _ => out_of_fuel | inr v => mret v end.

(** Conversion unfolds the loop last. *)
#[global] Strategy 1000 [loop_pos while_true].

Lemma for_each_ext {A} (l : list A) (f g : A -> M unit) s :
  (forall x, x ∈ l -> f x = g x) -> for_each l f s = for_each l g s.
Proof.
  intros H. assert (for_each l f = for_each l g) as ->; [|done].
  induction l as [|x l IH]; [done|]. cbn [for_each].
  rewrite H, IH; [done| |by left]. intros y Hy. apply H. by right.
Qed.

(** ** Total correctness *)

(** [wp c Q s]: from [s], [c] returns, with a value and a state in [Q]. *)
Definition wp {A} (c : M A) (Q : A -> kstate -> Prop) (s : kstate) : Prop :=
  match c s with Ret a s' => Q a s' | _ => False end.

Lemma wp_exact {A} (c : M A) a s' s :
  wp c (fun a' s'' => a' = a /\ s'' = s') s <-> c s = Ret a s'.
Proof. unfold wp. split; [|intros ->; done]. by destruct (c s); [intros [-> ->]|..]. Qed.

Lemma wp_Ret {A} (c : M A) a s' s (Q : A -> kstate -> Prop) :
  c s = Ret a s' -> Q a s' -> wp c Q s.
Proof. unfold wp. by intros ->. Qed.

Lemma wp_inv {A} (c : M A) (Q : A -> kstate -> Prop) s :
  wp c Q s -> exists a s', c s = Ret a s' /\ Q a s'.
Proof. unfold wp. destruct (c s); [eauto|done..]. Qed.

Lemma wp_mono {A} (c : M A) (Q Q' : A -> kstate -> Prop) s :
  wp c Q s -> (forall a s', Q a s' -> Q' a s') -> wp c Q' s.
Proof. unfold wp. destruct (c s); eauto. Qed.

Lemma wp_ret {A} (a : A) (Q : A -> kstate -> Prop) s : Q a s -> wp (mret a) Q s.
Proof. done. Qed.

Lemma wp_bind {A B} (c : M A) (k : A -> M B) (Q : B -> kstate -> Prop) s :
  wp c (fun a s' => wp (k a) Q s') s -> wp (c ≫= k) Q s.
Proof. unfold wp, mbind, M_bind. destruct (c s); done. Qed.

Lemma wp_bind_inv {A B} (c : M A) (k : A -> M B) (Q : B -> kstate -> Prop) s :
  wp (c ≫= k) Q s -> wp c (fun a s' => wp (k a) Q s') s.
Proof. unfold wp, mbind, M_bind. destruct (c s); done. Qed.

Lemma bind_Ret {A B} (c : M A) (k : A -> M B) a s s' :
  c s = Ret a s' -> (c ≫= k) s = k a s'.
Proof. unfold mbind, M_bind. by intros ->. Qed.

Lemma bind_Panic {A B} (c : M A) (k : A -> M B) m v1 v2 v3 s :
  c s = Panic m v1 v2 v3 -> (c ≫= k) s = Panic m v1 v2 v3.
Proof. unfold mbind, M_bind. by intros ->. Qed.

Lemma bind_assoc {A B C} (c : M A) (k : A -> M B) (h : B -> M C) s :
  ((c ≫= k) ≫= h) s = (c ≫= (fun a => k a ≫= h)) s.
Proof. unfold mbind, M_bind. by destruct (c s). Qed.

Lemma wp_gets {A} (f : kstate -> A) (Q : A -> kstate -> Prop) s : Q (f s) s -> wp (gets f) Q s.
Proof. done. Qed.

Lemma wp_modify f (Q : unit -> kstate -> Prop) s : Q tt (f s) -> wp (modify f) Q s.
Proof. done. Qed.

Lemma wp_when (b : bool) c (Q : unit -> kstate -> Prop) s :
  (b = true -> wp c Q s) -> (b = false -> Q tt s) -> wp (when b c) Q s.
Proof. unfold when. destruct b; intros H1 H2; [by apply H1|]. apply wp_ret. by apply H2. Qed.

Lemma load64_eq a s : valid64 a -> load64 a s = Ret (rd (mem s) a) s.
Proof. unfold load64, valid64. by intros ->. Qed.

Lemma store64_eq a v s : valid64 a -> store64 a v s = Ret tt (set_mem (wr (mem s) a v) s).
Proof. unfold store64, valid64. by intros ->. Qed.

Lemma wp_load64 a (Q : Z -> kstate -> Prop) s :
  valid64 a -> Q (rd (mem s) a) s -> wp (load64 a) Q s.
Proof. intros H HQ. by eapply wp_Ret; [apply load64_eq|]. Qed.

Lemma wp_store64 a v (Q : unit -> kstate -> Prop) s :
  valid64 a -> Q tt (set_mem (wr (mem s) a v) s) -> wp (store64 a v) Q s.
Proof. intros H HQ. by eapply wp_Ret; [apply store64_eq|]. Qed.

Lemma wp_load_field n a (Q : Z -> kstate -> Prop) s :
  access_ok n a = true -> Q (rd_field n (mem s) a) s -> wp (load_field n a) Q s.
Proof. intros H HQ. unfold wp, load_field. by rewrite H. Qed.

Lemma wp_store_field n a v (Q : unit -> kstate -> Prop) s :
  access_ok n a = true -> Q tt (set_mem (wr_field n (mem s) a v) s) ->
  wp (store_field n a v) Q s.
Proof. intros H HQ. unfold wp, store_field. by rewrite H. Qed.

(** *** Loop rules *)

Lemma wp_for_each (I : Z -> kstate -> Prop) lo hi body (Q : unit -> kstate -> Prop) s :
  lo <= hi -> I lo s ->
  (forall i s', lo <= i < hi -> I i s' -> wp (body i) (fun _ s'' => I (i + 1) s'') s') ->
  (forall s', I hi s' -> Q tt s') ->
  wp (for_each (upto lo hi) body) Q s.
Proof.
  intros Hle HI Hb HQ. revert s HI.
  remember (Z.to_nat (hi - lo)) as n eqn:En.
  revert lo Hle En Hb.
  induction n as [|n IH]; intros lo Hle En Hb s HI.
  - rewrite upto_nil by lia. apply wp_ret, HQ. by replace hi with lo by lia.
  - rewrite upto_cons by lia. cbn [for_each]. apply wp_bind.
    eapply wp_mono; [apply Hb; [lia|done]|]. intros [] s' HI'.
    apply IH; [lia|lia|intros; apply Hb; [lia|done]|done].
Qed.

Lemma wp_for_fold {St} (I : Z -> St -> kstate -> Prop) lo hi body acc (Q : St -> kstate -> Prop) s :
  lo <= hi -> I lo acc s ->
  (forall i a s', lo <= i < hi -> I i a s' -> wp (body a i) (fun a' s'' => I (i + 1) a' s'') s') ->
  (forall a s', I hi a s' -> Q a s') ->
  wp (for_fold (upto lo hi) body acc) Q s.
Proof.
  intros Hle HI Hb HQ. revert s acc HI.
  remember (Z.to_nat (hi - lo)) as n eqn:En.
  revert lo Hle En Hb.
  induction n as [|n IH]; intros lo Hle En Hb s acc HI.
  - rewrite upto_nil by lia. apply wp_ret, HQ. by replace hi with lo by lia.
  - rewrite upto_cons by lia. cbn [for_fold]. apply wp_bind.
    eapply wp_mono; [apply Hb; [lia|done]|]. intros a' s' HI'.
    apply IH; [lia|lia|intros; apply Hb; [lia|done]|done].
Qed.

(** A search that meets its first hit at [k] and changes nothing before. *)
Lemma for_find_hit {R} lo hi k (body : Z -> M (option R)) s :
  lo <= k < hi -> (forall i, lo <= i < k -> body i s = Ret None s) ->
  for_find (upto lo hi) body s =
    (r ← body k; match r with Some v => mret (Some v) | None => for_find (upto (k + 1) hi) body end) s.
Proof.
  intros Hk Hno. remember (Z.to_nat (k - lo)) as n eqn:En.
  revert lo Hk Hno En.
  induction n as [|n IH]; intros lo Hk Hno En.
  - assert (lo = k) as -> by lia. by rewrite upto_cons by lia.
  - rewrite upto_cons by lia. cbn [for_find]. rewrite (bind_Ret _ _ None s s) by (apply Hno; lia).
    apply IH; [lia|intros; apply Hno; lia|lia].
Qed.

(** A loop whose accumulator runs through [f] until its exit at [k]. *)
Lemma for_until_hit {St R} (f : Z -> St) lo hi k (body : St -> Z -> M (St + R)) v s s' :
  lo <= k < hi -> (forall i, lo <= i < k -> body (f i) i s = Ret (inl (f (i + 1))) s) ->
  body (f k) k s = Ret (inr v) s' ->
  for_until (upto lo hi) body (f lo) s = Ret (inr v) s'.
Proof.
  intros Hk Hgo Hhit. remember (Z.to_nat (k - lo)) as n eqn:En. revert lo Hk Hgo En.
  induction n as [|n IH]; intros lo Hk Hgo En; rewrite upto_cons by lia; cbn [for_until].
  - assert (lo = k) as -> by lia. by rewrite (bind_Ret _ _ _ _ _ Hhit).
  - rewrite (bind_Ret _ _ _ _ _ (Hgo lo ltac:(lia))). apply IH; [lia|intros; apply Hgo; lia|lia].
Qed.

Lemma for_find_none {A R} (l : list A) (body : A -> M (option R)) s :
  (forall i, i ∈ l -> body i s = Ret None s) -> for_find l body s = Ret None s.
Proof.
  induction l as [|x l IH]; intros H; [done|]. cbn [for_find].
  rewrite (bind_Ret _ _ None s s) by (apply H; set_solver). apply IH. set_solver.
Qed.

(** A [while] loop that ends, with a value or in a panic, in its first or its
    second round. *)
Section WhileEnds.
Context {St R : Type} (body : St -> M (St + R)).

Definition ends (o : outcome (St + R)) : Prop :=
  match o with Ret (inl _) _ => False | _ => True end.

Lemma ends_bind (o : outcome (St + R)) (c : M (St + R)) (k : St -> M (St + R)) s :
  c s = o -> ends o -> (c ≫= fun r => match r with inl st => k st | inr v => mret (inr v) end) s = o.
Proof. unfold mbind, M_bind. intros -> He. by destruct o as [[st|v] s'|? ? ? ?|?|?| |]. Qed.

Lemma loop_pos_ends p st s : ends (body st s) -> loop_pos p body st s = body st s.
Proof.
  intros He. induction p as [p IH|p IH|]; cbn [loop_pos]; [|by apply ends_bind|done].
  unfold mbind at 1, M_bind at 1. destruct (body st s) as [[st'|v] s'|? ? ? ?|?|?| |]; done.
Qed.

Lemma loop_pos_second p st s st1 s1 :
  p <> xH -> body st s = Ret (inl st1) s1 -> ends (body st1 s1) -> loop_pos p body st s = body st1 s1.
Proof.
  intros Hp H He. induction p as [p IH|p IH|]; [| |done]; cbn [loop_pos].
  - rewrite (bind_Ret _ _ _ _ _ H). apply ends_bind; [by apply loop_pos_ends|done].
  - destruct (decide (p = xH)) as [->|Hne].
    + cbn [loop_pos]. by rewrite (bind_Ret _ _ _ _ _ H).
    + apply ends_bind; [by apply IH|done].
Qed.

Lemma while_exit st v s s' : body st s = Ret (inr v) s' -> while_true body st s = Ret v s'.
Proof.
  intros H. unfold while_true. rewrite (bind_Ret _ _ (inr v) s s'); [done|].
  rewrite loop_pos_ends; by rewrite H.
Qed.

Lemma while_panic st s m v1 v2 v3 :
  body st s = Panic m v1 v2 v3 -> while_true body st s = Panic m v1 v2 v3.
Proof. intros H. apply bind_Panic. rewrite loop_pos_ends; by rewrite H. Qed.

Lemma while_second st s st1 s1 :
  body st s = Ret (inl st1) s1 -> ends (body st1 s1) -> while_true body st s = while_true body st1 s1.
Proof.
  intros H He. unfold while_true, mbind, M_bind.
  by rewrite (loop_pos_second 18446744073709551616 _ _ _ _ ltac:(done) H He), (loop_pos_ends _ _ _ He).
Qed.
End WhileEnds.

(** A [while] loop whose invariant [I n] carries a bound [n] on the rounds
    left. *)
Section WpLoop.
Context {St R : Type} (I : Z -> St -> kstate -> Prop) (body : St -> M (St + R)) (Q : R -> kstate -> Prop).
Context (Hbound : forall n st s, I n st s -> 0 <= n).
Context (Hbody : forall n st s, I n st s -> wp (body st) (fun r s' =>
     match r with
     | inl st' => exists n', I n' st' s' /\ n' < n
     | inr v => Q v s'
     end) s).

Lemma wp_loop_pos p n st s :
  I n st s -> wp (loop_pos p body st) (fun r s' =>
     match r with
     | inl st' => exists n', I n' st' s' /\ n' + Z.pos p <= n
     | inr v => Q v s'
     end) s.
Proof.
  revert n st s. induction p as [p IH|p IH|]; intros n st s HI; cbn [loop_pos].
  - apply wp_bind. eapply wp_mono; [by apply Hbody|]. intros [st1|v] s1 H1; [|done].
    destruct H1 as (n1 & HI1 & Hn1). apply wp_bind. eapply wp_mono; [by apply IH|].
    intros [st2|v] s2 H2; [|done]. destruct H2 as (n2 & HI2 & Hn2). eapply wp_mono; [by apply IH|].
    intros [st3|v] s3 H3; [|done]. destruct H3 as (n3 & HI3 & Hn3). exists n3. split; [done|lia].
  - apply wp_bind. eapply wp_mono; [by apply IH|].
    intros [st2|v] s2 H2; [|done]. destruct H2 as (n2 & HI2 & Hn2). eapply wp_mono; [by apply IH|].
    intros [st3|v] s3 H3; [|done]. destruct H3 as (n3 & HI3 & Hn3). exists n3. split; [done|lia].
  - eapply wp_mono; [by apply Hbody|]. intros [st1|v] s1 H1; [|done].
    destruct H1 as (n1 & HI1 & Hn1). exists n1. split; [done|lia].
Qed.

Lemma wp_while_bounded n st s :
  I n st s -> n < 18446744073709551616 -> wp (while_true body st) Q s.
Proof.
  intros HI Hn. unfold while_true. apply wp_bind. eapply wp_mono; [by apply wp_loop_pos|].
  intros [st'|v] s' H; [|by apply wp_ret]. destruct H as (n' & HI' & Hn').
  specialize (Hbound _ _ _ HI'). lia.
Qed.
End WpLoop.

(** A [while] loop each round of which goes on, with a measure that falls, or ends in the panic
    [p1 .. p4]: it ends in that panic. *)
Section PanicLoop.
Context {St R : Type} (I : St -> kstate -> Prop) (measure : St -> kstate -> Z) (body : St -> M (St + R)).
Context (p1 : string) (p2 p3 p4 : Z).

Definition panics_or (n : Z) (o : outcome (St + R)) : Prop :=
  o = Panic p1 p2 p3 p4 \/ exists st s, o = Ret (inl st) s /\ I st s /\ measure st s <= n.

Context (Hpos : forall st s, I st s -> 0 <= measure st s).
Context (Hbody : forall st s, I st s -> panics_or (measure st s - 1) (body st s)).

Lemma panics_bind n (c : M (St + R)) (k : St + R -> M (St + R)) s m :
  panics_or m (c s) -> (forall st s', I st s' -> measure st s' <= m -> panics_or n (k (inl st) s')) -> panics_or n ((c ≫= k) s).
Proof.
  intros [E|(st & s' & E & HI & Hm)] Hk; [left; by apply bind_Panic|]. rewrite (bind_Ret _ _ _ _ _ E). by apply Hk.
Qed.

Lemma loop_pos_panics p st s : I st s -> panics_or (measure st s - Z.pos p) (loop_pos p body st s).
Proof.
  assert (forall o a b, panics_or a o -> a <= b -> panics_or b o) as Hle.
  { intros o a b [E|(st' & s' & E & HI & Hm)] Hab; [by left|right; exists st', s'; split_and!; [done|done|lia]]. }
  revert st s. induction p as [p IH|p IH|]; intros st s HI; cbn [loop_pos].
  - eapply panics_bind; [by apply Hbody|]. intros st1 s1 HI1 Hm1.
    eapply panics_bind; [by apply IH|]. intros st2 s2 HI2 Hm2. eapply Hle; [by apply IH|lia].
  - eapply panics_bind; [by apply IH|]. intros st2 s2 HI2 Hm2. eapply Hle; [by apply IH|lia].
  - eapply Hle; [by apply Hbody|lia].
Qed.

Lemma while_panics st s : I st s -> measure st s < 18446744073709551616 -> while_true body st s = Panic p1 p2 p3 p4.
Proof.
  intros HI Hm. destruct (loop_pos_panics 18446744073709551616 st s HI) as [E|(st' & s' & _ & HI' & Hm')].
  - unfold while_true. by apply bind_Panic.
  - specialize (Hpos _ _ HI'). lia.
Qed.
End PanicLoop.

(** The bound given by a measure of the locals. *)
Lemma wp_while {St R} (I : St -> kstate -> Prop) (measure : St -> kstate -> Z)
    (body : St -> M (St + R)) (Q : R -> kstate -> Prop) :
  (forall st s, I st s -> 0 <= measure st s) ->
  (forall st s, I st s -> wp (body st) (fun r s' =>
     match r with
     | inl st' => I st' s' /\ measure st' s' < measure st s
     | inr v => Q v s'
     end) s) ->
  forall st s, I st s -> measure st s < 18446744073709551616 -> wp (while_true body st) Q s.
Proof.
  intros Hpos Hb st s HI Hm.
  apply (wp_while_bounded (fun n st s => I st s /\ n = measure st s) body Q) with (n := measure st s);
    [|clear st s HI Hm|done|done].
  - intros n st' s' [HI' ->]. by apply Hpos.
  - intros n st s [HI ->]. eapply wp_mono; [by apply Hb|].
    intros [st'|v] s' H; [|done]. exists (measure st' s'). by destruct H.
Qed.

(** ** Facts about memory *)

Lemma rd_u64 m a : u64 (rd m a).
Proof. apply wrap64_u64. Qed.

Lemma rd_wr_eq m a v : rd (wr m a v) a = wrap64 v.
Proof. unfold rd, wr. by rewrite lookup_insert_eq. Qed.

Lemma rd_wr_ne m a b v : a <> b -> rd (wr m a v) b = rd m b.
Proof. intros H. unfold rd, wr. by rewrite lookup_insert_ne. Qed.

#[export] Hint Resolve rd_u64 : kernel.

(** [n] bytes from [a] on are kernel memory, and [a] is 8-aligned. *)
Definition kblock (a n : Z) : Prop :=
  KERNEL_VMA_START <= a /\ a + n <= 18446744073709551616 /\ a mod 8 = 0.

Lemma kblock_elem a n i :
  kblock a (8 * n) -> 0 <= i < n -> elem64 a i = a + 8 * i /\ valid64 (elem64 a i).
Proof.
  unfold kblock, KERNEL_VMA_START. intros (H1 & H2 & H3) Hi.
  assert (elem64 a i = a + 8 * i) as E by (unfold elem64; apply wrap64_small; lia).
  split; [done|]. rewrite E. unfold valid64, access_ok, kernel_mapped, KERNEL_VMA_START.
  apply andb_true_intro; split; [lia|]. apply Z.eqb_eq.
  rewrite (Z.mul_comm 8 i), Z_mod_plus_full. done.
Qed.

Lemma kblock_elem_eq a n i : kblock a (8 * n) -> 0 <= i < n -> elem64 a i = a + 8 * i.
Proof. intros. by eapply kblock_elem. Qed.

Lemma kblock_elem_valid a n i : kblock a (8 * n) -> 0 <= i < n -> valid64 (elem64 a i).
Proof. intros. by eapply kblock_elem. Qed.

Lemma kblock_word_valid a n i : kblock a (8 * n) -> 0 <= i < n -> valid64 (a + 8 * i).
Proof. intros H Hi. rewrite <- (kblock_elem_eq a n i) by done. by eapply kblock_elem_valid. Qed.

Lemma kblock_sub a n b k :
  kblock a n -> a <= b -> b + k <= a + n -> b mod 8 = 0 -> kblock b k.
Proof. unfold kblock. lia. Qed.

Fixpoint write_words (m : gmap Z Z) (a : Z) (vs : list Z) : gmap Z Z :=
  match vs with
  | [] => m
  | v :: vs' => write_words (wr m a v) (a + 8) vs'
  end.

Lemma write_words_snoc m a vs v :
  write_words m a (vs ++ [v]) = wr (write_words m a vs) (a + 8 * Z.of_nat (length vs)) v.
Proof.
  revert m a. induction vs as [|v' vs IH]; intros m a.
  - cbn. by rewrite Z.add_0_r.
  - cbn [write_words app length]. rewrite IH. f_equal. lia.
Qed.

Lemma rd_write_words_out m a vs b :
  (forall i, 0 <= i < Z.of_nat (length vs) -> b <> a + 8 * i) ->
  rd (write_words m a vs) b = rd m b.
Proof.
  revert m a. induction vs as [|v vs IH]; intros m a H; [done|].
  cbn [write_words length] in *. rewrite IH.
  - apply rd_wr_ne. specialize (H 0). lia.
  - intros i Hi. specialize (H (i + 1)). lia.
Qed.

Lemma rd_write_words_in m a vs i v :
  0 <= i -> vs !! Z.to_nat i = Some v -> rd (write_words m a vs) (a + 8 * i) = wrap64 v.
Proof.
  revert m a i. induction vs as [|v' vs IH]; intros m a i Hi Hl; [done|].
  cbn [write_words]. destruct (Z.eq_dec i 0) as [->|Hne].
  - injection Hl as ->. rewrite Z.mul_0_r, Z.add_0_r, rd_write_words_out by lia. apply rd_wr_eq.
  - replace (Z.to_nat i) with (S (Z.to_nat (i - 1))) in Hl by lia.
    replace (a + 8 * i) with (a + 8 + 8 * (i - 1)) by lia. apply IH; [lia|done].
Qed.

(** [n] zeroed words. *)
Definition zero_words (m : gmap Z Z) (a n : Z) : gmap Z Z :=
  write_words m a (replicate (Z.to_nat n) 0).

Lemma rd_zero_words_in m a n i : 0 <= i < n -> rd (zero_words m a n) (a + 8 * i) = 0.
Proof.
  intros H. unfold zero_words. rewrite (rd_write_words_in _ _ _ _ 0); [done|lia|].
  apply lookup_replicate_2. lia.
Qed.

Lemma rd_zero_words_out m a n b :
  b < a \/ a + 8 * n <= b -> 0 <= n -> rd (zero_words m a n) b = rd m b.
Proof.
  intros H Hn. apply rd_write_words_out. rewrite length_replicate. lia.
Qed.

Lemma length_upto lo hi : length (upto lo hi) = Z.to_nat (hi - lo).
Proof. unfold upto. by rewrite length_seqZ. Qed.

Lemma set_mem_id s : set_mem (mem s) s = s.
Proof. by destruct s. Qed.

(** [for (k = 0; k < n; k++) a[k] = f(k);] *)
Lemma for_each_store_words (f : Z -> Z) n a s :
  kblock a (8 * n) -> 0 <= n ->
  for_each (upto 0 n) (fun k => store64 (elem64 a k) (f k)) s =
    Ret tt (set_mem (write_words (mem s) a (f <$> upto 0 n)) s).
Proof.
  intros Hk Hn. apply wp_exact.
  apply (wp_for_each (fun i s' => s' = set_mem (write_words (mem s) a (f <$> upto 0 i)) s));
    [lia|symmetry; apply set_mem_id| |].
  - intros i s' Hi ->. apply wp_store64; [by eapply kblock_elem_valid|].
    rewrite upto_snoc, fmap_app by lia. cbn [fmap list_fmap].
    rewrite write_words_snoc, length_fmap, length_upto, (kblock_elem_eq a n) by (done || lia).
    rewrite Z.sub_0_r, Z2Nat.id by lia. done.
  - by intros s' ->.
Qed.

Lemma fmap_const_upto (c n : Z) : (fun _ => c) <$> upto 0 n = replicate (Z.to_nat n) c.
Proof.
  replace (Z.to_nat n) with (length (upto 0 n)) by (rewrite length_upto; f_equal; lia).
  generalize (upto 0 n). intros l. induction l; csimpl; congruence.
Qed.

Lemma for_each_zero n a s :
  kblock a (8 * n) -> 0 <= n ->
  for_each (upto 0 n) (fun k => store64 (elem64 a k) 0) s =
    Ret tt (set_mem (zero_words (mem s) a n) s).
Proof.
  intros Hk Hn. rewrite (for_each_store_words (fun _ => 0)) by done.
  by rewrite fmap_const_upto.
Qed.

(** *** Fields smaller than a word *)

Lemma get_field_testbit n w o k :
  0 <= n -> 0 <= o -> 0 <= k ->
  Z.testbit (get_field n w o) k = Z.testbit w (k + 8 * o) && (k <? 8 * n).
Proof.
  intros Hn Ho Hk. unfold get_field. destruct (Z.ltb_spec k (8 * n)).
  - rewrite Z.mod_pow2_bits_low, Z.shiftr_spec by lia. by rewrite andb_true_r.
  - rewrite Z.mod_pow2_bits_high by lia. by rewrite andb_false_r.
Qed.

Lemma put_field_testbit n w o v k :
  0 <= n -> 0 <= o -> 0 <= k ->
  Z.testbit (put_field n w o v) k =
    if (8 * o <=? k) && (k <? 8 * o + 8 * n) then Z.testbit v (k - 8 * o) else Z.testbit w k.
Proof.
  intros Hn Ho Hk. unfold put_field. rewrite Z.lor_spec, Z.ldiff_spec.
  destruct (Z.leb_spec (8 * o) k) as [H1|H1]; cbn [andb].
  - rewrite !Z.shiftl_spec by lia. destruct (Z.ltb_spec k (8 * o + 8 * n)) as [H2|H2].
    + rewrite Z.ones_spec_low, Z.mod_pow2_bits_low by lia. by rewrite andb_false_r.
    + rewrite Z.ones_spec_high, Z.mod_pow2_bits_high by lia.
      by rewrite andb_true_r, orb_false_r.
  - rewrite !Z.shiftl_spec_low by lia. by rewrite andb_true_r, orb_false_r.
Qed.

Lemma get_put_field n w o v :
  0 <= n -> 0 <= o -> get_field n (put_field n w o v) o = v mod 2 ^ (8 * n).
Proof.
  intros Hn Ho. apply Z.bits_inj'. intros k Hk.
  rewrite get_field_testbit, put_field_testbit by lia.
  destruct (Z.ltb_spec k (8 * n)).
  - rewrite Z.mod_pow2_bits_low by lia.
    replace ((8 * o <=? k + 8 * o) && (k + 8 * o <? 8 * o + 8 * n)) with true by lia.
    rewrite andb_true_r. f_equal. lia.
  - by rewrite Z.mod_pow2_bits_high, andb_false_r by lia.
Qed.

Lemma get_put_field_ne n1 n2 w o1 o2 v :
  0 <= n1 -> 0 <= n2 -> 0 <= o1 -> 0 <= o2 -> o1 + n1 <= o2 \/ o2 + n2 <= o1 ->
  get_field n1 (put_field n2 w o2 v) o1 = get_field n1 w o1.
Proof.
  intros Hn1 Hn2 Ho1 Ho2 H. apply Z.bits_inj'. intros k Hk.
  rewrite !get_field_testbit, put_field_testbit by lia.
  destruct (Z.ltb_spec k (8 * n1)); [|by rewrite !andb_false_r].
  by replace ((8 * o2 <=? k + 8 * o1) && (k + 8 * o1 <? 8 * o2 + 8 * n2)) with false by lia.
Qed.

Lemma put_field_u64 n w o v :
  u64 w -> 0 <= n -> 0 <= o -> o + n <= 8 -> u64 (put_field n w o v).
Proof.
  intros Hw Hn Ho H. apply u64_bits_le.
  - unfold put_field. apply Z.lor_nonneg. split; [apply Z.ldiff_nonneg; unfold u64 in *; lia|].
    apply Z.shiftl_nonneg, Z.mod_pos_bound, Z.pow_pos_nonneg; lia.
  - intros k Hk. rewrite put_field_testbit by lia.
    replace ((8 * o <=? k) && (k <? 8 * o + 8 * n)) with false by lia.
    by apply u64_high_bit.
Qed.

Lemma get_field_range n w o : 0 <= n -> 0 <= get_field n w o < 2 ^ (8 * n).
Proof. intros H. apply Z.mod_pos_bound, Z.pow_pos_nonneg; lia. Qed.

Definition width (n : Z) : Prop := n = 1 \/ n = 2 \/ n = 4 \/ n = 8.

Lemma field_in_word n a : width n -> a mod n = 0 -> 0 <= a mod 8 /\ a mod 8 + n <= 8.
Proof. unfold width. intros [->|[->|[->| ->]]] H; dlia. Qed.

Lemma word_of_range a : word_of a <= a < word_of a + 8.
Proof. unfold word_of. dlia. Qed.

Lemma rd_wr_field n m a v :
  width n -> a mod n = 0 -> rd_field n (wr_field n m a v) a = v mod 2 ^ (8 * n).
Proof.
  intros Hn Ha. pose proof (field_in_word n a Hn Ha).
  assert (0 <= n) by (unfold width in Hn; lia).
  unfold rd_field, wr_field. rewrite rd_wr_eq, wrap64_small.
  - apply get_put_field; lia.
  - apply put_field_u64; auto with kernel; lia.
Qed.

Lemma rd_wr_field_ne n1 n2 m a b v :
  width n1 -> width n2 -> a mod n1 = 0 -> b mod n2 = 0 -> a + n1 <= b \/ b + n2 <= a ->
  rd_field n1 (wr_field n2 m b v) a = rd_field n1 m a.
Proof.
  intros Hn1 Hn2 Ha Hb H.
  pose proof (field_in_word n1 a Hn1 Ha). pose proof (field_in_word n2 b Hn2 Hb).
  assert (0 <= n1 /\ 0 <= n2) by (unfold width in *; lia).
  unfold rd_field, wr_field. destruct (Z.eq_dec (word_of a) (word_of b)) as [E|E].
  - rewrite E, rd_wr_eq, wrap64_small.
    + apply get_put_field_ne; try lia. unfold word_of in E. lia.
    + apply put_field_u64; auto with kernel; lia.
  - by rewrite rd_wr_ne by congruence.
Qed.

Lemma rd_field_wr n m a b v : word_of a <> b -> rd_field n (wr m b v) a = rd_field n m a.
Proof. intros H. unfold rd_field. by rewrite rd_wr_ne by congruence. Qed.

Lemma rd_wr_field_word n m a b v : word_of b <> a -> rd (wr_field n m b v) a = rd m a.
Proof. intros H. unfold wr_field. by rewrite rd_wr_ne by congruence. Qed.

Lemma rd_field_range n m a : 0 <= n -> 0 <= rd_field n m a < 2 ^ (8 * n).
Proof. apply get_field_range. Qed.

(** *** Bytes *)

Definition byte (m : gmap Z Z) (a : Z) : Z := rd_field 1 m a.

(** [n] bytes from [a] on are kernel memory. *)
Definition kbytes (a n : Z) : Prop := KERNEL_VMA_START <= a /\ a + n <= 18446744073709551616.

Lemma kbytes_byte a n k :
  kbytes a n -> 0 <= k < n -> a ⊕ k = a + k /\ access_ok 1 (a + k) = true.
Proof.
  unfold kbytes, KERNEL_VMA_START. intros [H1 H2] Hk. split; [apply wrap64_small; lia|].
  unfold access_ok, kernel_mapped, KERNEL_VMA_START. rewrite Z.mod_1_r. lia.
Qed.

Lemma kbytes_block a n : kbytes a n -> a mod 8 = 0 -> kblock a n.
Proof. unfold kbytes, kblock. intros [? ?] ?. split; [done|by split]. Qed.

Lemma byte_range m a : 0 <= byte m a < 256.
Proof. apply (rd_field_range 1). lia. Qed.

Lemma byte_wr8 m d v a : byte (wr_field 1 m d v) a = if a =? d then wrap8 v else byte m a.
Proof.
  unfold byte. destruct (Z.eqb_spec a d) as [->|Hne].
  - apply rd_wr_field; [by left|apply Z.mod_1_r].
  - apply rd_wr_field_ne; [by left|by left|apply Z.mod_1_r|apply Z.mod_1_r|lia].
Qed.

(** The [k]-th byte of a word. *)
Definition word_byte (w k : Z) : Z := get_field 1 w k.

Lemma byte_wr m d w a :
  d mod 8 = 0 -> byte (wr m d w) a =
    if (d <=? a) && (a <? d + 8) then word_byte (wrap64 w) (a - d) else byte m a.
Proof.
  intros Hd. unfold byte, rd_field, word_of. destruct ((d <=? a) && (a <? d + 8)) eqn:E.
  - replace (a - a mod 8) with d by dlia. rewrite rd_wr_eq. unfold word_byte. f_equal. dlia.
  - rewrite rd_wr_ne by dlia. done.
Qed.

Lemma byte_rd m d k : d mod 8 = 0 -> 0 <= k < 8 -> word_byte (rd m d) k = byte m (d + k).
Proof.
  intros Hd Hk. unfold byte, rd_field, word_of, word_byte.
  replace (d + k - (d + k) mod 8) with d by dlia. f_equal. dlia.
Qed.

(** *** Running code

    [kstep] executes the first statement of the goal's program when it is a
    load, a store, [gets] or [modify]; validity of the address comes from a
    [kblock] of the context. *)
Ltac kvalid :=
  first [ assumption | (eapply kblock_elem_valid; [eassumption|lia])
        | (eapply kblock_word_valid; [eassumption|lia]) | eauto with kernel ].

Ltac kstep :=
  match goal with
  | |- context [(load64 _ ≫= _) _] => erewrite bind_Ret by (apply load64_eq; kvalid)
  | |- context [(store64 _ _ ≫= _) _] => erewrite bind_Ret by (apply store64_eq; kvalid)
  | |- context [(gets _ ≫= _) _] => erewrite bind_Ret by reflexivity
  | |- context [(modify _ ≫= _) _] => erewrite bind_Ret by reflexivity
  end; cbn beta iota zeta.

(** ** The state at start-up

    BSS is cleared by [arch_boot.S]: every global is 0. *)
Definition zero_state : kstate :=
  mkState ∅ false false 0 [] 0 [] 0
    (mkPager 0 0 0) (mkAllocator 0 0 (replicate 256 0) (replicate 256 0))
    (mkScheduler 0 0 0 0 0) (mkVma 0 0) (mkDevices 0 0 0 0) 0 0 (mkSymbols 0 0 0 0 0 0 1 2 3 4 0)
    (mkLocals 0 0 0 0 0 0) (mkLiterals 0 0 0 0 0 0 0 0 0 0) (mkFirmware (fun _ => 0))
    (mkIO 0 [] (fun _ _ => 0) 0 0 []).
