(* ===== verification/Strings.v ===== *)
(** * String routines ([kernel/memory/string.c])

    The code walks memory byte by byte; [char] is unsigned on RISC-V.  The
    specifications are on the list of characters before the terminating 0. *)
From S2P Require Import Prelude Machine.

(** ** The code *)

Definition memcpy (dst src size : Z) : M unit :=
  if negb (ROUND_MOD_DOWN dst 8 =? dst) || negb (ROUND_MOD_DOWN src 8 =? src) ||
     negb (ROUND_MOD_DOWN size 8 =? size) then
    for_each (upto 0 size) (fun i => v ← load8 (src ⊕ i); store8 (dst ⊕ i) v)
  else
    for_each (upto 0 (size / 8)) (fun i => v ← load64 (elem64 src i); store64 (elem64 dst i) v).

(** The two loops of [memcmp]; [i] is their local. *)
Definition memcmp_words (size src_a src_b i : Z) : M (Z + (Z + Z)) :=
  if 4 <=? size ⊖ i then
    a ← load64 (elem64 src_a (i / 4));
    b ← load64 (elem64 src_b (i / 4));
    mret (if negb (a =? b) then inr (inr 1) else inl (i ⊕ 4))
  else mret (inr (inl i)).

Definition memcmp_bytes (size src_a src_b i : Z) : M (Z + Z) :=
  if 0 <? size ⊖ i then
    a ← load8 (src_a ⊕ i);
    b ← load8 (src_b ⊕ i);
    mret (if negb (a =? b) then inr 1 else inl (i ⊕ 1))
  else mret (inr 0).

Definition memcmp (size src_a src_b : Z) : M Z :=
  r ← while_true (memcmp_words size src_a src_b) 0;
  match r with
  | inr v => mret v
  | inl i => while_true (memcmp_bytes size src_a src_b) i
  end.

Definition strcmp (src_a src_b : Z) : M Z :=
  while_true (fun i =>
    a ← load8 (src_a ⊕ i);
    b ← load8 (src_b ⊕ i);
    mret (if (a =? 0) || (b =? 0) || negb (a =? b) then
            inr (if negb (a =? b) then (if b <? a then 1 else -1) else 0)
          else inl (i ⊕ 1))) 0.

(** [(output | -output) & mask], in an [unsigned char]. *)
Definition strncpy_mask (mask output : Z) : Z :=
  wrap8 (Z.land (Z.lor output (- output)) mask).

Definition strncpy (dest src size : Z) : M unit :=
  _ ← for_fold (upto 0 size) (fun mask i =>
    output ← load8 (src ⊕ i);
    let mask' := strncpy_mask mask output in
    store8 (dest ⊕ i) (Z.land output mask') ;;
    mret mask') 255;
  mret tt.

Definition strscpy (dest src size : Z) : M unit :=
  i ← while_true (fun i =>
    if i <? size then
      c ← load8 (src ⊕ i);
      if c =? 0 then mret (inr i)
      else store8 (dest ⊕ i) c ;; mret (inl (i ⊕ 1))
    else mret (inr i)) 0;
  if i =? size then store8 (dest ⊕ (size - 1)) 0 else store8 (dest ⊕ i) 0.

Definition str_starts_with (str prefix : Z) : M bool :=
  while_true (fun '(str, prefix) =>
    p ← load8 prefix;
    if p =? 0 then mret (inr true)
    else
      c ← load8 str;
      mret (if negb (p =? c) then inr false else inl (str ⊕ 1, prefix ⊕ 1))) (str, prefix).

Definition strchr (str c : Z) : M Z :=
  while_true (fun i =>
    v ← load8 i;
    mret (if v =? 0 then inr 0 else if v =? c then inr i else inl (i ⊕ 1))) str.

Definition strlen (str : Z) : M Z :=
  while_true (fun '(i, len) =>
    v ← load8 i;
    mret (if v =? 0 then inr len else inl (i ⊕ 1, len ⊕ 1))) (str, 0).

(** ** Strings in memory *)

(** The bytes from [a] on are the characters [l] and a 0. *)
Record cstring (m : gmap Z Z) (a : Z) (l : list Z) : Prop := {
  cs_mapped : kbytes a (Z.of_nat (length l) + 1);
  cs_char (k : nat) c : l !! k = Some c -> byte m (a + Z.of_nat k) = c /\ 0 < c;
  cs_end : byte m (a + Z.of_nat (length l)) = 0;
}.

(** The characters of a string constant. *)
Fixpoint chars (t : string) : list Z :=
  match t with
  | EmptyString => []
  | String c t' => Z.of_N (Ascii.N_of_ascii c) :: chars t'
  end.

Lemma load8_byte a n k s :
  kbytes a n -> 0 <= k < n -> load8 (a ⊕ k) s = Ret (byte (mem s) (a + k)) s.
Proof.
  intros Ha Hk. destruct (kbytes_byte a n k Ha Hk) as [-> H]. unfold load_field. by rewrite H.
Qed.

Lemma store8_byte a n k v s :
  kbytes a n -> 0 <= k < n ->
  store8 (a ⊕ k) v s = Ret tt (set_mem (wr_field 1 (mem s) (a + k) v) s).
Proof.
  intros Ha Hk. destruct (kbytes_byte a n k Ha Hk) as [-> H]. unfold store_field. by rewrite H.
Qed.

Section Cstring.
Context (m : gmap Z Z) (a : Z) (l : list Z) (Hs : cstring m a l).

(** The head of what is left after the prefix [p]. *)
Lemma cstring_at p r :
  l = p ++ r -> byte m (a + Z.of_nat (length p)) = match r with [] => 0 | c :: _ => c end.
Proof.
  intros ->. destruct r as [|c r].
  - rewrite app_nil_r in Hs. apply (cs_end _ _ _ Hs).
  - apply (cs_char _ _ _ Hs). rewrite lookup_app_r, Nat.sub_diag by lia. done.
Qed.

Lemma cstring_nonzero p c r : l = p ++ c :: r -> 0 < c.
Proof.
  intros ->. eapply (cs_char _ _ _ Hs (length p)). rewrite lookup_app_r, Nat.sub_diag by lia. done.
Qed.

Lemma cstring_load p r s :
  mem s = m -> l = p ++ r ->
  load8 (a ⊕ Z.of_nat (length p)) s = Ret (match r with [] => 0 | c :: _ => c end) s.
Proof.
  intros Em E. rewrite (load8_byte _ _ _ _ (cs_mapped _ _ _ Hs)).
  - rewrite Em. by rewrite (cstring_at p r).
  - rewrite E, length_app. lia.
Qed.

Lemma cstring_short : Z.of_nat (length l) < 18446744073709551616.
Proof. destruct (cs_mapped _ _ _ Hs). unfold KERNEL_VMA_START in *. lia. Qed.
End Cstring.

Lemma length_snoc_wrap (p : list Z) c :
  Z.of_nat (length p) + 1 < 18446744073709551616 ->
  Z.of_nat (length p) ⊕ 1 = Z.of_nat (length (p ++ [c])).
Proof. intros H. rewrite length_app. cbn [length]. rewrite wrap64_small by lia. lia. Qed.

(** ** Comparison *)

(** The order [strcmp] decides. *)
Fixpoint str_compare (l1 l2 : list Z) : Z :=
  match l1, l2 with
  | [], [] => 0
  | [], _ :: _ => -1
  | _ :: _, [] => 1
  | c1 :: r1, c2 :: r2 => if c1 =? c2 then str_compare r1 r2 else if c2 <? c1 then 1 else -1
  end.

Lemma str_compare_refl l : str_compare l l = 0.
Proof. induction l as [|c l IH]; cbn; [done|]. by rewrite Z.eqb_refl. Qed.

Lemma str_compare_eq l1 l2 : str_compare l1 l2 = 0 <-> l1 = l2.
Proof.
  split; [|intros ->; apply str_compare_refl].
  revert l2. induction l1 as [|c1 l1 IH]; intros [|c2 l2]; cbn; try done.
  destruct (Z.eqb_spec c1 c2) as [->|]; [|by destruct (c2 <? c1)].
  intros H. f_equal. by apply IH.
Qed.

(** What a round of [strcmp] decides on the remaining characters. *)
Lemma strcmp_round r1 r2 (next : Z) :
  (forall c r, r1 = c :: r -> 0 < c) -> (forall c r, r2 = c :: r -> 0 < c) ->
  let a := match r1 with [] => 0 | c :: _ => c end in
  let b := match r2 with [] => 0 | c :: _ => c end in
  (if (a =? 0) || (b =? 0) || negb (a =? b) then
     @inr Z Z (if negb (a =? b) then (if b <? a then 1 else -1) else 0)
   else inl next) =
  match r1, r2 with
  | c1 :: _, c2 :: _ => if c1 =? c2 then inl next else inr (str_compare r1 r2)
  | _, _ => inr (str_compare r1 r2)
  end.
Proof.
  intros N1 N2 a b. subst a b.
  destruct r1 as [|c1 r1], r2 as [|c2 r2]; cbn [str_compare]; [done|..].
  - specialize (N2 _ _ eq_refl). rewrite Z.eqb_refl. cbn [orb].
    destruct (Z.eqb_spec 0 c2); [lia|]. cbn [negb]. destruct (Z.ltb_spec c2 0); [lia|done].
  - specialize (N1 _ _ eq_refl). rewrite orb_true_r. cbn [orb].
    destruct (Z.eqb_spec c1 0); [lia|]. cbn [negb]. destruct (Z.ltb_spec 0 c1); [done|lia].
  - specialize (N1 _ _ eq_refl). specialize (N2 _ _ eq_refl).
    destruct (Z.eqb_spec c1 0); [lia|]. destruct (Z.eqb_spec c2 0); [lia|].
    destruct (Z.eqb_spec c1 c2); done.
Qed.

Lemma strcmp_eq s src_a src_b l1 l2 :
  cstring (mem s) src_a l1 -> cstring (mem s) src_b l2 -> strcmp src_a src_b s = Ret (str_compare l1 l2) s.
Proof.
  intros H1 H2. apply wp_exact. unfold strcmp.
  pose proof (cstring_short _ _ _ H1) as Hl1.
  apply (wp_while (fun i s' => s' = s /\ exists p r1 r2, i = Z.of_nat (length p) /\
      l1 = p ++ r1 /\ l2 = p ++ r2 /\ str_compare l1 l2 = str_compare r1 r2)
    (fun i _ => Z.of_nat (length l1) - i)).
  - intros i s' (_ & p & r1 & r2 & -> & -> & _). rewrite length_app. lia.
  - intros i s' (-> & p & r1 & r2 & -> & E1 & E2 & Ec).
    unfold wp. rewrite (bind_Ret _ _ _ _ _ (cstring_load _ _ _ H1 p r1 s eq_refl E1)).
    rewrite (bind_Ret _ _ _ _ _ (cstring_load _ _ _ H2 p r2 s eq_refl E2)).
    rewrite (strcmp_round r1 r2) by (intros c r ->; first
      [ (eapply (cstring_nonzero _ _ _ H1); eassumption) | (eapply (cstring_nonzero _ _ _ H2); eassumption) ]).
    destruct r1 as [|c1 r1], r2 as [|c2 r2]; try (split; [by rewrite Ec|done]).
    cbn [str_compare] in Ec. destruct (Z.eqb_spec c1 c2) as [<-|Hne].
    + rewrite E1, length_app in Hl1. cbn [length] in Hl1.
      cbn [mret M_ret]. rewrite (length_snoc_wrap p c1) by lia. split.
      * split; [done|]. exists (p ++ [c1]), r1, r2. split_and!; rewrite <- ?app_assoc; done.
      * rewrite E1, !length_app. cbn [length]. lia.
    + cbn [mret M_ret]. rewrite Ec. cbn [str_compare]. by destruct (Z.eqb_spec c1 c2).
  - split; [done|]. by exists [], l1, l2.
  - lia.
Qed.

(** [strcmp] of two strings is their order as lists of unsigned
    characters, and changes nothing; it is 0 exactly when they are equal. *)
Theorem strcmp_correct s src_a src_b l1 l2 :
  cstring (mem s) src_a l1 -> cstring (mem s) src_b l2 ->
  strcmp src_a src_b s = Ret (str_compare l1 l2) s /\ (str_compare l1 l2 = 0 <-> l1 = l2).
Proof. intros H1 H2. split; [by apply strcmp_eq|apply str_compare_eq]. Qed.

(** ** Prefixes *)

Fixpoint is_prefix (p l : list Z) : bool :=
  match p, l with
  | [], _ => true
  | _ :: _, [] => false
  | c :: p', d :: l' => (c =? d) && is_prefix p' l'
  end.

Lemma wrap_next a (p : list Z) c : a ⊕ Z.of_nat (length p) ⊕ 1 = a ⊕ Z.of_nat (length (p ++ [c])).
Proof.
  rewrite length_app. cbn [length]. unfold wrap64. rewrite Zplus_mod_idemp_l. f_equal. lia.
Qed.

(** [str_starts_with] tells whether [prefix] is a prefix of [str]. *)
Theorem str_starts_with_correct s str prefix l lp :
  cstring (mem s) str l -> cstring (mem s) prefix lp ->
  str_starts_with str prefix s = Ret (is_prefix lp l) s.
Proof.
  intros H1 H2. apply wp_exact. unfold str_starts_with.
  assert (wp (while_true (fun '(a, b) =>
      p ← load8 b; if p =? 0 then mret (inr true) else
      c ← load8 a; mret (if negb (p =? c) then inr false else inl (a ⊕ 1, b ⊕ 1))) (str ⊕ 0, prefix ⊕ 0))
    (fun r s' => r = is_prefix lp l /\ s' = s) s) as Hw.
  2: { destruct (cs_mapped _ _ _ H1), (cs_mapped _ _ _ H2). unfold KERNEL_VMA_START in *.
       by rewrite !Z.add_0_r, !wrap64_small in Hw by lia. }
  apply (wp_while_bounded (fun n '(a, b) s' => s' = s /\ exists p r rp, a = str ⊕ Z.of_nat (length p) /\
      b = prefix ⊕ Z.of_nat (length p) /\ l = p ++ r /\ lp = p ++ rp /\ is_prefix lp l = is_prefix rp r /\
      n = Z.of_nat (length rp)) _ _) with (n := Z.of_nat (length lp)).
  - intros n [a b] s' (_ & p & r & rp & _ & _ & _ & _ & _ & ->). lia.
  - intros n [a b] s' (-> & p & r & rp & -> & -> & E1 & E2 & Ep & ->). unfold wp.
    rewrite (bind_Ret _ _ _ _ _ (cstring_load _ _ _ H2 p rp s eq_refl E2)).
    destruct rp as [|c rp]; [done|]. pose proof (cstring_nonzero _ _ _ H2 p c rp E2) as Hc.
    replace (c =? 0) with false by lia. rewrite (bind_Ret _ _ _ _ _ (cstring_load _ _ _ H1 p r s eq_refl E1)).
    destruct r as [|d r].
    + replace (c =? 0) with false by lia. done.
    + cbn [is_prefix] in Ep. destruct (Z.eqb_spec c d) as [<-|Hne]; cbn [negb andb] in *; [|done].
      cbn [mret M_ret]. exists (Z.of_nat (length rp)). split; [|cbn [length]; lia]. split; [done|].
      exists (p ++ [c]), r, rp. rewrite <- !wrap_next, <- !app_assoc. done.
  - split; [done|]. exists [], l, lp. done.
  - apply (cstring_short _ _ _ H2).
Qed.

(** ** Length and search *)

(** [strlen] is the number of characters. *)
Theorem strlen_correct s str l : cstring (mem s) str l -> strlen str s = Ret (Z.of_nat (length l)) s.
Proof.
  intros H. apply wp_exact. unfold strlen. pose proof (cstring_short _ _ _ H) as Hl.
  destruct (cs_mapped _ _ _ H) as [Hb1 Hb2]. unfold KERNEL_VMA_START in *.
  apply (wp_while (fun '(i, len) s' => s' = s /\ exists p r, i = str ⊕ Z.of_nat (length p) /\
      len = Z.of_nat (length p) /\ l = p ++ r) (fun '(_, len) _ => Z.of_nat (length l) - len)).
  - intros [i len] s' (_ & p & r & _ & -> & ->). rewrite length_app. lia.
  - intros [i len] s' (-> & p & r & -> & -> & E). unfold wp.
    rewrite (bind_Ret _ _ _ _ _ (cstring_load _ _ _ H p r s eq_refl E)).
    destruct r as [|c r]; [by rewrite E, app_nil_r|].
    destruct (Z.eqb_spec c 0); [pose proof (cstring_nonzero _ _ _ H _ _ _ E); lia|].
    pose proof (f_equal length E) as El. rewrite length_app in El. cbn [length] in El.
    cbn [mret M_ret]. rewrite (length_snoc_wrap p c) by lia. split.
    + split; [done|]. exists (p ++ [c]), r. split_and!; [|done|by rewrite <- app_assoc].
      rewrite length_app. cbn [length]. autorewrite with kz. f_equal. lia.
    + rewrite El, !length_app. cbn [length]. lia.
  - split; [done|]. exists [], l. cbn [length]. rewrite Z.add_0_r, wrap64_small by lia. done.
  - lia.
Qed.

(** [strchr] gives the address of the first [c], or 0. *)
Theorem strchr_correct s str l c :
  cstring (mem s) str l ->
  strchr str c s = Ret (match list_find (fun x => x = c) l with
                        | Some (k, _) => str + Z.of_nat k
                        | None => 0
                        end) s.
Proof.
  intros H. apply wp_exact. unfold strchr. pose proof (cstring_short _ _ _ H) as Hl.
  destruct (cs_mapped _ _ _ H) as [Hb1 Hb2]. unfold KERNEL_VMA_START in *.
  apply (wp_while (fun i s' => s' = s /\ exists p r, i = str ⊕ Z.of_nat (length p) /\
      l = p ++ r /\ c ∉ p) (fun i _ => str + Z.of_nat (length l) - i)).
  - intros i s' (_ & p & r & -> & -> & _). rewrite length_app in *. rewrite wrap64_small; lia.
  - intros i s' (-> & p & r & -> & E & Hp). unfold wp.
    rewrite (bind_Ret _ _ _ _ _ (cstring_load _ _ _ H p r s eq_refl E)).
    pose proof (f_equal length E) as El. rewrite length_app in El.
    destruct r as [|c' r]; cbn [length] in El.
    { rewrite E, app_nil_r. cbn [Z.eqb mret M_ret]. split; [|done].
      rewrite (proj2 (list_find_None _ _)); [done|]. apply list.Forall_forall. by intros x Hx ->. }
    destruct (Z.eqb_spec c' 0); [pose proof (cstring_nonzero _ _ _ H _ _ _ E); lia|].
    cbn [mret M_ret]. destruct (Z.eqb_spec c' c) as [->|Hne].
    + split; [|done]. rewrite (proj2 (list_find_Some _ _ (length p) c)).
      * apply wrap64_small. lia.
      * split_and!; [by rewrite E, list_lookup_middle|done|].
        intros j y Hj Hlt ->. apply Hp. rewrite E, lookup_app_l in Hj by done.
        by eapply list_elem_of_lookup_2.
    + split.
      * split; [done|]. exists (p ++ [c']), r. split_and!; [|by rewrite <- app_assoc|by rewrite elem_of_app, list_elem_of_singleton; intros [?| ->]].
        rewrite length_app. cbn [length]. autorewrite with kz. f_equal. lia.
      * autorewrite with kz. rewrite !wrap64_small; lia.
  - split; [done|]. exists [], l. cbn [length]. rewrite Z.add_0_r, wrap64_small by lia.
    split_and!; [done|done|by apply not_elem_of_nil].
  - lia.
Qed.

(** ** Copying *)

(** [n] bytes from [a] on are changed to [f], byte by byte; the rest of memory
    is left. *)
Definition copied (m m' : gmap Z Z) (a n : Z) (f : Z -> Z) : Prop :=
  forall b, byte m' b = if (a <=? b) && (b <? a + n) then f (b - a) else byte m b.

Lemma copied_nil m a f : copied m m a 0 f.
Proof. intros b. by replace ((a <=? b) && (b <? a + 0)) with false by lia. Qed.

Lemma copied_byte m m' a i f v :
  0 <= i -> copied m m' a i f -> wrap8 v = f i -> copied m (wr_field 1 m' (a + i) v) a (i + 1) f.
Proof.
  intros Hi H Hv b. rewrite byte_wr8, H. destruct (Z.eqb_spec b (a + i)) as [->|Hne].
  - replace ((a <=? a + i) && (a + i <? a + (i + 1))) with true by lia. rewrite Hv. f_equal. lia.
  - by replace (b <? a + (i + 1)) with (b <? a + i) by lia.
Qed.

Lemma copied_word m m' a i f w :
  a mod 8 = 0 -> 0 <= i -> copied m m' a (8 * i) f -> u64 w ->
  (forall k, 0 <= k < 8 -> word_byte w k = f (8 * i + k)) ->
  copied m (wr m' (a + 8 * i) w) a (8 * (i + 1)) f.
Proof.
  intros Ha Hi H Hw Hf b. rewrite byte_wr, H, wrap64_small by (done || dlia).
  destruct ((a + 8 * i <=? b) && (b <? a + 8 * i + 8)) eqn:E.
  - replace ((a <=? b) && (b <? a + 8 * (i + 1))) with true by lia.
    rewrite Hf by lia. f_equal. lia.
  - by replace ((a <=? b) && (b <? a + 8 * (i + 1))) with ((a <=? b) && (b <? a + 8 * i)) by lia.
Qed.

Lemma word_ext x y :
  u64 x -> u64 y -> (forall k, 0 <= k < 8 -> word_byte x k = word_byte y k) -> x = y.
Proof.
  intros Hx Hy H. apply u64_ext; [done..|]. intros j Hj.
  specialize (H (j / 8) ltac:(dlia)). apply (f_equal (fun z => Z.testbit z (j mod 8))) in H.
  unfold word_byte in H. rewrite !get_field_testbit in H by dlia.
  replace (j mod 8 + 8 * (j / 8)) with j in H by dlia.
  replace (j mod 8 <? 8 * 1) with true in H by dlia. by rewrite !andb_true_r in H.
Qed.

(** Equal bytes make equal words. *)
Lemma rd_bytes m m' a :
  a mod 8 = 0 -> (forall k, 0 <= k < 8 -> byte m' (a + k) = byte m (a + k)) -> rd m' a = rd m a.
Proof. intros Ha H. apply word_ext; [apply rd_u64..|]. intros k Hk. by rewrite !byte_rd, H. Qed.

(** ** Moving bytes one at a time

    The bytes at [A 0 .. A (n - 1)] are now also at [B 0 .. B (n - 1)]; the
    rest of memory is as before. *)
Definition moved (m m' : gmap Z Z) (n : Z) (A B : Z -> Z) : Prop :=
  (forall k, 0 <= k < n -> byte m' (B k) = byte m (A k)) /\
  (forall b, (forall k, 0 <= k < n -> b <> B k) -> byte m' b = byte m b).

Lemma moved_nil m A B : moved m m 0 A B.
Proof. split; [lia|done]. Qed.

Lemma moved_step m m' n i A B :
  0 <= i < n -> moved m m' i A B ->
  (forall j k, 0 <= j < n -> 0 <= k < n -> B j = B k -> j = k) ->
  (forall j k, 0 <= j < n -> 0 <= k < n -> A j <> B k) ->
  moved m (wr_field 1 m' (B i) (byte m' (A i))) (i + 1) A B.
Proof.
  intros Hi [H1 H2] Hinj Hdis. split.
  - intros k Hk. rewrite byte_wr8. destruct (Z.eqb_spec (B k) (B i)) as [E|E].
    + apply Hinj in E as ->; [|lia..]. rewrite wrap8_small by apply byte_range.
      apply H2. intros j Hj. apply Hdis; lia.
    + apply H1. assert (k <> i) by (by intros ->). lia.
  - intros b Hb. rewrite byte_wr8. destruct (Z.eqb_spec b (B i)) as [->|E]; [by destruct (Hb i); lia|].
    apply H2. intros k Hk. apply Hb. lia.
Qed.

Section Memcpy.
Context (dst src size : Z) (s : kstate).
Context (Hd : kbytes dst size) (Hs : kbytes src size) (Hsize : 0 < size).
Context (Hover : dst <= src \/ src + size <= dst).
Local Abbreviation from := (fun k => byte (mem s) (src + k)).

(** What the loop has not reached is as it was. *)
Lemma copied_source m' i k :
  copied (mem s) m' dst i from -> i <= k < size -> 0 <= i -> byte m' (src + k) = byte (mem s) (src + k).
Proof.
  intros H Hk Hi. rewrite H. by replace ((dst <=? src + k) && (src + k <? dst + i)) with false by lia.
Qed.

Lemma memcpy_bytes :
  wp (for_each (upto 0 size) (fun i => v ← load8 (src ⊕ i); store8 (dst ⊕ i) v))
    (fun _ s' => exists m', s' = set_mem m' s /\ copied (mem s) m' dst size from) s.
Proof.
  apply (wp_for_each (fun i s' => exists m', s' = set_mem m' s /\ copied (mem s) m' dst i from)).
  - lia.
  - exists (mem s). split; [symmetry; apply set_mem_id|apply copied_nil].
  - intros i s' Hi (m' & -> & H). unfold wp.
    rewrite (bind_Ret _ _ _ _ _ (load8_byte src size i _ Hs Hi)), (store8_byte dst size i) by done.
    eexists. split; [done|]. cbn [mem set_mem]. apply copied_byte; [lia|done|].
    rewrite (copied_source m' i i) by (done || lia). apply wrap8_small, byte_range.
  - done.
Qed.

Lemma memcpy_words :
  dst mod 8 = 0 -> src mod 8 = 0 -> size mod 8 = 0 ->
  wp (for_each (upto 0 (size / 8)) (fun i => v ← load64 (elem64 src i); store64 (elem64 dst i) v))
    (fun _ s' => exists m', s' = set_mem m' s /\ copied (mem s) m' dst size from) s.
Proof.
  intros Ad As Az. assert (size = 8 * (size / 8)) as E by dlia.
  assert (kblock dst (8 * (size / 8))) as Kd by (rewrite <- E; by apply kbytes_block).
  assert (kblock src (8 * (size / 8))) as Ks by (rewrite <- E; by apply kbytes_block).
  apply (wp_for_each (fun i s' => exists m', s' = set_mem m' s /\ copied (mem s) m' dst (8 * i) from)).
  - dlia.
  - exists (mem s). split; [symmetry; apply set_mem_id|apply copied_nil].
  - intros i s' Hi (m' & -> & H). unfold wp. kstep. rewrite store64_eq by kvalid.
    eexists. split; [done|]. cbn [mem set_mem].
    rewrite (kblock_elem_eq dst (size / 8)), (kblock_elem_eq src (size / 8)) by done.
    apply copied_word; [done|lia|done|apply rd_u64|]. intros k Hk.
    rewrite byte_rd by (done || dlia). replace (src + 8 * i + k) with (src + (8 * i + k)) by lia.
    rewrite (copied_source m' (8 * i)) by (done || lia). done.
  - intros s' H. by rewrite E.
Qed.

Lemma memcpy_wp :
  wp (memcpy dst src size)
    (fun _ s' => exists m', s' = set_mem m' s /\ copied (mem s) m' dst size from) s.
Proof.
  unfold memcpy. destruct Hd as [? ?], Hs as [? ?]. unfold KERNEL_VMA_START in *.
  destruct (Z.eqb_spec (ROUND_MOD_DOWN dst 8) dst) as [E1|]; [|apply memcpy_bytes].
  destruct (Z.eqb_spec (ROUND_MOD_DOWN src 8) src) as [E2|]; [|apply memcpy_bytes].
  destruct (Z.eqb_spec (ROUND_MOD_DOWN size 8) size) as [E3|]; [|apply memcpy_bytes].
  rewrite ROUND_MOD_DOWN_aligned in E1, E2, E3 by first [lia | (unfold u64; lia)].
  by apply memcpy_words.
Qed.

(** C34: [memcpy] copies [size] bytes whichever of its loops runs (words when
    everything is 8-aligned, bytes otherwise), for buffers that do not overlap
    or whose destination is the lower one, and changes no other byte. *)
Theorem memcpy_correct :
  exists m', memcpy dst src size s = Ret tt (set_mem m' s) /\
    (forall k, 0 <= k < size -> byte m' (dst + k) = byte (mem s) (src + k)) /\
    (forall a, a < dst \/ dst + size <= a -> byte m' a = byte (mem s) a).
Proof.
  destruct (wp_inv _ _ _ memcpy_wp) as ([] & s' & E & m' & -> & Hc). exists m'.
  split; [done|]. split.
  - intros k Hk. rewrite Hc. replace ((dst <=? dst + k) && (dst + k <? dst + size)) with true by lia.
    f_equal. lia.
  - intros a Ha. rewrite Hc. by replace ((dst <=? a) && (a <? dst + size)) with false by lia.
Qed.
End Memcpy.

(** *** [strscpy] *)

Section Strscpy.
Context (dest src size : Z) (l : list Z) (s : kstate).
Context (Hs : cstring (mem s) src l) (Hd : kbytes dest size) (Hsize : 0 < size).
Context (Happart : dest + size <= src \/ src + Z.of_nat (length l) + 1 <= dest).
Local Abbreviation from := (fun k => byte (mem s) (src + k)).
Local Abbreviation len := (Z.of_nat (length l)).

Lemma strscpy_load m' i :
  copied (mem s) m' dest i from -> 0 <= i <= size -> i <= len ->
  load8 (src ⊕ i) (set_mem m' s) = Ret (byte (mem s) (src + i)) (set_mem m' s).
Proof.
  intros H Hi Hl. rewrite (load8_byte _ _ _ _ (cs_mapped _ _ _ Hs)) by lia. cbn [mem set_mem].
  rewrite H. by replace ((dest <=? src + i) && (src + i <? dest + i)) with false by lia.
Qed.

Lemma strscpy_loop :
  wp (while_true (fun i =>
    if i <? size then
      c ← load8 (src ⊕ i);
      if c =? 0 then mret (inr i) else store8 (dest ⊕ i) c ;; mret (inl (i ⊕ 1))
    else mret (inr i)) 0)
    (fun i s' => i = Z.min size len /\ exists m', s' = set_mem m' s /\ copied (mem s) m' dest i from) s.
Proof.
  pose proof (cstring_short _ _ _ Hs) as Hl.
  apply (wp_while (fun i s' => 0 <= i <= Z.min size len /\
      exists m', s' = set_mem m' s /\ copied (mem s) m' dest i from) (fun i _ => len - i)).
  - intros i s' (? & _). lia.
  - intros i s' (Hi & m' & -> & H). destruct (Z.ltb_spec i size) as [Hlt|].
    2: { apply wp_ret. split; [lia|by exists m']. }
    unfold wp. rewrite (bind_Ret _ _ _ _ _ (strscpy_load m' i H ltac:(lia) ltac:(lia))).
    destruct (Z.eqb_spec (byte (mem s) (src + i)) 0) as [E|E].
    + cbn [mret M_ret]. split; [|by exists m']. destruct (Z.eq_dec i len) as [|Hne]; [lia|].
      destruct (lookup_lt_is_Some_2 l (Z.to_nat i) ltac:(lia)) as [c Hc].
      destruct (cs_char _ _ _ Hs _ _ Hc). rewrite Z2Nat.id in * by lia. lia.
    + assert (i <> len) by (intros ->; by apply E, (cs_end _ _ _ Hs)).
      rewrite (bind_Ret _ _ _ _ _ (store8_byte dest size i _ _ Hd ltac:(lia))).
      cbn [mret M_ret]. rewrite wrap64_small by lia. split; [|lia]. split; [lia|].
      eexists. split; [done|]. cbn [mem set_mem]. apply copied_byte; [lia|done|].
      apply wrap8_small, byte_range.
  - split; [lia|]. exists (mem s). split; [symmetry; apply set_mem_id|apply copied_nil].
  - lia.
Qed.

Lemma strscpy_copies :
  exists m', strscpy dest src size s = Ret tt (set_mem m' s) /\
    cstring m' dest (take (Z.to_nat (size - 1)) l) /\
    (forall b, b < dest \/ dest + size <= b -> byte m' b = byte (mem s) b).
Proof.
  destruct (wp_inv _ _ _ strscpy_loop) as (i & s' & E & -> & m' & -> & H).
  unfold strscpy. rewrite (bind_Ret _ _ _ _ _ E). clear E. set (last := Z.min (size - 1) len).
  assert ((if Z.min size len =? size then store8 (dest ⊕ (size - 1)) 0 (set_mem m' s)
           else store8 (dest ⊕ Z.min size len) 0 (set_mem m' s)) =
          Ret tt (set_mem (wr_field 1 m' (dest + last) 0) s)) as Es.
  { destruct (Z.eqb_spec (Z.min size len) size);
      [replace last with (size - 1) by lia|replace last with (Z.min size len) by lia];
      by rewrite (store8_byte dest size) by (done || lia). }
  exists (wr_field 1 m' (dest + last) 0). split; [destruct (Z.min size len =? size); exact Es|].
  assert (Z.of_nat (length (take (Z.to_nat (size - 1)) l)) = last) as El
    by (rewrite length_take; lia).
  split; [split|].
  - rewrite El. destruct Hd. split; [done|lia].
  - intros k c Hk. apply lookup_lt_Some in Hk as Hlt. rewrite lookup_take_lt in Hk by
      (rewrite length_take in Hlt; lia).
    destruct (cs_char _ _ _ Hs _ _ Hk) as [Hc Hpos]. split; [|done].
    rewrite byte_wr8, H. destruct (Z.eqb_spec (dest + Z.of_nat k) (dest + last)); [lia|].
    replace ((dest <=? dest + Z.of_nat k) && (dest + Z.of_nat k <? dest + Z.min size len))
      with true by lia.
    rewrite <- Hc. f_equal. lia.
  - by rewrite El, byte_wr8, Z.eqb_refl.
  - intros b Hb. rewrite byte_wr8, H. destruct (Z.eqb_spec b (dest + last)); [lia|].
    by replace ((dest <=? b) && (b <? dest + Z.min size len)) with false by lia.
Qed.

(** C35: [strscpy] leaves in [dest] a terminated string of at most [size - 1]
    characters, the longest prefix of the source that fits, and writes nothing
    outside its [size] bytes. *)
Theorem strscpy_correct :
  exists m', strscpy dest src size s = Ret tt (set_mem m' s) /\
    cstring m' dest (take (Z.to_nat (size - 1)) l) /\
    (forall b, b < dest \/ dest + size <= b -> byte m' b = byte (mem s) b).
Proof. exact strscpy_copies. Qed.
End Strscpy.

(** *** [memcmp] *)

(** [memcmp] indexes words with the offset divided by 4, so for a size that
    is a multiple of 4 it compares twice that many bytes: on aligned buffers, [memcmp] of [4 * n] bytes is 0 exactly when the
    first [8 * n] bytes agree. *)
Theorem memcmp_reads_twice n src_a src_b s :
  0 <= n -> kblock src_a (8 * n) -> kblock src_b (8 * n) ->
  exists r, memcmp (4 * n) src_a src_b s = Ret r s /\ (r = 0 \/ r = 1) /\
    (r = 0 <-> forall k, 0 <= k < 8 * n -> byte (mem s) (src_a + k) = byte (mem s) (src_b + k)).
Proof.
  intros Hn Ha Hb. set (same i := rd (mem s) (src_a + 8 * i) = rd (mem s) (src_b + 8 * i)).
  assert (8 * n < 18446744073709551616) as Hbig by (destruct Ha; unfold KERNEL_VMA_START in *; lia).
  assert (wp (while_true (memcmp_words (4 * n) src_a src_b) 0) (fun r s' => s' = s /\
    ((r = inl (4 * n) /\ forall j, 0 <= j < n -> same j) \/
     (r = inr 1 /\ exists j, 0 <= j < n /\ ~ same j))) s) as H.
  { apply (wp_while (fun i s' => s' = s /\ exists j, i = 4 * j /\ 0 <= j <= n /\
        forall j', 0 <= j' < j -> same j') (fun i _ => 4 * n - i)).
    - intros i s' (_ & j & -> & Hj & _). lia.
    - intros i s' (-> & j & -> & Hj & Hsame). unfold memcmp_words.
      rewrite wrap64_small by lia. destruct (Z.leb_spec 4 (4 * n - 4 * j)).
      + replace (4 * j / 4) with j by dlia. unfold wp. kstep. kstep.
        rewrite !(kblock_elem_eq _ n) by (done || lia). fold (same j).
        destruct (Z.eqb_spec (rd (mem s) (src_a + 8 * j)) (rd (mem s) (src_b + 8 * j))) as [E|E];
          cbn [negb mret M_ret].
        * rewrite wrap64_small by lia. split; [|lia]. split; [done|]. exists (j + 1).
          split_and!; [lia|lia|lia|]. intros j' Hj'.
          destruct (Z.eq_dec j' j) as [->|]; [done|apply Hsame; lia].
        * split; [done|]. right. split; [done|]. exists j. split; [lia|done].
      + apply wp_ret. assert (j = n) as -> by lia. split; [done|]. by left.
    - split; [done|]. exists 0. split_and!; lia.
    - lia. }
  destruct (wp_inv _ _ _ H) as (r & s' & E & -> & Hr). clear H.
  unfold memcmp. rewrite (bind_Ret _ _ _ _ _ E). clear E.
  assert (src_a mod 8 = 0 /\ src_b mod 8 = 0) as [Aa Ab] by (destruct Ha as (_ & _ & ?), Hb as (_ & _ & ?); done).
  destruct Hr as [[-> Hall]|[-> (j & Hj & Hdiff)]].
  - exists 0. split; [|split; [by left|]].
    + apply wp_exact, (wp_while (fun i s' => i = 4 * n /\ s' = s) (fun _ _ => 0)); [lia| |done|lia].
      intros i s' [-> ->]. unfold memcmp_bytes. by rewrite Z.sub_diag.
    + split; [intros _ k Hk|done]. pose proof (Hall (k / 8) ltac:(dlia)) as Hw. unfold same in Hw.
      apply (f_equal (fun w => word_byte w (k mod 8))) in Hw. rewrite !byte_rd in Hw by dlia.
      replace (src_a + k) with (src_a + 8 * (k / 8) + k mod 8) by dlia.
      by replace (src_b + k) with (src_b + 8 * (k / 8) + k mod 8) by dlia.
  - exists 1. split; [done|]. split; [by right|]. split; [done|]. intros Hall. exfalso. apply Hdiff.
    apply word_ext; [apply rd_u64..|]. intros k Hk. rewrite !byte_rd by dlia.
    specialize (Hall (8 * j + k) ltac:(lia)). by rewrite !Z.add_assoc in Hall.
Qed.

(** *** [strncpy] *)

Lemma lor_opp_bit o b :
  0 <= o < 256 -> 0 <= b < 8 ->
  Z.testbit (Z.lor o (- o)) b = negb (o mod 2 ^ (b + 1) =? 0).
Proof.
  intros Ho Hb.
  assert (forallb (fun o => forallb (fun b =>
    eqb (Z.testbit (Z.lor o (- o)) b) (negb (o mod 2 ^ (b + 1) =? 0))) (upto 0 8)) (upto 0 256) = true)
    as H by (vm_compute; reflexivity).
  rewrite forallb_forall in H. specialize (H o). rewrite forallb_forall in H.
  apply eqb_prop, H; apply list_elem_of_In, elem_of_upto; lia.
Qed.

Lemma strncpy_mask_bit mask o b :
  0 <= o < 256 -> 0 <= b < 8 ->
  Z.testbit (strncpy_mask mask o) b = Z.testbit mask b && negb (o mod 2 ^ (b + 1) =? 0).
Proof.
  intros Ho Hb. unfold strncpy_mask, wrap8. change 256 with (2 ^ 8).
  rewrite Z.mod_pow2_bits_low, Z.land_spec, lor_opp_bit by lia. apply andb_comm.
Qed.

Lemma wrap8_land x y : 0 <= x < 256 -> wrap8 (Z.land x y) = Z.land x y.
Proof.
  intros Hx. rewrite <- (wrap8_small x Hx). apply Z.bits_inj'. intros k Hk.
  unfold wrap8. change 256 with (2 ^ 8). destruct (Z.ltb_spec k 8).
  - by rewrite Z.mod_pow2_bits_low by lia.
  - by rewrite Z.land_spec, !Z.mod_pow2_bits_high by lia.
Qed.

Section Strncpy.
Context (dest src size : Z) (s : kstate).
Context (Hs : kbytes src size) (Hd : kbytes dest size) (Hsize : 0 <= size).
Context (Happart : dest + size <= src \/ src + size <= dest).
Local Abbreviation from := (fun k => byte (mem s) (src + k)).

Lemma strncpy_loop :
  wp (for_fold (upto 0 size) (fun mask i =>
    output ← load8 (src ⊕ i);
    let mask' := strncpy_mask mask output in
    store8 (dest ⊕ i) (Z.land output mask') ;;
    mret mask') 255)
    (fun _ s' => exists m' f, s' = set_mem m' s /\ copied (mem s) m' dest size f /\
      forall i b, 0 <= i < size -> 0 <= b < 8 ->
        Z.testbit (f i) b = true <->
        Z.testbit (from i) b = true /\ forall j, 0 <= j <= i -> from j mod 2 ^ (b + 1) <> 0) s.
Proof.
  set (keeps i b := forall j, 0 <= j < i -> from j mod 2 ^ (b + 1) <> 0).
  apply (wp_for_fold (fun i mask s' => (forall b, 0 <= b < 8 -> Z.testbit mask b = true <-> keeps i b) /\
    exists m' f, s' = set_mem m' s /\ copied (mem s) m' dest i f /\
      forall k b, 0 <= k < i -> 0 <= b < 8 ->
        Z.testbit (f k) b = true <-> Z.testbit (from k) b = true /\ keeps (k + 1) b)).
  - done.
  - split.
    + intros b Hb. split; [intros _ j Hj; lia|intros _]. change 255 with (Z.ones 8).
      apply Z.ones_spec_low. lia.
    + exists (mem s), from. split; [symmetry; apply set_mem_id|]. split; [apply copied_nil|lia].
  - intros i mask s' Hi (Hmask & m' & f & -> & H & Hf). unfold wp.
    rewrite (bind_Ret _ _ _ _ _ (load8_byte src size i _ Hs Hi)). cbn [mem set_mem].
    assert (byte m' (src + i) = from i) as ->.
    { rewrite H. by replace ((dest <=? src + i) && (src + i <? dest + i)) with false by lia. }
    pose proof (byte_range (mem s) (src + i)) as Hr.
    rewrite (bind_Ret _ _ _ _ _ (store8_byte dest size i _ _ Hd Hi)). cbn [mret M_ret].
    assert (forall b, 0 <= b < 8 -> Z.testbit (strncpy_mask mask (from i)) b = true <-> keeps (i + 1) b) as Hm.
    { intros b Hb. rewrite strncpy_mask_bit, andb_true_iff, negb_true_iff, Z.eqb_neq, Hmask by done.
      split; [|intros Hk; split; [intros j Hj; apply Hk; lia|apply Hk; lia]].
      intros [Hk Hi'] j Hj. destruct (Z.eq_dec j i) as [->|]; [done|apply Hk; lia]. }
    split; [done|]. eexists _, (fun k => if k =? i then Z.land (from i) (strncpy_mask mask (from i)) else f k).
    split; [done|]. cbn [mem set_mem]. split.
    + intros b. rewrite byte_wr8, H. destruct (Z.eqb_spec b (dest + i)) as [->|Hne].
      * replace ((dest <=? dest + i) && (dest + i <? dest + (i + 1))) with true by lia.
        replace (dest + i - dest =? i) with true by lia.
        by apply wrap8_land.
      * replace (b <? dest + (i + 1)) with (b <? dest + i) by lia.
        destruct ((dest <=? b) && (b <? dest + i)); [|done]. by replace (b - dest =? i) with false by lia.
    + intros k b Hk Hb. destruct (Z.eqb_spec k i) as [->|].
      * rewrite Z.land_spec, andb_true_iff, Hm by done. done.
      * apply Hf; [lia|done].
  - intros mask s' (_ & m' & f & -> & H & Hf). exists m', f. split; [done|]. split; [done|].
    intros i b Hi Hb. rewrite Hf by done. unfold keeps.
    split; (intros [? Hk]; split; [done|intros j Hj; apply Hk; lia]).
Qed.

(** [strncpy] keeps bit [b] of a character only if no character up to it
    is a multiple of [2^(b+1)]: the mask meant to blank what follows the
    terminator also clears low bits after every even character. *)
Theorem strncpy_bits :
  exists m', strncpy dest src size s = Ret tt (set_mem m' s) /\
    (forall i b, 0 <= i < size -> 0 <= b < 8 ->
       Z.testbit (byte m' (dest + i)) b = true <->
       Z.testbit (byte (mem s) (src + i)) b = true /\
       forall j, 0 <= j <= i -> byte (mem s) (src + j) mod 2 ^ (b + 1) <> 0) /\
    (forall a, a < dest \/ dest + size <= a -> byte m' a = byte (mem s) a).
Proof.
  destruct (wp_inv _ _ _ strncpy_loop) as (mask & s' & E & m' & f & -> & H & Hf).
  exists m'. unfold strncpy. rewrite (bind_Ret _ _ _ _ _ E). split; [done|]. split.
  - intros i b Hi Hb. rewrite <- Hf by done. rewrite H.
    replace ((dest <=? dest + i) && (dest + i <? dest + size)) with true by lia.
    by replace (dest + i - dest) with i by lia.
  - intros a Ha. rewrite H. by replace ((dest <=? a) && (a <? dest + size)) with false by lia.
Qed.
End Strncpy.

(** A string in a concrete memory, by evaluation. *)
Definition cstring_check (m : gmap Z Z) (a : Z) (l : list Z) : bool :=
  (KERNEL_VMA_START <=? a) && (a + (Z.of_nat (length l) + 1) <=? 18446744073709551616) && forallb (Z.ltb 0) l &&
  bool_decide ((fun k => byte m (a + Z.of_nat k)) <$> seq 0 (S (length l)) = l ++ [0]).

Lemma cstring_checked m a l : cstring_check m a l = true -> cstring m a l.
Proof.
  unfold cstring_check. intros H. apply andb_prop in H as [H E%bool_decide_eq_true]. apply andb_prop in H as [H Hl].
  apply andb_prop in H as [H1 H2].
  assert (forall k c, (l ++ [0]) !! k = Some c -> byte m (a + Z.of_nat k) = c) as Hb.
  { intros k c Hc. rewrite <- E in Hc. apply list_lookup_fmap_Some in Hc as (j & -> & Hj).
    by apply lookup_seq in Hj as [-> _]. }
  split; [unfold kbytes; lia| |apply Hb, list_lookup_middle; done].
  intros k c Hc. split; [apply Hb; by rewrite lookup_app_l by (by eapply lookup_lt_Some)|].
  rewrite forallb_forall in Hl. apply Z.ltb_lt, Hl, list_elem_of_In. by eapply list_elem_of_lookup_2.
Qed.

(** ** Witnesses *)

Definition demo_base : Z := 0xffffffc080000000.

(** Writing a string in memory, one byte at a time. *)
Fixpoint put_bytes (m : gmap Z Z) (a : Z) (l : list Z) : gmap Z Z :=
  match l with
  | [] => m
  | c :: l' => put_bytes (wr_field 1 m a c) (a + 1) l'
  end.

Definition demo_strings : kstate :=
  set_mem (put_bytes (put_bytes ∅ demo_base (chars "ba" ++ [0]))
             (demo_base + 64) (chars "ELF!" ++ [1])) zero_state.

Lemma demo_ba : cstring (mem demo_strings) demo_base [98; 97].
Proof.
  split; [unfold kbytes; zdone| |by vm_compute].
  intros [|[|k]] c Hc; cbn in Hc; [injection Hc as <-|injection Hc as <-|done];
    split; [by vm_compute|lia|by vm_compute|lia].
Qed.

Lemma strcmp_correct_witness :
  strcmp demo_base demo_base demo_strings = Ret 0 demo_strings.
Proof.
  rewrite (proj1 (strcmp_correct demo_strings demo_base demo_base _ _ demo_ba demo_ba)).
  reflexivity.
Defined.

Lemma memcpy_correct_witness :
  exists m', memcpy (demo_base + 128) (demo_base + 1) 2 demo_strings = Ret tt (set_mem m' demo_strings) /\
    byte m' (demo_base + 128) = 97.
Proof.
  destruct (memcpy_correct (demo_base + 128) (demo_base + 1) 2 demo_strings
    ltac:(unfold kbytes; zdone) ltac:(unfold kbytes; zdone) ltac:(zdone) ltac:(right; zdone))
    as (m' & E & H & _).
  exists m'. split; [exact E|]. exact (H 0 ltac:(lia)).
Defined.

Lemma strscpy_correct_witness :
  exists m', strscpy (demo_base + 128) demo_base 2 demo_strings = Ret tt (set_mem m' demo_strings) /\
    cstring m' (demo_base + 128) [98].
Proof.
  destruct (strscpy_correct (demo_base + 128) demo_base 2 _ demo_strings demo_ba
    ltac:(unfold kbytes; zdone) ltac:(zdone) ltac:(right; zdone)) as (m' & E & H & _).
  exact (ex_intro _ m' (conj E H)).
Defined.

Lemma strncpy_bits_witness :
  exists m', strncpy (demo_base + 128) demo_base 2 demo_strings = Ret tt (set_mem m' demo_strings) /\
    Z.testbit (byte (mem demo_strings) (demo_base + 1)) 0 = true /\
    Z.testbit (byte m' (demo_base + 128 + 1)) 0 = false.
Proof.
  destruct (strncpy_bits (demo_base + 128) demo_base 2 demo_strings
    ltac:(unfold kbytes; zdone) ltac:(unfold kbytes; zdone) ltac:(zdone) ltac:(right; zdone))
    as (m' & E & H & _).
  exists m'. split; [exact E|]. split; [by vm_compute|].
  apply not_true_is_false. intros Hb. apply (H 1 0 ltac:(lia) ltac:(lia)) in Hb as [_ Hb].
  apply (Hb 0 ltac:(lia)). vm_compute. reflexivity.
Defined.

(** The 4 bytes "ELF!" at two places, followed by different bytes. *)
Lemma memcmp_reads_twice_witness :
  exists r, memcmp (4 * 1) (demo_base + 64) (demo_base + 64) demo_strings = Ret r demo_strings /\ r = 0.
Proof.
  destruct (memcmp_reads_twice 1 (demo_base + 64) (demo_base + 64) demo_strings
    ltac:(lia) ltac:(unfold kblock; zdone) ltac:(unfold kblock; zdone)) as (r & E & _ & H).
  exists r. split; [exact E|]. apply H. reflexivity.
Defined.
