(* ===== verification/Endian.v ===== *)
(** * Byte order ([include/endian.c]) *)
From S2P Require Import Prelude Machine.

Definition BIG_ENDIAN : Z := 0.
Definition LITTLE_ENDIAN : Z := 1.

Definition flip_u64 (input : Z) : Z :=
  Z.lor (Z.lor (Z.lor (Z.lor (Z.lor (Z.lor (Z.lor
    (Z.shiftl (Z.land 0x00000000000000FF input) (8 * 7))
    (Z.shiftl (Z.land 0x000000000000FF00 input) (8 * 5)))
    (Z.shiftl (Z.land 0x0000000000FF0000 input) (8 * 3)))
    (Z.shiftl (Z.land 0x00000000FF000000 input) (8 * 1)))
    (Z.shiftr (Z.land 0x000000FF00000000 input) (8 * 1)))
    (Z.shiftr (Z.land 0x0000FF0000000000 input) (8 * 3)))
    (Z.shiftr (Z.land 0x00FF000000000000 input) (8 * 5)))
    (Z.shiftr (Z.land 0xFF00000000000000 input) (8 * 7)).

Definition flip_u32 (input : Z) : Z :=
  Z.lor (Z.lor (Z.lor
    (Z.shiftl (Z.land 0x000000FF input) (8 * 3))
    (Z.shiftl (Z.land 0x0000FF00 input) (8 * 1)))
    (Z.shiftr (Z.land 0x00FF0000 input) (8 * 1)))
    (Z.shiftr (Z.land 0xFF000000 input) (8 * 3)).

Definition flip_u16 (input : Z) : Z :=
  Z.lor (Z.shiftl (Z.land 0x00FF input) (8 * 1)) (Z.shiftr (Z.land 0xFF00 input) (8 * 1)).

(** The six converters differ in the order they leave alone and in the width. *)
Definition to_host (same_order : Z) (flip : Z -> Z) (v : Z) : M Z :=
  e ← gets endian_type;
  mret (if e =? same_order then v else flip v).

Definition big_endian_u64_to_host : Z -> M Z := to_host BIG_ENDIAN flip_u64.
Definition little_endian_u64_to_host : Z -> M Z := to_host LITTLE_ENDIAN flip_u64.
Definition big_endian_u32_to_host : Z -> M Z := to_host BIG_ENDIAN flip_u32.
Definition little_endian_u32_to_host : Z -> M Z := to_host LITTLE_ENDIAN flip_u32.
Definition big_endian_u16_to_host : Z -> M Z := to_host BIG_ENDIAN flip_u16.
Definition little_endian_u16_to_host : Z -> M Z := to_host LITTLE_ENDIAN flip_u16.

(** [*ptr] is the first byte of the global [endian_type]. *)
Definition init_endian_conversion : M unit :=
  modify (set_endian 1) ;;
  e ← gets endian_type;
  if get_field 1 e 0 =? 0 then modify (set_endian BIG_ENDIAN) else modify (set_endian LITTLE_ENDIAN).

(** ** Lemmas *)

(** Bit [j] of a value whose [n] bytes are put in the opposite order. *)
Definition flip_bit (n j : Z) : Z := 8 * (n - 1 - j / 8) + j mod 8.

Ltac one_bit x :=
  cbv beta; rewrite ?Z.lor_spec, ?Z.shiftl_spec, ?Z.shiftr_spec, ?Z.land_spec by lia;
  generalize (Z.testbit x); intros f; vm_compute;
  repeat match goal with |- context [f ?k] => destruct (f k) end; reflexivity.
Ltac all_bits x :=
  repeat first [apply List.Forall_nil | (apply List.Forall_cons; [solve [one_bit x]|])].

Lemma flip_u64_bit x j : 0 <= j < 64 -> Z.testbit (flip_u64 x) j = Z.testbit x (flip_bit 8 j).
Proof.
  revert j. apply (forall_upto (fun j => Z.testbit (flip_u64 x) j = Z.testbit x (flip_bit 8 j)) 64 _ eq_refl).
  unfold flip_u64. let l := eval vm_compute in (upto 0 64) in change (upto 0 64) with l. all_bits x.
Qed.

Lemma flip_u32_bit x j : 0 <= j < 32 -> Z.testbit (flip_u32 x) j = Z.testbit x (flip_bit 4 j).
Proof.
  revert j. apply (forall_upto (fun j => Z.testbit (flip_u32 x) j = Z.testbit x (flip_bit 4 j)) 32 _ eq_refl).
  unfold flip_u32. let l := eval vm_compute in (upto 0 32) in change (upto 0 32) with l. all_bits x.
Qed.

Lemma flip_u16_bit x j : 0 <= j < 16 -> Z.testbit (flip_u16 x) j = Z.testbit x (flip_bit 2 j).
Proof.
  revert j. apply (forall_upto (fun j => Z.testbit (flip_u16 x) j = Z.testbit x (flip_bit 2 j)) 16 _ eq_refl).
  unfold flip_u16. let l := eval vm_compute in (upto 0 16) in change (upto 0 16) with l. all_bits x.
Qed.

(** ** Numbers spelt by bytes *)

(** The most significant byte first. *)
Definition be_value (l : list Z) : Z := fold_left (fun acc b => acc * 256 + b) l 0.

(** The [n] bytes from [a] on. *)
Definition bytes_at (m : gmap Z Z) (a n : Z) : list Z := (fun k => byte m (a + k)) <$> upto 0 n.

Lemma be_value_snoc l b : be_value (l ++ [b]) = be_value l * 256 + b.
Proof. unfold be_value. by rewrite fold_left_app. Qed.

Lemma be_value_range l :
  Forall (fun b => 0 <= b < 256) l -> 0 <= be_value l < 2 ^ (8 * Z.of_nat (length l)).
Proof.
  induction l as [|b l IH] using rev_ind; intros H; [cbn; lia|].
  apply Forall_app in H as [Hl Hb]. inversion Hb; subst.
  rewrite be_value_snoc, length_app. cbn [length].
  replace (8 * Z.of_nat (length l + 1)) with (8 * Z.of_nat (length l) + 8) by lia.
  rewrite Z.pow_add_r by lia. specialize (IH Hl). lia.
Qed.

Lemma testbit_digit x b j :
  0 <= b < 256 -> 0 <= j ->
  Z.testbit (x * 256 + b) j = if j <? 8 then Z.testbit b j else Z.testbit x (j - 8).
Proof.
  intros Hb Hj. destruct (Z.ltb_spec j 8).
  - rewrite <- (Z.mod_pow2_bits_low _ 8) by lia. change (2 ^ 8) with 256.
    by rewrite (Z.add_comm (x * 256)), Z_mod_plus_full, Z.mod_small by lia.
  - replace j with (j - 8 + 8) at 1 by lia. rewrite <- Z.shiftr_spec by lia.
    rewrite Z.shiftr_div_pow2 by lia. change (2 ^ 8) with 256. f_equal. dlia.
Qed.

Lemma be_value_bit l j :
  Forall (fun b => 0 <= b < 256) l -> 0 <= j < 8 * Z.of_nat (length l) ->
  Z.testbit (be_value l) j =
    Z.testbit (nth (length l - 1 - Z.to_nat (j / 8)) l 0) (j mod 8).
Proof.
  revert j. induction l as [|b l IH] using rev_ind; intros j H Hj; [cbn in Hj; lia|].
  apply Forall_app in H as [Hl Hb]. inversion Hb; subst.
  rewrite be_value_snoc, testbit_digit by lia. rewrite length_app in *. cbn [length] in *.
  destruct (Z.ltb_spec j 8).
  - replace (j / 8) with 0 by dlia. replace (j mod 8) with j by dlia.
    rewrite app_nth2 by (cbn; lia). by replace (length l + 1 - 1 - Z.to_nat 0 - length l)%nat with O by (cbn; lia).
  - rewrite IH by (done || lia). rewrite app_nth1 by dlia.
    replace ((j - 8) mod 8) with (j mod 8) by dlia. f_equal. f_equal. dlia.
Qed.

Lemma nth_bytes_at m a n (k : nat) d :
  Z.of_nat k < n -> nth k (bytes_at m a n) d = byte m (a + Z.of_nat k).
Proof.
  intros Hk. apply nth_lookup_Some. unfold bytes_at. rewrite list_lookup_fmap_Some.
  exists (Z.of_nat k). split; [done|]. unfold upto. apply lookup_seqZ. lia.
Qed.

Lemma bytes_at_be m a n j :
  0 <= j < 8 * n ->
  Z.testbit (be_value (bytes_at m a n)) j = Z.testbit (byte m (a + (n - 1 - j / 8))) (j mod 8).
Proof.
  intros Hj. assert (length (bytes_at m a n) = Z.to_nat n) as El
    by (unfold bytes_at; rewrite length_fmap, length_upto; lia).
  rewrite be_value_bit.
  - rewrite nth_bytes_at by (rewrite El; dlia). do 3 f_equal. rewrite El. dlia.
  - apply list.Forall_forall. intros b Hb. apply list_elem_of_fmap in Hb as (k & -> & _). apply byte_range.
  - rewrite El. lia.
Qed.

Lemma bytes_at_be_range m a n : 0 <= n -> 0 <= be_value (bytes_at m a n) < 2 ^ (8 * n).
Proof.
  intros Hn. assert (length (bytes_at m a n) = Z.to_nat n) as El
    by (unfold bytes_at; rewrite length_fmap, length_upto; lia).
  pose proof (be_value_range (bytes_at m a n)) as H. rewrite El, Z2Nat.id in H by done. apply H.
  apply list.Forall_forall. intros b Hb. apply list_elem_of_fmap in Hb as (k & -> & _). apply byte_range.
Qed.

(** A bit of a field is a bit of one of its bytes. *)
Lemma field_bit_byte n m a j :
  width n -> a mod n = 0 -> 0 <= j < 8 * n ->
  Z.testbit (rd_field n m a) j = Z.testbit (byte m (a + j / 8)) (j mod 8).
Proof.
  intros Hn Ha Hj. pose proof (field_in_word n a Hn Ha) as Hw.
  unfold byte, rd_field. rewrite !get_field_testbit by dlia.
  replace (j <? 8 * n) with true by lia. replace (j mod 8 <? 8 * 1) with true by dlia.
  rewrite !andb_true_r. unfold word_of in *.
  replace (a + j / 8 - (a + j / 8) mod 8) with (a - a mod 8) by dlia. f_equal. dlia.
Qed.

Lemma rd_field_8 m a : a mod 8 = 0 -> rd_field 8 m a = rd m a.
Proof.
  intros Ha. unfold rd_field, word_of, get_field. rewrite Ha, Z.sub_0_r. cbn [Z.mul].
  rewrite Z.shiftr_0_r. apply Z.mod_small. apply (rd_u64 m a).
Qed.

Lemma to_host_little s flip v e : endian_type s = LITTLE_ENDIAN -> e = BIG_ENDIAN -> to_host e flip v s = Ret (flip v) s.
Proof. intros H ->. unfold to_host. kstep. by rewrite H. Qed.

Lemma lor_nonneg x y : 0 <= x -> 0 <= y -> 0 <= Z.lor x y.
Proof. intros. by apply Z.lor_nonneg. Qed.

Ltac high_masks :=
  repeat match goal with
  | |- context [Z.testbit (Zpos ?p) ?e] =>
      let lg := eval vm_compute in (Z.log2 (Zpos p)) in
      rewrite (Z.bits_above_log2 (Zpos p) e) by first [lia | (change (Z.log2 (Zpos p)) with lg; lia)]
  end.

Ltac flip_high :=
  rewrite ?Z.lor_spec, ?Z.shiftl_spec, ?Z.shiftr_spec, ?Z.land_spec by lia; high_masks; reflexivity.

Lemma flip_u64_high x k : 64 <= k -> Z.testbit (flip_u64 x) k = false.
Proof. intros Hk. unfold flip_u64. flip_high. Qed.

Lemma flip_u32_high x k : 32 <= k -> Z.testbit (flip_u32 x) k = false.
Proof. intros Hk. unfold flip_u32. flip_high. Qed.

Lemma flip_u16_high x k : 16 <= k -> Z.testbit (flip_u16 x) k = false.
Proof. intros Hk. unfold flip_u16. flip_high. Qed.

Lemma be_high m a n k : 0 <= n -> 8 * n <= k -> Z.testbit (be_value (bytes_at m a n)) k = false.
Proof.
  intros Hn Hk. pose proof (bytes_at_be_range m a n Hn) as H.
  rewrite <- (Z.mod_small _ _ H). apply Z.mod_pow2_bits_high. lia.
Qed.

Lemma flip_u64_value m a : a mod 8 = 0 -> flip_u64 (rd m a) = be_value (bytes_at m a 8).
Proof.
  intros Ha. apply Z.bits_inj'. intros k Hk. destruct (Z.lt_ge_cases k 64).
  - rewrite flip_u64_bit, bytes_at_be by lia. rewrite <- rd_field_8 by done.
    unfold flip_bit. rewrite field_bit_byte by (done || (unfold width; lia) || dlia).
    f_equal; [f_equal|]; dlia.
  - by rewrite flip_u64_high, be_high by lia.
Qed.

Lemma flip_u32_value m a : a mod 4 = 0 -> flip_u32 (rd_field 4 m a) = be_value (bytes_at m a 4).
Proof.
  intros Ha. apply Z.bits_inj'. intros k Hk. destruct (Z.lt_ge_cases k 32).
  - rewrite flip_u32_bit, bytes_at_be by lia. unfold flip_bit.
    rewrite field_bit_byte by (done || (unfold width; lia) || dlia).
    f_equal; [f_equal|]; dlia.
  - by rewrite flip_u32_high, be_high by lia.
Qed.

Lemma flip_u16_value m a : a mod 2 = 0 -> flip_u16 (rd_field 2 m a) = be_value (bytes_at m a 2).
Proof.
  intros Ha. apply Z.bits_inj'. intros k Hk. destruct (Z.lt_ge_cases k 16).
  - rewrite flip_u16_bit, bytes_at_be by lia. unfold flip_bit.
    rewrite field_bit_byte by (done || (unfold width; lia) || dlia).
    f_equal; [f_equal|]; dlia.
  - by rewrite flip_u16_high, be_high by lia.
Qed.

(** After start-up the host order is little endian. *)
Lemma init_endian_little s : init_endian_conversion s = Ret tt (set_endian LITTLE_ENDIAN (set_endian 1 s)).
Proof. reflexivity. Qed.

(** After [init_endian_conversion] the big-endian converters give the
    number spelt by the bytes in memory, most significant first, for aligned
    words and half-words, and the little-endian ones leave values alone. *)
Theorem big_endian_after_init s :
  exists s', init_endian_conversion s = Ret tt s' /\ mem s' = mem s /\
    (forall a, a mod 8 = 0 -> big_endian_u64_to_host (rd (mem s) a) s' = Ret (be_value (bytes_at (mem s) a 8)) s') /\
    (forall a, a mod 4 = 0 ->
       big_endian_u32_to_host (rd_field 4 (mem s) a) s' = Ret (be_value (bytes_at (mem s) a 4)) s') /\
    (forall v, little_endian_u64_to_host v s' = Ret v s').
Proof.
  exists (set_endian LITTLE_ENDIAN (set_endian 1 s)). split; [apply init_endian_little|].
  split; [done|]. split; [|split; [|done]].
  - intros a Ha. unfold big_endian_u64_to_host. rewrite to_host_little by done. by rewrite flip_u64_value.
  - intros a Ha. unfold big_endian_u32_to_host. rewrite to_host_little by done. by rewrite flip_u32_value.
Qed.

(** Flipping twice is the identity. *)
Theorem flip_u64_involutive x : u64 x -> flip_u64 (flip_u64 x) = x.
Proof.
  intros Hx. apply Z.bits_inj'. intros k Hk. destruct (Z.lt_ge_cases k 64).
  - rewrite !flip_u64_bit by (unfold flip_bit; dlia). f_equal. unfold flip_bit. dlia.
  - by rewrite flip_u64_high, u64_high_bit.
Qed.
