(* ===== verification/Uart.v ===== *)
(** * Printing ([drivers/uart/uart.c])

    The printing routines over an abstract console: a byte given to it is
    appended to [tx], and it takes every byte.  File Uart16550 has the polling
    driver that stands in this place in the program, and proves that it does
    this on a device that gets ready. *)
From S2P Require Import Prelude Machine Strings.

(** ** The code *)

(** What the program asks of its console: the specification of
    [uart_16550_output_u8], whose definition is in file Uart16550. *)
Definition console_put (output_u8 : Z) : M unit :=
  modify (fun s => set_tx (tx s ++ [wrap8 output_u8]) s).

Definition uart_print_char (print_char : Z) : M unit :=
  console_put print_char ;;
  when (wrap8 print_char =? 10) (console_put 13).

Definition uart_print_str (print_string : Z) : M unit :=
  while_true (fun p =>
    c ← load8 p;
    if c =? 0 then mret (inr tt) else console_put c ;; mret (inl (p ⊕ 1))) print_string.

(** [uart_print_str] of a string constant of the program. *)
Definition uart_print_lit (t : string) : M unit := for_each (chars t) console_put.

Definition uart_println_char (print_char : Z) : M unit :=
  uart_print_char print_char ;; uart_print_char 10.
Definition uart_println_str (print_string : Z) : M unit :=
  uart_print_str print_string ;; uart_print_char 10.
Definition uart_println_lit (t : string) : M unit := uart_print_lit t ;; uart_print_char 10.

Definition hex_list (d : Z) : Z := nth (Z.to_nat d) (chars "0123456789ABCDEF") 0.

(** The loop of the three hexadecimal printers, from digit [top] down. *)
Definition print_hex_digits (hex_value top : Z) : M unit :=
  for_each (rev (upto 0 (top + 1))) (fun i =>
    uart_print_char (hex_list (Z.land (Z.shiftr hex_value (i * 4)) 15))).

Definition uart_print_u64_hex (hex_value : Z) : M unit := print_hex_digits hex_value 15.
Definition uart_print_u32_hex (hex_value : Z) : M unit := print_hex_digits hex_value 7.
Definition uart_print_u8_hex (hex_value : Z) : M unit := print_hex_digits hex_value 1.
Definition uart_println_u64_hex (hex_value : Z) : M unit :=
  uart_print_u64_hex hex_value ;; uart_print_char 10.

Definition uart_println_u32_hex (hex_value : Z) : M unit :=
  uart_print_u32_hex hex_value ;; uart_print_char 10.
Definition uart_println_u8_hex (hex_value : Z) : M unit :=
  uart_print_u8_hex hex_value ;; uart_print_char 10.

(** The loop that fills [digits] from the last place down, and leaves the
    index of the first digit in [bottom]. *)
Fixpoint fill_digits (rounds : nat) (i num : Z) (digits : list Z) : Z * list Z :=
  match rounds with
  | O => (0, digits)
  | S r =>
      let digits' := <[Z.to_nat i := wrap8 (num mod 10)]> digits in
      if num / 10 =? 0 then (i, digits') else fill_digits r (i - 1) (num / 10) digits'
  end.

Definition uart_print_u64 (num : Z) : M unit :=
  let '(bottom, digits) := fill_digits 20 19 num (replicate 20 0) in
  for_each (upto bottom 20) (fun i => uart_print_char (hex_list (nth (Z.to_nat i) digits 0))).

Definition uart_println_u64 (num : Z) : M unit := uart_print_u64 num ;; uart_print_char 10.

(** [-num] of the least [s64] overflows. *)
Definition uart_print_s64 (num : Z) : M unit :=
  if num <? 0 then
    uart_print_char 45 ;;
    if num =? -9223372036854775808 then undef "s64 overflow" else uart_print_u64 (- num)
  else uart_print_u64 num.

Definition uart_println_s64 (num : Z) : M unit := uart_print_s64 num ;; uart_print_char 10.

(** ** What is sent *)

Definition sent (l : list Z) (s : kstate) : kstate := set_tx (tx s ++ l) s.

Lemma sent_sent l1 l2 s : sent l2 (sent l1 s) = sent (l1 ++ l2) s.
Proof. unfold sent. cbn. by rewrite app_assoc. Qed.

Lemma sent_nil s : sent [] s = s.
Proof. unfold sent. rewrite app_nil_r. by destruct s. Qed.

Lemma output_u8_sent c s : console_put c s = Ret tt (sent [wrap8 c] s).
Proof. done. Qed.

Lemma print_char_sent c s :
  0 <= c < 256 -> c <> 10 -> uart_print_char c s = Ret tt (sent [c] s).
Proof.
  intros Hc Hn. unfold uart_print_char. rewrite (bind_Ret _ _ _ _ _ (output_u8_sent c s)).
  rewrite wrap8_small by done. by destruct (Z.eqb_spec c 10).
Qed.

(** A newline is sent as newline and carriage return. *)
Lemma print_newline s : uart_print_char 10 s = Ret tt (sent [10; 13] s).
Proof.
  unfold uart_print_char. rewrite (bind_Ret _ _ _ _ _ (output_u8_sent 10 s)).
  change (when (wrap8 10 =? 10) (console_put 13)) with (console_put 13).
  by rewrite output_u8_sent, sent_sent.
Qed.

Lemma for_each_sent {A} (f : A -> Z) (body : A -> M unit) l s :
  (forall x s', x ∈ l -> body x s' = Ret tt (sent [f x] s')) ->
  for_each l body s = Ret tt (sent (f <$> l) s).
Proof.
  revert s. induction l as [|x l IH]; intros s H; [by rewrite sent_nil|].
  cbn [for_each]. rewrite (bind_Ret _ _ _ _ _ (H x s ltac:(set_solver))).
  rewrite IH by (intros; apply H; set_solver). by rewrite sent_sent.
Qed.

(** Code that only prints: it returns, and all it changes is what was sent. *)
Definition prints (c : M unit) : Prop := forall s, exists l, c s = Ret tt (sent l s).

Lemma prints_skip : prints skip.
Proof. intros s. exists []. by rewrite sent_nil. Qed.

Lemma prints_bind c k : prints c -> prints k -> prints (c ;; k).
Proof.
  intros Hc Hk s. destruct (Hc s) as (l & E). destruct (Hk (sent l s)) as (l' & E').
  exists (l ++ l'). by rewrite (bind_Ret _ _ _ _ _ E), E', sent_sent.
Qed.

Lemma prints_for_each {A} (l : list A) body : (forall x, prints (body x)) -> prints (for_each l body).
Proof. intros H. induction l as [|x l IH]; [exact prints_skip|]. cbn [for_each]. by apply prints_bind. Qed.

Lemma prints_u8 c : prints (console_put c).
Proof. intros s. exists [wrap8 c]. apply output_u8_sent. Qed.

Lemma prints_char c : prints (uart_print_char c).
Proof.
  apply prints_bind; [apply prints_u8|]. unfold when. destruct (wrap8 c =? 10); [apply prints_u8|apply prints_skip].
Qed.

Lemma prints_lit t : prints (uart_print_lit t).
Proof. apply prints_for_each. intros x. apply prints_u8. Qed.

Lemma prints_line t : prints (uart_println_lit t).
Proof. apply prints_bind; [apply prints_lit|apply prints_char]. Qed.

Lemma prints_hex v top : prints (print_hex_digits v top).
Proof. apply prints_for_each. intros i. apply prints_char. Qed.

Lemma prints_u64 v : prints (uart_print_u64 v).
Proof. unfold uart_print_u64. destruct (fill_digits _ _ _ _) as [bottom digits]. apply prints_for_each. intros i. apply prints_char. Qed.

Lemma prints_s64 v : v <> -9223372036854775808 -> prints (uart_print_s64 v).
Proof.
  intros Hv. unfold uart_print_s64. destruct (v <? 0); [|apply prints_u64]. apply prints_bind; [apply prints_char|].
  destruct (Z.eqb_spec v (-9223372036854775808)); [done|apply prints_u64].
Qed.

(** A printing step: whatever it sends, go on. *)
Lemma prints_then {A} c (k : M A) (Q : outcome A -> Prop) s :
  prints c -> (forall l, Q (k (sent l s))) -> Q ((c ;; k) s).
Proof. intros H HQ. destruct (H s) as (l & E). rewrite (bind_Ret _ _ _ _ _ E). apply HQ. Qed.

#[export] Hint Resolve prints_skip prints_u8 prints_char prints_lit prints_line prints_hex prints_u64 prints_s64
  prints_bind prints_for_each : kernel.

(** A string in memory is sent as it is, its newlines without carriage
    returns. *)
Theorem uart_print_str_correct a l s :
  cstring (mem s) a l -> uart_print_str a s = Ret tt (sent l s).
Proof.
  intros H. apply wp_exact. unfold uart_print_str. pose proof (cstring_short _ _ _ H) as Hl.
  destruct (cs_mapped _ _ _ H) as [Hb1 Hb2]. unfold KERNEL_VMA_START in *.
  apply (wp_while (fun i s' => exists p r, i = a ⊕ Z.of_nat (length p) /\ l = p ++ r /\ s' = sent p s)
    (fun i _ => a + Z.of_nat (length l) - i)).
  - intros i s' (p & r & -> & -> & _). rewrite length_app in *. rewrite wrap64_small; lia.
  - intros i s' (p & r & -> & E & ->). unfold wp.
    rewrite (bind_Ret _ _ _ _ _ (cstring_load _ _ _ H p r (sent p s) eq_refl E)).
    pose proof (f_equal length E) as El. rewrite length_app in El.
    destruct r as [|c r]; cbn [length] in El; [by rewrite E, app_nil_r|].
    pose proof (cstring_nonzero _ _ _ H _ _ _ E). destruct (Z.eqb_spec c 0); [lia|].
    assert (0 <= c < 256) as Hc.
    { pose proof (cstring_at _ _ _ H _ _ E) as Hb. cbn in Hb. rewrite <- Hb. apply byte_range. }
    rewrite (bind_Ret _ _ _ _ _ (output_u8_sent c _)), wrap8_small, sent_sent by done.
    cbn [mret M_ret]. split.
    + exists (p ++ [c]), r. split_and!; [|by rewrite <- app_assoc|done].
      rewrite length_app. cbn [length]. autorewrite with kz. f_equal. lia.
    + autorewrite with kz. rewrite !wrap64_small; lia.
  - exists [], l. cbn [length]. rewrite Z.add_0_r, wrap64_small, sent_nil by lia. done.
  - lia.
Qed.

Lemma chars_range t : Forall (fun c => 0 <= c < 256) (chars t).
Proof.
  induction t as [|c t IH]; cbn; constructor; [|done].
  pose proof (Ascii.N_ascii_bounded c). lia.
Qed.

Lemma print_lit_sent t s : uart_print_lit t s = Ret tt (sent (chars t) s).
Proof.
  unfold uart_print_lit. rewrite (for_each_sent id); [by rewrite list_fmap_id|].
  intros c s' Hc. pose proof (chars_range t) as Hr. rewrite list.Forall_forall in Hr.
  rewrite output_u8_sent. unfold id. by rewrite wrap8_small by (by apply Hr).
Qed.

(** ** Numbers *)

(** The value of a list of digit characters. *)
Definition digit_of (c : Z) : Z := if c <? 65 then c - 48 else c - 55.
Definition parse_digits (base : Z) (l : list Z) : Z :=
  fold_left (fun acc c => acc * base + digit_of c) l 0.

Lemma hex_list_digit d : 0 <= d < 16 -> digit_of (hex_list d) = d /\ 48 <= hex_list d < 71.
Proof.
  intros H. assert (forallb (fun d => (digit_of (hex_list d) =? d) && (48 <=? hex_list d) &&
    (hex_list d <? 71)) (upto 0 16) = true) as Hall by (vm_compute; reflexivity).
  rewrite forallb_forall in Hall. specialize (Hall d). rewrite <- list_elem_of_In, elem_of_upto in Hall.
  lia.
Qed.

Lemma parse_digits_snoc base l c : parse_digits base (l ++ [c]) = parse_digits base l * base + digit_of c.
Proof. unfold parse_digits. by rewrite fold_left_app. Qed.

(** Digit [k] of [x]. *)
Definition digit (base x k : Z) : Z := x / base ^ k mod base.

Lemma parse_digits_down base x lo n :
  1 < base <= 16 -> 0 <= x -> 0 <= lo -> 0 <= n ->
  parse_digits base ((fun k => hex_list (digit base x k)) <$> rev (upto lo (lo + n))) =
    x / base ^ lo mod base ^ n.
Proof.
  intros Hb Hx Hlo Hn. revert lo Hlo. pattern n. apply natlike_ind; [| |done].
  - intros lo Hlo. rewrite upto_nil by lia. cbn. by rewrite Z.mod_1_r.
  - clear n Hn. intros n Hn IH lo Hlo.
    rewrite upto_cons by lia. cbn [rev]. rewrite fmap_app. cbn [fmap list_fmap].
    rewrite parse_digits_snoc. replace (lo + Z.succ n) with (lo + 1 + n) by lia.
    rewrite IH by lia. destruct (hex_list_digit (digit base x lo)) as [-> _].
    { unfold digit. pose proof (Z.mod_pos_bound (x / base ^ lo) base). lia. }
    unfold digit. rewrite Z.pow_add_r, Z.pow_1_r, <- Z.div_div by (lia || (apply Z.pow_nonzero; lia) || (apply Z.pow_pos_nonneg; lia)).
    assert (0 < base ^ n) by (apply Z.pow_pos_nonneg; lia).
    rewrite Z.pow_succ_r, Z.rem_mul_r by lia. lia.
Qed.

Lemma print_hex_sent v top s :
  0 <= v -> 0 <= top -> print_hex_digits v top s =
    Ret tt (sent ((fun k => hex_list (digit 16 v k)) <$> rev (upto 0 (top + 1))) s).
Proof.
  intros Hv Ht. unfold print_hex_digits. apply for_each_sent. intros k s' Hk.
  assert (0 <= k) as Hk0 by (apply list_elem_of_In, in_rev, list_elem_of_In, elem_of_upto in Hk; lia).
  assert (Z.land (Z.shiftr v (k * 4)) 15 = digit 16 v k) as ->.
  { change 15 with (Z.ones 4). rewrite Z.land_ones, Z.shiftr_div_pow2 by lia. unfold digit.
    by rewrite Z.mul_comm, Z.pow_mul_r by lia. }
  destruct (hex_list_digit (digit 16 v k)); [apply Z.mod_pos_bound; lia|].
  apply print_char_sent; lia.
Qed.

(** [uart_print_u64_hex] sends the sixteen hexadecimal digits of its
    argument: reading them back gives the value. *)
Theorem uart_print_u64_hex_correct v s :
  u64 v -> exists l, uart_print_u64_hex v s = Ret tt (sent l s) /\ length l = 16%nat /\
    parse_digits 16 l = v.
Proof.
  intros [H0 H1]. eexists. split; [by apply print_hex_sent|]. split; [done|].
  change (15 + 1) with (0 + 16). rewrite parse_digits_down by lia.
  change (16 ^ 0) with 1. rewrite Z.div_1_r. apply Z.mod_small. done.
Qed.

Lemma fill_digits_S r i num ds :
  fill_digits (S r) i num ds =
    let ds' := <[Z.to_nat i := wrap8 (num mod 10)]> ds in
    if num / 10 =? 0 then (i, ds') else fill_digits r (i - 1) (num / 10) ds'.
Proof. done. Qed.

Lemma fill_digits_spec (i : nat) num ds :
  0 <= num < 10 ^ (Z.of_nat i + 1) -> (i < length ds)%nat ->
  exists b ds', fill_digits (S i) (Z.of_nat i) num ds = (b, ds') /\ 0 <= b <= Z.of_nat i /\
    (forall k, b <= k <= Z.of_nat i -> nth (Z.to_nat k) ds' 0 = digit 10 num (Z.of_nat i - k)) /\
    (forall k, Z.of_nat i < k -> nth (Z.to_nat k) ds' 0 = nth (Z.to_nat k) ds 0) /\
    num < 10 ^ (Z.of_nat i - b + 1) /\ (b = Z.of_nat i \/ 10 ^ (Z.of_nat i - b) <= num).
Proof.
  revert num ds. induction i as [|i IH]; intros num ds Hn Hl; rewrite fill_digits_S; cbv zeta;
    pose proof (Z.mod_pos_bound num 10 ltac:(lia)) as Hd;
    rewrite wrap8_small by lia.
  - assert (num / 10 = 0) as -> by (change (10 ^ (Z.of_nat 0 + 1)) with 10 in Hn; dlia).
    exists 0, (<[0%nat := num mod 10]> ds). split; [done|]. split; [lia|].
    split_and!; [|intros k Hk|exact (proj2 Hn)|by left].
    + intros k Hk. assert (k = 0) as -> by lia. cbn [Z.to_nat]. unfold digit.
      change (10 ^ (Z.of_nat 0 - 0)) with 1. rewrite Z.div_1_r.
      apply nth_lookup_Some, list_lookup_insert_eq. lia.
    + rewrite !nth_lookup, list_lookup_insert_ne by lia. done.
  - rewrite Nat2Z.id. destruct (Z.eqb_spec (num / 10) 0) as [E|E].
    + exists (Z.of_nat (S i)), (<[S i := num mod 10]> ds). split; [done|]. split; [lia|].
      assert (num < 10) by dlia.
      split_and!; [|intros k Hk| |by left].
      * intros k Hk. replace (Z.to_nat k) with (S i) by lia. replace (Z.of_nat (S i) - k) with 0 by lia.
        unfold digit. change (10 ^ 0) with 1. rewrite Z.div_1_r.
        apply nth_lookup_Some, list_lookup_insert_eq. lia.
      * rewrite !nth_lookup, list_lookup_insert_ne by lia. done.
      * by replace (Z.of_nat (S i) - Z.of_nat (S i) + 1) with 1 by lia.
    + replace (Z.of_nat (S i) - 1) with (Z.of_nat i) by lia.
      replace (Z.of_nat (S i) + 1) with (Z.succ (Z.of_nat i + 1)) in Hn by lia.
      rewrite Z.pow_succ_r in Hn by lia.
      destruct (IH (num / 10) (<[S i := num mod 10]> ds)) as (b & ds' & -> & Hb & Hin & Hout & Hlt & Hlow);
        [dlia|by rewrite length_insert; lia|].
      exists b, ds'. split; [done|]. split; [lia|].
      assert (forall e, 0 <= e -> 10 ^ (e + 1) = 10 * 10 ^ e) as Hp by (intros; rewrite Z.pow_add_r; lia).
      split_and!.
      * intros k Hk. destruct (Z.eq_dec k (Z.of_nat (S i))) as [->|Hne].
        -- rewrite Hout by lia. rewrite Z.sub_diag. unfold digit. change (10 ^ 0) with 1.
           rewrite Z.div_1_r, Nat2Z.id. apply nth_lookup_Some, list_lookup_insert_eq. lia.
        -- rewrite Hin by lia. unfold digit.
           replace (Z.of_nat (S i) - k) with (Z.of_nat i - k + 1) by lia.
           rewrite Hp, Z.div_div by lia. done.
      * intros k Hk. rewrite Hout by lia. rewrite !nth_lookup, list_lookup_insert_ne by lia. done.
      * replace (Z.of_nat (S i) - b + 1) with (Z.of_nat i - b + 1 + 1) by lia. rewrite Hp by lia. dlia.
      * right. replace (Z.of_nat (S i) - b) with (Z.of_nat i - b + 1) by lia. rewrite Hp by lia.
        destruct Hlow as [->|Hlow]; [|dlia]. rewrite Z.sub_diag. dlia.
Qed.

(** The characters sent for [num], the first at place [b] of twenty. *)
Definition decimal (num b : Z) : list Z :=
  (fun k => hex_list (digit 10 num (19 - k))) <$> upto b 20.

Lemma parse_decimal num b e :
  0 <= num < 10 ^ (20 - b) -> 0 <= b <= e -> e <= 20 ->
  parse_digits 10 ((fun k => hex_list (digit 10 num (19 - k))) <$> upto b e) = num / 10 ^ (20 - e).
Proof.
  intros Hn [Hb He]. replace e with (b + (e - b)) by lia.
  assert (0 <= e - b) as Hm by lia. generalize dependent (e - b). intros m Hm. clear He e.
  pattern m. apply natlike_ind; [| |done].
  - intros _. rewrite Z.add_0_r, upto_nil by lia. cbn. by rewrite Z.div_small.
  - clear m Hm. intros m Hm IH He. replace (b + Z.succ m) with (b + m + 1) by lia.
    rewrite upto_snoc, fmap_app by lia. cbn [fmap list_fmap]. rewrite parse_digits_snoc, IH by lia.
    pose proof (Z.mod_pos_bound (num / 10 ^ (19 - (b + m))) 10 ltac:(lia)) as Hd.
    destruct (hex_list_digit (digit 10 num (19 - (b + m)))) as [-> _]; [unfold digit; lia|].
    unfold digit. replace (20 - (b + m)) with (19 - (b + m) + 1) by lia.
    replace (20 - (b + m + 1)) with (19 - (b + m)) by lia.
    rewrite Z.pow_add_r, <- Z.div_div by (lia || (apply Z.pow_nonzero; lia) || (apply Z.pow_pos_nonneg; lia)).
    change (10 ^ 1) with 10. dlia.
Qed.

(** The decimal digits of [num]. *)
Record decimal_text (num : Z) (l : list Z) : Prop := {
  dt_parse : parse_digits 10 l = num;
  dt_length : (1 <= length l <= 20)%nat;
  dt_head : head l = Some 48 -> length l = 1%nat;
  dt_digits : Forall (fun c => 48 <= c <= 57) l;
}.

Lemma hex_list_decimal d : 0 <= d < 10 -> 48 <= hex_list d <= 57.
Proof.
  intros H. assert (forallb (fun d => (48 <=? hex_list d) && (hex_list d <=? 57)) (upto 0 10) = true) as Hall by (vm_compute; reflexivity).
  rewrite forallb_forall in Hall. specialize (Hall d). rewrite <- list_elem_of_In, elem_of_upto in Hall. lia.
Qed.

Lemma print_u64_text num : u64 num ->
  exists l, decimal_text num l /\ forall s, uart_print_u64 num s = Ret tt (sent l s).
Proof.
  intros [H0 H1].
  destruct (fill_digits_spec 19 num (replicate 20 0)) as (b & ds & E & Hb & Hin & _ & Hlt & Hlow);
    [split; [done|]; change (10 ^ (Z.of_nat 19 + 1)) with 100000000000000000000; lia|by rewrite length_replicate; lia|].
  change (Z.of_nat 19) with 19 in *.
  exists (decimal num b). split; [split|].
  - unfold decimal. replace (19 - b + 1) with (20 - b) in Hlt by lia.
    rewrite parse_decimal by lia.
    change (20 - 20) with 0. by rewrite Z.div_1_r.
  - unfold decimal. rewrite length_fmap, length_upto. lia.
  - unfold decimal. rewrite length_fmap, length_upto, upto_cons by lia. cbn [fmap list_fmap head]. intros [= Hh].
    destruct Hlow as [->|Hlow]; [done|]. exfalso.
    assert (num / 10 ^ (19 - b) mod 10 = num / 10 ^ (19 - b)) as Ed.
    { apply Z.mod_small. assert (0 < 10 ^ (19 - b)) by (apply Z.pow_pos_nonneg; lia).
      split; [apply Z.div_pos; lia|]. apply Z.div_lt_upper_bound; [done|].
      rewrite Z.pow_add_r in Hlt by lia. lia. }
    assert (0 < num / 10 ^ (19 - b)) by (apply Z.div_str_pos; split; [apply Z.pow_pos_nonneg|]; lia).
    destruct (hex_list_digit (digit 10 num (19 - b))) as [Hv _].
    { unfold digit. pose proof (Z.mod_pos_bound (num / 10 ^ (19 - b)) 10). lia. }
    rewrite Hh in Hv. unfold digit in Hv. rewrite Ed in Hv. cbn in Hv. lia.
  - unfold decimal. apply Forall_fmap, list.Forall_forall. intros k _. apply hex_list_decimal, Z.mod_pos_bound. lia.
  - intros s. unfold uart_print_u64. rewrite E. apply for_each_sent. intros k s' Hk. apply elem_of_upto in Hk. rewrite Hin by lia.
    destruct (hex_list_digit (digit 10 num (19 - k))).
    { unfold digit. pose proof (Z.mod_pos_bound (num / 10 ^ (19 - k)) 10). lia. }
    apply print_char_sent; lia.
Qed.

(** The text of a signed number. *)
Definition signed_text (num : Z) (l : list Z) : Prop :=
  if num <? 0 then exists d, l = 45 :: d /\ decimal_text (- num) d else decimal_text num l.

Lemma print_s64_text num : -9223372036854775808 < num < 9223372036854775808 ->
  exists l, signed_text num l /\ forall s, uart_print_s64 num s = Ret tt (sent l s).
Proof.
  intros H. unfold signed_text, uart_print_s64. destruct (Z.ltb_spec num 0).
  - destruct (print_u64_text (- num) ltac:(unfold u64; lia)) as (d & Hd & E). exists (45 :: d). split; [by exists d|].
    intros s. rewrite (bind_Ret _ _ _ _ _ (print_char_sent 45 s ltac:(lia) ltac:(lia))).
    replace (num =? -9223372036854775808) with false by lia. by rewrite E, sent_sent.
  - apply print_u64_text. unfold u64. lia.
Qed.

(** The sixteen hexadecimal digits of [v], those of 10 to 15 in capitals. *)
Record hex_text (v : Z) (l : list Z) : Prop := {
  ht_parse : parse_digits 16 l = v;
  ht_length : length l = 16%nat;
  ht_digits : Forall (fun c => 48 <= c <= 57 \/ 65 <= c <= 70) l;
}.

Lemma hex_list_hex d : 0 <= d < 16 -> 48 <= hex_list d <= 57 \/ 65 <= hex_list d <= 70.
Proof.
  intros H. assert (forallb (fun d => (48 <=? hex_list d) && (hex_list d <=? 57) || (65 <=? hex_list d) && (hex_list d <=? 70)) (upto 0 16) = true)
    as Hall by (vm_compute; reflexivity).
  rewrite forallb_forall in Hall. specialize (Hall d). rewrite <- list_elem_of_In, elem_of_upto in Hall. lia.
Qed.

Lemma print_hex_text v : u64 v ->
  exists l, hex_text v l /\ forall s, uart_print_u64_hex v s = Ret tt (sent l s).
Proof.
  intros [H0 H1]. exists ((fun k => hex_list (digit 16 v k)) <$> rev (upto 0 16)). split; [split|].
  - etransitivity; [exact (parse_digits_down 16 v 0 16 ltac:(lia) H0 ltac:(lia) ltac:(lia))|].
    change (16 ^ 0) with 1. rewrite Z.div_1_r. by apply Z.mod_small.
  - done.
  - apply Forall_fmap, list.Forall_forall. intros k _. apply hex_list_hex, Z.mod_pos_bound. lia.
  - intros s. by apply print_hex_sent.
Qed.

(** C40: [uart_print_u64] sends at most twenty decimal digits that read back as
    its argument, the first of them not 0 unless it is the only one. *)
Theorem uart_print_u64_correct num s :
  u64 num -> exists l, uart_print_u64 num s = Ret tt (sent l s) /\
    parse_digits 10 l = num /\ (1 <= length l <= 20)%nat /\
    (head l = Some 48 -> length l = 1%nat).
Proof.
  intros H. destruct (print_u64_text num H) as (l & [? ? ? _] & E). by exists l.
Qed.

(** ** Witnesses *)

Lemma uart_print_u64_hex_correct_witness :
  exists l, uart_print_u64_hex 255 zero_state = Ret tt (sent l zero_state) /\ parse_digits 16 l = 255.
Proof.
  destruct (uart_print_u64_hex_correct 255 zero_state ltac:(unfold u64; lia)) as (l & E & _ & H).
  exact (ex_intro _ l (conj E H)).
Defined.

Lemma uart_print_u64_correct_witness :
  exists l, uart_print_u64 1024 zero_state = Ret tt (sent l zero_state) /\ parse_digits 10 l = 1024.
Proof.
  destruct (uart_print_u64_correct 1024 zero_state ltac:(unfold u64; lia)) as (l & E & H & _).
  exact (ex_intro _ l (conj E H)).
Defined.
