(* ===== verification/Uart16550.v ===== *)
(** * The 16550 serial device ([drivers/uart/16550/uart_16550.c])

    The driver at the level of the device's registers: what a read gives is
    decided by the device, a parameter of the state ([io_device]), from the
    events it has seen.  The rest of the library uses the console of file
    Uart; that the driver implements it is proved here. *)
From S2P Require Import Prelude Machine Uart.

(** ** The code *)

Definition UART_BASE_LOCATION : Z := 0x10000000 + KERNEL_VMA_START.
Definition UART_STATUS_OFFSET : Z := 5.
Definition UART_INTERRUPT_TOGGLE_OFFSET : Z := 1.
Definition UART_STATUS_READY_SEND : Z := 32.
Definition UART_STATUS_READY_RECEIVE : Z := 1.

(** [base[i]] for the [u8] registers of the device. *)
Definition uart_reg (i : Z) : Z := UART_BASE_LOCATION ⊕ i.

Definition uart_16550_output_u8 (output_u8 : Z) : M unit :=
  size ← gets (fun s => uart_reg_size (io s));
  let uart_status := uart_reg (5 ⊗ size) in
  while_true (fun _ =>
    status ← mmio_read uart_status;
    mret (if Z.land (wrap8 status) UART_STATUS_READY_SEND =? 0 then inl tt else inr tt)) tt ;;
  mmio_write UART_BASE_LOCATION (wrap8 output_u8).

Definition uart_16550_try_fetch_u8 : M Z :=
  size ← gets (fun s => uart_reg_size (io s));
  status ← mmio_read (uart_reg (5 ⊗ size));
  if negb (Z.land (wrap8 status) UART_STATUS_READY_RECEIVE =? 0) then
    v ← mmio_read UART_BASE_LOCATION; mret (wrap8 v)
  else mret (-1).

(** One round of the search for the distance of the registers; [Some tt] is
    the break. *)
Definition uart_stride_step (i : Z) : M (option unit) :=
  let uart_stride := uart_reg (7 ⊗ i) in
  mmio_write uart_stride 97 ;;
  v ← mmio_read uart_stride;
  if wrap8 v =? 97 then
    mmio_write uart_stride 99 ;;
    v ← mmio_read uart_stride;
    if wrap8 v =? 99 then modify (set_uart_reg_size i) ;; mret (Some tt) else mret None
  else mret None.

Definition uart_16550_init : M unit :=
  mmio_write (uart_reg UART_INTERRUPT_TOGGLE_OFFSET) 0 ;;
  _ ← for_find (upto 1 9) uart_stride_step;
  size ← gets (fun s => uart_reg_size (io s));
  if size =? 0 then PANIC "FAILED_TO_FIND_VALID_UART_SIZE" 0 0 0 else skip.

Definition uart_init : M unit := uart_16550_init.

(** ** Devices *)

Abbreviation device := (list io_event -> Z -> Z).

(** The register at offset [a] gives back the byte written last. *)
Definition reads_back (dev : device) (a : Z) : Prop :=
  forall log v, v = 97 \/ v = 99 -> wrap8 (dev (log ++ [IoWrite a v]) a) = v.
Definition reads_other (dev : device) (a : Z) : Prop :=
  forall log, wrap8 (dev (log ++ [IoWrite a 97]) a) <> 97.

(** A 16550 whose registers are [k] bytes apart: register 7, the scratch
    register, keeps what is written, and no address before it that the search
    tries does. *)
Record uart_device (dev : device) (k : Z) : Prop := {
  ud_scratch : reads_back dev (uart_reg (7 * k));
  ud_before i : 1 <= i < k -> reads_other dev (uart_reg (7 * i));
}.

(** The events of a search. *)
Definition probe_log (dev : device) (log : list io_event) (a v : Z) : list io_event :=
  (log ++ [IoWrite a v]) ++ [IoRead a (dev (log ++ [IoWrite a v]) a)].

Lemma write_read a v s (k : Z -> M (option unit)) :
  (mmio_write a v ;; x ← mmio_read a; k x) s =
    k (io_device (io s) (io_log (io s) ++ [IoWrite a v]) a)
      (set_io_log (probe_log (io_device (io s)) (io_log (io s)) a v) s).
Proof. done. Qed.

Lemma stride_other i s : 1 <= i < 9 -> reads_other (io_device (io s)) (uart_reg (7 * i)) ->
  uart_stride_step i s =
    Ret None (set_io_log (probe_log (io_device (io s)) (io_log (io s)) (uart_reg (7 * i)) 97) s).
Proof.
  intros Hi Ho. unfold uart_stride_step. rewrite (wrap64_small (7 * i)) by lia. cbv zeta. rewrite write_read. cbv beta.
  by rewrite (proj2 (Z.eqb_neq _ _) (Ho (io_log (io s)))).
Qed.

Lemma stride_found i s : 1 <= i < 9 -> reads_back (io_device (io s)) (uart_reg (7 * i)) ->
  let a := uart_reg (7 * i) in let dev := io_device (io s) in
  uart_stride_step i s =
    Ret (Some tt) (set_uart_reg_size i (set_io_log (probe_log dev (probe_log dev (io_log (io s)) a 97) a 99) s)).
Proof.
  intros Hi Hb a dev. unfold uart_stride_step. rewrite (wrap64_small (7 * i)) by lia. cbv zeta. rewrite write_read. cbv beta. subst a dev.
  rewrite (Hb (io_log (io s)) 97 ltac:(by left)). change (97 =? 97) with true. cbv iota. rewrite write_read. cbv beta. cbn [io set_io_log set_io io_log io_device].
  by rewrite (Hb _ 99 ltac:(by right)).
Qed.

(** The writes of the driver. *)
Definition writes (l : list io_event) : list (Z * Z) :=
  omap (fun e => match e with IoWrite a v => Some (a, v) | IoRead _ _ => None end) l.

Lemma writes_app l l' : writes (l ++ l') = writes l ++ writes l'.
Proof. unfold writes. by rewrite omap_app. Qed.

Lemma writes_probe dev log a v : writes (probe_log dev log a v) = writes log ++ [(a, v)].
Proof. unfold probe_log. rewrite !writes_app. cbn. by rewrite app_nil_r. Qed.

Definition probed (s : kstate) (l : list (Z * Z)) (size : Z) (s' : kstate) : Prop :=
  uart_reg_size (io s') = size /\ io_device (io s') = io_device (io s) /\
  writes (io_log (io s')) = writes (io_log (io s)) ++ l.

Lemma search_from k lo s : uart_device (io_device (io s)) k -> 1 <= lo <= k -> k < 9 ->
  exists s', for_find (upto lo 9) uart_stride_step s = Ret (Some tt) s' /\
    probed s (((fun i => (uart_reg (7 * i), 97)) <$> upto lo (k + 1)) ++ [(uart_reg (7 * k), 99)]) k s'.
Proof.
  intros Hd. remember (Z.to_nat (k - lo)) as n eqn:En. revert lo s Hd En.
  induction n as [|n IH]; intros lo s Hd En Hlo Hk; rewrite (upto_cons lo 9) by lia; cbn [for_find].
  - assert (lo = k) as -> by lia. rewrite (bind_Ret _ _ _ _ _ (stride_found k s ltac:(lia) (ud_scratch _ _ Hd))).
    eexists. split; [reflexivity|]. unfold probed. cbn [io set_io set_uart_reg_size set_io_log io_log io_device uart_reg_size].
    rewrite !writes_probe, <- app_assoc. by rewrite (upto_cons k), upto_nil by lia.
  - rewrite (bind_Ret _ _ _ _ _ (stride_other lo s ltac:(lia) (ud_before _ _ Hd lo ltac:(lia)))).
    destruct (IH (lo + 1) (set_io_log (probe_log (io_device (io s)) (io_log (io s)) (uart_reg (7 * lo)) 97) s))
      as (s' & E & P1 & P2 & P3); [done|lia..|].
    exists s'. split; [exact E|]. split; [done|]. split; [by rewrite P2|]. rewrite P3.
    cbn [io set_io set_io_log io_log]. rewrite writes_probe, <- app_assoc. by rewrite (upto_cons lo (k + 1)) by lia.
Qed.

Lemma search_fails lo s : (forall i, lo <= i < 9 -> reads_other (io_device (io s)) (uart_reg (7 * i))) -> 1 <= lo <= 9 ->
  exists s', for_find (upto lo 9) uart_stride_step s = Ret None s' /\ uart_reg_size (io s') = uart_reg_size (io s).
Proof.
  remember (Z.to_nat (9 - lo)) as n eqn:En. revert lo s En. induction n as [|n IH]; intros lo s En Ho Hlo.
  - rewrite upto_nil by lia. by exists s.
  - rewrite (upto_cons lo 9) by lia. cbn [for_find].
    rewrite (bind_Ret _ _ _ _ _ (stride_other lo s ltac:(lia) (Ho lo ltac:(lia)))).
    destruct (IH (lo + 1) (set_io_log (probe_log (io_device (io s)) (io_log (io s)) (uart_reg (7 * lo)) 97) s))
      as (s' & E & P); [lia|intros; apply Ho; lia|lia|]. by exists s'.
Qed.

(** C27: the start of the serial driver.  On a 16550 whose registers are [k]
    bytes apart, 1 to 8, the search ends with that distance, if register 7
    keeps the letters written to it and none of the addresses tried before, at
    offsets 7, 14, up to [7 * (k - 1)], reads back the letter written to it (an
    alias of a register that keeps what it is given would end the search
    early); where no address answers, and the distance was not set, it panics.
    What it has written by then is known: a 0 to offset 1 and letters to offsets
    7, 14, up to [7 * k].  So it never switches the interrupts of the device off,
    register 1 at offset [k], unless [k] is 1. *)
Theorem uart_16550_init_finds s k :
  (uart_device (io_device (io s)) k -> 1 <= k < 9 ->
     exists s', uart_16550_init s = Ret tt s' /\ uart_reg_size (io s') = k /\
       writes (io_log (io s')) = writes (io_log (io s)) ++ (uart_reg 1, 0) ::
         ((fun i => (uart_reg (7 * i), 97)) <$> upto 1 (k + 1)) ++ [(uart_reg (7 * k), 99)] /\
       (k <> 1 -> io_log (io s) = [] -> (uart_reg k, 0) ∉ writes (io_log (io s')))) /\
  ((forall i, 1 <= i < 9 -> reads_other (io_device (io s)) (uart_reg (7 * i))) -> uart_reg_size (io s) = 0 ->
     uart_16550_init s = Panic "FAILED_TO_FIND_VALID_UART_SIZE" 0 0 0).
Proof.
  split.
  - intros Hd Hk. unfold uart_16550_init. erewrite bind_Ret by reflexivity.
    destruct (search_from k 1 (set_io_log (io_log (io s) ++ [IoWrite (uart_reg UART_INTERRUPT_TOGGLE_OFFSET) 0]) s)
      Hd ltac:(lia) ltac:(lia)) as (s' & E & P1 & P2 & P3).
    rewrite (bind_Ret _ _ _ _ _ E). erewrite bind_Ret by reflexivity. rewrite P1.
    replace (k =? 0) with false by lia. exists s'. split; [done|]. split; [done|].
    cbn [io set_io set_io_log io_log] in P3. rewrite writes_app, <- app_assoc in P3. split; [exact P3|].
    intros Hk1 Hl. rewrite P3, Hl. change (writes []) with (@nil (Z * Z)). cbn [app writes omap list_omap].
    assert (uart_reg k <> uart_reg 1) as Hne.
    { unfold uart_reg, UART_BASE_LOCATION, KERNEL_VMA_START. rewrite !wrap64_small by lia. lia. }
    rewrite elem_of_cons, elem_of_app, list_elem_of_fmap, list_elem_of_singleton. intros [E1|[(i & E1 & _)|E1]]; apply pair_equal_spec in E1 as [E1 E2]; done.
  - intros Ho Hz. unfold uart_16550_init. erewrite bind_Ret by reflexivity.
    destruct (search_fails 1 (set_io_log (io_log (io s) ++ [IoWrite (uart_reg UART_INTERRUPT_TOGGLE_OFFSET) 0]) s)
      Ho ltac:(lia)) as (s' & E & P).
    rewrite (bind_Ret _ _ _ _ _ E). erewrite bind_Ret by reflexivity. rewrite P. cbn [io set_io set_io_log uart_reg_size].
    by rewrite Hz.
Qed.

(** ** The driver implements the console *)

(** The device says it is ready after [n] more reads of its status. *)
Fixpoint ready_after (dev : device) (a : Z) (log : list io_event) (n : nat) : Prop :=
  let st := dev log a in
  match n with
  | O => Z.land (wrap8 st) UART_STATUS_READY_SEND <> 0
  | S n' => Z.land (wrap8 st) UART_STATUS_READY_SEND = 0 /\ ready_after dev a (log ++ [IoRead a st]) n'
  end.

(** However busy, it is ready in the end. *)
Definition gets_ready (dev : device) (a : Z) : Prop := forall log, exists n, ready_after dev a log n /\ Z.of_nat n < 2 ^ 62.

(** What has been sent: the bytes written to the data register. *)
Definition sent_bytes (log : list io_event) : list Z :=
  omap (fun '(a, v) => if a =? UART_BASE_LOCATION then Some v else None) (writes log).

Lemma sent_bytes_app l l' : sent_bytes (l ++ l') = sent_bytes l ++ sent_bytes l'.
Proof. unfold sent_bytes. by rewrite writes_app, omap_app. Qed.

Definition polled (a : Z) (s : kstate) (v : unit) (s' : kstate) : Prop :=
  exists l, s' = set_io_log (io_log (io s) ++ l) s /\ writes l = [].

Lemma poll_ends a s : gets_ready (io_device (io s)) a ->
  wp (while_true (fun _ =>
    status ← mmio_read a;
    mret (if Z.land (wrap8 status) UART_STATUS_READY_SEND =? 0 then inl tt else inr tt)) tt) (polled a s) s.
Proof.
  intros Hr. destruct (Hr (io_log (io s))) as (n & Hn & Hb). change (2 ^ 62) with 4611686018427387904 in Hb.
  apply (wp_while_bounded (fun k _ s1 => 0 <= k /\ exists l, s1 = set_io_log (io_log (io s) ++ l) s /\ writes l = [] /\
    ready_after (io_device (io s)) a (io_log (io s) ++ l) (Z.to_nat k))) with (n := Z.of_nat n).
  - by intros k _ s1 [H _].
  - intros k [] s1 (H0 & l & -> & Hl & Hk). set (st := io_device (io s) (io_log (io s) ++ l) a).
    assert (writes (l ++ [IoRead a st]) = []) as Hl' by (by rewrite writes_app, Hl).
    unfold wp, mmio_read, mbind, M_bind, mret, M_ret. cbn [io set_io_log set_io io_log io_device]. fold st.
    assert (set_io_log ((io_log (io s) ++ l) ++ [IoRead a st]) (set_io_log (io_log (io s) ++ l) s) =
      set_io_log (io_log (io s) ++ l ++ [IoRead a st]) s) as -> by (by rewrite <- app_assoc).
    destruct (Z.to_nat k) as [|k'] eqn:Ek; cbn [ready_after] in Hk; fold st in Hk.
    + rewrite (proj2 (Z.eqb_neq _ _) Hk). by exists (l ++ [IoRead a st]).
    + destruct Hk as [-> Hk]. change (0 =? 0) with true. cbv iota. exists (k - 1). split; [|lia]. split; [lia|].
      exists (l ++ [IoRead a st]). split; [done|]. split; [done|]. rewrite app_assoc.
      by replace (Z.to_nat (k - 1)) with k' by lia.
  - split; [lia|]. exists []. rewrite app_nil_r, Nat2Z.id. split; [|done]. by destruct s as [???????????????????[]].
  - lia.
Qed.

Definition status_reg (s : kstate) : Z := uart_reg (5 ⊗ uart_reg_size (io s)).

Lemma output_polls c s : gets_ready (io_device (io s)) (status_reg s) -> exists l,
  uart_16550_output_u8 c s = Ret tt (set_io_log (io_log (io s) ++ l) s) /\ writes l = [(UART_BASE_LOCATION, wrap8 c)].
Proof.
  intros Hr. unfold uart_16550_output_u8. erewrite bind_Ret by reflexivity. cbv zeta. fold (status_reg s).
  destruct (wp_inv _ _ _ (poll_ends (status_reg s) s Hr)) as ([] & s1 & E & l & -> & Hl).
  rewrite (bind_Ret _ _ _ _ _ E). exists (l ++ [IoWrite UART_BASE_LOCATION (wrap8 c)]).
  rewrite writes_app, Hl, app_assoc. done.
Qed.

(** C26: the driver implements the console.  Let the device, whatever it has
    seen, report ready after finitely many reads of its status register.  Then
    sending any bytes through the polling driver ends, all it changes is the
    events of the device, and the bytes that reach its data register are those,
    and in that order, that the console of file Uart, which the rest of the
    library uses, says are sent. *)
Theorem uart_16550_refines_console l s :
  gets_ready (io_device (io s)) (status_reg s) -> tx s = sent_bytes (io_log (io s)) ->
  exists log s', for_each l uart_16550_output_u8 s = Ret tt (set_io_log log s) /\
    for_each l console_put s = Ret tt s' /\ tx s' = sent_bytes log.
Proof.
  intros Hr Hs. enough (exists log, for_each l uart_16550_output_u8 s = Ret tt (set_io_log log s) /\
    sent_bytes log = sent_bytes (io_log (io s)) ++ (wrap8 <$> l)) as (log & E & El).
  { exists log. eexists. split; [exact E|]. split; [apply (for_each_sent wrap8); by intros x s' _; rewrite output_u8_sent|].
    cbn [tx sent set_tx]. by rewrite El, Hs. }
  clear Hs. revert s Hr. induction l as [|c l IH]; intros s Hr; cbn [for_each].
  - exists (io_log (io s)). rewrite app_nil_r. split; [|done]. by destruct s as [???????????????????[]].
  - destruct (output_polls c s Hr) as (l1 & E & W). rewrite (bind_Ret _ _ _ _ _ E).
    destruct (IH (set_io_log (io_log (io s) ++ l1) s) Hr) as (log & E' & El). exists log. split; [exact E'|].
    rewrite El. cbn [io set_io_log set_io io_log]. rewrite sent_bytes_app, <- app_assoc. f_equal.
    unfold sent_bytes. rewrite W. cbn. by rewrite Z.eqb_refl.
Qed.

(** ** A device *)

(** The byte written last to an address. *)
Definition last_written (log : list io_event) (a : Z) : Z :=
  foldl (fun v e => match e with IoWrite b w => if a =? b then w else v | IoRead _ _ => v end) 0 log.

(** Registers [k] bytes apart: a scratch register, and a status that is ready
    at every other event. *)
Definition demo_uart (k : Z) : device := fun log a =>
  if a =? uart_reg (7 * k) then last_written log a
  else if a =? uart_reg (5 * k) then if Nat.even (length log) then 32 else 0
  else 255.

Definition demo_serial (k : Z) : kstate := set_io (mkIO 0 [] (demo_uart k) 0 0 []) zero_state.

Lemma last_written_app log a v : last_written (log ++ [IoWrite a v]) a = v.
Proof. unfold last_written. rewrite foldl_app. cbn. by rewrite Z.eqb_refl. Qed.

Lemma uart_16550_init_finds_witness : exists s', uart_16550_init (demo_serial 4) = Ret tt s' /\ uart_reg_size (io s') = 4.
Proof.
  destruct (proj1 (uart_16550_init_finds (demo_serial 4) 4)) as (s' & E & H & _).
  - split.
    + intros log v [-> | ->]; cbn; unfold demo_uart; by rewrite Z.eqb_refl, last_written_app.
    + intros i Hi log. assert (i = 1 \/ i = 2 \/ i = 3) as [E|[E|E]] by lia; subst i; vm_compute; discriminate.
  - lia.
  - by exists s'.
Defined.

Lemma uart_16550_refines_console_witness : exists log s',
  for_each [79; 75] uart_16550_output_u8 (set_uart_reg_size 4 (demo_serial 4)) =
    Ret tt (set_io_log log (set_uart_reg_size 4 (demo_serial 4))) /\
  for_each [79; 75] console_put (set_uart_reg_size 4 (demo_serial 4)) = Ret tt s' /\ tx s' = sent_bytes log.
Proof.
  apply (uart_16550_refines_console [79; 75] (set_uart_reg_size 4 (demo_serial 4))).
  - intros log. change (status_reg _) with (uart_reg 20). cbn [io set_uart_reg_size demo_serial set_io io_device].
    destruct (Nat.even (length log)) eqn:E.
    + exists 0%nat. split; [|done]. cbn [ready_after]. change (demo_uart 4 log (uart_reg 20)) with (if Nat.even (length log) then 32 else 0).
      by rewrite E.
    + exists 1%nat. split; [|done]. cbn [ready_after]. change (demo_uart 4 log (uart_reg 20)) with (if Nat.even (length log) then 32 else 0).
      rewrite E. split; [done|].
      change (demo_uart 4 (log ++ [IoRead (uart_reg 20) 0]) (uart_reg 20)) with (if Nat.even (length (log ++ [IoRead (uart_reg 20) 0])) then 32 else 0).
      rewrite length_app, Nat.add_comm. cbn [length Nat.add]. rewrite Nat.even_succ, <- Nat.negb_even, E. done.
  - done.
Defined.
