(* ===== verification/Cpu.v ===== *)
(** * The hart: interrupts, time, firmware
    ([arch/risc-v/arch_cpu.c], [arch_trap/irq.c], [open_sbi.c],
    [kernel/timer/timer.c]) *)
From S2P Require Import Prelude Machine.

(** ** The code *)

Definition irq_enable : M unit := modify (set_irq true).
Definition irq_disable : M unit := modify (set_irq false).

(** [while (1) wfi] with interrupts off, and with interrupts as they are. *)
Definition freeze_system : M unit := modify (set_irq false) ;; halt.
Definition idle_loop_system : M unit := halt.

Definition time_cnt : M Z := gets clock.

(** The call of the firmware: it takes the deadline and answers with an error
    code. *)
Definition open_sbi_set_timer (clock_to_run : Z) : M Z :=
  modify (fun s => set_timers (timers s ++ [clock_to_run]) s) ;;
  gets (fun s => sbi_set_timer (sbi s) clock_to_run).
Definition timer_set (cycle_num : Z) : M Z := open_sbi_set_timer cycle_num.

Definition BASE_CLOCK_SPEED : Z := 10000000.

Definition timer_set_future_ms (ms : Z) : M unit :=
  now ← time_cnt;
  response ← timer_set (now ⊕ ((BASE_CLOCK_SPEED / 1000) ⊗ ms));
  if negb (response =? 0) then PANIC "FAILED_TO_CREATE_KERNEL_TIMER" response 0 0 else skip.

(** ** What it does *)

(** The deadline [ms] milliseconds ahead. *)
Definition deadline (ms : Z) (s : kstate) : Z := clock s ⊕ 10000 ⊗ ms.

Lemma timer_set_future_eq ms s :
  timer_set_future_ms ms s =
    let d := deadline ms s in
    if sbi_set_timer (sbi s) d =? 0 then Ret tt (set_timers (timers s ++ [d]) s)
    else Panic "FAILED_TO_CREATE_KERNEL_TIMER" (sbi_set_timer (sbi s) d) 0 0.
Proof.
  unfold timer_set_future_ms, timer_set, open_sbi_set_timer, time_cnt, deadline, mbind, M_bind, gets, modify.
  change (BASE_CLOCK_SPEED / 1000) with 10000. cbn [sbi set_timers clock]. cbv zeta.
  by destruct (sbi_set_timer (sbi s) _ =? 0).
Qed.
