(* ===== verification/Pager.v ===== *)
(** * The page allocator ([kernel/memory/pager.c])

    [pager_bitmap_list] points to a table: the number of regions, then for
    each region its page count, the address of its bitmap and the address of
    its first page.  A bit of a bitmap is set when the page is in use.  The
    cursor [last_free_bitmap], [last_free_page_num] is where a search starts. *)
From S2P Require Import Prelude Machine.

(** ** The code *)

(** [free_page * KERNEL_PAGE_SIZE] is a product of two [s32]. *)
Definition mul_s32 (a b : Z) : M Z :=
  if (-2147483648 <=? a * b) && (a * b <? 2147483648) then mret (a * b)
  else undef "s32 overflow".

Definition set_cursor (i p : Z) (s : kstate) : kstate :=
  set_pager (mkPager (pager_bitmap_list (pager s)) i p) s.

(** The three words of entry [i] of the table. *)
Definition region_page_cnt (lst i : Z) : M Z := load64 (elem64 lst (1 + i * 3)).
Definition region_bitmap (lst i : Z) : M Z := load64 (elem64 lst (2 + i * 3)).
Definition region_base (lst i : Z) : M Z := load64 (elem64 lst (3 + i * 3)).

(** The body of the inner loop of [pg_alloc]: one bitmap word. *)
Definition pg_alloc_word (i bitmap base_page j : Z) : M (option Z) :=
  w ← load64 (elem64 bitmap j);
  if w =? U64_MAX then mret None else
  let bit := ctz64 (not64 w) in
  let free_page := j * 64 + bit in
  modify (set_cursor i free_page) ;;
  store64 (elem64 bitmap j) (set_bit w bit) ;;
  offset ← mul_s32 free_page KERNEL_PAGE_SIZE;
  let page_location := base_page ⊕ offset in
  for_each (upto 0 (KERNEL_PAGE_SIZE / 8)) (fun k => store64 (elem64 page_location k) 0) ;;
  mret (Some page_location).

(** The body of the outer loop: one region. *)
Definition pg_alloc_region (lst i : Z) : M (option Z) :=
  page_cnt ← region_page_cnt lst i;
  bitmap ← region_bitmap lst i;
  base_page ← region_base lst i;
  cursor ← gets pager;
  let page_start := if i =? last_free_bitmap cursor
                    then Z.quot (last_free_page_num cursor) 64 else 0 in
  for_find (upto page_start (Z.quot (to_s64 page_cnt) 64)) (pg_alloc_word i bitmap base_page).

Definition pg_alloc : M Z :=
  lst ← gets (fun s => pager_bitmap_list (pager s));
  page_list_cnt ← load64 (elem64 lst 0);
  start ← gets (fun s => last_free_bitmap (pager s));
  r ← for_find (upto start (to_s64 page_list_cnt)) (pg_alloc_region lst);
  match r with
  | Some page_location => mret page_location
  | None => PANIC "OUT_OF_FREE_PAGES" 0 0 0
  end.

(** The region whose first page is the closest at or below a location. *)
Record closest := mkClosest {
  closest_page_cnt : Z;
  closest_bitmap : Z;
  closest_page_list : Z;
  closest_page_num : Z;
}.

Definition pg_free_closer (lst page_location : Z) (c : closest) (i : Z) : M closest :=
  page_cnt ← region_page_cnt lst i;
  bitmap ← region_bitmap lst i;
  base_page ← region_base lst i;
  if (closest_page_list c <? base_page) && (base_page <=? page_location)
  then mret (mkClosest (to_s64 page_cnt) bitmap base_page i)
  else mret c.

Definition pg_free (page_location : Z) : M unit :=
  lst ← gets (fun s => pager_bitmap_list (pager s));
  page_list_cnt ← load64 (elem64 lst 0);
  c ← for_fold (upto 0 (to_s64 page_list_cnt)) (pg_free_closer lst page_location)
        (mkClosest 0 0 0 0);
  let page_num := Z.quot (to_s64 (page_location - closest_page_list c)) KERNEL_PAGE_SIZE in
  let bitmap_num := Z.quot page_num 64 in
  let bit_num := Z.rem page_num 64 in
  if closest_bitmap c =? 0 then
    PANIC "PAGE_REMOVE_NO_OVERRIDE" page_location (closest_page_cnt c) (closest_page_list c)
  else if (page_num <? 0) || (closest_page_cnt c <=? page_num) then
    PANIC "ATTEMPT_REMOVE_PAGE_OUT_OF_RANGE" page_num (closest_page_cnt c) (closest_page_list c)
  else
    w ← load64 (elem64 (closest_bitmap c) bitmap_num);
    if negb (Z.land (not64 w) (BIT bit_num) =? 0) then
      PANIC "DOUBLE_FREE_PAGE" page_location page_num (closest_bitmap c)
    else
      store64 (elem64 (closest_bitmap c) bitmap_num) (clear_bit w bit_num) ;;
      cursor ← gets pager;
      when ((closest_page_num c <? last_free_bitmap cursor) ||
            ((page_num <? last_free_page_num cursor) &&
             (last_free_bitmap cursor =? closest_page_num c)))
        (modify (set_cursor (closest_page_num c) page_num)).

(** ** The representation *)

Record region := mkRegion { r_cnt : Z; r_bitmap : Z; r_base : Z }.

Definition bitmap_words (r : region) : Z := (r_cnt r + 63) / 64.
Definition page_addr (r : region) (p : Z) : Z := r_base r + KERNEL_PAGE_SIZE * p.
Definition bitmap_word_addr (r : region) (p : Z) : Z := r_bitmap r + 8 * (p / 64).

Definition page_used (m : gmap Z Z) (r : region) (p : Z) : bool :=
  Z.testbit (rd m (bitmap_word_addr r p)) (p mod 64).

(** The pages a search reaches: those of the full bitmap words. *)
Definition allocatable (r : region) (p : Z) : Prop := 0 <= p < 64 * (r_cnt r / 64).

Definition apart (a n b k : Z) : Prop := a + n <= b \/ b + k <= a.

(** A region of at most 2 GiB, so that page offsets stay in an [s32]. *)
Record region_ok (r : region) : Prop := {
  ok_cnt : 0 < r_cnt r /\ KERNEL_PAGE_SIZE * r_cnt r <= 2147483648;
  ok_bitmap : kblock (r_bitmap r) (8 * bitmap_words r);
  ok_pages : kblock (r_base r) (KERNEL_PAGE_SIZE * r_cnt r);
  ok_aligned : r_base r mod KERNEL_PAGE_SIZE = 0;
  ok_self : apart (r_bitmap r) (8 * bitmap_words r) (r_base r) (KERNEL_PAGE_SIZE * r_cnt r);
}.

Definition table_size (rs : list region) : Z := 8 * (1 + 3 * Z.of_nat (length rs)).

(** Two regions share neither pages nor bitmaps. *)
Record regions_apart (r1 r2 : region) : Prop := {
  apart_bitmaps : apart (r_bitmap r1) (8 * bitmap_words r1) (r_bitmap r2) (8 * bitmap_words r2);
  apart_pages : apart (r_base r1) (KERNEL_PAGE_SIZE * r_cnt r1)
                      (r_base r2) (KERNEL_PAGE_SIZE * r_cnt r2);
  apart_mixed : apart (r_bitmap r1) (8 * bitmap_words r1)
                      (r_base r2) (KERNEL_PAGE_SIZE * r_cnt r2);
}.

Record table_apart (lst : Z) (rs : list region) (r : region) : Prop := {
  table_bitmap : apart lst (table_size rs) (r_bitmap r) (8 * bitmap_words r);
  table_pages : apart lst (table_size rs) (r_base r) (KERNEL_PAGE_SIZE * r_cnt r);
}.

Record pager_layout (lst : Z) (rs : list region) : Prop := {
  lay_table : kblock lst (table_size rs);
  lay_few : Z.of_nat (length rs) <= 32;
  lay_region i r : rs !! i = Some r -> region_ok r;
  lay_apart_table i r : rs !! i = Some r -> table_apart lst rs r;
  lay_apart i j r1 r2 : i <> j -> rs !! i = Some r1 -> rs !! j = Some r2 -> regions_apart r1 r2;
}.

(** The table in memory lists the regions [rs]. *)
Definition table_entry (m : gmap Z Z) (lst i : Z) (r : region) : Prop :=
  rd m (lst + 8 * (1 + i * 3)) = r_cnt r /\
  rd m (lst + 8 * (2 + i * 3)) = r_bitmap r /\
  rd m (lst + 8 * (3 + i * 3)) = r_base r.

Record table_in (m : gmap Z Z) (lst : Z) (rs : list region) : Prop := {
  tab_len : rd m lst = Z.of_nat (length rs);
  tab_entry (i : nat) r : rs !! i = Some r -> table_entry m lst (Z.of_nat i) r;
}.

(** The order of the search. *)
Definition before (i p j q : Z) : Prop := i < j \/ (i = j /\ p < q).

(** No free page before the cursor. *)
Record cursor_ok (m : gmap Z Z) (rs : list region) (ci cp : Z) : Prop := {
  cur_pos : 0 <= ci /\ 0 <= cp;
  cur_used (i : nat) r p : rs !! i = Some r -> allocatable r p ->
    before (Z.of_nat i) p ci cp -> page_used m r p = true;
}.

Record pager_inv (rs : list region) (s : kstate) : Prop := {
  inv_layout : pager_layout (pager_bitmap_list (pager s)) rs;
  inv_table : table_in (mem s) (pager_bitmap_list (pager s)) rs;
  inv_cursor : cursor_ok (mem s) rs (last_free_bitmap (pager s)) (last_free_page_num (pager s));
}.

(** Page [p] of region [i] is the first free page in search order. *)
Record first_free (m : gmap Z Z) (rs : list region) (i : nat) (r : region) (p : Z) : Prop := {
  ff_region : rs !! i = Some r;
  ff_page : allocatable r p;
  ff_free : page_used m r p = false;
  ff_first (i' : nat) r' p' : rs !! i' = Some r' -> allocatable r' p' ->
    before (Z.of_nat i') p' (Z.of_nat i) p -> page_used m r' p' = true;
}.

(** The state after page [p] of region [i] is taken: its bit is set, its
    words are zero, the cursor is on it. *)
Definition take_mem (r : region) (p : Z) (m : gmap Z Z) : gmap Z Z :=
  zero_words (wr m (bitmap_word_addr r p) (set_bit (rd m (bitmap_word_addr r p)) (p mod 64)))
    (page_addr r p) (KERNEL_PAGE_SIZE / 8).
Definition take_page (i : nat) (r : region) (p : Z) (s : kstate) : kstate :=
  set_mem (take_mem r p (mem s)) (set_cursor (Z.of_nat i) p s).

(** ** Lemmas *)

Section Region.
Context (r : region) (Hr : region_ok r).

Lemma allocatable_bounds p :
  allocatable r p -> 0 <= p < r_cnt r /\ 0 <= p / 64 < r_cnt r / 64 /\
                     p / 64 < bitmap_words r /\ r_cnt r / 64 <= bitmap_words r.
Proof. destruct Hr as [[? ?] _ _ _ _]. unfold allocatable, bitmap_words. dlia. Qed.

Lemma page_in_words p : 0 <= p < r_cnt r -> 0 <= p / 64 < bitmap_words r.
Proof. destruct Hr as [[? ?] _ _ _ _]. unfold bitmap_words. dlia. Qed.

Lemma page_block p : 0 <= p < r_cnt r -> kblock (page_addr r p) KERNEL_PAGE_SIZE.
Proof.
  intros Hp. destruct Hr as [_ _ Hk Ha _]. eapply kblock_sub; [exact Hk|..];
    unfold page_addr, KERNEL_PAGE_SIZE in *; dlia.
Qed.

Lemma page_addr_wrap p :
  0 <= p < r_cnt r -> r_base r ⊕ (p * KERNEL_PAGE_SIZE) = page_addr r p.
Proof.
  intros Hp. pose proof (page_block p Hp) as (H1 & H2 & _).
  unfold page_addr, KERNEL_VMA_START, KERNEL_PAGE_SIZE in *.
  rewrite wrap64_small by lia. lia.
Qed.

Lemma page_addr_inj p q : page_addr r p = page_addr r q -> p = q.
Proof. unfold page_addr, KERNEL_PAGE_SIZE. lia. Qed.
End Region.

(** A word all of whose pages are in use. *)
Lemma word_full m r j :
  (forall p, 64 * j <= p < 64 * j + 64 -> page_used m r p = true) ->
  rd m (r_bitmap r + 8 * j) = U64_MAX.
Proof.
  intros H. apply all_ones_bits; [auto with kernel|]. intros k Hk.
  specialize (H (64 * j + k) ltac:(lia)). unfold page_used, bitmap_word_addr in H.
  replace ((64 * j + k) / 64) with j in H by dlia.
  by replace ((64 * j + k) mod 64) with k in H by dlia.
Qed.

Lemma pg_alloc_word_full i r j bm base s :
  region_ok r -> 0 <= j < bitmap_words r -> bm = r_bitmap r ->
  (forall p, 64 * j <= p < 64 * j + 64 -> page_used (mem s) r p = true) ->
  pg_alloc_word i bm base j s = Ret None s.
Proof.
  intros Hr Hj -> Hu. pose proof (ok_bitmap r Hr). unfold pg_alloc_word. kstep.
  rewrite (kblock_elem_eq _ (bitmap_words r)) by done. by rewrite word_full.
Qed.

(** [ctz64 (~w)] is the first free bit of a bitmap word. *)
Lemma first_free_bit m r p :
  page_used m r p = false ->
  (forall q, 64 * (p / 64) <= q < p -> page_used m r q = true) ->
  let w := rd m (bitmap_word_addr r p) in
  (w =? U64_MAX) = false /\ ctz64 (not64 w) = p mod 64.
Proof.
  intros Hf Hu w. assert (0 <= p mod 64 < 64) by (apply Z.mod_pos_bound; lia). split.
  - apply Z.eqb_neq. intros E. unfold page_used in Hf. fold w in Hf.
    by rewrite E, testbit_U64_MAX in Hf.
  - apply ctz64_least; [done| |].
    + rewrite testbit_not64 by done. unfold page_used in Hf. unfold w. by rewrite Hf.
    + intros k Hk. rewrite testbit_not64 by lia.
      specialize (Hu (64 * (p / 64) + k) ltac:(dlia)). unfold page_used, bitmap_word_addr in Hu.
      replace ((64 * (p / 64) + k) / 64) with (p / 64) in Hu by dlia.
      replace ((64 * (p / 64) + k) mod 64) with k in Hu by dlia.
      unfold w, bitmap_word_addr. by rewrite Hu.
Qed.

Lemma pg_alloc_word_take (i : nat) r p s :
  region_ok r -> allocatable r p -> page_used (mem s) r p = false ->
  (forall q, 64 * (p / 64) <= q < p -> page_used (mem s) r q = true) ->
  pg_alloc_word (Z.of_nat i) (r_bitmap r) (r_base r) (p / 64) s =
    Ret (Some (page_addr r p)) (take_page i r p s).
Proof.
  intros Hr Ha Hf Hu. pose proof (ok_bitmap r Hr).
  destruct (allocatable_bounds r Hr p Ha) as (Hp & Hw & Hb & _).
  destruct (ok_cnt r Hr) as [_ Hc]. unfold KERNEL_PAGE_SIZE in Hc.
  unfold pg_alloc_word. kstep.
  rewrite (kblock_elem_eq _ (bitmap_words r)) by (done || lia).
  destruct (first_free_bit _ _ _ Hf Hu) as [E1 E2]. unfold bitmap_word_addr in E1, E2.
  rewrite E1, E2. replace (p / 64 * 64 + p mod 64) with p by dlia.
  do 2 kstep.
  erewrite bind_Ret; [|unfold mul_s32; rewrite (proj2 (andb_true_iff _ _));
    [reflexivity|unfold KERNEL_PAGE_SIZE; lia]].
  rewrite page_addr_wrap by done.
  erewrite bind_Ret; [|apply for_each_zero; [apply (page_block r Hr p Hp)|done]].
  reflexivity.
Qed.

(** Reading the table. *)
Lemma region_loads lst rs (i : nat) r s :
  pager_layout lst rs -> table_in (mem s) lst rs -> rs !! i = Some r ->
  region_page_cnt lst (Z.of_nat i) s = Ret (r_cnt r) s /\
  region_bitmap lst (Z.of_nat i) s = Ret (r_bitmap r) s /\
  region_base lst (Z.of_nat i) s = Ret (r_base r) s.
Proof.
  intros Hl Ht Hi. apply lookup_lt_Some in Hi as Hlt.
  pose proof (lay_table _ _ Hl) as Hk. unfold table_size in Hk.
  destruct (tab_entry _ _ _ Ht i r Hi) as (<- & <- & <-).
  unfold region_page_cnt, region_bitmap, region_base.
  split_and!; (rewrite load64_eq by kvalid);
    (erewrite kblock_elem_eq by (eauto || lia)); done.
Qed.

Lemma table_count lst rs s :
  pager_layout lst rs -> table_in (mem s) lst rs ->
  load64 (elem64 lst 0) s = Ret (Z.of_nat (length rs)) s.
Proof.
  intros Hl Ht. pose proof (lay_table _ _ Hl) as Hk. unfold table_size in Hk.
  rewrite load64_eq by kvalid. erewrite kblock_elem_eq by (eauto || lia).
  rewrite Z.mul_0_r, Z.add_0_r. by rewrite (tab_len _ _ _ Ht).
Qed.

(** The start of the inner loop. *)
Definition scan_start (g : pager_globals) (i : Z) : Z :=
  if i =? last_free_bitmap g then Z.quot (last_free_page_num g) 64 else 0.

Lemma pg_alloc_region_eq lst rs (i : nat) r s :
  pager_layout lst rs -> table_in (mem s) lst rs -> rs !! i = Some r ->
  pg_alloc_region lst (Z.of_nat i) s =
  for_find (upto (scan_start (pager s) (Z.of_nat i)) (r_cnt r / 64))
    (pg_alloc_word (Z.of_nat i) (r_bitmap r) (r_base r)) s.
Proof.
  intros Hl Ht Hi. destruct (region_loads _ _ _ _ _ Hl Ht Hi) as (E1 & E2 & E3).
  destruct (ok_cnt r (lay_region _ _ Hl i r Hi)). unfold KERNEL_PAGE_SIZE in *.
  unfold pg_alloc_region. rewrite (bind_Ret _ _ _ _ _ E1), (bind_Ret _ _ _ _ _ E2),
    (bind_Ret _ _ _ _ _ E3). kstep.
  rewrite to_s64_small, (Z.quot_div_nonneg (r_cnt r) 64) by lia. done.
Qed.

Section Alloc.
Context (rs : list region) (s : kstate) (Hinv : pager_inv rs s).
Local Abbreviation lst := (pager_bitmap_list (pager s)).
Local Abbreviation ci := (last_free_bitmap (pager s)).
Local Abbreviation cp := (last_free_page_num (pager s)).

Lemma scan_start_pos i : 0 <= scan_start (pager s) i.
Proof.
  destruct (inv_cursor _ _ Hinv) as [[? ?] _]. unfold scan_start.
  destruct (i =? _); [|lia]. apply Z.quot_pos; lia.
Qed.

(** Everything the inner loop skips is in use. *)
Lemma before_scan_used (i : nat) r p :
  rs !! i = Some r -> allocatable r p -> p / 64 < scan_start (pager s) (Z.of_nat i) ->
  page_used (mem s) r p = true.
Proof.
  intros Hi Ha Hp. destruct (inv_cursor _ _ Hinv) as [[? ?] Hu]. unfold scan_start in Hp.
  unfold allocatable in Ha. assert (0 <= p / 64) by (apply Z.div_pos; lia).
  destruct (Z.eqb_spec (Z.of_nat i) ci) as [E|]; [|lia].
  rewrite Z.quot_div_nonneg in Hp by lia.
  apply (Hu i r p Hi Ha). right. split; [done|]. dlia.
Qed.

(** A region in which all pages are in use is passed over. *)
Lemma pg_alloc_region_full (i : nat) r :
  rs !! i = Some r -> (forall p, allocatable r p -> page_used (mem s) r p = true) ->
  pg_alloc_region lst (Z.of_nat i) s = Ret None s.
Proof.
  intros Hi Hu. destruct (Hinv) as [Hl Ht _]. pose proof (lay_region _ _ Hl i r Hi) as Hr.
  rewrite (pg_alloc_region_eq _ _ _ _ _ Hl Ht Hi). apply for_find_none. intros j Hj.
  apply elem_of_upto in Hj. pose proof (scan_start_pos (Z.of_nat i)).
  destruct (ok_cnt r Hr). unfold KERNEL_PAGE_SIZE in *.
  apply (pg_alloc_word_full _ r); [done| |done|].
  - unfold bitmap_words. dlia.
  - intros p Hp. apply Hu. unfold allocatable. lia.
Qed.

(** The region holding the first free page gives that page. *)
Lemma pg_alloc_region_take (i : nat) r p :
  first_free (mem s) rs i r p ->
  pg_alloc_region lst (Z.of_nat i) s = Ret (Some (page_addr r p)) (take_page i r p s).
Proof.
  intros [Hi Ha Hf Hfirst]. destruct (Hinv) as [Hl Ht _].
  pose proof (lay_region _ _ Hl i r Hi) as Hr.
  destruct (allocatable_bounds r Hr p Ha) as (Hp & Hw & Hb & Hc).
  assert (scan_start (pager s) (Z.of_nat i) <= p / 64).
  { destruct (Z.le_gt_cases (scan_start (pager s) (Z.of_nat i)) (p / 64)) as [|Hlt]; [done|].
    rewrite (before_scan_used i r p Hi Ha Hlt) in Hf. done. }
  rewrite (pg_alloc_region_eq _ _ _ _ _ Hl Ht Hi), (for_find_hit _ _ (p / 64)).
  - erewrite bind_Ret; [|apply (pg_alloc_word_take i r p s Hr Ha Hf)]; [done|].
    intros q Hq. apply (Hfirst i r q Hi); [unfold allocatable in *; dlia|right; split; lia].
  - lia.
  - intros j Hj. pose proof (scan_start_pos (Z.of_nat i)).
    apply (pg_alloc_word_full _ r); [done|lia|done|].
    intros q Hq. apply (Hfirst i r q Hi); [unfold allocatable in *; dlia|].
    right. split; [done|]. dlia.
Qed.

Lemma pg_alloc_eq :
  pg_alloc s =
  (r ← for_find (upto ci (Z.of_nat (length rs))) (pg_alloc_region lst);
   match r with
   | Some page_location => mret page_location
   | None => PANIC "OUT_OF_FREE_PAGES" 0 0 0
   end) s.
Proof.
  destruct (Hinv) as [Hl Ht _]. unfold pg_alloc. kstep.
  rewrite (bind_Ret _ _ _ _ _ (table_count _ _ _ Hl Ht)). kstep.
  rewrite to_s64_small; [done|]. pose proof (lay_few _ _ Hl). lia.
Qed.

Lemma region_at i : 0 <= i < Z.of_nat (length rs) ->
  exists r, rs !! Z.to_nat i = Some r /\ Z.of_nat (Z.to_nat i) = i.
Proof.
  intros H. destruct (lookup_lt_is_Some_2 rs (Z.to_nat i)) as [r Hr]; [lia|].
  exists r. split; [done|lia].
Qed.
End Alloc.


(** The effect of taking a page on the other pages. *)
Section Take.
Context (lst : Z) (rs : list region) (Hl : pager_layout lst rs).
Context (i : nat) (r : region) (p : Z) (Hi : rs !! i = Some r) (Hp : 0 <= p < r_cnt r).

Lemma bitmap_addr_in (j : nat) rj q :
  rs !! j = Some rj -> 0 <= q < r_cnt rj ->
  r_bitmap rj <= bitmap_word_addr rj q < r_bitmap rj + 8 * bitmap_words rj.
Proof.
  intros Hj Hq. pose proof (page_in_words rj (lay_region _ _ Hl j rj Hj) q Hq).
  unfold bitmap_word_addr. lia.
Qed.

(** A bitmap is apart from every page. *)
Lemma bitmap_apart_pages (j : nat) rj :
  rs !! j = Some rj -> apart (r_bitmap rj) (8 * bitmap_words rj) (r_base r) (KERNEL_PAGE_SIZE * r_cnt r).
Proof.
  intros Hj. destruct (Nat.eq_dec j i) as [->|Hne].
  - assert (rj = r) as -> by congruence. exact (ok_self _ (lay_region _ _ Hl i r Hi)).
  - exact (apart_mixed _ _ (lay_apart _ _ Hl j i rj r Hne Hj Hi)).
Qed.

Lemma rd_take_out m a :
  (a < page_addr r p \/ page_addr r p + KERNEL_PAGE_SIZE <= a) -> a <> bitmap_word_addr r p ->
  rd (take_mem r p m) a = rd m a.
Proof.
  intros Ha Hne. unfold take_mem. rewrite rd_zero_words_out; [by apply rd_wr_ne| |done].
  unfold KERNEL_PAGE_SIZE in *. change (8 * (4096 / 8)) with 4096. lia.
Qed.

Lemma rd_take_bitmap (j : nat) rj q m :
  rs !! j = Some rj -> 0 <= q < r_cnt rj ->
  rd (take_mem r p m) (bitmap_word_addr rj q) =
    rd (wr m (bitmap_word_addr r p) (set_bit (rd m (bitmap_word_addr r p)) (p mod 64)))
       (bitmap_word_addr rj q).
Proof.
  intros Hj Hq. unfold take_mem. apply rd_zero_words_out; [|done].
  pose proof (bitmap_addr_in j rj q Hj Hq). pose proof (bitmap_apart_pages j rj Hj) as Hap.
  unfold apart, page_addr, KERNEL_PAGE_SIZE in *. change (8 * (4096 / 8)) with 4096. lia.
Qed.

Lemma page_used_take (j : nat) rj q m :
  rs !! j = Some rj -> 0 <= q < r_cnt rj ->
  page_used (take_mem r p m) rj q = page_used m rj q || (bool_decide (j = i) && (q =? p)).
Proof.
  intros Hj Hq. unfold page_used. rewrite (rd_take_bitmap j) by done.
  assert (0 <= p mod 64 < 64 /\ 0 <= q mod 64 < 64) as [? ?] by dlia.
  destruct (decide (j = i)) as [->|Hne].
  - assert (rj = r) as -> by congruence. rewrite bool_decide_eq_true_2 by done.
    destruct (Z.eq_dec (q / 64) (p / 64)) as [E|E].
    + unfold bitmap_word_addr. rewrite E, rd_wr_eq, wrap64_small by
        (apply set_bit_u64; auto with kernel).
      rewrite testbit_set_bit by lia. cbn [andb]. f_equal.
      destruct (Z.eqb_spec q p), (Z.eqb_spec (q mod 64) (p mod 64)); dlia.
    + rewrite rd_wr_ne by (unfold bitmap_word_addr; lia).
      replace (q =? p) with false by (symmetry; apply Z.eqb_neq; congruence).
      by rewrite andb_false_r, orb_false_r.
  - rewrite bool_decide_eq_false_2 by done. rewrite orb_false_r, rd_wr_ne; [done|].
    pose proof (bitmap_addr_in j rj q Hj Hq). pose proof (bitmap_addr_in i r p Hi Hp).
    pose proof (apart_bitmaps _ _ (lay_apart _ _ Hl j i rj r Hne Hj Hi)). unfold apart in *. lia.
Qed.

Lemma table_in_take m : table_in m lst rs -> table_in (take_mem r p m) lst rs.
Proof.
  intros [Hlen He]. destruct (lay_apart_table _ _ Hl i r Hi) as [H1 H2].
  assert (forall k, 0 <= k < 1 + 3 * Z.of_nat (length rs) ->
    rd (take_mem r p m) (lst + 8 * k) = rd m (lst + 8 * k)) as Hout.
  { intros k Hk. pose proof (bitmap_addr_in i r p Hi Hp).
    apply rd_take_out; unfold apart, table_size, page_addr, KERNEL_PAGE_SIZE in *; lia. }
  split.
  - rewrite <- Hlen. replace lst with (lst + 8 * 0) by lia. apply Hout. lia.
  - intros j rj Hj. apply lookup_lt_Some in Hj as Hlt. unfold table_entry.
    rewrite !Hout by lia. by apply He.
Qed.
End Take.

(** A free page exists, or all are in use. *)
Lemma first_free_or_full m rs :
  (exists i r p, first_free m rs i r p) \/
  (forall (i : nat) r p, rs !! i = Some r -> allocatable r p -> page_used m r p = true).
Proof.
  induction rs as [|r rs IH] using rev_ind; [right; intros i r p H; done|].
  destruct IH as [(i & r' & p & [Hi Ha Hf Hfirst])|Hfull].
  - left. exists i, r', p. apply lookup_lt_Some in Hi as Hlt. split; [by apply lookup_app_l_Some|done..|].
    intros i' r'' p' Hi' Ha' Hb. apply (Hfirst i' r'' p'); [|done..].
    rewrite lookup_app_l in Hi'; [done|]. unfold before in Hb. lia.
  - destruct (least_index (fun p => negb (page_used m r p)) (Z.to_nat (64 * (r_cnt r / 64))))
      as [(p & Hp & HP & Hleast)|Hno].
    + left. exists (length rs), r, p. split.
      * by rewrite lookup_app_r, Nat.sub_diag by lia.
      * unfold allocatable. lia.
      * by apply negb_true_iff.
      * intros i' r' p' Hi' Ha' [Hlt|[Heq Hlt]].
        -- apply (Hfull i' r'); [|done]. rewrite lookup_app_l in Hi' by lia. done.
        -- assert (i' = length rs) as -> by lia.
           rewrite lookup_app_r, Nat.sub_diag in Hi' by lia. injection Hi' as <-.
           apply negb_false_iff, Hleast. unfold allocatable in Ha'. lia.
    + right. intros i' r' p' Hi' Ha'. apply lookup_snoc_Some in Hi' as [[_ Hi']|[-> <-]].
      * by apply (Hfull i').
      * apply negb_false_iff, Hno. unfold allocatable in Ha'. lia.
Qed.

Lemma pg_alloc_takes rs s i r p :
  pager_inv rs s -> first_free (mem s) rs i r p ->
  pg_alloc s = Ret (page_addr r p) (take_page i r p s).
Proof.
  intros Hinv Hff. destruct (Hff) as [Hi Ha Hf Hfirst].
  apply lookup_lt_Some in Hi as Hlt. destruct (inv_cursor _ _ Hinv) as [[? ?] Hu].
  rewrite (pg_alloc_eq rs s Hinv), (bind_Ret _ _ (Some (page_addr r p)) s (take_page i r p s));
    [done|].
  rewrite (for_find_hit _ _ (Z.of_nat i)).
  - erewrite bind_Ret; [|by eapply pg_alloc_region_take]. done.
  - split; [|lia]. destruct (Z.le_gt_cases (last_free_bitmap (pager s)) (Z.of_nat i)); [done|].
    rewrite (Hu i r p Hi Ha) in Hf; [done|]. left. lia.
  - intros j Hj. destruct (region_at rs j) as (r' & Hr' & <-); [lia|].
    apply (pg_alloc_region_full rs s Hinv _ r'); [done|].
    intros q Hq. apply (Hfirst _ r' q Hr' Hq). left. lia.
Qed.

Lemma pg_alloc_exhausted rs s :
  pager_inv rs s ->
  (forall (i : nat) r p, rs !! i = Some r -> allocatable r p -> page_used (mem s) r p = true) ->
  pg_alloc s = Panic "OUT_OF_FREE_PAGES" 0 0 0.
Proof.
  intros Hinv Hfull. rewrite (pg_alloc_eq rs s Hinv), (bind_Ret _ _ None s s); [done|].
  apply for_find_none. intros j Hj. apply elem_of_upto in Hj.
  destruct (inv_cursor _ _ Hinv) as [[? ?] _].
  destruct (region_at rs j) as (r' & Hr' & <-); [lia|].
  apply (pg_alloc_region_full rs s Hinv _ r'); [done|]. intros q Hq. by eapply Hfull.
Qed.

Lemma first_free_bounds rs lst m i r p :
  pager_layout lst rs -> first_free m rs i r p -> 0 <= p < r_cnt r.
Proof.
  intros Hl [Hi Ha _ _]. by apply (allocatable_bounds r (lay_region _ _ Hl i r Hi)).
Qed.

Lemma take_page_inv rs s i r p :
  pager_inv rs s -> first_free (mem s) rs i r p -> pager_inv rs (take_page i r p s).
Proof.
  intros Hinv Hff. destruct (Hinv) as [Hl Ht Hc]. pose proof (first_free_bounds _ _ _ _ _ _ Hl Hff).
  destruct Hff as [Hi Ha Hf Hfirst]. split; cbn [pager mem take_page set_mem set_cursor set_pager].
  - done.
  - by eapply (table_in_take _ _ Hl i).
  - split; [cbn; lia|]. cbn [last_free_bitmap last_free_page_num].
    intros j rj q Hj Hq Hb. pose proof (allocatable_bounds rj (lay_region _ _ Hl j rj Hj) q Hq).
    rewrite (page_used_take _ _ Hl i r p Hi ltac:(done) j rj q) by (done || lia).
    rewrite (Hfirst j rj q) by done. done.
Qed.

(** C1: in any state satisfying the pager's invariant, [pg_alloc] either
    returns the first free page, in region order and lowest index first, its
    only effects being that page's bit, its zeroed words and the cursor, and
    the invariant holds again; or every page it can reach is in use, and it
    panics with OUT_OF_FREE_PAGES. *)
Theorem pg_alloc_first_fit rs s :
  pager_inv rs s ->
  (exists i r p, first_free (mem s) rs i r p /\
     pg_alloc s = Ret (page_addr r p) (take_page i r p s) /\
     pager_inv rs (take_page i r p s)) \/
  ((forall (i : nat) r p, rs !! i = Some r -> allocatable r p -> page_used (mem s) r p = true) /\
   pg_alloc s = Panic "OUT_OF_FREE_PAGES" 0 0 0).
Proof.
  intros Hinv. destruct (first_free_or_full (mem s) rs) as [(i & r & p & Hff)|Hfull].
  - left. exists i, r, p. split_and!; [done|by apply (pg_alloc_takes rs)|by apply take_page_inv].
  - right. split; [done|by apply (pg_alloc_exhausted rs)].
Qed.

(** C3: a page [pg_alloc] returns is 4096-aligned kernel memory, was free, is
    zero, and is the only page whose status changed; no word outside the page
    changed, but for the one bitmap word that holds its bit. *)
Theorem pg_alloc_fresh_page rs s a s' :
  pager_inv rs s -> pg_alloc s = Ret a s' ->
  exists i r p, rs !! i = Some r /\ 0 <= p < r_cnt r /\ a = page_addr r p /\
    a mod KERNEL_PAGE_SIZE = 0 /\ kblock a KERNEL_PAGE_SIZE /\
    page_used (mem s) r p = false /\
    (forall k, 0 <= k < 512 -> rd (mem s') (a + 8 * k) = 0) /\
    (forall (j : nat) rj q, rs !! j = Some rj -> 0 <= q < r_cnt rj ->
       page_used (mem s') rj q = page_used (mem s) rj q || (bool_decide (j = i) && (q =? p))) /\
    (forall b, b < a \/ a + KERNEL_PAGE_SIZE <= b -> b <> bitmap_word_addr r p ->
       rd (mem s') b = rd (mem s) b).
Proof.
  intros Hinv Ha. destruct (first_free_or_full (mem s) rs) as [(i & r & p & Hff)|Hfull].
  2: { rewrite (pg_alloc_exhausted rs s Hinv Hfull) in Ha. done. }
  rewrite (pg_alloc_takes rs s i r p Hinv Hff) in Ha. injection Ha as <- <-.
  destruct (Hinv) as [Hl Ht Hc]. pose proof (first_free_bounds _ _ _ _ _ _ Hl Hff) as Hp.
  destruct Hff as [Hi Hal Hf Hfirst]. pose proof (lay_region _ _ Hl i r Hi) as Hr.
  exists i, r, p. do 3 (split; [done|]). split; [|split; [by apply page_block|split; [done|]]].
  { pose proof (ok_aligned r Hr). unfold page_addr, KERNEL_PAGE_SIZE in *. dlia. }
  split; [|split].
  - intros k Hk. by apply rd_zero_words_in.
  - intros j rj q Hj Hq. by apply (page_used_take _ _ Hl i r p Hi Hp j).
  - intros b Hb Hne. by apply rd_take_out.
Qed.

(** ** Freeing *)

Definition release_mem (r : region) (p : Z) (m : gmap Z Z) : gmap Z Z :=
  wr m (bitmap_word_addr r p) (clear_bit (rd m (bitmap_word_addr r p)) (p mod 64)).
Definition lower_cursor (i p : Z) (s : kstate) : kstate :=
  if (i <? last_free_bitmap (pager s)) ||
     ((p <? last_free_page_num (pager s)) && (last_free_bitmap (pager s) =? i))
  then set_cursor i p s else s.
Definition release_page (i : nat) (r : region) (p : Z) (s : kstate) : kstate :=
  lower_cursor (Z.of_nat i) p (set_mem (release_mem r p (mem s)) s).

Definition closest_of (i : nat) (r : region) : closest :=
  mkClosest (r_cnt r) (r_bitmap r) (r_base r) (Z.of_nat i).

(** A location inside page [p] of region [r]. *)
Definition in_page (r : region) (p a : Z) : Prop :=
  page_addr r p <= a < page_addr r p + KERNEL_PAGE_SIZE.

Section Free.
Context (rs : list region) (s : kstate) (Hinv : pager_inv rs s).
Local Abbreviation lst := (pager_bitmap_list (pager s)).

Lemma pg_free_closer_eq (i : nat) r a c :
  rs !! i = Some r ->
  pg_free_closer lst a c (Z.of_nat i) s =
    Ret (if (closest_page_list c <? r_base r) && (r_base r <=? a) then closest_of i r else c) s.
Proof.
  intros Hi. destruct (Hinv) as [Hl Ht _].
  destruct (region_loads _ _ _ _ _ Hl Ht Hi) as (E1 & E2 & E3).
  destruct (ok_cnt r (lay_region _ _ Hl i r Hi)). unfold KERNEL_PAGE_SIZE in *.
  unfold pg_free_closer. rewrite (bind_Ret _ _ _ _ _ E1), (bind_Ret _ _ _ _ _ E2),
    (bind_Ret _ _ _ _ _ E3).
  rewrite to_s64_small by lia. by destruct (_ && _).
Qed.

Lemma page_base_u64 (i : nat) r : rs !! i = Some r -> KERNEL_VMA_START <= r_base r < 18446744073709551616.
Proof.
  intros Hi. pose proof (lay_region _ _ (inv_layout _ _ Hinv) i r Hi) as Hr.
  destruct (ok_pages r Hr) as (? & ? & _). destruct (ok_cnt r Hr) as [? _].
  unfold KERNEL_PAGE_SIZE in *. lia.
Qed.

(** The pages of another region start elsewhere than the page of [a]. *)
Lemma closest_unique (i j : nat) r rj p a :
  rs !! i = Some r -> 0 <= p < r_cnt r -> in_page r p a ->
  rs !! j = Some rj -> r_base rj <= a -> j <> i -> r_base rj < r_base r.
Proof.
  intros Hi Hp Ha Hj Hle Hne. destruct (Hinv) as [Hl _ _].
  pose proof (apart_pages _ _ (lay_apart _ _ Hl j i rj r Hne Hj Hi)) as Hap.
  destruct (ok_cnt _ (lay_region _ _ Hl j rj Hj)).
  unfold apart, in_page, page_addr, KERNEL_PAGE_SIZE in *. nia.
Qed.

Lemma pg_free_closest (i : nat) r p a :
  rs !! i = Some r -> 0 <= p < r_cnt r -> in_page r p a ->
  for_fold (upto 0 (Z.of_nat (length rs))) (pg_free_closer lst a) (mkClosest 0 0 0 0) s =
    Ret (closest_of i r) s.
Proof.
  intros Hi Hp Ha. apply wp_exact. apply lookup_lt_Some in Hi as Hlt.
  assert (r_base r <= a) as Hle by (unfold in_page, page_addr, KERNEL_PAGE_SIZE in Ha; lia).
  pose proof (page_base_u64 i r Hi). unfold KERNEL_VMA_START in *.
  apply (wp_for_fold (fun j c s' => s' = s /\
    (j <= Z.of_nat i -> closest_page_list c < r_base r) /\
    (Z.of_nat i < j -> c = closest_of i r))).
  - lia.
  - split; [done|]. split; [cbn; lia|lia].
  - intros j c s' Hj (-> & Hlow & Hdone). destruct (region_at rs j) as (rj & Hrj & Ej); [lia|].
    rewrite <- Ej. eapply wp_Ret; [by apply pg_free_closer_eq|]. rewrite Ej. split; [done|].
    destruct (decide (Z.to_nat j = i)) as [E|Hne].
    + assert (rj = r) as -> by congruence. rewrite E.
      replace ((closest_page_list c <? r_base r) && (r_base r <=? a)) with true by lia. split; [lia|done].
    + pose proof (closest_unique i (Z.to_nat j) r rj p a Hi Hp Ha Hrj).
      destruct ((closest_page_list c <? r_base rj) && (r_base rj <=? a)) eqn:E.
      * split; [cbn; lia|]. intros Hgt. rewrite Hdone in E by lia. cbn [closest_page_list closest_of] in E. lia.
      * split; [intros; apply Hlow; lia|]. intros; apply Hdone; lia.
  - intros c s' (-> & _ & Hdone). rewrite Hdone by lia. done.
Qed.

(** Without a page at [a], the closest region, if any, ends below [a]. *)
Lemma pg_free_no_closest a :
  (forall (i : nat) r p, rs !! i = Some r -> 0 <= p < r_cnt r -> ~ in_page r p a) ->
  exists c, for_fold (upto 0 (Z.of_nat (length rs))) (pg_free_closer lst a) (mkClosest 0 0 0 0) s =
      Ret c s /\
    (c = mkClosest 0 0 0 0 \/
     exists i r, rs !! i = Some r /\ c = closest_of i r /\ r_base r + KERNEL_PAGE_SIZE * r_cnt r <= a).
Proof.
  intros Hno. set (ok := fun c : closest => c = mkClosest 0 0 0 0 \/
     exists i r, rs !! i = Some r /\ c = closest_of i r /\ r_base r + KERNEL_PAGE_SIZE * r_cnt r <= a).
  assert (wp (for_fold (upto 0 (Z.of_nat (length rs))) (pg_free_closer lst a) (mkClosest 0 0 0 0))
    (fun c s' => s' = s /\ ok c) s) as Hw.
  { apply (wp_for_fold (fun j c s' => s' = s /\ ok c)); [lia|by split; [|left]| |done].
    intros j c s' Hj [-> Hc]. destruct (region_at rs j) as (rj & Hrj & Ej); [lia|].
    rewrite <- Ej. eapply wp_Ret; [by apply pg_free_closer_eq|]. split; [done|].
    destruct ((closest_page_list c <? r_base rj) && (r_base rj <=? a)) eqn:E; [|done].
    right. exists (Z.to_nat j), rj. split; [done|]. split; [done|].
    destruct (Z.le_gt_cases (r_base rj + KERNEL_PAGE_SIZE * r_cnt rj) a) as [|Hgt]; [done|].
    exfalso. apply (Hno _ rj ((a - r_base rj) / 4096) Hrj);
      unfold in_page, page_addr, KERNEL_PAGE_SIZE in *; dlia. }
  unfold wp in Hw. destruct (for_fold _ _ _ s) as [c s'|m v1 v2 v3|?|?| |]; try done.
  destruct Hw as [-> Hc]. by exists c.
Qed.
End Free.

Lemma lower_cursor_pager i p s :
  exists ci cp, lower_cursor i p s = set_cursor ci cp s /\
    ((ci = i /\ cp = p /\ before i p (last_free_bitmap (pager s)) (last_free_page_num (pager s))) \/
     (ci = last_free_bitmap (pager s) /\ cp = last_free_page_num (pager s) /\
      ~ before i p ci cp)).
Proof.
  unfold lower_cursor, before.
  destruct ((i <? _) || _) eqn:E; [exists i, p; split; [done|left]; lia|].
  exists (last_free_bitmap (pager s)), (last_free_page_num (pager s)).
  split; [by destruct s as [? ? ? ? ? ? ? ? []]|right]. lia.
Qed.

Section FreePage.
Context (rs : list region) (s : kstate) (Hinv : pager_inv rs s).
Context (i : nat) (r : region) (p a : Z) (Hi : rs !! i = Some r) (Hp : 0 <= p < r_cnt r)
  (Ha : in_page r p a).
Local Abbreviation lst := (pager_bitmap_list (pager s)).

(** What [pg_free] does once the region is found. *)
Lemma pg_free_found :
  pg_free a s =
    if page_used (mem s) r p then Ret tt (release_page i r p s)
    else Panic "DOUBLE_FREE_PAGE" a p (r_bitmap r).
Proof.
  destruct (Hinv) as [Hl Ht _]. pose proof (lay_few _ _ Hl) as Hfew.
  pose proof (lay_region _ _ Hl i r Hi) as Hr. pose proof (ok_bitmap r Hr) as Hk.
  pose proof (page_in_words r Hr p Hp) as Hw. pose proof (page_base_u64 rs s Hinv i r Hi) as Hb.
  destruct (ok_pages r Hr) as (_ & Hend & _). destruct (ok_cnt r Hr) as [_ Hcnt].
  unfold pg_free. kstep. rewrite (bind_Ret _ _ _ _ _ (table_count _ _ _ Hl Ht)).
  rewrite to_s64_small by lia.
  rewrite (bind_Ret _ _ _ _ _ (pg_free_closest rs s Hinv i r p a Hi Hp Ha)).
  unfold in_page, page_addr, KERNEL_PAGE_SIZE, KERNEL_VMA_START in *.
  cbn [closest_of closest_page_list closest_bitmap closest_page_cnt closest_page_num]. cbv zeta.
  rewrite to_s64_small by lia.
  replace (Z.quot (a - r_base r) 4096) with p by (rewrite Z.quot_div_nonneg by lia; dlia).
  rewrite Z.quot_div_nonneg, Z.rem_mod_nonneg by lia.
  destruct Hk as (Hk1 & Hk'). unfold KERNEL_VMA_START in *.
  replace (r_bitmap r =? 0) with false by lia.
  replace ((p <? 0) || (r_cnt r <=? p)) with false by lia.
  rewrite (bind_Ret _ _ _ _ _ (load64_eq _ s (kblock_elem_valid _ (bitmap_words r) _ (ok_bitmap r Hr) Hw))).
  rewrite (kblock_elem_eq _ (bitmap_words r)) by (done || apply (ok_bitmap r Hr)).
  unfold page_used. change (r_bitmap r + 8 * (p / 64)) with (bitmap_word_addr r p).
  set (w := rd (mem s) (bitmap_word_addr r p)).
  assert (0 <= p mod 64 < 64) as Hm by (apply Z.mod_pos_bound; lia).
  pose proof (land_BIT_zero (not64 w) (p mod 64) Hm) as Hbit. rewrite testbit_not64 in Hbit by done.
  destruct (Z.testbit w (p mod 64)); cbn [negb] in Hbit.
  - rewrite (proj2 Hbit) by done. cbn [negb Z.eqb].
    erewrite bind_Ret by (apply store64_eq, (kblock_word_valid _ (bitmap_words r)); [apply (ok_bitmap r Hr)|done]).
    kstep. unfold when, release_page, lower_cursor, release_mem. fold w. cbn [pager set_mem].
    by destruct (_ || _).
  - destruct (Z.eqb_spec (Z.land (not64 w) (BIT (p mod 64))) 0) as [E|E]; [|done].
    apply Hbit in E. done.
Qed.

Lemma page_used_release (j : nat) rj q m :
  rs !! j = Some rj -> 0 <= q < r_cnt rj ->
  page_used (release_mem r p m) rj q =
    page_used m rj q && negb (bool_decide (j = i) && (q =? p)).
Proof.
  intros Hj Hq. destruct (Hinv) as [Hl _ _]. unfold page_used, release_mem.
  assert (0 <= p mod 64 < 64 /\ 0 <= q mod 64 < 64) as [? ?] by dlia.
  destruct (decide (j = i)) as [->|Hne].
  - assert (rj = r) as -> by congruence. rewrite bool_decide_eq_true_2 by done. cbn [andb].
    destruct (Z.eq_dec (q / 64) (p / 64)) as [E|E].
    + unfold bitmap_word_addr. rewrite E, rd_wr_eq, wrap64_small by
        (apply clear_bit_u64; auto with kernel).
      rewrite testbit_clear_bit by lia. do 2 f_equal.
      destruct (Z.eqb_spec q p), (Z.eqb_spec (q mod 64) (p mod 64)); dlia.
    + rewrite rd_wr_ne by (unfold bitmap_word_addr; lia).
      replace (q =? p) with false by (symmetry; apply Z.eqb_neq; congruence).
      by rewrite andb_true_r.
  - rewrite bool_decide_eq_false_2 by done. rewrite andb_true_r, rd_wr_ne; [done|].
    pose proof (bitmap_addr_in _ _ Hl j rj q Hj Hq). pose proof (bitmap_addr_in _ _ Hl i r p Hi Hp).
    pose proof (apart_bitmaps _ _ (lay_apart _ _ Hl j i rj r Hne Hj Hi)). unfold apart in *. lia.
Qed.

Lemma table_in_release m : table_in m lst rs -> table_in (release_mem r p m) lst rs.
Proof.
  intros [Hlen He]. destruct (Hinv) as [Hl _ _]. destruct (lay_apart_table _ _ Hl i r Hi) as [H1 H2].
  assert (forall k, 0 <= k < 1 + 3 * Z.of_nat (length rs) ->
    rd (release_mem r p m) (lst + 8 * k) = rd m (lst + 8 * k)) as Hout.
  { intros k Hk. pose proof (bitmap_addr_in _ _ Hl i r p Hi Hp).
    apply rd_wr_ne. unfold apart, table_size in *. lia. }
  split.
  - rewrite <- Hlen. replace lst with (lst + 8 * 0) by lia. apply Hout. lia.
  - intros j rj Hj. apply lookup_lt_Some in Hj as Hlt. unfold table_entry.
    rewrite !Hout by lia. by apply He.
Qed.

Lemma release_page_inv : pager_inv rs (release_page i r p s).
Proof.
  destruct (Hinv) as [Hl Ht [[Hc1 Hc2] Hc]].
  unfold release_page.
  destruct (lower_cursor_pager (Z.of_nat i) p (set_mem (release_mem r p (mem s)) s))
    as (ci & cp & -> & Hcur). cbn [pager set_mem] in Hcur.
  split; cbn [pager mem set_mem set_cursor set_pager pager_bitmap_list last_free_bitmap last_free_page_num].
  - done.
  - by apply table_in_release.
  - split; [lia|]. intros j rj q Hj Hq Hb.
    pose proof (allocatable_bounds rj (lay_region _ _ Hl j rj Hj) q Hq).
    rewrite (page_used_release j rj q) by (done || lia). rewrite (Hc j rj q) by
      (done || (unfold before in *; lia)). cbn [andb].
    destruct (decide (j = i)) as [->|Hne]; [|by rewrite bool_decide_eq_false_2].
    rewrite bool_decide_eq_true_2 by done. cbn [andb]. unfold before in *. lia.
Qed.

Lemma release_page_used (j : nat) rj q : rs !! j = Some rj -> 0 <= q < r_cnt rj ->
  page_used (mem (release_page i r p s)) rj q = page_used (mem s) rj q && negb (bool_decide (j = i) && (q =? p)).
Proof.
  intros Hj Hq. unfold release_page. destruct (lower_cursor_pager (Z.of_nat i) p (set_mem (release_mem r p (mem s)) s))
    as (ci & cp & -> & _). by apply page_used_release.
Qed.
End FreePage.

(** C4: for an address inside page [p] of region [i], [pg_free] clears that
    page's bit and no other, lowers the cursor when the page is before it and
    keeps the invariant when the page is in use; when it is not, it panics
    with DOUBLE_FREE_PAGE. *)
Theorem pg_free_page rs s (i : nat) r p a :
  pager_inv rs s -> rs !! i = Some r -> 0 <= p < r_cnt r -> in_page r p a ->
  if page_used (mem s) r p then
    exists s', pg_free a s = Ret tt s' /\ pager_inv rs s' /\
      (forall (j : nat) rj q, rs !! j = Some rj -> 0 <= q < r_cnt rj ->
         page_used (mem s') rj q = page_used (mem s) rj q && negb (bool_decide (j = i) && (q =? p))) /\
      (forall b, b <> bitmap_word_addr r p -> rd (mem s') b = rd (mem s) b)
  else pg_free a s = Panic "DOUBLE_FREE_PAGE" a p (r_bitmap r).
Proof.
  intros Hinv Hi Hp Ha. rewrite (pg_free_found rs s Hinv i r p a Hi Hp Ha).
  destruct (page_used (mem s) r p); [|done]. exists (release_page i r p s).
  split; [done|]. split; [by apply release_page_inv|].
  split; [intros j rj q Hj Hq; by apply (release_page_used rs s Hinv i r p)|]. intros b Hb.
  unfold release_page. destruct (lower_cursor_pager (Z.of_nat i) p (set_mem (release_mem r p (mem s)) s))
    as (ci & cp & -> & _). cbn [mem set_mem set_cursor set_pager]. by apply rd_wr_ne.
Qed.

(** An address that lies in no page of any region is never released:
    [pg_free] panics, below the lowest region or past the end of the closest one. *)
Theorem pg_free_foreign rs s a :
  pager_inv rs s -> u64 a ->
  (forall (i : nat) r p, rs !! i = Some r -> 0 <= p < r_cnt r -> ~ in_page r p a) ->
  exists msg v1 v2 v3, pg_free a s = Panic msg v1 v2 v3 /\
    (msg = "PAGE_REMOVE_NO_OVERRIDE"%string \/ msg = "ATTEMPT_REMOVE_PAGE_OUT_OF_RANGE"%string).
Proof.
  intros Hinv Hu Hno. destruct (Hinv) as [Hl Ht _]. pose proof (lay_few _ _ Hl) as Hfew.
  destruct (pg_free_no_closest rs s Hinv a Hno) as (c & Hc & Hcases).
  unfold pg_free. kstep. rewrite (bind_Ret _ _ _ _ _ (table_count _ _ _ Hl Ht)).
  rewrite to_s64_small by lia. rewrite (bind_Ret _ _ _ _ _ Hc).
  destruct Hcases as [->|(i & r & Hi & -> & Hge)]; [by eauto 10|].
  pose proof (lay_region _ _ Hl i r Hi) as Hr. pose proof (page_base_u64 rs s Hinv i r Hi) as Hb.
  destruct (ok_bitmap r Hr) as (Hk & _). destruct (ok_cnt r Hr) as [Hpos _].
  cbn [closest_of closest_page_list closest_bitmap closest_page_cnt closest_page_num]. cbv zeta.
  unfold KERNEL_VMA_START, KERNEL_PAGE_SIZE, u64 in *.
  rewrite to_s64_small by lia. replace (r_bitmap r =? 0) with false by lia.
  assert (r_cnt r <= Z.quot (a - r_base r) 4096) as Hq by (rewrite Z.quot_div_nonneg by lia; dlia).
  replace ((Z.quot (a - r_base r) 4096 <? 0) || (r_cnt r <=? Z.quot (a - r_base r) 4096)) with true by lia.
  by eauto 10.
Qed.

(** ** Clients of the pager *)

(** What a client holding the pages [owned] can do: obtain a page, give one
    back, write a word of one it holds. *)
Inductive pager_step : gset Z * kstate -> gset Z * kstate -> Prop :=
| step_alloc owned s a s' :
    pg_alloc s = Ret a s' -> pager_step (owned, s) ({[a]} ∪ owned, s')
| step_free owned s a s' :
    a ∈ owned -> pg_free a s = Ret tt s' -> pager_step (owned, s) (owned ∖ {[a]}, s')
| step_write owned s a k v :
    a ∈ owned -> 0 <= k < 512 ->
    pager_step (owned, s) (owned, set_mem (wr (mem s) (a + 8 * k) v) s).

(** [a] is a page of the regions, in use. *)
Definition page_in_use (rs : list region) (m : gmap Z Z) (a : Z) : Prop :=
  exists (i : nat) r p, rs !! i = Some r /\ 0 <= p < r_cnt r /\ a = page_addr r p /\ page_used m r p = true.

Record client_inv (rs : list region) (owned : gset Z) (s : kstate) : Prop := {
  ci_pager : pager_inv rs s;
  ci_owned a : a ∈ owned -> page_in_use rs (mem s) a;
}.

Lemma page_addr_inj_regions lst rs (i j : nat) ri rj p q :
  pager_layout lst rs -> rs !! i = Some ri -> rs !! j = Some rj -> 0 <= p < r_cnt ri ->
  0 <= q < r_cnt rj -> page_addr ri p = page_addr rj q -> i = j /\ p = q.
Proof.
  intros Hl Hi Hj Hp Hq E. destruct (Nat.eq_dec i j) as [->|Hne].
  - assert (ri = rj) as -> by congruence. split; [done|]. by apply page_addr_inj in E.
  - pose proof (apart_pages _ _ (lay_apart _ _ Hl i j ri rj Hne Hi Hj)).
    unfold apart, page_addr, KERNEL_PAGE_SIZE in *. lia.
Qed.

Lemma in_page_start r p : in_page r p (page_addr r p).
Proof. unfold in_page, KERNEL_PAGE_SIZE. lia. Qed.

(** Memory that changes in the pages alone disturbs neither the table nor a
    bitmap. *)
Section PageWrite.
Context (rs : list region) (s : kstate) (Hinv : pager_inv rs s) (m' : gmap Z Z).
Context (Hsame : forall a, a mod 8 = 0 ->
  (forall (i : nat) r p, rs !! i = Some r -> 0 <= p < r_cnt r -> apart a 8 (page_addr r p) KERNEL_PAGE_SIZE) ->
  rd m' a = rd (mem s) a).

Lemma page_used_write (j : nat) rj q :
  rs !! j = Some rj -> 0 <= q < r_cnt rj -> page_used m' rj q = page_used (mem s) rj q.
Proof.
  intros Hj Hq. destruct (Hinv) as [Hl _ _]. unfold page_used. rewrite Hsame; [done| |].
  - unfold bitmap_word_addr. destruct (ok_bitmap rj (lay_region _ _ Hl j rj Hj)) as (_ & _ & H). clear -H. dlia.
  - intros i r p Hi Hp. pose proof (page_in_words rj (lay_region _ _ Hl j rj Hj) q Hq).
    pose proof (bitmap_apart_pages _ _ Hl i r Hi j rj Hj).
    unfold apart, bitmap_word_addr, page_addr, KERNEL_PAGE_SIZE in *. lia.
Qed.

Lemma page_write_inv : pager_inv rs (set_mem m' s).
Proof.
  destruct (Hinv) as [Hl [Hlen He] [Hc0 Hc]].
  assert (forall k', 0 <= k' < 1 + 3 * Z.of_nat (length rs) ->
    rd m' (pager_bitmap_list (pager s) + 8 * k') = rd (mem s) (pager_bitmap_list (pager s) + 8 * k'))
    as Hout.
  { intros k' Hk'. apply Hsame.
    - destruct (lay_table _ _ Hl) as (_ & _ & H). clear -H. dlia.
    - intros i r p Hi Hp. destruct (lay_apart_table _ _ Hl i r Hi) as [_ H2].
      unfold apart, table_size, page_addr, KERNEL_PAGE_SIZE in *. lia. }
  split; cbn [pager mem set_mem]; [done| |].
  - split.
    + rewrite <- Hlen. replace (pager_bitmap_list (pager s))
        with (pager_bitmap_list (pager s) + 8 * 0) by lia. apply Hout. lia.
    + intros j rj Hj. apply lookup_lt_Some in Hj as Hlt. unfold table_entry.
      rewrite !Hout by lia. by apply He.
  - split; [done|]. intros j rj q Hj Hq Hb.
    pose proof (allocatable_bounds rj (lay_region _ _ Hl j rj Hj) q Hq).
    rewrite (page_used_write j rj q) by (done || lia). by apply (Hc j).
Qed.

Lemma page_write_client owned : client_inv rs owned s -> client_inv rs owned (set_mem m' s).
Proof.
  intros [_ Ho]. split; [exact page_write_inv|]. intros b Hb.
  destruct (Ho b Hb) as (j & rj & q & Hj & Hq & -> & Hu). exists j, rj, q.
  split_and!; try done; try lia. cbn [mem set_mem]. by rewrite (page_used_write j).
Qed.
End PageWrite.

Lemma pg_alloc_inv_cases rs s a s' :
  pager_inv rs s -> pg_alloc s = Ret a s' ->
  exists i r p, first_free (mem s) rs i r p /\ a = page_addr r p /\ s' = take_page i r p s.
Proof.
  intros Hinv Ha. destruct (first_free_or_full (mem s) rs) as [(i & r & p & Hff)|Hfull].
  - rewrite (pg_alloc_takes rs s i r p Hinv Hff) in Ha. injection Ha as <- <-. by exists i, r, p.
  - rewrite (pg_alloc_exhausted rs s Hinv Hfull) in Ha. done.
Qed.

Lemma pager_step_inv rs owned s owned' s' :
  client_inv rs owned s -> pager_step (owned, s) (owned', s') -> client_inv rs owned' s'.
Proof.
  intros [Hinv Ho] Hstep. inversion Hstep as [? ? a ? Ha|? ? a ? Hin Ha|? ? a k v Hin Hk]; subst.
  - destruct (pg_alloc_inv_cases _ _ _ _ Hinv Ha) as (i & r & p & Hff & -> & ->).
    pose proof (first_free_bounds _ _ _ _ _ _ (inv_layout _ _ Hinv) Hff) as Hp.
    pose proof (ff_region _ _ _ _ _ Hff) as Hi.
    pose proof (page_used_take _ _ (inv_layout _ _ Hinv) i r p Hi Hp) as Hu.
    split; [by apply take_page_inv|]. intros b Hb. apply elem_of_union in Hb as [Hb|Hb].
    + apply elem_of_singleton in Hb as ->. exists i, r, p. split_and!; try done; try lia.
      cbn [mem take_page set_mem]. rewrite (Hu i r p) by done. by rewrite bool_decide_eq_true_2, Z.eqb_refl, orb_true_r.
    + destruct (Ho b Hb) as (j & rj & q & Hj & Hq & -> & Hused). exists j, rj, q.
      split_and!; try done; try lia. cbn [mem take_page set_mem].
      by rewrite (Hu j rj q), Hused by done.
  - destruct (Ho a Hin) as (i & r & p & Hi & Hp & -> & Hused).
    rewrite (pg_free_found rs s Hinv i r p _ Hi Hp (in_page_start r p)), Hused in Ha.
    injection Ha as <-. split; [by apply release_page_inv|]. intros b Hb.
    apply elem_of_difference in Hb as [Hb Hne]. rewrite elem_of_singleton in Hne.
    destruct (Ho b Hb) as (j & rj & q & Hj & Hq & -> & Hu). exists j, rj, q.
    split_and!; try done; try lia. unfold release_page.
    destruct (lower_cursor_pager (Z.of_nat i) p (set_mem (release_mem r p (mem s)) s))
      as (ci & cp & -> & _). cbn [mem set_mem set_cursor set_pager].
    rewrite (page_used_release rs s Hinv i r p Hi Hp j rj q) by done. rewrite Hu. cbn [andb].
    apply negb_true_iff, andb_false_iff. destruct (decide (j = i)) as [->|]; [right|left].
    + apply Z.eqb_neq. intros ->. assert (rj = r) as -> by congruence. done.
    + by apply bool_decide_eq_false_2.
  - destruct (Ho a Hin) as (i & r & p & Hi & Hp & -> & _). apply page_write_client; [done| |by split].
    intros b _ Hb. apply rd_wr_ne. specialize (Hb i r p Hi Hp). unfold apart, KERNEL_PAGE_SIZE in Hb. lia.
Qed.

Lemma pager_run_inv rs owned s owned' s' :
  client_inv rs owned s -> rtc pager_step (owned, s) (owned', s') -> client_inv rs owned' s'.
Proof.
  intros Hc Hr. remember (owned, s) as x eqn:Ex. remember (owned', s') as y eqn:Ey.
  revert owned s Ex Hc. induction Hr as [x|x [o1 s1] y Hs Hr IH]; intros owned s -> Hc.
  - injection Ey as -> ->. done.
  - apply (IH Ey o1 s1 eq_refl). by eapply pager_step_inv.
Qed.

(** C2: whatever sequence of allocations, releases and writes to pages held a
    client makes from a good state, the next page it is given is not one it
    holds and the pages it holds are left as they are, and every page it
    holds can be released. *)
Theorem pager_isolation rs s0 owned s :
  pager_inv rs s0 -> rtc pager_step (∅, s0) (owned, s) ->
  (forall a s', pg_alloc s = Ret a s' -> (a ∉ owned) /\
     (forall b k, b ∈ owned -> 0 <= k < 512 -> rd (mem s') (b + 8 * k) = rd (mem s) (b + 8 * k))) /\
  (forall a, a ∈ owned -> exists s', pg_free a s = Ret tt s').
Proof.
  intros Hinv0 Hr. destruct (pager_run_inv rs ∅ s0 owned s) as [Hinv Ho]; [by split|done|].
  destruct (Hinv) as [Hl _ _]. split.
  - intros a s' Ha. destruct (pg_alloc_inv_cases _ _ _ _ Hinv Ha) as (i & r & p & Hff & -> & ->).
    pose proof (first_free_bounds _ _ _ _ _ _ Hl Hff) as Hp. destruct Hff as [Hi _ Hf _].
    assert (forall b, b ∈ owned -> exists (j : nat) rj q, rs !! j = Some rj /\ 0 <= q < r_cnt rj /\
      b = page_addr rj q /\ ~ (j = i /\ q = p)) as Hother.
    { intros b Hb. destruct (Ho b Hb) as (j & rj & q & Hj & Hq & -> & Hu). exists j, rj, q.
      do 3 (split; [done|]). intros [-> ->]. congruence. }
    split.
    + intros Hin. destruct (Hother _ Hin) as (j & rj & q & Hj & Hq & E & Hne).
      destruct (page_addr_inj_regions _ _ i j r rj p q Hl Hi Hj Hp Hq E). apply Hne. by split.
    + intros b k Hb Hk.
      destruct (Hother _ Hb) as (j & rj & q & Hj & Hq & -> & Hne).
      cbn [mem set_mem take_page].
      pose proof (bitmap_apart_pages _ _ Hl j rj Hj i r Hi). pose proof (bitmap_addr_in _ _ Hl i r p Hi Hp).
      apply rd_take_out; unfold apart, page_addr, KERNEL_PAGE_SIZE in *; [|nia].
      destruct (Nat.eq_dec j i) as [->|Hji].
      * assert (rj = r) as -> by congruence. assert (q <> p) by (intros ->; by apply Hne). nia.
      * pose proof (apart_pages _ _ (lay_apart _ _ Hl j i rj r Hji Hj Hi)).
        unfold apart, KERNEL_PAGE_SIZE in *. nia.
  - intros a Ha. destruct (Ho a Ha) as (i & r & p & Hi & Hp & -> & Hu). exists (release_page i r p s).
    by rewrite (pg_free_found rs s Hinv i r p _ Hi Hp (in_page_start r p)), Hu.
Qed.

(** ** A small pager

    One region of 128 pages, its table and bitmap in front of it. *)
Definition demo_table : Z := 0xffffffc080000000.
Definition demo_region : region := mkRegion 128 (demo_table + 256) (demo_table + 4096).
Definition demo_pager : kstate :=
  set_pager (mkPager demo_table 0 0)
    (set_mem (write_words ∅ demo_table [1; 128; demo_table + 256; demo_table + 4096]) zero_state).

Lemma demo_layout : pager_layout demo_table [demo_region].
Proof.
  split.
  - unfold kblock; zdone.
  - zdone.
  - intros [|i] r Hr; [injection Hr as <-|done]. split; unfold kblock, apart; zdone.
  - intros [|i] r Hr; [injection Hr as <-|done]. split; unfold apart; zdone.
  - intros [|i] [|j] r1 r2 Hne H1 H2; done.
Qed.

Lemma demo_inv : pager_inv [demo_region] demo_pager.
Proof.
  split; [exact demo_layout| |].
  - split; [zdone|]. intros [|i] r Hr; [injection Hr as <-|done]. unfold table_entry; zdone.
  - split; [zdone|]. intros i r p Hr Hp [H|H]; unfold allocatable in Hp; cbn in *; lia.
Qed.

(** ** Witnesses *)

Lemma demo_first : first_free (mem demo_pager) [demo_region] 0 demo_region 0.
Proof.
  split; [done|unfold allocatable; zdone|by vm_compute|].
  intros i r p Hi Hp [H|[H1 H2]]; unfold allocatable in Hp; lia.
Qed.

Definition demo_taken : kstate := take_page 0 demo_region 0 demo_pager.

Lemma demo_take : pg_alloc demo_pager = Ret (demo_table + 4096) demo_taken.
Proof.
  change (demo_table + 4096) with (page_addr demo_region 0).
  apply (pg_alloc_takes [demo_region]); [exact demo_inv|exact demo_first].
Qed.

Lemma demo_taken_inv : pager_inv [demo_region] demo_taken.
Proof. apply take_page_inv; [exact demo_inv|exact demo_first]. Qed.

Lemma demo_taken_used : page_used (mem demo_taken) demo_region 0 = true.
Proof. vm_compute. reflexivity. Qed.

Lemma pg_alloc_first_fit_witness :
  (exists i r p, first_free (mem demo_pager) [demo_region] i r p /\
     pg_alloc demo_pager = Ret (page_addr r p) (take_page i r p demo_pager) /\
     pager_inv [demo_region] (take_page i r p demo_pager)) \/
  ((forall (i : nat) r p, [demo_region] !! i = Some r -> allocatable r p ->
      page_used (mem demo_pager) r p = true) /\
   pg_alloc demo_pager = Panic "OUT_OF_FREE_PAGES" 0 0 0).
Proof. exact (pg_alloc_first_fit [demo_region] demo_pager demo_inv). Defined.

Lemma pg_alloc_fresh_page_witness :
  exists i r p, [demo_region] !! i = Some r /\ 0 <= p < r_cnt r /\ demo_table + 4096 = page_addr r p /\
    (demo_table + 4096) mod KERNEL_PAGE_SIZE = 0.
Proof.
  destruct (pg_alloc_fresh_page [demo_region] demo_pager _ _ demo_inv demo_take)
    as (i & r & p & Hi & Hp & Ha & Hm & _).
  exists i, r, p. exact (conj Hi (conj Hp (conj Ha Hm))).
Defined.

Lemma pg_free_page_witness :
  exists s', pg_free (demo_table + 4096) demo_taken = Ret tt s' /\ pager_inv [demo_region] s'.
Proof.
  pose proof (pg_free_page [demo_region] demo_taken 0 demo_region 0 (demo_table + 4096)
    demo_taken_inv eq_refl ltac:(zdone) ltac:(unfold in_page; zdone)) as H.
  rewrite demo_taken_used in H. destruct H as (s' & E & Hinv & _).
  exact (ex_intro _ s' (conj E Hinv)).
Defined.

Lemma pg_free_foreign_witness :
  exists msg v1 v2 v3, pg_free 4096 demo_pager = Panic msg v1 v2 v3.
Proof.
  destruct (pg_free_foreign [demo_region] demo_pager 4096 demo_inv ltac:(unfold u64; lia))
    as (msg & v1 & v2 & v3 & E & _).
  - intros [|i] r p Hr Hp; [injection Hr as <-|done].
    unfold in_page, page_addr, KERNEL_PAGE_SIZE, demo_region, demo_table; cbn; lia.
  - by exists msg, v1, v2, v3.
Defined.

Lemma pager_isolation_witness : exists s', pg_free (demo_table + 4096) demo_taken = Ret tt s'.
Proof.
  refine (proj2 (pager_isolation [demo_region] demo_pager ({[demo_table + 4096]} ∪ ∅) demo_taken
    demo_inv _) (demo_table + 4096) _).
  - eapply rtc_once, step_alloc, demo_take.
  - set_solver.
Defined.
