(* ===== verification/Pages.v ===== *)
(** * What the page allocator promises its clients

    The interface the other parts of the kernel are verified against: a client
    holds a set of pages; what it writes to them does not disturb the
    allocator, and a new page is none of them. *)
From S2P Require Import Prelude Machine Strings Pager.

(** What is known of a new page [a]. *)
Record new_page (owned : gset Z) (s : kstate) (a : Z) (s' : kstate) : Prop := {
  np_fresh : a ∉ owned;
  np_block : kblock a KERNEL_PAGE_SIZE;
  np_aligned : a mod KERNEL_PAGE_SIZE = 0;
  np_zero k : 0 <= k < 512 -> rd (mem s') (a + 8 * k) = 0;
  np_frame b k : b ∈ owned -> 0 <= k < 512 -> rd (mem s') (b + 8 * k) = rd (mem s) (b + 8 * k);
  np_rest : s' = set_mem (mem s') (set_pager (pager s') s);
}.

Class PageSource (page_alloc : M Z) := {
  ps_inv : gset Z -> kstate -> Prop;
  ps_alloc owned s :
    ps_inv owned s ->
    page_alloc s = Panic "OUT_OF_FREE_PAGES" 0 0 0 \/
    exists a s', page_alloc s = Ret a s' /\ new_page owned s a s' /\ ps_inv ({[a]} ∪ owned) s';
  ps_write owned s a k v :
    ps_inv owned s -> a ∈ owned -> 0 <= k < 512 ->
    ps_inv owned (set_mem (wr (mem s) (a + 8 * k) v) s);
  ps_same owned s s' : ps_inv owned s -> mem s' = mem s -> pager s' = pager s -> ps_inv owned s';
  ps_page owned s a : ps_inv owned s -> a ∈ owned -> kblock a KERNEL_PAGE_SIZE /\ a mod KERNEL_PAGE_SIZE = 0;
}.

(** [c] runs out of pages, or returns with [Q]. *)
Definition oom_or {A} (c : M A) (Q : A -> kstate -> Prop) (s : kstate) : Prop :=
  c s = Panic "OUT_OF_FREE_PAGES" 0 0 0 \/ exists a s', c s = Ret a s' /\ Q a s'.

Lemma oom_ret {A} (a : A) (Q : A -> kstate -> Prop) s s' c : c s = Ret a s' -> Q a s' -> oom_or c Q s.
Proof. intros E HQ. right. eauto. Qed.

Lemma oom_bind {A B} (c : M A) (k : A -> M B) Q s :
  oom_or c (fun a s' => oom_or (k a) Q s') s -> oom_or (c ≫= k) Q s.
Proof.
  intros [E|(a & s' & E & H)]; [left; by apply bind_Panic|]. unfold oom_or. by rewrite (bind_Ret _ _ _ _ _ E).
Qed.

Lemma oom_mono {A} (c : M A) (Q Q' : A -> kstate -> Prop) s :
  oom_or c Q s -> (forall a s', Q a s' -> Q' a s') -> oom_or c Q' s.
Proof. intros [E|(a & s' & E & H)] HQ; [by left|right]. eauto. Qed.

(** ** The page allocator keeps the promise *)

Lemma pager_inv_same rs s s' : pager_inv rs s -> mem s' = mem s -> pager s' = pager s -> pager_inv rs s'.
Proof. intros [Hl Ht Hc] Em Ep. split; rewrite ?Em, ?Ep; done. Qed.

Lemma client_new_page rs owned s i r p :
  client_inv rs owned s -> first_free (mem s) rs i r p ->
  new_page owned s (page_addr r p) (take_page i r p s).
Proof.
  intros [Hinv Ho] Hff. pose proof (inv_layout _ _ Hinv) as Hl.
  pose proof (first_free_bounds _ _ _ _ _ _ Hl Hff) as Hp.
  destruct Hff as [Hi _ Hf _]. pose proof (lay_region _ _ Hl i r Hi) as Hr.
  assert (forall b, b ∈ owned -> b mod KERNEL_PAGE_SIZE = 0 /\ b <> page_addr r p /\
    apart (r_bitmap r) (8 * bitmap_words r) b KERNEL_PAGE_SIZE) as Hother.
  { intros b Hb. destruct (Ho b Hb) as (j & rj & q & Hj & Hq & -> & Hu).
    pose proof (ok_aligned rj (lay_region _ _ Hl j rj Hj)).
    pose proof (bitmap_apart_pages _ _ Hl j rj Hj i r Hi). split; [|split].
    - unfold page_addr, KERNEL_PAGE_SIZE in *. dlia.
    - intros E. destruct (page_addr_inj_regions _ _ i j r rj p q Hl Hi Hj Hp Hq (eq_sym E)) as [<- <-].
      congruence.
    - unfold apart, page_addr, KERNEL_PAGE_SIZE in *. nia. }
  pose proof (ok_aligned r Hr) as Ha. split.
  - intros Hin. by destruct (Hother _ Hin) as (_ & ? & _).
  - by apply page_block.
  - unfold page_addr, KERNEL_PAGE_SIZE in *. dlia.
  - intros k Hk. by apply rd_zero_words_in.
  - intros b k Hb Hk. destruct (Hother b Hb) as (Hal & Hne & Hbm). cbn [mem take_page set_mem].
    pose proof (bitmap_addr_in _ _ Hl i r p Hi Hp).
    apply rd_take_out; unfold apart, KERNEL_PAGE_SIZE in *; [|lia].
    unfold page_addr, KERNEL_PAGE_SIZE in *. dlia.
  - done.
Qed.

#[export] Program Instance pager_page_source : PageSource pg_alloc := {|
  ps_inv owned s := exists rs, client_inv rs owned s;
|}.
Next Obligation.
  intros owned s [rs Hc]. destruct (first_free_or_full (mem s) rs) as [(i & r & p & Hff)|Hfull].
  - right. pose proof (pg_alloc_takes rs s i r p (ci_pager _ _ _ Hc) Hff) as E.
    exists (page_addr r p), (take_page i r p s). split; [done|].
    split; [by eapply client_new_page|]. exists rs. by eapply pager_step_inv, step_alloc.
  - left. by apply (pg_alloc_exhausted rs s (ci_pager _ _ _ Hc)).
Qed.
Next Obligation.
  intros owned s a k v [rs Hc] Ha Hk. exists rs. by eapply pager_step_inv, step_write.
Qed.
Next Obligation.
  intros owned s s' [rs [Hinv Ho]] Em Ep. exists rs. split; [by apply (pager_inv_same rs s)|].
  intros a Ha. rewrite Em. by apply Ho.
Qed.
Next Obligation.
  intros owned s a [rs [Hinv Ho]] Ha. destruct (Ho a Ha) as (i & r & p & Hi & Hp & -> & _).
  pose proof (lay_region _ _ (inv_layout _ _ Hinv) i r Hi) as Hr. pose proof (ok_aligned r Hr).
  split; [by apply page_block|]. unfold page_addr, KERNEL_PAGE_SIZE in *. dlia.
Qed.

(** ** Pages that are given back, and memory seen as bytes *)

(** [b] is a byte of a page held. *)
Definition held (owned : gset Z) (b : Z) : Prop := exists a, a ∈ owned /\ a <= b < a + KERNEL_PAGE_SIZE.

Class PageHeap {page_alloc : M Z} (PS : PageSource page_alloc) (page_free : Z -> M unit) := {
  ph_bytes owned s m :
    ps_inv owned s -> (forall b, ~ held owned b -> byte m b = byte (mem s) b) -> ps_inv owned (set_mem m s);
  ph_free owned s a :
    ps_inv owned s -> a ∈ owned ->
    exists s', page_free a s = Ret tt s' /\ ps_inv (owned ∖ {[a]}) s' /\
      (forall b, held (owned ∖ {[a]}) b -> byte (mem s') b = byte (mem s) b) /\
      s' = set_mem (mem s') (set_pager (pager s') s);
}.

Lemma byte_of_word m m' a b :
  a mod 8 = 0 -> a <= b < a + KERNEL_PAGE_SIZE ->
  (forall k, 0 <= k < 512 -> rd m' (a + 8 * k) = rd m (a + 8 * k)) -> byte m' b = byte m b.
Proof.
  intros Ha Hb H. unfold KERNEL_PAGE_SIZE in Hb. unfold byte, rd_field, word_of.
  replace (b - b mod 8) with (a + 8 * ((b - a) / 8)) by dlia. rewrite H by dlia. done.
Qed.

(** Releasing a page writes its word of the bitmap only. *)
Lemma release_page_frame rs s i r p b :
  pager_inv rs s -> rs !! i = Some r -> 0 <= p < r_cnt r ->
  b < bitmap_word_addr r p \/ bitmap_word_addr r p + 8 <= b ->
  byte (mem (release_page i r p s)) b = byte (mem s) b /\
  release_page i r p s = set_mem (mem (release_page i r p s)) (set_pager (pager (release_page i r p s)) s).
Proof.
  intros Hinv Hi Hp Hb. unfold release_page.
  destruct (lower_cursor_pager (Z.of_nat i) p (set_mem (release_mem r p (mem s)) s)) as (ci & cp & -> & _).
  split; [|done]. cbn [mem set_mem set_cursor set_pager]. unfold release_mem.
  destruct (ok_bitmap r (lay_region _ _ (inv_layout _ _ Hinv) i r Hi)) as (_ & _ & Hk).
  rewrite byte_wr by (unfold bitmap_word_addr; clear -Hk; dlia).
  by replace ((bitmap_word_addr r p <=? b) && (b <? bitmap_word_addr r p + 8)) with false by lia.
Qed.

#[export] Program Instance pager_page_heap : PageHeap pager_page_source pg_free.
Next Obligation.
  intros owned s m [rs Hc] Hm. exists rs. apply page_write_client; [by destruct Hc| |done].
  intros a Ha Hap. apply rd_bytes; [done|]. intros k Hk. apply Hm. intros (b & Hb & Hr).
  destruct Hc as [_ Ho]. destruct (Ho b Hb) as (i & r & p & Hi & Hp & -> & _).
  specialize (Hap i r p Hi Hp). unfold apart in Hap. lia.
Qed.
Next Obligation.
  intros owned s a [rs Hc] Ha. pose proof Hc as [Hinv Ho]. destruct (Ho a Ha) as (i & r & p & Hi & Hp & -> & Hu).
  pose proof (pg_free_found rs s Hinv i r p _ Hi Hp (in_page_start r p)) as E. rewrite Hu in E.
  pose proof (bitmap_addr_in _ _ (inv_layout _ _ Hinv) i r p Hi Hp) as Hb.
  exists (release_page i r p s). split; [exact E|]. split; [|split].
  - exists rs. eapply pager_step_inv; [exact Hc|]. by apply step_free.
  - intros b (c & Hin & Hr). apply elem_of_difference in Hin as [Hin _].
    destruct (Ho c Hin) as (j & rj & q & Hj & Hq & -> & _). apply (release_page_frame rs); [done..|].
    destruct (ok_bitmap r (lay_region _ _ (inv_layout _ _ Hinv) i r Hi)) as (_ & _ & Hk).
    pose proof (bitmap_apart_pages _ _ (inv_layout _ _ Hinv) j rj Hj i r Hi) as Hap.
    pose proof (page_in_words r (lay_region _ _ (inv_layout _ _ Hinv) i r Hi) p Hp).
    unfold apart, bitmap_word_addr, page_addr, KERNEL_PAGE_SIZE in *. lia.
  - refine (proj2 (release_page_frame rs s i r p (bitmap_word_addr r p - 1) Hinv Hi Hp _)). lia.
Qed.

(** ** Consequences *)

Lemma ps_write_words {page_alloc} {PS : PageSource page_alloc} owned s a k vs :
  ps_inv owned s -> a ∈ owned -> 0 <= k -> k + Z.of_nat (length vs) <= 512 ->
  ps_inv owned (set_mem (write_words (mem s) (a + 8 * k) vs) s).
Proof.
  revert s k. induction vs as [|v vs IH]; intros s k Hi Ha Hk Hl; cbn [write_words length] in *.
  - by rewrite set_mem_id.
  - replace (a + 8 * k + 8) with (a + 8 * (k + 1)) by lia.
    apply (IH (set_mem (wr (mem s) (a + 8 * k) v) s) (k + 1)); [|done|lia|lia].
    apply ps_write; [done..|lia].
Qed.

Lemma pages_apart a b :
  a mod KERNEL_PAGE_SIZE = 0 -> b mod KERNEL_PAGE_SIZE = 0 -> a <> b ->
  apart a KERNEL_PAGE_SIZE b KERNEL_PAGE_SIZE.
Proof. unfold apart, KERNEL_PAGE_SIZE. intros. dlia. Qed.

Lemma demo_owned : ps_inv ∅ demo_pager.
Proof. exists [demo_region]. split; [exact demo_inv|]. set_solver. Qed.
