(* ===== verification/Scheduler.v ===== *)
(** * The round-robin scheduler ([kernel/process/scheduler.c])

    [process_queue] is one page used as a ring buffer of process pointers.
    The abstract state is the FIFO list of the queued processes. *)
From S2P Require Import Prelude Machine.

(** ** The code *)

Definition set_ring (count start : Z) (s : kstate) : kstate :=
  set_scheduler (mkScheduler (process_queue (scheduler s)) (process_queue_size (scheduler s))
    count start (hart_idle_process (scheduler s))) s.

Definition scheduler_next (hart_id : Z) : M Z :=
  g ← gets scheduler;
  if process_queue_count g =? 0 then load64 (elem64 (hart_idle_process g) hart_id)
  else
    output_process ← load64 (elem64 (process_queue g) (process_queue_start g));
    modify (set_ring (process_queue_count g ⊖ 1)
                     ((process_queue_start g ⊕ 1) mod process_queue_size g)) ;;
    mret output_process.

Definition scheduler_queue_process (proc : Z) : M unit :=
  g ← gets scheduler;
  if process_queue_size g =? process_queue_count g then
    PANIC "KERNEL_SCHEDULER_QUEUE_FULL" 0 0 0
  else
    store64 (elem64 (process_queue g)
      ((process_queue_start g ⊕ process_queue_count g) mod process_queue_size g)) proc ;;
    modify (set_ring (process_queue_count g ⊕ 1) (process_queue_start g)).

(** The body of the loop of [scheduler_remove]; [offset] is its local. *)
Definition scheduler_remove_step (proc offset i : Z) : M Z :=
  g ← gets scheduler;
  let index := process_queue_start g ⊕ (process_queue_count g ⊖ i) in
  e ← load64 (elem64 (process_queue g) (index mod process_queue_size g));
  let offset' := if e =? proc then offset ⊖ 1 else offset in
  if offset' =? 0 then mret offset'
  else
    v ← load64 (elem64 (process_queue g) ((index ⊕ offset') mod process_queue_size g));
    store64 (elem64 (process_queue g) (index mod process_queue_size g)) v ;;
    mret offset'.

Definition scheduler_remove (proc : Z) : M unit :=
  g ← gets scheduler;
  _ ← for_fold (upto 1 (process_queue_count g ⊕ 1)) (scheduler_remove_step proc) 0;
  mret tt.

(** ** The abstract queue *)

(** The word [k] places after the head. *)
Definition slot_addr (g : scheduler_globals) (k : Z) : Z :=
  process_queue g + 8 * ((process_queue_start g + k) mod process_queue_size g).
Definition slot (s : kstate) (k : Z) : Z := rd (mem s) (slot_addr (scheduler s) k).
Definition queue_of (s : kstate) : list Z :=
  slot s <$> upto 0 (process_queue_count (scheduler s)).

(** The ring is one page, as [schedular_init] makes it. *)
Record sched_inv (s : kstate) : Prop := {
  si_page : kblock (process_queue (scheduler s)) (8 * 512);
  si_size : process_queue_size (scheduler s) = 512;
  si_count : 0 <= process_queue_count (scheduler s) <= 512;
  si_start : 0 <= process_queue_start (scheduler s) < 512;
}.

Inductive sched_op : Type := Queue (proc : Z) | Next (hart_id : Z).

Definition run_op (o : sched_op) : M (option Z) :=
  match o with
  | Queue proc => scheduler_queue_process proc ;; mret None
  | Next hart_id => p ← scheduler_next hart_id; mret (Some p)
  end.

Fixpoint run_ops (os : list sched_op) : M (list (option Z)) :=
  match os with
  | [] => mret []
  | o :: os' => r ← run_op o; rs ← run_ops os'; mret (r :: rs)
  end.

(** The specification: a bounded FIFO whose reads, when it is empty, give the
    hart's idle process. *)
Module Spec.
Section Fifo.
Context (idle : Z -> Z).

Definition run_op (o : sched_op) (q : list Z) : option (option Z * list Z) :=
  match o, q with
  | Queue proc, _ => if (length q <? 512)%nat then Some (None, q ++ [proc]) else None
  | Next hart_id, [] => Some (Some (idle hart_id), [])
  | Next _, p :: q' => Some (Some p, q')
  end.

Fixpoint run_ops (os : list sched_op) (q : list Z) : option (list (option Z) * list Z) :=
  match os with
  | [] => Some ([], q)
  | o :: os' => '(r, q') ← run_op o q; '(rs, q'') ← run_ops os' q'; Some (r :: rs, q'')
  end.
End Fifo.
End Spec.

(** ** Lemmas *)

Lemma length_queue_of s : sched_inv s -> Z.of_nat (length (queue_of s)) = process_queue_count (scheduler s).
Proof. intros [_ _ [? ?] _]. unfold queue_of. rewrite length_fmap, length_upto. lia. Qed.

Lemma slot_index_eq s j k :
  sched_inv s -> 0 <= j < 512 -> 0 <= k < 512 ->
  slot_addr (scheduler s) j = slot_addr (scheduler s) k -> j = k.
Proof. intros [_ Hs _ Hst] Hj Hk. unfold slot_addr. rewrite Hs. dlia. Qed.

Lemma slot_elem s k :
  sched_inv s -> 0 <= process_queue_start (scheduler s) + k < 18446744073709551616 ->
  elem64 (process_queue (scheduler s))
    ((process_queue_start (scheduler s) ⊕ k) mod process_queue_size (scheduler s)) =
    slot_addr (scheduler s) k /\ valid64 (slot_addr (scheduler s) k).
Proof.
  intros [Hp Hs _ Hst] Hk. rewrite Hs, wrap64_small by lia. unfold slot_addr. rewrite Hs.
  assert (0 <= (process_queue_start (scheduler s) + k) mod 512 < 512) by (apply Z.mod_pos_bound; lia).
  split; [by apply (kblock_elem_eq _ 512)|by apply (kblock_word_valid _ 512)].
Qed.

Lemma scheduler_queue_eq proc s :
  sched_inv s ->
  scheduler_queue_process proc s =
    if process_queue_count (scheduler s) =? 512 then Panic "KERNEL_SCHEDULER_QUEUE_FULL" 0 0 0
    else Ret tt (set_ring (process_queue_count (scheduler s) + 1) (process_queue_start (scheduler s))
                  (set_mem (wr (mem s) (slot_addr (scheduler s) (process_queue_count (scheduler s))) proc) s)).
Proof.
  intros Hinv. destruct (Hinv) as [Hp Hs Hc Hst].
  destruct (slot_elem s (process_queue_count (scheduler s)) Hinv ltac:(lia)) as [E Hv].
  unfold scheduler_queue_process. kstep. rewrite E, Hs, Z.eqb_sym.
  destruct (Z.eqb_spec (process_queue_count (scheduler s)) 512); [done|].
  kstep. by rewrite wrap64_small by lia.
Qed.

Lemma queue_process_spec proc s :
  sched_inv s -> u64 proc -> process_queue_count (scheduler s) < 512 ->
  exists s', scheduler_queue_process proc s = Ret tt s' /\ sched_inv s' /\
    queue_of s' = queue_of s ++ [proc] /\ hart_idle_process (scheduler s') = hart_idle_process (scheduler s) /\
    (forall a, a < process_queue (scheduler s) \/ process_queue (scheduler s) + 4096 <= a ->
       rd (mem s') a = rd (mem s) a).
Proof.
  intros Hinv Hu Hlt. rewrite (scheduler_queue_eq proc s Hinv). destruct (Hinv) as [Hp Hs Hc Hst].
  destruct (Z.eqb_spec (process_queue_count (scheduler s)) 512); [lia|].
  eexists. split; [done|]. split; [by split; cbn; try done; lia|]. split; [|split; [done|]].
  - unfold queue_of at 1. cbn [scheduler set_ring set_scheduler process_queue_count].
    rewrite upto_snoc, fmap_app by lia. f_equal.
    + apply list_fmap_ext. intros j k Hj. apply list_elem_of_lookup_2, elem_of_upto in Hj.
      unfold slot. cbn [mem set_ring set_mem set_scheduler]. apply rd_wr_ne.
      intros E. apply (slot_index_eq s) in E; [lia|done|lia|lia].
    + cbn [fmap list_fmap]. unfold slot. cbn [mem set_ring set_mem set_scheduler].
      by rewrite rd_wr_eq, wrap64_small.
  - intros a Ha. cbn [mem set_ring set_mem set_scheduler]. apply rd_wr_ne.
    unfold slot_addr. rewrite Hs. dlia.
Qed.

Lemma queue_of_cons s :
  sched_inv s -> 0 < process_queue_count (scheduler s) ->
  queue_of s = slot s 0 :: (slot s <$> upto 1 (process_queue_count (scheduler s))).
Proof. intros Hinv H. unfold queue_of. by rewrite upto_cons. Qed.

Lemma scheduler_next_eq hart_id s :
  sched_inv s -> 0 < process_queue_count (scheduler s) ->
  scheduler_next hart_id s =
    Ret (slot s 0) (set_ring (process_queue_count (scheduler s) - 1)
                      ((process_queue_start (scheduler s) + 1) mod 512) s).
Proof.
  intros Hinv Hpos. destruct (Hinv) as [Hp Hs Hc Hst]. unfold scheduler_next. kstep.
  destruct (Z.eqb_spec (process_queue_count (scheduler s)) 0); [lia|].
  kstep. kstep. erewrite kblock_elem_eq by (eauto || lia). rewrite !wrap64_small, Hs by lia.
  unfold slot, slot_addr. by rewrite Hs, Z.add_0_r, (Z.mod_small (process_queue_start (scheduler s)) 512) by lia.
Qed.

Lemma scheduler_next_spec hart_id s p q :
  sched_inv s -> queue_of s = p :: q ->
  exists s', scheduler_next hart_id s = Ret p s' /\ sched_inv s' /\ queue_of s' = q /\
    hart_idle_process (scheduler s') = hart_idle_process (scheduler s) /\ mem s' = mem s.
Proof.
  intros Hinv Hq. pose proof (length_queue_of s Hinv) as Hlen. rewrite Hq in Hlen. cbn [length] in Hlen.
  rewrite (scheduler_next_eq hart_id s Hinv) by lia. destruct (Hinv) as [Hp Hs Hc Hst].
  rewrite queue_of_cons in Hq by (done || lia). injection Hq as Hhead Htail. rewrite Hhead.
  eexists. split; [done|]. split; [split; cbn; [done|done|lia|by apply Z.mod_pos_bound]|]. split; [|done].
  rewrite <- Htail. unfold queue_of. cbn [scheduler set_ring set_scheduler process_queue_count].
  replace (upto 1 (process_queue_count (scheduler s)))
    with (Z.add 1 <$> upto 0 (process_queue_count (scheduler s) - 1)).
  - rewrite <- list_fmap_compose. apply list_fmap_ext. intros j k _. unfold slot, slot_addr, compose.
    cbn [mem set_ring set_scheduler scheduler process_queue process_queue_start process_queue_size].
    rewrite Hs, Zplus_mod_idemp_l. do 4 f_equal. lia.
  - rewrite <- upto_shift. f_equal; lia.
Qed.

Lemma scheduler_next_idle hart_id s :
  queue_of s = [] -> sched_inv s ->
  scheduler_next hart_id s = load64 (elem64 (hart_idle_process (scheduler s)) hart_id) s.
Proof.
  intros Hq Hinv. pose proof (length_queue_of s Hinv) as Hlen. rewrite Hq in Hlen.
  unfold scheduler_next. kstep. by rewrite <- Hlen.
Qed.

(** ** Refinement *)

(** The idle processes are in a table of their own. *)
Record idle_table (idle : Z -> Z) (harts : Z) (s : kstate) : Prop := {
  it_block : kblock (hart_idle_process (scheduler s)) (8 * harts);
  it_apart h : 0 <= h < harts ->
    let a := hart_idle_process (scheduler s) + 8 * h in
    a < process_queue (scheduler s) \/ process_queue (scheduler s) + 4096 <= a;
  it_entry h : 0 <= h < harts -> rd (mem s) (hart_idle_process (scheduler s) + 8 * h) = idle h;
}.

Definition op_ok (harts : Z) (o : sched_op) : Prop :=
  match o with Queue proc => u64 proc | Next hart_id => 0 <= hart_id < harts end.

Definition outcome_refines {A} (spec : option (A * list Z)) (c : outcome A)
    (I : kstate -> Prop) : Prop :=
  match spec with
  | Some (a, q) => exists s', c = Ret a s' /\ I s' /\ queue_of s' = q
  | None => c = Panic "KERNEL_SCHEDULER_QUEUE_FULL" 0 0 0
  end.

Lemma queue_process_base proc s s' :
  scheduler_queue_process proc s = Ret tt s' -> process_queue (scheduler s') = process_queue (scheduler s).
Proof.
  unfold scheduler_queue_process, mbind, M_bind, gets, PANIC, store64, modify. cbn beta iota.
  destruct (_ =? _); [done|]. destruct (access_ok _ _); [|done]. by intros [= <-].
Qed.

Lemma scheduler_next_base hart_id s p s' :
  scheduler_next hart_id s = Ret p s' -> process_queue (scheduler s') = process_queue (scheduler s).
Proof.
  unfold scheduler_next, mbind, M_bind, gets, load64, modify. cbn beta iota.
  destruct (_ =? 0); destruct (access_ok _ _); try done; by intros [= <- <-].
Qed.

Definition sched_ok (idle : Z -> Z) (harts : Z) (s : kstate) : Prop :=
  sched_inv s /\ idle_table idle harts s.

Lemma run_op_refines idle harts o s :
  sched_ok idle harts s -> op_ok harts o ->
  outcome_refines (Spec.run_op idle o (queue_of s)) (run_op o s) (sched_ok idle harts).
Proof.
  intros [Hinv Hidle] Hop. pose proof (length_queue_of s Hinv) as Hlen.
  destruct Hidle as [Hib Hia Hie]. destruct o as [proc|h]; cbn [Spec.run_op run_op].
  - destruct (Nat.ltb_spec (length (queue_of s)) 512) as [Hlt|Hge]; cbn [outcome_refines].
    + destruct (queue_process_spec proc s Hinv Hop ltac:(lia)) as (s' & E & Hinv' & Hq & Hh & Hm).
      exists s'. rewrite (bind_Ret _ _ _ _ _ E). split; [done|]. split; [|done]. split; [done|].
      split; rewrite ?Hh; [done| |].
      * by rewrite (queue_process_base _ _ _ E).
      * intros h Hh'. rewrite Hm; [by apply Hie|by apply Hia].
    + unfold mbind, M_bind. rewrite scheduler_queue_eq by done. destruct (si_count _ Hinv).
      destruct (Z.eqb_spec (process_queue_count (scheduler s)) 512); [done|lia].
  - destruct (queue_of s) as [|p q] eqn:Eq; cbn [outcome_refines].
    + exists s. unfold mbind, M_bind. rewrite scheduler_next_idle by done. cbn in Hop.
      rewrite load64_eq by kvalid. rewrite (kblock_elem_eq _ harts) by done.
      rewrite Hie by done. done.
    + destruct (scheduler_next_spec h s p q Hinv Eq) as (s' & E & Hinv' & Hq & Hh & Hm).
      exists s'. rewrite (bind_Ret _ _ _ _ _ E). split; [done|]. split; [|done]. split; [done|].
      split; rewrite ?Hh, ?Hm, ?(scheduler_next_base _ _ _ _ E); done.
Qed.

(** C15: run on any sequence of operations, the scheduler returns what a FIFO
    of at most 512 processes returns, the hart's idle process when it is
    empty, and panics exactly when that FIFO is full. *)
Theorem scheduler_refines_fifo idle harts os s :
  sched_ok idle harts s -> Forall (op_ok harts) os ->
  outcome_refines (Spec.run_ops idle os (queue_of s)) (run_ops os s) (sched_ok idle harts).
Proof.
  revert s. induction os as [|o os IH]; intros s Hok Hops; [by exists s|].
  inversion Hops as [|? ? Ho Hos]; subst. cbn [Spec.run_ops run_ops].
  pose proof (run_op_refines idle harts o s Hok Ho) as H1.
  destruct (Spec.run_op idle o (queue_of s)) as [[r q]|]; cbn [outcome_refines mbind option_bind] in *.
  - destruct H1 as (s1 & E1 & Hok1 & Hq1). rewrite (bind_Ret _ _ _ _ _ E1).
    specialize (IH s1 Hok1 Hos). rewrite Hq1 in IH.
    destruct (Spec.run_ops idle os q) as [[rs q']|]; cbn [outcome_refines] in *.
    + destruct IH as (s2 & E2 & Hok2 & Hq2). rewrite (bind_Ret _ _ _ _ _ E2). by exists s2.
    + unfold mbind, M_bind. by rewrite IH.
  - unfold mbind, M_bind. by rewrite H1.
Qed.

(** ** Removal *)

Definition same_outside_ring (s s' : kstate) : Prop :=
  scheduler s' = scheduler s /\
  (forall a, a < process_queue (scheduler s) \/ process_queue (scheduler s) + 4096 <= a ->
     rd (mem s') a = rd (mem s) a).

(** One round of the loop, at queue position [k]. *)
Lemma scheduler_remove_step_eq proc offset i s :
  sched_inv s -> 0 < i <= process_queue_count (scheduler s) -> offset = 0 \/ offset = U64_MAX ->
  let k := process_queue_count (scheduler s) - i in
  (slot s k = proc -> offset = 0) ->
  scheduler_remove_step proc offset i s =
    if (slot s k =? proc) || (offset =? U64_MAX)
    then Ret U64_MAX (set_mem (wr (mem s) (slot_addr (scheduler s) k) (slot s (k - 1))) s)
    else Ret 0 s.
Proof.
  intros Hinv Hi Hoff k Hone. destruct (Hinv) as [Hp Hs Hc Hst].
  assert (0 <= k < 512) as Hk by lia.
  destruct (slot_elem s k Hinv ltac:(lia)) as [E Hv].
  destruct (slot_elem s (k - 1 + 512) Hinv ltac:(lia)) as [E' Hv'].
  assert (slot_addr (scheduler s) (k - 1 + 512) = slot_addr (scheduler s) (k - 1)) as Es.
  { unfold slot_addr. rewrite Hs. do 2 f_equal. dlia. }
  rewrite Es in E', Hv'.
  unfold scheduler_remove_step. kstep.
  replace (process_queue_count (scheduler s) ⊖ i) with k by (rewrite wrap64_small; lia).
  rewrite E. kstep. fold (slot s k).
  set (offset' := if slot s k =? proc then offset ⊖ 1 else offset).
  assert (offset' = if (slot s k =? proc) || (offset =? U64_MAX) then U64_MAX else 0) as Eo.
  { subst offset'. destruct (Z.eqb_spec (slot s k) proc) as [Ek|]; cbn [orb].
    - rewrite Hone by done. done.
    - destruct Hoff as [->| ->]; done. }
  rewrite Eo. destruct ((slot s k =? proc) || (offset =? U64_MAX)); [|done].
  replace (U64_MAX =? 0) with false by done.
  replace (((process_queue_start (scheduler s) ⊕ k) ⊕ U64_MAX) mod process_queue_size (scheduler s))
    with ((process_queue_start (scheduler s) ⊕ (k - 1 + 512)) mod process_queue_size (scheduler s)).
  2: { rewrite Hs. unfold wrap64, U64_MAX. dlia. }
  rewrite E'. kstep. kstep. done.
Qed.

Lemma sched_inv_eq s s' : scheduler s' = scheduler s -> sched_inv s -> sched_inv s'.
Proof. intros E [? ? ? ?]. split; by rewrite E. Qed.

(** What the loop has done before round [i], the entry of [proc] being at
    position [pos] of a queue of [n]. *)
Record removed_above (s : kstate) (n pos i offset : Z) (s' : kstate) : Prop := {
  ra_globals : scheduler s' = scheduler s;
  ra_offset : offset = if n - i <? pos then U64_MAX else 0;
  ra_slot k : -1 <= k < n ->
    slot s' k = if (n - i <? k) && (k <=? pos) then slot s (k - 1) else slot s k;
}.

Section Remove.
Context (proc : Z) (s : kstate) (pos : Z) (Hinv : sched_inv s).
Local Abbreviation n := (process_queue_count (scheduler s)).
Context (Hlt : n < 512) (Hpos : 0 <= pos < n)
  (Hocc : forall k, 0 <= k < n -> slot s k = proc <-> k = pos).

Lemma scheduler_remove_round i off s' :
  1 <= i < n + 1 -> removed_above s n pos i off s' ->
  scheduler_remove_step proc off i s' =
    if n - i <=? pos
    then Ret U64_MAX (set_mem (wr (mem s') (slot_addr (scheduler s) (n - i)) (slot s (n - i - 1))) s')
    else Ret 0 s'.
Proof.
  intros Hi [Hg Hoff Hsl]. pose proof (sched_inv_eq _ _ Hg Hinv) as Hinv'.
  assert (slot s' (n - i) = slot s (n - i)) as Ek.
  { rewrite Hsl by lia. by replace (n - i <? n - i) with false by lia. }
  assert (slot s' (n - i - 1) = slot s (n - i - 1)) as Ek1.
  { rewrite Hsl by lia. by replace (n - i <? n - i - 1) with false by lia. }
  pose proof (Hocc (n - i) ltac:(lia)) as Hk.
  rewrite <- Ek in Hk. rewrite (scheduler_remove_step_eq proc off i s' Hinv'); rewrite ?Hg; [|lia| |].
  - rewrite Ek1. replace ((slot s' (n - i) =? proc) || (off =? U64_MAX)) with (n - i <=? pos); [done|].
    rewrite Hoff. destruct (Z.eqb_spec (slot s' (n - i)) proc) as [E|E]; cbn [orb].
    + apply Hk in E. lia.
    + assert (n - i <> pos) by (intros E'; by apply E, Hk).
      destruct (Z.ltb_spec (n - i) pos); [rewrite Z.eqb_refl|
        replace (0 =? U64_MAX) with false by done]; lia.
  - rewrite Hoff. destruct (n - i <? pos); auto.
  - intros E. apply Hk in E. rewrite Hoff. by replace (n - i <? pos) with false by lia.
Qed.

Lemma scheduler_remove_loop :
  wp (for_fold (upto 1 (n ⊕ 1)) (scheduler_remove_step proc) 0)
    (fun _ s' => exists off, removed_above s n pos (n + 1) off s') s.
Proof.
  pose proof (si_count _ Hinv). rewrite wrap64_small by lia.
  apply (wp_for_fold (fun i off s' => removed_above s n pos i off s')); [lia| | |by eauto].
  - split; [done| |].
    + by replace (n - 1 <? pos) with false by lia.
    + intros k Hk. by replace (n - 1 <? k) with false by lia.
  - intros i off s' Hi Hr. pose proof (scheduler_remove_round i off s' Hi Hr) as Estep.
    destruct Hr as [Hg Hoff Hsl]. unfold wp. rewrite Estep. clear Estep.
    assert (forall k, (n - (i + 1) <? k) = (n - i - 1 <? k)) as Eb by (intros; f_equal; lia).
    destruct (Z.leb_spec (n - i) pos) as [Hle|Hgt]; (split; [done| |]).
    + by replace (n - (i + 1) <? pos) with true by lia.
    + intros k Hk. unfold slot at 1. cbn [mem scheduler set_mem]. rewrite Hg, Eb.
      destruct (Z.eq_dec k (n - i)) as [->|Hne].
      * rewrite rd_wr_eq, wrap64_small by apply rd_u64.
        by replace ((n - i - 1 <? n - i) && (n - i <=? pos)) with true by lia.
      * rewrite rd_wr_ne.
        -- pose proof (Hsl k Hk) as Hs'. unfold slot at 1 in Hs'. rewrite Hg in Hs'. rewrite Hs'.
           by replace (n - i - 1 <? k) with (n - i <? k) by lia.
        -- pose proof (si_size _ Hinv) as Hs. pose proof (si_start _ Hinv).
           unfold slot_addr. rewrite Hs. dlia.
    + by replace (n - (i + 1) <? pos) with false by lia.
    + intros k Hk. rewrite Hsl, Eb by done.
      by replace ((n - i - 1 <? k) && (k <=? pos)) with ((n - i <? k) && (k <=? pos)) by lia.
Qed.
End Remove.

(** Removing a process queued once moves the entries before it one place
    on, puts the word in front of the head in their place, and leaves the
    count as it was: the queue is as long as before, and the next process to
    run is whatever that slot held. *)
Theorem scheduler_remove_keeps_count proc s l1 l2 :
  sched_inv s -> process_queue_count (scheduler s) < 512 ->
  queue_of s = l1 ++ proc :: l2 -> proc ∉ l1 -> proc ∉ l2 ->
  exists s', scheduler_remove proc s = Ret tt s' /\ sched_inv s' /\ scheduler s' = scheduler s /\
    queue_of s' = slot s (-1) :: l1 ++ l2.
Proof.
  intros Hinv Hlt Hq H1 H2.
  pose proof (length_queue_of s Hinv) as Hlen. rewrite Hq, length_app in Hlen. cbn [length] in Hlen.
  set (pos := Z.of_nat (length l1)). set (cnt := process_queue_count (scheduler s)) in *.
  unfold queue_of in Hq. fold cnt in Hq.
  rewrite (upto_split 0 pos cnt), fmap_app, (upto_cons pos), fmap_cons in Hq by lia.
  apply app_inj_1 in Hq as [Hq1 Hq2]; [|rewrite length_fmap, length_upto; lia].
  injection Hq2 as Hp Hq2.
  assert (forall k, 0 <= k < cnt -> slot s k = proc <-> k = pos) as Hocc.
  { intros k Hk. split; [|by intros ->]. intros E. rewrite <- Hq1 in H1. rewrite <- Hq2 in H2.
    destruct (Z.lt_trichotomy k pos) as [Hl|[Hl|Hl]]; [|done|]; exfalso; [apply H1|apply H2];
      apply list_elem_of_fmap; exists k; (split; [done|apply elem_of_upto; lia]). }
  pose proof (scheduler_remove_loop proc s pos Hinv Hlt ltac:(lia) Hocc) as Hw.
  unfold scheduler_remove. kstep. fold cnt. fold cnt in Hw. unfold wp in Hw. unfold mbind at 1, M_bind at 1.
  destruct (for_fold _ _ _ s) as [off s'|? ? ? ?|?|?| |]; try done.
  destruct Hw as (off' & [Hg _ Hsl]). exists s'. split; [done|].
  split; [by eapply sched_inv_eq|]. split; [done|].
  unfold queue_of. rewrite Hg. fold cnt.
  rewrite (upto_cons 0), (upto_split (0 + 1) (pos + 1) cnt), fmap_cons, fmap_app by lia.
  rewrite Hsl by lia. replace ((cnt - (cnt + 1) <? 0) && (0 <=? pos)) with true by lia. f_equal.
  rewrite <- Hq1, <- Hq2. f_equal.
  - replace (0 + 1) with (1 + 0) by lia. rewrite (Z.add_comm pos 1), upto_shift, <- list_fmap_compose.
    apply list_fmap_ext. intros j k Hk. apply list_elem_of_lookup_2, elem_of_upto in Hk.
    unfold compose. rewrite Hsl by lia.
    replace ((cnt - (cnt + 1) <? 1 + k) && (1 + k <=? pos)) with true by lia. f_equal. lia.
  - apply list_fmap_ext. intros j k Hk. apply list_elem_of_lookup_2, elem_of_upto in Hk.
    rewrite Hsl by lia. by replace ((cnt - (cnt + 1) <? k) && (k <=? pos)) with false by lia.
Qed.

(** ** A small scheduler: the processes 10, 20 and 30 are queued across the
    end of the ring, hart 0 idles with process 7. *)
Definition demo_ring : Z := 0xffffffc080000000.
Definition demo_sched : kstate :=
  set_scheduler (mkScheduler demo_ring 512 3 511 (demo_ring + 4096))
    (set_mem (write_words (write_words (wr ∅ (demo_ring + 8 * 511) 10) demo_ring [20; 30])
                (demo_ring + 4096) [7]) zero_state).

Lemma demo_sched_inv : sched_inv demo_sched.
Proof. split; cbn; [unfold kblock; zdone|done|lia|lia]. Qed.

Lemma demo_sched_ok : sched_ok (fun _ => 7) 1 demo_sched.
Proof.
  split; [exact demo_sched_inv|]. split.
  - unfold kblock; zdone.
  - intros h Hh. right. cbn. lia.
  - intros h Hh. assert (h = 0) as -> by lia. done.
Qed.

Lemma demo_sched_queue : queue_of demo_sched = [10] ++ 20 :: [30].
Proof. vm_compute. reflexivity. Qed.

Lemma scheduler_refines_fifo_witness :
  exists s', run_ops [Queue 40; Next 0; Next 0; Next 0; Next 0; Next 0] demo_sched =
    Ret [None; Some 10; Some 20; Some 30; Some 40; Some 7] s' /\ queue_of s' = [].
Proof.
  pose proof (scheduler_refines_fifo (fun _ => 7) 1
    [Queue 40; Next 0; Next 0; Next 0; Next 0; Next 0] demo_sched demo_sched_ok
    ltac:(repeat constructor; unfold op_ok, u64; lia)) as H.
  rewrite demo_sched_queue in H. destruct H as (s' & E & _ & Hq).
  exact (ex_intro _ s' (conj E Hq)).
Defined.

Lemma scheduler_remove_keeps_count_witness :
  exists s', scheduler_remove 20 demo_sched = Ret tt s' /\ queue_of s' = [0; 10; 30].
Proof.
  destruct (scheduler_remove_keeps_count 20 demo_sched [10] [30] demo_sched_inv
    ltac:(cbn; lia) demo_sched_queue ltac:(set_solver) ltac:(set_solver)) as (s' & E & _ & _ & Hq).
  exact (ex_intro _ s' (conj E Hq)).
Defined.
