(* ===== verification/Allocator.v ===== *)
(** * The block allocator ([kernel/memory/allocator.c])

    Blocks of [2^c] bytes, [c] from 0 to 11, are cut from data pages.  For each
    class [c] a chain of index pages, starting at [root_idx_page[c]], holds for
    each data page its address followed by a bitmap (a set bit is a block in
    use).  Word 0 of an index page is the next one. *)
From S2P Require Import Prelude Machine Pager Pages.

(** ** The code *)

Definition max_idx_page_bitmap_entrys : Z := (KERNEL_PAGE_SIZE - 8) / 8.

Definition max_cnt_per_page (size : Z) : M Z :=
  if size =? 0 then undef "division by zero"
  else mret (wrap32 ((KERNEL_PAGE_SIZE - 64) / size)).

Definition set_root (c page : Z) (s : kstate) : kstate :=
  let g := allocator s in
  set_allocator (mkAllocator (bump_page g) (bump_cnt g)
    (<[Z.to_nat c := page]> (root_idx_page g)) (lowest_free_entry g)) s.
Definition set_lowest (c n : Z) (s : kstate) : kstate :=
  let g := allocator s in
  set_allocator (mkAllocator (bump_page g) (bump_cnt g) (root_idx_page g)
    (<[Z.to_nat c := n]> (lowest_free_entry g))) s.
Definition set_bump (page cnt : Z) (s : kstate) : kstate :=
  let g := allocator s in
  set_allocator (mkAllocator page cnt (root_idx_page g) (lowest_free_entry g)) s.

Definition root_of (s : kstate) (c : Z) : Z := nth (Z.to_nat c) (root_idx_page (allocator s)) 0.
Definition lowest_of (s : kstate) (c : Z) : Z := nth (Z.to_nat c) (lowest_free_entry (allocator s)) 0.

(** [bump_allocator_state.page] is assigned after the counter is cleared. *)
Definition allocator_init : M unit :=
  for_each (upto 0 256) (fun i => modify (set_root i 0) ;; modify (set_lowest i 0)) ;;
  modify (fun s => set_bump (bump_page (allocator s)) 0 s) ;;
  page ← pg_alloc;
  modify (fun s => set_bump page (bump_cnt (allocator s)) s).

Definition new_idx_page : M Z := pg_alloc.
Definition new_data_page : M Z := pg_alloc.

Definition fetch_and_confirm_data_page (current_idx_page current_idx_entry pow2_size compressed_size
    current_page_data_num : Z) : M Z :=
  e ← load64 (elem64 current_idx_page current_idx_entry);
  when (e =? 0)
    (p ← new_data_page;
     store64 (elem64 current_idx_page current_idx_entry) p ;;
     data_page ← load64 (elem64 current_idx_page current_idx_entry);
     store64 (elem64 data_page 0) pow2_size ;;
     store64 (elem64 data_page 1) current_page_data_num ;;
     store64 (elem64 data_page 2) compressed_size) ;;
  load64 (elem64 current_idx_page current_idx_entry).

(** The cursor of a walk over the index pages. *)
Record idx_cursor := mkIdx { current_idx_entry : Z; current_idx_page : Z }.

Definition confirm_idx_page (c : idx_cursor) : M idx_cursor :=
  if max_idx_page_bitmap_entrys <=? current_idx_entry c then
    next ← load64 (elem64 (current_idx_page c) 0);
    when (next =? 0) (p ← new_idx_page; store64 (elem64 (current_idx_page c) 0) p) ;;
    page ← load64 (elem64 (current_idx_page c) 0);
    mret (mkIdx 1 page)
  else mret c.

(** The size class of a request. *)
Definition size_class (size_bytes : Z) : Z * Z :=
  let compressed_size := 63 - clz64 size_bytes in
  let pow2_size := BIT compressed_size in
  if pow2_size =? size_bytes then (compressed_size, pow2_size)
  else (compressed_size + 1, wrap64 (Z.shiftl pow2_size 1)).

(** The body of the inner loop: bitmap word [i] of the current data page. *)
Definition mem_alloc_word (pow2_size compressed_size bitmap_entry_cnt current_page_data_num
    current_data_page : Z) (c : idx_cursor) (i : Z) : M (idx_cursor + Z) :=
  c ← confirm_idx_page c;
  let here := elem64 (current_idx_page c) (current_idx_entry c) in
  let next := mkIdx (current_idx_entry c ⊕ 1) (current_idx_page c) in
  w ← load64 here;
  if w =? U64_MAX then mret (inl next) else
  let bit := if w =? 0 then 0 else ctz64 (not64 w) in
  let local_page_num := i * 64 + bit in
  if bitmap_entry_cnt <=? local_page_num then mret (inl next) else
  if negb (Z.land w (BIT bit) =? 0) then
    PANIC "DOUBLE_ACQUIRE_PAGE" (current_idx_entry c) pow2_size (current_idx_page c)
  else
    store64 here (set_bit w bit) ;;
    let global_num := (bitmap_entry_cnt ⊗ current_page_data_num) ⊕ local_page_num in
    lowest ← gets (fun s => lowest_of s compressed_size);
    when (lowest <? global_num) (modify (set_lowest compressed_size global_num)) ;;
    mret (inr ((current_data_page ⊕ pow2_size ⊗ local_page_num) ⊕ 64)).

(** The body of the outer loop: one data page. *)
Definition mem_alloc_page (pow2_size compressed_size bitmap_entry_cnt : Z)
    (st : idx_cursor * Z) : M (idx_cursor * Z + Z) :=
  let '(c, current_page_data_num) := st in
  c ← confirm_idx_page c;
  current_data_page ← fetch_and_confirm_data_page (current_idx_page c) (current_idx_entry c)
    pow2_size compressed_size current_page_data_num;
  r ← for_until (upto 0 bitmap_entry_cnt)
        (mem_alloc_word pow2_size compressed_size bitmap_entry_cnt current_page_data_num current_data_page)
        (mkIdx (current_idx_entry c ⊕ 1) (current_idx_page c));
  match r with
  | inr data_location => mret (inr data_location)
  | inl c => mret (inl (c, current_page_data_num ⊕ 1))
  end.

Definition mem_alloc (size_bytes : Z) : M Z :=
  if size_bytes =? 0 then PANIC "ATTEMPT_ALLOCATE_ZERO_BYTES" 0 0 0 else
  let '(compressed_size, pow2_size) := size_class size_bytes in
  if KERNEL_PAGE_SIZE <=? pow2_size then PANIC "ATTEMPT_ALLOCATE_LARGER_THEN_PAGE" pow2_size 0 0 else
  root ← gets (fun s => root_of s compressed_size);
  when (root =? 0) (p ← new_idx_page; modify (set_root compressed_size p)) ;;
  root ← gets (fun s => root_of s compressed_size);
  bitmap_entry_cnt ← max_cnt_per_page pow2_size;
  let bitmap_size := (ROUND_MOD_UP bitmap_entry_cnt 64 / 8) ⊕ 1 in
  lowest ← gets (fun s => lowest_of s compressed_size);
  let bitmap_num := lowest / bitmap_entry_cnt in
  let bitmap_location := bitmap_num ⊗ bitmap_size in
  let idx_entry := bitmap_location / max_idx_page_bitmap_entrys in
  c ← for_fold (upto 0 idx_entry)
        (fun c _ => confirm_idx_page (mkIdx 999999999 (current_idx_page c))) (mkIdx 1 root);
  while_true (mem_alloc_page pow2_size compressed_size bitmap_entry_cnt)
    (mkIdx (idx_entry mod max_idx_page_bitmap_entrys + 1) (current_idx_page c), bitmap_num).

Definition mem_free (location : Z) : M unit :=
  let header := ROUND_MOD_DOWN location KERNEL_PAGE_SIZE in
  entry_size ← load64 (elem64 header 0);
  page_num ← load64 (elem64 header 1);
  compressed_size ← load64 (elem64 header 2);
  max_per_page ← max_cnt_per_page entry_size;
  let page_entry_num := ((location ⊖ header) ⊖ 64) / entry_size in
  let data_page_row_size := (ROUND_MOD_UP max_per_page 64 / 8) ⊕ 1 in
  let bitmap_entry_num := ((page_entry_num / 64) ⊕ (page_num ⊗ data_page_row_size)) ⊕ 1 in
  let bitmap_entry_bit := page_entry_num mod 64 in
  let idx_table_num := bitmap_entry_num / max_idx_page_bitmap_entrys in
  let idx_table_postion := bitmap_entry_num mod max_idx_page_bitmap_entrys + 1 in
  if 256 <=? compressed_size then undef "root_idx_page out of bounds" else
  root ← gets (fun s => root_of s compressed_size);
  if root =? 0 then PANIC "ALLOCATOR_RELEASE_NO_IDX_TABLE" 0 0 0 else
  bitmap ← for_fold (upto 0 idx_table_num) (fun bitmap i =>
    next ← load64 (elem64 bitmap 0);
    if next =? 0 then PANIC "ALLOCATOR_RELEASE_NO_idx_TABLE_LEAF" i idx_table_num location
    else mret next) root;
  w ← load64 (elem64 bitmap idx_table_postion);
  if Z.land w (BIT bitmap_entry_bit) =? 0 then PANIC "ALLOCATOR_RELEASE_FREE" 0 0 0 else
  store64 (elem64 bitmap idx_table_postion) (clear_bit w bitmap_entry_bit) ;;
  let global_num := (max_per_page ⊗ page_num) ⊕ page_entry_num in
  lowest ← gets (fun s => lowest_of s compressed_size);
  when (global_num <? lowest) (modify (set_lowest compressed_size global_num)).

Definition bump_alloc (size : Z) : M Z :=
  if KERNEL_PAGE_SIZE <? size then PANIC "ALLOCATOR_BUMP_LARGER_THEN_PAGE" 0 0 0 else
  cnt ← gets (fun s => bump_cnt (allocator s));
  when (KERNEL_PAGE_SIZE <=? cnt ⊕ size) (p ← pg_alloc; modify (set_bump p 0)) ;;
  g ← gets allocator;
  modify (set_bump (bump_page g) (bump_cnt g ⊕ ROUND_MOD_UP size 8)) ;;
  mret (bump_page g ⊕ bump_cnt g).

(** ** Size classes *)

(** The number of blocks in a data page of class [c]. *)
Definition slots (c : Z) : Z := 4032 / 2 ^ c.

Lemma size_class_spec n :
  0 < n <= 9223372036854775808 ->
  exists c, size_class n = (c, 2 ^ c) /\ 0 <= c <= 63 /\ n <= 2 ^ c /\ (c = 0 \/ 2 ^ (c - 1) < n).
Proof.
  intros Hn. unfold size_class. pose proof (Z.log2_spec n ltac:(lia)) as Hl.
  pose proof (Z.log2_nonneg n). replace (63 - clz64 n) with (Z.log2 n) by (unfold clz64; lia).
  assert (Z.log2 n <= 63) as Hc.
  { pose proof (Z.log2_le_mono n 9223372036854775808 ltac:(lia)).
    by change (Z.log2 9223372036854775808) with 63 in *. }
  rewrite BIT_pow2 by lia. destruct (Z.eqb_spec (2 ^ Z.log2 n) n) as [E|E].
  - exists (Z.log2 n). split; [done|]. split; [lia|]. split; [lia|].
    destruct (Z.eq_dec (Z.log2 n) 0) as [|Hne]; [by left|right].
    apply Z.lt_le_trans with (2 ^ Z.log2 n); [apply Z.pow_lt_mono_r; lia|lia].
  - assert (Z.log2 n < 63) as Hlt.
    { destruct (Z.eq_dec (Z.log2 n) 63) as [E63|]; [|lia]. rewrite E63 in *.
      change (2 ^ 63) with 9223372036854775808 in *. lia. }
    exists (Z.log2 n + 1). split.
    + f_equal. rewrite Z.shiftl_mul_pow2, Z.pow_add_r by lia. apply wrap64_small.
      split; [apply Z.mul_nonneg_nonneg; apply Z.pow_nonneg; lia|].
      apply Z.le_lt_trans with (2 ^ 62 * 2 ^ 1); [|done].
      apply Z.mul_le_mono_nonneg_r; [done|]. apply Z.pow_le_mono_r; lia.
    + split; [lia|]. replace (Z.succ (Z.log2 n)) with (Z.log2 n + 1) in Hl by lia.
      replace (Z.log2 n + 1 - 1) with (Z.log2 n) by lia. lia.
Qed.

Lemma class_bounds c :
  0 <= c <= 11 -> 1 <= 2 ^ c <= 2048 /\ 1 <= slots c <= 4032 /\ 2 ^ c * slots c <= 4032.
Proof.
  intros Hc. assert (1 <= 2 ^ c <= 2048) as Hp.
  { split; [apply (Z.pow_le_mono_r 2 0 c); lia|apply (Z.pow_le_mono_r 2 c 11); lia]. }
  split; [done|]. unfold slots. split; [|apply Z.mul_div_le; lia].
  split; [apply Z.div_le_lower_bound; lia|apply Z.div_le_upper_bound; nia].
Qed.

Lemma max_cnt_class c s : 0 <= c <= 11 -> max_cnt_per_page (2 ^ c) s = Ret (slots c) s.
Proof.
  intros Hc. destruct (class_bounds c Hc) as (Hp & Hs & _). unfold max_cnt_per_page.
  destruct (Z.eqb_spec (2 ^ c) 0); [lia|]. rewrite wrap32_small; [done|].
  change (KERNEL_PAGE_SIZE - 64) with 4032. fold (slots c). lia.
Qed.

(** ** A class with its first data page *)

(** Index page [idx] and data page [data] serve class [c]; no block beyond the
    first data page has been the highest in use. *)
Record class_ready (c idx data : Z) (s : kstate) : Prop := {
  cr_class : 0 <= c <= 11;
  cr_root : root_of s c = idx;
  cr_table : (Z.to_nat c < length (lowest_free_entry (allocator s)))%nat;
  cr_idx : kblock idx KERNEL_PAGE_SIZE;
  cr_data : kblock data KERNEL_PAGE_SIZE;
  cr_aligned : data mod KERNEL_PAGE_SIZE = 0;
  cr_apart : apart idx KERNEL_PAGE_SIZE data KERNEL_PAGE_SIZE;
  cr_ptr : rd (mem s) (idx + 8 * 1) = data;
  cr_size : rd (mem s) (data + 8 * 0) = 2 ^ c;
  cr_num : rd (mem s) (data + 8 * 1) = 0;
  cr_code : rd (mem s) (data + 8 * 2) = c;
  cr_lowest : 0 <= lowest_of s c < slots c;
}.

Definition slot_word (idx p : Z) : Z := idx + 8 * (2 + p / 64).
Definition slot_used (m : gmap Z Z) (idx p : Z) : bool := Z.testbit (rd m (slot_word idx p)) (p mod 64).
Definition slot_addr (c data p : Z) : Z := data + 64 + 2 ^ c * p.

(** Slot [p] is the first free one. *)
Record first_slot (c : Z) (m : gmap Z Z) (idx p : Z) : Prop := {
  fs_slot : 0 <= p < slots c;
  fs_free : slot_used m idx p = false;
  fs_first q : 0 <= q < p -> slot_used m idx q = true;
}.

Definition raise_lowest (c p : Z) (s : kstate) : kstate :=
  if lowest_of s c <? p then set_lowest c p s else s.
Definition drop_lowest (c p : Z) (s : kstate) : kstate :=
  if p <? lowest_of s c then set_lowest c p s else s.

Definition take_slot_mem (idx p : Z) (m : gmap Z Z) : gmap Z Z :=
  wr m (slot_word idx p) (set_bit (rd m (slot_word idx p)) (p mod 64)).
Definition free_slot_mem (idx p : Z) (m : gmap Z Z) : gmap Z Z :=
  wr m (slot_word idx p) (clear_bit (rd m (slot_word idx p)) (p mod 64)).
Definition take_slot (c idx p : Z) (s : kstate) : kstate :=
  raise_lowest c p (set_mem (take_slot_mem idx p (mem s)) s).
Definition free_slot (c idx p : Z) (s : kstate) : kstate :=
  drop_lowest c p (set_mem (free_slot_mem idx p (mem s)) s).

Section Class.
Context (c idx data : Z) (s : kstate) (Hr : class_ready c idx data s).

Lemma slot_bounds p :
  0 <= p < slots c -> 0 <= p / 64 <= 62 /\ 0 <= p mod 64 < 64.
Proof. destruct (class_bounds c (cr_class _ _ _ _ Hr)) as (_ & ? & _). intros. dlia. Qed.

Lemma idx_elem k : 0 <= k < 512 -> elem64 idx k = idx + 8 * k /\ valid64 (elem64 idx k).
Proof. intros Hk. by apply (kblock_elem idx 512), Hk; apply (cr_idx _ _ _ _ Hr). Qed.

Lemma data_elem k : 0 <= k < 512 -> elem64 data k = data + 8 * k /\ valid64 (elem64 data k).
Proof. intros Hk. by apply (kblock_elem data 512), Hk; apply (cr_data _ _ _ _ Hr). Qed.

(** A block lies in the data page, after its header. *)
Lemma slot_in_page p :
  0 <= p < slots c -> data + 64 <= slot_addr c data p /\ slot_addr c data p + 2 ^ c <= data + 4096.
Proof.
  intros Hp. destruct (class_bounds c (cr_class _ _ _ _ Hr)) as (H1 & H2 & H3). unfold slot_addr. nia.
Qed.

Lemma mem_alloc_word_full i :
  0 <= i -> 64 * i + 63 < slots c -> (forall q, 64 * i <= q < 64 * i + 64 -> slot_used (mem s) idx q = true) ->
  mem_alloc_word (2 ^ c) c (slots c) 0 data (mkIdx (2 + i) idx) i s = Ret (inl (mkIdx (2 + (i + 1)) idx)) s.
Proof.
  intros Hi Hlt Hu. destruct (class_bounds c (cr_class _ _ _ _ Hr)) as (H1 & H2 & H3).
  unfold mem_alloc_word, confirm_idx_page. cbn [current_idx_entry current_idx_page].
  change max_idx_page_bitmap_entrys with 511. replace (511 <=? 2 + i) with false by lia.
  erewrite bind_Ret by reflexivity. cbn [current_idx_entry current_idx_page].
  destruct (idx_elem (2 + i) ltac:(lia)) as [E Hv]. rewrite E in *.
  rewrite (bind_Ret _ _ _ _ _ (load64_eq _ _ Hv)).
  assert (rd (mem s) (idx + 8 * (2 + i)) = U64_MAX) as ->.
  { apply all_ones_bits; [apply rd_u64|]. intros k Hk. specialize (Hu (64 * i + k) ltac:(lia)).
    unfold slot_used, slot_word in Hu. replace ((64 * i + k) / 64) with i in Hu by dlia.
    by replace ((64 * i + k) mod 64) with k in Hu by dlia. }
  rewrite Z.eqb_refl, wrap64_small by lia. cbn [mret M_ret]. do 3 f_equal. lia.
Qed.

Lemma mem_alloc_word_take p :
  first_slot c (mem s) idx p ->
  mem_alloc_word (2 ^ c) c (slots c) 0 data (mkIdx (2 + p / 64) idx) (p / 64) s =
    Ret (inr (slot_addr c data p)) (take_slot c idx p s).
Proof.
  intros [Hp Hf Hu]. destruct (slot_bounds p Hp) as [Hw Hb].
  destruct (class_bounds c (cr_class _ _ _ _ Hr)) as (H1 & H2 & H3).
  destruct (slot_in_page p Hp) as [Hlo Hhi]. destruct (cr_data _ _ _ _ Hr) as (Hk1 & Hk2 & _).
  unfold KERNEL_VMA_START, KERNEL_PAGE_SIZE in *.
  unfold mem_alloc_word, confirm_idx_page. cbn [current_idx_entry current_idx_page].
  change max_idx_page_bitmap_entrys with 511. replace (511 <=? 2 + p / 64) with false by lia.
  erewrite bind_Ret by reflexivity. cbn [current_idx_entry current_idx_page].
  destruct (idx_elem (2 + p / 64) ltac:(lia)) as [E Hv]. rewrite E in *.
  rewrite (bind_Ret _ _ _ _ _ (load64_eq _ _ Hv)). fold (slot_word idx p).
  set (w := rd (mem s) (slot_word idx p)).
  assert (Z.testbit w (p mod 64) = false) as Hbit by exact Hf.
  assert (ctz64 (not64 w) = p mod 64) as Hctz.
  { apply ctz64_least; [done|by rewrite testbit_not64, Hbit by done|]. intros k Hk.
    rewrite testbit_not64 by lia. specialize (Hu (64 * (p / 64) + k) ltac:(dlia)).
    unfold slot_used, slot_word in Hu.
    replace ((64 * (p / 64) + k) / 64) with (p / 64) in Hu by dlia.
    replace ((64 * (p / 64) + k) mod 64) with k in Hu by dlia.
    unfold w, slot_word. by rewrite Hu. }
  destruct (Z.eqb_spec w U64_MAX) as [Ew|_]; [by rewrite Ew, testbit_U64_MAX in Hbit|].
  assert ((if w =? 0 then 0 else ctz64 (not64 w)) = p mod 64) as ->.
  { destruct (Z.eqb_spec w 0) as [Ew|]; [|done]. rewrite <- Hctz, Ew. done. }
  cbv zeta. replace (p / 64 * 64 + p mod 64) with p by dlia.
  replace (slots c <=? p) with false by lia.
  rewrite (proj2 (land_BIT_zero w (p mod 64) Hb) Hbit). cbn [Z.eqb negb].
  rewrite (bind_Ret _ _ _ _ _ (store64_eq _ _ _ Hv)).
  rewrite Z.mul_0_r. change (wrap64 0) with 0. rewrite Z.add_0_l, (wrap64_small p) by lia.
  rewrite (wrap64_small (2 ^ c * p)), wrap64_add_l by nia.
  replace (wrap64 (data + 2 ^ c * p + 64)) with (slot_addr c data p)
    by (rewrite wrap64_small; unfold slot_addr in *; nia).
  unfold take_slot, raise_lowest, when, take_slot_mem.
  erewrite bind_Ret by reflexivity. fold (slot_word idx p). fold w.
  by destruct (lowest_of _ c <? p).
Qed.

Lemma fetch_ready : fetch_and_confirm_data_page idx 1 (2 ^ c) c 0 s = Ret data s.
Proof.
  destruct (idx_elem 1 ltac:(lia)) as [E Hv]. pose proof (cr_ptr _ _ _ _ Hr) as Hptr.
  assert (data <> 0) by (destruct (cr_data _ _ _ _ Hr); unfold KERNEL_VMA_START in *; lia).
  unfold fetch_and_confirm_data_page. rewrite E in *.
  rewrite (bind_Ret _ _ _ _ _ (load64_eq _ _ Hv)), Hptr.
  destruct (Z.eqb_spec data 0); [done|]. cbn [when]. erewrite bind_Ret by reflexivity.
  by rewrite load64_eq, Hptr.
Qed.

Lemma mem_alloc_page_take p :
  first_slot c (mem s) idx p ->
  mem_alloc_page (2 ^ c) c (slots c) (mkIdx 1 idx, 0) s = Ret (inr (slot_addr c data p)) (take_slot c idx p s).
Proof.
  intros Hf. destruct (Hf) as [Hp _ Hu]. destruct (slot_bounds p Hp) as [Hw Hb].
  unfold mem_alloc_page. erewrite bind_Ret by reflexivity. cbn [current_idx_entry current_idx_page].
  rewrite (bind_Ret _ _ _ _ _ fetch_ready). change (1 ⊕ 1) with (2 + 0).
  rewrite (bind_Ret _ _ (inr (slot_addr c data p)) _ (take_slot c idx p s)); [done|].
  apply (for_until_hit (fun i => mkIdx (2 + i) idx) 0 (slots c) (p / 64)); [dlia| |by apply mem_alloc_word_take].
  intros i Hi. apply mem_alloc_word_full; [lia|dlia|]. intros q Hq. apply Hu. dlia.
Qed.

(** The search starts at the first data page. *)
Lemma mem_alloc_start n :
  size_class n = (c, 2 ^ c) -> 0 < n ->
  mem_alloc n s = while_true (mem_alloc_page (2 ^ c) c (slots c)) (mkIdx 1 idx, 0) s.
Proof.
  intros Hc Hn. destruct (class_bounds c (cr_class _ _ _ _ Hr)) as (H1 & H2 & H3).
  unfold mem_alloc. destruct (Z.eqb_spec n 0); [lia|]. rewrite Hc.
  unfold KERNEL_PAGE_SIZE. replace (4096 <=? 2 ^ c) with false by lia.
  erewrite bind_Ret by reflexivity. rewrite (cr_root _ _ _ _ Hr).
  assert (idx <> 0) by (destruct (cr_idx _ _ _ _ Hr); unfold KERNEL_VMA_START in *; lia).
  destruct (Z.eqb_spec idx 0); [done|]. cbn [when]. erewrite bind_Ret by reflexivity.
  erewrite bind_Ret by reflexivity. rewrite (cr_root _ _ _ _ Hr).
  rewrite (bind_Ret _ _ _ _ _ (max_cnt_class c s (cr_class _ _ _ _ Hr))).
  erewrite bind_Ret by reflexivity. rewrite (Z.div_small _ _ (cr_lowest _ _ _ _ Hr)).
  rewrite Z.mul_0_l. change (wrap64 0 / max_idx_page_bitmap_entrys) with 0.
  by erewrite bind_Ret by reflexivity.
Qed.

Lemma mem_alloc_takes n p :
  size_class n = (c, 2 ^ c) -> 0 < n -> first_slot c (mem s) idx p ->
  mem_alloc n s = Ret (slot_addr c data p) (take_slot c idx p s).
Proof.
  intros Hc Hn Hf. rewrite mem_alloc_start by done. apply while_exit. by apply mem_alloc_page_take.
Qed.
End Class.

(** ** Freeing *)

Section Free.
Context (c idx data : Z) (s : kstate) (Hr : class_ready c idx data s).

(** Any address inside the block frees it. *)
Lemma mem_free_eq p o :
  0 <= p < slots c -> 0 <= o < 2 ^ c ->
  mem_free (slot_addr c data p + o) s =
    if slot_used (mem s) idx p then Ret tt (free_slot c idx p s)
    else Panic "ALLOCATOR_RELEASE_FREE" 0 0 0.
Proof.
  intros Hp Ho. destruct (slot_bounds c idx data s Hr p Hp) as [Hw Hb].
  destruct (class_bounds c (cr_class _ _ _ _ Hr)) as (H1 & H2 & H3).
  destruct (slot_in_page c idx data s Hr p Hp) as [Hlo Hhi].
  destruct (cr_data _ _ _ _ Hr) as (Hk1 & Hk2 & _). pose proof (cr_aligned _ _ _ _ Hr) as Hal.
  pose proof (cr_class _ _ _ _ Hr) as Hc.
  unfold KERNEL_VMA_START, KERNEL_PAGE_SIZE in *.
  assert (ROUND_MOD_DOWN (slot_addr c data p + o) 4096 = data) as Eh.
  { unfold ROUND_MOD_DOWN. assert ((slot_addr c data p + o) / 4096 = data / 4096) as -> by dlia.
    rewrite wrap64_small; dlia. }
  unfold mem_free, KERNEL_PAGE_SIZE. rewrite Eh. cbv zeta.
  destruct (data_elem c idx data s Hr 0 ltac:(lia)) as [E0 V0].
  destruct (data_elem c idx data s Hr 1 ltac:(lia)) as [E1 V1].
  destruct (data_elem c idx data s Hr 2 ltac:(lia)) as [E2 V2].
  rewrite E0, E1, E2 in *.
  rewrite (bind_Ret _ _ _ _ _ (load64_eq _ _ V0)), (bind_Ret _ _ _ _ _ (load64_eq _ _ V1)),
    (bind_Ret _ _ _ _ _ (load64_eq _ _ V2)), (cr_size _ _ _ _ Hr), (cr_num _ _ _ _ Hr), (cr_code _ _ _ _ Hr).
  rewrite (bind_Ret _ _ _ _ _ (max_cnt_class c s Hc)).
  assert (((slot_addr c data p + o ⊖ data) ⊖ 64) / 2 ^ c = p) as ->.
  { rewrite (wrap64_small (slot_addr c data p + o - data)), wrap64_small by lia.
    unfold slot_addr. replace (data + 64 + 2 ^ c * p + o - data - 64) with (o + p * 2 ^ c) by lia.
    rewrite Z.div_add by lia. rewrite Z.div_small by lia. lia. }
  rewrite !Z.mul_0_l, Z.mul_0_r. change (wrap64 0) with 0. rewrite !Z.add_0_r, Z.add_0_l.
  rewrite (wrap64_small (p / 64)), (wrap64_small (p / 64 + 1)), (wrap64_small p) by lia.
  change max_idx_page_bitmap_entrys with 511.
  replace (256 <=? c) with false by lia. erewrite bind_Ret by reflexivity. rewrite (cr_root _ _ _ _ Hr).
  assert (idx <> 0) by (destruct (cr_idx _ _ _ _ Hr); unfold KERNEL_VMA_START in *; lia).
  destruct (Z.eqb_spec idx 0); [done|]. rewrite (Z.div_small (p / 64 + 1)) by lia.
  erewrite bind_Ret by reflexivity.
  rewrite (Z.mod_small (p / 64 + 1)) by lia. replace (p / 64 + 1 + 1) with (2 + p / 64) by lia.
  destruct (idx_elem c idx data s Hr (2 + p / 64) ltac:(lia)) as [E Hv]. rewrite E in *.
  rewrite (bind_Ret _ _ _ _ _ (load64_eq _ _ Hv)). fold (slot_word idx p).
  unfold slot_used. pose proof (land_BIT_zero (rd (mem s) (slot_word idx p)) (p mod 64) Hb) as Hz.
  destruct (Z.testbit (rd (mem s) (slot_word idx p)) (p mod 64)) eqn:Eb.
  - destruct (Z.eqb_spec (Z.land (rd (mem s) (slot_word idx p)) (BIT (p mod 64))) 0) as [Ez|_];
      [by apply Hz in Ez|].
    rewrite (bind_Ret _ _ _ _ _ (store64_eq _ _ _ Hv)). erewrite bind_Ret by reflexivity.
    unfold free_slot, drop_lowest, free_slot_mem. by destruct (p <? lowest_of _ c).
  - by rewrite (proj2 Hz eq_refl).
Qed.

Lemma lookup_root_set_lowest c' v s' : root_of (set_lowest c' v s') c = root_of s' c.
Proof. done. Qed.

Lemma lowest_of_set v s' :
  length (lowest_free_entry (allocator s')) = length (lowest_free_entry (allocator s)) ->
  lowest_of (set_lowest c v s') c = v.
Proof.
  intros Hl. unfold lowest_of, set_lowest. cbn. apply nth_lookup_Some, list_lookup_insert_eq.
  rewrite Hl. apply (cr_table _ _ _ _ Hr).
Qed.

(** Both operations change one bitmap word and the lowest entry. *)
Lemma class_ready_update m' l :
  (forall a, a < idx + 16 \/ idx + KERNEL_PAGE_SIZE <= a -> rd m' a = rd (mem s) a) -> 0 <= l < slots c ->
  class_ready c idx data (set_lowest c l (set_mem m' s)) /\
  (lowest_of s c = l -> class_ready c idx data (set_mem m' s)).
Proof.
  intros Hm Hl. destruct (Hr) as [Hc Hroot Htab Hidx Hdata Hal Hap Hptr Hsize Hnum Hcode Hlow].
  pose proof Hap as Hap'. unfold apart, KERNEL_PAGE_SIZE in Hap'.
  assert (rd m' (idx + 8 * 1) = data) as P1 by (rewrite Hm by lia; done).
  assert (rd m' (data + 8 * 0) = 2 ^ c) as P2 by (rewrite Hm by (unfold KERNEL_PAGE_SIZE; lia); done).
  assert (rd m' (data + 8 * 1) = 0) as P3 by (rewrite Hm by (unfold KERNEL_PAGE_SIZE; lia); done).
  assert (rd m' (data + 8 * 2) = c) as P4 by (rewrite Hm by (unfold KERNEL_PAGE_SIZE; lia); done).
  split; [|intros _; by split].
  split; try done.
  - cbn. by rewrite length_insert.
  - by rewrite lowest_of_set.
Qed.
End Free.

Lemma slot_word_idx c idx data s p :
  class_ready c idx data s -> 0 <= p < slots c -> idx + 16 <= slot_word idx p < idx + KERNEL_PAGE_SIZE.
Proof. intros Hr Hp. destruct (slot_bounds _ _ _ _ Hr p Hp). unfold slot_word, KERNEL_PAGE_SIZE. lia. Qed.

Lemma take_slot_ready c idx data s p :
  class_ready c idx data s -> 0 <= p < slots c -> class_ready c idx data (take_slot c idx p s).
Proof.
  intros Hr Hp. pose proof (slot_word_idx _ _ _ _ p Hr Hp) as Hw. pose proof (cr_lowest _ _ _ _ Hr).
  assert (forall a, a < idx + 16 \/ idx + KERNEL_PAGE_SIZE <= a -> rd (take_slot_mem idx p (mem s)) a = rd (mem s) a)
    as Hm by (intros a Ha; apply rd_wr_ne; lia).
  unfold take_slot, raise_lowest. change (lowest_of (set_mem _ s) c) with (lowest_of s c).
  destruct (Z.ltb_spec (lowest_of s c) p).
  - by apply class_ready_update.
  - by apply (class_ready_update _ _ _ _ Hr _ (lowest_of s c)).
Qed.

Lemma free_slot_ready c idx data s p :
  class_ready c idx data s -> 0 <= p < slots c -> class_ready c idx data (free_slot c idx p s).
Proof.
  intros Hr Hp. pose proof (slot_word_idx _ _ _ _ p Hr Hp) as Hw. pose proof (cr_lowest _ _ _ _ Hr).
  assert (forall a, a < idx + 16 \/ idx + KERNEL_PAGE_SIZE <= a -> rd (free_slot_mem idx p (mem s)) a = rd (mem s) a)
    as Hm by (intros a Ha; apply rd_wr_ne; lia).
  unfold free_slot, drop_lowest. change (lowest_of (set_mem _ s) c) with (lowest_of s c).
  destruct (Z.ltb_spec p (lowest_of s c)).
  - by apply class_ready_update.
  - by apply (class_ready_update _ _ _ _ Hr _ (lowest_of s c)).
Qed.

Lemma mem_take_slot c idx p s : mem (take_slot c idx p s) = take_slot_mem idx p (mem s).
Proof. unfold take_slot, raise_lowest. by destruct (_ <? _). Qed.
Lemma mem_free_slot c idx p s : mem (free_slot c idx p s) = free_slot_mem idx p (mem s).
Proof. unfold free_slot, drop_lowest. by destruct (_ <? _). Qed.

(** The bit of slot [q] after the word of slot [p] is rewritten. *)
Lemma slot_used_wr m idx p q w :
  0 <= p -> 0 <= q -> u64 w -> slot_used (wr m (slot_word idx p) w) idx q =
    if p / 64 =? q / 64 then Z.testbit w (q mod 64) else slot_used m idx q.
Proof.
  intros Hp Hq Hw. unfold slot_used, slot_word. destruct (Z.eqb_spec (p / 64) (q / 64)) as [->|Hne].
  - by rewrite rd_wr_eq, wrap64_small by done.
  - by rewrite rd_wr_ne by lia.
Qed.

Lemma slot_used_take m idx p q :
  0 <= p -> 0 <= q -> slot_used (take_slot_mem idx p m) idx q = slot_used m idx q || (q =? p).
Proof.
  intros Hp Hq. unfold take_slot_mem. rewrite slot_used_wr by (done || apply set_bit_u64, rd_u64).
  destruct (Z.eqb_spec (p / 64) (q / 64)) as [E|E].
  - rewrite testbit_set_bit by dlia. unfold slot_used, slot_word. rewrite E. f_equal. dlia.
  - replace (q =? p) with false by dlia. by rewrite orb_false_r.
Qed.

Lemma slot_used_free m idx p q :
  0 <= p -> 0 <= q -> slot_used (free_slot_mem idx p m) idx q = slot_used m idx q && negb (q =? p).
Proof.
  intros Hp Hq. unfold free_slot_mem. rewrite slot_used_wr by (done || apply clear_bit_u64, rd_u64).
  destruct (Z.eqb_spec (p / 64) (q / 64)) as [E|E].
  - rewrite testbit_clear_bit by dlia. unfold slot_used, slot_word. rewrite E. do 2 f_equal. dlia.
  - replace (q =? p) with false by dlia. by rewrite andb_true_r.
Qed.

(** ** Theorems *)

(** C17: while the first data page of its class has a free block, [mem_alloc]
    returns the lowest one: at least as large as the request and less than
    twice it, inside the page after its header, apart from every block in use,
    which all stay in use; nothing but the bitmap word of the block changes in
    memory. *)
Theorem mem_alloc_first_fit c idx data s n p :
  class_ready c idx data s -> size_class n = (c, 2 ^ c) -> 0 < n < 9223372036854775808 ->
  first_slot c (mem s) idx p ->
  exists s', mem_alloc n s = Ret (slot_addr c data p) s' /\ class_ready c idx data s' /\
    n <= 2 ^ c /\ (2 ^ c < 2 * n) /\
    data + 64 <= slot_addr c data p /\ slot_addr c data p + 2 ^ c <= data + KERNEL_PAGE_SIZE /\
    (forall q, 0 <= q < slots c -> slot_used (mem s') idx q = slot_used (mem s) idx q || (q =? p)) /\
    (forall q, 0 <= q < slots c -> slot_used (mem s) idx q = true ->
       apart (slot_addr c data p) (2 ^ c) (slot_addr c data q) (2 ^ c)) /\
    (forall a, a <> slot_word idx p -> rd (mem s') a = rd (mem s) a).
Proof.
  intros Hr Hc Hn Hf. destruct (Hf) as [Hp Hfree _]. exists (take_slot c idx p s).
  destruct (slot_in_page _ _ _ _ Hr p Hp) as [Hlo Hhi].
  destruct (size_class_spec n ltac:(lia)) as (c' & Ec & Hb & Hle & Hgt). rewrite Hc in Ec. injection Ec as <- _.
  split; [apply (mem_alloc_takes _ _ _ _ Hr); [done|lia|done]|]. split; [by apply (take_slot_ready _ _ data)|]. split; [done|].
  split.
  { destruct Hgt as [->|Hgt]; [cbn; lia|]. destruct (Z.eq_dec c 0) as [->|]; [cbn; lia|].
    replace c with (c - 1 + 1) at 1 by lia. rewrite Z.pow_add_r by lia. lia. }
  split; [done|]. split; [unfold KERNEL_PAGE_SIZE; lia|]. rewrite mem_take_slot. split; [|split].
  - intros q Hq. apply slot_used_take; lia.
  - intros q Hq Hu. assert (q <> p) by congruence. destruct (class_bounds c (cr_class _ _ _ _ Hr)) as (? & _).
    unfold apart, slot_addr. nia.
  - intros a Ha. by apply rd_wr_ne.
Qed.

(** C18: [mem_free] of any address of a block in the first data page of its class
    ([class_ready], [slot_addr]): of one in use it marks exactly that block free, and
    the next request of its class for which it is the lowest gets it again; of a
    block that is free it is a panic.  For blocks in the second data page it
    is a panic even when they are in use ([second_page_block_not_freeable]). *)
Theorem mem_free_block c idx data s p o :
  class_ready c idx data s -> 0 <= p < slots c -> 0 <= o < 2 ^ c ->
  if slot_used (mem s) idx p then
    exists s', mem_free (slot_addr c data p + o) s = Ret tt s' /\ class_ready c idx data s' /\
      (forall q, 0 <= q < slots c -> slot_used (mem s') idx q = slot_used (mem s) idx q && negb (q =? p)) /\
      (forall a, a <> slot_word idx p -> rd (mem s') a = rd (mem s) a) /\
      (forall n, size_class n = (c, 2 ^ c) -> 0 < n ->
         (forall q, 0 <= q < p -> slot_used (mem s) idx q = true) ->
         exists s'', mem_alloc n s' = Ret (slot_addr c data p) s'')
  else mem_free (slot_addr c data p + o) s = Panic "ALLOCATOR_RELEASE_FREE" 0 0 0.
Proof.
  intros Hr Hp Ho. rewrite (mem_free_eq _ _ _ _ Hr p o Hp Ho).
  destruct (slot_used (mem s) idx p) eqn:Eu; [|done].
  exists (free_slot c idx p s). pose proof (free_slot_ready _ _ _ _ p Hr Hp) as Hr'.
  split; [done|]. split; [done|]. rewrite mem_free_slot. split; [|split].
  - intros q Hq. apply slot_used_free; lia.
  - intros a Ha. by apply rd_wr_ne.
  - intros n Hc Hn Hfirst. eexists. apply (mem_alloc_takes _ _ _ _ Hr' n p Hc Hn). rewrite mem_free_slot.
    split; [done| |].
    + rewrite slot_used_free, Z.eqb_refl, andb_false_r by lia. done.
    + intros q Hq. rewrite slot_used_free, Hfirst by lia. by replace (q =? p) with false by lia.
Qed.

(** ** The first block of a class *)

Section Fresh.
Context {PS : PageSource pg_alloc}.

(** Setting up data page number [num] in entry [e] of an index page. *)
Definition new_data_mem (m : gmap Z Z) (idx e data c num : Z) : gmap Z Z :=
  wr (wr (wr (wr m (idx + 8 * e) data) (data + 8 * 0) (2 ^ c)) (data + 8 * 1) num) (data + 8 * 2) c.

Lemma owned_elem owned s a k :
  ps_inv owned s -> a ∈ owned -> 0 <= k < 512 -> elem64 a k = a + 8 * k /\ valid64 (a + 8 * k).
Proof.
  intros Hi Ha Hk. destruct (ps_page _ _ _ Hi Ha) as [Hb _].
  destruct (kblock_elem a 512 k Hb Hk) as [E V]. rewrite E in V. done.
Qed.

Lemma fetch_new owned s idx e c num :
  ps_inv owned s -> idx ∈ owned -> 0 <= e < 512 -> rd (mem s) (idx + 8 * e) = 0 ->
  fetch_and_confirm_data_page idx e (2 ^ c) c num s = Panic "OUT_OF_FREE_PAGES" 0 0 0 \/
  exists data s1, pg_alloc s = Ret data s1 /\ new_page owned s data s1 /\
    let m2 := new_data_mem (mem s1) idx e data c num in
    fetch_and_confirm_data_page idx e (2 ^ c) c num s = Ret data (set_mem m2 s1) /\
    ps_inv ({[data]} ∪ owned) (set_mem m2 s1).
Proof.
  intros Hi Hidx He Hz. destruct (owned_elem _ _ idx e Hi Hidx He) as [Ee Ve].
  unfold fetch_and_confirm_data_page. rewrite Ee, (bind_Ret _ _ _ _ _ (load64_eq _ _ Ve)), Hz.
  cbn [Z.eqb when]. destruct (ps_alloc owned s Hi) as [Ep|(data & s1 & Ep & Hnew & Hi1)].
  { left. unfold new_data_page, mbind, M_bind. by rewrite Ep. }
  right. exists data, s1. do 2 (split; [done|]). pose proof (np_block _ _ _ _ Hnew) as Hb.
  pose proof (np_fresh _ _ _ _ Hnew) as Hf. destruct Hb as (Hb1 & Hb2 & Hb3).
  assert (forall k, 0 <= k < 512 -> elem64 data k = data + 8 * k /\ valid64 (data + 8 * k)) as Hd.
  { intros k Hk. apply (owned_elem ({[data]} ∪ owned) s1); [done|set_solver|done]. }
  assert (data <> idx) as Hne by (intros ->; done).
  pose proof (pages_apart data idx (np_aligned _ _ _ _ Hnew) (proj2 (ps_page _ _ _ Hi Hidx)) Hne) as Hap.
  unfold apart, KERNEL_VMA_START, KERNEL_PAGE_SIZE in *. cbv zeta. split.
  - rewrite bind_assoc. unfold new_data_page. rewrite (bind_Ret _ _ _ _ _ Ep).
    rewrite bind_assoc, (bind_Ret _ _ _ _ _ (store64_eq _ _ _ Ve)).
    rewrite bind_assoc, (bind_Ret _ _ _ _ _ (load64_eq _ _ Ve)). cbn [mem set_mem].
    rewrite rd_wr_eq, wrap64_small by lia.
    destruct (Hd 0 ltac:(lia)) as [-> V0], (Hd 1 ltac:(lia)) as [-> V1], (Hd 2 ltac:(lia)) as [-> V2].
    rewrite bind_assoc, (bind_Ret _ _ _ _ _ (store64_eq _ _ _ V0)).
    rewrite bind_assoc, (bind_Ret _ _ _ _ _ (store64_eq _ _ _ V1)).
    rewrite (bind_Ret _ _ _ _ _ (store64_eq _ _ _ V2)).
    rewrite (load64_eq _ _ Ve). cbn [mem set_mem]. rewrite !rd_wr_ne by lia.
    by rewrite rd_wr_eq, wrap64_small by lia.
  - unfold new_data_mem. apply (ps_write _ (set_mem _ s1) data 2); [|set_solver|lia].
    apply (ps_write _ (set_mem _ s1) data 1); [|set_solver|lia].
    apply (ps_write _ (set_mem _ s1) data 0); [|set_solver|lia].
    apply (ps_write _ s1 idx e); [done|set_solver|lia].
Qed.

(** The pages [owned] are as they were. *)
Definition pages_kept (owned : gset Z) (s s' : kstate) : Prop :=
  forall b k, b ∈ owned -> 0 <= k < 512 -> rd (mem s') (b + 8 * k) = rd (mem s) (b + 8 * k).

Lemma rd_new_data m idx e data c num a :
  a <> idx + 8 * e -> a < data \/ data + 24 <= a -> rd (new_data_mem m idx e data c num) a = rd m a.
Proof. intros H1 H2. unfold new_data_mem. rewrite !rd_wr_ne by lia. done. Qed.

Lemma new_data_header m idx e data c num :
  0 <= c <= 11 -> u64 num -> (idx + 8 * e < data \/ data + 24 <= idx + 8 * e) -> u64 data ->
  let m2 := new_data_mem m idx e data c num in
  rd m2 (idx + 8 * e) = data /\ rd m2 (data + 8 * 0) = 2 ^ c /\ rd m2 (data + 8 * 1) = num /\
  rd m2 (data + 8 * 2) = c.
Proof.
  intros Hc Hn Hap Hd m2. destruct (class_bounds c Hc) as (H1 & _). unfold u64 in *.
  subst m2. unfold new_data_mem. split; [|split; [|split]].
  - rewrite !rd_wr_ne, rd_wr_eq, wrap64_small by lia. done.
  - rewrite !rd_wr_ne, rd_wr_eq, wrap64_small by lia. done.
  - rewrite rd_wr_ne, rd_wr_eq, wrap64_small by lia. done.
  - rewrite rd_wr_eq, wrap64_small by lia. done.
Qed.

(** A fresh index page and data page make a class with every block free. *)
Lemma class_ready_fresh owned s0 idx s1 data s2 c :
  0 <= c <= 11 -> new_page owned s0 idx s1 -> new_page ({[idx]} ∪ owned) (set_root c idx s1) data s2 ->
  (Z.to_nat c < length (root_idx_page (allocator s0)))%nat ->
  (Z.to_nat c < length (lowest_free_entry (allocator s0)))%nat -> lowest_of s0 c = 0 ->
  let s3 := set_mem (new_data_mem (mem s2) idx 1 data c 0) s2 in
  class_ready c idx data s3 /\ forall p, 0 <= p < slots c -> slot_used (mem s3) idx p = false.
Proof.
  intros Hc H1 H2 Hroot Htab Hlow s3. destruct (class_bounds c Hc) as (B1 & B2 & _).
  assert (data <> idx) as Hne by (intros ->; apply (np_fresh _ _ _ _ H2); set_solver).
  pose proof (pages_apart idx data (np_aligned _ _ _ _ H1) (np_aligned _ _ _ _ H2) (not_eq_sym Hne)) as Hap.
  pose proof Hap as Hap'. pose proof (np_block _ _ _ _ H1) as K1. pose proof (np_block _ _ _ _ H2) as K2.
  unfold apart, KERNEL_PAGE_SIZE in Hap'.
  assert (u64 data) as Hd by (destruct K2 as (? & ? & _); unfold u64, KERNEL_VMA_START, KERNEL_PAGE_SIZE in *; lia).
  destruct (new_data_header (mem s2) idx 1 data c 0 Hc ltac:(unfold u64; lia) ltac:(lia) Hd) as (E1 & E2 & E3 & E4).
  assert (allocator s3 = allocator (set_root c idx s0)) as Ea.
  { change (allocator s3) with (allocator s2). rewrite (np_rest _ _ _ _ H2). cbn.
    rewrite (np_rest _ _ _ _ H1). done. }
  split.
  - split; try done.
    + unfold root_of. rewrite Ea. cbn. by apply nth_lookup_Some, list_lookup_insert_eq.
    + rewrite Ea. done.
    + apply (np_aligned _ _ _ _ H2).
    + unfold lowest_of. rewrite Ea. unfold lowest_of in Hlow. cbn. lia.
  - intros p Hp. unfold slot_used, slot_word, s3. cbn [mem set_mem].
    rewrite rd_new_data by dlia.
    rewrite (np_frame _ _ _ _ H2 idx (2 + p / 64)) by first [dlia | set_solver]. cbn [mem set_root set_allocator].
    rewrite (np_zero _ _ _ _ H1) by dlia. apply Z.testbit_0_l.
Qed.

(** The state in which the first block has been taken. *)
Definition first_block (idx data c : Z) (s2 : kstate) : kstate :=
  take_slot c idx 0 (set_mem (new_data_mem (mem s2) idx 1 data c 0) s2).

Lemma first_block_inv owned idx data c s2 :
  ps_inv ({[data]} ∪ ({[idx]} ∪ owned)) (set_mem (new_data_mem (mem s2) idx 1 data c 0) s2) ->
  ps_inv ({[data; idx]} ∪ owned) (first_block idx data c s2).
Proof.
  unfold first_block. set (s3 := set_mem _ s2). intros Hi3.
  apply (ps_same _ (set_mem (take_slot_mem idx 0 (mem s3)) s3)); [|by rewrite mem_take_slot|].
  - unfold take_slot_mem, slot_word. rewrite <- (assoc_L (∪)).
    apply (ps_write _ s3 idx 2); [done|set_solver|lia].
  - unfold take_slot, raise_lowest. by destruct (_ <? _).
Qed.

Lemma first_block_kept owned s idx s1 data s2 c :
  ps_inv owned s -> new_page owned s idx s1 -> new_page ({[idx]} ∪ owned) (set_root c idx s1) data s2 ->
  pages_kept owned s (first_block idx data c s2).
Proof.
  intros Hi H1 H2 b k Hb Hk. unfold first_block. rewrite mem_take_slot. unfold take_slot_mem, slot_word.
  destruct (ps_page _ _ _ Hi Hb) as [Hbk Hba].
  assert (b <> idx /\ b <> data) as [N1 N2].
  { split; intros ->; [by apply (np_fresh _ _ _ _ H1)|apply (np_fresh _ _ _ _ H2); set_solver]. }
  pose proof (pages_apart b idx Hba (np_aligned _ _ _ _ H1) N1) as A1.
  pose proof (pages_apart b data Hba (np_aligned _ _ _ _ H2) N2) as A2.
  unfold apart, KERNEL_PAGE_SIZE in A1, A2.
  rewrite rd_wr_ne by (change (0 / 64) with 0; lia). cbn [mem set_mem].
  rewrite rd_new_data, (np_frame _ _ _ _ H2) by first [lia | by apply elem_of_union_r].
  cbn [mem set_root set_allocator]. by apply (np_frame _ _ _ _ H1).
Qed.

(** The first request of a class takes two pages of the page allocator,
    one for the index and one for the blocks, and returns the first block of
    the latter; the pages the caller holds keep their contents. It panics only
    when the pages have run out. *)
Theorem mem_alloc_first_use owned s n c :
  ps_inv owned s -> size_class n = (c, 2 ^ c) -> 0 < n -> 0 <= c <= 11 ->
  root_of s c = 0 -> lowest_of s c = 0 ->
  length (root_idx_page (allocator s)) = 256%nat -> length (lowest_free_entry (allocator s)) = 256%nat ->
  mem_alloc n s = Panic "OUT_OF_FREE_PAGES" 0 0 0 \/
  exists idx data s', mem_alloc n s = Ret (slot_addr c data 0) s' /\ class_ready c idx data s' /\
    (idx ∉ owned) /\ (data ∉ owned) /\ ps_inv ({[data; idx]} ∪ owned) s' /\ pages_kept owned s s' /\
    forall p, 0 <= p < slots c -> slot_used (mem s') idx p = (p =? 0).
Proof.
  intros Hi Hc Hn Hcl Hroot Hlow L1 L2. destruct (class_bounds c Hcl) as (B1 & B2 & B3).
  unfold mem_alloc. destruct (Z.eqb_spec n 0); [lia|]. rewrite Hc.
  unfold KERNEL_PAGE_SIZE. replace (4096 <=? 2 ^ c) with false by lia.
  erewrite bind_Ret by reflexivity. rewrite Hroot. cbn [Z.eqb when]. unfold new_idx_page.
  destruct (ps_alloc owned s Hi) as [Ep|(idx & s1 & Ep & H1 & Hi1)].
  { left. rewrite bind_assoc. by apply bind_Panic. }
  rewrite bind_assoc, (bind_Ret _ _ _ _ _ Ep). erewrite bind_Ret by reflexivity.
  erewrite bind_Ret by reflexivity.
  assert (allocator s1 = allocator s) as Ea1 by (by rewrite (np_rest _ _ _ _ H1)).
  assert (root_of (set_root c idx s1) c = idx) as ->.
  { unfold root_of, set_root. cbn. apply nth_lookup_Some, list_lookup_insert_eq. rewrite Ea1. lia. }
  assert (lowest_of (set_root c idx s1) c = 0) as Hlow1.
  { unfold lowest_of, set_root. cbn. rewrite Ea1. exact Hlow. }
  rewrite (bind_Ret _ _ _ _ _ (max_cnt_class c _ Hcl)).
  erewrite bind_Ret by reflexivity. rewrite Hlow1, (Z.div_small 0 (slots c)), Z.mul_0_l by lia.
  change (wrap64 0 / max_idx_page_bitmap_entrys) with 0. erewrite bind_Ret by reflexivity.
  cbn [current_idx_page]. change (0 mod max_idx_page_bitmap_entrys + 1) with 1.
  assert (ps_inv ({[idx]} ∪ owned) (set_root c idx s1)) as Hi2 by (by eapply ps_same).
  assert (mem_alloc_page (2 ^ c) c (slots c) (mkIdx 1 idx, 0) (set_root c idx s1) =
    (data ← fetch_and_confirm_data_page idx 1 (2 ^ c) c 0;
     r ← for_until (upto 0 (slots c)) (mem_alloc_word (2 ^ c) c (slots c) 0 data) (mkIdx (2 + 0) idx);
     match r with
     | inr data_location => mret (inr data_location)
     | inl c => mret (inl (c, 0 ⊕ 1))
     end) (set_root c idx s1)) as Epage by done.
  destruct (fetch_new _ (set_root c idx s1) idx 1 c 0 Hi2 ltac:(set_solver) ltac:(lia))
    as [Ef|(data & s2 & _ & H2 & Ef & Hi3)].
  { cbn [mem set_root set_allocator]. by apply (np_zero _ _ _ _ H1). }
  { left. apply while_panic. rewrite Epage.
    by apply bind_Panic. }
  right. rewrite (bind_Ret _ _ _ _ _ Ef) in Epage.
  destruct (class_ready_fresh owned s idx s1 data s2 c Hcl H1 H2 ltac:(lia) ltac:(lia) Hlow) as [Hr Hfree].
  set (s3 := set_mem (new_data_mem (mem s2) idx 1 data c 0) s2) in *.
  assert (first_slot c (mem s3) idx 0) as Hf by (split; [lia|apply Hfree; lia|lia]).
  rewrite (bind_Ret _ _ (inr (slot_addr c data 0)) _ (take_slot c idx 0 s3)) in Epage.
  2: { apply (for_until_hit (fun i => mkIdx (2 + i) idx) 0 (slots c) 0); [lia|lia|].
       by apply (mem_alloc_word_take _ _ _ _ Hr 0). }
  exists idx, data, (take_slot c idx 0 s3). split; [by apply while_exit|].
  split; [apply (take_slot_ready _ _ data); [done|lia]|].
  split; [apply (np_fresh _ _ _ _ H1)|]. split; [pose proof (np_fresh _ _ _ _ H2); set_solver|].
  split; [|split].
  - by apply (first_block_inv owned idx data c s2).
  - by apply (first_block_kept owned s idx s1 data s2 c).
  - intros p Hp. rewrite mem_take_slot, slot_used_take, Hfree by lia. done.
Qed.
End Fresh.

(** ** The second data page *)

Lemma ctz_from_ge fuel i x : i <= ctz_from fuel i x.
Proof.
  revert i. induction fuel as [|f IH]; intros i; cbn [ctz_from]; [lia|].
  destruct (Z.testbit x i); [lia|]. specialize (IH (i + 1)). lia.
Qed.

(** The only block of a class 11 page in use: the search goes on. *)
Lemma mem_alloc_word_11 s idx data num e :
  kblock idx KERNEL_PAGE_SIZE -> 0 <= e < 511 -> Z.testbit (rd (mem s) (idx + 8 * e)) 0 = true ->
  mem_alloc_word (2 ^ 11) 11 1 num data (mkIdx e idx) 0 s = Ret (inl (mkIdx (e + 1) idx)) s.
Proof.
  intros Hk He Hb. unfold mem_alloc_word, confirm_idx_page. cbn [current_idx_entry current_idx_page].
  change max_idx_page_bitmap_entrys with 511. replace (511 <=? e) with false by lia.
  erewrite bind_Ret by reflexivity. cbn [current_idx_entry current_idx_page].
  destruct (kblock_elem idx 512 e Hk ltac:(lia)) as [E Hv]. rewrite E in *.
  rewrite (bind_Ret _ _ _ _ _ (load64_eq _ _ Hv)), wrap64_small by lia.
  set (w := rd (mem s) (idx + 8 * e)) in *. destruct (w =? U64_MAX); [done|].
  destruct (Z.eqb_spec w 0) as [Ew|_]; [by rewrite Ew in Hb|].
  assert (1 <= ctz64 (not64 w)) as Hge.
  { unfold ctz64. cbn [ctz_from]. rewrite testbit_not64, Hb by lia. apply (ctz_from_ge 63). }
  cbv zeta. replace (1 <=? 0 * 64 + ctz64 (not64 w)) with true by lia. done.
Qed.

Lemma class_11_full s idx data :
  class_ready 11 idx data s -> slot_used (mem s) idx 0 = true ->
  mem_alloc_page (2 ^ 11) 11 (slots 11) (mkIdx 1 idx, 0) s = Ret (inl (mkIdx 3 idx, 1)) s.
Proof.
  intros Hr Hu. unfold mem_alloc_page. erewrite bind_Ret by reflexivity. cbn [current_idx_entry current_idx_page].
  rewrite (bind_Ret _ _ _ _ _ (fetch_ready _ _ _ _ Hr)). change (1 ⊕ 1) with 2. change (slots 11) with 1.
  change (upto 0 1) with [0]. cbn [for_until]. rewrite bind_assoc.
  rewrite (bind_Ret _ _ _ _ _ (mem_alloc_word_11 s idx data 0 2 (cr_idx _ _ _ _ Hr) ltac:(lia) Hu)). done.
Qed.

(** A data page numbered 1 of class 11, its block taken at entry 4. *)
Lemma mem_alloc_page_11 s idx data :
  kblock idx KERNEL_PAGE_SIZE -> kblock data KERNEL_PAGE_SIZE -> rd (mem s) (idx + 8 * 4) = 0 ->
  mem_alloc_word (2 ^ 11) 11 1 1 data (mkIdx 4 idx) 0 s =
    Ret (inr (data + 64)) (raise_lowest 11 1 (set_mem (wr (mem s) (idx + 8 * 4) 1) s)).
Proof.
  intros Hk Hd Hz. unfold mem_alloc_word, confirm_idx_page. cbn [current_idx_entry current_idx_page].
  erewrite bind_Ret by reflexivity. cbn [current_idx_entry current_idx_page].
  destruct (kblock_elem idx 512 4 Hk ltac:(lia)) as [E Hv]. rewrite E in *.
  rewrite (bind_Ret _ _ _ _ _ (load64_eq _ _ Hv)), Hz. change (0 =? U64_MAX) with false. cbn [Z.eqb negb].
  change (0 * 64 + 0) with 0. change (1 <=? 0) with false. change (Z.land 0 (BIT 0)) with 0. cbn [Z.eqb negb].
  cbv zeta. change (set_bit 0 0) with 1. rewrite (bind_Ret _ _ _ _ _ (store64_eq _ _ _ Hv)).
  change ((1 ⊗ 1) ⊕ 0) with 1. change (2 ^ 11 ⊗ 0) with 0. rewrite Z.add_0_r.
  destruct Hd as (D1 & D2 & _). unfold KERNEL_VMA_START, KERNEL_PAGE_SIZE in *.
  rewrite (wrap64_small data), wrap64_small by lia.
  erewrite bind_Ret by reflexivity. unfold raise_lowest, when. by destruct (lowest_of _ 11 <? 1).
Qed.

(** What [mem_free] does with a block of that page. *)
Lemma mem_free_11 s idx data :
  root_of s 11 = idx -> kblock idx KERNEL_PAGE_SIZE -> kblock data KERNEL_PAGE_SIZE ->
  data mod KERNEL_PAGE_SIZE = 0 -> rd (mem s) (data + 8 * 0) = 2 ^ 11 -> rd (mem s) (data + 8 * 1) = 1 ->
  rd (mem s) (data + 8 * 2) = 11 -> rd (mem s) (idx + 8 * 11) = 0 ->
  mem_free (data + 64) s = Panic "ALLOCATOR_RELEASE_FREE" 0 0 0.
Proof.
  intros Hroot Hk Hd Hal E0 E1 E2 Hz. unfold KERNEL_PAGE_SIZE in Hal.
  pose proof Hd as (D1 & D2 & _). unfold KERNEL_VMA_START, KERNEL_PAGE_SIZE in D1, D2.
  assert (ROUND_MOD_DOWN (data + 64) 4096 = data) as Eh.
  { unfold ROUND_MOD_DOWN. assert ((data + 64) / 4096 = data / 4096) as -> by dlia.
    rewrite wrap64_small; dlia. }
  unfold mem_free. change (ROUND_MOD_DOWN (data + 64) KERNEL_PAGE_SIZE) with (ROUND_MOD_DOWN (data + 64) 4096).
  rewrite Eh. cbv zeta.
  destruct (kblock_elem data 512 0 Hd ltac:(lia)) as [-> V0].
  destruct (kblock_elem data 512 1 Hd ltac:(lia)) as [-> V1].
  destruct (kblock_elem data 512 2 Hd ltac:(lia)) as [-> V2].
  destruct (kblock_elem idx 512 11 Hk ltac:(lia)) as [Ei Vi]. rewrite Ei in Vi.
  rewrite (bind_Ret _ _ _ _ _ (load64_eq _ _ V0)), (bind_Ret _ _ _ _ _ (load64_eq _ _ V1)),
    (bind_Ret _ _ _ _ _ (load64_eq _ _ V2)), E0, E1, E2.
  rewrite (bind_Ret _ _ _ _ _ (max_cnt_class 11 s ltac:(lia))).
  assert (((data + 64 ⊖ data) ⊖ 64) / 2 ^ 11 = 0) as ->.
  { replace (data + 64 - data) with 64 by lia. done. }
  change (256 <=? 11) with false. cbv iota. erewrite bind_Ret by reflexivity. rewrite Hroot.
  assert (idx <> 0) by (destruct Hk; unfold KERNEL_VMA_START in *; lia).
  destruct (Z.eqb_spec idx 0); [done|].
  change (slots 11) with 1. change (((ROUND_MOD_UP 1 64 / 8) ⊕ 1)) with 9.
  change (0 / 64 ⊕ (1 ⊗ 9) ⊕ 1) with 10. change (10 / max_idx_page_bitmap_entrys) with 0.
  change (10 mod max_idx_page_bitmap_entrys + 1) with 11.
  erewrite bind_Ret by reflexivity. rewrite Ei, (bind_Ret _ _ _ _ _ (load64_eq _ _ Vi)), Hz. done.
Qed.

(** The second block of class 11 (requests of 1025 to 2048 bytes) comes
    from a second data page, and [mem_free] looks for its bit in the wrong
    word: the block cannot be freed. *)
Theorem second_page_block_not_freeable {PS : PageSource pg_alloc} owned s idx data n :
  ps_inv owned s -> idx ∈ owned -> class_ready 11 idx data s -> 1024 < n <= 2048 ->
  slot_used (mem s) idx 0 = true ->
  (forall k, 3 <= k < 512 -> rd (mem s) (idx + 8 * k) = 0) ->
  mem_alloc n s = Panic "OUT_OF_FREE_PAGES" 0 0 0 \/
  exists a s', mem_alloc n s = Ret a s' /\ mem_free a s' = Panic "ALLOCATOR_RELEASE_FREE" 0 0 0.
Proof.
  intros Hi Hidx Hr Hn Hu Hz.
  assert (size_class n = (11, 2 ^ 11)) as Hc.
  { destruct (size_class_spec n ltac:(lia)) as (c & -> & Hc & Hle & Hgt).
    assert (c = 11) as ->; [|done]. destruct (Z.lt_trichotomy c 11) as [H|[H|H]]; [|done|].
    - pose proof (Z.pow_le_mono_r 2 c 10 ltac:(lia) ltac:(lia)). change (2 ^ 10) with 1024 in *. lia.
    - destruct Hgt as [->|Hgt]; [lia|].
      pose proof (Z.pow_le_mono_r 2 11 (c - 1) ltac:(lia) ltac:(lia)). change (2 ^ 11) with 2048 in *. lia. }
  rewrite (mem_alloc_start _ _ _ _ Hr) by (done || lia).
  assert (mem_alloc_page (2 ^ 11) 11 (slots 11) (mkIdx 3 idx, 1) s =
    (data ← fetch_and_confirm_data_page idx 3 (2 ^ 11) 11 1;
     r ← for_until (upto 0 1) (mem_alloc_word (2 ^ 11) 11 1 1 data) (mkIdx 4 idx);
     match r with
     | inr data_location => mret (inr data_location)
     | inl c => mret (inl (c, 1 ⊕ 1))
     end) s) as Epage by done.
  destruct (fetch_new owned s idx 3 11 1 Hi Hidx ltac:(lia) (Hz 3 ltac:(lia)))
    as [Ef|(data2 & s2 & _ & H2 & Ef & _)].
  { left. rewrite (bind_Panic _ _ _ _ _ _ _ Ef) in Epage.
    erewrite while_second; [|by apply (class_11_full _ _ data)|by rewrite Epage]. by apply while_panic. }
  right. pose proof (np_block _ _ _ _ H2) as Kd. pose proof (cr_idx _ _ _ _ Hr) as Ki.
  assert (data2 <> idx) as Hne by (intros ->; by apply (np_fresh _ _ _ _ H2)).
  destruct (ps_page _ _ _ Hi Hidx) as [_ Hia].
  pose proof (pages_apart data2 idx (np_aligned _ _ _ _ H2) Hia Hne) as Hap. unfold apart, KERNEL_PAGE_SIZE in Hap.
  assert (u64 data2) as Hd by (destruct Kd as (? & ? & _); unfold u64, KERNEL_VMA_START, KERNEL_PAGE_SIZE in *; lia).
  destruct (new_data_header (mem s2) idx 3 data2 11 1 ltac:(lia) ltac:(unfold u64; lia) ltac:(lia) Hd)
    as (_ & E2 & E3 & E4).
  set (s3 := set_mem (new_data_mem (mem s2) idx 3 data2 11 1) s2) in *.
  assert (forall k, 4 <= k < 512 -> rd (mem s3) (idx + 8 * k) = 0) as Hz3.
  { intros k Hk. unfold s3. cbn [mem set_mem]. rewrite rd_new_data, (np_frame _ _ _ _ H2) by first [lia|done].
    apply Hz. lia. }
  pose proof (mem_alloc_page_11 s3 idx data2 Ki Kd (Hz3 4 ltac:(lia))) as Ew.
  rewrite (bind_Ret _ _ _ _ _ Ef) in Epage. change (upto 0 1) with [0] in Epage. cbn [for_until] in Epage.
  rewrite bind_assoc, (bind_Ret _ _ _ _ _ Ew) in Epage.
  exists (data2 + 64). eexists. split.
  - erewrite while_second; [|by apply (class_11_full _ _ data)|by rewrite Epage]. apply while_exit. exact Epage.
  - assert (forall x, mem (raise_lowest 11 1 x) = mem x /\ root_of (raise_lowest 11 1 x) 11 = root_of x 11) as Hraise
      by (intros x; unfold raise_lowest; by destruct (_ <? _)).
    apply (mem_free_11 _ idx); rewrite ?(proj1 (Hraise _)), ?(proj2 (Hraise _)); cbn [mem set_mem];
      try (rewrite rd_wr_ne by lia); try done.
    + unfold root_of, s3. cbn. rewrite (np_rest _ _ _ _ H2). apply (cr_root _ _ _ _ Hr).
    + apply (np_aligned _ _ _ _ H2).
    + apply Hz3. lia.
Qed.

(** ** Requests that are refused *)

(** [mem_alloc] of nothing panics, and so does every request of more than
    half a page, up to 2^63. *)
Theorem mem_alloc_refuses n s :
  mem_alloc 0 s = Panic "ATTEMPT_ALLOCATE_ZERO_BYTES" 0 0 0 /\
  (2048 < n <= 9223372036854775808 ->
   exists pow2, mem_alloc n s = Panic "ATTEMPT_ALLOCATE_LARGER_THEN_PAGE" pow2 0 0 /\ n <= pow2).
Proof.
  split; [done|]. intros Hn.
  destruct (size_class_spec n ltac:(lia)) as (c & Ec & Hc & Hle & Hgt). exists (2 ^ c).
  unfold mem_alloc. destruct (Z.eqb_spec n 0); [lia|]. rewrite Ec.
  assert (KERNEL_PAGE_SIZE <= 2 ^ c) as Hp.
  { assert (12 <= c); [|apply (Z.pow_le_mono_r 2 12 c); lia].
    destruct (Z.lt_ge_cases c 12) as [Hlt|]; [|done].
    pose proof (Z.pow_le_mono_r 2 c 11 ltac:(lia) ltac:(lia)). change (2 ^ 11) with 2048 in *. lia. }
  by replace (KERNEL_PAGE_SIZE <=? 2 ^ c) with true by lia.
Qed.

(** ** The bump allocator *)

Record bump_inv (owned : gset Z) (s : kstate) : Prop := {
  bi_page : bump_page (allocator s) ∈ owned;
  bi_cnt : 0 <= bump_cnt (allocator s) <= KERNEL_PAGE_SIZE;
  bi_aligned : bump_cnt (allocator s) mod 8 = 0;
}.

Lemma ROUND_MOD_UP_8 n :
  0 <= n <= 4096 -> n <= ROUND_MOD_UP n 8 <= 4096 /\ ROUND_MOD_UP n 8 < n + 8 /\ ROUND_MOD_UP n 8 mod 8 = 0.
Proof. intros Hn. unfold ROUND_MOD_UP. rewrite (wrap64_small (n + (8 - 1))), wrap64_small by dlia. dlia. Qed.

(** [bump_alloc] returns 8-aligned memory inside one page, beyond all it
    gave out of that page before; the page is the current one, or a new one
    when the request would reach its end. Larger requests than a page panic. *)
Theorem bump_alloc_block {PS : PageSource pg_alloc} owned s n :
  ps_inv owned s -> bump_inv owned s -> 0 <= n ->
  if KERNEL_PAGE_SIZE <? n then bump_alloc n s = Panic "ALLOCATOR_BUMP_LARGER_THEN_PAGE" 0 0 0 else
  bump_alloc n s = Panic "OUT_OF_FREE_PAGES" 0 0 0 \/
  exists a owned' s', bump_alloc n s = Ret a s' /\ ps_inv owned' s' /\ bump_inv owned' s' /\ owned ⊆ owned' /\
    let page := bump_page (allocator s') in
    page <= a /\ a + n <= page + KERNEL_PAGE_SIZE /\ a mod 8 = 0 /\
    page + bump_cnt (allocator s') = a + ROUND_MOD_UP n 8 /\
    (page = bump_page (allocator s) /\ a = page + bump_cnt (allocator s) /\ mem s' = mem s \/
     (page ∉ owned) /\ a = page).
Proof.
  intros Hi [Hpage Hcnt Hal] Hn. unfold bump_alloc. destruct (Z.ltb_spec KERNEL_PAGE_SIZE n); [done|].
  unfold KERNEL_PAGE_SIZE in *. kstep. rewrite wrap64_small by lia.
  destruct (ROUND_MOD_UP_8 n ltac:(lia)) as (R1 & R2 & R3).
  destruct (Z.leb_spec 4096 (bump_cnt (allocator s) + n)) as [Hfull|Hfits]; cbn [when].
  - destruct (ps_alloc owned s Hi) as [Ep|(p & s1 & Ep & Hnew & Hi1)].
    { left. rewrite bind_assoc. by apply bind_Panic. }
    right. rewrite bind_assoc, (bind_Ret _ _ _ _ _ Ep). kstep. kstep. kstep.
    destruct (np_block _ _ _ _ Hnew) as (B1 & B2 & B3). unfold KERNEL_VMA_START, KERNEL_PAGE_SIZE in *.
    cbn [bump_page bump_cnt set_bump allocator set_allocator].
    rewrite Z.add_0_r, Z.add_0_l, wrap64_small, (wrap64_small (ROUND_MOD_UP n 8)) by lia.
    exists p, ({[p]} ∪ owned). eexists. split; [done|]. split; [by eapply ps_same|].
    split; [split; cbn; [set_solver|unfold KERNEL_PAGE_SIZE; lia|done]|].
    split; [set_solver|]. cbn. split; [lia|]. split; [lia|]. split; [done|]. split; [done|]. right.
    split; [apply (np_fresh _ _ _ _ Hnew)|done].
  - right. erewrite bind_Ret by reflexivity. kstep. kstep. destruct (ps_page _ _ _ Hi Hpage) as [(B1 & B2 & B3) _].
    unfold KERNEL_VMA_START, KERNEL_PAGE_SIZE in *.
    rewrite (wrap64_small (bump_page _ + _)), wrap64_small by lia.
    exists (bump_page (allocator s) + bump_cnt (allocator s)), owned. eexists. split; [done|].
    split; [by eapply ps_same|].
    split; [split; cbn; [done|unfold KERNEL_PAGE_SIZE; dlia|by rewrite Z.add_mod, Hal, R3]|].
    split; [done|]. cbn. split; [lia|]. split; [lia|]. split; [dlia|]. split; [lia|]. left. done.
Qed.

(** ** Witnesses

    Class 4 (blocks of 16 bytes) with slots 0 and 1 in use, and class 11 with
    its only block in use. *)
Definition demo_idx : Z := demo_table + 4096.
Definition demo_data : Z := demo_table + 8192.

Definition demo_class (c used : Z) : kstate :=
  set_allocator (mkAllocator 0 0 (<[Z.to_nat c := demo_idx]> (replicate 256 0)) (replicate 256 0))
    (set_mem (write_words (write_words ∅ demo_idx [0; demo_data; used]) demo_data [2 ^ c; 0; c]) zero_state).

Lemma demo_class_ready c used :
  c = 4 \/ c = 11 -> class_ready c demo_idx demo_data (demo_class c used).
Proof.
  intros [-> | ->]; (split; try (unfold kblock, apart); first [zdone | (vm_compute; lia)]).
Qed.

Lemma mem_alloc_first_fit_witness :
  exists s', mem_alloc 12 (demo_class 4 3) = Ret (demo_data + 64 + 32) s'.
Proof.
  destruct (mem_alloc_first_fit 4 demo_idx demo_data (demo_class 4 3) 12 2
    (demo_class_ready 4 3 ltac:(by left)) eq_refl ltac:(lia)) as (s' & E & _).
  - split; [vm_compute; done|reflexivity|]. intros q Hq. assert (q = 0 \/ q = 1) as [-> | ->] by lia; reflexivity.
  - exact (ex_intro _ s' E).
Defined.

Lemma mem_free_block_witness :
  exists s', mem_free (demo_data + 64 + 16 + 5) (demo_class 4 3) = Ret tt s'.
Proof.
  destruct (mem_free_block 4 demo_idx demo_data (demo_class 4 3) 1 5
    (demo_class_ready 4 3 ltac:(by left)) ltac:(zdone) ltac:(lia)) as (s' & E & _).
  exact (ex_intro _ s' E).
Defined.

(** The class 11 pages are given out by the demo pager. *)
Definition demo_pager_lists : kstate :=
  set_allocator (mkAllocator 0 0 (replicate 256 0) (replicate 256 0)) demo_pager.

Lemma demo_lists_owned : ps_inv ∅ demo_pager_lists.
Proof. apply (ps_same ∅ demo_pager); [exact demo_owned|done|done]. Qed.

Lemma mem_alloc_first_use_witness :
  mem_alloc 12 demo_pager_lists = Panic "OUT_OF_FREE_PAGES" 0 0 0 \/
  exists a s', mem_alloc 12 demo_pager_lists = Ret a s' /\ exists owned, ps_inv owned s'.
Proof.
  destruct (mem_alloc_first_use ∅ demo_pager_lists 12 4 demo_lists_owned eq_refl ltac:(lia) ltac:(lia)
    eq_refl eq_refl eq_refl eq_refl) as [E|(idx & data & s' & E & _ & _ & _ & Hi & _)].
  - by left.
  - right. exists (slot_addr 4 data 0), s'. split; [exact E|]. exists ({[data; idx]} ∪ ∅). exact Hi.
Defined.

Lemma mem_alloc_refuses_witness :
  exists pow2, mem_alloc 2049 zero_state = Panic "ATTEMPT_ALLOCATE_LARGER_THEN_PAGE" pow2 0 0.
Proof.
  destruct (proj2 (mem_alloc_refuses 2049 zero_state) ltac:(lia)) as (pow2 & E & _).
  exact (ex_intro _ pow2 E).
Defined.

Definition demo_bump : kstate := set_bump (demo_table + 4096) 8 demo_taken.

Lemma demo_taken_owned : ps_inv {[demo_table + 4096]} demo_taken.
Proof.
  exists [demo_region]. split; [exact demo_taken_inv|]. intros a Ha. apply elem_of_singleton in Ha as ->.
  exists 0%nat, demo_region, 0. split; [done|]. split; [zdone|]. split; [done|]. exact demo_taken_used.
Qed.

Lemma bump_alloc_block_witness :
  bump_alloc 24 demo_bump = Panic "OUT_OF_FREE_PAGES" 0 0 0 \/
  exists a s', bump_alloc 24 demo_bump = Ret a s' /\ a mod 8 = 0.
Proof.
  destruct (bump_alloc_block {[demo_table + 4096]} demo_bump 24) as [E|(a & o & s' & E & _ & _ & _ & _ & _ & Ha & _)].
  - by apply (ps_same _ demo_taken); [exact demo_taken_owned|..].
  - split; [by apply elem_of_singleton|zdone|zdone].
  - lia.
  - by left.
  - right. exact (ex_intro _ a (ex_intro _ s' (conj E Ha))).
Defined.

(** Class 11 with its block in use, on pages 0 and 1 of the demo pager. *)
Definition demo_full : kstate :=
  set_pager (mkPager demo_table 0 1)
    (set_mem (write_words (write_words (mem (demo_class 11 1)) demo_table [1; 128; demo_table + 256; demo_table + 4096])
                (demo_table + 256) [3]) (demo_class 11 1)).

Lemma demo_full_inv : pager_inv [demo_region] demo_full.
Proof.
  split; [exact demo_layout| |].
  - split; [zdone|]. intros [|i] r Hr; [injection Hr as <-|done]. unfold table_entry; zdone.
  - split; [zdone|]. intros [|i] r p Hr Hp Hb; [injection Hr as <-|done].
    unfold allocatable in Hp. assert (p = 0) as -> by (destruct Hb as [Hb|Hb]; cbn in *; lia). reflexivity.
Qed.

Lemma demo_full_owned : ps_inv {[demo_idx; demo_data]} demo_full.
Proof.
  exists [demo_region]. split; [exact demo_full_inv|]. intros a Ha.
  apply elem_of_union in Ha as [Ha|Ha]; apply elem_of_singleton in Ha as ->;
    [exists 0%nat, demo_region, 0|exists 0%nat, demo_region, 1];
    (split; [done|]; split; [zdone|]; split; [done|reflexivity]).
Qed.

Lemma demo_full_ready : class_ready 11 demo_idx demo_data demo_full.
Proof. split; try (unfold kblock, apart); first [zdone | (vm_compute; lia)]. Qed.

Lemma demo_full_tail k : 3 <= k < 512 -> rd (mem demo_full) (demo_idx + 8 * k) = 0.
Proof.
  intros Hk. unfold demo_full, demo_class, demo_idx, demo_data. cbn [mem set_mem set_pager set_allocator].
  rewrite !rd_write_words_out by (cbn [length]; unfold demo_idx, demo_data; lia). done.
Qed.

Lemma second_page_block_not_freeable_witness :
  mem_alloc 2000 demo_full = Panic "OUT_OF_FREE_PAGES" 0 0 0 \/
  exists a s', mem_alloc 2000 demo_full = Ret a s' /\ mem_free a s' = Panic "ALLOCATOR_RELEASE_FREE" 0 0 0.
Proof.
  exact (second_page_block_not_freeable {[demo_idx; demo_data]} demo_full demo_idx demo_data 2000 demo_full_owned
    (elem_of_union_l _ _ _ (proj2 (elem_of_singleton _ _) eq_refl)) demo_full_ready ltac:(lia) eq_refl demo_full_tail).
Defined.
