(* ===== verification/Blocks.v ===== *)
(** * What the block allocator promises its clients

    A client holds a set of words; writing to them does not disturb the
    allocator, a new block holds none of them, and giving a block back leaves
    the others as they are.  [bs_room k n] says that [k] requests of [n] bytes
    can be served. *)
From S2P Require Import Prelude Machine Pager Pages Allocator.

(** The words of [n] bytes at [a]. *)
Definition block_words (a n : Z) : gset Z := list_to_set ((fun k => a + 8 * k) <$> upto 0 (n / 8)).

Lemma elem_of_block_words a n w :
  w ∈ block_words a n <-> exists k, 0 <= k < n / 8 /\ w = a + 8 * k.
Proof.
  unfold block_words. rewrite elem_of_list_to_set, list_elem_of_fmap. split.
  - intros (k & -> & Hk). apply elem_of_upto in Hk. by exists k.
  - intros (k & Hk & ->). exists k. split; [done|]. by apply elem_of_upto.
Qed.

(** What is known of a new block [a] of [n] bytes. *)
Record new_block (words : gset Z) (s : kstate) (n a : Z) (s' : kstate) : Prop := {
  nb_block : kblock a n;
  nb_fresh w : w ∈ block_words a n -> w ∉ words;
  nb_frame w : w ∈ words -> rd (mem s') w = rd (mem s) w;
  nb_rest : s' = set_mem (mem s') (set_pager (pager s') (set_allocator (allocator s') s));
}.

Class BlockSource (alloc : Z -> M Z) (free : Z -> M unit) := {
  bs_inv : gset Z -> gset Z -> kstate -> Prop;    (* the blocks and the words held *)
  bs_room : nat -> Z -> kstate -> Prop;
  bs_alloc blocks words s k n :
    bs_inv blocks words s -> bs_room (S k) n s ->
    exists a s', alloc n s = Ret a s' /\ new_block words s n a s' /\
      bs_inv ({[a]} ∪ blocks) (block_words a n ∪ words) s' /\ bs_room k n s';
  bs_free blocks words s a :
    bs_inv blocks words s -> a ∈ blocks ->
    exists s', free a s = Ret tt s' /\ (forall w, w ∈ words -> rd (mem s') w = rd (mem s) w) /\
      s' = set_mem (mem s') (set_pager (pager s') (set_allocator (allocator s') s));
  bs_write blocks words s w v :
    bs_inv blocks words s -> w ∈ words ->
    bs_inv blocks words (set_mem (wr (mem s) w v) s) /\
    forall k n, bs_room k n s -> bs_room k n (set_mem (wr (mem s) w v) s);
  bs_word blocks words s w : bs_inv blocks words s -> w ∈ words -> valid64 w;
}.

(** ** The block allocator keeps the promise, within the first data page *)

Section ClassBlocks.
Context (c : Z) (Hc : 3 <= c <= 11).

(** A word a client may hold: outside the index page and, in the data page,
    only in a block in use. *)
Definition client_word (idx data : Z) (s : kstate) (w : Z) : Prop :=
  valid64 w /\ (w < idx \/ idx + KERNEL_PAGE_SIZE <= w) /\
  (data <= w < data + KERNEL_PAGE_SIZE -> exists p, 0 <= p < slots c /\
     slot_addr c data p <= w < slot_addr c data p + 2 ^ c /\ slot_used (mem s) idx p = true).

Definition class_inv (blocks words : gset Z) (s : kstate) : Prop :=
  exists idx data, class_ready c idx data s /\ (forall w, w ∈ words -> client_word idx data s w) /\
    forall a, a ∈ blocks -> exists p, 0 <= p < slots c /\ a = slot_addr c data p /\
      slot_used (mem s) idx p = true.

Definition free_slots (m : gmap Z Z) (idx : Z) : list Z :=
  filter (fun p => slot_used m idx p = false) (upto 0 (slots c)).

Definition class_room (k : nat) (n : Z) (s : kstate) : Prop :=
  size_class n = (c, 2 ^ c) /\ 0 < n <= 2 ^ c /\
  exists idx data, class_ready c idx data s /\ (k <= length (free_slots (mem s) idx))%nat.

Lemma class_ready_unique idx data idx' data' s :
  class_ready c idx data s -> class_ready c idx' data' s -> idx' = idx /\ data' = data.
Proof.
  intros H1 H2. assert (idx' = idx) as -> by (rewrite <- (cr_root _ _ _ _ H1); symmetry; apply (cr_root _ _ _ _ H2)).
  split; [done|]. rewrite <- (cr_ptr _ _ _ _ H1). symmetry. apply (cr_ptr _ _ _ _ H2).
Qed.

Lemma slot_apart data p q w :
  0 <= p -> 0 <= q -> slot_addr c data p <= w < slot_addr c data p + 2 ^ c ->
  slot_addr c data q <= w < slot_addr c data q + 2 ^ c -> p = q.
Proof. unfold slot_addr. assert (0 < 2 ^ c) by (apply Z.pow_pos_nonneg; lia). nia. Qed.

Lemma slot_aligned data p : data mod KERNEL_PAGE_SIZE = 0 -> slot_addr c data p mod 8 = 0.
Proof.
  intros Hd. unfold slot_addr, KERNEL_PAGE_SIZE in *.
  replace (2 ^ c) with (8 * 2 ^ (c - 3)) by (change 8 with (2 ^ 3); rewrite <- Z.pow_add_r by lia; f_equal; lia).
  replace (data + 64 + 8 * 2 ^ (c - 3) * p) with (data + 8 * (8 + 2 ^ (c - 3) * p)) by lia.
  generalize (2 ^ (c - 3) * p). intros x. dlia.
Qed.

Lemma count_same (P Q : Z -> bool) (l : list Z) :
  (forall q, q ∈ l -> Q q = P q) ->
  length (filter (fun q => P q = false) l) = length (filter (fun q => Q q = false) l).
Proof.
  induction l as [|x l IH]; intros HQ; [done|]. rewrite !filter_cons, (HQ x) by set_solver.
  destruct (decide (P x = false)); cbn [length]; [f_equal|]; apply IH; set_solver.
Qed.

Lemma count_remove (P Q : Z -> bool) (l : list Z) p :
  NoDup l -> p ∈ l -> P p = false -> Q p = true -> (forall q, q ∈ l -> q <> p -> Q q = P q) ->
  length (filter (fun q => P q = false) l) = S (length (filter (fun q => Q q = false) l)).
Proof.
  induction l as [|x l IH]; intros Hnd Hp HP HQp HQ; [by apply elem_of_nil in Hp|].
  apply list.NoDup_cons in Hnd as [Hx Hnd]. rewrite !filter_cons. apply elem_of_cons in Hp as [<-|Hp].
  - rewrite decide_True by done. rewrite decide_False by congruence. cbn [length]. f_equal.
    apply count_same. intros q Hq. apply HQ; [set_solver|congruence].
  - assert (x <> p) by (intros ->; done). rewrite (HQ x) by set_solver.
    destruct (decide (P x = false)); cbn [length]; rewrite (IH Hnd Hp HP HQp); [done| |done|];
      set_solver.
Qed.

Lemma first_free_slot m idx :
  (0 < length (free_slots m idx))%nat -> exists p, first_slot c m idx p.
Proof.
  intros Hl. destruct (class_bounds c ltac:(lia)) as (_ & Hs & _).
  destruct (least_index (fun p => negb (slot_used m idx p)) (Z.to_nat (slots c)))
    as [(p & Hp & HP & Hmin)|Hnone].
  - exists p. split; [lia|by apply negb_true_iff|]. intros q Hq. by apply negb_false_iff, Hmin.
  - exfalso. unfold free_slots in Hl. destruct (filter _ _) as [|q l] eqn:E; [cbn in Hl; lia|].
    assert (q ∈ filter (fun p => slot_used m idx p = false) (upto 0 (slots c))) as Hq by (rewrite E; by left).
    apply list_elem_of_filter in Hq as [Hq Hin]. apply elem_of_upto in Hin.
    specialize (Hnone q ltac:(lia)). cbn in Hnone. by rewrite Hq in Hnone.
Qed.

Lemma take_slot_rest idx p s :
  take_slot c idx p s = set_mem (mem (take_slot c idx p s))
    (set_pager (pager (take_slot c idx p s)) (set_allocator (allocator (take_slot c idx p s)) s)).
Proof. unfold take_slot, raise_lowest. destruct (_ <? _), s; done. Qed.

Lemma free_slot_rest idx p s :
  free_slot c idx p s = set_mem (mem (free_slot c idx p s))
    (set_pager (pager (free_slot c idx p s)) (set_allocator (allocator (free_slot c idx p s)) s)).
Proof. unfold free_slot, drop_lowest. destruct (_ <? _), s; done. Qed.

Lemma free_slots_take m idx p :
  0 <= p < slots c -> slot_used m idx p = false ->
  length (free_slots m idx) = S (length (free_slots (take_slot_mem idx p m) idx)).
Proof.
  intros Hp Hf. apply (count_remove (slot_used m idx) _ _ p); [apply NoDup_seqZ|by apply elem_of_upto|done|..].
  - by rewrite slot_used_take, Z.eqb_refl, orb_true_r by lia.
  - intros q Hq Hne. apply elem_of_upto in Hq. rewrite slot_used_take by lia.
    replace (q =? p) with false by lia. by rewrite orb_false_r.
Qed.

(** Memory that agrees outside the words of clients keeps a class as it is. *)
Lemma class_ready_write idx data s w v :
  class_ready c idx data s -> client_word idx data s w ->
  class_ready c idx data (set_mem (wr (mem s) w v) s) /\
  forall p, 0 <= p < slots c -> slot_used (wr (mem s) w v) idx p = slot_used (mem s) idx p.
Proof.
  intros Hr (_ & Hidx & Hdata). pose proof (cr_apart _ _ _ _ Hr) as Hap. unfold apart in Hap.
  assert (forall k, 0 <= k < 3 -> w <> data + 8 * k) as Hhdr.
  { intros k Hk ->. destruct Hdata as (p & Hp & Hw & _); [unfold KERNEL_PAGE_SIZE; lia|].
    destruct (class_bounds c ltac:(lia)) as (? & _). unfold slot_addr in Hw. nia. }
  assert (forall a, idx <= a < idx + KERNEL_PAGE_SIZE -> rd (wr (mem s) w v) a = rd (mem s) a) as Hi
    by (intros a Ha; apply rd_wr_ne; lia).
  split.
  - destruct (Hr) as [? ? ? ? ? ? ? Hptr Hs Hn Hcode ?]. split; try done; cbn [mem set_mem].
    + rewrite Hi by (unfold KERNEL_PAGE_SIZE; lia). done.
    + rewrite rd_wr_ne by (apply Hhdr; lia). done.
    + rewrite rd_wr_ne by (apply Hhdr; lia). done.
    + rewrite rd_wr_ne by (apply Hhdr; lia). done.
  - intros p Hp. unfold slot_used. rewrite Hi; [done|].
    pose proof (slot_word_idx _ _ _ _ p Hr Hp). lia.
Qed.

Lemma class_alloc blocks words s k n :
  class_inv blocks words s -> class_room (S k) n s ->
  exists a s', mem_alloc n s = Ret a s' /\ new_block words s n a s' /\
    class_inv ({[a]} ∪ blocks) (block_words a n ∪ words) s' /\ class_room k n s'.
Proof.
  intros (idx & data & Hr & Hw & Hbl) (Hsc & Hn & idx' & data' & Hr' & Hcount).
  destruct (class_ready_unique _ _ _ _ _ Hr Hr') as [-> ->].
  destruct (first_free_slot (mem s) idx ltac:(lia)) as [p Hf]. destruct (Hf) as [Hp Hfree _].
  pose proof (mem_alloc_takes _ _ _ _ Hr n p Hsc ltac:(lia) Hf) as E.
  pose proof (take_slot_ready _ _ _ _ p Hr Hp) as Hr2.
  destruct (slot_in_page _ _ _ _ Hr p Hp) as [Hlo Hhi]. destruct (cr_data _ _ _ _ Hr) as (D1 & D2 & D3).
  pose proof (slot_aligned data p (cr_aligned _ _ _ _ Hr)) as Hal.
  assert (kblock (slot_addr c data p) n) as Hb
    by (unfold kblock, KERNEL_PAGE_SIZE in *; split; [lia|split; [lia|done]]).
  assert (forall w, w ∈ block_words (slot_addr c data p) n ->
    slot_addr c data p <= w < slot_addr c data p + 2 ^ c /\ valid64 w) as Hin.
  { intros w Hx. apply elem_of_block_words in Hx as (j & Hj & ->). split; [dlia|].
    apply (kblock_word_valid _ (n / 8)); [|done]. unfold kblock in *. dlia. }
  pose proof (cr_apart _ _ _ _ Hr) as Hap. unfold apart, KERNEL_PAGE_SIZE in Hap.
  assert (forall q, 0 <= q < slots c -> slot_used (mem (take_slot c idx p s)) idx q =
    slot_used (mem s) idx q || (q =? p)) as Hused
    by (intros q Hq; rewrite mem_take_slot; apply slot_used_take; lia).
  exists (slot_addr c data p), (take_slot c idx p s). split; [done|]. split; [split|split].
  - done.
  - intros w Hx Hword. destruct (Hin w Hx) as [Hrange _]. destruct (Hw w Hword) as (_ & _ & Hd).
    destruct Hd as (q & Hq & Hwq & Hu); [unfold KERNEL_PAGE_SIZE; lia|].
    assert (p = q) as <- by (eapply slot_apart; [| |done|done]; lia). congruence.
  - intros w Hword. destruct (Hw w Hword) as (_ & Hi & _). rewrite mem_take_slot. apply rd_wr_ne.
    pose proof (slot_word_idx _ _ _ _ p Hr Hp). lia.
  - apply take_slot_rest.
  - exists idx, data. split; [done|]. split.
    + intros w Hx. apply elem_of_union in Hx as [Hx|Hx].
      * destruct (Hin w Hx) as [Hrange Hv]. split; [done|]. split; [unfold KERNEL_PAGE_SIZE; lia|].
        intros _. exists p. split; [done|]. split; [done|]. by rewrite Hused, Z.eqb_refl, orb_true_r.
      * destruct (Hw w Hx) as (Hv & Hi & Hd). split; [done|]. split; [done|]. intros Hrange.
        destruct (Hd Hrange) as (q & Hq & Hwq & Hu). exists q. split; [done|]. split; [done|].
        by rewrite Hused, Hu.
    + intros a Ha. apply elem_of_union in Ha as [Ha|Ha].
      * apply elem_of_singleton in Ha as ->. exists p. by rewrite Hused, Z.eqb_refl, orb_true_r.
      * destruct (Hbl a Ha) as (q & Hq & -> & Hu). exists q. by rewrite Hused, Hu.
  - split; [done|]. split; [done|]. exists idx, data. split; [done|].
    rewrite mem_take_slot. rewrite (free_slots_take (mem s) idx p) in Hcount by done. lia.
Qed.

Lemma class_write blocks words s w v :
  class_inv blocks words s -> w ∈ words ->
  class_inv blocks words (set_mem (wr (mem s) w v) s) /\
  forall k n, class_room k n s -> class_room k n (set_mem (wr (mem s) w v) s).
Proof.
  intros (idx & data & Hr & Hw & Hbl) Hword.
  destruct (class_ready_write idx data s w v Hr (Hw w Hword)) as [Hr2 Hsame]. split.
  - exists idx, data. split; [done|]. split.
    + intros x Hx. destruct (Hw x Hx) as (Hv & Hi & Hd). split; [done|]. split; [done|]. intros Hrange.
      destruct (Hd Hrange) as (q & Hq & Hwq & Hu). exists q. cbn [mem set_mem]. by rewrite Hsame.
    + intros a Ha. destruct (Hbl a Ha) as (q & Hq & -> & Hu). exists q. cbn [mem set_mem]. by rewrite Hsame.
  - intros k n (Hsc & Hn & idx' & data' & Hr' & Hcount).
    destruct (class_ready_unique _ _ _ _ _ Hr Hr') as [-> ->].
    split; [done|]. split; [done|]. exists idx, data. split; [done|]. cbn [mem set_mem].
    unfold free_slots in *. rewrite <- (count_same (slot_used (mem s) idx)); [done|].
    intros q Hq. apply elem_of_upto in Hq. by apply Hsame.
Qed.

(** The interface, for the requests of one class of at least a word. *)
#[export] Program Instance class_blocks : BlockSource mem_alloc mem_free := {|
  bs_inv := class_inv;
  bs_room := class_room;
|}.
Next Obligation. exact class_alloc. Qed.
Next Obligation.
  intros blocks words s a (idx & data & Hr & Hw & Hbl) Ha. destruct (Hbl a Ha) as (p & Hp & -> & Hu).
  exists (free_slot c idx p s). split; [|split].
  - pose proof (mem_free_eq _ _ _ _ Hr p 0 Hp) as E. rewrite Z.add_0_r, Hu in E. apply E.
    split; [done|]. apply Z.pow_pos_nonneg; lia.
  - intros w Hx. destruct (Hw w Hx) as (_ & Hi & _). rewrite mem_free_slot. apply rd_wr_ne.
    pose proof (slot_word_idx _ _ _ _ p Hr Hp). lia.
  - apply free_slot_rest.
Qed.
Next Obligation. exact class_write. Qed.
Next Obligation. intros blocks words s w (idx & data & Hr & Hw & _) Hx. by apply Hw. Qed.
End ClassBlocks.

(** The demo class 6 (blocks of 64 bytes), all free. *)
Definition demo_blocks : kstate :=
  set_allocator (mkAllocator 0 0 (<[6%nat := demo_idx]> (replicate 256 0)) (replicate 256 0))
    (set_mem (write_words (write_words ∅ demo_idx [0; demo_data; 0]) demo_data [2 ^ 6; 0; 6]) zero_state).

Lemma demo_blocks_ready : class_ready 6 demo_idx demo_data demo_blocks.
Proof. split; try (unfold kblock, apart); first [zdone | (vm_compute; lia)]. Qed.
