(* ===== verification/Hashmap.v ===== *)
(** * The chained hash map ([kernel/memory/hashmap.c])

    [hashmap] points to the C struct: bucket array, number of buckets, and the
    addresses of the hash and the equality function.  A leaf is a block of 64
    bytes: next leaf, key, data.  The abstract value of a bucket is the list of
    its leaves. *)
From S2P Require Import Prelude Machine Pager Pages Allocator Blocks.

(** ** The code *)

Definition builtin_num_hash (key : Z) : Z := key ⊗ 0x100000001b3.
Definition builtin_num_equal (first_key second_key : Z) : bool := first_key =? second_key.

Definition builtin_word_hash (key : Z) : M Z :=
  while_true (fun '(i, hash) =>
    c ← load8 (key ⊕ i);
    mret (if c =? 0 then inr hash
          else inl (i ⊕ 1, Z.lxor hash c ⊗ 0x100000001b3))) (0, 0x3E4C3161C5E6354A).

Definition builtin_word_equal (first_key second_key : Z) : M bool :=
  while_true (fun i =>
    a ← load8 (first_key ⊕ i);
    b ← load8 (second_key ⊕ i);
    mret (if a =? 0 then inr (a =? b) else if negb (a =? b) then inr false else inl (i ⊕ 1))) 0.

(** Calls through the two function pointers. *)
Definition call_hash (fn key : Z) : M Z :=
  syms ← gets symbols;
  if fn =? sym_num_hash syms then mret (builtin_num_hash key)
  else if fn =? sym_word_hash syms then builtin_word_hash key
  else undef "call of a bad pointer".
Definition call_equal (fn first_key second_key : Z) : M bool :=
  syms ← gets symbols;
  if fn =? sym_num_equal syms then mret (builtin_num_equal first_key second_key)
  else if fn =? sym_word_equal syms then builtin_word_equal first_key second_key
  else undef "call of a bad pointer".

(** The index of the bucket of a key. *)
Definition bucket_index (hashmap key : Z) : M Z :=
  fn ← load64 (elem64 hashmap 2);
  hash ← call_hash fn key;
  len ← load64 (elem64 hashmap 1);
  if len =? 0 then undef "division by zero" else mret (hash mod len).

Definition hashmap_insert (hashmap key data : Z) : M Z :=
  index ← bucket_index hashmap key;
  new_leaf ← mem_alloc 64;
  store64 (elem64 new_leaf 2) data ;;
  store64 (elem64 new_leaf 1) key ;;
  start ← load64 (elem64 hashmap 0);
  old ← load64 (elem64 start index);
  store64 (elem64 new_leaf 0) old ;;
  store64 (elem64 start index) new_leaf ;;
  mret 0.

(** The loop of [hashmap_remove]; its locals are [current_leaf_parent_ptr] and
    [current_leaf]. *)
Definition hashmap_remove_step (hashmap key : Z) (st : Z * Z) : M (Z * Z + Z) :=
  let '(current_leaf_parent_ptr, current_leaf) := st in
  if current_leaf =? 0 then mret (inr 0) else
  fn ← load64 (elem64 hashmap 3);
  k ← load64 (elem64 current_leaf 1);
  eq ← call_equal fn k key;
  if eq : bool then
    next ← load64 (elem64 current_leaf 0);
    store64 current_leaf_parent_ptr next ;;
    mem_free current_leaf ;;
    data ← load64 (elem64 current_leaf 2);
    mret (inr data)
  else
    parent ← load64 (elem64 current_leaf 0);
    next ← load64 (elem64 current_leaf 0);
    mret (inl (parent, next)).

Definition hashmap_remove (hashmap key : Z) : M Z :=
  index ← bucket_index hashmap key;
  start ← load64 (elem64 hashmap 0);
  current_leaf ← load64 (elem64 start index);
  while_true (hashmap_remove_step hashmap key) (current_leaf, current_leaf).

Definition hashmap_get_step (hashmap key current_leaf : Z) : M (Z + Z) :=
  if current_leaf =? 0 then mret (inr 0) else
  fn ← load64 (elem64 hashmap 3);
  k ← load64 (elem64 current_leaf 1);
  eq ← call_equal fn k key;
  if eq : bool then data ← load64 (elem64 current_leaf 2); mret (inr data)
  else next ← load64 (elem64 current_leaf 0); mret (inl next).

Definition hashmap_get (hashmap key : Z) : M Z :=
  index ← bucket_index hashmap key;
  start ← load64 (elem64 hashmap 0);
  current_leaf ← load64 (elem64 start index);
  while_true (hashmap_get_step hashmap key) current_leaf.

Definition HASHMAP_TYPE_STR : Z := 0.
Definition HASHMAP_TYPE_NUMBER : Z := 1.

Definition hashmap_create (type init_hashmap : Z) : M unit :=
  syms ← gets symbols;
  if type =? HASHMAP_TYPE_STR then
    store64 (elem64 init_hashmap 3) (sym_word_equal syms) ;;
    store64 (elem64 init_hashmap 2) (sym_word_hash syms)
  else if type =? HASHMAP_TYPE_NUMBER then
    store64 (elem64 init_hashmap 3) (sym_num_equal syms) ;;
    store64 (elem64 init_hashmap 2) (sym_num_hash syms)
  else PANIC "HASHMAP_INIT_INVALID_TYPE" type 0 0.

(** ** Number maps in memory *)

Record entry := mkEntry { e_leaf : Z; e_key : Z; e_data : Z }.

(** The leaves from [leaf] on are [es]. *)
Fixpoint chain (m : gmap Z Z) (leaf : Z) (es : list entry) : Prop :=
  match es with
  | [] => leaf = 0
  | e :: es' =>
      leaf = e_leaf e /\ kblock leaf 24 /\ rd m (leaf + 8 * 1) = e_key e /\
      rd m (leaf + 8 * 2) = e_data e /\ chain m (rd m (leaf + 8 * 0)) es'
  end.

(** A number map at [h]: its struct, [len] buckets at [start], bucket [i]
    holding the entries [bs i]. *)
Record num_map (h start len : Z) (bs : Z -> list entry) (s : kstate) : Prop := {
  nm_struct : kblock h 32;
  nm_start : rd (mem s) (h + 8 * 0) = start;
  nm_len : rd (mem s) (h + 8 * 1) = len;
  nm_hash : rd (mem s) (h + 8 * 2) = sym_num_hash (symbols s);
  nm_equal : rd (mem s) (h + 8 * 3) = sym_num_equal (symbols s);
  nm_table : kblock start (8 * len);
  nm_pos : 0 < len;
  nm_chain i : 0 <= i < len -> chain (mem s) (rd (mem s) (start + 8 * i)) (bs i);
  nm_short i : 0 <= i < len -> Z.of_nat (length (bs i)) < 18446744073709551615;
}.

Definition bucket (len key : Z) : Z := builtin_num_hash key mod len.

(** What a map gives for a key: the data of the latest entry, or 0. *)
Fixpoint assoc (es : list entry) (key : Z) : Z :=
  match es with
  | [] => 0
  | e :: es' => if e_key e =? key then e_data e else assoc es' key
  end.

Lemma chain_same m m' leaf es :
  (forall e k, e ∈ es -> 0 <= k < 3 -> rd m' (e_leaf e + 8 * k) = rd m (e_leaf e + 8 * k)) ->
  chain m leaf es -> chain m' leaf es.
Proof.
  revert leaf. induction es as [|e es IH]; intros leaf Hm; cbn [chain]; [done|].
  intros (-> & Hb & Hk & Hd & Hc). rewrite !Hm by (set_solver || lia).
  split; [done|]. split; [done|]. split; [done|]. split; [done|]. apply IH; [|done].
  intros e' k He. apply Hm. set_solver.
Qed.

Section NumMap.
Context (h start len : Z) (bs : Z -> list entry) (s : kstate) (Hm : num_map h start len bs s).

Lemma struct_elem k : 0 <= k < 4 -> elem64 h k = h + 8 * k /\ valid64 (h + 8 * k).
Proof.
  intros Hk. destruct (kblock_elem h 4 k (nm_struct _ _ _ _ _ Hm) Hk) as [E V]. rewrite E in V. done.
Qed.

Lemma bucket_range key : 0 <= bucket len key < len.
Proof. apply Z.mod_pos_bound, (nm_pos _ _ _ _ _ Hm). Qed.

Lemma bucket_elem key : elem64 start (bucket len key) = start + 8 * bucket len key /\
  valid64 (start + 8 * bucket len key).
Proof.
  destruct (kblock_elem start len _ (nm_table _ _ _ _ _ Hm) (bucket_range key)) as [E V].
  rewrite E in V. done.
Qed.

Lemma bucket_index_eq key : bucket_index h key s = Ret (bucket len key) s.
Proof.
  unfold bucket_index. destruct (struct_elem 2 ltac:(lia)) as [-> V2], (struct_elem 1 ltac:(lia)) as [-> V1].
  rewrite (bind_Ret _ _ _ _ _ (load64_eq _ _ V2)), (nm_hash _ _ _ _ _ Hm).
  assert (call_hash (sym_num_hash (symbols s)) key s = Ret (builtin_num_hash key) s) as E.
  { unfold call_hash. kstep. by rewrite Z.eqb_refl. }
  rewrite (bind_Ret _ _ _ _ _ E), (bind_Ret _ _ _ _ _ (load64_eq _ _ V1)), (nm_len _ _ _ _ _ Hm).
  pose proof (nm_pos _ _ _ _ _ Hm). by destruct (Z.eqb_spec len 0); [lia|].
Qed.

Lemma call_equal_num k key s' :
  symbols s' = symbols s -> call_equal (sym_num_equal (symbols s)) k key s' = Ret (k =? key) s'.
Proof. intros E. unfold call_equal. kstep. by rewrite E, Z.eqb_refl. Qed.

Lemma chain_nonzero m leaf e es : chain m leaf (e :: es) -> leaf <> 0.
Proof. intros (_ & Hb & _). destruct Hb. unfold KERNEL_VMA_START in *. lia. Qed.

Lemma chain_elem m leaf e es k :
  chain m leaf (e :: es) -> 0 <= k < 3 -> elem64 leaf k = leaf + 8 * k /\ valid64 (leaf + 8 * k).
Proof.
  intros (_ & Hb & _) Hk. destruct (kblock_elem leaf 3 k Hb Hk) as [E V]. rewrite E in V. done.
Qed.

(** One round of a search, on a leaf of the chain. *)
Lemma hashmap_get_round key leaf es :
  chain (mem s) leaf es ->
  hashmap_get_step h key leaf s =
    match es with
    | [] => Ret (inr 0) s
    | e :: _ => if e_key e =? key then Ret (inr (e_data e)) s else Ret (inl (rd (mem s) (leaf + 8 * 0))) s
    end.
Proof.
  intros Hc. unfold hashmap_get_step. destruct es as [|e es]; [by rewrite Hc|].
  pose proof (chain_nonzero _ _ _ _ Hc). destruct (Z.eqb_spec leaf 0); [done|].
  destruct (struct_elem 3 ltac:(lia)) as [-> V3].
  destruct (chain_elem _ _ _ _ 0 Hc ltac:(lia)) as [-> W0], (chain_elem _ _ _ _ 1 Hc ltac:(lia)) as [-> W1],
    (chain_elem _ _ _ _ 2 Hc ltac:(lia)) as [-> W2].
  destruct Hc as (_ & _ & Hk & Hd & _).
  rewrite (bind_Ret _ _ _ _ _ (load64_eq _ _ V3)), (bind_Ret _ _ _ _ _ (load64_eq _ _ W1)), Hk,
    (nm_equal _ _ _ _ _ Hm), (bind_Ret _ _ _ _ _ (call_equal_num _ key s eq_refl)).
  destruct (e_key e =? key).
  - by rewrite (bind_Ret _ _ _ _ _ (load64_eq _ _ W2)), Hd.
  - by rewrite (bind_Ret _ _ _ _ _ (load64_eq _ _ W0)).
Qed.

Lemma hashmap_get_chain key leaf es :
  chain (mem s) leaf es -> Z.of_nat (length es) < 18446744073709551615 ->
  while_true (hashmap_get_step h key) leaf s = Ret (assoc es key) s.
Proof.
  intros Hc Hl. apply wp_exact.
  apply (wp_while_bounded (fun n leaf' s' => s' = s /\ exists es', chain (mem s) leaf' es' /\
      assoc es' key = assoc es key /\ n = Z.of_nat (length es'))) with (n := Z.of_nat (length es)).
  - intros n leaf' s' (_ & es' & _ & _ & ->). lia.
  - intros n leaf' s' (-> & es' & Hc' & Ea & ->). unfold wp. rewrite (hashmap_get_round key leaf' es' Hc').
    destruct es' as [|e es']; cbn [assoc] in Ea; [by rewrite Ea|].
    destruct (e_key e =? key); [by rewrite Ea|]. exists (Z.of_nat (length es')). split; [|cbn [length]; lia].
    split; [done|]. exists es'. split; [by destruct Hc' as (_ & _ & _ & _ & ?)|done].
  - split; [done|]. by exists es.
  - lia.
Qed.

Lemma hashmap_get_eq key : hashmap_get h key s = Ret (assoc (bs (bucket len key)) key) s.
Proof.
  unfold hashmap_get. rewrite (bind_Ret _ _ _ _ _ (bucket_index_eq key)).
  destruct (struct_elem 0 ltac:(lia)) as [-> V0], (bucket_elem key) as [Eb Vb].
  rewrite (bind_Ret _ _ _ _ _ (load64_eq _ _ V0)), (nm_start _ _ _ _ _ Hm), Eb,
    (bind_Ret _ _ _ _ _ (load64_eq _ _ Vb)).
  apply hashmap_get_chain; [apply (nm_chain _ _ _ _ _ Hm), bucket_range|].
  pose proof (nm_short _ _ _ _ _ Hm _ (bucket_range key)). lia.
Qed.
End NumMap.

(** The words a map is made of, all held by its owner; its table shares none
    with its struct and its leaves. *)
Record map_owned (h start len : Z) (bs : Z -> list entry) (words : gset Z) : Prop := {
  mo_struct k : 0 <= k < 4 -> h + 8 * k ∈ words;
  mo_table k : 0 <= k < len -> start + 8 * k ∈ words;
  mo_leaf i e k : 0 <= i < len -> e ∈ bs i -> 0 <= k < 3 -> e_leaf e + 8 * k ∈ words;
  mo_table_struct i k : 0 <= i < len -> 0 <= k < 4 -> start + 8 * i <> h + 8 * k;
  mo_table_leaf j i e k : 0 <= j < len -> 0 <= i < len -> e ∈ bs i -> 0 <= k < 3 ->
    start + 8 * j <> e_leaf e + 8 * k;
}.

(** A map whose words are as they were. *)
Lemma num_map_same h start len bs words s s' :
  num_map h start len bs s -> map_owned h start len bs words ->
  (forall w, w ∈ words -> rd (mem s') w = rd (mem s) w) -> symbols s' = symbols s ->
  num_map h start len bs s'.
Proof.
  intros Hm Ho Hw Hs. destruct Hm. split; rewrite ?Hs; try done;
    try (rewrite Hw; [done|apply (mo_struct _ _ _ _ _ Ho); lia]).
  intros i Hi. rewrite Hw by (by apply (mo_table _ _ _ _ _ Ho)).
  eapply chain_same; [|by apply nm_chain0]. intros e k He Hk. apply Hw. by apply (mo_leaf _ _ _ _ _ Ho i).
Qed.

Definition push (bs : Z -> list entry) (i : Z) (e : entry) : Z -> list entry :=
  fun j => if j =? i then e :: bs j else bs j.

(** The memory after the four stores of an insertion. *)
Definition insert_mem (m : gmap Z Z) (leaf key data old start i : Z) : gmap Z Z :=
  wr (wr (wr (wr m (leaf + 8 * 2) data) (leaf + 8 * 1) key) (leaf + 8 * 0) old) (start + 8 * i) leaf.

Section Insert.
Context {BS : BlockSource mem_alloc mem_free}.
Context (h start len : Z) (bs : Z -> list entry) (blocks words : gset Z) (s : kstate).
Context (Hm : num_map h start len bs s) (Ho : map_owned h start len bs words) (Hi : bs_inv blocks words s).

Lemma insert_run key data leaf s1 :
  mem_alloc 64 s = Ret leaf s1 -> new_block words s 64 leaf s1 ->
  hashmap_insert h key data s = Ret 0 (set_mem (insert_mem (mem s1) leaf key data
    (rd (mem s) (start + 8 * bucket len key)) start (bucket len key)) s1).
Proof.
  intros Ea Hn. set (i := bucket len key). pose proof (bucket_range _ _ _ _ _ Hm key) as Hr. fold i in Hr.
  assert (forall k, 0 <= k < 8 -> elem64 leaf k = leaf + 8 * k /\ valid64 (leaf + 8 * k)) as Hl.
  { intros k Hk. destruct (kblock_elem leaf 8 k (nb_block _ _ _ _ _ Hn) Hk) as [E V]. by rewrite E in V. }
  assert (forall w, w ∈ words -> forall k, 0 <= k < 8 -> w <> leaf + 8 * k) as Hfresh.
  { intros w Hw k Hk ->. apply (nb_fresh _ _ _ _ _ Hn (leaf + 8 * k)); [|done].
    apply elem_of_block_words. by exists k. }
  assert (h + 8 * 0 ∈ words) as W0 by (apply (mo_struct _ _ _ _ _ Ho); lia).
  assert (start + 8 * i ∈ words) as Wi by (by apply (mo_table _ _ _ _ _ Ho)).
  unfold hashmap_insert. rewrite (bind_Ret _ _ _ _ _ (bucket_index_eq _ _ _ _ _ Hm key)). fold i.
  rewrite (bind_Ret _ _ _ _ _ Ea).
  destruct (Hl 2 ltac:(lia)) as [-> V2], (Hl 1 ltac:(lia)) as [-> V1], (Hl 0 ltac:(lia)) as [-> V0].
  destruct (struct_elem _ _ _ _ _ Hm 0 ltac:(lia)) as [-> U0].
  destruct (bucket_elem _ _ _ _ _ Hm key) as [Eb Ub]. fold i in Eb, Ub.
  rewrite (bind_Ret _ _ _ _ _ (store64_eq _ _ _ V2)), (bind_Ret _ _ _ _ _ (store64_eq _ _ _ V1)).
  rewrite (bind_Ret _ _ _ _ _ (load64_eq _ _ U0)). cbn [mem set_mem].
  rewrite !rd_wr_ne by (apply not_eq_sym, Hfresh; [done|lia]).
  rewrite (nb_frame _ _ _ _ _ Hn) by done. rewrite (nm_start _ _ _ _ _ Hm), Eb.
  rewrite (bind_Ret _ _ _ _ _ (load64_eq _ _ Ub)). cbn [mem set_mem].
  rewrite !rd_wr_ne by (apply not_eq_sym, Hfresh; [done|lia]). rewrite (nb_frame _ _ _ _ _ Hn) by done.
  rewrite (bind_Ret _ _ _ _ _ (store64_eq _ _ _ V0)), (bind_Ret _ _ _ _ _ (store64_eq _ _ _ Ub)). done.
Qed.

Lemma insert_map key data leaf s1 :
  new_block words s 64 leaf s1 -> u64 key -> u64 data ->
  Z.of_nat (length (bs (bucket len key))) < 18446744073709551614 ->
  let i := bucket len key in
  let s2 := set_mem (insert_mem (mem s1) leaf key data (rd (mem s) (start + 8 * i)) start i) s1 in
  num_map h start len (push bs i (mkEntry leaf key data)) s2 /\
  map_owned h start len (push bs i (mkEntry leaf key data)) (block_words leaf 64 ∪ words).
Proof.
  intros Hn Hk Hd Hshort i s2. pose proof (bucket_range _ _ _ _ _ Hm key) as Hr. fold i in Hr, Hshort.
  assert (forall w k, w ∈ words -> 0 <= k < 8 -> w <> leaf + 8 * k) as Hfresh.
  { intros w k Hw Hk8 ->. apply (nb_fresh _ _ _ _ _ Hn (leaf + 8 * k)); [|done].
    apply elem_of_block_words. by exists k. }
  assert (forall k, 0 <= k < 8 -> leaf + 8 * k ∈ block_words leaf 64 ∪ words) as Hleaf
    by (intros k Hk8; apply elem_of_union; left; apply elem_of_block_words; by exists k).
  assert (start + 8 * i ∈ words) as Wi by (by apply (mo_table _ _ _ _ _ Ho)).
  assert (forall w, w ∈ words -> w <> start + 8 * i -> rd (mem s2) w = rd (mem s) w) as Hout.
  { intros w Hw Hne. cbn [mem set_mem s2]. unfold insert_mem.
    rewrite !rd_wr_ne by (apply not_eq_sym; first [done | apply Hfresh; [done|lia]]).
    by apply (nb_frame _ _ _ _ _ Hn). }
  assert (forall k, 0 <= k < 3 -> start + 8 * i <> leaf + 8 * k) as Hil by (intros; apply Hfresh; [done|lia]).
  assert (rd (mem s2) (start + 8 * i) = leaf) as Ei.
  { unfold s2, insert_mem. cbn [mem set_mem]. rewrite rd_wr_eq. apply wrap64_small.
    destruct (nb_block _ _ _ _ _ Hn). unfold KERNEL_VMA_START in *. lia. }
  assert (rd (mem s2) (leaf + 8 * 0) = rd (mem s) (start + 8 * i) /\ rd (mem s2) (leaf + 8 * 1) = key /\
    rd (mem s2) (leaf + 8 * 2) = data) as (L0 & L1 & L2).
  { unfold s2, insert_mem. cbn [mem set_mem]. pose proof (Hil 0 ltac:(lia)). pose proof (Hil 1 ltac:(lia)).
    pose proof (Hil 2 ltac:(lia)). split; [|split]; rewrite !rd_wr_ne by lia; rewrite ?rd_wr_eq;
      [by rewrite wrap64_small by apply rd_u64|by rewrite wrap64_small|by rewrite wrap64_small]. }
  assert (symbols s2 = symbols s) as Es.
  { change (symbols s2) with (symbols s1). by rewrite (nb_rest _ _ _ _ _ Hn). }
  split.
  - pose proof (mo_table_struct _ _ _ _ _ Ho i) as Hts. split; rewrite ?Es; try apply Hm;
      try (rewrite Hout; [apply Hm|apply (mo_struct _ _ _ _ _ Ho); lia|apply not_eq_sym, Hts; lia]).
    + intros j Hj. unfold push. destruct (Z.eqb_spec j i) as [->|Hne].
      * cbn [chain e_leaf e_key e_data]. rewrite Ei, L0, L1, L2. split; [done|].
        split; [eapply kblock_sub; [apply (nb_block _ _ _ _ _ Hn)|lia|lia|apply (nb_block _ _ _ _ _ Hn)]|].
        split; [done|]. split; [done|].
        eapply chain_same; [|by apply (nm_chain _ _ _ _ _ Hm)]. intros e k He Hk3. apply Hout.
        -- by apply (mo_leaf _ _ _ _ _ Ho i).
        -- by apply not_eq_sym, (mo_table_leaf _ _ _ _ _ Ho i i).
      * rewrite Hout by (first [by apply (mo_table _ _ _ _ _ Ho)|lia]).
        eapply chain_same; [|by apply (nm_chain _ _ _ _ _ Hm)]. intros e k He Hk3. apply Hout.
        -- by apply (mo_leaf _ _ _ _ _ Ho j).
        -- by apply not_eq_sym, (mo_table_leaf _ _ _ _ _ Ho i j).
    + intros j Hj. unfold push. pose proof (nm_short _ _ _ _ _ Hm j Hj).
      destruct (Z.eqb_spec j i) as [->|]; [cbn [length]; lia|done].
  - split.
    + intros k Hk4. apply elem_of_union_r. by apply (mo_struct _ _ _ _ _ Ho).
    + intros k Hk4. apply elem_of_union_r. by apply (mo_table _ _ _ _ _ Ho).
    + intros j e k Hj He Hk3. unfold push in He. destruct (Z.eqb_spec j i) as [->|].
      * apply elem_of_cons in He as [->|He]; [apply Hleaf; lia|].
        apply elem_of_union_r. by apply (mo_leaf _ _ _ _ _ Ho i).
      * apply elem_of_union_r. by apply (mo_leaf _ _ _ _ _ Ho j).
    + apply (mo_table_struct _ _ _ _ _ Ho).
    + intros j0 j e k Hj0 Hj He Hk3. unfold push in He. destruct (Z.eqb_spec j i) as [->|].
      * apply elem_of_cons in He as [->|He]; [|by apply (mo_table_leaf _ _ _ _ _ Ho j0 i)].
        apply Hfresh; [by apply (mo_table _ _ _ _ _ Ho)|lia].
      * by apply (mo_table_leaf _ _ _ _ _ Ho j0 j).
Qed.

(** C32: inserting in a number map succeeds while there is room for a leaf, and
    the new map gives the new data for the key and what it gave before for
    every other key; a key already present is shadowed. *)
Theorem hashmap_insert_get key data k :
  bs_room (S k) 64 s -> u64 key -> u64 data ->
  Z.of_nat (length (bs (bucket len key))) < 18446744073709551614 ->
  exists leaf s', hashmap_insert h key data s = Ret 0 s' /\
    num_map h start len (push bs (bucket len key) (mkEntry leaf key data)) s' /\
    hashmap_get h key s' = Ret data s' /\
    (forall key', key' <> key -> exists v,
       hashmap_get h key' s = Ret v s /\ hashmap_get h key' s' = Ret v s').
Proof.
  intros Hroom Hk Hd Hshort. destruct (bs_alloc _ _ _ _ _ Hi Hroom) as (leaf & s1 & Ea & Hn & _ & _).
  destruct (insert_map key data leaf s1 Hn Hk Hd Hshort) as [Hm2 _].
  exists leaf. eexists. split; [by apply insert_run|]. split; [exact Hm2|].
  rewrite (hashmap_get_eq _ _ _ _ _ Hm2). split.
  - unfold push. rewrite Z.eqb_refl. cbn [assoc e_key e_data]. by rewrite Z.eqb_refl.
  - intros key' Hne. exists (assoc (bs (bucket len key')) key').
    rewrite (hashmap_get_eq _ _ _ _ _ Hm), (hashmap_get_eq _ _ _ _ _ Hm2). split; [done|].
    unfold push. destruct (_ =? _); [|done]. cbn [assoc e_key].
    by destruct (Z.eqb_spec key key'); [congruence|].
Qed.
End Insert.

Section Remove.
Context {BS : BlockSource mem_alloc mem_free}.
Context (h start len : Z) (bs : Z -> list entry) (blocks words : gset Z) (s : kstate).
Context (Hm : num_map h start len bs s) (Ho : map_owned h start len bs words) (Hi : bs_inv blocks words s).
Context (Hblocks : forall i e, 0 <= i < len -> e ∈ bs i -> e_leaf e ∈ blocks).

(** What holds of the map's words after a removal. *)
Definition map_kept (s' : kstate) : Prop :=
  (forall w, w ∈ words -> rd (mem s') w = rd (mem s) w) /\ symbols s' = symbols s.

Lemma hashmap_remove_round i key leaf es :
  0 <= i < len -> (forall e, e ∈ es -> e ∈ bs i) -> chain (mem s) leaf es ->
  match es with
  | [] => hashmap_remove_step h key (leaf, leaf) s = Ret (inr 0) s
  | e :: _ =>
      if e_key e =? key
      then exists s', hashmap_remove_step h key (leaf, leaf) s = Ret (inr (e_data e)) s' /\ map_kept s'
      else hashmap_remove_step h key (leaf, leaf) s =
             Ret (inl (rd (mem s) (leaf + 8 * 0), rd (mem s) (leaf + 8 * 0))) s
  end.
Proof.
  intros Hir Hsub Hc. unfold hashmap_remove_step. destruct es as [|e es]; [by rewrite Hc|].
  pose proof (chain_nonzero _ _ _ _ Hc). destruct (Z.eqb_spec leaf 0); [done|].
  destruct (struct_elem _ _ _ _ _ Hm 3 ltac:(lia)) as [-> V3].
  destruct (chain_elem _ _ _ _ 0 Hc ltac:(lia)) as [-> W0], (chain_elem _ _ _ _ 1 Hc ltac:(lia)) as [-> W1],
    (chain_elem _ _ _ _ 2 Hc ltac:(lia)) as [-> W2].
  destruct Hc as (-> & _ & Hk & Hd & _).
  rewrite (bind_Ret _ _ _ _ _ (load64_eq _ _ V3)), (bind_Ret _ _ _ _ _ (load64_eq _ _ W1)), Hk,
    (nm_equal _ _ _ _ _ Hm), (bind_Ret _ _ _ _ _ (call_equal_num s _ key s eq_refl)).
  destruct (e_key e =? key).
  2: { by rewrite (bind_Ret _ _ _ _ _ (load64_eq _ _ W0)), (bind_Ret _ _ _ _ _ (load64_eq _ _ W0)). }
  assert (e ∈ bs i) as He by (apply Hsub; by left).
  pose proof (mo_leaf _ _ _ _ _ Ho i e 0 Hir He ltac:(lia)) as Hw0.
  pose proof (mo_leaf _ _ _ _ _ Ho i e 2 Hir He ltac:(lia)) as Hw2.
  rewrite (bind_Ret _ _ _ _ _ (load64_eq _ _ W0)).
  assert (e_leaf e + 8 * 0 = e_leaf e) as E0 by lia. rewrite E0 in *.
  rewrite (bind_Ret _ _ _ _ _ (store64_eq _ _ _ W0)).
  set (s1 := set_mem (wr (mem s) (e_leaf e) (rd (mem s) (e_leaf e))) s).
  assert (forall w, rd (mem s1) w = rd (mem s) w) as Hsame.
  { intros w. cbn [mem set_mem s1]. destruct (Z.eq_dec w (e_leaf e)) as [->|Hne];
      [by rewrite rd_wr_eq, wrap64_small by apply rd_u64|by rewrite rd_wr_ne by congruence]. }
  destruct (bs_write _ _ _ _ (rd (mem s) (e_leaf e)) Hi Hw0) as [Hi1 _]. fold s1 in Hi1.
  destruct (bs_free _ _ _ (e_leaf e) Hi1 (Hblocks i e Hir He)) as (s2 & Ef & Hw & Hrest).
  rewrite (bind_Ret _ _ _ _ _ Ef), (bind_Ret _ _ _ _ _ (load64_eq _ _ W2)).
  exists s2. split.
  - by rewrite Hw, Hsame, Hd.
  - split; [intros w Hx; by rewrite Hw|]. by rewrite Hrest.
Qed.

Lemma hashmap_remove_chain i key leaf es :
  0 <= i < len -> (forall e, e ∈ es -> e ∈ bs i) -> chain (mem s) leaf es ->
  Z.of_nat (length es) < 18446744073709551615 ->
  wp (while_true (hashmap_remove_step h key) (leaf, leaf)) (fun v s' => v = assoc es key /\ map_kept s') s.
Proof.
  intros Hir Hsub Hc Hl.
  apply (wp_while_bounded (fun n st s' => s' = s /\ exists leaf' es', st = (leaf', leaf') /\
      chain (mem s) leaf' es' /\ (forall e, e ∈ es' -> e ∈ bs i) /\
      assoc es' key = assoc es key /\ n = Z.of_nat (length es'))) with (n := Z.of_nat (length es)).
  - intros n st s' (_ & leaf' & es' & _ & _ & _ & _ & ->). lia.
  - intros n st s' (-> & leaf' & es' & -> & Hc' & Hsub' & Ea & ->).
    pose proof (hashmap_remove_round i key leaf' es' Hir Hsub' Hc') as Hround. unfold wp.
    destruct es' as [|e es']; cbn [assoc] in Ea; [by rewrite Hround|].
    destruct (e_key e =? key).
    + destruct Hround as (s' & -> & Hkept). by rewrite Ea.
    + rewrite Hround. exists (Z.of_nat (length es')). split; [|cbn [length]; lia].
      split; [done|]. exists (rd (mem s) (leaf' + 8 * 0)), es'. split; [done|].
      split; [by destruct Hc' as (_ & _ & _ & _ & ?)|]. split; [|done].
      intros e' He'. apply Hsub'. by right.
  - split; [done|]. by exists leaf, es.
  - lia.
Qed.

(** [hashmap_remove] returns the data of the key, but unlinks nothing: the
    pointer it takes for the parent of a leaf is the leaf itself, so every key,
    the removed one too, is found as before although its leaf has been freed. *)
Theorem hashmap_remove_keeps_entry key :
  exists s', hashmap_remove h key s = Ret (assoc (bs (bucket len key)) key) s' /\
    forall key', hashmap_get h key' s' = Ret (assoc (bs (bucket len key')) key') s'.
Proof.
  pose proof (bucket_range _ _ _ _ _ Hm key) as Hr. pose proof (nm_short _ _ _ _ _ Hm _ Hr).
  destruct (wp_inv _ _ _ (hashmap_remove_chain (bucket len key) key _ (bs (bucket len key)) Hr
    (fun e He => He) (nm_chain _ _ _ _ _ Hm _ Hr) ltac:(lia))) as (v & s' & E & -> & Hw & Hs).
  exists s'. split.
  - unfold hashmap_remove. rewrite (bind_Ret _ _ _ _ _ (bucket_index_eq _ _ _ _ _ Hm key)).
    destruct (struct_elem _ _ _ _ _ Hm 0 ltac:(lia)) as [-> V0], (bucket_elem _ _ _ _ _ Hm key) as [Eb Vb].
    by rewrite (bind_Ret _ _ _ _ _ (load64_eq _ _ V0)), (nm_start _ _ _ _ _ Hm), Eb,
      (bind_Ret _ _ _ _ _ (load64_eq _ _ Vb)).
  - intros key'. apply (hashmap_get_eq h start len bs s'). by apply (num_map_same h start len bs words s s').
Qed.
End Remove.

(** ** Witnesses: a map of two buckets after the free blocks of class 6, with
    one entry, 5 -> 50, in the first block of the data page. *)
Definition demo_map : Z := demo_table + 65536.
Definition demo_buckets : Z := demo_map + 64.
Definition demo_leaf : Z := demo_data + 64.

Definition demo_bs : Z -> list entry := fun i => if i =? 1 then [mkEntry demo_leaf 5 50] else [].

Definition demo_hash : kstate :=
  set_mem (write_words (write_words (write_words (wr (mem demo_blocks) (demo_idx + 16) 1) demo_leaf [0; 5; 50])
    demo_map [demo_buckets; 2; 1; 2]) demo_buckets [0; demo_leaf]) demo_blocks.

Lemma demo_num_map : num_map demo_map demo_buckets 2 demo_bs demo_hash.
Proof.
  split; [unfold kblock; zdone|zdone|zdone|zdone|zdone|unfold kblock; zdone|zdone|..].
  - intros i Hi. assert (i = 0 \/ i = 1) as [-> | ->] by lia; cbn [demo_bs Z.eqb chain]; [zdone|].
    cbn [e_leaf e_key e_data]. split; [zdone|]. split; [unfold kblock; zdone|]. split; [zdone|]. split; zdone.
  - intros i Hi. assert (i = 0 \/ i = 1) as [-> | ->] by lia; zdone.
Qed.

Definition demo_words : gset Z :=
  list_to_set ([demo_leaf; demo_leaf + 8; demo_leaf + 16; demo_buckets; demo_buckets + 8] ++
    ((fun k => demo_map + 8 * k) <$> [0; 1; 2; 3])).

Ltac pick_word := apply elem_of_list_to_set; repeat first [left; reflexivity | right].

Lemma demo_owned_map : map_owned demo_map demo_buckets 2 demo_bs demo_words.
Proof.
  assert (forall i e, 0 <= i < 2 -> e ∈ demo_bs i -> e_leaf e = demo_leaf) as He.
  { intros i e Hi He. unfold demo_bs in He. destruct (i =? 1); [by apply list_elem_of_singleton in He as ->|].
    by apply elem_of_nil in He. }
  split.
  - intros k Hk. assert (k = 0 \/ k = 1 \/ k = 2 \/ k = 3) as [-> |[-> |[-> | ->]]] by lia; pick_word.
  - intros k Hk. assert (k = 0 \/ k = 1) as [-> | ->] by lia; pick_word.
  - intros i e k Hi Hin Hk. rewrite (He i e) by done.
    assert (k = 0 \/ k = 1 \/ k = 2) as [-> |[-> | ->]] by lia; pick_word.
  - intros i k Hi Hk. unfold demo_buckets. lia.
  - intros j i e k Hj Hi Hin Hk. rewrite (He i e) by done. unfold demo_buckets, demo_map, demo_leaf, demo_data. lia.
Qed.

Lemma demo_hash_ready : class_ready 6 demo_idx demo_data demo_hash.
Proof. split; try (unfold kblock, apart); first [zdone | (vm_compute; lia)]. Qed.

Lemma demo_hash_inv : class_inv 6 {[demo_leaf]} demo_words demo_hash.
Proof.
  exists demo_idx, demo_data. split; [exact demo_hash_ready|]. split.
  - intros w Hw. apply elem_of_list_to_set in Hw. repeat (apply elem_of_cons in Hw as [->|Hw]);
      [..|by apply elem_of_nil in Hw];
      (split; [reflexivity|]; split; [zdone|]; intros Hd; first
        [ (exists 0; zdone) | (exfalso; vm_compute in Hd; destruct Hd; congruence) ]).
  - intros a Ha. apply elem_of_singleton in Ha as ->. exists 0. zdone.
Qed.

Lemma demo_hash_room : class_room 6 1 64 demo_hash.
Proof.
  split; [reflexivity|]. split; [zdone|]. exists demo_idx, demo_data. split; [exact demo_hash_ready|].
  vm_compute. lia.
Qed.

Lemma hashmap_insert_get_witness :
  exists s', hashmap_insert demo_map 7 70 demo_hash = Ret 0 s' /\ hashmap_get demo_map 7 s' = Ret 70 s'.
Proof.
  destruct (hashmap_insert_get (BS := class_blocks 6 ltac:(lia)) demo_map demo_buckets 2 demo_bs {[demo_leaf]} demo_words
    demo_hash demo_num_map demo_owned_map demo_hash_inv 7 70 0 demo_hash_room
    ltac:(unfold u64; lia) ltac:(unfold u64; lia) ltac:(zdone)) as (leaf & s' & E & _ & Hg & _).
  exists s'. split; [exact E|exact Hg].
Defined.

Lemma hashmap_remove_keeps_entry_witness :
  exists s', hashmap_remove demo_map 5 demo_hash = Ret 50 s' /\ hashmap_get demo_map 5 s' = Ret 50 s'.
Proof.
  destruct (hashmap_remove_keeps_entry (BS := class_blocks 6 ltac:(lia)) demo_map demo_buckets 2 demo_bs {[demo_leaf]}
    demo_words demo_hash demo_num_map demo_owned_map demo_hash_inv) with (key := 5) as (s' & E & Hg).
  - intros i e Hi He. unfold demo_bs in He. destruct (i =? 1).
    + apply list_elem_of_singleton in He as ->. by apply elem_of_singleton.
    + by apply elem_of_nil in He.
  - exists s'. split; [exact E|exact (Hg 5)].
Defined.
