(* ===== verification/List.v ===== *)
(** * Sectioned lists ([kernel/memory/list.c])

    A list is a C struct of four words: first section, section size, number of
    items, item size.  A section starts with the address of the next one. *)
From S2P Require Import Prelude Machine Strings Pager.

(** ** The code *)

Definition list_create (new_list item_size : Z) : M unit :=
  store64 (elem64 new_list 1) KERNEL_PAGE_SIZE ;;
  p ← pg_alloc;
  store64 (elem64 new_list 0) p ;;
  store64 (elem64 new_list 2) 0 ;;
  store64 (elem64 new_list 3) item_size.

(** [(section_size - 8) / item_size] *)
Definition section_max (l : Z) : M Z :=
  section_size ← load64 (elem64 l 1);
  item_size ← load64 (elem64 l 3);
  if item_size =? 0 then undef "division by zero" else mret ((section_size ⊖ 8) / item_size).

Definition list_get (new_list item_idx : Z) : M Z :=
  item_cnt ← load64 (elem64 new_list 2);
  if item_cnt <? item_idx then PANIC "ATTEMPT_REMOVE_LIST_ITEM_OUT_BOUNDS" 0 0 0 else
  section_max_cnt ← section_max new_list;
  if section_max_cnt =? 0 then undef "division by zero" else
  let section_num := item_idx / section_max_cnt in
  let section_idx := item_idx mod section_max_cnt in
  first_section ← load64 (elem64 new_list 0);
  section ← for_fold (upto 0 section_num) (fun section _ =>
    next ← load64 section;
    if next =? 0 then pg_alloc else mret next) first_section;
  item_size ← load64 (elem64 new_list 3);
  mret ((section ⊕ 8) ⊕ (item_size ⊗ section_idx)).

Definition list_append (new_list src : Z) : M unit :=
  item_cnt ← load64 (elem64 new_list 2);
  new_item_ptr ← list_get new_list item_cnt;
  item_size ← load64 (elem64 new_list 3);
  memcpy new_item_ptr src item_size ;;
  item_cnt ← load64 (elem64 new_list 2);
  store64 (elem64 new_list 2) (item_cnt ⊕ 1).

Definition list_remove (new_list item_idx : Z) : M unit :=
  item_cnt ← load64 (elem64 new_list 2);
  if item_cnt <=? item_idx then PANIC "ATTEMPT_REMOVE_LIST_ITEM_OUT_BOUNDS" 0 0 0 else
  item_size ← load64 (elem64 new_list 3);
  last_item_ptr ← list_get new_list (item_size ⊖ 1);
  item_removing_ptr ← list_get new_list item_idx;
  item_size ← load64 (elem64 new_list 3);
  memcpy item_removing_ptr last_item_ptr item_size ;;
  item_cnt ← load64 (elem64 new_list 2);
  store64 (elem64 new_list 2) (item_cnt ⊖ 1).

Definition list_delete (new_list : Z) : M unit :=
  section ← load64 (elem64 new_list 0);
  while_true (fun section =>
    next_section ← load64 (elem64 section 0);
    pg_free section ;;
    mret (if next_section =? 0 then inr tt else inl next_section)) section.

(** The iterator is a local struct of its users. *)
Record list_iter := mkIter {
  cur_list : Z;
  cur_upto : Z;
  section_upto : Z;
  max_iter_per_section : Z;
}.

Definition sizeof_list : Z := 32.

Definition list_iter_create (new_list : Z) : M list_iter :=
  first_section ← load64 (elem64 new_list 0);
  max_iter ← section_max new_list;
  mret (mkIter new_list 0 first_section max_iter).

(** [iter->cur_list += 1] moves a [list *] by the size of the struct. *)
Definition list_iter_next (iter : list_iter) : M (Z * list_iter) :=
  if max_iter_per_section iter =? 0 then undef "division by zero" else
  let cur_section_idx := cur_upto iter mod max_iter_per_section iter in
  first_section ← load64 (elem64 (cur_list iter) 0);
  item_size ← load64 (elem64 (cur_list iter) 3);
  let ret := (first_section ⊕ 8) ⊕ (item_size ⊗ cur_section_idx) in
  let is_next_section := cur_upto iter mod max_iter_per_section iter =? 0 in
  next ← load64 (elem64 (section_upto iter) 0);
  let section := if is_next_section then next else section_upto iter in
  mret (ret, mkIter (cur_list iter ⊕ sizeof_list) (cur_upto iter) section (max_iter_per_section iter)).

(** ** Lists that fit their first section *)

(** The struct at [l], and the words of its section. *)
Record short_list (l section cnt size : Z) (s : kstate) : Prop := {
  sl_struct : kblock l 32;
  sl_section : kblock section KERNEL_PAGE_SIZE;
  sl_apart : apart l 32 section KERNEL_PAGE_SIZE;
  sl_first : rd (mem s) (l + 8 * 0) = section;
  sl_bytes : rd (mem s) (l + 8 * 1) = KERNEL_PAGE_SIZE;
  sl_cnt : rd (mem s) (l + 8 * 2) = cnt;
  sl_size : rd (mem s) (l + 8 * 3) = size;
  sl_size_pos : 0 < size <= 4088;
  sl_room : 0 <= cnt <= 4088 / size;
}.

Definition item_addr (section size i : Z) : Z := section + 8 + size * i.

Section Short.
Context (l section cnt size : Z) (s : kstate) (Hl : short_list l section cnt size s).

Lemma list_elem k : 0 <= k < 4 -> elem64 l k = l + 8 * k /\ valid64 (l + 8 * k).
Proof.
  intros Hk. destruct (kblock_elem l 4 k (sl_struct _ _ _ _ _ Hl) Hk) as [E V]. by rewrite E in V.
Qed.

Lemma section_max_eq : section_max l s = Ret (4088 / size) s.
Proof.
  unfold section_max. destruct (list_elem 1 ltac:(lia)) as [-> V1], (list_elem 3 ltac:(lia)) as [-> V3].
  rewrite (bind_Ret _ _ _ _ _ (load64_eq _ _ V1)), (bind_Ret _ _ _ _ _ (load64_eq _ _ V3)),
    (sl_bytes _ _ _ _ _ Hl), (sl_size _ _ _ _ _ Hl).
  destruct (sl_size_pos _ _ _ _ _ Hl). by destruct (Z.eqb_spec size 0); [lia|].
Qed.

Lemma item_in_section i : 0 <= i < 4088 / size ->
  section + 8 <= item_addr section size i /\ item_addr section size i + size <= section + KERNEL_PAGE_SIZE.
Proof.
  intros Hi. destruct (sl_size_pos _ _ _ _ _ Hl) as [H1 H2]. unfold item_addr, KERNEL_PAGE_SIZE.
  pose proof (Z.mul_div_le 4088 size H1). nia.
Qed.

Lemma list_get_eq i :
  0 <= i < 4088 / size ->
  list_get l i s = if cnt <? i then Panic "ATTEMPT_REMOVE_LIST_ITEM_OUT_BOUNDS" 0 0 0
                   else Ret (item_addr section size i) s.
Proof.
  intros Hi.
  unfold list_get. destruct (list_elem 2 ltac:(lia)) as [-> V2], (list_elem 0 ltac:(lia)) as [-> V0],
    (list_elem 3 ltac:(lia)) as [-> V3].
  rewrite (bind_Ret _ _ _ _ _ (load64_eq _ _ V2)), (sl_cnt _ _ _ _ _ Hl).
  destruct (Z.ltb_spec cnt i); [done|]. rewrite (bind_Ret _ _ _ _ _ section_max_eq).
  destruct (Z.eqb_spec (4088 / size) 0); [lia|].
  rewrite (Z.div_small i), (Z.mod_small i) by lia.
  rewrite (bind_Ret _ _ _ _ _ (load64_eq _ _ V0)), (sl_first _ _ _ _ _ Hl).
  erewrite bind_Ret by reflexivity. rewrite (bind_Ret _ _ _ _ _ (load64_eq _ _ V3)), (sl_size _ _ _ _ _ Hl).
  destruct (item_in_section i ltac:(lia)) as [H1 H2]. destruct (sl_section _ _ _ _ _ Hl) as (K1 & K2 & _).
  destruct (sl_size_pos _ _ _ _ _ Hl).
  unfold KERNEL_VMA_START, KERNEL_PAGE_SIZE, item_addr in *. cbn [mret M_ret].
  rewrite (wrap64_small (section + 8)), (wrap64_small (size * i)), wrap64_small by nia. done.
Qed.

Lemma list_elem_same s' : (forall k, 0 <= k < 4 -> rd (mem s') (l + 8 * k) = rd (mem s) (l + 8 * k)) ->
  short_list l section cnt size s'.
Proof. intros H. destruct Hl. split; rewrite ?H by lia; done. Qed.

Lemma struct_kept m' b n f :
  section <= b -> b + n <= section + KERNEL_PAGE_SIZE -> copied (mem s) m' b n f ->
  forall k, 0 <= k < 4 -> rd m' (l + 8 * k) = rd (mem s) (l + 8 * k).
Proof.
  intros Hb Hn H k Hk. pose proof (sl_apart _ _ _ _ _ Hl) as Hap. destruct (sl_struct _ _ _ _ _ Hl) as (_ & _ & Ha).
  unfold apart, KERNEL_PAGE_SIZE in *. apply rd_bytes; [dlia|]. intros j Hj. rewrite H.
  by replace ((b <=? l + 8 * k + j) && (l + 8 * k + j <? b + n)) with false by lia.
Qed.
End Short.

(** The list with a new count. *)
Lemma short_list_count l section cnt size s cnt' :
  short_list l section cnt size s -> 0 <= cnt' <= 4088 / size ->
  short_list l section cnt' size (set_mem (wr (mem s) (l + 8 * 2) cnt') s) /\
  forall b, b < l \/ l + 32 <= b -> byte (wr (mem s) (l + 8 * 2) cnt') b = byte (mem s) b.
Proof.
  intros Hl Hc. destruct (sl_size_pos _ _ _ _ _ Hl) as [H1 H2].
  assert (4088 / size <= 4088) by (apply Z.div_le_upper_bound; nia).
  destruct (sl_struct _ _ _ _ _ Hl) as (_ & _ & Ha). split.
  - destruct Hl. split; cbn [mem set_mem]; rewrite ?rd_wr_ne by lia; try done.
    by rewrite rd_wr_eq, wrap64_small by lia.
  - intros b Hb. rewrite byte_wr by dlia.
    by replace ((l + 8 * 2 <=? b) && (b <? l + 8 * 2 + 8)) with false by lia.
Qed.

(** Appending to a list whose first section has room copies the item after
    the last one, counts it, and leaves the other items alone; every item is
    then found at its place. *)
Theorem list_append_item l section cnt size s src :
  short_list l section cnt size s -> cnt < 4088 / size -> kbytes src size ->
  item_addr section size cnt <= src \/ src + size <= item_addr section size cnt ->
  exists s', list_append l src s = Ret tt s' /\ short_list l section (cnt + 1) size s' /\
    (forall k, 0 <= k < size -> byte (mem s') (item_addr section size cnt + k) = byte (mem s) (src + k)) /\
    (forall i k, 0 <= i < cnt -> 0 <= k < size ->
       byte (mem s') (item_addr section size i + k) = byte (mem s) (item_addr section size i + k)) /\
    (forall i, 0 <= i <= cnt -> list_get l i s' = Ret (item_addr section size i) s').
Proof.
  intros Hl Hroom Hsrc Hover. pose proof (sl_room _ _ _ _ _ Hl) as Hr.
  destruct (item_in_section _ _ _ _ _ Hl cnt ltac:(lia)) as [I1 I2].
  destruct (sl_section _ _ _ _ _ Hl) as (K1 & K2 & K3). destruct (sl_size_pos _ _ _ _ _ Hl) as [P1 P2].
  assert (kbytes (item_addr section size cnt) size) as Hdst
    by (unfold kbytes, KERNEL_PAGE_SIZE in *; lia).
  destruct (wp_inv _ _ _ (memcpy_wp _ src size s Hdst Hsrc P1 Hover)) as ([] & s1 & E & m' & -> & Hc).
  pose proof (struct_kept _ _ _ _ _ Hl m' (item_addr section size cnt) size _ ltac:(lia) I2 Hc) as Hst.
  pose proof (list_elem_same _ _ _ _ _ Hl (set_mem m' s) Hst) as Hl1.
  destruct (short_list_count _ _ _ _ _ (cnt + 1) Hl1 ltac:(lia)) as [Hl2 Hb].
  exists (set_mem (wr m' (l + 8 * 2) (cnt + 1)) (set_mem m' s)).
  pose proof (sl_apart _ _ _ _ _ Hl) as Hap. unfold apart, KERNEL_PAGE_SIZE in *.
  assert (4088 / size <= 4088) by (apply Z.div_le_upper_bound; nia).
  split; [|split; [exact Hl2|split; [|split]]].
  - unfold list_append. destruct (list_elem _ _ _ _ _ Hl 2 ltac:(lia)) as [-> V2].
    destruct (list_elem _ _ _ _ _ Hl 3 ltac:(lia)) as [-> V3].
    rewrite (bind_Ret _ _ _ _ _ (load64_eq _ _ V2)), (sl_cnt _ _ _ _ _ Hl).
    pose proof (list_get_eq _ _ _ _ _ Hl cnt ltac:(lia)) as Eg. rewrite Z.ltb_irrefl in Eg.
    rewrite (bind_Ret _ _ _ _ _ Eg), (bind_Ret _ _ _ _ _ (load64_eq _ _ V3)), (sl_size _ _ _ _ _ Hl).
    rewrite (bind_Ret _ _ _ _ _ E), (bind_Ret _ _ _ _ _ (load64_eq _ _ V2)), (sl_cnt _ _ _ _ _ Hl1).
    rewrite wrap64_small by lia. by rewrite store64_eq.
  - intros k Hk. cbn [mem set_mem] in *. rewrite Hb by lia. rewrite Hc.
    replace ((item_addr section size cnt <=? item_addr section size cnt + k) &&
      (item_addr section size cnt + k <? item_addr section size cnt + size)) with true by lia.
    f_equal. lia.
  - intros i k Hi Hk. destruct (item_in_section _ _ _ _ _ Hl i ltac:(lia)) as [J1 J2].
    unfold KERNEL_PAGE_SIZE in J2. cbn [mem set_mem] in *. rewrite Hb by lia. rewrite Hc.
    replace (item_addr section size i + k <? item_addr section size cnt + size) with true by (unfold item_addr; nia).
    replace (item_addr section size cnt <=? item_addr section size i + k) with false; [done|].
    unfold item_addr. symmetry. apply Z.leb_gt. nia.
  - intros i Hi. rewrite (list_get_eq _ _ _ _ _ Hl2) by lia. by replace (cnt + 1 <? i) with false by lia.
Qed.

(** [list_remove] looks for the last item at index [item_size - 1]: a list
    of pointers with fewer than 7 items cannot lose any of them, it panics. *)
Theorem list_remove_short_panics l section cnt s i :
  short_list l section cnt 8 s -> cnt < 7 -> 0 <= i ->
  list_remove l i s = Panic "ATTEMPT_REMOVE_LIST_ITEM_OUT_BOUNDS" 0 0 0.
Proof.
  intros Hl Hc Hi. pose proof (sl_room _ _ _ _ _ Hl) as Hr. unfold list_remove.
  destruct (list_elem _ _ _ _ _ Hl 2 ltac:(lia)) as [-> V2].
  destruct (list_elem _ _ _ _ _ Hl 3 ltac:(lia)) as [-> V3].
  rewrite (bind_Ret _ _ _ _ _ (load64_eq _ _ V2)), (sl_cnt _ _ _ _ _ Hl).
  destruct (Z.leb_spec cnt i); [done|].
  rewrite (bind_Ret _ _ _ _ _ (load64_eq _ _ V3)), (sl_size _ _ _ _ _ Hl). change (8 ⊖ 1) with 7.
  apply bind_Panic. rewrite (list_get_eq _ _ _ _ _ Hl) by (vm_compute; split; [discriminate|reflexivity]).
  by destruct (Z.ltb_spec cnt 7); [|lia].
Qed.

(** [list_iter_next] does not advance: it leaves the count of items seen
    as it was and moves the pointer to the list past the struct instead. *)
Theorem list_iter_next_stuck l section cnt size s iter :
  short_list l section cnt size s -> list_iter_create l s = Ret iter s ->
  exists ret iter', list_iter_next iter s = Ret (ret, iter') s /\
    ret = item_addr section size 0 /\ cur_upto iter' = cur_upto iter /\ cur_list iter' = l ⊕ sizeof_list.
Proof.
  intros Hl Hi. unfold list_iter_create in Hi.
  destruct (list_elem _ _ _ _ _ Hl 0 ltac:(lia)) as [E0 V0]. destruct (list_elem _ _ _ _ _ Hl 3 ltac:(lia)) as [E3 V3].
  rewrite E0, (bind_Ret _ _ _ _ _ (load64_eq _ _ V0)), (sl_first _ _ _ _ _ Hl),
    (bind_Ret _ _ _ _ _ (section_max_eq _ _ _ _ _ Hl)) in Hi.
  injection Hi as <-. pose proof (sl_size_pos _ _ _ _ _ Hl) as [P1 P2].
  assert (1 <= 4088 / size) by (apply Z.div_le_lower_bound; lia).
  unfold list_iter_next. cbn [cur_list cur_upto section_upto max_iter_per_section].
  destruct (Z.eqb_spec (4088 / size) 0); [lia|]. rewrite Z.mod_0_l by done.
  rewrite E0, (bind_Ret _ _ _ _ _ (load64_eq _ _ V0)), (sl_first _ _ _ _ _ Hl), E3,
    (bind_Ret _ _ _ _ _ (load64_eq _ _ V3)), (sl_size _ _ _ _ _ Hl).
  pose proof (sl_section _ _ _ _ _ Hl) as Hk. destruct (kblock_elem section 512 0 Hk ltac:(lia)) as [Es Vs].
  rewrite (bind_Ret _ _ _ _ _ (load64_eq _ _ Vs)).
  eexists _, _. split; [reflexivity|]. cbn [cur_list cur_upto].
  destruct (sl_struct _ _ _ _ _ Hl) as (_ & S2 & _). destruct Hk as (K1 & K2 & _).
  unfold item_addr, KERNEL_VMA_START, KERNEL_PAGE_SIZE in *. rewrite Z.mul_0_r.
  change (wrap64 0) with 0. rewrite !Z.add_0_r, wrap64_idem, wrap64_small by lia.
  done.
Qed.

(** ** Witnesses: a list of pointers at the start of memory, two items long. *)
Definition demo_list : Z := 0xffffffc080000000.
Definition demo_section : Z := demo_list + 4096.
Definition demo_list_state : kstate :=
  set_mem (write_words (write_words ∅ demo_list [demo_section; 4096; 2; 8]) demo_section [0; 10; 20]) zero_state.

Lemma demo_short_list : short_list demo_list demo_section 2 8 demo_list_state.
Proof. split; try (unfold kblock, apart); zdone. Qed.

Lemma list_append_item_witness :
  exists s', list_append demo_list demo_section demo_list_state = Ret tt s' /\
    list_get demo_list 2 s' = Ret (demo_section + 24) s'.
Proof.
  destruct (list_append_item demo_list demo_section 2 8 demo_list_state demo_section demo_short_list
    ltac:(zdone) ltac:(unfold kbytes; zdone) ltac:(right; zdone)) as (s' & E & _ & _ & _ & Hg).
  exists s'. split; [exact E|]. exact (Hg 2 ltac:(lia)).
Defined.

Lemma list_remove_short_panics_witness :
  list_remove demo_list 0 demo_list_state = Panic "ATTEMPT_REMOVE_LIST_ITEM_OUT_BOUNDS" 0 0 0.
Proof. exact (list_remove_short_panics demo_list demo_section 2 demo_list_state 0 demo_short_list ltac:(lia) ltac:(lia)). Defined.

Lemma list_iter_next_stuck_witness :
  exists ret iter', list_iter_next (mkIter demo_list 0 demo_section 511) demo_list_state =
    Ret (ret, iter') demo_list_state /\ cur_upto iter' = 0.
Proof.
  destruct (list_iter_next_stuck demo_list demo_section 2 8 demo_list_state
    (mkIter demo_list 0 demo_section 511) demo_short_list eq_refl) as (ret & iter' & E & _ & Hu & _).
  exists ret, iter'. split; [exact E|exact Hu].
Defined.
