(* ===== verification/Radix.v ===== *)
(** * Radix trees ([kernel/memory/radix.c])

    A node is a block of [2^depth_size] words; the leaves hang from the nodes
    of level [depth].  A shift by 64 or more is undefined in C. *)
From S2P Require Import Prelude Machine Pager Allocator.

(** ** The code *)

Definition shl_one (n : Z) : M Z := if n <? 64 then mret (BIT n) else undef "shift too large".
Definition shr (x n : Z) : M Z := if n <? 64 then mret (Z.shiftr x n) else undef "shift too large".

(** The index at level [i] of [depth]. *)
Definition level_position (key depth depth_size i mask : Z) : M Z :=
  x ← shr key ((depth - i) * depth_size);
  mret (Z.land x mask).

Definition radix_get (addr key depth depth_size : Z) : M Z :=
  one ← shl_one depth_size;
  let mask := one ⊖ 1 in
  r ← for_until (upto 1 (depth + 1)) (fun addr_table i =>
    level_postion ← level_position key depth depth_size i mask;
    next ← load64 (elem64 addr_table level_postion);
    mret (if next =? 0 then inr 0 else inl next)) addr;
  mret (match r with inl addr_table => addr_table | inr v => v end).

(** [(u64 * )mem_alloc(size * 8)], cleared. *)
Definition new_node (size : Z) : M Z :=
  node ← mem_alloc (size ⊗ 8);
  for_each (upto 0 ((size ⊗ 8) / 8)) (fun j => store64 (elem64 node j) 0) ;;
  mret node.

Definition radix_insert (addr key child_addr depth depth_size : Z) : M Z :=
  size ← shl_one depth_size;
  let mask := size ⊖ 1 in
  limit ← shl_one (depth_size * depth);
  if limit <=? key then PANIC "addr_KEY_LARGER_THEN_RADIX" key depth depth_size else
  addr_table ← for_fold (upto 1 depth) (fun addr_table i =>
    idx ← level_position key depth depth_size i mask;
    e ← load64 (elem64 addr_table idx);
    when (e =? 0) (node ← new_node size; store64 (elem64 addr_table idx) node) ;;
    load64 (elem64 addr_table idx)) addr;
  let idx := Z.land key mask in
  old_addr ← load64 (elem64 addr_table idx);
  store64 (elem64 addr_table idx) child_addr ;;
  mret old_addr.

(** [depth] is a [u8] that the recursion counts down. *)
Fixpoint radix_delete (depth : nat) (addr : Z) (remove_leaves : bool) (depth_size : Z) : M unit :=
  size ← shl_one depth_size;
  match depth with
  | S ((S _) as d) =>
      for_each (upto 0 size) (fun i =>
        child_addr ← load64 (elem64 addr i);
        when (0 <? child_addr)
          (radix_delete d child_addr remove_leaves depth_size ;; mem_free child_addr))
  | _ =>
      when remove_leaves
        (for_each (upto 0 size) (fun i =>
           child_addr ← load64 (elem64 addr i);
           when (0 <? child_addr) (mem_free child_addr)))
  end.

(** The result, an address, is returned as a [bool8]. *)
Definition radix_remove (addr key depth depth_size : Z) : M Z :=
  one ← shl_one depth_size;
  let mask := one ⊖ 1 in
  r ← for_until (upto 1 depth) (fun addr_table i =>
    idx ← level_position key depth depth_size i mask;
    e ← load64 (elem64 addr_table idx);
    if e =? 0 then mret (inr 0)
    else next ← load64 (elem64 addr_table idx); mret (inl next)) addr;
  match r with
  | inr v => mret v
  | inl addr_table =>
      let idx := Z.land key mask in
      old_addr ← load64 (elem64 addr_table idx);
      store64 (elem64 addr_table idx) 0 ;;
      mret (wrap8 old_addr)
  end.

Definition radix_create (level_depth : Z) : M Z :=
  size ← shl_one level_depth;
  new_node size.

Fixpoint radix_iter (depth : nat) (addr depth_size parameters : Z) (function : Z -> Z -> M unit) : M unit :=
  size ← shl_one depth_size;
  match depth with
  | S ((S _) as d) =>
      for_each (upto 0 size) (fun i =>
        child_addr ← load64 (elem64 addr i);
        when (0 <? child_addr) (radix_iter d child_addr depth_size parameters function))
  | _ =>
      for_each (upto 0 size) (fun i =>
        child_addr ← load64 (elem64 addr i);
        when (0 <? child_addr) (function child_addr parameters))
  end.

(** ** Paths

    The part of a tree that a key visits, as the list of the words read, the
    last of them in a node of level [depth]. *)
Section Path.
Context (ds : Z) (Hds : 1 <= ds <= 8).

Definition digit_at (key : Z) (n : nat) : Z := key / 2 ^ (ds * Z.of_nat n) mod 2 ^ ds.

(** The words read on [n + 1] levels from [table] are [cells]. *)
Fixpoint full_path (m : gmap Z Z) (table key : Z) (n : nat) (cells : list Z) : Prop :=
  match cells with
  | [] => False
  | cell :: cells' =>
      kblock table (8 * 2 ^ ds) /\ cell = table + 8 * digit_at key n /\
      match n with
      | O => cells' = []
      | S n' => rd m cell <> 0 /\ full_path m (rd m cell) key n' cells'
      end
  end.

Lemma digit_range key n : 0 <= digit_at key n < 2 ^ ds.
Proof. apply Z.mod_pos_bound, Z.pow_pos_nonneg; lia. Qed.

Lemma mask_eq : BIT ds ⊖ 1 = 2 ^ ds - 1 /\ 2 <= 2 ^ ds <= 256.
Proof.
  assert (2 <= 2 ^ ds <= 256) as H.
  { split; [apply (Z.pow_le_mono_r 2 1 ds); lia|apply (Z.pow_le_mono_r 2 ds 8); lia]. }
  split; [|done]. rewrite BIT_pow2 by lia. apply wrap64_small. lia.
Qed.

Lemma level_position_eq key depth (n : nat) i s :
  0 <= key -> depth - i = Z.of_nat n -> ds * Z.of_nat n < 64 ->
  level_position key depth ds i (BIT ds ⊖ 1) s = Ret (digit_at key n) s.
Proof.
  intros Hk Hn Hlt. unfold level_position, shr. rewrite Hn.
  replace (Z.of_nat n * ds <? 64) with true by lia. erewrite bind_Ret by reflexivity.
  destruct mask_eq as [-> H].
  replace (2 ^ ds - 1) with (Z.ones ds) by (rewrite Z.ones_equiv; lia).
  rewrite Z.land_ones, Z.shiftr_div_pow2 by lia. unfold digit_at. by rewrite (Z.mul_comm ds).
Qed.

Lemma cell_elem table key n : kblock table (8 * 2 ^ ds) ->
  elem64 table (digit_at key n) = table + 8 * digit_at key n /\ valid64 (table + 8 * digit_at key n).
Proof.
  intros Hk. destruct (kblock_elem table (2 ^ ds) (digit_at key n) Hk (digit_range key n)) as [E V].
  by rewrite E in V.
Qed.

Lemma full_path_last m table key n cells :
  full_path m table key n cells -> exists t, list.last cells = Some (t + 8 * digit_at key 0) /\ kblock t (8 * 2 ^ ds).
Proof.
  revert table cells. induction n as [|n IH]; intros table [|cell cells] H; try done.
  - destruct H as (Hk & -> & ->). by exists table.
  - destruct H as (_ & _ & _ & H). destruct (IH _ _ H) as (t & Hlast & Hk). exists t. split; [|done].
    by destruct cells.
Qed.

Lemma get_loop s table key depth i n cells c :
  full_path (mem s) table key n cells -> list.last cells = Some c -> depth = i + Z.of_nat n -> 0 <= key ->
  ds * Z.of_nat n < 64 ->
  for_until (upto i (depth + 1)) (fun addr_table i =>
    level_postion ← level_position key depth ds i (BIT ds ⊖ 1);
    next ← load64 (elem64 addr_table level_postion);
    mret (if next =? 0 then inr 0 else inl next)) table s =
  Ret (if rd (mem s) c =? 0 then inr 0 else inl (rd (mem s) c)) s.
Proof.
  revert table cells i. induction n as [|n IH]; intros table [|cell cells] i H Hlast Hd Hk Hlt; try done.
  - destruct H as (Hb & -> & ->). injection Hlast as <-. rewrite upto_cons, upto_nil by lia. cbn [for_until].
    rewrite bind_assoc, (bind_Ret _ _ _ _ _ (level_position_eq key depth O i s Hk ltac:(lia) Hlt)).
    destruct (cell_elem table key O Hb) as [-> V]. rewrite bind_assoc, (bind_Ret _ _ _ _ _ (load64_eq _ _ V)).
    unfold mbind, M_bind. cbn [mret M_ret]. by destruct (_ =? 0).
  - destruct H as (Hb & -> & Hne & H). rewrite upto_cons by lia. cbn [for_until].
    rewrite bind_assoc, (bind_Ret _ _ _ _ _ (level_position_eq key depth (S n) i s Hk ltac:(lia) Hlt)).
    destruct (cell_elem table key (S n) Hb) as [-> V]. rewrite bind_assoc, (bind_Ret _ _ _ _ _ (load64_eq _ _ V)).
    destruct (Z.eqb_spec (rd (mem s) (table + 8 * digit_at key (S n))) 0); [done|].
    erewrite bind_Ret by reflexivity. apply (IH _ cells); [done|destruct cells; [by destruct n|done]|lia|done|nia].
Qed.

Lemma insert_loop s table key depth i n cells c :
  full_path (mem s) table key n cells -> list.last cells = Some c -> depth = i + Z.of_nat n -> 0 <= key ->
  ds * Z.of_nat n < 64 ->
  exists t, for_fold (upto i depth) (fun addr_table i =>
    idx ← level_position key depth ds i (BIT ds ⊖ 1);
    e ← load64 (elem64 addr_table idx);
    when (e =? 0) (node ← new_node (BIT ds); store64 (elem64 addr_table idx) node) ;;
    load64 (elem64 addr_table idx)) table s = Ret t s /\ c = t + 8 * digit_at key 0 /\ kblock t (8 * 2 ^ ds).
Proof.
  revert table cells i. induction n as [|n IH]; intros table [|cell cells] i H Hlast Hd Hk Hlt; try done.
  - destruct H as (Hb & -> & ->). injection Hlast as <-. rewrite upto_nil by lia. by exists table.
  - destruct H as (Hb & -> & Hne & H). rewrite upto_cons by lia. cbn [for_fold].
    rewrite bind_assoc, (bind_Ret _ _ _ _ _ (level_position_eq key depth (S n) i s Hk ltac:(lia) Hlt)).
    destruct (cell_elem table key (S n) Hb) as [-> V]. rewrite bind_assoc, (bind_Ret _ _ _ _ _ (load64_eq _ _ V)).
    destruct (Z.eqb_spec (rd (mem s) (table + 8 * digit_at key (S n))) 0); [done|]. cbn [when].
    rewrite bind_assoc. erewrite bind_Ret by reflexivity. rewrite (bind_Ret _ _ _ _ _ (load64_eq _ _ V)).
    apply (IH _ cells); [done|destruct cells; [by destruct n|done]|lia|done|nia].
Qed.

Lemma full_path_wr m table key n cells c v :
  full_path m table key n cells -> c ∉ removelast cells -> full_path (wr m c v) table key n cells.
Proof.
  revert table cells. induction n as [|n IH]; intros table [|cell cells] H Hc; try done.
  destruct H as (Hb & -> & Hne & H). destruct cells as [|cell' cells]; [by destruct n|].
  cbn [removelast] in Hc. apply not_elem_of_cons in Hc as [Hcell Hc].
  split; [done|]. split; [done|]. rewrite rd_wr_ne by congruence. split; [done|]. by apply IH.
Qed.

Lemma radix_get_eq s addr key (n : nat) cells c :
  full_path (mem s) addr key n cells -> list.last cells = Some c -> 0 <= key -> ds * Z.of_nat (S n) < 64 ->
  radix_get addr key (Z.of_nat (S n)) ds s = Ret (rd (mem s) c) s.
Proof.
  intros H Hlast Hk Hlt. unfold radix_get, shl_one. replace (ds <? 64) with true by lia.
  erewrite bind_Ret by reflexivity. cbv zeta.
  erewrite bind_Ret by (apply (get_loop s addr key (Z.of_nat (S n)) 1 n cells c); [done|done|lia|done|nia]).
  destruct (Z.eqb_spec (rd (mem s) c) 0) as [E|]; cbn [mret M_ret]; [by rewrite E|done].
Qed.

(** C33: inserting under a key whose nodes exist replaces the leaf and returns
    the old one; the key then gives the new leaf, and every other key whose
    path does not end in that leaf's word gives what it gave. *)
Theorem radix_insert_get s addr key child (n : nat) cells c :
  full_path (mem s) addr key n cells -> list.last cells = Some c -> c ∉ removelast cells ->
  ds * Z.of_nat (S n) < 64 -> 0 <= key < 2 ^ (ds * Z.of_nat (S n)) -> u64 child ->
  exists s', radix_insert addr key child (Z.of_nat (S n)) ds s = Ret (rd (mem s) c) s' /\
    radix_get addr key (Z.of_nat (S n)) ds s' = Ret child s' /\
    (forall key' n' cells' c', full_path (mem s) addr key' n' cells' -> list.last cells' = Some c' -> 0 <= key' ->
       ds * Z.of_nat (S n') < 64 -> c ∉ cells' ->
       radix_get addr key' (Z.of_nat (S n')) ds s = Ret (rd (mem s) c') s /\
       radix_get addr key' (Z.of_nat (S n')) ds s' = Ret (rd (mem s) c') s').
Proof.
  intros H Hlast Hfresh Hlt Hkey Hchild. exists (set_mem (wr (mem s) c child) s). split; [|split].
  - unfold radix_insert, shl_one. replace (ds <? 64) with true by lia. erewrite bind_Ret by reflexivity.
    rewrite (proj2 (Z.ltb_lt _ _) Hlt). erewrite bind_Ret by reflexivity.
    rewrite (BIT_pow2 (ds * Z.of_nat (S n))) by (split; [apply Z.mul_nonneg_nonneg; lia|exact Hlt]).
    rewrite (proj2 (Z.leb_gt _ _) (proj2 Hkey)).
    destruct (insert_loop s addr key (Z.of_nat (S n)) 1 n cells c H Hlast ltac:(lia) ltac:(lia) ltac:(nia))
      as (t & E & -> & Hb).
    rewrite (bind_Ret _ _ _ _ _ E). destruct mask_eq as [Em _].
    assert (Z.land key (BIT ds ⊖ 1) = digit_at key 0) as ->.
    { rewrite Em. replace (2 ^ ds - 1) with (Z.ones ds) by (rewrite Z.ones_equiv; lia).
      rewrite Z.land_ones by lia. unfold digit_at. by rewrite Z.mul_0_r, Z.pow_0_r, Z.div_1_r. }
    destruct (cell_elem t key O Hb) as [-> V].
    rewrite (bind_Ret _ _ _ _ _ (load64_eq _ _ V)), (bind_Ret _ _ _ _ _ (store64_eq _ _ _ V)). done.
  - erewrite radix_get_eq; [|by apply full_path_wr|done|lia|done]. cbn [mem set_mem].
    by rewrite rd_wr_eq, wrap64_small.
  - intros key' n' cells' c' H' Hlast' Hk' Hlt' Hc.
    assert (c <> c') by (intros ->; apply Hc; by apply list.last_Some_elem_of).
    split; [by apply (radix_get_eq s addr key' n' cells')|].
    erewrite radix_get_eq; [|apply full_path_wr; [done|]|done|done|done].
    + cbn [mem set_mem]. by rewrite rd_wr_ne by congruence.
    + intros Hin. apply Hc. clear -Hin. induction cells' as [|x [|y l] IH]; [done|by apply elem_of_nil in Hin|].
      cbn [removelast] in Hin. apply elem_of_cons in Hin as [->|Hin]; [by left|right; by apply IH].
Qed.
End Path.

(** A key that needs more digits than the tree has levels is refused. *)
Theorem radix_insert_key_too_large addr key child depth ds s :
  0 <= ds -> 0 <= depth -> ds * depth < 64 -> ds < 64 -> 2 ^ (ds * depth) <= key ->
  radix_insert addr key child depth ds s = Panic "addr_KEY_LARGER_THEN_RADIX" key depth ds.
Proof.
  intros H1 H2 H3 H4 Hk. unfold radix_insert, shl_one. replace (ds <? 64) with true by lia.
  erewrite bind_Ret by reflexivity. replace (ds * depth <? 64) with true by lia.
  erewrite bind_Ret by reflexivity. rewrite BIT_pow2 by nia.
  by replace (2 ^ (ds * depth) <=? key) with true by lia.
Qed.

(** [radix_remove] answers with the low byte of the address it removed: for
    a leaf on a 256-byte boundary the caller reads that nothing was there. *)
Theorem radix_remove_truncates addr key ds s c :
  1 <= ds <= 8 -> 0 <= key -> full_path ds (mem s) addr key 0 [c] ->
  exists s', radix_remove addr key 1 ds s = Ret (wrap8 (rd (mem s) c)) s' /\ rd (mem s') c = 0 /\
    (rd (mem s) c mod 256 = 0 -> radix_remove addr key 1 ds s = Ret 0 s').
Proof.
  intros Hds Hk H. destruct H as (Hb & -> & _). exists (set_mem (wr (mem s) (addr + 8 * digit_at ds key 0) 0) s).
  assert (radix_remove addr key 1 ds s = Ret (wrap8 (rd (mem s) (addr + 8 * digit_at ds key 0)))
    (set_mem (wr (mem s) (addr + 8 * digit_at ds key 0) 0) s)) as E.
  { unfold radix_remove, shl_one. replace (ds <? 64) with true by lia. erewrite bind_Ret by reflexivity.
    change (upto 1 1) with (@nil Z). cbn [for_until]. erewrite bind_Ret by reflexivity.
    destruct (mask_eq ds Hds) as [Em _].
    assert (Z.land key (BIT ds ⊖ 1) = digit_at ds key 0) as ->.
    { rewrite Em. replace (2 ^ ds - 1) with (Z.ones ds) by (rewrite Z.ones_equiv; lia).
      rewrite Z.land_ones by lia. unfold digit_at. by rewrite Z.mul_0_r, Z.pow_0_r, Z.div_1_r. }
    cbv zeta. destruct (cell_elem ds Hds addr key O Hb) as [-> V].
    rewrite (bind_Ret _ _ _ _ _ (load64_eq _ _ V)), (bind_Ret _ _ _ _ _ (store64_eq _ _ _ V)). done. }
  split; [exact E|]. cbn [mem set_mem]. split; [by rewrite rd_wr_eq|].
  intros Hz. rewrite E. unfold wrap8. by rewrite Hz.
Qed.

(** ** Witnesses: a tree of two levels of four-bit digits, its second node
    under digit 1. *)
Definition demo_root : Z := 0xffffffc080000000.
Definition demo_node : Z := demo_root + 128.
Definition demo_tree : kstate :=
  set_mem (wr (wr (wr ∅ (demo_root + 8) demo_node) (demo_node + 16) 512) (demo_node + 24) 77) zero_state.

Lemma demo_path d :
  0 <= d < 16 -> full_path 4 (mem demo_tree) demo_root (16 + d) 1 [demo_root + 8; demo_node + 8 * d].
Proof.
  intros Hd.
  assert (digit_at 4 (16 + d) 1 = 1) as E1
    by (unfold digit_at; change (2 ^ (4 * Z.of_nat 1)) with 16; change (2 ^ 4) with 16; dlia).
  assert (digit_at 4 (16 + d) 0 = d) as E0
    by (unfold digit_at; change (2 ^ (4 * Z.of_nat 0)) with 1; change (2 ^ 4) with 16; dlia).
  cbn [full_path]. rewrite E0, E1. split; [unfold kblock; zdone|]. split; [lia|].
  assert (rd (mem demo_tree) (demo_root + 8) = demo_node) as -> by zdone. split; [zdone|].
  split; [unfold kblock; zdone|]. split; [lia|reflexivity].
Qed.

Lemma radix_insert_get_witness :
  exists s', radix_insert demo_root 18 99 2 4 demo_tree = Ret 512 s' /\ radix_get demo_root 18 2 4 s' = Ret 99 s' /\
    radix_get demo_root 19 2 4 s' = Ret 77 s'.
Proof.
  destruct (radix_insert_get 4 ltac:(lia) demo_tree demo_root 18 99 1 _ (demo_node + 8 * 2) (demo_path 2 ltac:(lia))
    eq_refl) as (s' & E & Eg & Ho).
  - cbn. intros Hin. apply list_elem_of_singleton in Hin. unfold demo_node in Hin. lia.
  - lia.
  - zdone.
  - unfold u64; lia.
  - exists s'. split; [exact E|]. split; [exact Eg|].
    apply (Ho 19 1%nat _ (demo_node + 8 * 3) (demo_path 3 ltac:(lia)) eq_refl ltac:(lia) ltac:(lia)).
    intros Hin. apply elem_of_cons in Hin as [Hin|Hin]; [|apply list_elem_of_singleton in Hin];
      unfold demo_node in Hin; lia.
Defined.

Lemma radix_insert_key_too_large_witness :
  radix_insert demo_root 256 99 2 4 demo_tree = Panic "addr_KEY_LARGER_THEN_RADIX" 256 2 4.
Proof. exact (radix_insert_key_too_large demo_root 256 99 2 4 demo_tree ltac:(lia) ltac:(lia) ltac:(lia) ltac:(lia) ltac:(zdone)). Defined.

Lemma radix_remove_truncates_witness :
  exists s', radix_remove demo_node 2 1 4 demo_tree = Ret 0 s'.
Proof.
  destruct (radix_remove_truncates demo_node 2 4 demo_tree (demo_node + 8 * 2) ltac:(lia) ltac:(lia)) as (s' & E & _ & _).
  - split; [unfold kblock; zdone|]. split; [reflexivity|reflexivity].
  - exists s'. exact E.
Defined.
