(* ===== verification/Objects.v ===== *)
(** * The C structs the subsystems share

    Addresses of the fields of [process] ([kernel/process/process.h]),
    [process_handler_state], [trapframe] ([arch_trap/parser.h]), [inode],
    [dentry] and [file_descriptor] ([kernel/file_system]), laid out as the
    RISC-V C ABI does: every field at a multiple of its size. *)
From S2P Require Import Prelude Machine.

(** ** [process] *)
Definition proc_process_id (p : Z) : Z := p ⊕ 0.            (* u32 *)
Definition proc_block_waiting (p : Z) : Z := p ⊕ 8.
Definition proc_trap_state (p : Z) : Z := p ⊕ 16.           (* u32 *)
Definition proc_userspace_trapframe (p : Z) : Z := p ⊕ 24.
Definition proc_kernelspace_trapframe (p : Z) : Z := p ⊕ 32.
Definition proc_page_fault_trapframe (p : Z) : Z := p ⊕ 40.
Definition proc_vma_table (p : Z) : Z := p ⊕ 48.
Definition proc_vma_addr_space_id (p : Z) : Z := p ⊕ 56.
Definition proc_file_desc_pg (p : Z) : Z := p ⊕ 64.
Definition proc_file_desc_cnt (p : Z) : Z := p ⊕ 72.
Definition proc_runing_hart_id (p : Z) : Z := p ⊕ 80.       (* u16 *)
Definition proc_running (p : Z) : Z := p ⊕ 82.              (* u8 *)
Definition proc_exe_file (p : Z) : Z := p ⊕ 88.
Definition proc_working_dir (p : Z) : Z := p ⊕ 96.
Definition proc_process_type (p : Z) : Z := p ⊕ 104.        (* u32 *)
Definition proc_phys_kernel_stack_addr (p i : Z) : Z := p ⊕ (112 + 8 * i).
Definition proc_list_idx (p : Z) : Z := p ⊕ 144.
Definition proc_reading_userspace (p : Z) : Z := p ⊕ 152.   (* u8 *)
Definition proc_last_hart (p : Z) : Z := p ⊕ 160.
Definition sizeof_process : Z := 192.

Inductive process_type := PROC_TYPE_NORMAL | PROC_TYPE_IDLE | PROC_TYPE_DEAD.
Definition process_type_code (t : process_type) : Z :=
  match t with PROC_TYPE_NORMAL => 0 | PROC_TYPE_IDLE => 1 | PROC_TYPE_DEAD => 2 end.

Inductive process_trap_state :=
| PROC_TRAP_PROCESS
| PROC_TRAP_PROCESS_UNINTERRUPTABLE_TRAP
| PROC_TRAP_PROCESS_INTERRUPTABLE_TRAP
| PROC_TRAP_PROCESS_READ_USERSPACE.
Definition trap_state_code (t : process_trap_state) : Z :=
  match t with
  | PROC_TRAP_PROCESS => 0
  | PROC_TRAP_PROCESS_UNINTERRUPTABLE_TRAP => 1
  | PROC_TRAP_PROCESS_INTERRUPTABLE_TRAP => 2
  | PROC_TRAP_PROCESS_READ_USERSPACE => 3
  end.

#[export] Instance process_type_eq_dec : EqDecision process_type.
Proof. solve_decision. Defined.
#[export] Instance process_trap_state_eq_dec : EqDecision process_trap_state.
Proof. solve_decision. Defined.

(** ** [process_handler_state], the global [state] of process.c *)
Definition state_process_upto (st : Z) : Z := st ⊕ 0.
Definition state_process_hashmap (st : Z) : Z := st ⊕ 8.
Definition state_running_list (st : Z) : Z := st ⊕ 40.

(** ** [trapframe]: registers 1 to 31, then the trap CSRs *)
Definition tf_register (tf n : Z) : Z := tf ⊕ 8 * (n - 1).
Definition tf_scause (tf : Z) : Z := tf ⊕ 248.
Definition tf_sepc (tf : Z) : Z := tf ⊕ 256.
Definition tf_stval (tf : Z) : Z := tf ⊕ 264.
Definition tf_sstatus (tf : Z) : Z := tf ⊕ 272.
Definition tf_process_ptr (tf : Z) : Z := tf ⊕ 280.

(** ** [inode] *)
Definition inode_open_refs (i : Z) : Z := i ⊕ 0.            (* u32 *)
Definition inode_link_refs (i : Z) : Z := i ⊕ 4.            (* u32 *)
Definition inode_type (i : Z) : Z := i ⊕ 8.                 (* u32 *)
Definition inode_size (i : Z) : Z := i ⊕ 16.
Definition inode_radix_root (i lvl : Z) : Z := i ⊕ (24 + 8 * lvl).

(** ** [dentry] *)
Definition dentry_name (d : Z) : Z := d ⊕ 0.                (* char [256] *)
Definition dentry_type (d : Z) : Z := d ⊕ 256.              (* u32 *)
Definition dentry_union (d : Z) : Z := d ⊕ 264.             (* list, or inode * *)
Definition dentry_open_refs (d : Z) : Z := d ⊕ 296.         (* u32 *)
Definition dentry_link_refs (d : Z) : Z := d ⊕ 300.         (* u32 *)
Definition dentry_parent (d : Z) : Z := d ⊕ 304.
Definition sizeof_dentry : Z := 312.

(** ** [file_descriptor] *)
Definition fd_file (f : Z) : Z := f ⊕ 0.
Definition fd_seek_pos (f : Z) : Z := f ⊕ 8.
Definition fd_access_mode (f : Z) : Z := f ⊕ 16.            (* u8 *)
Definition fd_virt_mapped_loc (f : Z) : Z := f ⊕ 24.
Definition sizeof_file_descriptor : Z := 32.

(** ** Fields in a struct *)

(** The word at byte offset [k] of a struct of [n] bytes. *)
Lemma field_addr a n k :
  kblock a n -> 0 <= k -> k + 8 <= n -> k mod 8 = 0 -> a ⊕ k = a + k /\ valid64 (a + k).
Proof.
  intros (H1 & H2 & H3) Hk Hn Hm. unfold KERNEL_VMA_START in H1.
  assert (a ⊕ k = a + k) as -> by (apply wrap64_small; lia). split; [done|].
  unfold valid64, access_ok, kernel_mapped, KERNEL_VMA_START. apply andb_true_iff. split; [lia|].
  apply Z.eqb_eq. clear -H3 Hm. dlia.
Qed.

Lemma load_field_addr a n k s :
  kblock a n -> 0 <= k -> k + 8 <= n -> k mod 8 = 0 -> load64 (a ⊕ k) s = Ret (rd (mem s) (a + k)) s.
Proof. intros H H0 Hn Hm. destruct (field_addr a n k H H0 Hn Hm) as [-> V]. by apply load64_eq. Qed.

Lemma store_field_addr a n k v s :
  kblock a n -> 0 <= k -> k + 8 <= n -> k mod 8 = 0 ->
  store64 (a ⊕ k) v s = Ret tt (set_mem (wr (mem s) (a + k) v) s).
Proof. intros H H0 Hn Hm. destruct (field_addr a n k H H0 Hn Hm) as [-> V]. by apply store64_eq. Qed.

(** A narrower field. *)
Lemma load_narrow a n w k s :
  kblock a n -> width w -> 0 <= k -> k + w <= n -> k mod w = 0 ->
  load_field w (a ⊕ k) s = Ret (rd_field w (mem s) (a + k)) s.
Proof.
  intros (H1 & H2 & H3) Hw Hk Hn Hm. unfold KERNEL_VMA_START in H1.
  assert (0 < w) by (destruct Hw as [->|[->|[->| ->]]]; lia).
  assert (a ⊕ k = a + k) as -> by (apply wrap64_small; lia). unfold load_field.
  replace (access_ok w (a + k)) with true; [done|]. symmetry.
  unfold access_ok, kernel_mapped, KERNEL_VMA_START. apply andb_true_iff. split; [lia|].
  apply Z.eqb_eq. clear -H3 Hm Hw. destruct Hw as [->|[->|[->| ->]]]; dlia.
Qed.

Lemma store_narrow a n w k v s :
  kblock a n -> width w -> 0 <= k -> k + w <= n -> k mod w = 0 ->
  store_field w (a ⊕ k) v s = Ret tt (set_mem (wr_field w (mem s) (a + k) v) s).
Proof.
  intros H Hw Hk Hn Hm. pose proof (load_narrow a n w k s H Hw Hk Hn Hm) as L.
  destruct H as (H1 & H2 & H3). unfold KERNEL_VMA_START in H1.
  assert (a ⊕ k = a + k) as E by (apply wrap64_small; destruct Hw as [->|[->|[->| ->]]]; lia).
  rewrite E in *. unfold load_field, store_field in *. by destruct (access_ok w (a + k)).
Qed.
