(* ===== verification/Vma.v ===== *)
(** * Page tables ([arch/risc-v/arch_vma/virtual_memory.c])

    Tables of the sv39 scheme, built through the identity mapping of the upper
    half; the walk the hardware makes is [sv39_walk].  The fences for the TLB are
    recorded in the state. *)
From S2P Require Import Prelude Machine Strings Pager Pages List Objects.

(** ** The code *)

Definition VMA_VALID : Z := 1.
Definition VMA_READ : Z := 2.
Definition VMA_WRITE : Z := 4.
Definition VMA_EXEC : Z := 8.
Definition VMA_USER : Z := 16.
Definition VMA_GLOBAL : Z := 32.
Definition VMA_ACCESSED : Z := 64.
Definition VMA_DIRTY : Z := 128.
Definition VMA_DONT_COMPRESS : Z := 256.

Definition create_leaf (phys_addr arg_flags : Z) : Z :=
  if arg_flags =? 0 then 0
  else Z.lor (Z.lor (wrap64 (Z.shiftl ((phys_addr ⊖ KERNEL_VMA_START) / 4096) 10)) arg_flags) VMA_VALID.

Definition create_branch (branch_addr : Z) : Z :=
  Z.lor (wrap64 (Z.shiftl ((branch_addr ⊖ KERNEL_VMA_START) / 4096) 10)) VMA_VALID.

(** The page of an entry, as a kernel address. *)
Definition entry_page (leaf_data : Z) : Z :=
  (Z.land (Z.shiftr leaf_data 10) (BIT 44 ⊖ 1) ⊗ 4096) ⊕ KERNEL_VMA_START.

Definition get_branch_loc (leaf_data : Z) : Z :=
  if negb (Z.land leaf_data (BIT 10 ⊖ 1) =? 1) then 0 else entry_page leaf_data.

Definition get_leaf_flags (leaf_data : Z) : Z := Z.land (BIT 10 ⊖ 1) leaf_data.

Definition get_phys_leaf_loc (leaf_data : Z) : Z :=
  if Z.land leaf_data (BIT 10 ⊖ 1) <=? 1 then 0 else entry_page leaf_data.

Definition expand_leaf (leaf branch_jmp_size : Z) : M Z :=
  new_branch ← pg_alloc;
  v ← load64 leaf;
  let physical_location := get_phys_leaf_loc v in
  let flags := get_leaf_flags v in
  if negb (Z.land flags VMA_DONT_COMPRESS =? 0) then PANIC "ATTEMPT_TO_EXPAND_NON_COMPRESS_LEAF" 0 0 0 else
  store64 leaf (create_branch new_branch) ;;
  v ← load64 leaf;
  if v =? 0 then mret new_branch else
  for_each (upto 0 512) (fun i =>
    store64 (elem64 new_branch i) (create_leaf (physical_location ⊕ i ⊗ (branch_jmp_size / 512)) flags)) ;;
  mret new_branch.

(** The recursion has no bound of its own: it stops where an entry is no
    branch.  [depth] bounds it. *)
Fixpoint destroy_branch (depth : nat) (branch_loc branch_jmp_size : Z) : M unit :=
  match depth with
  | O => out_of_fuel
  | S d =>
      v ← load64 branch_loc;
      let physical_loc := get_branch_loc v in
      if physical_loc =? 0 then skip
      else
        for_each (upto 0 512) (fun i =>
          e ← load64 (elem64 physical_loc i); destroy_branch d e (branch_jmp_size / 512)) ;;
        pg_free physical_loc
  end.

(** [can_shrink], for a table that starts unmapped and for one that does not. *)
Definition can_shrink_unmapped (branch_leafs : Z) : M bool :=
  for_fold (upto 0 512) (fun can i => e ← load64 (elem64 branch_leafs i); mret (can && (e =? 0))) true.
Definition can_shrink_mapped (branch_leafs leaf_jmp_size : Z) : M bool :=
  first ← load64 (elem64 branch_leafs 0);
  let start_phys_loc := get_phys_leaf_loc first in
  let start_access_flags := get_leaf_flags first in
  for_fold (upto 0 512) (fun can i =>
    e ← load64 (elem64 branch_leafs i);
    let iter_flags := get_leaf_flags e in
    mret (can && (get_phys_leaf_loc e =? start_phys_loc ⊕ leaf_jmp_size ⊗ i) &&
          (iter_flags =? start_access_flags) && (Z.land iter_flags VMA_DONT_COMPRESS =? 0))) true.

(** In the mapped case the new leaf is computed and dropped. *)
Definition shrink_branch (branch_loc branch_jmp_size : Z) : M unit :=
  v ← load64 branch_loc;
  let branch_leafs := get_branch_loc v in
  if branch_leafs =? 0 then skip else
  let leaf_jmp_size := branch_jmp_size / 512 in
  first ← load64 (elem64 branch_leafs 0);
  can_shrink ← (if first =? 0 then can_shrink_unmapped branch_leafs
                else can_shrink_mapped branch_leafs leaf_jmp_size);
  when can_shrink
    (first ← load64 (elem64 branch_leafs 0);
     if first =? 0 then store64 branch_loc 0 ;; pg_free branch_leafs
     else pg_free branch_leafs).

Definition ppn0_jmp_size : Z := 4096.
Definition ppn1_jmp_size : Z := 4096 * 512.
Definition ppn2_jmp_size : Z := 4096 * 512 * 512.

(** The locals of the loop that splits a mapping into entries of each level. *)
Record vma_counts := mkCounts {
  mapping_left : Z;
  cur_virt_addr : Z;
  pre_ppn0_cnt : Z;
  pre_ppn1_cnt : Z;
  ppn2_cnt : Z;
  post_ppn1_cnt : Z;
  post_ppn0_cnt : Z;
  highest_reached_ppn : Z;
}.

Definition start_counts (virt_addr_size normal_virt_addr : Z) : vma_counts :=
  mkCounts virt_addr_size normal_virt_addr 0 0 0 0 0 0.

(** Both tests of the second one compare with the size of level 2. *)
Definition reach (c : vma_counts) : Z :=
  let at_ppn2 := ROUND_MOD_DOWN (cur_virt_addr c) ppn2_jmp_size =? cur_virt_addr c in
  let h := if at_ppn2 && (highest_reached_ppn c <? 2) then 2 else highest_reached_ppn c in
  if at_ppn2 && (h <? 1) then 1 else h.

Definition count_step (virt_addr_start virt_addr_size phys_addr : Z) (c : vma_counts)
  : M (vma_counts + vma_counts) :=
  if mapping_left c =? 0 then mret (inr c) else
  let cur := cur_virt_addr c in
  let left := mapping_left c in
  let h := reach c in
  let fits jmp := (ROUND_MOD_DOWN cur jmp =? cur) && (jmp <=? left) in
  if fits ppn2_jmp_size then
    mret (inl (mkCounts (left ⊖ ppn2_jmp_size) (cur ⊕ ppn2_jmp_size) (pre_ppn0_cnt c) (pre_ppn1_cnt c)
      (ppn2_cnt c ⊕ 1) (post_ppn1_cnt c) (post_ppn0_cnt c) h))
  else if fits ppn1_jmp_size then
    mret (inl (if 1 <? h
      then mkCounts (left ⊖ ppn1_jmp_size) (cur ⊕ ppn1_jmp_size) (pre_ppn0_cnt c) (pre_ppn1_cnt c)
             (ppn2_cnt c) (post_ppn1_cnt c ⊕ 1) (post_ppn0_cnt c) h
      else mkCounts (left ⊖ ppn1_jmp_size) (cur ⊕ ppn1_jmp_size) (pre_ppn0_cnt c) (pre_ppn1_cnt c ⊕ 1)
             (ppn2_cnt c) (post_ppn1_cnt c) (post_ppn0_cnt c) h))
  else if fits ppn0_jmp_size then
    mret (inl (if 0 <? h
      then mkCounts (left ⊖ ppn0_jmp_size) (cur ⊕ ppn0_jmp_size) (pre_ppn0_cnt c) (pre_ppn1_cnt c)
             (ppn2_cnt c) (post_ppn1_cnt c) (post_ppn0_cnt c ⊕ 1) h
      else mkCounts (left ⊖ ppn0_jmp_size) (cur ⊕ ppn0_jmp_size) (pre_ppn0_cnt c ⊕ 1) (pre_ppn1_cnt c)
             (ppn2_cnt c) (post_ppn1_cnt c) (post_ppn0_cnt c) h))
  else PANIC "BAD_SIZE_LEFT_MAPPING" virt_addr_start virt_addr_size phys_addr.

(** The address of a mapping with the kernel half moved down to follow the
    user half. *)
Definition normalize (virt_addr_start : Z) : Z :=
  virt_addr_start ⊖ ((0xffffffc000000000 - 0x4000000000) *
    (if 0xffffffc000000000 <=? virt_addr_start then 1 else 0)).

(** [n] entries of one level from index [idx] on; [destroys] for the two upper
    levels.  The locals [cur_offset] and [idx] are returned. *)
Definition fill_entries (destroys : bool) (table jmp phys_addr access_flags n : Z) (st : Z * Z) : M (Z * Z) :=
  for_fold (upto 0 n) (fun '(cur_offset, idx) _ =>
    when destroys
      (e ← load64 (elem64 table idx);
       when (negb (get_branch_loc e =? 0)) (destroy_branch 64 e jmp)) ;;
    store64 (elem64 table idx) (create_leaf (phys_addr ⊕ cur_offset) access_flags) ;;
    mret (cur_offset ⊕ jmp, idx ⊕ 1)) st.

(** The table an entry points to; an entry that is no branch is expanded when
    the table is needed. *)
Definition table_of_entry (entry : Z) (needed : bool) (jmp : Z) : M Z :=
  e ← load64 entry;
  if (get_branch_loc e =? 0) && needed then expand_leaf entry jmp else mret (get_branch_loc e).

(** The second round of loops: a fence for each entry written.  One loop, with
    its local [cur_offset], and the five of them. *)
Definition fence_entries (virt_addr_start asid jmp n cur_offset : Z) : M Z :=
  for_fold (upto 0 n) (fun cur_offset _ =>
    sfence_vma (Some (virt_addr_start ⊕ cur_offset)) (Some asid) ;;
    mret (cur_offset ⊕ jmp)) cur_offset.

Definition fence_section (virt_addr_start asid : Z) (c : vma_counts) : M unit :=
  cur_offset ← fence_entries virt_addr_start asid ppn0_jmp_size (pre_ppn0_cnt c) 0;
  cur_offset ← fence_entries virt_addr_start asid ppn1_jmp_size (pre_ppn1_cnt c) cur_offset;
  cur_offset ← fence_entries virt_addr_start asid ppn2_jmp_size (ppn2_cnt c) cur_offset;
  cur_offset ← fence_entries virt_addr_start asid ppn1_jmp_size (post_ppn1_cnt c) cur_offset;
  _ ← fence_entries virt_addr_start asid ppn0_jmp_size (post_ppn0_cnt c) cur_offset;
  skip.

(** The address space the fences name: 0 when the hart has no identifiers. *)
Definition fence_asid (s : kstate) (vma_addr_asid : Z) : Z := if max_asid (vma s) =? 0 then 0 else vma_addr_asid.

(** The entries after the whole gigabytes. *)
Definition post_section (table_root i2 phys_addr access_flags : Z) (c : vma_counts) (cur_offset : Z) : M unit :=
  post_ppn1_table ← table_of_entry (elem64 table_root i2)
    ((0 <? post_ppn1_cnt c) || (0 <? post_ppn0_cnt c)) ppn2_jmp_size;
  '(cur_offset, i1) ← fill_entries true post_ppn1_table ppn1_jmp_size phys_addr access_flags (post_ppn1_cnt c) (cur_offset, 0);
  when (0 <? post_ppn0_cnt c)
    (post_ppn0_table ← table_of_entry (elem64 post_ppn1_table i1) true ppn1_jmp_size;
     _ ← fill_entries false post_ppn0_table ppn0_jmp_size phys_addr access_flags (post_ppn0_cnt c) (cur_offset, 0);
     shrink_branch (elem64 post_ppn1_table i1) ppn1_jmp_size) ;;
  shrink_branch (elem64 table_root i2) ppn2_jmp_size.

Definition vma_replace_section (table_root virt_addr_start virt_addr_size phys_addr access_flags
    vma_addr_asid : Z) : M unit :=
  asid ← gets (fun s => fence_asid s vma_addr_asid);
  let is_kernelspace := 0xffffffc000000000 <=? virt_addr_start in
  let normal_virt_addr := normalize virt_addr_start in
  if ppn2_jmp_size * 256 <? virt_addr_size then
    PANIC "VMA_MAPPING_LARGER_THEN_MAX_SIZE" virt_addr_size 0 0
  else if (0x4000000000 ⊖ virt_addr_size <? normal_virt_addr) && negb is_kernelspace then
    PANIC "VMA_MAPPING_PAST_MAX_USERSPACE" virt_addr_start virt_addr_size phys_addr
  else if (0x8000000000 ⊖ virt_addr_size <? normal_virt_addr) && is_kernelspace then
    PANIC "VMA_MAPPING_PAST_MAX_KERNELSPACE" virt_addr_start virt_addr_size phys_addr
  else
  c ← while_true (count_step virt_addr_start virt_addr_size phys_addr)
        (start_counts virt_addr_size normal_virt_addr);
  let i2 := normal_virt_addr / ppn2_jmp_size in
  let i1 := normal_virt_addr mod ppn2_jmp_size / ppn1_jmp_size in
  let i0 := normal_virt_addr mod ppn1_jmp_size / ppn0_jmp_size in
  pre_ppn1_table ← table_of_entry (elem64 table_root i2)
    ((0 <? pre_ppn1_cnt c) || (0 <? pre_ppn0_cnt c)) ppn2_jmp_size;
  pre_ppn0_table ← table_of_entry (elem64 pre_ppn1_table i1) (0 <? pre_ppn0_cnt c) ppn1_jmp_size;
  '(cur_offset, _) ← fill_entries false pre_ppn0_table ppn0_jmp_size phys_addr access_flags (pre_ppn0_cnt c) (0, i0);
  shrink_branch (elem64 pre_ppn1_table i1) ppn1_jmp_size ;;
  '(cur_offset, _) ← fill_entries true pre_ppn1_table ppn1_jmp_size phys_addr access_flags (pre_ppn1_cnt c) (cur_offset, i1);
  shrink_branch (elem64 table_root i2) ppn2_jmp_size ;;
  '(cur_offset, i2) ← fill_entries true table_root ppn2_jmp_size phys_addr access_flags (ppn2_cnt c) (cur_offset, i2);
  post_section table_root i2 phys_addr access_flags c cur_offset ;;
  fence_section virt_addr_start asid c.

Definition vma_map (extra proc virt_addr size phys_addr access_flags : Z) : M unit :=
  table ← load64 (proc_vma_table proc);
  asid ← load64 (proc_vma_addr_space_id proc);
  vma_replace_section table virt_addr size phys_addr (Z.lor access_flags extra) asid.

Definition vma_map_kernel : Z -> Z -> Z -> Z -> Z -> M unit :=
  vma_map (Z.lor (Z.lor VMA_VALID VMA_DIRTY) VMA_ACCESSED).
Definition vma_map_user : Z -> Z -> Z -> Z -> Z -> M unit :=
  vma_map (Z.lor (Z.lor (Z.lor VMA_VALID VMA_USER) VMA_DIRTY) VMA_ACCESSED).

Definition vma_unmap (proc virt_addr size : Z) : M unit :=
  table ← load64 (proc_vma_table proc);
  asid ← load64 (proc_vma_addr_space_id proc);
  vma_replace_section table virt_addr size 0 0 asid.

Definition vma_create (proc : Z) : M unit :=
  new_page_addr ← pg_alloc;
  let access_mask := Z.lor (Z.lor (Z.lor VMA_VALID VMA_READ) VMA_WRITE) VMA_EXEC in
  for_each (upto 0 256) (fun i =>
    store64 (elem64 new_page_addr (256 + i)) (Z.lor (wrap64 (Z.shiftl i 28)) access_mask)) ;;
  store64 (proc_vma_table proc) new_page_addr.

Definition vma_init : M unit :=
  v ← gets satp;
  sfence_vma None None ;;
  let asid := Z.land (Z.shiftr v 44) (BIT 16 ⊖ 1) in
  modify (set_vma (mkVma asid asid)).

Definition processes_iter : M list_iter :=
  syms ← gets symbols;
  list_iter_create (state_running_list (sym_process_state syms)).

Definition vma_reset_asid : M unit :=
  g ← gets vma;
  modify (set_vma (mkVma (max_asid g) 0)) ;;
  sfence_vma None None ;;
  if max_asid g =? 0 then skip else
  iter ← processes_iter;
  while_true (fun iter =>
    item_cnt ← load64 (elem64 (cur_list iter) 2);
    if negb (cur_upto iter <? item_cnt) then mret (inr tt) else
    '(proc, iter) ← list_iter_next iter;
    if proc =? 0 then PANIC "PROC_ASID_LOOP_INVALID" 0 0 0 else
    store64 (proc_vma_addr_space_id proc) U64_MAX ;;
    mret (inl iter)) iter.

Definition vma_fetch_asid : M Z :=
  g ← gets vma;
  if max_asid g =? 0 then vma_reset_asid ;; mret 0 else
  (if max_asid g <=? current_highest_asid g then
     vma_reset_asid ;; modify (fun s => set_vma (mkVma (max_asid (vma s)) 0) s)
   else modify (set_vma (mkVma (max_asid g) (current_highest_asid g ⊕ 1)))) ;;
  g ← gets vma;
  mret (current_highest_asid g).

Definition vma_swap (process : Z) : M unit :=
  a ← load64 (proc_vma_addr_space_id process);
  g ← gets vma;
  let new_vma := (a =? U64_MAX) || (max_asid g =? 0) in
  when new_vma
    (a ← vma_fetch_asid; store64 (proc_vma_addr_space_id process) a) ;;
  a ← load64 (proc_vma_addr_space_id process);
  table ← load64 (proc_vma_table process);
  modify (set_satp (Z.lor (Z.lor (wrap64 (Z.shiftl a 44)) (wrap64 (Z.shiftl 8 60)))
    ((table ⊖ KERNEL_VMA_START) / 4096))) ;;
  g ← gets vma;
  if negb (max_asid g =? 0) then
    when new_vma (a ← load64 (proc_vma_addr_space_id process); sfence_vma None (Some a))
  else sfence_vma None None.

Definition vma_enable_read_user : M unit := modify (set_sum true).
Definition vma_disable_read_user : M unit := modify (set_sum false).

(** ** The walk of the hardware

    Physical page [p] is read at [p + KERNEL_VMA_START].  The result is the
    physical address and the flag bits. *)
Definition pte_ppn (e : Z) : Z := Z.shiftr e 10 mod 2 ^ 44.
Definition pte_flags (e : Z) : Z := e mod 1024.

Definition level_shift (level : nat) : Z := 12 + 9 * Z.of_nat level.
Definition vpn (va : Z) (level : nat) : Z := va / 2 ^ level_shift level mod 512.

Fixpoint sv39_walk (m : gmap Z Z) (table va : Z) (level : nat) : option (Z * Z) :=
  let e := rd m (table + 8 * vpn va level) in
  if negb (Z.testbit e 0) then None
  else if negb (Z.land e 14 =? 0) then
    if pte_ppn e mod 2 ^ (9 * Z.of_nat level) =? 0
    then Some (pte_ppn e * 4096 + va mod 2 ^ level_shift level, pte_flags e)
    else None
  else match level with
       | O => None
       | S l => sv39_walk m (pte_ppn e * 4096 + KERNEL_VMA_START) va l
       end.

(** ** Entries *)

(** A page of the identity mapping. *)
Definition page_ok (a : Z) : Prop :=
  KERNEL_VMA_START <= a < 18446744073709551616 /\ a mod 4096 = 0.

Lemma lor_low n g k : 0 <= k -> 0 <= g < 2 ^ k -> Z.lor (Z.shiftl n k) g = n * 2 ^ k + g.
Proof.
  intros Hk Hg. apply Z.bits_inj'. intros j Hj. rewrite Z.lor_spec. destruct (Z.lt_ge_cases j k).
  - rewrite Z.shiftl_spec_low by done. cbn [orb].
    rewrite <- (Z.mod_pow2_bits_low (n * 2 ^ k + g) k j) by lia.
    by rewrite Z.add_comm, Z_mod_plus_full, Z.mod_small by done.
  - rewrite Z.shiftl_spec by lia. rewrite <- (Z.mod_small _ _ Hg), Z.mod_pow2_bits_high by lia.
    rewrite orb_false_r. replace j with (j - k + k) at 2 by lia. rewrite <- Z.shiftr_spec by lia.
    rewrite Z.shiftr_div_pow2, (Z.mod_small _ _ Hg) by lia. f_equal.
    rewrite Z.div_add_l, (Z.div_small g) by lia. lia.
Qed.

(** An entry for page number [n] with flags [f]. *)
Definition pte (n f : Z) : Z := n * 1024 + f.

Section Entry.
Context (n f : Z) (Hn : 0 <= n < 2 ^ 26) (Hf : 0 <= f < 1024).

Lemma pte_shiftr : Z.shiftr (pte n f) 10 = n.
Proof. rewrite Z.shiftr_div_pow2 by lia. change (2 ^ 10) with 1024. unfold pte. dlia. Qed.

Lemma pte_u64 : u64 (pte n f).
Proof. unfold u64, pte. change (2 ^ 26) with 67108864 in Hn. lia. Qed.

Lemma pte_ppn_eq : pte_ppn (pte n f) = n.
Proof.
  unfold pte_ppn. rewrite pte_shiftr. apply Z.mod_small. change (2 ^ 26) with 67108864 in Hn.
  change (2 ^ 44) with 17592186044416. lia.
Qed.

Lemma pte_flags_eq : pte_flags (pte n f) = f.
Proof. unfold pte_flags, pte. dlia. Qed.

Lemma pte_land_low : Z.land (pte n f) 1023 = f /\ Z.land 1023 (pte n f) = f.
Proof.
  assert (Z.land (pte n f) 1023 = f) as E.
  { change 1023 with (Z.ones 10). rewrite Z.land_ones by lia. apply pte_flags_eq. }
  split; [done|]. by rewrite Z.land_comm.
Qed.

Lemma pte_testbit k : 0 <= k < 10 -> Z.testbit (pte n f) k = Z.testbit f k.
Proof.
  intros Hk. rewrite <- (Z.mod_pow2_bits_low (pte n f) 10) by lia. change (2 ^ 10) with 1024.
  by fold (pte_flags (pte n f)); rewrite pte_flags_eq.
Qed.

Lemma pte_land_mask mask : 0 <= mask < 1024 -> Z.land (pte n f) mask = Z.land f mask.
Proof.
  intros Hm. apply Z.bits_inj'. intros k Hk. rewrite !Z.land_spec. destruct (Z.lt_ge_cases k 10).
  - by rewrite pte_testbit by lia.
  - assert (Z.testbit mask k = false) as ->; [|by rewrite !andb_false_r].
    rewrite <- (Z.mod_small mask (2 ^ 10)) by done. apply Z.mod_pow2_bits_high. lia.
Qed.

Lemma entry_page_eq : entry_page (pte n f) = n * 4096 + KERNEL_VMA_START.
Proof.
  unfold entry_page. rewrite pte_shiftr. change (BIT 44 ⊖ 1) with (Z.ones 44). rewrite Z.land_ones by lia.
  change (2 ^ 26) with 67108864 in Hn. rewrite Z.mod_small by (change (2 ^ 44) with 17592186044416; lia).
  unfold KERNEL_VMA_START. rewrite (wrap64_small (n * 4096)), wrap64_small by lia. done.
Qed.
End Entry.

Lemma page_number a : page_ok a ->
  0 <= (a - KERNEL_VMA_START) / 4096 < 2 ^ 26 /\ (a - KERNEL_VMA_START) / 4096 * 4096 + KERNEL_VMA_START = a.
Proof.
  unfold page_ok, KERNEL_VMA_START. intros [H1 H2]. change (2 ^ 26) with 67108864. dlia.
Qed.

Lemma lor_one_range f : 0 <= f < 1024 -> 0 <= Z.lor f 1 < 1024.
Proof.
  intros Hf. split; [apply Z.lor_nonneg; lia|].
  rewrite <- (Z.mod_small f (2 ^ 10)) by done.
  destruct (Z.eq_dec (Z.lor (f mod 2 ^ 10) 1) 0) as [->|Hne]; [lia|].
  apply (Z.log2_lt_cancel _ 1024). rewrite Z.log2_lor by (first [lia | apply Z.mod_pos_bound; lia]).
  rewrite (Z.mod_small f) by done. change (Z.log2 1) with 0. change (Z.log2 1024) with 10.
  destruct (Z.eq_dec f 0) as [->|]; [done|]. assert (Z.log2 f < 10) by (apply Z.log2_lt_pow2; lia).
  pose proof (Z.log2_nonneg f). lia.
Qed.

(** What the two constructors build. *)
Lemma create_leaf_pte a f : page_ok a -> 0 < f < 1024 ->
  create_leaf a f = pte ((a - KERNEL_VMA_START) / 4096) (Z.lor f 1).
Proof.
  intros Ha Hf. destruct (page_number a Ha) as [Hn _]. unfold create_leaf.
  destruct (Z.eqb_spec f 0); [lia|]. destruct Ha as [[H1 H2] _]. unfold KERNEL_VMA_START in *.
  rewrite (wrap64_small (a - _)) by lia. rewrite <- Z.lor_assoc. change VMA_VALID with 1.
  change (2 ^ 26) with 67108864 in Hn. rewrite (wrap64_small (Z.shiftl _ 10)).
  - rewrite lor_low by (first [lia | change (2 ^ 10) with 1024; apply lor_one_range; lia]). done.
  - rewrite Z.shiftl_mul_pow2 by lia. change (2 ^ 10) with 1024. lia.
Qed.

Lemma create_branch_pte a : page_ok a -> create_branch a = pte ((a - KERNEL_VMA_START) / 4096) 1.
Proof.
  intros Ha. destruct (page_number a Ha) as [Hn _]. unfold create_branch.
  destruct Ha as [[H1 H2] _]. unfold KERNEL_VMA_START in *.
  rewrite (wrap64_small (a - _)) by lia. change VMA_VALID with 1.
  change (2 ^ 26) with 67108864 in Hn. rewrite (wrap64_small (Z.shiftl _ 10)).
  - rewrite lor_low by (first [lia | change (2 ^ 10) with 1024; lia]). done.
  - rewrite Z.shiftl_mul_pow2 by lia. change (2 ^ 10) with 1024. lia.
Qed.

Lemma branch_loc_pte n f : 0 <= n < 2 ^ 26 -> 0 <= f < 1024 ->
  get_branch_loc (pte n f) = if f =? 1 then n * 4096 + KERNEL_VMA_START else 0.
Proof.
  intros Hn Hf. unfold get_branch_loc. change (BIT 10 ⊖ 1) with 1023.
  destruct (pte_land_low n f Hn Hf) as [-> _]. destruct (f =? 1); [|done]. by apply entry_page_eq.
Qed.

Lemma leaf_loc_pte n f : 0 <= n < 2 ^ 26 -> 0 <= f < 1024 ->
  get_phys_leaf_loc (pte n f) = if f <=? 1 then 0 else n * 4096 + KERNEL_VMA_START.
Proof.
  intros Hn Hf. unfold get_phys_leaf_loc. change (BIT 10 ⊖ 1) with 1023.
  destruct (pte_land_low n f Hn Hf) as [-> _]. destruct (f <=? 1); [done|]. by apply entry_page_eq.
Qed.

Lemma leaf_flags_pte n f : 0 <= n < 2 ^ 26 -> 0 <= f < 1024 -> get_leaf_flags (pte n f) = f.
Proof. intros Hn Hf. unfold get_leaf_flags. change (BIT 10 ⊖ 1) with 1023. by apply pte_land_low. Qed.

(** Entries are read back as they were made: a branch gives its table and
    is no leaf, a leaf gives its page and its flags (with the valid bit) and is
    no branch, a leaf without flags is the unmapped entry. *)
Theorem pte_round_trip a f :
  page_ok a -> 0 <= f < 1024 -> 1 < Z.lor f 1 ->
  get_branch_loc (create_branch a) = a /\ get_phys_leaf_loc (create_branch a) = 0 /\
  get_phys_leaf_loc (create_leaf a f) = a /\ get_leaf_flags (create_leaf a f) = Z.lor f 1 /\
  get_branch_loc (create_leaf a f) = 0 /\ create_leaf a 0 = 0.
Proof.
  intros Ha Hf Hfl. destruct (page_number a Ha) as [Hn Ea].
  assert (0 < f) by (destruct (Z.eq_dec f 0) as [->|]; [change (1 < 1) in Hfl|]; lia).
  pose proof (lor_one_range f Hf) as Hr.
  rewrite create_branch_pte, create_leaf_pte by (done || lia).
  rewrite !branch_loc_pte, !leaf_loc_pte, leaf_flags_pte by (done || lia).
  replace (Z.lor f 1 <=? 1) with false by lia. replace (Z.lor f 1 =? 1) with false by lia.
  cbn [Z.eqb Z.leb Pos.eqb]. split_and!; try done.
Qed.

(** ** The hardware walk, level by level *)

Lemma walk_leaf m table va level n f :
  rd m (table + 8 * vpn va level) = pte n f -> 0 <= n < 2 ^ 26 -> 0 <= f < 1024 ->
  Z.testbit f 0 = true -> Z.land f 14 <> 0 -> n mod 2 ^ (9 * Z.of_nat level) = 0 ->
  sv39_walk m table va level = Some (n * 4096 + va mod 2 ^ level_shift level, f).
Proof.
  intros E Hn Hf Hv Hl Ha.
  assert (Hs : (if negb (Z.testbit (pte n f) 0) then None
    else if negb (Z.land (pte n f) 14 =? 0) then
      if pte_ppn (pte n f) mod 2 ^ (9 * Z.of_nat level) =? 0
      then Some (pte_ppn (pte n f) * 4096 + va mod 2 ^ level_shift level, pte_flags (pte n f)) else None
    else match level with O => None | S l => sv39_walk m (pte_ppn (pte n f) * 4096 + KERNEL_VMA_START) va l end) =
    Some (n * 4096 + va mod 2 ^ level_shift level, f)).
  { rewrite pte_testbit, Hv, pte_land_mask by (done || lia). cbn [negb].
    destruct (Z.eqb_spec (Z.land f 14) 0); [done|]. cbn [negb].
    rewrite pte_ppn_eq, pte_flags_eq by done. by rewrite Ha. }
  destruct level; cbn [sv39_walk]; rewrite E; exact Hs.
Qed.

Lemma walk_branch m table va level n f :
  rd m (table + 8 * vpn va (S level)) = pte n f -> 0 <= n < 2 ^ 26 -> 0 <= f < 1024 ->
  Z.testbit f 0 = true -> Z.land f 14 = 0 ->
  sv39_walk m table va (S level) = sv39_walk m (n * 4096 + KERNEL_VMA_START) va level.
Proof.
  intros E Hn Hf Hv Hl. cbn [sv39_walk]. rewrite E, pte_testbit, Hv, pte_land_mask by (done || lia).
  rewrite Hl. cbn [negb Z.eqb]. by rewrite pte_ppn_eq.
Qed.

Lemma walk_invalid m table va level :
  Z.testbit (rd m (table + 8 * vpn va level)) 0 = false -> sv39_walk m table va level = None.
Proof. intros H. destruct level; cbn [sv39_walk]; by rewrite H. Qed.

(** ** A new address space *)

Definition identity_pte (i : Z) : Z := Z.lor (wrap64 (Z.shiftl i 28)) 15.

Lemma identity_pte_eq i : 0 <= i < 256 -> identity_pte i = pte (i * 262144) 15.
Proof.
  intros Hi. unfold identity_pte. rewrite wrap64_small.
  - rewrite lor_low by lia. unfold pte. change (2 ^ 28) with 268435456. lia.
  - rewrite Z.shiftl_mul_pow2 by lia. change (2 ^ 28) with 268435456. lia.
Qed.

Lemma vma_create_run {PS : PageSource pg_alloc} owned s proc P k :
  ps_inv owned s -> P ∈ owned -> 0 <= k < 512 -> proc_vma_table proc = P + 8 * k ->
  vma_create proc s = Panic "OUT_OF_FREE_PAGES" 0 0 0 \/
  exists t s1, vma_create proc s = Ret tt (set_mem (wr (write_words (mem s1) (t + 2048) (identity_pte <$> upto 0 256))
      (P + 8 * k) t) s1) /\ new_page owned s t s1 /\ ps_inv ({[t]} ∪ owned) s1.
Proof.
  intros Hi HP Hk Hp. unfold vma_create. destruct (ps_alloc owned s Hi) as [E|(t & s1 & E & Hn & Hi1)].
  - left. by apply bind_Panic.
  - right. exists t, s1. split; [|done]. rewrite (bind_Ret _ _ _ _ _ E). cbv zeta.
    destruct (np_block _ _ _ _ Hn) as (K1 & K2 & K3). unfold KERNEL_PAGE_SIZE in K2.
    erewrite (bind_Ret _ _ tt); cycle 1.
    { rewrite (for_each_ext _ _ (fun i => store64 (elem64 (t + 2048) i) (identity_pte i))).
      - apply (for_each_store_words identity_pte 256 (t + 2048)); [unfold kblock; dlia|lia].
      - intros i _. change (Z.lor (Z.lor (Z.lor VMA_VALID VMA_READ) VMA_WRITE) VMA_EXEC) with 15.
        fold (identity_pte i). f_equal. unfold elem64. f_equal. lia. }
    destruct (ps_page owned s P Hi HP) as [Kb _]. rewrite Hp, store64_eq; [done|].
    by apply (kblock_word_valid P 512).
Qed.

(** What [vma_create] leaves: the new table [t], entry by entry. *)
Record fresh_space {PS : PageSource pg_alloc} (owned : gset Z) (s : kstate) (proc t : Z) (s' : kstate) : Prop := {
  fs_pointer : rd (mem s') (proc_vma_table proc) = t;
  fs_fresh : t ∉ owned;
  fs_page : page_ok t;
  fs_inv : ps_inv ({[t]} ∪ owned) s';
  fs_entry i : 0 <= i < 512 -> rd (mem s') (t + 8 * i) = if i <? 256 then 0 else pte ((i - 256) * 262144) 15;
  fs_frame b j : b ∈ owned -> 0 <= j < 512 -> b + 8 * j <> proc_vma_table proc ->
    rd (mem s') (b + 8 * j) = rd (mem s) (b + 8 * j);
}.

Lemma new_page_ok owned s a s' : new_page owned s a s' -> page_ok a.
Proof.
  intros Hn. destruct (np_block _ _ _ _ Hn) as (? & ? & _). pose proof (np_aligned _ _ _ _ Hn).
  unfold page_ok, KERNEL_PAGE_SIZE in *. lia.
Qed.

Lemma vma_create_fresh {PS : PageSource pg_alloc} owned s proc P k :
  ps_inv owned s -> P ∈ owned -> 0 <= k < 512 -> proc_vma_table proc = P + 8 * k ->
  vma_create proc s = Panic "OUT_OF_FREE_PAGES" 0 0 0 \/
  exists t s', vma_create proc s = Ret tt s' /\ fresh_space owned s proc t s'.
Proof.
  intros Hi HP Hk Hp. destruct (vma_create_run owned s proc P k Hi HP Hk Hp) as [E|(t & s1 & E & Hn & Hi1)];
    [by left|right].
  destruct (np_block _ _ _ _ Hn) as (K1 & K2 & K3). pose proof (np_aligned _ _ _ _ Hn) as Ka.
  destruct (ps_page owned s P Hi HP) as [(P1 & P2 & P3) Pa].
  assert (t <> P) by (intros ->; by apply (np_fresh _ _ _ _ Hn)).
  pose proof (pages_apart t P Ka Pa ltac:(done)) as Hap. unfold apart, KERNEL_PAGE_SIZE, KERNEL_VMA_START in *.
  set (m1 := write_words (mem s1) (t + 2048) (identity_pte <$> upto 0 256)) in *.
  assert (Z.of_nat (length (identity_pte <$> upto 0 256)) = 256) as Hlen
    by (rewrite length_fmap, length_upto; lia).
  exists t. eexists _. split; [exact E|]. split; cbn [mem set_mem].
  - rewrite Hp, rd_wr_eq. apply wrap64_small. lia.
  - by apply (np_fresh _ _ _ _ Hn).
  - by apply (new_page_ok _ _ _ _ Hn).
  - assert (ps_inv ({[t]} ∪ owned) (set_mem m1 s1)) as Hm1.
    { unfold m1. replace (t + 2048) with (t + 8 * 256) by lia. clear E m1.
      apply ps_write_words; [exact Hi1|set_solver|clear; lia|rewrite Hlen; clear; lia]. }
    clearbody m1. clear -Hm1 HP Hk. apply (ps_write _ _ P k t Hm1); [set_solver|done].
  - intros i Hi'. rewrite rd_wr_ne by lia. unfold m1. destruct (Z.ltb_spec i 256).
    + rewrite rd_write_words_out by lia. by apply (np_zero _ _ _ _ Hn).
    + replace (t + 8 * i) with (t + 2048 + 8 * (i - 256)) by lia. rewrite <- identity_pte_eq by lia.
      rewrite (rd_write_words_in _ _ _ _ (identity_pte (i - 256))); [|lia|].
      * apply wrap64_small. rewrite identity_pte_eq by lia. unfold pte. lia.
      * rewrite list_lookup_fmap. unfold upto. rewrite lookup_seqZ_lt by lia. cbn. f_equal. f_equal. lia.
  - intros b j Hb Hj Hne. rewrite rd_wr_ne by lia. unfold m1.
    destruct (ps_page owned s b Hi Hb) as [(B1 & B2 & B3) Ba].
    assert (t <> b) by (intros ->; by apply (np_fresh _ _ _ _ Hn)).
    pose proof (pages_apart t b Ka Ba ltac:(done)) as Hap'. unfold apart, KERNEL_PAGE_SIZE in *.
    rewrite rd_write_words_out by lia. by apply (np_frame _ _ _ _ Hn).
Qed.

(** The translations of a new address space. *)
Lemma fresh_walks m t :
  (forall i, 0 <= i < 512 -> rd m (t + 8 * i) = if i <? 256 then 0 else pte ((i - 256) * 262144) 15) ->
  (forall a, KERNEL_VMA_START <= a < 18446744073709551616 -> sv39_walk m t a 2 = Some (a - KERNEL_VMA_START, 15)) /\
  (forall a, 0 <= a < 0x4000000000 -> sv39_walk m t a 2 = None).
Proof.
  intros Ft. unfold KERNEL_VMA_START. split.
  - intros a Ha. assert (vpn a 2 = 256 + (a - 0xffffffc000000000) / 2 ^ 30) as Ev.
    { unfold vpn, level_shift. cbn -[Z.pow]. change (2 ^ 30) with 1073741824. dlia. }
    assert (0 <= (a - 0xffffffc000000000) / 2 ^ 30 < 256) by (change (2 ^ 30) with 1073741824; dlia).
    rewrite (walk_leaf _ t a 2 ((a - 0xffffffc000000000) / 2 ^ 30 * 262144) 15).
    + f_equal. f_equal. unfold level_shift. cbn -[Z.pow]. change (2 ^ 30) with 1073741824. dlia.
    + rewrite Ev, Ft by lia. replace (_ <? 256) with false by lia. do 2 f_equal. lia.
    + lia.
    + lia.
    + done.
    + done.
    + change (2 ^ (9 * Z.of_nat 2)) with 262144. apply Z_mod_mult.
  - intros a Ha. apply walk_invalid. assert (0 <= vpn a 2 < 256) as Hv.
    { unfold vpn, level_shift. cbn -[Z.pow]. change (2 ^ 30) with 1073741824. dlia. }
    rewrite Ft by lia. by replace (vpn a 2 <? 256) with true by lia.
Qed.

(** A new address space is one page whose upper half maps the kernel half
    identically, with read, write and execute rights and nothing else, and
    whose lower half maps nothing; the process points to it. *)
Theorem vma_create_identity {PS : PageSource pg_alloc} owned s proc P k :
  ps_inv owned s -> P ∈ owned -> 0 <= k < 512 -> proc_vma_table proc = P + 8 * k ->
  vma_create proc s = Panic "OUT_OF_FREE_PAGES" 0 0 0 \/
  exists t s', vma_create proc s = Ret tt s' /\ rd (mem s') (proc_vma_table proc) = t /\ (t ∉ owned) /\
    ps_inv ({[t]} ∪ owned) s' /\
    (forall a, KERNEL_VMA_START <= a < 18446744073709551616 ->
       sv39_walk (mem s') t a 2 = Some (a - KERNEL_VMA_START, 15)) /\
    (forall a, 0 <= a < 0x4000000000 -> sv39_walk (mem s') t a 2 = None) /\
    (forall b j, b ∈ owned -> 0 <= j < 512 -> b + 8 * j <> proc_vma_table proc ->
       rd (mem s') (b + 8 * j) = rd (mem s) (b + 8 * j)).
Proof.
  intros Hi HP Hk Hp. destruct (vma_create_fresh owned s proc P k Hi HP Hk Hp) as [E|(t & s' & E & [F1 F2 _ F4 Ft F6])];
    [by left|right].
  destruct (fresh_walks _ _ Ft) as [W1 W2]. exists t, s'. by do 6 (split; [assumption|]).
Qed.

(** ** Expanding a leaf *)

(** The table that stands for the leaf [pte n f] one level up. *)
Definition split_leaf (level : nat) (n f i : Z) : Z :=
  if f =? 0 then 0 else pte (n + i * 2 ^ (9 * Z.of_nat level)) f.

(** An entry of a level that maps nothing, or a leaf the walk accepts; its page
    number [n] stays in the part of physical memory the kernel half maps. *)
Record page_entry (level : nat) (n f : Z) : Prop := {
  pe_ppn : 0 <= n /\ n + 2 ^ (9 * Z.of_nat level) <= 2 ^ 26;
  pe_aligned : n mod 2 ^ (9 * Z.of_nat level) = 0;
  pe_flags : f = 0 /\ n = 0 \/ 0 <= f < 1024 /\ Z.testbit f 0 = true /\ Z.land f 14 <> 0;
  pe_compress : level <> O -> Z.land f VMA_DONT_COMPRESS = 0;
}.

(** One that [expand_leaf] may split. *)
Record leaf_entry (level : nat) (n f : Z) : Prop := {
  le_level : (level <= 1)%nat;
  le_entry : page_entry (S level) n f;
}.

Lemma le_compress level n f : leaf_entry level n f -> Z.land f VMA_DONT_COMPRESS = 0.
Proof. intros H. by apply (pe_compress _ _ _ (le_entry _ _ _ H)). Qed.

Lemma page_entry_bounds level n f : page_entry level n f -> 0 <= n < 2 ^ 26 /\ 0 <= f < 1024.
Proof.
  intros [Hn _ Hf _]. assert (0 < 2 ^ (9 * Z.of_nat level)) by (apply Z.pow_pos_nonneg; lia).
  destruct Hf as [[-> ->]|(? & _)]; lia.
Qed.

Definition level_size (level : nat) : Z := 2 ^ level_shift level.

Lemma leaf_flag_facts f : Z.testbit f 0 = true -> Z.land f 14 <> 0 -> 0 <= f -> 1 < f /\ Z.lor f 1 = f.
Proof.
  intros Hb Hl Hf. split.
  - destruct (Z.eq_dec f 0) as [->|]; [done|]. destruct (Z.eq_dec f 1) as [->|]; [done|]. lia.
  - apply Z.bits_inj'. intros k Hk. rewrite Z.lor_spec. destruct (Z.eq_dec k 0) as [->|]; [by rewrite Hb|].
    change 1 with (2 ^ 0). rewrite Z.pow2_bits_false by lia. apply orb_false_r.
Qed.

Lemma split_leaf_code level n f i :
  leaf_entry level n f -> 0 <= i < 512 ->
  create_leaf (get_phys_leaf_loc (pte n f) ⊕ i ⊗ (level_size (S level) / 512)) (get_leaf_flags (pte n f)) =
    split_leaf level n f i.
Proof.
  intros [Hl [[Hn0 Hn] _ Hf _]] Hi. unfold split_leaf.
  assert (0 < 2 ^ (9 * Z.of_nat (S level))) by (apply Z.pow_pos_nonneg; lia).
  destruct Hf as [[-> ->]|(Hf & Hb & Hw)]; [done|].
  destruct (leaf_flag_facts f Hb Hw ltac:(lia)) as [Hf1 Hlor].
  rewrite leaf_loc_pte, leaf_flags_pte by lia.
  replace (f <=? 1) with false by lia. replace (f =? 0) with false by lia.
  assert (level_size (S level) / 512 = 2 ^ (9 * Z.of_nat level) * 4096 /\
    2 ^ (9 * Z.of_nat (S level)) = 512 * 2 ^ (9 * Z.of_nat level) /\ 0 < 2 ^ (9 * Z.of_nat level) <= 512) as (E1 & E2 & E3)
    by (destruct level as [|[|]]; [split_and!; done..|lia]).
  rewrite E1. rewrite E2 in Hn. change (2 ^ 26) with 67108864 in *.
  set (q := 2 ^ (9 * Z.of_nat level)) in *. clearbody q. unfold KERNEL_VMA_START.
  rewrite (wrap64_small (i * _)) by nia. rewrite wrap64_small by nia.
  rewrite create_leaf_pte, Hlor; [|unfold page_ok, KERNEL_VMA_START; split; [nia|dlia]|lia].
  f_equal. unfold KERNEL_VMA_START. symmetry. apply Z.div_unique_exact; nia.
Qed.

Lemma expand_run {PS : PageSource pg_alloc} owned s T k level n f :
  ps_inv owned s -> T ∈ owned -> 0 <= k < 512 -> leaf_entry level n f -> rd (mem s) (T + 8 * k) = pte n f ->
  expand_leaf (T + 8 * k) (level_size (S level)) s = Panic "OUT_OF_FREE_PAGES" 0 0 0 \/
  exists t s1, expand_leaf (T + 8 * k) (level_size (S level)) s =
      Ret t (set_mem (write_words (wr (mem s1) (T + 8 * k) (create_branch t)) t (split_leaf level n f <$> upto 0 512)) s1) /\
    new_page owned s t s1 /\ ps_inv ({[t]} ∪ owned) s1.
Proof.
  intros Hi HT Hk He Ee. unfold expand_leaf. destruct (ps_alloc owned s Hi) as [E|(t & s1 & E & Hn & Hi1)].
  { left. by apply bind_Panic. }
  right. exists t, s1. split; [|done]. rewrite (bind_Ret _ _ _ _ _ E). cbv zeta.
  destruct (ps_page owned s T Hi HT) as [Kb _]. pose proof (kblock_word_valid T 512 k Kb Hk) as V.
  rewrite (bind_Ret _ _ _ _ _ (load64_eq _ _ V)), (np_frame _ _ _ _ Hn) by done. rewrite Ee.
  destruct (page_entry_bounds _ _ _ (le_entry _ _ _ He)) as [Hn' Hf'].
  assert ((Z.land (get_leaf_flags (pte n f)) VMA_DONT_COMPRESS =? 0) = true) as Hdc
    by (rewrite leaf_flags_pte by done; apply Z.eqb_eq, (le_compress _ _ _ He)).
  rewrite Hdc. cbn [negb].
  rewrite (bind_Ret _ _ _ _ _ (store64_eq _ _ _ V)), (bind_Ret _ _ _ _ _ (load64_eq _ _ V)).
  cbn [mem set_mem]. rewrite rd_wr_eq.
  pose proof (np_block _ _ _ _ Hn) as Kt. pose proof (np_aligned _ _ _ _ Hn) as Ka.
  assert (page_ok t) as Hpt by (destruct Kt as (? & ? & _); unfold page_ok, KERNEL_PAGE_SIZE in *; lia).
  destruct (page_number t Hpt) as [Hnt _]. rewrite create_branch_pte by done.
  rewrite (wrap64_small (pte _ 1)) by (by apply pte_u64).
  replace (pte ((t - KERNEL_VMA_START) / 4096) 1 =? 0) with false by (unfold pte; lia).
  erewrite (bind_Ret _ _ tt); [reflexivity|].
  rewrite (for_each_ext _ _ (fun i => store64 (elem64 t i) (split_leaf level n f i))).
  - by rewrite (for_each_store_words (split_leaf level n f) 512 t).
  - intros i Hin%elem_of_upto. by rewrite split_leaf_code.
Qed.

(** The level of the new table. *)
Lemma split_leaf_walk level n f m t va :
  leaf_entry level n f ->
  (forall i, 0 <= i < 512 -> rd m (t + 8 * i) = split_leaf level n f i) ->
  sv39_walk m t va level =
    if f =? 0 then None else Some (n * 4096 + va mod 2 ^ level_shift (S level), f).
Proof.
  intros [Hl [[Hn0 Hn] Ha Hf _]] Ht. assert (0 <= vpn va level < 512) as Hv by (unfold vpn; dlia).
  specialize (Ht _ Hv). unfold split_leaf in Ht.
  destruct Hf as [[-> ->]|(Hf & Hb & Hw)]; [apply walk_invalid; by rewrite Ht|].
  destruct (leaf_flag_facts f Hb Hw ltac:(lia)) as [Hf1 _]. replace (f =? 0) with false in * by lia.
  assert (2 ^ (9 * Z.of_nat (S level)) = 512 * 2 ^ (9 * Z.of_nat level) /\ 0 < 2 ^ (9 * Z.of_nat level) <= 512 /\
    2 ^ level_shift level = 2 ^ (9 * Z.of_nat level) * 4096 /\
    2 ^ level_shift (S level) = 512 * (2 ^ (9 * Z.of_nat level) * 4096)) as (E2 & E3 & E4 & E5)
    by (destruct level as [|[|]]; [split_and!; done..|lia]).
  rewrite E2 in *. change (2 ^ 26) with 67108864 in *.
  rewrite (walk_leaf _ _ _ _ _ _ Ht); try done.
  - f_equal. f_equal. unfold vpn. rewrite E4, E5. set (q := 2 ^ (9 * Z.of_nat level)) in *. clearbody q.
    rewrite (Z.mul_comm 512), (Z.rem_mul_r va (q * 4096) 512) by nia. lia.
  - change (2 ^ 26) with 67108864. nia.
  - rewrite Z_mod_plus_full. set (q := 2 ^ (9 * Z.of_nat level)) in *. clearbody q.
    rewrite Z.mul_comm, Z.rem_mul_r in Ha by lia.
    pose proof (Z.mod_pos_bound n q). pose proof (Z.mod_pos_bound (n / q) 512). nia.
Qed.

Lemma walk_created_branch m T va level t :
  rd m (T + 8 * vpn va (S level)) = create_branch t -> page_ok t ->
  sv39_walk m T va (S level) = sv39_walk m t va level.
Proof.
  intros E Ht. destruct (page_number t Ht) as [Hn Ea]. rewrite create_branch_pte in E by done.
  by rewrite (walk_branch _ _ _ _ _ _ E), Ea.
Qed.

(** The entries of two pages of a client. *)
Lemma entry_ne {PS : PageSource pg_alloc} owned s a b i j :
  ps_inv owned s -> a ∈ owned -> b ∈ owned -> 0 <= i < 512 -> 0 <= j < 512 ->
  a <> b \/ i <> j -> a + 8 * i <> b + 8 * j.
Proof.
  intros Hi Ha Hb Hi' Hj Hne. destruct (ps_page owned s a Hi Ha) as [_ A], (ps_page owned s b Hi Hb) as [_ B].
  destruct (Z.eq_dec a b) as [->|E]; [lia|].
  pose proof (pages_apart a b A B E). unfold apart, KERNEL_PAGE_SIZE in *. lia.
Qed.

Lemma split_leaf_u64 level n f i : leaf_entry level n f -> 0 <= i < 512 -> u64 (split_leaf level n f i).
Proof.
  intros [Hl [[Hn0 Hn] _ Hf _]] Hi. unfold split_leaf. destruct (f =? 0); [done|].
  assert (2 ^ (9 * Z.of_nat (S level)) = 512 * 2 ^ (9 * Z.of_nat level) /\ 0 < 2 ^ (9 * Z.of_nat level) <= 512) as (E2 & E3)
    by (destruct level as [|[|]]; [split_and!; done..|lia]).
  rewrite E2 in Hn. change (2 ^ 26) with 67108864 in Hn. unfold u64, pte. nia.
Qed.

Lemma rest_set_mem m s s' :
  s' = set_mem (mem s') (set_pager (pager s') s) -> set_mem m s' = set_mem m (set_pager (pager s') s).
Proof. intros E. rewrite E at 1. done. Qed.

Lemma expand_spec {PS : PageSource pg_alloc} owned s T k level n f :
  ps_inv owned s -> T ∈ owned -> 0 <= k < 512 -> leaf_entry level n f -> rd (mem s) (T + 8 * k) = pte n f ->
  expand_leaf (T + 8 * k) (level_size (S level)) s = Panic "OUT_OF_FREE_PAGES" 0 0 0 \/
  exists t s', expand_leaf (T + 8 * k) (level_size (S level)) s = Ret t s' /\
    (t ∉ owned) /\ page_ok t /\ ps_inv ({[t]} ∪ owned) s' /\
    rd (mem s') (T + 8 * k) = create_branch t /\
    (forall i, 0 <= i < 512 -> rd (mem s') (t + 8 * i) = split_leaf level n f i) /\
    (forall b j, b ∈ owned -> 0 <= j < 512 -> b <> T \/ j <> k ->
       rd (mem s') (b + 8 * j) = rd (mem s) (b + 8 * j)) /\
    s' = set_mem (mem s') (set_pager (pager s') s).
Proof.
  intros Hi HT Hk He Ee.
  destruct (expand_run owned s T k level n f Hi HT Hk He Ee) as [E|(t & s1 & E & Hn & Hi1)]; [by left|right].
  pose proof (new_page_ok _ _ _ _ Hn) as Hpt. pose proof (np_fresh _ _ _ _ Hn) as Hfr.
  assert (T ∈ {[t]} ∪ owned /\ t ∈ {[t]} ∪ owned) as [HT' Ht'] by (clear E; set_solver).
  set (m1 := wr (mem s1) (T + 8 * k) (create_branch t)) in *.
  assert (Z.of_nat (length (split_leaf level n f <$> upto 0 512)) = 512) as Hlen
    by (rewrite length_fmap, length_upto; lia).
  assert (forall b j, b ∈ owned -> 0 <= j < 512 ->
    rd (write_words m1 t (split_leaf level n f <$> upto 0 512)) (b + 8 * j) = rd m1 (b + 8 * j)) as Hout.
  { intros b j Hb Hj. apply rd_write_words_out. rewrite Hlen. intros i Hi'.
    clear -Hi1 Hb Hj Hi' Hfr.
    apply (entry_ne ({[t]} ∪ owned) s1); [exact Hi1|set_solver|set_solver|exact Hj|exact Hi'|].
    left. intros ->. exact (Hfr Hb). }
  eexists t, _. split; [exact E|]. split; [done|]. split; [done|]. cbn [mem set_mem pager]. split_and!.
  - pose proof (ps_write _ _ T k (create_branch t) Hi1 HT' Hk) as Hw. fold m1 in Hw. clearbody m1.
    clear E Hout. generalize dependent (split_leaf level n f <$> upto 0 512). intros vs Hlen.
    pose proof (ps_write_words _ _ t 0 vs Hw Ht' ltac:(lia) ltac:(lia)) as Hws.
    replace (t + 8 * 0) with t in Hws by lia. exact Hws.
  - rewrite Hout by done. unfold m1. rewrite rd_wr_eq. apply wrap64_small.
    destruct (page_number t Hpt). rewrite create_branch_pte by done. apply pte_u64; lia.
  - intros i Hi'. rewrite (rd_write_words_in _ _ _ _ (split_leaf level n f i)); [|lia|].
    + apply wrap64_small. by apply split_leaf_u64.
    + rewrite list_lookup_fmap. unfold upto. rewrite lookup_seqZ_lt by lia. cbn. f_equal. f_equal. lia.
  - intros b j Hb Hj Hne. rewrite Hout by done. unfold m1.
    rewrite rd_wr_ne by (clear -Hi HT Hk Hb Hj Hne; apply (entry_ne owned s); [exact Hi|exact HT|exact Hb|exact Hk|exact Hj|]; destruct Hne; [left|right]; congruence).
    by apply (np_frame _ _ _ _ Hn).
  - clear -Hn. generalize (write_words m1 t (split_leaf level n f <$> upto 0 512)). intros m.
    by apply rest_set_mem, (np_rest _ _ _ _ Hn).
Qed.
