(* ===== verification/VmaFence.v ===== *)
(** * The fences of a mapping
    ([vma_replace_section], [arch/risc-v/arch_vma/virtual_memory.c])

    The second round of loops: a fence for each of the entries counted. *)
From S2P Require Import Prelude Machine Vma.

(** The sizes of the entries, in the order the loops write and fence them. *)
Definition split_blocks (c : vma_counts) : list Z :=
  replicate (Z.to_nat (pre_ppn0_cnt c)) ppn0_jmp_size ++ replicate (Z.to_nat (pre_ppn1_cnt c)) ppn1_jmp_size ++
  replicate (Z.to_nat (ppn2_cnt c)) ppn2_jmp_size ++ replicate (Z.to_nat (post_ppn1_cnt c)) ppn1_jmp_size ++
  replicate (Z.to_nat (post_ppn0_cnt c)) ppn0_jmp_size.

(** Blocks of these sizes in a row from offset [o]: their offset and size. *)
Fixpoint blocks_from (o : Z) (l : list Z) : list (Z * Z) :=
  match l with [] => [] | b :: l' => (o, b) :: blocks_from (o + b) l' end.

Definition total (l : list Z) : Z := foldr Z.add 0 l.

Lemma total_app l l' : total (l ++ l') = total l + total l'.
Proof. unfold total. induction l as [|x l IH]; [done|]. cbn [app foldr]. rewrite IH. lia. Qed.

Lemma total_replicate n b : total (replicate n b) = Z.of_nat n * b.
Proof. induction n as [|n IH]; [done|]. cbn [replicate total foldr] in *. fold (total (replicate n b)). rewrite IH. lia. Qed.

Lemma blocks_app o l l' : blocks_from o (l ++ l') = blocks_from o l ++ blocks_from (o + total l) l'.
Proof.
  revert o. induction l as [|b l IH]; intros o; [by rewrite Z.add_0_r|]. cbn [app blocks_from]. rewrite IH.
  cbn [total foldr]. fold (total l). by rewrite Z.add_assoc.
Qed.

Lemma split_blocks_total c :
  0 <= pre_ppn0_cnt c -> 0 <= pre_ppn1_cnt c -> 0 <= ppn2_cnt c -> 0 <= post_ppn1_cnt c -> 0 <= post_ppn0_cnt c ->
  total (split_blocks c) = (pre_ppn0_cnt c + post_ppn0_cnt c) * 4096 + (pre_ppn1_cnt c + post_ppn1_cnt c) * 2097152 +
    ppn2_cnt c * 1073741824.
Proof.
  intros. unfold split_blocks. rewrite !total_app, !total_replicate, !Z2Nat.id by done.
  change ppn0_jmp_size with 4096. change ppn1_jmp_size with 2097152. change ppn2_jmp_size with 1073741824. lia.
Qed.

(** ** Whole pages *)

Lemma round_down_eq n r : 0 < r -> u64 n -> (ROUND_MOD_DOWN n r =? n) = (n mod r =? 0).
Proof.
  intros Hr Hn. pose proof (ROUND_MOD_DOWN_aligned n r Hr Hn).
  destruct (Z.eqb_spec (ROUND_MOD_DOWN n r) n), (Z.eqb_spec (n mod r) 0); tauto || done.
Qed.

(** ** The fences *)

Definition fence_of (va asid : Z) (ob : Z * Z) : tlb_fence := Sfence (Some (va ⊕ fst ob)) (Some asid).

Definition add_fences (l : list tlb_fence) (s : kstate) : kstate := set_fences (fences (io s) ++ l) s.

Lemma add_fences_nil s : add_fences [] s = s.
Proof. unfold add_fences. rewrite app_nil_r. by destruct s as [???????????????????[]]. Qed.

Lemma add_fences_add l l' s : add_fences l' (add_fences l s) = add_fences (l ++ l') s.
Proof. unfold add_fences. cbn. by rewrite <- app_assoc. Qed.

Lemma fence_loop va asid jmp k lo o s : 0 <= o -> 0 < jmp -> o + Z.of_nat k * jmp < 18446744073709551616 ->
  for_fold (upto lo (lo + Z.of_nat k)) (fun cur_offset _ =>
    sfence_vma (Some (va ⊕ cur_offset)) (Some asid) ;; mret (cur_offset ⊕ jmp)) o s =
  Ret (o + Z.of_nat k * jmp) (add_fences (fence_of va asid <$> blocks_from o (replicate k jmp)) s).
Proof.
  intros Ho Hj. revert lo o s Ho. induction k as [|k IH]; intros lo o s Ho Hb.
  - rewrite upto_nil by lia. cbn [for_fold replicate blocks_from fmap list_fmap]. rewrite add_fences_nil.
    cbn. by rewrite Z.add_0_r.
  - rewrite upto_cons by lia. cbn [for_fold replicate blocks_from]. rewrite bind_assoc. erewrite bind_Ret by reflexivity.
    erewrite bind_Ret by reflexivity. rewrite (wrap64_small (o + jmp)) by nia.
    replace (lo + Z.of_nat (S k)) with (lo + 1 + Z.of_nat k) by lia. rewrite IH by nia.
    change (set_fences _ s) with (add_fences [fence_of va asid (o, jmp)] s). rewrite add_fences_add.
    f_equal. lia.
Qed.

Lemma fence_entries_eq va asid jmp n o s : 0 <= n -> 0 <= o -> 0 < jmp -> o + n * jmp < 18446744073709551616 ->
  fence_entries va asid jmp n o s =
    Ret (o + n * jmp) (add_fences (fence_of va asid <$> blocks_from o (replicate (Z.to_nat n) jmp)) s).
Proof.
  intros Hn Ho Hj Hb. pose proof (fence_loop va asid jmp (Z.to_nat n) 0 o s Ho Hj) as H.
  rewrite Z2Nat.id in H by done. by apply H.
Qed.

Lemma bind_fences {A} va asid jmp n o (k : Z -> M A) s :
  0 <= n -> 0 <= o -> 0 < jmp -> o + n * jmp < 18446744073709551616 ->
  (fence_entries va asid jmp n o ≫= k) s =
    k (o + n * jmp) (add_fences (fence_of va asid <$> blocks_from o (replicate (Z.to_nat n) jmp)) s).
Proof. intros. by erewrite bind_Ret by by apply fence_entries_eq. Qed.

Lemma fence_section_eq va asid c s :
  0 <= pre_ppn0_cnt c -> 0 <= pre_ppn1_cnt c -> 0 <= ppn2_cnt c -> 0 <= post_ppn1_cnt c -> 0 <= post_ppn0_cnt c ->
  total (split_blocks c) < 18446744073709551616 ->
  fence_section va asid c s = Ret tt (add_fences (fence_of va asid <$> blocks_from 0 (split_blocks c)) s).
Proof.
  intros H0 H1 H2 H3 H4 Ht. rewrite split_blocks_total in Ht by done. unfold fence_section, split_blocks.
  change ppn0_jmp_size with 4096 in *. change ppn1_jmp_size with 2097152 in *. change ppn2_jmp_size with 1073741824 in *.
  do 5 (rewrite bind_fences by lia).
  rewrite !add_fences_add, <- !fmap_app, !blocks_app, !total_replicate, !Z2Nat.id by done. unfold skip, mret, M_ret.
  done.
Qed.
