(* ===== verification/VmaSpace.v ===== *)
(** * Address spaces ([arch/risc-v/arch_vma/virtual_memory.c])

    The trees of tables [vma_replace_section] works on, and what mapping one
    page does to the addresses the hardware walk translates. *)
From S2P Require Import Prelude Machine Pager Pages Allocator Objects Vma VmaFence.

(** ** Address spaces

    [lv l] is the set of the tables of level [l] (2 the root's); every entry
    maps nothing, is a leaf, or is a branch to a table one level down that no
    other entry points to. *)
Inductive entry_ok (lv : nat -> gset Z) : nat -> Z -> Prop :=
| entry_leaf l n f : page_entry l n f -> entry_ok lv l (pte n f)
| entry_branch l t : t ∈ lv l -> entry_ok lv (S l) (create_branch t).

Record space (lv : nat -> gset Z) (owned : gset Z) (root : Z) (m : gmap Z Z) : Prop := {
  sp_root : root ∈ lv 2%nat;
  sp_owned l t : t ∈ lv l -> (l <= 2)%nat /\ t ∈ owned /\ page_ok t;
  sp_apart l l' t : t ∈ lv l -> t ∈ lv l' -> l = l';
  sp_entry l t i : t ∈ lv l -> 0 <= i < 512 -> entry_ok lv l (rd m (t + 8 * i));
  sp_tree l t1 t2 i1 i2 t : t1 ∈ lv (S l) -> t2 ∈ lv (S l) -> 0 <= i1 < 512 -> 0 <= i2 < 512 -> t ∈ lv l ->
    rd m (t1 + 8 * i1) = create_branch t -> rd m (t2 + 8 * i2) = create_branch t -> t1 = t2 /\ i1 = i2;
}.

Lemma vpn_range va l : 0 <= vpn va l < 512.
Proof. unfold vpn. dlia. Qed.

Lemma create_branch_inj a b : page_ok a -> page_ok b -> create_branch a = create_branch b -> a = b.
Proof.
  intros Ha Hb. destruct (page_number a Ha) as [_ Ea], (page_number b Hb) as [_ Eb].
  rewrite !create_branch_pte by done. unfold pte. intros E. lia.
Qed.

(** A branch is no leaf. *)
Lemma branch_not_leaf a l n f : page_ok a -> page_entry l n f -> create_branch a <> pte n f.
Proof.
  intros Ha He. destruct (page_entry_bounds _ _ _ He) as [Hn Hf]. destruct (page_number a Ha) as [Ha' _].
  rewrite create_branch_pte by done. intros E. apply (f_equal pte_flags) in E. rewrite (pte_flags_eq _ 1), (pte_flags_eq n f) in E by lia. subst f.
  destruct (pe_flags _ _ _ He) as [[? _]|(_ & _ & H)]; [done|]. by apply H.
Qed.

(** The walk reads tables of the space only. *)
Lemma walk_frame lv owned root m m' l t va :
  space lv owned root m -> t ∈ lv l ->
  (forall l' b j, (l' <= l)%nat -> b ∈ lv l' -> 0 <= j < 512 -> rd m' (b + 8 * j) = rd m (b + 8 * j)) ->
  sv39_walk m' t va l = sv39_walk m t va l.
Proof.
  intros Hs. revert t. induction l as [|l IH]; intros t Ht Hm; pose proof (vpn_range va) as Hv.
  - cbn [sv39_walk]. by rewrite (Hm 0%nat).
  - pose proof (Hm (S l) t (vpn va (S l)) ltac:(lia) Ht (Hv _)) as E.
    pose proof (sp_entry _ _ _ _ Hs (S l) t _ Ht (Hv (S l))) as He.
    inversion He as [l0 n f Hp El E1|l0 t' Ht' El E1]; subst l0.
    + cbn [sv39_walk]. rewrite E, <- E1.
      destruct (page_entry_bounds _ _ _ Hp). destruct (negb (Z.testbit (pte n f) 0)) eqn:Eb; [done|].
      rewrite pte_land_mask by lia. destruct (Z.eqb_spec (Z.land f 14) 0) as [E14|]; cbn [negb]; [|done].
      destruct (pe_flags _ _ _ Hp) as [[-> _]|(_ & _ & ?)]; [|done].
      by rewrite pte_testbit in Eb by lia.
    + symmetry in E1. rewrite !(walk_created_branch _ _ _ _ t'); try by (apply (sp_owned _ _ _ _ Hs) in Ht'; apply Ht').
      * apply IH; [done|]. intros l' b j Hl' Hb Hj. apply (Hm l'); [lia|done..].
      * done.
      * by rewrite E.
Qed.

Lemma entry_cases lv l e :
  entry_ok lv l e ->
  (exists n f, e = pte n f /\ page_entry l n f) \/ (exists l' t, l = S l' /\ t ∈ lv l' /\ e = create_branch t).
Proof. intros [l0 n f H|l0 t H]; [left|right]; eauto 10. Qed.

Lemma walk_page m t va l n f :
  rd m (t + 8 * vpn va l) = pte n f -> page_entry l n f ->
  sv39_walk m t va l = if f =? 0 then None else Some (n * 4096 + va mod 2 ^ level_shift l, f).
Proof.
  intros E Hp. destruct (page_entry_bounds _ _ _ Hp) as [Hn Hf].
  destruct (pe_flags _ _ _ Hp) as [[-> ->]|(_ & Hb & Hw)].
  - apply walk_invalid. by rewrite E.
  - rewrite (walk_leaf _ _ _ _ n f E); [|done..|by apply (pe_aligned _ _ _ Hp)].
    by destruct (Z.eqb_spec f 0) as [->|].
Qed.

Lemma split_leaf_entry l n f i :
  leaf_entry l n f -> 0 <= i < 512 -> exists n', page_entry l n' f /\ split_leaf l n f i = pte n' f.
Proof.
  intros [Hl [[Hn0 Hn] Ha Hf Hc]] Hi. unfold split_leaf.
  destruct Hf as [[-> ->]|(Hf & Hb & Hw)].
  { exists 0. split; [|done]. split; [|by rewrite Z.mod_0_l by (apply Z.pow_nonzero; lia)|by left|done].
    split; [lia|]. rewrite Z.add_0_l. apply Z.pow_le_mono_r; lia. }
  destruct (leaf_flag_facts f Hb Hw ltac:(lia)) as [Hf1 _]. replace (f =? 0) with false by lia.
  exists (n + i * 2 ^ (9 * Z.of_nat l)). split; [|done].
  assert (2 ^ (9 * Z.of_nat (S l)) = 512 * 2 ^ (9 * Z.of_nat l) /\ 0 < 2 ^ (9 * Z.of_nat l)) as [E2 E3]
    by (destruct l as [|[|]]; [split_and!; done..|lia]).
  rewrite E2 in *. split; [nia| |by right|intros _; by apply Hc].
  rewrite Z_mod_plus_full. set (q := 2 ^ (9 * Z.of_nat l)) in *. clearbody q.
  rewrite Z.mul_comm, Z.rem_mul_r in Ha by lia.
  pose proof (Z.mod_pos_bound n q). pose proof (Z.mod_pos_bound (n / q) 512). nia.
Qed.

Section Space.
Context (lv : nat -> gset Z) (owned : gset Z) (root : Z) (m : gmap Z Z) (Hs : space lv owned root m).

Lemma table_ok l t : t ∈ lv l -> page_ok t.
Proof. intros H. by apply (sp_owned _ _ _ _ Hs) in H as (_ & _ & H). Qed.

Lemma table_owned l t : t ∈ lv l -> t ∈ owned.
Proof. intros H. by apply (sp_owned _ _ _ _ Hs) in H as (_ & H & _). Qed.

Lemma branch_inv l e t : entry_ok lv (S l) e -> e = create_branch t -> page_ok t -> t ∈ lv l.
Proof.
  intros He -> Ht. destruct (entry_cases _ _ _ He) as [(n & f & E & Hp)|(l' & t' & [= <-] & Ht' & E)].
  - by destruct (branch_not_leaf t (S l) n f).
  - by rewrite (create_branch_inj t t' Ht (table_ok _ _ Ht') E).
Qed.

(** The table an expansion adds. *)
Definition add_table (l : nat) (t : Z) : nat -> gset Z :=
  fun l' => if Nat.eqb l' l then {[t]} ∪ lv l else lv l'.

Lemma add_table_spec l t l' b : b ∈ add_table l t l' <-> (l' = l /\ b = t) \/ b ∈ lv l'.
Proof.
  unfold add_table. destruct (Nat.eqb_spec l' l) as [->|]; [|naive_solver].
  rewrite elem_of_union, elem_of_singleton. naive_solver.
Qed.

Lemma entry_ok_mono l t l' e : entry_ok lv l' e -> entry_ok (add_table l t) l' e.
Proof.
  intros [l0 n f H|l0 t0 H]; [by constructor|]. constructor. apply add_table_spec. by right.
Qed.

Context (m' : gmap Z Z) (l : nat) (T k n f t : Z).
Context (HT : T ∈ lv (S l)) (Hk : 0 <= k < 512) (He : leaf_entry l n f) (Ee : rd m (T + 8 * k) = pte n f).
Context (Hfresh : t ∉ owned) (Hpt : page_ok t) (Eb : rd m' (T + 8 * k) = create_branch t).
Context (Et : forall i, 0 <= i < 512 -> rd m' (t + 8 * i) = split_leaf l n f i).
Context (Hm : forall b j, b ∈ owned -> 0 <= j < 512 -> b <> T \/ j <> k -> rd m' (b + 8 * j) = rd m (b + 8 * j)).

Lemma expand_walk_table l' b va : b ∈ lv l' -> sv39_walk m' b va l' = sv39_walk m b va l'.
Proof.
  revert b. induction l' as [|l' IH]; intros b Hb.
  - cbn [sv39_walk]. rewrite Hm; [done|by eapply table_owned|apply vpn_range|].
    left. intros ->. by pose proof (sp_apart _ _ _ _ Hs _ _ _ Hb HT).
  - destruct (decide (b = T /\ vpn va (S l') = k)) as [[-> Hv]|Hne].
    + pose proof (sp_apart _ _ _ _ Hs _ _ _ Hb HT) as [= ->]. subst k.
      rewrite (walk_created_branch m' T va l t), (split_leaf_walk l n f) by done.
      by rewrite (walk_page m T va (S l) n f Ee (le_entry _ _ _ He)).
    + assert (rd m' (b + 8 * vpn va (S l')) = rd m (b + 8 * vpn va (S l'))) as E.
      { apply Hm; [by eapply table_owned|apply vpn_range|].
        destruct (Z.eq_dec b T); [right; naive_solver|by left]. }
      destruct (entry_cases _ _ _ (sp_entry _ _ _ _ Hs (S l') b _ Hb (vpn_range va (S l'))))
        as [(n' & f' & E' & Hp)|(l0 & t' & [= <-] & Ht' & E')].
      * rewrite (walk_page m b va (S l') n' f'), (walk_page m' b va (S l') n' f'); congruence || done.
      * rewrite (walk_created_branch m b va l' t'), (walk_created_branch m' b va l' t');
          [by apply IH|congruence|by eapply table_ok|done|by eapply table_ok].
Qed.

Lemma expand_old_entry l' b i : b ∈ lv l' -> 0 <= i < 512 -> b <> T \/ i <> k ->
  rd m' (b + 8 * i) = rd m (b + 8 * i) /\ (forall t', rd m (b + 8 * i) = create_branch t' -> page_ok t' -> t' <> t).
Proof.
  intros Hb Hi Hne. split; [apply Hm; [by eapply table_owned|done..]|]. intros t' E Ht' ->.
  pose proof (sp_entry _ _ _ _ Hs l' b i Hb Hi) as Hok. destruct l' as [|l'].
  - destruct (entry_cases _ _ _ Hok) as [(n' & f' & E' & Hp)|(l0 & ? & [=] & _)].
    rewrite E in E'. by apply (branch_not_leaf t 0 n' f').
  - apply Hfresh, (table_owned l'). by eapply (branch_inv l' _ t Hok).
Qed.

Lemma expand_entry_branch l' b i t' : b ∈ add_table l t l' -> 0 <= i < 512 -> page_ok t' ->
  rd m' (b + 8 * i) = create_branch t' ->
  (b = T /\ i = k /\ t' = t) \/ (b ∈ lv l' /\ (b <> T \/ i <> k) /\ t' <> t /\ rd m (b + 8 * i) = create_branch t').
Proof.
  intros Hb Hi Ht' E. apply add_table_spec in Hb as [[-> ->]|Hb].
  - destruct (split_leaf_entry l n f i He Hi) as (n' & Hp & E'). rewrite Et, E' in E by done.
    symmetry in E. by apply (branch_not_leaf _ _ _ _ Ht' Hp) in E.
  - destruct (decide (b = T /\ i = k)) as [[-> ->]|Hne].
    + left. split_and!; try done. rewrite Eb in E. by apply create_branch_inj.
    + assert (b <> T \/ i <> k) as Hne' by (destruct (Z.eq_dec b T); [right; naive_solver|by left]).
      destruct (expand_old_entry l' b i Hb Hi Hne') as [Ei Hno]. rewrite Ei in E. right. split_and!; try done.
      by apply Hno.
Qed.

Lemma expand_space : space (add_table l t) ({[t]} ∪ owned) root m'.
Proof.
  split.
  - apply add_table_spec. right. by apply (sp_root _ _ _ _ Hs).
  - intros l' b [[-> ->]|Hb]%add_table_spec.
    + split; [pose proof (le_level _ _ _ He); lia|]. split; [set_solver|done].
    + pose proof (sp_owned _ _ _ _ Hs _ _ Hb) as (? & ? & ?). split; [done|]. split; [set_solver|done].
  - intros l1 l2 b [[-> ->]|H1]%add_table_spec [[-> E]|H2]%add_table_spec; subst; try done.
    + by apply table_owned in H2.
    + by apply table_owned in H1.
    + by apply (sp_apart _ _ _ _ Hs _ _ b).
  - intros l' b i [[-> ->]|Hb]%add_table_spec Hi.
    + destruct (split_leaf_entry l n f i He Hi) as (n' & Hp & E'). rewrite Et, E' by done. by constructor.
    + destruct (decide (b = T /\ i = k)) as [[-> ->]|Hne].
      * rewrite (sp_apart _ _ _ _ Hs _ _ _ Hb HT), Eb. constructor. apply add_table_spec. by left.
      * assert (b <> T \/ i <> k) as Hne' by (destruct (Z.eq_dec b T); [right; naive_solver|by left]).
        destruct (expand_old_entry l' b i Hb Hi Hne') as [-> _]. apply entry_ok_mono.
        by apply (sp_entry _ _ _ _ Hs).
  - intros l' t1 t2 i1 i2 t' H1 H2 Hi1 Hi2 Ht' E1 E2.
    assert (page_ok t') as Hok by (apply add_table_spec in Ht' as [[_ ->]|Ht']; [done|by eapply table_ok]).
    destruct (expand_entry_branch _ _ _ _ H1 Hi1 Hok E1) as [(-> & -> & ->)|(B1 & N1 & D1 & F1)],
      (expand_entry_branch _ _ _ _ H2 Hi2 Hok E2) as [(-> & -> & E)|(B2 & N2 & D2 & F2)]; try done.
    apply (sp_tree _ _ _ _ Hs l' t1 t2 i1 i2 t'); try done.
    by apply add_table_spec in Ht' as [[_ ?]|Ht'].
Qed.
End Space.

(** ** Writing a page entry *)

Lemma page_ok_ne a b i j :
  page_ok a -> page_ok b -> 0 <= i < 512 -> 0 <= j < 512 -> a <> b \/ i <> j -> a + 8 * i <> b + 8 * j.
Proof.
  intros [_ A] [_ B] Hi Hj Hne. destruct (Z.eq_dec a b) as [->|E]; [lia|].
  pose proof (pages_apart a b A B E). unfold apart, KERNEL_PAGE_SIZE in *. lia.
Qed.

Section Store.
Context (lv : nat -> gset Z) (owned : gset Z) (root : Z) (m m' : gmap Z Z) (Hs : space lv owned root m).
Context (t1 t0 i2 i1 : Z) (H1 : t1 ∈ lv 1%nat) (H0 : t0 ∈ lv 0%nat) (Hi2 : 0 <= i2 < 512) (Hi1 : 0 <= i1 < 512).
Context (E2 : rd m (root + 8 * i2) = create_branch t1) (E1 : rd m (t1 + 8 * i1) = create_branch t0).
(** The entries [P] of the last table are new. *)
Context (P : Z -> bool) (N F : Z -> Z).
Context (Hnew : forall j, 0 <= j < 512 -> P j = true -> rd m' (t0 + 8 * j) = pte (N j) (F j) /\ page_entry 0 (N j) (F j)).
Context (Hold : forall l b j, b ∈ lv l -> 0 <= j < 512 -> b <> t0 \/ P j = false -> rd m' (b + 8 * j) = rd m (b + 8 * j)).

Lemma store_upper l b j : b ∈ lv (S l) -> 0 <= j < 512 -> rd m' (b + 8 * j) = rd m (b + 8 * j).
Proof.
  clear -Hs H0 Hold. intros Hb Hj. apply (Hold (S l)); [done|done|]. left. intros ->.
  by pose proof (sp_apart _ _ _ _ Hs _ _ _ Hb H0).
Qed.

Lemma store_space : space lv owned root m'.
Proof.
  clear -Hs H0 Hnew Hold. split; try apply Hs.
  - intros l t i Ht Hi. destruct (decide (t = t0 /\ P i = true)) as [[-> Hp]|Hne].
    + destruct (Hnew i Hi Hp) as [-> He]. rewrite (sp_apart _ _ _ _ Hs _ _ _ Ht H0). by constructor.
    + rewrite (Hold l); [by apply Hs|done|done|]. destruct (Z.eq_dec t t0); [right|by left].
      destruct (P i); [naive_solver|done].
  - intros l b1 b2 j1 j2 t B1 B2 J1 J2 Ht F1 F2.
    rewrite (store_upper l) in F1, F2 by done. by apply (sp_tree _ _ _ _ Hs l b1 b2 j1 j2 t).
Qed.

(** The new entries are what the pages of their path see, and nobody else. *)
Lemma store_walk va :
  sv39_walk m' root va 2 =
    if decide (vpn va 2 = i2 /\ vpn va 1 = i1 /\ P (vpn va 0) = true)
    then if F (vpn va 0) =? 0 then None else Some (N (vpn va 0) * 4096 + va mod 4096, F (vpn va 0))
    else sv39_walk m root va 2.
Proof.
  pose proof (sp_root _ _ _ _ Hs) as Hr. pose proof store_space as Hs'. pose proof (vpn_range va) as Hv.
  destruct (decide _) as [(V2 & V1 & V0)|Hne].
  - rewrite (walk_created_branch m' root va 1 t1), (walk_created_branch m' t1 va 0 t0);
      [|rewrite (store_upper 0), V1; done|by eapply table_ok|rewrite (store_upper 1), V2; done|by eapply table_ok].
    destruct (Hnew _ (Hv 0%nat) V0) as [E He]. by rewrite (walk_page m' t0 va 0 _ _ E He).
  - destruct (entry_cases _ _ _ (sp_entry _ _ _ _ Hs 2 root _ Hr (vpn_range va 2)))
      as [(n' & f' & E & Hp')|(l & t1' & [= <-] & Ht1 & E)].
    { by rewrite (walk_page m root va 2 n' f'), (walk_page m' root va 2 n' f') by (done || by rewrite (store_upper 1)). }
    rewrite (walk_created_branch m root va 1 t1'), (walk_created_branch m' root va 1 t1');
      [|by rewrite (store_upper 1)|by eapply table_ok|done|by eapply table_ok].
    destruct (entry_cases _ _ _ (sp_entry _ _ _ _ Hs 1 t1' _ Ht1 (vpn_range va 1)))
      as [(n' & f' & E' & Hp')|(l & t0' & [= <-] & Ht0 & E')].
    { by rewrite (walk_page m t1' va 1 n' f'), (walk_page m' t1' va 1 n' f') by (done || by rewrite (store_upper 0)). }
    rewrite (walk_created_branch m t1' va 0 t0'), (walk_created_branch m' t1' va 0 t0');
      [|by rewrite (store_upper 0)|by eapply table_ok|done|by eapply table_ok].
    cbn [sv39_walk]. rewrite (Hold 0%nat); [done|done|apply vpn_range|].
    destruct (Z.eq_dec t0' t0) as [->|]; [right|by left]. destruct (P (vpn va 0)) eqn:Hv0; [|done].
    destruct (sp_tree _ _ _ _ Hs 0 t1' t1 _ i1 t0 Ht1 H1 (vpn_range va 1) Hi1 H0 E' E1) as [-> Hv1].
    destruct (sp_tree _ _ _ _ Hs 1 root root _ i2 t1 Hr Hr (vpn_range va 2) Hi2 H1 E E2) as [_ Hv2]. by destruct Hne.
Qed.

(** Whether an address of the last table is mapped shows in its entry. *)
Lemma last_entry va : vpn va 2 = i2 -> vpn va 1 = i1 ->
  (sv39_walk m' root va 2 = None <-> rd m' (t0 + 8 * vpn va 0) = 0).
Proof.
  intros V2 V1. pose proof (sp_root _ _ _ _ Hs) as Hr. pose proof store_space as Hs'. pose proof (vpn_range va) as Hv.
  rewrite (walk_created_branch m' root va 1 t1), (walk_created_branch m' t1 va 0 t0);
    [|rewrite (store_upper 0), V1; done|by eapply table_ok|rewrite (store_upper 1), V2; done|by eapply table_ok].
  destruct (entry_cases _ _ _ (sp_entry _ _ _ _ Hs' 0%nat t0 _ H0 (vpn_range va 0))) as [(n & f & E & Hp)|(? & ? & [=] & _)].
  rewrite (walk_page _ _ _ _ n f E Hp), E. destruct (page_entry_bounds _ _ _ Hp) as [Hn Hf].
  destruct (pe_flags _ _ _ Hp) as [[-> ->]|(_ & Hb & _)]; [by split|]. destruct (Z.eqb_spec f 0) as [->|Hnz]; [done|].
  split; [done|]. unfold pte. intros E0. lia.
Qed.
End Store.

(** ** The code on a space *)

Lemma space_valid {lv owned root m} l t i :
  space lv owned root m -> t ∈ lv l -> 0 <= i < 512 -> elem64 t i = t + 8 * i /\ valid64 (t + 8 * i).
Proof.
  intros Hs Ht Hi. assert (kblock t (8 * 512)) as Hk.
  { destruct (table_ok _ _ _ _ Hs l t Ht) as [H1 H2]. unfold kblock. unfold KERNEL_VMA_START in *. dlia. }
  split; [by apply (kblock_elem_eq t 512)|by apply (kblock_word_valid t 512)].
Qed.

Definition code_size (l : nat) : Z := match l with O => ppn1_jmp_size | _ => ppn2_jmp_size end.

Lemma code_size_eq l : (l <= 1)%nat -> code_size l = level_size (S l).
Proof. destruct l as [|[|]]; [done..|lia]. Qed.

(** What [table_of_entry] gives: the table of entry [k] of [T], in a space in
    which every address is translated as before. *)
Record has_table (lv : nat -> gset Z) (owned : gset Z) (root : Z) (s : kstate) (l : nat) (T k : Z)
    (t : Z) (lv' : nat -> gset Z) (owned' : gset Z) (s' : kstate) : Prop := {
  ht_space : space lv' owned' root (mem s');
  ht_table : t ∈ lv' l;
  ht_entry : rd (mem s') (T + 8 * k) = create_branch t;
  ht_walk va : sv39_walk (mem s') root va 2 = sv39_walk (mem s) root va 2;
  ht_lv l' b : b ∈ lv l' -> b ∈ lv' l';
  ht_new l' b : b ∈ lv' l' -> b ∈ lv l' \/ b ∉ owned;
  ht_owned : owned ⊆ owned';
  ht_frame b j : b ∈ owned -> 0 <= j < 512 -> b <> T \/ j <> k -> rd (mem s') (b + 8 * j) = rd (mem s) (b + 8 * j);
  ht_rest : s' = set_mem (mem s') (set_pager (pager s') s);
}.

Lemma set_pager_id s : set_pager (pager s) s = s.
Proof. by destruct s. Qed.

Lemma table_of_entry_spec {PS : PageSource pg_alloc} lv owned root s l T k :
  space lv owned root (mem s) -> ps_inv owned s -> T ∈ lv (S l) -> 0 <= k < 512 ->
  table_of_entry (elem64 T k) true (code_size l) s = Panic "OUT_OF_FREE_PAGES" 0 0 0 \/
  exists t lv' owned' s', table_of_entry (elem64 T k) true (code_size l) s = Ret t s' /\ ps_inv owned' s' /\
    has_table lv owned root s l T k t lv' owned' s'.
Proof.
  intros Hs Hi HT Hk. destruct (space_valid _ _ _ Hs HT Hk) as [Ek V]. unfold table_of_entry.
  rewrite Ek, (bind_Ret _ _ _ _ _ (load64_eq _ _ V)). rewrite andb_true_r.
  pose proof (sp_owned _ _ _ _ Hs _ _ HT) as (Hl & Ho & _).
  destruct (entry_cases _ _ _ (sp_entry _ _ _ _ Hs (S l) T k HT Hk)) as [(n & f & E & Hp)|(l' & t & [= <-] & Ht & E)].
  - destruct (page_entry_bounds _ _ _ Hp). rewrite E, branch_loc_pte by done.
    assert ((f =? 1) = false) as ->.
    { destruct (pe_flags _ _ _ Hp) as [[-> _]|(_ & _ & Hw)]; [done|]. by destruct (Z.eqb_spec f 1) as [->|]. }
    cbn [Z.eqb]. rewrite code_size_eq by lia. assert (leaf_entry l n f) as He by (split; [lia|done]).
    destruct (expand_spec owned s T k l n f Hi Ho Hk He E) as [Ep|(t & s' & Ep & Hf & Hpt & Hi' & Eb & Et & Hm & Hr)];
      [by left|right].
    exists t, (add_table lv l t), ({[t]} ∪ owned), s'. split; [done|]. split; [done|]. split; try done.
    + by apply (expand_space lv owned root (mem s) Hs (mem s') l T k n f t).
    + apply add_table_spec. by left.
    + intros va. apply (expand_walk_table lv owned root (mem s) Hs (mem s') l T k n f t); try done. apply Hs.
    + intros l' b Hb. apply add_table_spec. by right.
    + intros l' b [[-> ->]|Hb]%add_table_spec; [by right|by left].
    + apply union_subseteq_r.
  - right. destruct (table_ok _ _ _ _ Hs l t Ht) as [[B1 B2] B3]. destruct (page_number t (conj (conj B1 B2) B3)) as [Hn Ea].
    assert (get_branch_loc (rd (mem s) (T + 8 * k)) = t) as Eg.
    { rewrite E, create_branch_pte, branch_loc_pte by (done || lia). done. }
    rewrite Eg. replace (t =? 0) with false by (unfold KERNEL_VMA_START in B1; lia).
    exists t, lv, owned, s. split; [done|]. split; [done|]. split; try done;
      [intros l' b Hb; by left|by rewrite set_pager_id, set_mem_id].
Qed.

Lemma table_present lv owned root s l T k t :
  space lv owned root (mem s) -> T ∈ lv (S l) -> 0 <= k < 512 -> t ∈ lv l ->
  rd (mem s) (T + 8 * k) = create_branch t -> get_branch_loc (rd (mem s) (T + 8 * k)) = t /\ t <> 0.
Proof.
  intros Hs HT Hk Ht E. pose proof (table_ok _ _ _ _ Hs l t Ht) as Hok. destruct (page_number t Hok) as [Hn Ea].
  split; [by rewrite E, create_branch_pte, branch_loc_pte by (done || lia)|].
  destruct Hok as [[B1 _] _]. unfold KERNEL_VMA_START in B1. lia.
Qed.

Lemma table_not_needed e jmp s : valid64 e -> table_of_entry e false jmp s = Ret (get_branch_loc (rd (mem s) e)) s.
Proof. intros V. unfold table_of_entry. by rewrite (bind_Ret _ _ _ _ _ (load64_eq _ _ V)), andb_false_r. Qed.

(** *** [shrink_branch] *)

Lemma fold_and (p : Z -> bool) (body : bool -> Z -> M bool) lo hi c s :
  (forall c i, lo <= i < hi -> body c i s = Ret (c && p i) s) ->
  for_fold (upto lo hi) body c s = Ret (c && forallb p (upto lo hi)) s.
Proof.
  intros Hb. assert (forall i, i ∈ upto lo hi -> forall c, body c i s = Ret (c && p i) s) as H
    by (intros i Hi%elem_of_upto c'; by apply Hb).
  clear Hb. revert c H. generalize (upto lo hi). intros l. induction l as [|x l IH]; intros c H.
  - cbn. by rewrite andb_true_r.
  - cbn [for_fold forallb]. rewrite (bind_Ret _ _ _ _ _ (H x ltac:(by left) c)).
    rewrite IH by (intros; apply H; by right). by rewrite andb_assoc.
Qed.

Lemma forallb_fails (p : Z -> bool) lo hi i : lo <= i < hi -> p i = false -> forallb p (upto lo hi) = false.
Proof.
  intros Hi Hp. destruct (forallb p (upto lo hi)) eqn:E; [|done]. rewrite forallb_forall in E.
  rewrite (E i) in Hp; [done|]. by apply list_elem_of_In, elem_of_upto.
Qed.

(** An entry of the table that keeps [can_shrink] from holding. *)
Definition unmapped_bad (m : gmap Z Z) (t : Z) : Prop := exists i, 0 <= i < 512 /\ rd m (t + 8 * i) <> 0.
Definition mapped_bad (m : gmap Z Z) (t size : Z) : Prop := exists i, 0 <= i < 512 /\
  (get_phys_leaf_loc (rd m (t + 8 * i)) <> get_phys_leaf_loc (rd m (t + 8 * 0)) ⊕ size ⊗ i \/
   get_leaf_flags (rd m (t + 8 * i)) <> get_leaf_flags (rd m (t + 8 * 0))).

Lemma shrink_keeps lv owned root s l T k t :
  space lv owned root (mem s) -> T ∈ lv (S l) -> 0 <= k < 512 -> t ∈ lv l ->
  rd (mem s) (T + 8 * k) = create_branch t ->
  unmapped_bad (mem s) t -> (rd (mem s) (t + 8 * 0) <> 0 -> mapped_bad (mem s) t (code_size l / 512)) ->
  shrink_branch (elem64 T k) (code_size l) s = Ret tt s.
Proof.
  intros Hs HT Hk Ht E (i & Hi & Hnz) Hbad. destruct (space_valid _ _ _ Hs HT Hk) as [Ek V].
  destruct (table_present _ _ _ _ _ _ _ _ Hs HT Hk Ht E) as [Eg Hne]. unfold shrink_branch.
  rewrite Ek, (bind_Ret _ _ _ _ _ (load64_eq _ _ V)), Eg. cbv zeta.
  replace (t =? 0) with false by lia. destruct (space_valid l t 0 Hs Ht ltac:(lia)) as [E0 V0].
  rewrite E0, (bind_Ret _ _ _ _ _ (load64_eq _ _ V0)).
  destruct (Z.eqb_spec (rd (mem s) (t + 8 * 0)) 0) as [Ez|Hnz0].
  - unfold can_shrink_unmapped. erewrite bind_Ret.
    2:{ apply (fold_and (fun i => rd (mem s) (t + 8 * i) =? 0)). intros c j Hj.
        destruct (space_valid l t j Hs Ht Hj) as [-> Vj]. by rewrite (bind_Ret _ _ _ _ _ (load64_eq _ _ Vj)). }
    rewrite (forallb_fails _ 0 512 i Hi); [done|]. by apply Z.eqb_neq.
  - destruct (Hbad Hnz0) as (j & Hj & Hd). unfold can_shrink_mapped.
    rewrite E0, bind_assoc, (bind_Ret _ _ _ _ _ (load64_eq _ _ V0)). cbv zeta. erewrite bind_Ret.
    2:{ apply (fold_and (fun i => (get_phys_leaf_loc (rd (mem s) (t + 8 * i)) =?
            get_phys_leaf_loc (rd (mem s) (t + 8 * 0)) ⊕ (code_size l / 512) ⊗ i) &&
            (get_leaf_flags (rd (mem s) (t + 8 * i)) =? get_leaf_flags (rd (mem s) (t + 8 * 0))) &&
            (Z.land (get_leaf_flags (rd (mem s) (t + 8 * i))) VMA_DONT_COMPRESS =? 0))).
        intros c i' Hi'. destruct (space_valid l t i' Hs Ht Hi') as [-> Vj].
        rewrite (bind_Ret _ _ _ _ _ (load64_eq _ _ Vj)). by rewrite <- !andb_assoc. }
    rewrite (forallb_fails _ 0 512 j Hj); [done|]. destruct Hd as [Hd|Hd].
    + by apply Z.eqb_neq in Hd as ->.
    + apply Z.eqb_neq in Hd as ->. by rewrite andb_false_r.
Qed.

(** ** Mapping one page *)

Definition canonical (va : Z) : Prop := 0 <= va < 0x4000000000 \/ KERNEL_VMA_START <= va < 18446744073709551616.

Lemma vpn_digits va :
  vpn va 2 = va / 1073741824 mod 512 /\ vpn va 1 = va / 2097152 mod 512 /\ vpn va 0 = va / 4096 mod 512.
Proof. done. Qed.

Lemma same_page va va' : canonical va -> canonical va' ->
  (vpn va' 2 = vpn va 2 /\ vpn va' 1 = vpn va 1 /\ vpn va' 0 = vpn va 0) <-> va' / 4096 = va / 4096.
Proof.
  unfold canonical, KERNEL_VMA_START. destruct (vpn_digits va) as (-> & -> & ->), (vpn_digits va') as (-> & -> & ->).
  intros H H'.
  assert (forall x, x / 1073741824 = x / 4096 / 262144 /\ x / 2097152 = x / 4096 / 512) as Hd
    by (intros x; rewrite !Z.div_div by lia; done).
  destruct (Hd va) as [-> ->], (Hd va') as [-> ->].
  assert (0 <= va / 4096 < 67108864 \/ 4503599560261632 <= va / 4096 < 4503599627370496) as Hv by dlia.
  assert (0 <= va' / 4096 < 67108864 \/ 4503599560261632 <= va' / 4096 < 4503599627370496) as Hv' by dlia.
  generalize dependent (va / 4096). generalize dependent (va' / 4096). intros p Hp q Hq.
  split; [intros (A & B & C)|intros ->; done]. clear -A B C Hp Hq. dlia.
Qed.

Lemma normalize_digits va : canonical va -> va mod 4096 = 0 ->
  normalize va / ppn2_jmp_size = vpn va 2 /\ normalize va mod ppn2_jmp_size / ppn1_jmp_size = vpn va 1 /\
  normalize va mod ppn1_jmp_size / ppn0_jmp_size = vpn va 0 /\ normalize va mod 4096 = 0 /\
  0 <= normalize va <= 0x8000000000 - 4096 /\
  (va < KERNEL_VMA_START -> normalize va <= 0x4000000000 - 4096) /\
  normalize va mod 1073741824 = va mod 1073741824.
Proof.
  unfold canonical, KERNEL_VMA_START, normalize. destruct (vpn_digits va) as (-> & -> & ->). intros H Ha.
  change ppn2_jmp_size with 1073741824. change ppn1_jmp_size with 2097152. change ppn0_jmp_size with 4096.
  destruct (Z.leb_spec 18446743798831644672 va).
  - rewrite wrap64_small by lia. split_and!; dlia.
  - rewrite wrap64_small by lia. split_and!; dlia.
Qed.

(** The guards of [vma_replace_section] let a range pass that stays in its half. *)
Lemma range_checks va size : canonical va -> va mod 4096 = 0 -> 0 <= size <= 2097152 ->
  (va < KERNEL_VMA_START -> va + size <= 0x4000000000) -> va + size <= 18446744073709551616 ->
  (ppn2_jmp_size * 256 <? size) = false /\
  (0x4000000000 ⊖ size <? normalize va) && negb (0xffffffc000000000 <=? va) = false /\
  (0x8000000000 ⊖ size <? normalize va) && (0xffffffc000000000 <=? va) = false.
Proof.
  intros Hva Hal Hs Hu Hk. change (ppn2_jmp_size * 256) with 274877906944. unfold canonical, KERNEL_VMA_START, normalize in *.
  rewrite !(wrap64_small (_ - size)) by lia. split; [lia|].
  destruct (Z.leb_spec 0xffffffc000000000 va); cbn [negb]; rewrite ?andb_false_r, ?andb_true_r; rewrite wrap64_small by lia;
    (split; [lia|]); lia.
Qed.

(** Pages of one 2 MiB region are entries of its last table, unless the region
    starts a gigabyte. *)
Lemma count_pages va0 ph nv cnt s :
  0 <= nv -> nv + cnt * 4096 < 18446744073709551616 -> nv mod 4096 = 0 -> nv mod 1073741824 <> 0 ->
  0 <= cnt < 512 -> nv mod 2097152 + cnt * 4096 <= 2097152 ->
  while_true (count_step va0 (cnt * 4096) ph) (start_counts (cnt * 4096) nv) s =
    Ret (mkCounts 0 (nv + cnt * 4096) cnt 0 0 0 0 0) s.
Proof.
  intros Hu Hb Ha Hn Hc Hr. apply wp_exact.
  apply (wp_while (fun c s' => s' = s /\ exists k, 0 <= k <= cnt /\
    c = mkCounts ((cnt - k) * 4096) (nv + k * 4096) k 0 0 0 0 0) (fun c _ => mapping_left c)).
  - intros c s' (_ & k & Hk & ->). cbn. lia.
  - intros c s' (-> & k & Hk & ->). unfold count_step, reach.
    cbn [mapping_left cur_virt_addr highest_reached_ppn pre_ppn0_cnt pre_ppn1_cnt ppn2_cnt post_ppn1_cnt post_ppn0_cnt].
    destruct (Z.eqb_spec ((cnt - k) * 4096) 0) as [E|E].
    + apply wp_ret. assert (k = cnt) as -> by lia. by rewrite Z.sub_diag.
    + cbv zeta. rewrite !round_down_eq by (done || (unfold u64; lia)).
      change ppn2_jmp_size with 1073741824. change ppn1_jmp_size with 2097152. change ppn0_jmp_size with 4096.
      replace ((nv + k * 4096) mod 1073741824 =? 0) with false by (symmetry; apply Z.eqb_neq; clear -Ha Hn Hr Hk E; dlia).
      replace ((nv + k * 4096) mod 4096 =? 0) with true by (symmetry; apply Z.eqb_eq; clear -Ha; dlia).
      replace (2097152 <=? (cnt - k) * 4096) with false by lia. rewrite andb_false_r.
      replace (4096 <=? (cnt - k) * 4096) with true by lia. cbn [andb]. cbv iota.
      change (0 <? 0) with false. cbv iota. apply wp_ret. rewrite !wrap64_small by lia. cbn [mapping_left]. split; [|lia]. split; [done|]. exists (k + 1).
      split; [lia|]. f_equal; lia.
  - split; [done|]. exists 0. split; [lia|]. unfold start_counts. f_equal; lia.
  - cbn. lia.
Qed.

(** A table with a mapped and an unmapped page. *)
Lemma page_table_bad lv owned root m t i j :
  space lv owned root m -> t ∈ lv 0%nat -> 0 <= i < 512 -> 0 <= j < 512 ->
  rd m (t + 8 * i) <> 0 -> rd m (t + 8 * j) = 0 ->
  unmapped_bad m t /\ (rd m (t + 8 * 0) <> 0 -> mapped_bad m t (code_size 0 / 512)).
Proof.
  intros Hs Ht Hi Hj Hnz Hz. split; [by exists i|]. intros Hf. exists j. split; [done|]. right. rewrite Hz.
  destruct (entry_cases _ _ _ (sp_entry _ _ _ _ Hs 0%nat t 0 Ht ltac:(lia))) as [(n & f & E & Hp)|(? & ? & [=] & _)].
  destruct (page_entry_bounds _ _ _ Hp). rewrite E, leaf_flags_pte by done. change (get_leaf_flags 0) with 0.
  destruct (pe_flags _ _ _ Hp) as [[-> ->]|(_ & Hb & _)]; [by rewrite E in Hf|]. by intros <-.
Qed.

(** A table with a branch in it. *)
Lemma branch_table_bad lv owned root m t t' i :
  space lv owned root m -> t ∈ lv 1%nat -> 0 <= i < 512 -> t' ∈ lv 0%nat -> rd m (t + 8 * i) = create_branch t' ->
  unmapped_bad m t /\ (rd m (t + 8 * 0) <> 0 -> mapped_bad m t (code_size 1 / 512)).
Proof.
  intros Hs Ht Hi Ht' Eb. pose proof (table_ok _ _ _ _ Hs _ _ Ht') as Hok. destruct (page_number t' Hok) as [Hn _].
  assert (forall b, page_ok b -> get_phys_leaf_loc (create_branch b) = 0 /\ get_leaf_flags (create_branch b) = 1) as Hbr.
  { intros b Hb. destruct (page_number b Hb). rewrite create_branch_pte, leaf_loc_pte, leaf_flags_pte by (done || lia). done. }
  split.
  - exists i. split; [done|]. rewrite Eb, create_branch_pte by done. unfold pte. lia.
  - intros Hf. destruct (entry_cases _ _ _ (sp_entry _ _ _ _ Hs 1%nat t 0 Ht ltac:(lia)))
      as [(n & f & E & Hp)|(l & b & [= <-] & Hb & E)].
    + exists i. split; [done|]. right. destruct (page_entry_bounds _ _ _ Hp).
      rewrite Eb, E, leaf_flags_pte by done. destruct (Hbr t' Hok) as [_ ->].
      destruct (pe_flags _ _ _ Hp) as [[-> ->]|(_ & _ & Hw)]; [by rewrite E in Hf|]. intros <-. by apply Hw.
    + exists 1. split; [lia|]. left. rewrite E. destruct (Hbr b (table_ok _ _ _ _ Hs _ _ Hb)) as [-> _].
      change (0 ⊕ (code_size 1 / 512) ⊗ 1) with 2097152.
      destruct (entry_cases _ _ _ (sp_entry _ _ _ _ Hs 1%nat t 1 Ht ltac:(lia)))
        as [(n & f & E1 & Hp)|(l & b1 & [= <-] & Hb1 & E1)]; rewrite E1.
      * destruct (page_entry_bounds _ _ _ Hp). rewrite leaf_loc_pte by done. unfold KERNEL_VMA_START.
        destruct (f <=? 1); lia.
      * destruct (Hbr b1 (table_ok _ _ _ _ Hs _ _ Hb1)) as [-> _]. lia.
Qed.

Section MapRange.
Context {PS : PageSource pg_alloc} (lv : nat -> gset Z) (owned : gset Z) (root va cnt phys f asid : Z) (s : kstate).
Context (Hs : space lv owned root (mem s)) (Hi : ps_inv owned s).
Context (Hva : canonical va) (Hal : va mod 4096 = 0) (Hgb : va mod 1073741824 <> 0).
Context (Hcnt : 0 < cnt < 512) (Hfit : va mod 2097152 + cnt * 4096 <= 2097152).
(** The flags are those of a leaf of [cnt] pages at [phys], or 0: then nothing
    will be mapped. *)
Context (Hf : f = 0 \/ (page_ok phys /\ phys + cnt * 4096 <= 18446744073709551616 /\
  0 <= f < 1024 /\ Z.testbit f 0 = true /\ Z.land f 14 <> 0)).

Local Abbreviation n := ((phys - KERNEL_VMA_START) / 4096).

Definition in_range (v : Z) : Prop := va / 4096 <= v / 4096 < va / 4096 + cnt.
#[global] Instance in_range_decision v : Decision (in_range v) := and_dec _ _.

(** The translations asked for. *)
Definition range_walk (v : Z) : option (Z * Z) :=
  if decide (in_range v)
  then if f =? 0 then None else Some (phys - KERNEL_VMA_START + (v / 4096 - va / 4096) * 4096 + v mod 4096, f)
  else sv39_walk (mem s) root v 2.

(** Some other entry of the last table keeps it from being shrunk. *)
Context (v1 v2 : Z) (Hv1 : v1 / 2097152 = va / 2097152) (Hv2 : v2 / 2097152 = va / 2097152).
Context (Hmapped : range_walk v1 <> None) (Hhole : range_walk v2 = None).

(** The page number of entry [k] of the range. *)
Definition new_ppn (k : Z) : Z := if f =? 0 then 0 else n + k.
Definition new_entries : list Z := (fun k => pte (new_ppn k) f) <$> upto 0 cnt.

Lemma new_entry k : 0 <= k < cnt ->
  create_leaf (phys ⊕ k * 4096) f = pte (new_ppn k) f /\ page_entry 0 (new_ppn k) f.
Proof.
  intros Hk. unfold new_ppn. destruct Hf as [->|(Hph & Hb & Hr & Hf0 & Hfw)].
  - split; [done|]. split; [done|done|by left|done].
  - destruct (leaf_flag_facts f Hf0 Hfw ltac:(lia)) as [Hf1 Hl]. replace (f =? 0) with false by lia.
    destruct (page_number phys Hph) as [Hn En]. destruct Hph as [[P1 P2] P3].
    assert (page_ok (phys + k * 4096)) as Hpk by (split; [lia|clear -P3; dlia]).
    destruct (page_number _ Hpk) as [Hnk Enk].
    assert ((phys + k * 4096 - KERNEL_VMA_START) / 4096 = n + k) as Ek by lia.
    unfold KERNEL_VMA_START in *. rewrite wrap64_small by lia. rewrite create_leaf_pte, Hl by (done || lia).
    unfold KERNEL_VMA_START in *. rewrite Ek. split; [done|]. split.
    + change (2 ^ (9 * Z.of_nat 0)) with 1. lia.
    + apply Z.mod_1_r.
    + right. split; [lia|done].
    + done.
Qed.

Lemma first_index : 0 <= vpn va 0 /\ vpn va 0 + cnt <= 512.
Proof. destruct (vpn_digits va) as (_ & _ & ->). clear -Hfit Hcnt Hal. dlia. Qed.

Lemma fill_range t s2 : kblock t (8 * 512) ->
  fill_entries false t 4096 phys f cnt (0, vpn va 0) s2 =
    Ret (cnt * 4096, vpn va 0 + cnt) (set_mem (write_words (mem s2) (t + 8 * vpn va 0) new_entries) s2).
Proof.
  intros Hb. destruct first_index as [I1 I2]. unfold fill_entries. apply wp_exact.
  apply (wp_for_fold (fun k st s' => st = (k * 4096, vpn va 0 + k) /\
    s' = set_mem (write_words (mem s2) (t + 8 * vpn va 0) ((fun k => pte (new_ppn k) f) <$> upto 0 k)) s2)).
  - lia.
  - split; [f_equal; lia|]. rewrite upto_nil by lia. cbn [fmap list_fmap write_words]. by rewrite set_mem_id.
  - intros k st s' Hk [-> ->]. destruct (new_entry k Hk) as [E _]. cbn [when].
    apply wp_bind, wp_ret, wp_bind. rewrite (kblock_elem_eq t 512) by (done || lia).
    apply wp_store64; [apply (kblock_word_valid t 512); [done|lia]|]. apply wp_ret. rewrite E.
    unfold KERNEL_VMA_START in *. rewrite !wrap64_small by lia. split; [f_equal; lia|].
    rewrite upto_snoc, fmap_app by lia. cbn [fmap list_fmap mem set_mem]. rewrite write_words_snoc, length_fmap, length_upto by lia.
    rewrite Z.sub_0_r. replace (t + 8 * (vpn va 0 + k)) with (t + 8 * vpn va 0 + 8 * k) by lia.
    by rewrite Z2Nat.id by lia.
  - done.
Qed.

Definition written (j : Z) : bool := (vpn va 0 <=? j) && (j <? vpn va 0 + cnt).

Section Path.
Context (t1 t0 : Z) (lv2 : nat -> gset Z) (owned2 : gset Z) (s2 : kstate).
Context (Hs2 : space lv2 owned2 root (mem s2)) (H1 : t1 ∈ lv2 1%nat) (H0 : t0 ∈ lv2 0%nat).
Context (E2 : rd (mem s2) (root + 8 * vpn va 2) = create_branch t1) (E1 : rd (mem s2) (t1 + 8 * vpn va 1) = create_branch t0).
Context (Hw : forall v, sv39_walk (mem s2) root v 2 = sv39_walk (mem s) root v 2).

Definition range_mem : gmap Z Z := write_words (mem s2) (t0 + 8 * vpn va 0) new_entries.

Lemma range_new j : 0 <= j < 512 -> written j = true ->
  rd range_mem (t0 + 8 * j) = pte (new_ppn (j - vpn va 0)) f /\ page_entry 0 (new_ppn (j - vpn va 0)) f.
Proof.
  intros Hj Hwr. unfold written in Hwr. destruct (new_entry (j - vpn va 0) ltac:(lia)) as [_ He]. split; [|done].
  unfold range_mem. replace (t0 + 8 * j) with (t0 + 8 * vpn va 0 + 8 * (j - vpn va 0)) by lia.
  rewrite (rd_write_words_in _ _ _ _ (pte (new_ppn (j - vpn va 0)) f)); [|lia|].
  - destruct (page_entry_bounds _ _ _ He). by apply wrap64_small, pte_u64.
  - unfold new_entries. rewrite list_lookup_fmap. unfold upto. rewrite lookup_seqZ_lt by lia.
    cbn [fmap option_fmap option_map]. by rewrite Z2Nat.id, Z.add_0_l by lia.
Qed.

Lemma range_frame a :
  (forall j, 0 <= j < 512 -> written j = true -> a <> t0 + 8 * j) -> rd range_mem a = rd (mem s2) a.
Proof.
  intros Ha. destruct first_index as [I1 I2]. apply rd_write_words_out.
  unfold new_entries. rewrite length_fmap, length_upto, Z.sub_0_r. intros i Hi'.
  replace (t0 + 8 * vpn va 0 + 8 * i) with (t0 + 8 * (vpn va 0 + i)) by lia. apply Ha; unfold written; lia.
Qed.

Lemma range_old l b j : b ∈ lv2 l -> 0 <= j < 512 -> b <> t0 \/ written j = false ->
  rd range_mem (b + 8 * j) = rd (mem s2) (b + 8 * j).
Proof.
  intros Hb Hj Hne. apply range_frame. intros k Hk Hwk.
  apply page_ok_ne; [by eapply table_ok|by eapply table_ok|done|done|]. destruct Hne as [?|Hne]; [by left|right]. intros ->. congruence.
Qed.

Lemma range_space : space lv2 owned2 root range_mem.
Proof. exact (store_space lv2 owned2 root (mem s2) range_mem Hs2 t0 H0 written _ _ range_new range_old). Qed.

Lemma range_digits v : canonical v ->
  (vpn v 2 = vpn va 2 /\ vpn v 1 = vpn va 1 /\ written (vpn v 0) = true <-> in_range v) /\
  (in_range v -> vpn v 0 - vpn va 0 = v / 4096 - va / 4096).
Proof.
  intros Hv. unfold written, in_range.
  pose proof (same_page (va / 2097152 * 2097152 + v mod 2097152) v) as Hsame.
  assert (canonical (va / 2097152 * 2097152 + v mod 2097152)) as Hc.
  { clear -Hva. unfold canonical, KERNEL_VMA_START in *. dlia. }
  specialize (Hsame Hc Hv). destruct (vpn_digits v) as (V2 & V1 & V0), (vpn_digits va) as (W2 & W1 & W0),
    (vpn_digits (va / 2097152 * 2097152 + v mod 2097152)) as (X2 & X1 & X0).
  assert (vpn (va / 2097152 * 2097152 + v mod 2097152) 2 = vpn va 2) as Y2 by (rewrite X2, W2; clear; dlia).
  assert (vpn (va / 2097152 * 2097152 + v mod 2097152) 1 = vpn va 1) as Y1 by (rewrite X1, W1; clear; dlia).
  assert (vpn (va / 2097152 * 2097152 + v mod 2097152) 0 = vpn v 0) as Y0 by (rewrite X0, V0; clear; dlia).
  rewrite Y2, Y1, Y0 in Hsame. rewrite V0, W0 in *. split; [split|].
  - intros (A2 & A1 & Hwr). destruct Hsame as [Hsame _]. specialize (Hsame ltac:(done)). clear -Hsame Hwr Hfit Hal. dlia.
  - intros Hr. assert (v / 2097152 = va / 2097152) as Hreg by (clear -Hr Hfit Hal; dlia).
    split; [rewrite V2, W2; clear -Hreg; dlia|]. split; [rewrite V1, W1; clear -Hreg; dlia|]. clear -Hr Hreg. dlia.
  - intros Hr. clear -Hr Hfit Hal. dlia.
Qed.

Lemma range_walks v : canonical v -> sv39_walk range_mem root v 2 = range_walk v.
Proof.
  intros Hv. rewrite (store_walk lv2 owned2 root (mem s2) range_mem Hs2 t1 t0 (vpn va 2) (vpn va 1) H1 H0
    (vpn_range va 2) (vpn_range va 1) E2 E1 written _ _ range_new range_old). rewrite Hw. unfold range_walk.
  destruct (range_digits v Hv) as [Hd Hk].
  destruct (decide (vpn v 2 = _ /\ _)) as [Hin|Hin], (decide (in_range v)) as [Hr|Hr]; try tauto.
  destruct (Z.eqb_spec f 0) as [|Hnz]; [done|]. do 2 f_equal. unfold new_ppn. rewrite (proj2 (Z.eqb_neq _ _) Hnz), (Hk Hr).
  destruct Hf as [?|(Hph & _)]; [done|]. destruct (page_number phys Hph) as [_ En]. lia.
Qed.

Lemma region_canonical v : v / 2097152 = va / 2097152 -> canonical v /\ vpn v 2 = vpn va 2 /\ vpn v 1 = vpn va 1.
Proof.
  intros Hv. destruct (vpn_digits v) as (-> & -> & _), (vpn_digits va) as (-> & -> & _).
  split; [|split; clear -Hv; dlia]. clear -Hva Hv. unfold canonical, KERNEL_VMA_START in *. dlia.
Qed.

Lemma range_ready (s3 := set_mem range_mem s2) :
  shrink_branch (elem64 t1 (vpn va 1)) ppn1_jmp_size s3 = Ret tt s3 /\
  shrink_branch (elem64 root (vpn va 2)) ppn2_jmp_size s3 = Ret tt s3.
Proof.
  pose proof (sp_root _ _ _ _ Hs2) as Hr. pose proof (vpn_range va) as Hv. pose proof range_space as Hs3.
  assert (forall l b j, b ∈ lv2 (S l) -> 0 <= j < 512 -> rd range_mem (b + 8 * j) = rd (mem s2) (b + 8 * j)) as Hup
    by exact (store_upper lv2 owned2 root (mem s2) range_mem Hs2 t0 H0 written range_old).
  assert (rd range_mem (root + 8 * vpn va 2) = create_branch t1) as F2 by (by rewrite (Hup 1%nat)).
  assert (rd range_mem (t1 + 8 * vpn va 1) = create_branch t0) as F1 by (by rewrite (Hup 0%nat)).
  assert (forall v, v / 2097152 = va / 2097152 -> range_walk v = None <-> rd range_mem (t0 + 8 * vpn v 0) = 0) as He.
  { intros v Hreg. destruct (region_canonical v Hreg) as (Hc & V2 & V1). rewrite <- range_walks by done.
    by apply (last_entry lv2 owned2 root (mem s2) range_mem Hs2 t1 t0 (vpn va 2) (vpn va 1) H1 H0 E2 E1 written _ _ range_new range_old). }
  destruct (page_table_bad lv2 owned2 root range_mem t0 (vpn v1 0) (vpn v2 0) Hs3 H0 (vpn_range _ _) (vpn_range _ _)
    ltac:(by rewrite <- (He v1 Hv1)) ltac:(by apply (He v2 Hv2))) as [U0 M0].
  destruct (branch_table_bad lv2 owned2 root range_mem t1 t0 (vpn va 1) Hs3 H1 (Hv _) H0 F1) as [U1 M1].
  split.
  - exact (shrink_keeps lv2 owned2 root s3 0 t1 (vpn va 1) t0 Hs3 H1 (Hv _) H0 F1 U0 M0).
  - exact (shrink_keeps lv2 owned2 root s3 1 root (vpn va 2) t1 Hs3 Hr (Hv _) H1 F2 U1 M1).
Qed.
End Path.

Lemma fill_none d table jmp ph fl st s1 : fill_entries d table jmp ph fl 0 st s1 = Ret st s1.
Proof. done. Qed.

Lemma post_section_none i2 c off (k : M unit) s1 :
  valid64 (elem64 root i2) -> post_ppn1_cnt c = 0 -> post_ppn0_cnt c = 0 ->
  (post_section root i2 phys f c off ;; k) s1 = (shrink_branch (elem64 root i2) ppn2_jmp_size ;; k) s1.
Proof.
  intros V E1 E0. unfold post_section. rewrite E1, E0. change ((0 <? 0) || (0 <? 0)) with false.
  rewrite bind_assoc, (bind_Ret _ _ _ _ _ (table_not_needed _ ppn2_jmp_size s1 V)).
  rewrite bind_assoc, (bind_Ret _ _ _ _ _ (fill_none _ _ _ _ _ _ _)). done.
Qed.

(** The fences of the range. *)
Definition range_fences : list tlb_fence := (fun k => Sfence (Some (va ⊕ k * 4096)) (Some (fence_asid s asid))) <$> upto 0 cnt.

Lemma blocks_same o k b : blocks_from (o * b) (replicate k b) = (fun i => (i * b, b)) <$> upto o (o + Z.of_nat k).
Proof.
  revert o. induction k as [|k IH]; intros o.
  - by rewrite upto_nil by lia.
  - rewrite upto_cons by lia. cbn [replicate blocks_from fmap list_fmap]. f_equal.
    replace (o * b + b) with ((o + 1) * b) by lia. rewrite IH. do 2 f_equal. lia.
Qed.

Lemma fence_range left cur h s1 :
  fence_section va (fence_asid s asid) (mkCounts left cur cnt 0 0 0 0 h) s1 = Ret tt (add_fences range_fences s1).
Proof.
  assert (split_blocks (mkCounts left cur cnt 0 0 0 0 h) = replicate (Z.to_nat cnt) 4096) as Eb.
  { unfold split_blocks. cbn [pre_ppn0_cnt pre_ppn1_cnt ppn2_cnt post_ppn1_cnt post_ppn0_cnt]. apply app_nil_r. }
  rewrite fence_section_eq; cbn [pre_ppn0_cnt pre_ppn1_cnt ppn2_cnt post_ppn1_cnt post_ppn0_cnt];
    [|lia..|rewrite Eb, total_replicate; lia]. rewrite Eb.
  pose proof (blocks_same 0 (Z.to_nat cnt) 4096) as E. rewrite Z.mul_0_l, Z.add_0_l, Z2Nat.id in E by lia.
  rewrite E. unfold range_fences, fence_of. by rewrite <- list_fmap_compose.
Qed.

(** [vma_replace_section] finds the two tables of the path, then writes the
    entries; nothing shrinks. *)
Lemma range_stages : exists rest : Z -> Z -> M unit,
  vma_replace_section root va (cnt * 4096) phys f asid s =
    (t1 ← table_of_entry (elem64 root (vpn va 2)) true (code_size 1);
     t0 ← table_of_entry (elem64 t1 (vpn va 1)) true (code_size 0);
     rest t1 t0) s /\
  forall t1 t0 lv2 owned2 s2,
    space lv2 owned2 root (mem s2) -> t1 ∈ lv2 1%nat -> t0 ∈ lv2 0%nat ->
    rd (mem s2) (root + 8 * vpn va 2) = create_branch t1 -> rd (mem s2) (t1 + 8 * vpn va 1) = create_branch t0 ->
    (forall v, sv39_walk (mem s2) root v 2 = sv39_walk (mem s) root v 2) ->
    rest t1 t0 s2 = Ret tt (add_fences range_fences (set_mem (range_mem t0 s2) s2)).
Proof.
  destruct (normalize_digits va Hva Hal) as (N2 & N1 & N0 & Na & Nr & Nu & Nm).
  assert (va + cnt * 4096 <= 18446744073709551616 /\ (va < KERNEL_VMA_START -> va + cnt * 4096 <= 0x4000000000)) as [B1 B2].
  { clear -Hva Hfit Hcnt. unfold canonical, KERNEL_VMA_START in *. dlia. }
  assert (normalize va mod 2097152 = va mod 2097152) as Nm' by (clear -Nm; dlia).
  eexists (fun t1 t0 => _). split.
  - unfold vma_replace_section. erewrite bind_Ret by reflexivity. cbv zeta.
    destruct (range_checks va (cnt * 4096) Hva Hal ltac:(lia) B2 B1) as (-> & -> & ->). cbv iota.
    rewrite (bind_Ret _ _ _ _ _ (count_pages va phys (normalize va) cnt s ltac:(lia) ltac:(lia) Na
      ltac:(by rewrite Nm) ltac:(lia) ltac:(by rewrite Nm'))).
    cbn [pre_ppn0_cnt pre_ppn1_cnt ppn2_cnt post_ppn1_cnt post_ppn0_cnt].
    change ((0 <? 0) || (0 <? cnt)) with (0 <? cnt). replace (0 <? cnt) with true by lia.
    change ((0 <? 0) || (0 <? 0)) with false. rewrite N2, N1, N0. reflexivity.
  - intros t1 t0 lv2 owned2 s2 Hs2 H1 H0 E2 E1 Hw. cbv beta.
    pose proof (vpn_range va) as Hv. pose proof (sp_root _ _ _ _ Hs2) as Hr.
    pose proof (range_space t0 lv2 owned2 s2 Hs2 H0) as Hs3.
    destruct (range_ready t1 t0 lv2 owned2 s2 Hs2 H1 H0 E2 E1 Hw) as [S1 S2].
    destruct (space_valid _ _ _ Hs3 Hr (Hv 2%nat)) as [Er Vr].
    assert (kblock t0 (8 * 512)) as Kb.
    { destruct (table_ok _ _ _ _ Hs2 _ _ H0) as [[K1 K2] K3]. unfold kblock, KERNEL_VMA_START in *. clear -K1 K2 K3. dlia. }
    rewrite (bind_Ret _ _ _ _ _ (fill_range t0 s2 Kb)). cbv beta iota.
    change (set_mem (write_words (mem s2) (t0 + 8 * vpn va 0) new_entries) s2) with (set_mem (range_mem t0 s2) s2).
    rewrite (bind_Ret _ _ _ _ _ S1), (bind_Ret _ _ _ _ _ (fill_none _ _ _ _ _ _ _)).
    cbv beta iota. rewrite (bind_Ret _ _ _ _ _ S2), (bind_Ret _ _ _ _ _ (fill_none _ _ _ _ _ _ _)).
    cbv beta iota. rewrite post_section_none by (done || (rewrite Er; exact Vr)).
    rewrite (bind_Ret _ _ _ _ _ S2). apply fence_range.
Qed.

(** What mapping the range makes of the state. *)
Record range_mapped (s' : kstate) (lv' : nat -> gset Z) (owned' : gset Z) : Prop := {
  rm_inv : ps_inv owned' s';
  rm_owned : owned ⊆ owned';
  rm_space : space lv' owned' root (mem s');
  rm_new l b : b ∈ lv' l -> b ∈ lv l \/ b ∉ owned;
  rm_walk v : canonical v -> sv39_walk (mem s') root v 2 = range_walk v;
  rm_frame b j : b ∈ owned -> (forall l, b ∉ lv l) -> 0 <= j < 512 -> rd (mem s') (b + 8 * j) = rd (mem s) (b + 8 * j);
  rm_rest : s' = set_mem (mem s') (set_pager (pager s') (add_fences range_fences s));
}.

Lemma replace_range :
  vma_replace_section root va (cnt * 4096) phys f asid s = Panic "OUT_OF_FREE_PAGES" 0 0 0 \/
  exists lv' owned' s', vma_replace_section root va (cnt * 4096) phys f asid s = Ret tt s' /\ range_mapped s' lv' owned'.
Proof.
  pose proof (vpn_range va) as Hv. pose proof (sp_root _ _ _ _ Hs) as Hr.
  destruct range_stages as (rest & -> & Hrest).
  destruct (table_of_entry_spec lv owned root s 1 root (vpn va 2) Hs Hi Hr (Hv _)) as [T1|(t1 & lv1 & owned1 & s1 & T1 & Hi1 & H1)].
  { left. by apply bind_Panic. }
  rewrite (bind_Ret _ _ _ _ _ T1). destruct H1 as [Hs1 Ht1 E1 W1 L1 N1 O1 F1 R1].
  destruct (table_of_entry_spec lv1 owned1 root s1 0 t1 (vpn va 1) Hs1 Hi1 Ht1 (Hv _)) as [T2|(t0 & lv2 & owned2 & s2 & T2 & Hi2 & H2)].
  { left. by apply bind_Panic. }
  right. rewrite (bind_Ret _ _ _ _ _ T2). destruct H2 as [Hs2 Ht0 E2 W2 L2 N2 O2 F2 R2].
  assert (root <> t1) as Hne1 by (intros <-; by pose proof (sp_apart _ _ _ _ Hs1 _ _ _ Ht1 (L1 _ _ Hr))).
  assert (rd (mem s2) (root + 8 * vpn va 2) = create_branch t1) as E1'
    by (rewrite F2; [done|apply O1; by apply (sp_owned _ _ _ _ Hs) in Hr as (_ & ? & _)|apply Hv|by left]).
  pose proof (L2 _ _ Ht1) as Ht1'. destruct (sp_owned _ _ _ _ Hs2 _ _ Ht0) as (_ & Ho0 & K0).
  assert (forall v, sv39_walk (mem s2) root v 2 = sv39_walk (mem s) root v 2) as Hw by (intros v; by rewrite W2, W1).
  assert (forall l b, b ∈ lv2 l -> b ∈ lv l \/ b ∉ owned) as Hnew.
  { intros l b Hb. destruct (N2 _ _ Hb) as [H|H]; [by apply N1|right; by intros ?%O1]. }
  destruct first_index as [I1 I2].
  eexists lv2, owned2, _. split; [by apply (Hrest t1 t0 lv2 owned2 s2)|].
  split; cbn [mem set_mem pager add_fences set_fences set_io].
  - eapply ps_same; [apply (ps_write_words owned2 s2 t0 (vpn va 0) new_entries)|done..]; [done..|].
    unfold new_entries. rewrite length_fmap, length_upto. lia.
  - by etrans.
  - by apply range_space.
  - exact Hnew.
  - intros v Hcv. by apply (range_walks t1 t0 lv2 owned2 s2).
  - intros b j Hb Hno Hj.
    assert (page_ok b) as Kb by (destruct (ps_page owned s b Hi Hb) as [(? & ? & _) ?]; unfold page_ok, KERNEL_PAGE_SIZE in *; lia).
    assert (forall l, b ∉ lv2 l) as Hno2 by (intros l H; destruct (Hnew _ _ H) as [H'|H']; [by apply (Hno l)|done]).
    rewrite (range_frame t0 s2).
    + rewrite F2; [|by apply O1|done|left; intros ->; by apply (Hno2 1%nat)].
      apply F1; [done|done|left; intros ->; by apply (Hno 2%nat)].
    + intros k Hk _. apply page_ok_ne; [done|by apply (table_ok _ _ _ _ Hs2 0%nat)|done|done|]. left. intros ->. by apply (Hno2 0%nat).
  - rewrite R1 in R2. pose proof (rest_set_mem (range_mem t0 s2) _ _ R2) as ->. done.
Qed.
End MapRange.


(** The spaces the code starts from. *)
Definition root_only (root : Z) : nat -> gset Z := fun l => if Nat.eqb l 2 then {[root]} else ∅.

Lemma elem_of_root_only root l t : t ∈ root_only root l <-> l = 2%nat /\ t = root.
Proof. unfold root_only. destruct (Nat.eqb_spec l 2) as [->|]; set_solver. Qed.

Lemma root_only_space root owned m :
  page_ok root -> root ∈ owned -> (forall i, 0 <= i < 512 -> exists n f, rd m (root + 8 * i) = pte n f /\ page_entry 2 n f) ->
  space (root_only root) owned root m.
Proof.
  intros Hr Ho He. split.
  - by apply elem_of_root_only.
  - intros l t [-> ->]%elem_of_root_only. split; [lia|]. by split.
  - by intros l l' t [-> _]%elem_of_root_only [-> _]%elem_of_root_only.
  - intros l t i [-> ->]%elem_of_root_only Hi. destruct (He i Hi) as (n & f & -> & Hp). by constructor.
  - intros l t1 t2 i1 i2 t [[= ->] ->]%elem_of_root_only _ _ _ [[=] _]%elem_of_root_only.
Qed.

Lemma fresh_space_space {PS : PageSource pg_alloc} owned s proc t s' :
  fresh_space owned s proc t s' -> space (root_only t) ({[t]} ∪ owned) t (mem s').
Proof.
  intros [_ _ F3 _ Ft _]. apply root_only_space; [done|set_solver|]. intros i Hi. rewrite Ft by done.
  destruct (Z.ltb_spec i 256).
  - exists 0, 0. split; [done|]. split; [done|done|by left|done].
  - exists ((i - 256) * 262144), 15. split; [done|]. split.
    + change (2 ^ (9 * Z.of_nat 2)) with 262144. change (2 ^ 26) with 67108864. lia.
    + change (2 ^ (9 * Z.of_nat 2)) with 262144. apply Z_mod_mult.
    + right. done.
    + done.
Qed.

Lemma user_bits : vma_map_user = vma_map 209.
Proof. unfold vma_map_user. by replace (Z.lor _ VMA_ACCESSED) with 209. Qed.

Lemma user_flags flags : 0 <= flags < 1024 -> Z.land flags 14 <> 0 ->
  0 <= Z.lor flags 209 < 1024 /\ Z.testbit (Z.lor flags 209) 0 = true /\ Z.land (Z.lor flags 209) 14 <> 0.
Proof.
  intros Hf Hfw. split.
  - assert (u64 (Z.lor flags 209)) as [? _] by (apply u64_lor; unfold u64; lia). split; [done|].
    destruct (Z.lt_ge_cases (Z.lor flags 209) 1024) as [|Hge]; [done|].
    assert (10 <= Z.log2 (Z.lor flags 209)) by (apply Z.log2_le_pow2; [lia|]; change (2 ^ 10) with 1024; lia).
    rewrite Z.log2_lor in * by lia. change (Z.log2 209) with 7 in *.
    assert (Z.log2 flags < 10); [|lia]. destruct (Z.eq_dec flags 0) as [->|]; [done|].
    apply Z.log2_lt_pow2; [lia|]. change (2 ^ 10) with 1024. lia.
  - split; [rewrite Z.lor_spec; apply orb_true_r|].
    rewrite Z.land_lor_distr_l. change (Z.land 209 14) with 0. by rewrite Z.lor_0_r.
Qed.

(** [vma_map] with its loads done. *)
Lemma vma_map_eq extra proc root t s :
  valid64 (proc_vma_table proc) -> valid64 (proc_vma_addr_space_id proc) -> rd (mem s) (proc_vma_table proc) = root -> t = root ->
  forall va size phys flags, vma_map extra proc va size phys flags s =
    vma_replace_section t va size phys (Z.lor flags extra) (rd (mem s) (proc_vma_addr_space_id proc)) s.
Proof.
  intros Vt Va Er -> va size phys flags. unfold vma_map.
  by rewrite (bind_Ret _ _ _ _ _ (load64_eq _ _ Vt)), Er, (bind_Ret _ _ _ _ _ (load64_eq _ _ Va)).
Qed.

(** C6: [vma_map_user] gives a range of pages, and no other address, new
    translations: in every well-formed address space, the pages of the range are
    translated to those at [phys], with the flags asked for and the user flags,
    every other address is translated as before, the tables are again a
    well-formed space, no page of a client is touched, and each page has its
    fence, under the id of the process or, on a hart without ids, under 0,
    unless there is no page for a table, which is a panic.  The range lies in
    one 2 MiB region, does not start on a gigabyte boundary, and some page of the
    region stays unmapped. *)
Theorem vma_map_user_pages {PS : PageSource pg_alloc} lv owned root va cnt va' phys flags proc s :
  space lv owned root (mem s) -> ps_inv owned s ->
  valid64 (proc_vma_table proc) -> valid64 (proc_vma_addr_space_id proc) -> rd (mem s) (proc_vma_table proc) = root ->
  canonical va -> va mod 4096 = 0 -> va mod 1073741824 <> 0 ->
  0 < cnt < 512 -> va mod 2097152 + cnt * 4096 <= 2097152 ->
  page_ok phys -> phys + cnt * 4096 <= 18446744073709551616 -> 0 <= flags < 1024 -> Z.land flags 14 <> 0 ->
  va' / 2097152 = va / 2097152 -> ~ in_range va cnt va' -> sv39_walk (mem s) root va' 2 = None ->
  vma_map_user proc va (cnt * 4096) phys flags s = Panic "OUT_OF_FREE_PAGES" 0 0 0 \/
  exists lv' owned' s', vma_map_user proc va (cnt * 4096) phys flags s = Ret tt s' /\
    ps_inv owned' s' /\ owned ⊆ owned' /\ space lv' owned' root (mem s') /\
    (forall v, canonical v -> sv39_walk (mem s') root v 2 =
       if decide (in_range va cnt v)
       then Some (phys - KERNEL_VMA_START + (v / 4096 - va / 4096) * 4096 + v mod 4096, Z.lor flags 209)
       else sv39_walk (mem s) root v 2) /\
    (forall b j, b ∈ owned -> (forall l, b ∉ lv l) -> 0 <= j < 512 -> rd (mem s') (b + 8 * j) = rd (mem s) (b + 8 * j)) /\
    fences (io s') = fences (io s) ++
      ((fun k => Sfence (Some (va ⊕ k * 4096))
         (Some (if max_asid (vma s) =? 0 then 0 else rd (mem s) (proc_vma_addr_space_id proc)))) <$> upto 0 cnt).
Proof.
  intros Hs Hi Vt Va Er Hva Hal Hgb Hcnt Hfit Hph Hb Hf Hfw Hreg Hne Hhole.
  destruct (user_flags flags Hf Hfw) as (Hf' & Hf0 & Hfw').
  rewrite user_bits, (vma_map_eq 209 proc root root s Vt Va Er eq_refl va (cnt * 4096) phys flags).
  set (asid := rd (mem s) (proc_vma_addr_space_id proc)).
  assert ((Z.lor flags 209 =? 0) = false) as Hnz by (apply Z.eqb_neq; intros E; by rewrite E in Hf0).
  destruct (replace_range lv owned root va cnt phys (Z.lor flags 209) asid s Hs Hi Hva Hal Hgb Hcnt Hfit
    ltac:(by right) va va' eq_refl Hreg) as [E|(lv' & owned' & s' & E & R)].
  - unfold range_walk. rewrite decide_True by (unfold in_range; lia). by rewrite Hnz.
  - unfold range_walk. by rewrite decide_False.
  - by left.
  - right. exists lv', owned', s'. destruct R as [R1 R2 R3 _ R5 R6 R7]. do 4 (split; [done|]). split; [|split; [done|by rewrite R7]].
    intros v Hv. rewrite (R5 v Hv). unfold range_walk. by rewrite Hnz.
Qed.

(** Unmapping a range: none of its addresses is translated any more, every other
    one is as before.  Another page of its 2 MiB region must be mapped. *)
Lemma vma_unmap_pages {PS : PageSource pg_alloc} lv owned root va cnt va' proc s :
  space lv owned root (mem s) -> ps_inv owned s ->
  valid64 (proc_vma_table proc) -> valid64 (proc_vma_addr_space_id proc) -> rd (mem s) (proc_vma_table proc) = root ->
  canonical va -> va mod 4096 = 0 -> va mod 1073741824 <> 0 ->
  0 < cnt < 512 -> va mod 2097152 + cnt * 4096 <= 2097152 ->
  va' / 2097152 = va / 2097152 -> ~ in_range va cnt va' -> sv39_walk (mem s) root va' 2 <> None ->
  vma_unmap proc va (cnt * 4096) s = Panic "OUT_OF_FREE_PAGES" 0 0 0 \/
  exists lv' owned' s', vma_unmap proc va (cnt * 4096) s = Ret tt s' /\
    range_mapped lv owned root va cnt 0 0 (rd (mem s) (proc_vma_addr_space_id proc)) s s' lv' owned'.
Proof.
  intros Hs Hi Vt Va Er Hva Hal Hgb Hcnt Hfit Hreg Hne Hm.
  assert (vma_unmap proc va (cnt * 4096) s = vma_replace_section root va (cnt * 4096) 0 0 (rd (mem s) (proc_vma_addr_space_id proc)) s)
    as ->. { unfold vma_unmap. by rewrite (bind_Ret _ _ _ _ _ (load64_eq _ _ Vt)), Er, (bind_Ret _ _ _ _ _ (load64_eq _ _ Va)). }
  apply (replace_range lv owned root va cnt 0 0 _ s Hs Hi Hva Hal Hgb Hcnt Hfit ltac:(by left) va' va Hreg eq_refl).
  - unfold range_walk. by rewrite decide_False.
  - unfold range_walk. by rewrite decide_True by (unfold in_range; lia).
Qed.

(** Mapping a page on a 1 GiB boundary whose root entry has no table yet
    reads entry 0 of a null table: the kernel faults at address 0. *)
Theorem vma_aligned_map_faults lv owned root va phys f asid s :
  space lv owned root (mem s) -> canonical va -> va mod 1073741824 = 0 ->
  get_branch_loc (rd (mem s) (root + 8 * vpn va 2)) = 0 ->
  vma_replace_section root va 4096 phys f asid s = Fault 0.
Proof.
  intros Hs Hva Hgb Hg.
  assert (va mod 4096 = 0) as Hal by (clear -Hgb; dlia).
  destruct (normalize_digits va Hva Hal) as (N2 & N1 & N0 & Na & Nr & Nu & Nm).
  pose proof (sp_root _ _ _ _ Hs) as Hr. destruct (space_valid _ _ _ Hs Hr (vpn_range va 2)) as [Er Vr].
  assert (count_step va 4096 phys (start_counts 4096 (normalize va)) s =
    Ret (inl (mkCounts 0 (normalize va ⊕ 4096) 0 0 0 0 1 2)) s) as E1.
  { unfold count_step, start_counts, reach. cbn [mapping_left cur_virt_addr highest_reached_ppn].
    change (4096 =? 0) with false. cbv iota zeta.
    rewrite !round_down_eq by (done || (unfold u64; lia)).
    change ppn2_jmp_size with 1073741824. change ppn1_jmp_size with 2097152. change ppn0_jmp_size with 4096.
    rewrite Nm, Hgb, Na. change (1073741824 <=? 4096) with false. change (2097152 <=? 4096) with false.
    rewrite !andb_false_r. done. }
  unfold vma_replace_section. erewrite bind_Ret by reflexivity. cbv zeta. destruct (range_checks va 4096 Hva Hal ltac:(lia)) as (-> & -> & ->);
    [clear -Hva Hal; unfold canonical, KERNEL_VMA_START in *; dlia..|].
  cbv iota. erewrite bind_Ret; [|rewrite (while_second _ _ s _ s E1 I); by apply while_exit].
  cbn [pre_ppn0_cnt pre_ppn1_cnt]. change ((0 <? 0) || (0 <? 0)) with false. rewrite N2, N1.
  rewrite (bind_Ret _ _ _ _ _ (table_not_needed (elem64 root (vpn va 2)) ppn2_jmp_size s ltac:(rewrite Er; exact Vr))).
  rewrite Er, Hg.
  assert (vpn va 1 = 0) as -> by (destruct (vpn_digits va) as (_ & -> & _); clear -Hgb; dlia). done.
Qed.

(** ** Where the splitting of a mapping goes wrong *)

(** Two pages across a 2 MiB boundary are both counted as entries of the
    first page's table, and the second one is written past its end: into the
    first word of whatever page follows the table. *)
Theorem vma_map_past_table va0 ph nv t phys f s :
  u64 nv -> nv + 8192 <= 18446744073709551616 -> nv mod 2097152 = 2097152 - 4096 -> (nv + 4096) mod 1073741824 <> 0 ->
  kblock t (4096 + 8) -> page_ok phys -> phys + 4096 < 18446744073709551616 -> 0 < f < 1024 ->
  while_true (count_step va0 8192 ph) (start_counts 8192 nv) s = Ret (mkCounts 0 (nv ⊕ 8192) 2 0 0 0 0 0) s /\
  nv mod 2097152 / 4096 = 511 /\
  exists s', fill_entries false t 4096 phys f 2 (0, 511) s = Ret (8192, 513) s' /\
    rd (mem s') (t + 4096) = create_leaf (phys + 4096) f /\ (t + 4096) mod 4096 = t mod 4096.
Proof.
  intros Hu Hw Hb Hg Ht Hp Hp2 Hf. split; [|split; [rewrite Hb; done|]].
  - assert (nv mod 4096 = 0 /\ (nv + 4096) mod 4096 = 0 /\ (nv + 4096) mod 2097152 = 0 /\ nv mod 1073741824 <> 0)
      as (A1 & A2 & A3 & A4) by (clear -Hb; split_and!; dlia).
    assert (u64 (nv + 4096)) as Hu' by (unfold u64 in *; lia).
    assert (count_step va0 8192 ph (start_counts 8192 nv) s = Ret (inl (mkCounts 4096 (nv + 4096) 1 0 0 0 0 0)) s) as E1.
    { unfold count_step, start_counts, reach. cbn [mapping_left cur_virt_addr highest_reached_ppn].
      change (8192 =? 0) with false. cbv iota zeta. rewrite !round_down_eq by (done || lia).
      change ppn2_jmp_size with 1073741824. change ppn1_jmp_size with 2097152. change ppn0_jmp_size with 4096.
      replace (nv mod 1073741824 =? 0) with false by lia. rewrite Hb, A1, (wrap64_small (nv + 4096)) by done. done. }
    assert (count_step va0 8192 ph (mkCounts 4096 (nv + 4096) 1 0 0 0 0 0) s =
      Ret (inl (mkCounts 0 (nv ⊕ 8192) 2 0 0 0 0 0)) s) as E2.
    { unfold count_step, reach. cbn [mapping_left cur_virt_addr highest_reached_ppn].
      change (4096 =? 0) with false. cbv iota zeta. rewrite !round_down_eq by (done || lia).
      change ppn2_jmp_size with 1073741824. change ppn1_jmp_size with 2097152. change ppn0_jmp_size with 4096.
      replace ((nv + 4096) mod 1073741824 =? 0) with false by lia. rewrite A2, A3. change (2097152 <=? 4096) with false.
      cbn [andb]. change (0 =? 0) with true. cbv iota. replace (nv + 4096 + 4096) with (nv + 8192) by lia. done. }
    apply wp_exact.
    apply (wp_while (fun c s' => s' = s /\ (c = start_counts 8192 nv \/ c = mkCounts 4096 (nv + 4096) 1 0 0 0 0 0 \/
      c = mkCounts 0 (nv ⊕ 8192) 2 0 0 0 0 0)) (fun c _ => mapping_left c)).
    + by intros c s' (_ & [->|[->| ->]]).
    + intros c s' (-> & [->|[->| ->]]).
      * eapply wp_Ret; [exact E1|]. split; [|done]. auto.
      * eapply wp_Ret; [exact E2|]. split; [|done]. auto.
      * by apply wp_ret.
    + auto.
    + done.
  - destruct (kblock_elem t 513 511 Ht ltac:(lia)) as [Ea Va]. destruct (kblock_elem t 513 512 Ht ltac:(lia)) as [Eb Vb].
    assert (u64 phys /\ u64 (phys + 4096)) as [P1 P2]
      by (destruct Hp as [[? ?] _]; unfold u64, KERNEL_VMA_START in *; lia).
    eexists. split; [|split].
    + unfold fill_entries. change (upto 0 2) with [0; 1]. cbn [for_fold when].
      rewrite bind_assoc. erewrite bind_Ret by reflexivity. rewrite bind_assoc, (bind_Ret _ _ _ _ _ (store64_eq _ _ _ Va)).
      erewrite bind_Ret by reflexivity. change (511 ⊕ 1) with 512. change (0 ⊕ 4096) with 4096. cbv beta iota.
      rewrite bind_assoc. erewrite bind_Ret by reflexivity. rewrite bind_assoc, (bind_Ret _ _ _ _ _ (store64_eq _ _ _ Vb)).
      reflexivity.
    + cbn [mem set_mem]. rewrite Eb. replace (t + 8 * 512) with (t + 4096) by lia. rewrite rd_wr_eq, (wrap64_small (phys + 4096)) by done.
      apply wrap64_small. assert (page_ok (phys + 4096)) as Hok
        by (destruct Hp as [[? ?] ?]; unfold page_ok, u64 in *; split; [lia|clear -H1; dlia]).
      destruct (page_number _ Hok). rewrite create_leaf_pte by done. apply pte_u64; [done|apply lor_one_range; lia].
    + by rewrite <- (Z_mod_plus_full t 1 4096).
Qed.

(** A table of mapped pages that could be one leaf is given back to the page
    allocator while its entry still points to it: the leaf that should
    replace it is computed and dropped. *)
Theorem shrink_mapped_keeps_entry lv owned root s l T k t n f :
  space lv owned root (mem s) -> T ∈ lv (S l) -> 0 <= k < 512 -> t ∈ lv l ->
  rd (mem s) (T + 8 * k) = create_branch t -> leaf_entry l n f -> f <> 0 ->
  (forall i, 0 <= i < 512 -> rd (mem s) (t + 8 * i) = split_leaf l n f i) ->
  shrink_branch (elem64 T k) (code_size l) s = pg_free t s.
Proof.
  intros Hs HT Hk Ht E He Hf Hu. destruct (space_valid _ _ _ Hs HT Hk) as [Ek V].
  destruct (table_present _ _ _ _ _ _ _ _ Hs HT Hk Ht E) as [Eg Hne]. unfold shrink_branch.
  rewrite Ek, (bind_Ret _ _ _ _ _ (load64_eq _ _ V)), Eg. cbv zeta.
  replace (t =? 0) with false by lia. destruct (space_valid l t 0 Hs Ht ltac:(lia)) as [E0 V0].
  destruct He as [Hl [[Hn0 Hn] _ Hfl Hc]]. destruct Hfl as [[? _]|(Hf1 & Hb & Hw)]; [done|].
  destruct (leaf_flag_facts f Hb Hw ltac:(lia)) as [Hf2 _].
  assert (code_size l / 512 = 2 ^ (9 * Z.of_nat l) * 4096 /\
    2 ^ (9 * Z.of_nat (S l)) = 512 * 2 ^ (9 * Z.of_nat l) /\ 0 < 2 ^ (9 * Z.of_nat l) <= 512) as (E1 & E2 & E3)
    by (destruct l as [|[|]]; [split_and!; done..|lia]).
  rewrite E2 in Hn. change (2 ^ 26) with 67108864 in Hn. rewrite E1.
  assert (forall i, 0 <= i < 512 -> rd (mem s) (t + 8 * i) = pte (n + i * 2 ^ (9 * Z.of_nat l)) f) as Hu'
    by (intros i Hi; rewrite Hu by done; unfold split_leaf; by replace (f =? 0) with false by lia).
  set (q := 2 ^ (9 * Z.of_nat l)) in *. clearbody q.
  assert (forall i, 0 <= i < 512 -> 0 <= n + i * q < 2 ^ 26) as Hr by (intros i Hi; change (2 ^ 26) with 67108864; nia).
  assert ((rd (mem s) (t + 8 * 0) =? 0) = false) as Hnz by (rewrite Hu' by lia; unfold pte; nia).
  rewrite E0, (bind_Ret _ _ _ _ _ (load64_eq _ _ V0)), Hnz. unfold can_shrink_mapped.
  rewrite E0, bind_assoc, (bind_Ret _ _ _ _ _ (load64_eq _ _ V0)). cbv zeta.
  rewrite (bind_Ret _ _ true s s).
  2:{ rewrite (fold_and (fun _ => true)); [by rewrite (proj2 (forallb_forall _ _))|]. intros c i Hi.
      destruct (space_valid l t i Hs Ht Hi) as [-> Vj]. rewrite (bind_Ret _ _ _ _ _ (load64_eq _ _ Vj)).
      rewrite !Hu', !leaf_loc_pte, !leaf_flags_pte by (lia || (apply Hr; lia)).
      replace (f <=? 1) with false by lia. rewrite Hc by done. unfold KERNEL_VMA_START.
      assert (((n + i * q) * 4096 + 18446743798831644672 =?
        ((n + 0 * q) * 4096 + 18446743798831644672) ⊕ (q * 4096 ⊗ i)) = true) as ->.
      { rewrite (wrap64_small (q * 4096 * i)) by nia. rewrite wrap64_small by (specialize (Hr i Hi); nia). nia. }
      rewrite Z.eqb_refl. by rewrite !andb_true_r. }
  cbn [when]. by rewrite (bind_Ret _ _ _ _ _ (load64_eq _ _ V0)), Hnz.
Qed.

(** ** Switching address spaces *)

(** The address space id [vma_swap] gives to a process that has [a]. *)
Definition next_asid (g : vma_globals) (a : Z) : Z :=
  if max_asid g =? 0 then 0 else if a =? U64_MAX then current_highest_asid g + 1 else a.

(** The fences it makes, all of them after satp is written but the one of the
    reset. *)
Definition swap_fences (g : vma_globals) (a : Z) : list tlb_fence :=
  if max_asid g =? 0 then [Sfence None None; Sfence None None]
  else if a =? U64_MAX then [Sfence None (Some (next_asid g a))] else [].

Lemma vma_fetch_none s :
  max_asid (vma s) = 0 ->
  vma_fetch_asid s = Ret 0 (set_fences (fences (io s) ++ [Sfence None None]) (set_vma (mkVma 0 0) s)).
Proof.
  intros E. unfold vma_fetch_asid, vma_reset_asid, sfence_vma, mbind, M_bind, gets, modify. rewrite E. cbn [Z.eqb].
  rewrite E. done.
Qed.

Lemma vma_fetch_next s :
  0 <= current_highest_asid (vma s) < max_asid (vma s) -> max_asid (vma s) < 65536 ->
  vma_fetch_asid s = Ret (current_highest_asid (vma s) + 1)
    (set_vma (mkVma (max_asid (vma s)) (current_highest_asid (vma s) + 1)) s).
Proof.
  intros H Hm. unfold vma_fetch_asid, mbind, M_bind, gets, modify.
  replace (max_asid (vma s) =? 0) with false by lia.
  replace (max_asid (vma s) <=? current_highest_asid (vma s)) with false by lia.
  rewrite wrap64_small by lia. done.
Qed.

(** [satp] from its parts. *)
Lemma satp_fields b n : 0 <= b < 65536 -> 0 <= n < 2 ^ 26 ->
  let v := Z.lor (Z.lor (wrap64 (Z.shiftl b 44)) (wrap64 (Z.shiftl 8 60))) n in
  v mod 2 ^ 44 = n /\ v / 2 ^ 44 mod 2 ^ 16 = b /\ v / 2 ^ 60 = 8.
Proof.
  intros Hb Hn v. change (2 ^ 26) with 67108864 in Hn.
  assert (v = (8 * 65536 + b) * 2 ^ 44 + n) as ->.
  { unfold v. rewrite (wrap64_small (Z.shiftl b 44)) by (rewrite Z.shiftl_mul_pow2 by lia; change (2 ^ 44) with 17592186044416; lia).
    change (wrap64 (Z.shiftl 8 60)) with (Z.shiftl (Z.shiftl 8 16) 44).
    rewrite (Z.lor_comm (Z.shiftl b 44)), <- Z.shiftl_lor, (lor_low 8 b 16) by lia.
    rewrite lor_low by (lia || (change (2 ^ 44) with 17592186044416; lia)). done. }
  change (2 ^ 44) with 17592186044416. change (2 ^ 60) with 1152921504606846976. change (2 ^ 16) with 65536.
  split_and!; dlia.
Qed.

(** Its first part: the process has its id. *)
Lemma swap_gives_id proc t a s :
  valid64 (proc_vma_addr_space_id proc) -> proc_vma_table proc <> proc_vma_addr_space_id proc ->
  rd (mem s) (proc_vma_table proc) = t -> rd (mem s) (proc_vma_addr_space_id proc) = a ->
  0 <= max_asid (vma s) < 65536 -> 0 <= current_highest_asid (vma s) < max_asid (vma s) \/ max_asid (vma s) = 0 ->
  exists s1, when ((a =? U64_MAX) || (max_asid (vma s) =? 0))
      (a ← vma_fetch_asid; store64 (proc_vma_addr_space_id proc) a) s = Ret tt s1 /\
    rd (mem s1) (proc_vma_addr_space_id proc) = next_asid (vma s) a /\ rd (mem s1) (proc_vma_table proc) = t /\
    max_asid (vma s1) = max_asid (vma s) /\
    fences (io s1) = fences (io s) ++ (if max_asid (vma s) =? 0 then [Sfence None None] else []).
Proof.
  intros Va Hne Et Ea Hmax Hhi. unfold next_asid. destruct (Z.eqb_spec (max_asid (vma s)) 0) as [Em|Em].
  - rewrite orb_true_r. cbn [when]. rewrite (bind_Ret _ _ _ _ _ (vma_fetch_none s Em)), (store64_eq _ _ _ Va).
    eexists. split; [reflexivity|]. cbn [mem set_mem set_vma set_fences set_io].
    by rewrite rd_wr_eq, rd_wr_ne, Et.
  - rewrite orb_false_r, app_nil_r. destruct (a =? U64_MAX); cbn [when].
    + rewrite (bind_Ret _ _ _ _ _ (vma_fetch_next s ltac:(lia) ltac:(lia))), (store64_eq _ _ _ Va).
      eexists. split; [reflexivity|]. cbn [mem set_mem set_vma].
      by rewrite rd_wr_eq, rd_wr_ne, Et, wrap64_small by (congruence || lia).
    + by exists s.
Qed.

(** [vma_swap] loads the table of the process into satp, in mode sv39,
    under the id of the process; a process without one gets the next id while
    there is one, and id 0 where the hardware has none.  No stale translation
    survives: the fences made are exactly those of [swap_fences], of the new id
    when one was given, of everything when all processes share id 0. *)
Theorem vma_swap_satp proc t a s :
  valid64 (proc_vma_table proc) -> valid64 (proc_vma_addr_space_id proc) ->
  proc_vma_table proc <> proc_vma_addr_space_id proc ->
  rd (mem s) (proc_vma_table proc) = t -> rd (mem s) (proc_vma_addr_space_id proc) = a -> page_ok t ->
  0 <= max_asid (vma s) < 65536 -> 0 <= current_highest_asid (vma s) < max_asid (vma s) \/ max_asid (vma s) = 0 ->
  a <= max_asid (vma s) \/ a = U64_MAX ->
  exists s', vma_swap proc s = Ret tt s' /\
    satp s' mod 2 ^ 44 = (t - KERNEL_VMA_START) / 4096 /\
    satp s' / 2 ^ 44 mod 2 ^ 16 = next_asid (vma s) a /\ satp s' / 2 ^ 60 = 8 /\
    rd (mem s') (proc_vma_addr_space_id proc) = next_asid (vma s) a /\
    rd (mem s') (proc_vma_table proc) = t /\
    fences (io s') = fences (io s) ++ swap_fences (vma s) a.
Proof.
  intros Vt Va Hne Et Ea Ht Hmax Hhi Ha. pose proof (rd_u64 (mem s) (proc_vma_addr_space_id proc)) as Hu.
  rewrite Ea in Hu. destruct (page_number t Ht) as [Hn _]. destruct Ht as [[T1 T2] _].
  set (b := next_asid (vma s) a). assert (0 <= b < 65536) as Hb.
  { unfold b, next_asid. unfold u64 in Hu. destruct (Z.eqb_spec (max_asid (vma s)) 0); [lia|].
    destruct (Z.eqb_spec a U64_MAX); lia. }
  destruct (satp_fields b ((t - KERNEL_VMA_START) / 4096) Hb Hn) as (F1 & F2 & F3).
  unfold vma_swap. rewrite (bind_Ret _ _ _ _ _ (load64_eq _ _ Va)), Ea. erewrite bind_Ret by reflexivity. cbv zeta.
  assert ((t ⊖ KERNEL_VMA_START) = t - KERNEL_VMA_START) as Ew by (apply wrap64_small; unfold KERNEL_VMA_START in *; lia).
  destruct (swap_gives_id proc t a s Va Hne Et Ea Hmax Hhi) as (s1 & E & B & T & X & L). fold b in B.
  rewrite (bind_Ret _ _ _ _ _ E), (bind_Ret _ _ _ _ _ (load64_eq _ _ Va)), (bind_Ret _ _ _ _ _ (load64_eq _ _ Vt)), B, T, Ew.
  unfold swap_fences. fold b. do 2 (erewrite bind_Ret by reflexivity). cbn [vma set_satp]. rewrite X.
  destruct (max_asid (vma s) =? 0) eqn:Em; cbn [negb].
  - eexists. split; [reflexivity|]. cbn [satp set_satp mem set_fences set_io io fences].
    by rewrite L, <- app_assoc.
  - rewrite app_nil_r in L. rewrite orb_false_r. destruct (a =? U64_MAX); cbn [when].
    + rewrite (bind_Ret _ _ _ _ _ (load64_eq _ _ Va)). cbn [mem set_satp]. rewrite B.
      eexists. split; [reflexivity|]. cbn [satp set_satp mem set_fences set_io io fences]. by rewrite L.
    + eexists. split; [reflexivity|]. cbn [satp set_satp mem io]. by rewrite app_nil_r.
Qed.

(** ** Witnesses: an empty root table and a process, on two pages of the demo
    page allocator. *)
Definition demo_proc : Z := demo_idx + 1024.
Definition demo_zeroed : kstate := set_mem (zero_words (mem demo_full) demo_data 512) demo_full.
Definition demo_space : kstate := set_mem (wr (mem demo_zeroed) (demo_idx + 8 * 134) demo_data) demo_zeroed.

Lemma demo_space_inv : ps_inv {[demo_idx; demo_data]} demo_space.
Proof.
  apply ps_write; [|set_solver|lia].
  assert (ps_inv {[demo_idx; demo_data]} (set_mem (write_words (mem demo_full) (demo_data + 8 * 0) (replicate (Z.to_nat 512) 0)) demo_full)) as H.
  { apply ps_write_words; [exact demo_full_owned|set_solver|lia|rewrite length_replicate; lia]. }
  exact H.
Qed.

Lemma demo_root_zero i : 0 <= i < 512 -> rd (mem demo_space) (demo_data + 8 * i) = 0.
Proof.
  intros Hi. cbn [demo_space mem set_mem]. rewrite rd_wr_ne by (unfold demo_idx, demo_data; lia).
  by apply rd_zero_words_in.
Qed.

Lemma demo_root_ok : page_ok demo_data.
Proof. unfold page_ok. zdone. Qed.

Lemma demo_is_space : space (root_only demo_data) {[demo_idx; demo_data]} demo_data (mem demo_space).
Proof.
  apply root_only_space; [exact demo_root_ok|set_solver|]. intros i Hi. exists 0, 0.
  split; [by apply demo_root_zero|]. split; [zdone|done|by left|done].
Qed.

Lemma demo_walk_none va : sv39_walk (mem demo_space) demo_data va 2 = None.
Proof. apply walk_invalid. by rewrite demo_root_zero by apply vpn_range. Qed.

Lemma demo_pointer : rd (mem demo_space) (proc_vma_table demo_proc) = demo_data.
Proof. change (proc_vma_table demo_proc) with (demo_idx + 8 * 134). cbn [demo_space mem set_mem]. by rewrite rd_wr_eq. Qed.

Lemma pte_round_trip_witness : get_phys_leaf_loc (create_leaf demo_table 14) = demo_table.
Proof. exact (proj1 (proj2 (proj2 (pte_round_trip demo_table 14 ltac:(unfold page_ok; zdone) ltac:(lia) ltac:(zdone))))). Defined.

Lemma vma_create_identity_witness :
  vma_create demo_proc demo_space = Panic "OUT_OF_FREE_PAGES" 0 0 0 \/
  exists t s', vma_create demo_proc demo_space = Ret tt s' /\ sv39_walk (mem s') t demo_table 2 = Some (0x80000000, 15).
Proof.
  destruct (vma_create_identity {[demo_idx; demo_data]} demo_space demo_proc demo_idx 134 demo_space_inv
    ltac:(set_solver) ltac:(lia) eq_refl) as [E|(t & s' & E & _ & _ & _ & Hw & _)]; [by left|right].
  exists t, s'. split; [exact E|]. exact (Hw demo_table ltac:(zdone)).
Defined.

Lemma vma_map_user_pages_witness :
  vma_map_user demo_proc 0x1000 (3 * 4096) demo_table 6 demo_space = Panic "OUT_OF_FREE_PAGES" 0 0 0 \/
  exists s', vma_map_user demo_proc 0x1000 (3 * 4096) demo_table 6 demo_space = Ret tt s' /\
    sv39_walk (mem s') demo_data 0x2004 2 = Some (0x80001004, 215).
Proof.
  destruct (vma_map_user_pages (root_only demo_data) {[demo_idx; demo_data]} demo_data 0x1000 3 0x9000 demo_table 6
    demo_proc demo_space demo_is_space demo_space_inv ltac:(reflexivity) ltac:(reflexivity) demo_pointer
    ltac:(unfold canonical; zdone) eq_refl ltac:(zdone) ltac:(lia) ltac:(zdone) ltac:(unfold page_ok; zdone) ltac:(zdone)
    ltac:(lia) ltac:(zdone) eq_refl ltac:(intros [_ H]; vm_compute in H; discriminate) (demo_walk_none _))
    as [E|(lv & o & s' & E & _ & _ & _ & Hw & _)]; [by left|right].
  exists s'. split; [exact E|]. rewrite (Hw 0x2004 ltac:(unfold canonical; zdone)). reflexivity.
Defined.

Lemma vma_aligned_map_faults_witness : vma_replace_section demo_data 0x40000000 4096 demo_table 215 0 demo_space = Fault 0.
Proof.
  apply (vma_aligned_map_faults (root_only demo_data) {[demo_idx; demo_data]}).
  - exact demo_is_space.
  - unfold canonical; zdone.
  - reflexivity.
  - rewrite demo_root_zero by apply vpn_range. reflexivity.
Defined.

Lemma vma_map_past_table_witness :
  exists s', fill_entries false demo_data 4096 demo_table 215 2 (0, 511) demo_space = Ret (8192, 513) s' /\
    rd (mem s') (demo_data + 4096) = create_leaf (demo_table + 4096) 215.
Proof.
  destruct (vma_map_past_table 0x1FF000 demo_table 0x1FF000 demo_data demo_table 215 demo_space
    ltac:(unfold u64; lia) ltac:(lia) eq_refl ltac:(zdone) ltac:(unfold kblock; zdone) ltac:(unfold page_ok; zdone)
    ltac:(zdone) ltac:(lia)) as (_ & _ & s' & E & Hr & _).
  exists s'. split; [exact E|exact Hr].
Defined.

(** A root whose entry 3 is a table of 512 pages in a row. *)
Definition demo_mega : kstate :=
  set_mem (write_words (wr (zero_words ∅ demo_data 512) (demo_data + 24) (create_branch (demo_data + 4096)))
    (demo_data + 4096) (split_leaf 1 0x40000 207 <$> upto 0 512)) zero_state.
Definition demo_mega_lv : nat -> gset Z :=
  fun l => match l with 1%nat => {[demo_data + 4096]} | 2%nat => {[demo_data]} | _ => ∅ end.

Lemma demo_mega_leaf : leaf_entry 1 0x40000 207.
Proof.
  split; [lia|]. split.
  - split; [lia|]. by apply Z.leb_le.
  - reflexivity.
  - right. split; [lia|]. split; [reflexivity|discriminate].
  - reflexivity.
Qed.

Lemma demo_mega_low i : 0 <= i < 512 ->
  rd (mem demo_mega) (demo_data + 4096 + 8 * i) = split_leaf 1 0x40000 207 i.
Proof.
  intros Hi. cbn [demo_mega mem set_mem].
  rewrite (rd_write_words_in _ _ _ _ (split_leaf 1 0x40000 207 i)); [|lia|].
  - apply wrap64_small. by apply split_leaf_u64, Hi; exact demo_mega_leaf.
  - rewrite list_lookup_fmap. unfold upto. rewrite lookup_seqZ_lt by lia. cbn -[split_leaf Z.of_nat Z.to_nat]. f_equal. f_equal. lia.
Qed.

Lemma demo_mega_root i : 0 <= i < 512 ->
  rd (mem demo_mega) (demo_data + 8 * i) = if i =? 3 then create_branch (demo_data + 4096) else 0.
Proof.
  intros Hi. cbn [demo_mega mem set_mem].
  assert (Z.of_nat (length (split_leaf 1 0x40000 207 <$> upto 0 512)) = 512) as Hl
    by (rewrite length_fmap, length_upto; lia).
  rewrite rd_write_words_out by (rewrite Hl; lia). destruct (Z.eqb_spec i 3) as [->|].
  - rewrite rd_wr_eq. reflexivity.
  - rewrite rd_wr_ne by lia. by apply rd_zero_words_in.
Qed.

Lemma demo_mega_space : space demo_mega_lv {[demo_data; demo_data + 4096]} demo_data (mem demo_mega).
Proof.
  assert (page_ok (demo_data + 4096)) as H1 by (unfold page_ok; zdone).
  assert (forall l t, t ∈ demo_mega_lv l -> l = 2%nat /\ t = demo_data \/ l = 1%nat /\ t = demo_data + 4096) as Hlv.
  { intros [|[|[|l]]] t; cbn [demo_mega_lv]; rewrite ?elem_of_singleton, ?elem_of_empty; auto; done. }
  assert (forall i, 0 <= i < 512 -> exists n, page_entry 1 n 207 /\ split_leaf 1 0x40000 207 i = pte n 207) as Hsp.
  { intros i Hi. destruct (split_leaf_entry 1 0x40000 207 i demo_mega_leaf Hi) as (n & Hp & E). eauto. }
  split.
  - set_solver.
  - intros l t Ht. destruct (Hlv l t Ht) as [[-> ->]|[-> ->]]; (split; [lia|]; split; [set_solver|]); [exact demo_root_ok|done].
  - intros l l' t [[-> ->]|[-> ->]]%Hlv [[-> E]|[-> E]]%Hlv; first [reflexivity | exfalso; clear -E; lia].
  - intros l t i [[-> ->]|[-> ->]]%Hlv Hi.
    + rewrite demo_mega_root by done. destruct (i =? 3).
      * constructor. set_solver.
      * change 0 with (pte 0 0). constructor. split; [done|done|by left|done].
    + rewrite demo_mega_low by done. destruct (Hsp i Hi) as (n & Hp & ->). by constructor.
  - intros l t1 t2 i1 i2 t H1' H2' Hi1 Hi2 Ht.
    destruct (Hlv _ _ Ht) as [[-> _]|[-> ->]]; [by apply Hlv in H1' as [[[=] _]|[[=] _]]|].
    apply Hlv in H1' as [[_ ->]|[[=] _]]. apply Hlv in H2' as [[_ ->]|[[=] _]].
    rewrite !demo_mega_root by assumption. assert (create_branch (demo_data + 4096) <> 0) as Hnz by zdone.
    revert Hnz. generalize (create_branch (demo_data + 4096)). intros e Hnz.
    destruct (Z.eqb_spec i1 3), (Z.eqb_spec i2 3); intros E1 E2; split; congruence.
Qed.

Lemma shrink_mapped_keeps_entry_witness :
  shrink_branch (elem64 demo_data 3) ppn2_jmp_size demo_mega = pg_free (demo_data + 4096) demo_mega.
Proof.
  apply (shrink_mapped_keeps_entry demo_mega_lv {[demo_data; demo_data + 4096]} demo_data demo_mega 1 demo_data 3
    (demo_data + 4096) 0x40000 207).
  - exact demo_mega_space.
  - set_solver.
  - lia.
  - set_solver.
  - by rewrite demo_mega_root by lia.
  - exact demo_mega_leaf.
  - lia.
  - exact demo_mega_low.
Defined.

Definition demo_asids : kstate := set_vma (mkVma 15 3) (set_mem (wr (mem demo_space) (demo_idx + 8 * 135) U64_MAX) demo_space).

Lemma vma_swap_satp_witness : exists s', vma_swap demo_proc demo_asids = Ret tt s' /\ satp s' / 2 ^ 60 = 8 /\
  rd (mem s') (proc_vma_addr_space_id demo_proc) = 4.
Proof.
  destruct (vma_swap_satp demo_proc demo_data U64_MAX demo_asids eq_refl eq_refl ltac:(zdone)) as (s' & E & _ & _ & H1 & H2 & _).
  - change (proc_vma_table demo_proc) with (demo_idx + 8 * 134). cbn [demo_asids mem set_mem set_vma].
    rewrite rd_wr_ne by lia. exact demo_pointer.
  - change (proc_vma_addr_space_id demo_proc) with (demo_idx + 8 * 135). cbn [demo_asids mem set_mem set_vma].
    by rewrite rd_wr_eq.
  - exact demo_root_ok.
  - cbn; lia.
  - left. cbn; lia.
  - by right.
  - exists s'. split; [exact E|]. split; [exact H1|exact H2].
Defined.
