(* ===== verification/UserAccess.v ===== *)
(** * Virtual addresses and user memory ([kernel/trap/user_accses.c],
    [arch_trap/user_accses.S])

    Addresses that the identity mapping of the kernel half does not serve are
    translated through the tables satp points to.  An access that does not
    translate is a page fault; what the kernel then does is in the file Traps,
    and an access stops the program here. *)
From S2P Require Import Prelude Machine Strings Objects Cpu Pager Pages Vma VmaSpace.

(** ** Translated accesses *)

Definition satp_root (s : kstate) : Z := satp s mod 2 ^ 44 * 4096 + KERNEL_VMA_START.

Definition canonicalb (va : Z) : bool :=
  (0 <=? va) && (va <? 0x4000000000) || (KERNEL_VMA_START <=? va) && (va <? 18446744073709551616).

(** The kernel address of the byte at [va], if a supervisor access with the
    right [perm] to it is allowed: user pages only while SUM is on. *)
Definition translate (s : kstate) (perm va : Z) : option Z :=
  if negb (canonicalb va) then None else
  match sv39_walk (mem s) (satp_root s) va 2 with
  | Some (pa, f) =>
      if negb (Z.land f perm =? 0) && (sum_on s || (Z.land f VMA_USER =? 0))
      then Some (pa + KERNEL_VMA_START) else None
  | None => None
  end.

Definition virt (perm va : Z) : M Z := fun s =>
  match translate s perm va with Some p => Ret p s | None => Fault va end.

Definition load_virt (va : Z) : M Z := p ← virt VMA_READ va; load64 p.
Definition store_virt (va v : Z) : M unit := p ← virt VMA_WRITE va; store64 p v.

(** A byte of the kernel half is reached directly, one of the user half through
    the tables. *)
Definition byte_addr (perm va : Z) : M Z :=
  if KERNEL_VMA_START <=? va then mret va else virt perm va.

(** ** The code *)

(** The loop of [arch_copy_user]; its answer is 0. *)
Definition arch_copy_user (src size dest : Z) : M Z :=
  for_each (upto 0 size) (fun k =>
    p ← byte_addr VMA_READ (src ⊕ k);
    b ← load8 p;
    q ← byte_addr VMA_WRITE (dest ⊕ k);
    store8 q b) ;;
  mret 0.

Definition copy_user (src size dest proc : Z) : M bool :=
  irq_disable ;;
  vma_enable_read_user ;;
  store8 (proc_reading_userspace proc) 1 ;;
  response ← arch_copy_user src size dest;
  store8 (proc_reading_userspace proc) 0 ;;
  vma_disable_read_user ;;
  irq_enable ;;
  mret (response =? 0).

Definition kernel_read_user (src size dest proc : Z) : M bool :=
  if (KERNEL_VMA_START <=? src) || (KERNEL_VMA_START <=? src ⊕ size) || (src ⊕ size <=? src)
  then mret false
  else copy_user src size dest proc.

Definition kernel_write_user (dest size src proc : Z) : M bool :=
  if (KERNEL_VMA_START <=? dest) || (KERNEL_VMA_START <=? dest ⊕ size) || (dest ⊕ dest <=? dest)
  then mret false
  else copy_user src size dest proc.

(** ** What a walk reads *)

Fixpoint walk_words (m : gmap Z Z) (table va : Z) (level : nat) : list Z :=
  let a := table + 8 * vpn va level in
  let e := rd m a in
  a :: if negb (Z.testbit e 0) || negb (Z.land e 14 =? 0) then [] else
       match level with O => [] | S l => walk_words m (pte_ppn e * 4096 + KERNEL_VMA_START) va l end.

Lemma walk_words_aligned m va l : forall table a, table mod 8 = 0 -> a ∈ walk_words m table va l -> a mod 8 = 0.
Proof.
  induction l as [|l IH]; intros table a Ht Ha; cbn [walk_words] in Ha; apply elem_of_cons in Ha as [->|Ha];
    try (clear -Ht; dlia); destruct (_ || _); try by apply not_elem_of_nil in Ha.
  eapply IH; [|exact Ha]. unfold KERNEL_VMA_START. clear. dlia.
Qed.

Lemma walk_ext m m' va l : forall table,
  (forall a, a ∈ walk_words m table va l -> rd m' a = rd m a) -> sv39_walk m' table va l = sv39_walk m table va l.
Proof.
  induction l as [|l IH]; intros table H; cbn [sv39_walk walk_words] in *; rewrite H by apply list_elem_of_here.
  - done.
  - set (e := rd m _) in *. destruct (Z.testbit e 0); [|done]. destruct (Z.land e 14 =? 0); [|done].
    cbn [negb orb] in *. apply IH. intros a Ha. apply H. by apply list_elem_of_further.
Qed.

Lemma walk_words_ext m m' va l : forall table,
  (forall a, a ∈ walk_words m table va l -> rd m' a = rd m a) -> walk_words m' table va l = walk_words m table va l.
Proof.
  induction l as [|l IH]; intros table H; cbn [walk_words] in *; rewrite H by apply list_elem_of_here.
  - done.
  - destruct (_ || _); [done|]. f_equal. apply IH. intros a Ha. apply H. by apply list_elem_of_further.
Qed.

Lemma satp_root_aligned s : satp_root s mod 8 = 0.
Proof. unfold satp_root, KERNEL_VMA_START. clear. generalize (satp s mod 2 ^ 44). intros z. dlia. Qed.

(** ** The copy loop *)

Section Copy.
Context (src size dest : Z) (A B : Z -> Z) (s : kstate).
Context (Hinj : forall j k, 0 <= j < size -> 0 <= k < size -> B j = B k -> j = k).
Context (Hdis : forall j k, 0 <= j < size -> 0 <= k < size -> A j <> B k).
Context (HA : forall k, 0 <= k < size -> kbytes (A k) 1).
Context (HB : forall k, 0 <= k < size -> kbytes (B k) 1).
Context (Hread : forall m k, 0 <= k < size ->
  (forall b, (forall j, 0 <= j < size -> b <> B j) -> byte m b = byte (mem s) b) ->
  byte_addr VMA_READ (src ⊕ k) (set_mem m s) = Ret (A k) (set_mem m s)).
Context (Hwrite : forall m k, 0 <= k < size ->
  (forall b, (forall j, 0 <= j < size -> b <> B j) -> byte m b = byte (mem s) b) ->
  byte_addr VMA_WRITE (dest ⊕ k) (set_mem m s) = Ret (B k) (set_mem m s)).

Lemma arch_copy_eq : 0 <= size ->
  exists m, arch_copy_user src size dest s = Ret 0 (set_mem m s) /\ moved (mem s) m size A B.
Proof.
  intros Hsize.
  assert (wp (arch_copy_user src size dest) (fun r s' => r = 0 /\ exists m, s' = set_mem m s /\ moved (mem s) m size A B) s) as H.
  2: { unfold wp in H. destruct (arch_copy_user src size dest s) as [r s'| | | | |]; try done.
       destruct H as (-> & m & -> & H). by exists m. }
  unfold arch_copy_user. apply wp_bind.
  apply (wp_for_each (fun k s' => exists m, s' = set_mem m s /\ moved (mem s) m k A B)); [done| | |].
  - exists (mem s). split; [symmetry; apply set_mem_id|apply moved_nil].
  - intros k s' Hk (m & -> & Hm). unfold wp.
    assert (forall b, (forall j, 0 <= j < size -> b <> B j) -> byte m b = byte (mem s) b) as Hsame.
    { intros b Hb. apply (proj2 Hm). intros j Hj. apply Hb. lia. }
    rewrite (bind_Ret _ _ _ _ _ (Hread m k Hk Hsame)). pose proof (kbytes_byte _ _ 0 (HA k Hk) ltac:(lia)) as [_ EA].
    pose proof (kbytes_byte _ _ 0 (HB k Hk) ltac:(lia)) as [_ EB]. rewrite Z.add_0_r in EA, EB.
    assert (load8 (A k) (set_mem m s) = Ret (byte m (A k)) (set_mem m s)) as El by (unfold load_field; by rewrite EA).
    rewrite (bind_Ret _ _ _ _ _ El), (bind_Ret _ _ _ _ _ (Hwrite m k Hk Hsame)). unfold store_field. rewrite EB.
    eexists. split; [reflexivity|]. by apply (moved_step _ _ size).
  - intros s' (m & -> & Hm). apply wp_ret. split; [done|]. by exists m.
Qed.
End Copy.

(** The kernel side is reached directly, the user side through tables that the
    copy leaves alone. *)
Lemma byte_addr_kernel perm a s : kbytes a 1 -> byte_addr perm a s = Ret a s.
Proof. intros [H _]. unfold byte_addr. by replace (KERNEL_VMA_START <=? a) with true by lia. Qed.

Lemma translate_same perm va p s s' :
  translate (set_sum true s) perm va = Some p -> satp s' = satp s -> sum_on s' = true ->
  (forall a b, a ∈ walk_words (mem s) (satp_root s) va 2 -> a <= b < a + 8 -> byte (mem s') b = byte (mem s) b) ->
  translate s' perm va = Some p /\ walk_words (mem s') (satp_root s') va 2 = walk_words (mem s) (satp_root s) va 2.
Proof.
  intros <- E1 E2 Hm.
  assert (forall a, a ∈ walk_words (mem s) (satp_root s) va 2 -> rd (mem s') a = rd (mem s) a) as Hrd.
  { intros a Ha. apply rd_bytes.
    - by eapply walk_words_aligned, Ha; apply satp_root_aligned.
    - intros j Hj. apply (Hm a); [done|lia]. }
  assert (satp_root s' = satp_root s) as Er by (unfold satp_root; by rewrite E1).
  split; [|rewrite Er; by apply walk_words_ext].
  unfold translate. change (satp_root (set_sum true s)) with (satp_root s). rewrite E2, Er.
  cbn [mem set_sum sum_on]. by rewrite (walk_ext (mem s) (mem s')).
Qed.

Lemma byte_addr_user perm va p s : 0 <= va < KERNEL_VMA_START -> translate s perm va = Some p -> byte_addr perm va s = Ret p s.
Proof. intros Hva E. unfold byte_addr, virt. replace (KERNEL_VMA_START <=? va) with false by lia. by rewrite E. Qed.

Lemma store_flag proc v s : kblock proc sizeof_process ->
  store8 (proc_reading_userspace proc) v s = Ret tt (set_mem (wr_field 1 (mem s) (proc + 152) v) s).
Proof. intros H. apply (store_narrow proc sizeof_process); [done|by left|by compute..]. Qed.

Section CopyUser.
Context (src size dest proc : Z) (A B : Z -> Z) (s : kstate).
Context (Hp : kblock proc sizeof_process) (Hsize : 0 <= size).
Context (Hinj : forall j k, 0 <= j < size -> 0 <= k < size -> B j = B k -> j = k).
Context (Hdis : forall j k, 0 <= j < size -> 0 <= k < size -> A j <> B k).
Context (HA : forall k, 0 <= k < size -> kbytes (A k) 1 /\ A k <> proc + 152).
Context (HB : forall k, 0 <= k < size -> kbytes (B k) 1 /\ B k <> proc + 152).
(** What the copy has not touched, with user pages within reach. *)
Definition copying (s' : kstate) : Prop :=
  satp s' = satp s /\ sum_on s' = true /\
  forall b, b <> proc + 152 -> (forall j, 0 <= j < size -> b <> B j) -> byte (mem s') b = byte (mem s) b.
Context (Hread : forall s' k, 0 <= k < size -> copying s' -> byte_addr VMA_READ (src ⊕ k) s' = Ret (A k) s').
Context (Hwrite : forall s' k, 0 <= k < size -> copying s' -> byte_addr VMA_WRITE (dest ⊕ k) s' = Ret (B k) s').

Lemma copy_user_eq :
  exists m, copy_user src size dest proc s = Ret true (set_irq true (set_sum false (set_mem m s))) /\
    (forall k, 0 <= k < size -> byte m (B k) = byte (mem s) (A k)) /\
    (forall b, b <> proc + 152 -> (forall k, 0 <= k < size -> b <> B k) -> byte m b = byte (mem s) b).
Proof.
  unfold copy_user, irq_disable, vma_enable_read_user, irq_enable, vma_disable_read_user.
  kstep. kstep. rewrite (bind_Ret _ _ _ _ _ (store_flag proc 1 _ Hp)). cbn [mem set_sum set_irq].
  set (s1 := set_mem (wr_field 1 (mem s) (proc + 152) 1) (set_sum true (set_irq false s))).
  assert (forall b, b <> proc + 152 -> byte (mem s1) b = byte (mem s) b) as Hs1.
  { intros b Hb. unfold s1. cbn [mem set_mem]. by rewrite byte_wr8, (proj2 (Z.eqb_neq _ _) Hb). }
  assert (forall m, (forall b, (forall j, 0 <= j < size -> b <> B j) -> byte m b = byte (mem s1) b) ->
    copying (set_mem m s1)) as Hcop.
  { intros m Hm. split; [done|]. split; [done|]. intros b Hb1 Hb2. cbn [mem set_mem]. by rewrite Hm, Hs1. }
  destruct (arch_copy_eq src size dest A B s1 Hinj Hdis) as (m & Ec & M1 & M2); [| | | |done|].
  - intros k Hk. by apply HA.
  - intros k Hk. by apply HB.
  - intros m k Hk Hm. apply Hread; [done|]. by apply Hcop.
  - intros m k Hk Hm. apply Hwrite; [done|]. by apply Hcop.
  - rewrite (bind_Ret _ _ _ _ _ Ec), (bind_Ret _ _ _ _ _ (store_flag proc 0 _ Hp)). kstep. kstep.
    exists (wr_field 1 m (proc + 152) 0). split; [reflexivity|]. split.
    + intros k Hk. destruct (HB k Hk) as [_ Hb], (HA k Hk) as [_ Ha].
      by rewrite byte_wr8, (proj2 (Z.eqb_neq _ _) Hb), M1, Hs1.
    + intros b Hb1 Hb2. by rewrite byte_wr8, (proj2 (Z.eqb_neq _ _) Hb1), M2, Hs1.
Qed.
End CopyUser.

(** ** Reading user memory *)

(** [src .. src + size - 1] are user addresses that may be read; their bytes are
    at [A 0 .. A (size - 1)], apart from the buffer and from the process. *)
Record user_readable (src size dest proc : Z) (A : Z -> Z) (s : kstate) : Prop := {
  ur_proc : kblock proc sizeof_process;
  ur_dest : kbytes dest size;
  ur_apart : dest + size <= proc \/ proc + sizeof_process <= dest;
  ur_walk k : 0 <= k < size -> translate (set_sum true s) VMA_READ (src + k) = Some (A k);
  ur_kernel k : 0 <= k < size -> kbytes (A k) 1;
  ur_source k : 0 <= k < size -> A k <> proc + 152 /\ ~ dest <= A k < dest + size;
  ur_tables k a : 0 <= k < size -> a ∈ walk_words (mem s) (satp_root s) (src + k) 2 ->
    (a + 8 <= proc + 152 \/ proc + 152 < a) /\ (a + 8 <= dest \/ dest + size <= a);
}.

(** The range is one of user addresses, and not empty. *)
Definition user_range (src size : Z) : bool := (0 <? size) && (src + size <? KERNEL_VMA_START).

Lemma guard_range src size : u64 src -> u64 size ->
  (KERNEL_VMA_START <=? src) || (KERNEL_VMA_START <=? src ⊕ size) || (src ⊕ size <=? src) = negb (user_range src size).
Proof.
  intros [A1 A2] [B1 B2]. unfold user_range, KERNEL_VMA_START in *.
  destruct (Z.lt_ge_cases (src + size) 18446744073709551616) as [H|H].
  - rewrite wrap64_small by lia. lia.
  - assert (src ⊕ size = src + size - 18446744073709551616) as ->.
    { unfold wrap64. change (2 ^ 64) with 18446744073709551616. symmetry. apply (Z.mod_unique_pos _ _ 1); lia. }
    lia.
Qed.

Lemma read_user_copies src size dest proc A s :
  user_readable src size dest proc A s -> 0 <= src -> 0 <= size -> src + size < KERNEL_VMA_START ->
  exists m, copy_user src size dest proc s = Ret true (set_irq true (set_sum false (set_mem m s))) /\
    (forall k, 0 <= k < size -> byte m (dest + k) = byte (mem s) (A k)) /\
    (forall b, b <> proc + 152 -> ~ dest <= b < dest + size -> byte m b = byte (mem s) b).
Proof.
  intros Hr Hsrc Hsize Hend. pose proof (ur_dest _ _ _ _ _ _ Hr) as Hd. pose proof (ur_apart _ _ _ _ _ _ Hr) as Hap.
  unfold sizeof_process in Hap.
  destruct (copy_user_eq src size dest proc A (Z.add dest) s (ur_proc _ _ _ _ _ _ Hr) Hsize) as (m & E & M1 & M2).
  - intros j k _ _ E. lia.
  - intros j k Hj Hk. pose proof (proj2 (ur_source _ _ _ _ _ _ Hr j Hj)). lia.
  - intros k Hk. split; [by apply (ur_kernel _ _ _ _ _ _ Hr)|by apply (ur_source _ _ _ _ _ _ Hr)].
  - intros k Hk. unfold kbytes in *. lia.
  - intros s' k Hk (E1 & E2 & Hm). unfold KERNEL_VMA_START in Hend. rewrite wrap64_small by lia.
    apply byte_addr_user; [unfold KERNEL_VMA_START; lia|].
    apply (translate_same _ _ _ _ _ (ur_walk _ _ _ _ _ _ Hr k Hk) E1 E2). intros a b Ha Hb.
    destruct (ur_tables _ _ _ _ _ _ Hr k a Hk Ha). apply Hm; lia.
  - intros s' k Hk _. destruct (kbytes_byte dest size k Hd Hk) as [-> _].
    apply byte_addr_kernel. unfold kbytes in *. lia.
  - exists m. split; [exact E|]. split; [exact M1|]. intros b Hb1 Hb2. apply M2; [done|]. intros k Hk. lia.
Qed.

(** C21: a copy from user memory.  A range that is empty, reaches the kernel half
    or wraps around is refused and nothing changes; for any other one, readable
    through the current tables, the buffer gets the user's bytes, the rest of
    memory but the flag of the process is as before, and user pages are out of
    the kernel's reach again. *)
Theorem kernel_read_user_correct src size dest proc A s :
  u64 src -> u64 size -> (user_range src size = true -> user_readable src size dest proc A s) ->
  if user_range src size
  then exists m, kernel_read_user src size dest proc s = Ret true (set_irq true (set_sum false (set_mem m s))) /\
    (forall k, 0 <= k < size -> byte m (dest + k) = byte (mem s) (A k)) /\
    (forall b, b <> proc + 152 -> ~ dest <= b < dest + size -> byte m b = byte (mem s) b)
  else kernel_read_user src size dest proc s = Ret false s.
Proof.
  intros Us Uz Hrd. unfold kernel_read_user. rewrite guard_range by done.
  destruct (user_range src size) eqn:E; cbn [negb]; [|done]. unfold user_range in E.
  apply read_user_copies; [by apply Hrd|unfold u64 in Us; lia..].
Qed.

(** ** Writing user memory *)

(** [dest .. dest + size - 1] are user addresses that may be written, one byte
    each at [B 0 .. B (size - 1)]. *)
Record user_writable (src size dest proc : Z) (B : Z -> Z) (s : kstate) : Prop := {
  uw_proc : kblock proc sizeof_process;
  uw_src : kbytes src size;
  uw_apart : src + size <= proc \/ proc + sizeof_process <= src;
  uw_walk k : 0 <= k < size -> translate (set_sum true s) VMA_WRITE (dest + k) = Some (B k);
  uw_kernel k : 0 <= k < size -> kbytes (B k) 1;
  uw_inj j k : 0 <= j < size -> 0 <= k < size -> B j = B k -> j = k;
  uw_target k : 0 <= k < size -> B k <> proc + 152 /\ ~ src <= B k < src + size;
  uw_tables k a b : 0 <= k < size -> a ∈ walk_words (mem s) (satp_root s) (dest + k) 2 -> a <= b < a + 8 ->
    b <> proc + 152 /\ forall j, 0 <= j < size -> b <> B j;
}.

Lemma kernel_write_user_copies src size dest proc B s :
  user_writable src size dest proc B s -> 0 < dest < 9223372036854775808 -> 0 <= size -> dest + size < KERNEL_VMA_START ->
  exists m, kernel_write_user dest size src proc s = Ret true (set_irq true (set_sum false (set_mem m s))) /\
    (forall k, 0 <= k < size -> byte m (B k) = byte (mem s) (src + k)) /\
    (forall b, b <> proc + 152 -> (forall k, 0 <= k < size -> b <> B k) -> byte m b = byte (mem s) b).
Proof.
  intros Hw Hdest Hsize Hend. pose proof (uw_src _ _ _ _ _ _ Hw) as Hs. pose proof (uw_apart _ _ _ _ _ _ Hw) as Hap.
  unfold sizeof_process, KERNEL_VMA_START in *. unfold kernel_write_user.
  rewrite (wrap64_small (dest + size)), (wrap64_small (dest + dest)) by lia.
  replace (_ || _ || _) with false by (unfold KERNEL_VMA_START; lia).
  apply (copy_user_eq src size dest proc (Z.add src) B s (uw_proc _ _ _ _ _ _ Hw) Hsize).
  - apply (uw_inj _ _ _ _ _ _ Hw).
  - intros j k Hj Hk. pose proof (proj2 (uw_target _ _ _ _ _ _ Hw k Hk)). lia.
  - intros k Hk. unfold kbytes in *. lia.
  - intros k Hk. split; [by apply (uw_kernel _ _ _ _ _ _ Hw)|by apply (uw_target _ _ _ _ _ _ Hw)].
  - intros s' k Hk _. destruct (kbytes_byte src size k Hs Hk) as [-> _].
    apply byte_addr_kernel. unfold kbytes in *. lia.
  - intros s' k Hk (E1 & E2 & Hm). rewrite wrap64_small by lia.
    apply byte_addr_user; [unfold KERNEL_VMA_START; lia|].
    apply (translate_same _ _ _ _ _ (uw_walk _ _ _ _ _ _ Hw k Hk) E1 E2). intros a b Ha Hb.
    destruct (uw_tables _ _ _ _ _ _ Hw k a b Hk Ha Hb). by apply Hm.
Qed.

(** ** Witness: sixteen bytes of the user page at 0x1000 *)
Definition user_root : Z := 0xffffffc080000000.
Definition user_t1 : Z := user_root + 4096.
Definition user_t0 : Z := user_root + 8192.
Definition user_page : Z := user_root + 12288.
Definition user_proc : Z := user_root + 16384.
Definition user_dest : Z := user_root + 20480.
Definition user_memory : kstate :=
  set_satp 0x80000 (set_mem (wr (wr (wr (wr (wr ∅ user_root (create_branch user_t1)) user_t1 (create_branch user_t0))
    (user_t0 + 8) (pte 0x80003 211)) user_page 0x0807060504030201) (user_page + 8) 0x100f0e0d0c0b0a09) zero_state).

Lemma user_memory_readable : user_readable 0x1000 16 user_dest user_proc (Z.add user_page) user_memory.
Proof.
  split.
  - unfold kblock. zdone.
  - unfold kbytes. zdone.
  - right. zdone.
  - apply (forall_upto (fun k => translate (set_sum true user_memory) VMA_READ (0x1000 + k) = Some (user_page + k)) 16 _ eq_refl).
    let l := eval vm_compute in (upto 0 16) in change (upto 0 16) with l. repeat constructor.
  - intros k Hk. unfold kbytes, user_page, user_root, KERNEL_VMA_START. lia.
  - intros k Hk. unfold user_proc, user_dest, user_page, user_root. lia.
  - intros k a Hk. assert (walk_words (mem user_memory) (satp_root user_memory) (0x1000 + k) 2 = [user_root; user_t1; user_t0 + 8]) as ->.
    { revert k Hk. apply (forall_upto (fun k => walk_words (mem user_memory) (satp_root user_memory) (0x1000 + k) 2 =
        [user_root; user_t1; user_t0 + 8]) 16 _ eq_refl).
      let l := eval vm_compute in (upto 0 16) in change (upto 0 16) with l. repeat constructor. }
    intros Ha. repeat (apply elem_of_cons in Ha as [->|Ha]; [unfold user_proc, user_dest, user_t0, user_t1, user_root; lia|]).
    by apply not_elem_of_nil in Ha.
Qed.

Lemma kernel_read_user_correct_witness :
  exists m, kernel_read_user 0x1000 16 user_dest user_proc user_memory = Ret true (set_irq true (set_sum false (set_mem m user_memory))) /\
    byte m (user_dest + 9) = 10.
Proof.
  destruct (kernel_read_user_correct 0x1000 16 user_dest user_proc (Z.add user_page) user_memory
    ltac:(unfold u64; lia) ltac:(unfold u64; lia) (fun _ => user_memory_readable)) as (m & E & H & _).
  exists m. split; [exact E|]. rewrite (H 9 ltac:(lia)). by vm_compute.
Defined.
