(* ===== verification/Irq.v ===== *)
(** * Interrupt set-up ([arch/risc-v/arch_trap/irq.c], [arch_trap/handler.c])
    and the address space of the start-up code ([arch/risc-v/arch_boot.S])

    The interrupt controller lies at low physical addresses and is reached
    through the tables satp points to, so whether its set-up works depends on
    the tables the start-up code leaves. *)
From S2P Require Import Prelude Machine Objects Pager Vma VmaSpace UserAccess.

(** ** The code *)

Definition PLIC_BASE : Z := 0x0C000000.
Definition PLIC_threshold : Z := PLIC_BASE + 0x201000.

(** [IRQ_TYPES] of [kernel/trap/irq.h]. *)
Definition IRQ_UART : Z := 0.
Definition IRQ_TIMER : Z := 1.
Definition IRQ_SOFTWARE : Z := 2.
Definition IRQ_EXTERNAL : Z := 3.

(** Device registers reached by a virtual address; a device at physical address
    [p] is known by its address in the kernel half. *)
Definition load_device (va : Z) : M Z := p ← virt VMA_READ va; mmio_read p.
Definition store_device (va v : Z) : M unit := p ← virt VMA_WRITE va; mmio_write p v.

(** [csrs sie, bits]. *)
Definition csrs_sie (bits : Z) : M unit := modify (fun s => set_sie (Z.lor (sie (io s)) bits) s).

Definition irq_enable_type (irq_type : Z) : M unit :=
  if irq_type =? IRQ_UART then
    store_device (PLIC_BASE + 10 * 4) 1 ;;
    v ← load_device (PLIC_BASE + 0x2080);
    store_device (PLIC_BASE + 0x2080) (Z.lor (wrap32 v) (Z.shiftl 1 10))
  else if irq_type =? IRQ_TIMER then csrs_sie (BIT 5)
  else if irq_type =? IRQ_SOFTWARE then csrs_sie (BIT 1)
  else if irq_type =? IRQ_EXTERNAL then csrs_sie (BIT 9)
  else PANIC "ATTEMPT_TO_ENABLE_UNHANDLED_IRQ" irq_type 0 0.

Definition irq_init : M unit := store_device PLIC_threshold 0.

Definition attach_trap_handler : M unit :=
  sym ← gets symbols; modify (set_stvec (sym_trap_entry sym)).

(** ** The tables of the start-up code

    [arch_boot.S] up to [real_start], with its registers as arguments.  The
    table is at the physical address [table]; stores before satp is set are to
    physical addresses, which the kernel half shows. *)
Definition setup_vmn_table (table : Z) : M Z :=
  while_true (fun t1 =>
    if 2048 <=? t1 then mret (inr t1) else
    let t5 := wrap64 (Z.shiftl (t1 / 8) 28) in
    store64 (t1 ⊕ table ⊕ 2048 ⊕ KERNEL_VMA_START) (0xEF ⊕ t5) ;;
    store64 (t1 ⊕ table ⊕ KERNEL_VMA_START) (0xCF ⊕ t5) ;;
    mret (inl (t1 ⊕ 8))) 0.

(** The value of satp, which stays in t1. *)
Definition finish_vma_setup (table : Z) : M Z :=
  let t1 := table / 4096 ⊕ wrap64 (Z.shiftl 0xFFFF 44) ⊕ wrap64 (Z.shiftl 8 60) in
  modify (set_satp t1) ;; sfence_vma None None ;; mret t1.

(** The loop meant to clear the lower half of the table, from t1 to t6. *)
Definition blank_first_half_vma_table (t0 t1 t6 : Z) : M unit :=
  while_true (fun t1 =>
    if t6 <=? t1 then mret (inr tt) else
    store64 (t1 ⊕ t0) 0 ;; mret (inl (t1 ⊕ 8))) t1.

Definition setup_vma (table : Z) : M unit :=
  _ ← setup_vmn_table table;
  t1 ← finish_vma_setup table;
  blank_first_half_vma_table (table ⊕ KERNEL_VMA_START) t1 2048 ;;
  sfence_vma None None.

(** ** What the start-up code leaves *)

(** Entry [i] of either half maps the gigabyte [i]. *)
Definition giga_entry (flags i : Z) : Z := pte (i * 262144) flags.

Definition boot_tables (root : Z) (m : gmap Z Z) : Prop :=
  forall i, 0 <= i < 256 ->
    rd m (root + 8 * i) = giga_entry 0xCF i /\ rd m (root + 8 * (256 + i)) = giga_entry 0xEF i.

Lemma giga_sum flags i : 0 <= i < 256 -> 0 <= flags < 1024 ->
  flags ⊕ wrap64 (Z.shiftl i 28) = giga_entry flags i /\ u64 (giga_entry flags i).
Proof.
  intros Hi Hf. rewrite Z.shiftl_mul_pow2 by lia. change (2 ^ 28) with 268435456.
  rewrite (wrap64_small (i * _)) by lia. unfold giga_entry, pte, u64. rewrite wrap64_small by lia. split; lia.
Qed.

Section Boot.
Context (table : Z) (Ht : 0 <= table < 0x4000000000 - 4096) (Hal : table mod 4096 = 0).
Local Abbreviation root := (table + KERNEL_VMA_START).

Lemma boot_block : kblock root 4096.
Proof. clear -Ht Hal. unfold kblock, KERNEL_VMA_START. split_and!; try lia; dlia. Qed.

(** The first [n] entries of both halves are written. *)
Definition half_done (n : Z) (m : gmap Z Z) : Prop :=
  forall i, 0 <= i < n ->
    rd m (root + 8 * i) = giga_entry 0xCF i /\ rd m (root + 8 * (256 + i)) = giga_entry 0xEF i.

Lemma setup_table_spec s : exists m,
  setup_vmn_table table s = Ret 2048 (set_mem m s) /\ boot_tables root m.
Proof.
  pose proof boot_block as Hb.
  assert (wp (setup_vmn_table table) (fun t s' => t = 2048 /\ exists m, s' = set_mem m s /\ boot_tables root m) s)
    as (t & s' & E & -> & m & -> & H)%wp_inv; [|by exists m].
  unfold setup_vmn_table. apply (wp_while (fun t1 s' => exists k, t1 = 8 * k /\ 0 <= k <= 256 /\
    exists m, s' = set_mem m s /\ half_done k m) (fun t1 _ => 2048 - t1)).
  - intros t1 s' (k & -> & Hk & _). lia.
  - intros t1 s' (k & -> & Hk & m & -> & Hm). destruct (Z.leb_spec 2048 (8 * k)).
    + apply wp_ret. assert (k = 256) as -> by lia. split; [done|]. by exists m.
    + replace (8 * k / 8) with k by dlia. cbv zeta.
      destruct (giga_sum 0xEF k ltac:(lia) ltac:(lia)) as [-> U1], (giga_sum 0xCF k ltac:(lia) ltac:(lia)) as [-> U2].
      assert ((8 * k ⊕ table ⊕ 2048 ⊕ KERNEL_VMA_START) = root + 8 * (256 + k)) as ->.
      { unfold KERNEL_VMA_START in *. rewrite (wrap64_small (8 * k + table)) by lia. rewrite (wrap64_small (8 * k + table + 2048)) by lia.
        rewrite wrap64_small by lia. lia. }
      assert ((8 * k ⊕ table ⊕ KERNEL_VMA_START) = root + 8 * k) as ->.
      { unfold KERNEL_VMA_START in *. rewrite (wrap64_small (8 * k + table)) by lia. rewrite wrap64_small by lia. lia. }
      apply wp_bind, wp_store64; [apply (kblock_word_valid _ 512 _ Hb); lia|].
      apply wp_bind, wp_store64; [apply (kblock_word_valid _ 512 _ Hb); lia|]. apply wp_ret.
      rewrite wrap64_small by lia. split; [|lia]. exists (k + 1). split; [lia|]. split; [lia|].
      eexists. split; [reflexivity|]. cbn [mem set_mem]. intros i Hi.
      destruct (Z.eq_dec i k) as [->|Hne].
      * rewrite rd_wr_eq, (wrap64_small (giga_entry 207 k)) by done.
        rewrite rd_wr_ne, rd_wr_eq, wrap64_small by (done || lia). done.
      * rewrite !rd_wr_ne by lia. apply Hm. lia.
  - exists 0. split; [lia|]. split; [lia|]. exists (mem s). split; [by destruct s|]. intros i Hi. lia.
  - lia.
Qed.
End Boot.

(** The register the loop counts in still holds satp. *)
Lemma blank_does_nothing t0 t1 t6 s : t6 <= t1 -> blank_first_half_vma_table t0 t1 t6 s = Ret tt s.
Proof. intros H. apply while_exit. by replace (t6 <=? t1) with true by lia. Qed.

Lemma boot_satp table : 0 <= table < 0x4000000000 - 4096 -> table mod 4096 = 0 ->
  let v := table / 4096 ⊕ wrap64 (Z.shiftl 0xFFFF 44) ⊕ wrap64 (Z.shiftl 8 60) in
  2048 <= v /\ v mod 2 ^ 44 * 4096 = table.
Proof.
  intros Ht Hal v. change (wrap64 (Z.shiftl 0xFFFF 44)) with (65535 * 17592186044416) in v.
  change (wrap64 (Z.shiftl 8 60)) with 9223372036854775808 in v. unfold v.
  rewrite (wrap64_small (table / 4096 + _)) by dlia. rewrite wrap64_small by dlia.
  change (2 ^ 44) with 17592186044416. split; dlia.
Qed.

Lemma giga_page i f : 0 <= i < 256 -> 0 < f < 1024 -> Z.testbit f 0 = true -> Z.land f 14 <> 0 ->
  Z.land f VMA_DONT_COMPRESS = 0 -> page_entry 2 (i * 262144) f.
Proof.
  intros Hi Hf Hb Hw Hc. split; change (2 ^ (9 * Z.of_nat 2)) with 262144.
  - change (2 ^ 26) with 67108864. lia.
  - apply Z_mod_mult.
  - right. split; [lia|done].
  - done.
Qed.

Lemma boot_walk root m x : boot_tables root m -> 0 <= x < 0x4000000000 ->
  sv39_walk m root x 2 = Some (x, 0xCF) /\ sv39_walk m root (x + KERNEL_VMA_START) 2 = Some (x, 0xEF).
Proof.
  intros Hb Hx. assert (0 <= x / 1073741824 < 256) as Hi by dlia. destruct (Hb _ Hi) as [E1 E2].
  assert (vpn x 2 = x / 1073741824 /\ vpn (x + KERNEL_VMA_START) 2 = 256 + x / 1073741824) as [V1 V2].
  { unfold vpn. change (2 ^ level_shift 2) with 1073741824. unfold KERNEL_VMA_START. split; dlia. }
  split.
  - rewrite (walk_page m root x 2 (x / 1073741824 * 262144) 0xCF); [|by rewrite V1|by apply giga_page].
    change (2 ^ level_shift 2) with 1073741824. change (0xCF =? 0) with false. do 2 f_equal. dlia.
  - rewrite (walk_page m root _ 2 (x / 1073741824 * 262144) 0xEF); [|by rewrite V2|by apply giga_page].
    change (2 ^ level_shift 2) with 1073741824. change (0xEF =? 0) with false. unfold KERNEL_VMA_START.
    do 2 f_equal. dlia.
Qed.

(** C28: the address space the kernel starts in.  After the start-up code
    every physical address below 256 GiB is mapped at itself plus
    [KERNEL_VMA_START], with all rights, which is the mapping the C code takes
    for granted.  The same addresses are still mapped at themselves as well: the
    loop that should clear that half of the table counts in the register that
    still holds satp, finds it past its bound, and clears nothing. *)
Theorem setup_vma_maps table s :
  0 <= table < 0x4000000000 - 4096 -> table mod 4096 = 0 ->
  exists s', setup_vma table s = Ret tt s' /\ satp_root s' = table + KERNEL_VMA_START /\
    boot_tables (satp_root s') (mem s') /\
    forall x, 0 <= x < 0x4000000000 ->
      sv39_walk (mem s') (satp_root s') (x + KERNEL_VMA_START) 2 = Some (x, 0xEF) /\
      sv39_walk (mem s') (satp_root s') x 2 = Some (x, 0xCF).
Proof.
  intros Ht Hal. destruct (setup_table_spec table Ht Hal s) as (m & E & Hb). destruct (boot_satp table Ht Hal) as [Hv Hr].
  unfold setup_vma. rewrite (bind_Ret _ _ _ _ _ E). unfold finish_vma_setup.
  set (v := table / 4096 ⊕ _ ⊕ _) in *. clearbody v.
  rewrite bind_assoc. erewrite bind_Ret by reflexivity. rewrite bind_assoc. erewrite bind_Ret by reflexivity.
  erewrite bind_Ret by reflexivity. rewrite (bind_Ret _ _ _ _ _ (blank_does_nothing _ v 2048 _ Hv)).
  eexists. split; [reflexivity|]. unfold satp_root. cbn [satp mem set_satp set_mem set_fences set_io].
  rewrite Hr. split; [done|]. split; [done|]. intros x Hx. by destruct (boot_walk _ m x Hb Hx).
Qed.

(** ** The set-up of interrupts *)

Lemma low_device perm va s : boot_tables (satp_root s) (mem s) -> 0 <= va < 0x4000000000 ->
  Z.land 0xCF perm <> 0 -> virt perm va s = Ret (va + KERNEL_VMA_START) s.
Proof.
  intros Hb Hva Hp. unfold virt, translate, canonicalb. replace ((0 <=? va) && (va <? 0x4000000000)) with true by lia.
  cbn [orb negb]. destruct (boot_walk _ _ va Hb Hva) as [-> _]. rewrite (proj2 (Z.eqb_neq _ _) Hp).
  change (Z.land 0xCF VMA_USER =? 0) with true. by rewrite orb_true_r.
Qed.

Lemma store_device_low va v s : boot_tables (satp_root s) (mem s) -> 0 <= va < 0x4000000000 ->
  store_device va v s = Ret tt (set_io_log (io_log (io s) ++ [IoWrite (va + KERNEL_VMA_START) v]) s).
Proof. intros Hb Hva. unfold store_device. by rewrite (bind_Ret _ _ _ _ _ (low_device VMA_WRITE va s Hb Hva ltac:(done))). Qed.

Lemma load_device_low va s : boot_tables (satp_root s) (mem s) -> 0 <= va < 0x4000000000 ->
  let v := io_device (io s) (io_log (io s)) (va + KERNEL_VMA_START) in
  load_device va s = Ret v (set_io_log (io_log (io s) ++ [IoRead (va + KERNEL_VMA_START) v]) s).
Proof. intros Hb Hva. unfold load_device. by rewrite (bind_Ret _ _ _ _ _ (low_device VMA_READ va s Hb Hva ltac:(done))). Qed.

(** The controller's registers. *)
Definition plic (offset : Z) : Z := PLIC_BASE + offset + KERNEL_VMA_START.

Lemma irq_uart_low s : boot_tables (satp_root s) (mem s) -> exists v,
  irq_enable_type IRQ_UART s = Ret tt (set_io_log (io_log (io s) ++
    [IoWrite (plic 40) 1; IoRead (plic 0x2080) v; IoWrite (plic 0x2080) (Z.lor (wrap32 v) 1024)]) s).
Proof.
  intros Hb. change (irq_enable_type IRQ_UART) with (store_device (PLIC_BASE + 40) 1 ;;
    v ← load_device (PLIC_BASE + 0x2080); store_device (PLIC_BASE + 0x2080) (Z.lor (wrap32 v) 1024)).
  rewrite (bind_Ret _ _ _ _ _ (store_device_low (PLIC_BASE + 40) 1 s Hb ltac:(by compute))).
  set (s1 := set_io_log _ s). assert (boot_tables (satp_root s1) (mem s1)) as Hb1 by done.
  rewrite (bind_Ret _ _ _ _ _ (load_device_low (PLIC_BASE + 0x2080) s1 Hb1 ltac:(by compute))).
  eexists. rewrite store_device_low by (done || by compute). subst s1. cbn [io set_io_log set_io io_log].
  by rewrite <- !app_assoc.
Qed.

Lemma irq_bits t bits s : (t = IRQ_TIMER /\ bits = 32) \/ (t = IRQ_SOFTWARE /\ bits = 2) \/ (t = IRQ_EXTERNAL /\ bits = 512) ->
  irq_enable_type t s = Ret tt (set_sie (Z.lor (sie (io s)) bits) s).
Proof. by intros [[-> ->]|[[-> ->]|[-> ->]]]. Qed.

(** C29: the set-up of interrupts needs the half the start-up code meant to
    clear.  On the tables it leaves, the steps of [kernel_main] write threshold
    0, priority 1 of the serial device, set its bit in the enable word, and set
    the timer, software and external bits of sie.  With the lower half of the
    table cleared, the first of them is a page fault. *)
Theorem irq_set_up s :
  (boot_tables (satp_root s) (mem s) -> exists v,
     (irq_init ;; irq_enable_type IRQ_TIMER ;; irq_enable_type IRQ_UART ;; irq_enable_type IRQ_SOFTWARE ;;
      irq_enable_type IRQ_EXTERNAL) s =
       Ret tt (set_sie (Z.lor (sie (io s)) 0x222) (set_io_log (io_log (io s) ++
         [IoWrite (plic 0x201000) 0; IoWrite (plic 40) 1; IoRead (plic 0x2080) v;
          IoWrite (plic 0x2080) (Z.lor (wrap32 v) 1024)]) s))) /\
  ((forall i, 0 <= i < 256 -> rd (mem s) (satp_root s + 8 * i) = 0) -> irq_init s = Fault PLIC_threshold).
Proof.
  split.
  - intros Hb. unfold irq_init. rewrite (bind_Ret _ _ _ _ _ (store_device_low PLIC_threshold 0 s Hb ltac:(by compute))).
    rewrite (bind_Ret _ _ _ _ _ (irq_bits IRQ_TIMER 32 _ ltac:(by left))).
    set (s1 := set_sie _ _). assert (boot_tables (satp_root s1) (mem s1)) as Hb1 by done.
    destruct (irq_uart_low s1 Hb1) as [v E]. exists v. rewrite (bind_Ret _ _ _ _ _ E).
    rewrite (bind_Ret _ _ _ _ _ (irq_bits IRQ_SOFTWARE 2 _ ltac:(by right; left))), (irq_bits IRQ_EXTERNAL 512) by (right; by right).
    subst s1. unfold set_sie, set_io_log. cbn [io set_io io_log sie io_device uart_reg_size stvec fences].
    rewrite <- app_assoc, <- !Z.lor_assoc. done.
  - intros Hz. unfold irq_init, store_device, virt, translate, mbind, M_bind.
    change (negb (canonicalb PLIC_threshold)) with false. cbv iota. rewrite walk_invalid; [done|].
    rewrite (Hz (vpn PLIC_threshold 2)) by (by compute). done.
Qed.

(** ** Witnesses: the table at 0x80300000. *)
Lemma setup_vma_maps_witness : exists s', setup_vma 0x80300000 zero_state = Ret tt s' /\
  sv39_walk (mem s') (satp_root s') 0x80300123 2 = Some (0x80300123, 0xCF).
Proof.
  destruct (setup_vma_maps 0x80300000 zero_state ltac:(zdone) eq_refl) as (s' & E & _ & _ & H).
  exists s'. split; [exact E|]. exact (proj2 (H 0x80300123 ltac:(zdone))).
Defined.

(** What [setup_vma] leaves, when it returns. *)
Definition after_boot : kstate := match setup_vma 0x80300000 zero_state with Ret _ s => s | _ => zero_state end.

Lemma after_boot_tables : boot_tables (satp_root after_boot) (mem after_boot).
Proof.
  assert (forallb (fun i => (rd (mem after_boot) (satp_root after_boot + 8 * i) =? giga_entry 0xCF i) &&
    (rd (mem after_boot) (satp_root after_boot + 8 * (256 + i)) =? giga_entry 0xEF i)) (upto 0 256) = true) as H
    by (vm_compute; reflexivity).
  rewrite forallb_forall in H. intros i Hi. specialize (H i). rewrite <- list_elem_of_In, elem_of_upto in H.
  specialize (H Hi). apply andb_true_iff in H as [H1%Z.eqb_eq H2%Z.eqb_eq]. by split.
Qed.

Lemma irq_set_up_witness : exists v,
  (irq_init ;; irq_enable_type IRQ_TIMER ;; irq_enable_type IRQ_UART ;; irq_enable_type IRQ_SOFTWARE ;;
   irq_enable_type IRQ_EXTERNAL) after_boot =
    Ret tt (set_sie (Z.lor (sie (io after_boot)) 0x222) (set_io_log (io_log (io after_boot) ++
      [IoWrite (plic 0x201000) 0; IoWrite (plic 40) 1; IoRead (plic 0x2080) v;
       IoWrite (plic 0x2080) (Z.lor (wrap32 v) 1024)]) after_boot)).
Proof.
  exact (proj1 (irq_set_up after_boot) after_boot_tables).
Defined.
