(* ===== verification/TrapParser.v ===== *)
(** * Reading a trap ([arch/risc-v/arch_trap/parser.c], [arch_trap/handler.c],
    [kernel/trap/handler.h]) *)
From S2P Require Import Prelude Machine Objects Vma UserAccess.

(** ** The code *)

Definition TRAP_HANDLED : Z := 0.
Definition TRAP_UNHANDLED : Z := 1.
Definition TRAP_SWAP_PROCESS : Z := 2.

Inductive privilege_mode := TRAP_MODE_USER | TRAP_MODE_SUPERVISOR | TRAP_MODE_MACHINE.
Inductive trap_type := TRAP_TYPE_INTERRUPT | TRAP_TYPE_EXCEPTION.
Inductive trap_code :=
| TRAP_SOFTWARE_INTERRUPT
| TRAP_TIMER_INTERRUPT
| TRAP_EXTERNAL_INTERRUPT
| TRAP_ACCESS_MISALIGNED
| TRAP_ACCESS_FAULT
| TRAP_INSTRUCTION_INVALID
| TRAP_BREAKPOINT
| TRAP_SYSCALL
| TRAP_PAGE_FAULT
| TRAP_DOUBLE_TRAP
| TRAP_SOFTWARE_CHECK
| TRAP_HARDWARE_ERROR.

#[export] Instance privilege_mode_eq_dec : EqDecision privilege_mode.
Proof. solve_decision. Defined.
#[export] Instance trap_type_eq_dec : EqDecision trap_type.
Proof. solve_decision. Defined.
#[export] Instance trap_code_eq_dec : EqDecision trap_code.
Proof. solve_decision. Defined.

(** The numbers of the constants, as [PANIC] is given them. *)
Definition privilege_num (p : privilege_mode) : Z :=
  match p with TRAP_MODE_USER => 0 | TRAP_MODE_SUPERVISOR => 1 | TRAP_MODE_MACHINE => 2 end.
Definition code_num (c : trap_code) : Z :=
  match c with
  | TRAP_SOFTWARE_INTERRUPT => 0 | TRAP_TIMER_INTERRUPT => 1 | TRAP_EXTERNAL_INTERRUPT => 2
  | TRAP_ACCESS_MISALIGNED => 3 | TRAP_ACCESS_FAULT => 4 | TRAP_INSTRUCTION_INVALID => 5
  | TRAP_BREAKPOINT => 6 | TRAP_SYSCALL => 7 | TRAP_PAGE_FAULT => 8 | TRAP_DOUBLE_TRAP => 9
  | TRAP_SOFTWARE_CHECK => 10 | TRAP_HARDWARE_ERROR => 11
  end.

Record trap_data := mkTrap {
  process_ptr : Z;
  ttype : trap_type;
  privilege : privilege_mode;
  code : trap_code;
  fault_pc : Z;
  fault_addr : Z;
  arg0_reg : Z;
  arg1_reg : Z;
  arg2_reg : Z;
  arg3_reg : Z;
  return_reg : Z;
  hart_id : Z;
}.

Definition set_return (v : Z) (t : trap_data) : trap_data :=
  mkTrap (process_ptr t) (ttype t) (privilege t) (code t) (fault_pc t) (fault_addr t)
    (arg0_reg t) (arg1_reg t) (arg2_reg t) (arg3_reg t) v (hart_id t).

Definition interrupt_code (trap_code : Z) : option (TrapParser.trap_code * privilege_mode) :=
  match trap_code with
  | 1 => Some (TRAP_SOFTWARE_INTERRUPT, TRAP_MODE_SUPERVISOR)
  | 3 => Some (TRAP_SOFTWARE_INTERRUPT, TRAP_MODE_MACHINE)
  | 5 => Some (TRAP_TIMER_INTERRUPT, TRAP_MODE_SUPERVISOR)
  | 7 => Some (TRAP_TIMER_INTERRUPT, TRAP_MODE_MACHINE)
  | 9 => Some (TRAP_EXTERNAL_INTERRUPT, TRAP_MODE_SUPERVISOR)
  | 11 => Some (TRAP_EXTERNAL_INTERRUPT, TRAP_MODE_MACHINE)
  | _ => None
  end.

(** The second component is the mode the case sets, if it sets one. *)
Definition exception_code (trap_code : Z) : option (TrapParser.trap_code * option privilege_mode) :=
  match trap_code with
  | 0 => Some (TRAP_ACCESS_MISALIGNED, None)
  | 1 => Some (TRAP_ACCESS_FAULT, None)
  | 2 => Some (TRAP_INSTRUCTION_INVALID, None)
  | 3 => Some (TRAP_BREAKPOINT, None)
  | 4 => Some (TRAP_ACCESS_MISALIGNED, None)
  | 5 => Some (TRAP_ACCESS_FAULT, None)
  | 6 => Some (TRAP_ACCESS_MISALIGNED, None)
  | 7 => Some (TRAP_ACCESS_FAULT, None)
  | 8 => Some (TRAP_SYSCALL, Some TRAP_MODE_USER)
  | 9 => Some (TRAP_SYSCALL, Some TRAP_MODE_SUPERVISOR)
  | 11 => Some (TRAP_SYSCALL, Some TRAP_MODE_MACHINE)
  | 12 => Some (TRAP_PAGE_FAULT, None)
  | 13 => Some (TRAP_PAGE_FAULT, None)
  | 15 => Some (TRAP_PAGE_FAULT, None)
  | 16 => Some (TRAP_DOUBLE_TRAP, None)
  | 18 => Some (TRAP_SOFTWARE_CHECK, None)
  | 19 => Some (TRAP_HARDWARE_ERROR, None)
  | _ => None
  end.

(** The trap frame of the hart, at its fixed virtual address. *)
Definition load_tf (field : Z -> Z) : M Z := load_virt (field TRAPFRAME_ADDRESS).
Definition store_tf (field : Z -> Z) (v : Z) : M unit := store_virt (field TRAPFRAME_ADDRESS) v.
Definition tf_a0 (tf : Z) : Z := tf_register tf 10.

(** [stale] is what the local struct has in [hart_id], which nothing sets. *)
Definition trapframe_parse (stale : Z) : M trap_data :=
  scause ← load_tf tf_scause;
  let is_interrupt := Z.land scause (BIT 63) in
  let trap_code := Z.land scause 0x7FFFFFFFFFFFFFFF in
  let is_user_mode := Z.land scause (BIT 8) in
  process_ptr ← load_tf tf_process_ptr;
  arg0 ← load_tf tf_a0;
  arg1 ← load_tf (fun tf => tf_register tf 11);
  arg2 ← load_tf (fun tf => tf_register tf 12);
  arg3 ← load_tf (fun tf => tf_register tf 13);
  ret ← load_tf tf_a0;
  fault_pc ← load_tf tf_sepc;
  fault_addr ← load_tf tf_stval;
  let mode := if negb (is_user_mode =? 0) then TRAP_MODE_USER else TRAP_MODE_SUPERVISOR in
  let make ty mode c := mkTrap process_ptr ty mode c fault_pc fault_addr arg0 arg1 arg2 arg3 ret stale in
  if negb (is_interrupt =? 0) then
    match interrupt_code trap_code with
    | Some (c, mode) => mret (make TRAP_TYPE_INTERRUPT mode c)
    | None => PANIC "UNHANDLED_TRAP_INTERRUPT_OCCURRED" trap_code fault_addr fault_pc
    end
  else
    match exception_code trap_code with
    | Some (c, Some mode) => mret (make TRAP_TYPE_EXCEPTION mode c)
    | Some (c, None) => mret (make TRAP_TYPE_EXCEPTION mode c)
    | None => PANIC "UNHANDLED_TRAP_EXCEPTION_OCCURRED" trap_code fault_addr fault_pc
    end.

Definition trap_data_set_response (kernel_trap : trap_data) : M unit := store_tf tf_a0 (return_reg kernel_trap).

Definition trap_data_iter_instruction : M unit :=
  sepc ← load_tf tf_sepc;
  store_tf tf_sepc (sepc ⊕ 4).

Definition trapframe_stack_ptr (trap_frame : Z) : M Z := load64 (tf_register trap_frame 2).

(** [sstatus] with SPP clear: the process starts in user mode. *)
Definition trapframe_user_init (trapframe start_location : Z) : M unit :=
  store64 (tf_sstatus trapframe) 0 ;;
  store64 (tf_sepc trapframe) start_location.

(** ** The trap frame in memory

    The page [tf] is mapped at [TRAPFRAME_ADDRESS] the way [vma_map_kernel]
    maps it: readable, writable, not for user mode.  [t1] and [t0] are the
    tables on the way to it. *)
Record trap_frame (tf t1 t0 : Z) (s : kstate) : Prop := {
  fr_root : page_ok (satp_root s);
  fr_t1 : page_ok t1;
  fr_t0 : page_ok t0;
  fr_tf : page_ok tf;
  fr_branch1 : rd (mem s) (satp_root s + 8 * 511) = create_branch t1;
  fr_branch0 : rd (mem s) (t1 + 8 * 511) = create_branch t0;
  fr_leaf : rd (mem s) (t0 + 8 * 510) = pte ((tf - KERNEL_VMA_START) / 4096) 199;
}.

(** The words of the tables the translation reads. *)
Definition on_path (t1 t0 : Z) (s : kstate) (a : Z) : Prop :=
  a = satp_root s + 8 * 511 \/ a = t1 + 8 * 511 \/ a = t0 + 8 * 510.

Section Frame.
Context (tf t1 t0 : Z) (s : kstate) (Hf : trap_frame tf t1 t0 s).

Lemma frame_wr a v : ~ on_path t1 t0 s a -> trap_frame tf t1 t0 (set_mem (wr (mem s) a v) s).
Proof.
  intros Ha. destruct Hf. split; try done; cbn [mem set_mem];
    (rewrite rd_wr_ne; [done|intros E; apply Ha; revert E; unfold on_path, satp_root; cbn [satp set_mem]; tauto]).
Qed.

Lemma frame_vpn k : 0 <= k < 4096 ->
  vpn (TRAPFRAME_ADDRESS + k) 2 = 511 /\ vpn (TRAPFRAME_ADDRESS + k) 1 = 511 /\ vpn (TRAPFRAME_ADDRESS + k) 0 = 510.
Proof.
  intros Hk. unfold vpn, level_shift, TRAPFRAME_ADDRESS.
  change (2 ^ (12 + 9 * Z.of_nat 2)) with 1073741824. change (2 ^ (12 + 9 * Z.of_nat 1)) with 2097152.
  change (2 ^ (12 + 9 * Z.of_nat 0)) with 4096. split_and!; dlia.
Qed.

Lemma frame_walk k : 0 <= k < 4096 ->
  sv39_walk (mem s) (satp_root s) (TRAPFRAME_ADDRESS + k) 2 = Some (tf - KERNEL_VMA_START + k, 199).
Proof.
  intros Hk. destruct (frame_vpn k Hk) as (V2 & V1 & V0). destruct Hf as [Hr H1 H0 Ht E1 E0 El].
  rewrite (walk_created_branch _ _ _ 1 t1), (walk_created_branch _ _ _ 0 t0); rewrite ?V2, ?V1; try done.
  destruct (page_number tf Ht) as [Hn Ea].
  rewrite (walk_leaf _ _ _ 0 ((tf - KERNEL_VMA_START) / 4096) 199);
    [|by rewrite V0|done|lia|reflexivity|by vm_compute|by rewrite Z.mod_1_r].
  unfold level_shift, TRAPFRAME_ADDRESS. change (2 ^ (12 + 9 * Z.of_nat 0)) with 4096. do 2 f_equal. dlia.
Qed.

Lemma frame_virt perm k s' : perm = VMA_READ \/ perm = VMA_WRITE -> 0 <= k < 4096 -> s' = s ->
  virt perm (TRAPFRAME_ADDRESS + k) s' = Ret (tf + k) s'.
Proof.
  intros Hp Hk ->. unfold virt, translate. rewrite frame_walk by done.
  assert (canonicalb (TRAPFRAME_ADDRESS + k) = true) as ->.
  { unfold canonicalb, KERNEL_VMA_START, TRAPFRAME_ADDRESS. apply orb_true_iff. right. apply andb_true_iff. lia. }
  assert (tf - KERNEL_VMA_START + k + KERNEL_VMA_START = tf + k) as -> by lia.
  change (Z.land 199 VMA_USER =? 0) with true. rewrite orb_true_r. by destruct Hp as [->| ->].
Qed.

(** A field is a word of the page. *)
Lemma frame_word k : 0 <= k < 4096 -> k mod 8 = 0 ->
  TRAPFRAME_ADDRESS ⊕ k = TRAPFRAME_ADDRESS + k /\ valid64 (tf + k).
Proof.
  intros Hk Hm. split; [apply wrap64_small; unfold TRAPFRAME_ADDRESS; lia|].
  destruct (fr_tf _ _ _ _ Hf) as [H1 H2]. unfold valid64, access_ok, kernel_mapped, KERNEL_VMA_START in *.
  apply andb_true_iff. split; [dlia|]. apply Z.eqb_eq. clear -H2 Hm. dlia.
Qed.

Lemma load_tf_eq k : 0 <= k < 4096 -> k mod 8 = 0 -> load_tf (fun a => a ⊕ k) s = Ret (rd (mem s) (tf + k)) s.
Proof.
  intros Hk Hm. destruct (frame_word k Hk Hm) as [E V]. unfold load_tf, load_virt. rewrite E.
  rewrite (bind_Ret _ _ _ _ _ (frame_virt VMA_READ k s (or_introl eq_refl) Hk eq_refl)). by apply load64_eq.
Qed.

Lemma store_tf_eq k v : 0 <= k < 4096 -> k mod 8 = 0 ->
  store_tf (fun a => a ⊕ k) v s = Ret tt (set_mem (wr (mem s) (tf + k) v) s).
Proof.
  intros Hk Hm. destruct (frame_word k Hk Hm) as [E V]. unfold store_tf, store_virt. rewrite E.
  rewrite (bind_Ret _ _ _ _ _ (frame_virt VMA_WRITE k s (or_intror eq_refl) Hk eq_refl)). by apply store64_eq.
Qed.
End Frame.

(** ** Parsing a trap *)

Definition frame_cause (tf : Z) (s : kstate) : Z := rd (mem s) (tf + 248).

(** What the trap frame says, with the cause the code makes of it. *)
Definition trap_of (tf stale : Z) (s : kstate) (ty : trap_type) (mode : privilege_mode) (c : trap_code) : trap_data :=
  let reg n := rd (mem s) (tf + 8 * (n - 1)) in
  mkTrap (rd (mem s) (tf + 280)) ty mode c (rd (mem s) (tf + 256)) (rd (mem s) (tf + 264))
    (reg 10) (reg 11) (reg 12) (reg 13) (reg 10) stale.

Definition classify (scause : Z) : option (trap_type * privilege_mode * trap_code) :=
  let mode := if Z.testbit scause 8 then TRAP_MODE_USER else TRAP_MODE_SUPERVISOR in
  let number := scause mod 9223372036854775808 in
  if Z.testbit scause 63 then '(c, m) ← interrupt_code number; Some (TRAP_TYPE_INTERRUPT, m, c)
  else '(c, m) ← exception_code number; Some (TRAP_TYPE_EXCEPTION, default mode m, c).

Definition unhandled (scause : Z) : string :=
  if Z.testbit scause 63 then "UNHANDLED_TRAP_INTERRUPT_OCCURRED" else "UNHANDLED_TRAP_EXCEPTION_OCCURRED".

Lemma trapframe_parse_eq tf t1 t0 stale s :
  trap_frame tf t1 t0 s ->
  trapframe_parse stale s =
    match classify (frame_cause tf s) with
    | Some (ty, mode, c) => Ret (trap_of tf stale s ty mode c) s
    | None => Panic (unhandled (frame_cause tf s)) (frame_cause tf s mod 9223372036854775808)
                (rd (mem s) (tf + 264)) (rd (mem s) (tf + 256))
    end.
Proof.
  intros Hf. unfold trapframe_parse, tf_a0, tf_scause, tf_process_ptr, tf_sepc, tf_stval, tf_register.
  do 9 (erewrite bind_Ret by (apply (load_tf_eq tf t1 t0 s Hf); [lia|reflexivity]); cbv beta zeta). fold (frame_cause tf s).
  assert (forall b, 0 <= b < 64 -> negb (Z.land (frame_cause tf s) (BIT b) =? 0) = Z.testbit (frame_cause tf s) b) as Hbit.
  { intros b Hb. destruct (Z.eqb_spec (Z.land (frame_cause tf s) (BIT b)) 0) as [E|E]; cbn [negb].
    - by apply land_BIT_zero in E as ->.
    - destruct (Z.testbit _ b) eqn:Et; [done|]. apply land_BIT_zero in Et; [done|lia]. }
  rewrite !Hbit by lia. change 9223372036854775807 with (Z.ones 63). rewrite Z.land_ones by lia.
  change (2 ^ 63) with 9223372036854775808. unfold classify, unhandled.
  destruct (Z.testbit _ 63).
  - by destruct (interrupt_code _) as [[c m]|].
  - by destruct (exception_code _) as [[c [m|]]|].
Qed.

(** *** The mode *)

Ltac split_code H :=
  cbn in H; try done; try (injection H as <- <-; (split; [lia|done]) || lia);
  try match type of H with context [match ?p with xI _ => _ | xO _ => _ | xH => _ end] => destruct p; split_code H end.

Lemma exception_small n c m : exception_code n = Some (c, m) -> 0 <= n < 20.
Proof. intros H. destruct n as [|p|p]; [cbn in H; lia|split_code H|done]. Qed.

Lemma interrupt_small n c m : interrupt_code n = Some (c, m) -> 0 <= n < 12 /\ m <> TRAP_MODE_USER.
Proof. intros H. destruct n as [|p|p]; [done|split_code H|done]. Qed.

Lemma exception_user n c m : exception_code n = Some (c, m) -> (m = Some TRAP_MODE_USER <-> n = 8).
Proof.
  intros H. pose proof (exception_small n c m H) as Hn. assert (n ∈ upto 0 20) as Hin by (by apply elem_of_upto).
  change (upto 0 20) with [0;1;2;3;4;5;6;7;8;9;10;11;12;13;14;15;16;17;18;19] in Hin. clear Hn.
  repeat (apply elem_of_cons in Hin as [->|Hin]; [cbn in H; try done; injection H as <- <-; done|]).
  by apply not_elem_of_nil in Hin.
Qed.

Lemma testbit_63 n : u64 n -> Z.testbit n 63 = (9223372036854775808 <=? n).
Proof.
  intros [H1 H2]. rewrite Z.testbit_eqb by lia. change (2 ^ 63) with 9223372036854775808.
  destruct (Z.leb_spec 9223372036854775808 n); [apply Z.eqb_eq|apply Z.eqb_neq]; dlia.
Qed.

Lemma low_bit_8 n : 0 <= n < 256 -> Z.testbit n 8 = false.
Proof. intros H. rewrite Z.testbit_eqb by lia. change (2 ^ 8) with 256. by rewrite Z.div_small by lia. Qed.

(** The entry of [n] in a table. *)
Fixpoint entry_of {A} (table : list (Z * A)) (n : Z) : option A :=
  match table with
  | [] => None
  | (k, x) :: table => if n =? k then Some x else entry_of table n
  end.

Lemma entry_of_none {A} (table : list (Z * A)) n : Forall (fun k => n <> k) table.*1 -> entry_of table n = None.
Proof.
  induction table as [|[k x] table IH]; [done|]. cbn. intros [Hne H]%list.Forall_cons. destruct (Z.eqb_spec n k); [done|]. by apply IH.
Qed.

(** What the whole of scause stands for, cause by cause. *)
Definition trap_causes : list (Z * (trap_type * privilege_mode * trap_code)) := [
  (0x8000000000000001, (TRAP_TYPE_INTERRUPT, TRAP_MODE_SUPERVISOR, TRAP_SOFTWARE_INTERRUPT));
  (0x8000000000000003, (TRAP_TYPE_INTERRUPT, TRAP_MODE_MACHINE, TRAP_SOFTWARE_INTERRUPT));
  (0x8000000000000005, (TRAP_TYPE_INTERRUPT, TRAP_MODE_SUPERVISOR, TRAP_TIMER_INTERRUPT));
  (0x8000000000000007, (TRAP_TYPE_INTERRUPT, TRAP_MODE_MACHINE, TRAP_TIMER_INTERRUPT));
  (0x8000000000000009, (TRAP_TYPE_INTERRUPT, TRAP_MODE_SUPERVISOR, TRAP_EXTERNAL_INTERRUPT));
  (0x800000000000000B, (TRAP_TYPE_INTERRUPT, TRAP_MODE_MACHINE, TRAP_EXTERNAL_INTERRUPT));
  (0, (TRAP_TYPE_EXCEPTION, TRAP_MODE_SUPERVISOR, TRAP_ACCESS_MISALIGNED));
  (4, (TRAP_TYPE_EXCEPTION, TRAP_MODE_SUPERVISOR, TRAP_ACCESS_MISALIGNED));
  (6, (TRAP_TYPE_EXCEPTION, TRAP_MODE_SUPERVISOR, TRAP_ACCESS_MISALIGNED));
  (1, (TRAP_TYPE_EXCEPTION, TRAP_MODE_SUPERVISOR, TRAP_ACCESS_FAULT));
  (5, (TRAP_TYPE_EXCEPTION, TRAP_MODE_SUPERVISOR, TRAP_ACCESS_FAULT));
  (7, (TRAP_TYPE_EXCEPTION, TRAP_MODE_SUPERVISOR, TRAP_ACCESS_FAULT));
  (12, (TRAP_TYPE_EXCEPTION, TRAP_MODE_SUPERVISOR, TRAP_PAGE_FAULT));
  (13, (TRAP_TYPE_EXCEPTION, TRAP_MODE_SUPERVISOR, TRAP_PAGE_FAULT));
  (15, (TRAP_TYPE_EXCEPTION, TRAP_MODE_SUPERVISOR, TRAP_PAGE_FAULT));
  (2, (TRAP_TYPE_EXCEPTION, TRAP_MODE_SUPERVISOR, TRAP_INSTRUCTION_INVALID));
  (3, (TRAP_TYPE_EXCEPTION, TRAP_MODE_SUPERVISOR, TRAP_BREAKPOINT));
  (8, (TRAP_TYPE_EXCEPTION, TRAP_MODE_USER, TRAP_SYSCALL));
  (9, (TRAP_TYPE_EXCEPTION, TRAP_MODE_SUPERVISOR, TRAP_SYSCALL));
  (11, (TRAP_TYPE_EXCEPTION, TRAP_MODE_MACHINE, TRAP_SYSCALL));
  (16, (TRAP_TYPE_EXCEPTION, TRAP_MODE_SUPERVISOR, TRAP_DOUBLE_TRAP));
  (18, (TRAP_TYPE_EXCEPTION, TRAP_MODE_SUPERVISOR, TRAP_SOFTWARE_CHECK));
  (19, (TRAP_TYPE_EXCEPTION, TRAP_MODE_SUPERVISOR, TRAP_HARDWARE_ERROR))
].

(** A cause is a number below 20, that of an interrupt below 20, or in neither table. *)
Lemma cause_cases cause : u64 cause ->
  cause ∈ upto 0 20 \/ cause ∈ (Z.add 9223372036854775808 <$> upto 0 20) \/
  20 <= cause mod 9223372036854775808 /\ 20 <= cause /\ (cause < 9223372036854775808 \/ 9223372036854775828 <= cause).
Proof.
  intros [H1 H2]. destruct (Z.lt_ge_cases (cause mod 9223372036854775808) 20) as [Hs|Hs].
  - destruct (Z.lt_ge_cases cause 9223372036854775808) as [Hc|Hc].
    + left. apply elem_of_upto. rewrite Z.mod_small in Hs by lia. lia.
    + right. left. apply list_elem_of_fmap. exists (cause - 9223372036854775808). split; [lia|]. apply elem_of_upto. dlia.
  - right. right. split; [done|]. dlia.
Qed.

(** Case by case over the causes of [H], each of which computes. *)
Ltac each_cause H :=
  match type of H with _ ∈ ?l => let l' := eval vm_compute in l in change l with l' in H end;
  repeat (apply elem_of_cons in H as [->|H]; [vm_compute; reflexivity|]); by apply not_elem_of_nil in H.

Lemma classify_entry cause : u64 cause -> classify cause = entry_of trap_causes cause.
Proof.
  intros Hu. destruct (cause_cases cause Hu) as [H|[H|(H1 & H2 & H3)]]; [each_cause H|each_cause H|].
  rewrite entry_of_none by (unfold trap_causes; cbn [fmap list_fmap fst]; repeat constructor; lia).
  unfold classify. destruct (interrupt_code _) as [[c m]|] eqn:E1; [destruct (interrupt_small _ _ _ E1); lia|].
  destruct (exception_code _) as [[c m]|] eqn:E2; [pose proof (exception_small _ _ _ E2); lia|]. by destruct (Z.testbit _ _).
Qed.

(** C23: what [trapframe_parse] makes of each cause.  For those of [trap_causes] it
    returns the trap data of the frame, with the type, the mode and the kind of the trap
    given there; every other value of scause is a panic that carries the number, the faulting address
    and the instruction.  Among the causes it takes are those of machine mode
    (interrupts 3, 7 and 11, exceptions 11 and 16), which scause never has, and it does
    not take counter overflow (interrupt 13), which the code knows and leaves for later.
    The mode is user mode for the system call (8) alone: for every other trap of
    user code it is wrong. *)
Theorem trapframe_parse_mode tf t1 t0 stale s :
  trap_frame tf t1 t0 s ->
  let cause := frame_cause tf s in
  trapframe_parse stale s =
    match entry_of trap_causes cause with
    | Some (ty, mode, c) => Ret (trap_of tf stale s ty mode c) s
    | None => Panic (if 0x8000000000000000 <=? cause then "UNHANDLED_TRAP_INTERRUPT_OCCURRED" else "UNHANDLED_TRAP_EXCEPTION_OCCURRED")
                (cause mod 0x8000000000000000) (rd (mem s) (tf + 264)) (rd (mem s) (tf + 256))
    end /\
  (forall ty mode c, entry_of trap_causes cause = Some (ty, mode, c) -> mode = TRAP_MODE_USER -> cause = 8).
Proof.
  intros Hf cause. assert (u64 cause) as Hu by apply rd_u64. split.
  - rewrite (trapframe_parse_eq tf t1 t0 stale s Hf). fold cause. rewrite (classify_entry cause Hu). unfold unhandled.
    by rewrite testbit_63 by done.
  - clearbody cause. unfold trap_causes. cbn [entry_of]. intros ty mode c.
    repeat match goal with |- context [cause =? ?k] => destruct (Z.eqb_spec cause k) as [->|_]; [by intros [= <- <- <-]|] end. done.
Qed.
