(* ===== verification/Process.v ===== *)
(** * Processes ([kernel/process/process.c], [context.c], [kernel/memory/stack.c],
    [schedular_init] of [scheduler.c])

    [st] below is the address of the global [state]; a process is a block of
    192 bytes. *)
From S2P Require Import Prelude Machine Objects Uart Pager Allocator Hashmap List Scheduler Cpu Vma UserAccess TrapParser.

(** ** The code *)

Definition state_addr : M Z := gets (fun s => sym_process_state (symbols s)).

Definition process_from_id (process_id : Z) : M Z :=
  st ← state_addr;
  hashmap_get (state_process_hashmap st) process_id.

(** The first number from [process_upto] on that is no process. *)
Definition next_process_number (st : Z) : M unit :=
  while_true (fun _ : unit =>
    upto ← load64 (state_process_upto st);
    current_process ← hashmap_get (state_process_hashmap st) upto;
    if current_process =? 0 then mret (inr tt) else
    upto ← load64 (state_process_upto st);
    store64 (state_process_upto st) (upto ⊕ 1) ;;
    mret (inl tt)) tt.

Definition kernel_stack_pages : Z := PROC_KERN_STACK_SIZE / KERNEL_PAGE_SIZE.

(** A page for a field of the process. *)
Definition alloc_field (field : Z) : M unit := p ← pg_alloc; store64 field p.

(** The fields that [new_blank_process] sets; the others keep what the stack
    had. *)
Definition fill_process (new_process process_upto : Z) : M unit :=
  store32 (proc_trap_state new_process) (trap_state_code PROC_TRAP_PROCESS) ;;
  store64 (proc_block_waiting new_process) 0 ;;
  store32 (proc_process_id new_process) process_upto ;;
  store64 (proc_vma_addr_space_id new_process) U64_MAX ;;
  store64 (proc_vma_table new_process) 0 ;;
  alloc_field (proc_userspace_trapframe new_process) ;;
  alloc_field (proc_kernelspace_trapframe new_process) ;;
  alloc_field (proc_page_fault_trapframe new_process) ;;
  store32 (proc_process_type new_process) (process_type_code PROC_TYPE_NORMAL) ;;
  store8 (proc_running new_process) 0 ;;
  store64 (proc_file_desc_cnt new_process) 0 ;;
  alloc_field (proc_file_desc_pg new_process) ;;
  store64 (proc_last_hart new_process) U64_MAX ;;
  for_each (upto 0 kernel_stack_pages) (fun i => alloc_field (proc_phys_kernel_stack_addr new_process i)) ;;
  store8 (proc_reading_userspace new_process) 0 ;;
  store64 (proc_exe_file new_process) 0 ;;
  root ← gets root_dentry_folder;
  store64 (proc_working_dir new_process) root.

(** The address space of a process: the kernel half without its top, the trap
    frame and the kernel stack. *)
Definition map_process (new_process : Z) : M unit :=
  vma_create new_process ;;
  vma_unmap new_process KERN_MAPPING_BOTTOM (0 ⊖ KERN_MAPPING_BOTTOM) ;;
  tf ← load64 (proc_userspace_trapframe new_process);
  vma_map_kernel new_process TRAPFRAME_ADDRESS KERNEL_PAGE_SIZE tf (Z.lor VMA_READ VMA_WRITE) ;;
  for_each (upto 0 kernel_stack_pages) (fun i =>
    page ← load64 (proc_phys_kernel_stack_addr new_process i);
    vma_map_kernel new_process (PROC_KERN_STACK_START ⊕ KERNEL_PAGE_SIZE * i) KERNEL_PAGE_SIZE page
      (Z.lor VMA_READ VMA_WRITE)).

(** [*temp_process = new_process] *)
Definition copy_process (temp_process new_process : Z) : M unit :=
  for_each (upto 0 (sizeof_process / 8)) (fun k =>
    v ← load64 (elem64 new_process k); store64 (elem64 temp_process k) v).

Definition new_blank_process : M Z :=
  st ← state_addr;
  next_process_number st ;;
  new_process ← gets (fun s => loc_new_process (locals s));
  process_upto ← load64 (state_process_upto st);
  fill_process new_process process_upto ;;
  map_process new_process ;;
  temp_process ← mem_alloc sizeof_process;
  user_tf ← load64 (proc_userspace_trapframe new_process);
  store64 (tf_process_ptr user_tf) temp_process ;;
  kernel_tf ← load64 (proc_kernelspace_trapframe new_process);
  store64 (tf_process_ptr kernel_tf) temp_process ;;
  copy_process temp_process new_process ;;
  process_upto ← load64 (state_process_upto st);
  old_child ← hashmap_insert (state_process_hashmap st) process_upto temp_process;
  if negb (old_child =? 0) then PANIC "CREATE_BLANK_PROCESS_CONFLICTING_CHILD_PRESENT" old_child 0 0 else
  list_append (state_running_list st) temp_process ;;
  process_upto ← load64 (state_process_upto st);
  store64 (state_process_upto st) (process_upto ⊕ 1) ;;
  mret temp_process.

Definition USER_START : Z := 0x1000.

Definition processes_init (hart_count : Z) : M unit :=
  st ← state_addr;
  hashmap_create HASHMAP_TYPE_NUMBER (state_process_hashmap st) ;;
  p ← pg_alloc;
  store64 (elem64 (state_process_hashmap st) 0) p ;;
  store64 (elem64 (state_process_hashmap st) 1) (KERNEL_PAGE_SIZE / 8) ;;
  store64 (state_process_upto st) 0 ;;
  list_create (state_running_list st) 8 ;;
  for_each (upto 0 hart_count) (fun hart_id =>
    idle_process ← new_blank_process;
    id ← load32 (proc_process_id idle_process);
    if negb (hart_id =? id) then PANIC "IDLE_PROCESS_INVALID_ID" id hart_id 0 else
    store16 (proc_runing_hart_id idle_process) hart_id ;;
    store32 (proc_process_type idle_process) (process_type_code PROC_TYPE_IDLE) ;;
    tf ← load64 (proc_userspace_trapframe idle_process);
    trapframe_user_init tf USER_START ;;
    code ← gets (fun s => sym_idle_process (symbols s));
    vma_map_user idle_process USER_START KERNEL_PAGE_SIZE code VMA_EXEC).

Definition process_cleanup (proc : Z) : M unit :=
  st ← state_addr;
  id ← load32 (proc_process_id proc);
  _ ← hashmap_remove (state_process_hashmap st) id;
  item_cnt ← load64 (elem64 (state_running_list st) 2);
  let highest_idx := item_cnt ⊖ 1 in
  list_idx ← load64 (proc_list_idx proc);
  list_remove (state_running_list st) list_idx ;;
  list_idx ← load64 (proc_list_idx proc);
  when (negb (highest_idx =? list_idx))
    (replacement_process ← list_get (state_running_list st) list_idx;
     if replacement_process =? 0 then
       id ← load32 (proc_process_id proc);
       PANIC "REPLACEMENT_PROCESS_REMOVE_SWAP_INVALID" id highest_idx list_idx
     else store64 (proc_list_idx replacement_process) highest_idx) ;;
  tf ← load64 (proc_userspace_trapframe proc);
  pg_free tf ;;
  tf ← load64 (proc_kernelspace_trapframe proc);
  pg_free tf ;;
  table ← load64 (proc_vma_table proc);
  pg_free table ;;
  for_each (upto 0 kernel_stack_pages) (fun i =>
    page ← load64 (proc_phys_kernel_stack_addr proc i); pg_free page) ;;
  mem_free proc.

Definition kill_process (process_id : Z) : M unit :=
  proc ← process_from_id process_id;
  uart_print_lit "process killed : " ;;
  uart_println_u64 process_id ;;
  type ← load32 (proc_process_type proc);
  if type =? process_type_code PROC_TYPE_IDLE then PANIC "ATTEMPT_TO_KILL_IDLE_PROCESS" 0 0 0 else
  running ← load8 (proc_running proc);
  if running =? 1 then store32 (proc_process_type proc) (process_type_code PROC_TYPE_DEAD)
  else scheduler_remove proc ;; process_cleanup proc.

Definition hart_stack_pages : Z := HART_KERN_STACK_SIZE / KERNEL_PAGE_SIZE.

Definition process_update_context_switch (proc hart_id : Z) : M unit :=
  last_hart ← load64 (proc_last_hart proc);
  if last_hart =? hart_id then skip else
  store64 (proc_last_hart proc) hart_id ;;
  for_each (upto 0 hart_stack_pages) (fun i =>
    stacks ← gets hart_stacks_list;
    page ← load64 (elem64 stacks (i ⊕ hart_id ⊗ hart_stack_pages));
    vma_map_kernel proc (HART_KERN_STACK_START ⊕ KERNEL_PAGE_SIZE * i) KERNEL_PAGE_SIZE page
      (Z.lor VMA_READ VMA_WRITE)).

Definition create_init_process : M unit :=
  init_process ← new_blank_process;
  tf ← load64 (proc_userspace_trapframe init_process);
  trapframe_user_init tf USER_START ;;
  code ← gets (fun s => sym_init_process (symbols s));
  vma_map_user init_process USER_START KERNEL_PAGE_SIZE code (Z.lor VMA_EXEC VMA_READ) ;;
  scheduler_queue_process init_process.

(** *** [stack.c] and [schedular_init] *)

Definition stack_init (hart_cnt : Z) : M unit :=
  p ← pg_alloc;
  modify (set_hart_stacks p) ;;
  for_each (upto 0 (hart_cnt ⊗ hart_stack_pages)) (fun i =>
    p ← pg_alloc;
    stacks ← gets hart_stacks_list;
    store64 (elem64 stacks i) p).

Definition schedular_init (hart_count : Z) : M unit :=
  p ← pg_alloc;
  modify (fun s => set_scheduler (mkScheduler p (KERNEL_PAGE_SIZE / 8) 0 0 (hart_idle_process (scheduler s))) s) ;;
  if KERNEL_PAGE_SIZE / 8 <? hart_count then PANIC "TO_MANY_IDLE_PROCESSES_FOR_PAGE" 0 0 0 else
  p ← pg_alloc;
  modify (fun s => set_scheduler (mkScheduler (process_queue (scheduler s)) (process_queue_size (scheduler s))
    (process_queue_count (scheduler s)) (process_queue_start (scheduler s)) p) s) ;;
  for_each (upto 0 hart_count) (fun i =>
    proc ← process_from_id (wrap32 i);
    g ← gets scheduler;
    store64 (elem64 (hart_idle_process g) i) proc).

(** *** [context.c] *)

Definition change_context (process hart_id : Z) : M unit :=
  process_update_context_switch process hart_id ;;
  vma_swap process.

Definition context_change_process (proc hart_id : Z) : M unit :=
  old_proc ← load_tf tf_process_ptr;
  if old_proc =? proc then skip else
  change_context proc hart_id ;;
  store8 (proc_running proc) 1 ;;
  store64 (proc_last_hart proc) hart_id ;;
  type ← load32 (proc_process_type old_proc);
  if type =? process_type_code PROC_TYPE_NORMAL then store8 (proc_running old_proc) 0
  else if type =? process_type_code PROC_TYPE_IDLE then skip
  else if type =? process_type_code PROC_TYPE_DEAD then process_cleanup old_proc
  else
    type ← load32 (proc_process_type proc);
    id ← load32 (proc_process_id proc);
    PANIC "UNHANDLED_PROCESS_TYPE" type id 0.

Definition context_bootstrap (hart_id : Z) : M unit :=
  idle_process ← process_from_id (wrap32 hart_id);
  if idle_process =? 0 then PANIC "INVALID_IDLE_PROCESS_FOR_HART" hart_id idle_process 0 else
  change_context idle_process hart_id.
