(* ===== verification/ProcessSpace.v ===== *)
(** * The address space of a process ([new_blank_process],
    [kernel/process/process.c])

    Creating the space, clearing the top of the kernel half, mapping the trap
    frame and the kernel stack there: what the process has in the end. *)
From S2P Require Import Prelude Machine Pager Pages Allocator Objects Vma VmaFence VmaSpace Process.

(** A translation with one page more. *)
Definition page_added (va phys : Z) (w : Z -> option (Z * Z)) (v : Z) : option (Z * Z) :=
  if decide (v / 4096 = va / 4096) then Some (phys - KERNEL_VMA_START + v mod 4096, 199) else w v.

(** The last page of all, above the trap frame. *)
Definition GUARD : Z := 0xFFFFFFFFFFFFF000.

Section Space.
Context {PS : PageSource pg_alloc} (owned : gset Z) (m0 : gmap Z Z) (P k : Z).
Context (HP : P ∈ owned) (Hk : 0 <= k /\ k + 24 <= 512).
Local Abbreviation proc := (P + 8 * k).
Context (Hproc : kblock proc 192).

(** The space of the process is [root], it translates as [w] says, and the
    pages of the kernel are as in [m0], but for the pointer to the table. *)
Record proc_space (root : Z) (w : Z -> option (Z * Z)) (s : kstate) : Prop := {
  ps_pointer : rd (mem s) (proc_vma_table proc) = root;
  ps_tables : exists lv owned', ps_inv owned' s /\ owned ⊆ owned' /\ space lv owned' root (mem s) /\
    (forall l b, b ∈ lv l -> b ∉ owned);
  ps_walk v : canonical v -> sv39_walk (mem s) root v 2 = w v;
  ps_frame b j : b ∈ owned -> 0 <= j < 512 -> b + 8 * j <> proc_vma_table proc -> rd (mem s) (b + 8 * j) = rd m0 (b + 8 * j);
}.

Lemma field_word i : 0 <= i < 24 -> proc ⊕ 8 * i = P + 8 * (k + i) /\ valid64 (P + 8 * (k + i)).
Proof.
  intros Hi. destruct (Hproc) as (B1 & B2 & B3). unfold KERNEL_VMA_START in *. split.
  - rewrite wrap64_small by lia. lia.
  - replace (P + 8 * (k + i)) with (proc + 8 * i) by lia. apply (kblock_word_valid proc 24); [done|lia].
Qed.

Lemma table_field : proc_vma_table proc = P + 8 * (k + 6) /\ valid64 (proc_vma_table proc).
Proof. unfold proc_vma_table. change 48 with (8 * 6). destruct (field_word 6 ltac:(lia)) as [-> ?]. done. Qed.

Lemma asid_field : valid64 (proc_vma_addr_space_id proc).
Proof. unfold proc_vma_addr_space_id. change 56 with (8 * 7). by destruct (field_word 7 ltac:(lia)) as [-> ?]. Qed.

(** A field of the process is as it was. *)
Lemma field_kept root w s i : proc_space root w s -> 0 <= i < 24 -> i <> 6 ->
  load64 (proc ⊕ 8 * i) s = Ret (rd m0 (proc ⊕ 8 * i)) s.
Proof.
  intros Hs Hi Hne. destruct (field_word i Hi) as [-> V]. rewrite (load64_eq _ _ V).
  rewrite (ps_frame _ _ _ Hs); [done|done|lia|]. destruct table_field as [-> _]. lia.
Qed.

(** *** Its steps *)

Lemma created s : ps_inv owned s -> (forall b j, b ∈ owned -> 0 <= j < 512 -> rd (mem s) (b + 8 * j) = rd m0 (b + 8 * j)) ->
  oom_or (vma_create proc) (fun _ s' => exists root, proc_space root
    (fun v => if KERNEL_VMA_START <=? v then Some (v - KERNEL_VMA_START, 15) else None) s') s.
Proof.
  intros Hi Hm. destruct table_field as [Et _].
  destruct (vma_create_fresh owned s proc P (k + 6) Hi HP ltac:(lia) Et) as [E|(t & s' & E & Hf)]; [by left|right].
  exists tt, s'. split; [exact E|]. exists t. destruct (fresh_walks _ _ (fs_entry _ _ _ _ _ Hf)) as [W1 W2]. split.
  - apply (fs_pointer _ _ _ _ _ Hf).
  - exists (root_only t), ({[t]} ∪ owned). split; [apply (fs_inv _ _ _ _ _ Hf)|]. split; [apply union_subseteq_r|].
    split; [by eapply fresh_space_space|]. intros l b [_ ->]%elem_of_root_only. apply (fs_fresh _ _ _ _ _ Hf).
  - intros v [Hv|Hv]; unfold KERNEL_VMA_START in *; destruct (Z.leb_spec 0xffffffc000000000 v); try lia; [by apply W2|by apply W1].
  - intros b j Hb Hj Hne. rewrite (fs_frame _ _ _ _ _ Hf), Hm by done. done.
Qed.

Lemma mapped_space root w s cnt va phys f s' lv owned1 lv' owned' :
  proc_space root w s -> ps_inv owned1 s -> owned ⊆ owned1 -> space lv owned1 root (mem s) -> (forall l b, b ∈ lv l -> b ∉ owned) ->
  range_mapped lv owned1 root va cnt phys f (rd (mem s) (proc_vma_addr_space_id proc)) s s' lv' owned' ->
  proc_space root (fun v => if decide (in_range va cnt v)
    then if f =? 0 then None else Some (phys - KERNEL_VMA_START + (v / 4096 - va / 4096) * 4096 + v mod 4096, f)
    else w v) s'.
Proof.
  intros Hs Hi Ho Hsp Hlv [R1 R2 R3 R4 R5 R6 _]. destruct table_field as [Et _].
  assert (forall b j, b ∈ owned -> 0 <= j < 512 -> rd (mem s') (b + 8 * j) = rd (mem s) (b + 8 * j)) as Hk'.
  { intros b j Hb Hj. apply R6; [by apply Ho|intros l Hl; by apply (Hlv _ _ Hl)|done]. }
  split.
  - rewrite Et, Hk', <- Et by (done || lia). apply (ps_pointer _ _ _ Hs).
  - exists lv', owned'. split; [done|]. split; [by etrans|]. split; [done|].
    intros l b Hb. destruct (R4 _ _ Hb) as [H|H]; [by apply (Hlv l)|]. intros Hin. by apply H, Ho.
  - intros v Hv. rewrite (R5 v Hv). unfold range_walk. destruct (decide _); [done|]. by apply (ps_walk _ _ _ Hs).
  - intros b j Hb Hj Hne. rewrite Hk' by done. by apply (ps_frame _ _ _ Hs).
Qed.

(** A page of the top 2 MiB, while the last one of them is not mapped. *)
Lemma kernel_page root w s va phys :
  proc_space root w s -> page_ok phys -> va / 2097152 = GUARD / 2097152 -> va mod 4096 = 0 -> va / 4096 <> GUARD / 4096 ->
  w GUARD = None ->
  oom_or (vma_map_kernel proc va KERNEL_PAGE_SIZE phys (Z.lor VMA_READ VMA_WRITE))
    (fun _ => proc_space root (page_added va phys w)) s.
Proof.
  intros Hs Hph Hreg Hal Hne Hg. destruct table_field as [_ Vt]. destruct (ps_tables _ _ _ Hs) as (lv & owned1 & Hi & Ho & Hsp & Hlv).
  change (vma_map_kernel proc) with (vma_map 193 proc). unfold oom_or.
  rewrite (vma_map_eq 193 proc root root s Vt asid_field (ps_pointer _ _ _ Hs) eq_refl va KERNEL_PAGE_SIZE phys).
  change (Z.lor (Z.lor VMA_READ VMA_WRITE) 193) with 199. change KERNEL_PAGE_SIZE with (1 * 4096).
  change (GUARD / 2097152) with 8796093022207 in Hreg. change (GUARD / 4096) with 4503599627370495 in Hne.
  assert (canonical va) as Hva by (clear -Hreg; unfold canonical, KERNEL_VMA_START; dlia).
  assert (canonical GUARD) as Hcg by (right; by compute).
  assert (~ in_range va 1 GUARD) as Hng.
  { unfold in_range. change (GUARD / 4096) with 4503599627370495. clear -Hne Hreg. dlia. }
  destruct (replace_range lv owned1 root va 1 phys 199 (rd (mem s) (proc_vma_addr_space_id proc)) s Hsp Hi Hva Hal
    ltac:(clear -Hreg; dlia) ltac:(lia) ltac:(clear -Hal; dlia)
    ltac:(right; split; [done|destruct Hph as [[? ?] ?]; split; [clear -H0 H1; dlia|by compute]])
    va GUARD eq_refl ltac:(by rewrite Hreg)) as [E|(lv' & owned' & s' & E & R)].
  - unfold range_walk. by rewrite decide_True by (unfold in_range; lia).
  - unfold range_walk. rewrite decide_False by done. by rewrite (ps_walk _ _ _ Hs).
  - by left.
  - right. exists tt, s'. split; [exact E|].
    pose proof (mapped_space root w s 1 va phys 199 s' lv owned1 lv' owned' Hs Hi Ho Hsp Hlv R) as [Q1 Q2 Q3 Q4].
    split; [done|done| |done]. intros v Hv. rewrite (Q3 v Hv). unfold page_added.
    destruct (decide (in_range va 1 v)) as [Hr|Hr], (decide (v / 4096 = va / 4096)) as [Hd|Hd]; unfold in_range in Hr; try lia; [|done].
    rewrite Hd, Z.sub_diag, Z.mul_0_l, Z.add_0_r. done.
Qed.

(** The top of the kernel half is cleared. *)
Lemma top_cleared root s :
  proc_space root (fun v => if KERNEL_VMA_START <=? v then Some (v - KERNEL_VMA_START, 15) else None) s ->
  oom_or (vma_unmap proc KERN_MAPPING_BOTTOM (0 ⊖ KERN_MAPPING_BOTTOM)) (fun _ => proc_space root
    (fun v => if KERN_MAPPING_BOTTOM <=? v then None else
       if KERNEL_VMA_START <=? v then Some (v - KERNEL_VMA_START, 15) else None)) s.
Proof.
  intros Hs. destruct table_field as [_ Vt]. destruct (ps_tables _ _ _ Hs) as (lv & owned1 & Hi & Ho & Hsp & Hlv).
  change (0 ⊖ KERN_MAPPING_BOTTOM) with (13 * 4096).
  destruct (vma_unmap_pages lv owned1 root KERN_MAPPING_BOTTOM 13 0xFFFFFFFFFFE00000 proc s Hsp Hi Vt asid_field
    (ps_pointer _ _ _ Hs) ltac:(right; by compute) eq_refl ltac:(by compute) ltac:(lia) ltac:(by compute) eq_refl)
    as [E|(lv' & owned' & s' & E & R)].
  - intros [H _]. by compute in H.
  - rewrite (ps_walk _ _ _ Hs) by (right; by compute). done.
  - by left.
  - right. exists tt, s'. split; [exact E|].
    pose proof (mapped_space root _ s 13 KERN_MAPPING_BOTTOM 0 0 s' lv owned1 lv' owned' Hs Hi Ho Hsp Hlv R) as [Q1 Q2 Q3 Q4].
    split; [done|done| |done]. intros v Hv. rewrite (Q3 v Hv). change (0 =? 0) with true. cbv iota.
    assert (in_range KERN_MAPPING_BOTTOM 13 v <-> KERN_MAPPING_BOTTOM <= v) as Hd.
    { unfold in_range. change (KERN_MAPPING_BOTTOM / 4096) with 4503599627370483.
      change KERN_MAPPING_BOTTOM with (4503599627370483 * 4096). clear -Hv. unfold canonical, KERNEL_VMA_START in Hv. dlia. }
    destruct (decide _) as [H%Hd|H], (Z.leb_spec KERN_MAPPING_BOTTOM v); [done|lia|by destruct H; apply Hd|done].
Qed.

(** *** All of them *)

(** The address space of a process with this trap frame and these pages of
    kernel stack: the kernel half but for its top, and there the two, with
    unmapped pages around them. *)
Definition process_walk (tf : Z) (stack : Z -> Z) (v : Z) : option (Z * Z) :=
  if decide (v / 4096 = TRAPFRAME_ADDRESS / 4096) then Some (tf - KERNEL_VMA_START + v mod 4096, 199)
  else if decide (in_range PROC_KERN_STACK_START 4 v) then
    Some (stack (v / 4096 - PROC_KERN_STACK_START / 4096) - KERNEL_VMA_START + v mod 4096, 199)
  else if KERN_MAPPING_BOTTOM <=? v then None
  else if KERNEL_VMA_START <=? v then Some (v - KERNEL_VMA_START, 15) else None.

Definition stack_page (i : Z) : Z := rd m0 (proc_phys_kernel_stack_addr proc i).

Lemma stack_step root w s i : proc_space root w s -> 0 <= i < 4 -> page_ok (stack_page i) -> w GUARD = None ->
  oom_or (page ← load64 (proc_phys_kernel_stack_addr proc i);
    vma_map_kernel proc (PROC_KERN_STACK_START ⊕ KERNEL_PAGE_SIZE * i) KERNEL_PAGE_SIZE page (Z.lor VMA_READ VMA_WRITE))
    (fun _ => proc_space root (page_added (PROC_KERN_STACK_START + 4096 * i) (stack_page i) w)) s.
Proof.
  intros Hs Hi Hp Hg. apply oom_bind.
  pose proof (field_kept root w s (14 + i) Hs ltac:(lia) ltac:(lia)) as E.
  assert (proc ⊕ 8 * (14 + i) = proc_phys_kernel_stack_addr proc i) as Ef by (unfold proc_phys_kernel_stack_addr; do 2 f_equal; lia).
  rewrite Ef in E. eapply oom_ret; [exact E|]. change (rd m0 _) with (stack_page i).
  assert ((PROC_KERN_STACK_START ⊕ KERNEL_PAGE_SIZE * i) = PROC_KERN_STACK_START + 4096 * i) as ->
    by (apply wrap64_small; unfold PROC_KERN_STACK_START, KERNEL_PAGE_SIZE; lia).
  change PROC_KERN_STACK_START with (4503599627370490 * 4096). change (GUARD / 2097152) with 8796093022207.
  apply kernel_page; try done; change (GUARD / 2097152) with 8796093022207; change (GUARD / 4096) with 4503599627370495;
    clear -Hi; dlia.
Qed.

Lemma stack_loop root w s : proc_space root w s -> (forall i, 0 <= i < 4 -> page_ok (stack_page i)) -> w GUARD = None ->
  oom_or (for_each (upto 0 kernel_stack_pages) (fun i =>
    page ← load64 (proc_phys_kernel_stack_addr proc i);
    vma_map_kernel proc (PROC_KERN_STACK_START ⊕ KERNEL_PAGE_SIZE * i) KERNEL_PAGE_SIZE page (Z.lor VMA_READ VMA_WRITE)))
    (fun _ => proc_space root (page_added (PROC_KERN_STACK_START + 4096 * 3) (stack_page 3)
      (page_added (PROC_KERN_STACK_START + 4096 * 2) (stack_page 2)
      (page_added (PROC_KERN_STACK_START + 4096 * 1) (stack_page 1)
      (page_added (PROC_KERN_STACK_START + 4096 * 0) (stack_page 0) w))))) s.
Proof.
  intros Hs Hp Hg. change (upto 0 kernel_stack_pages) with [0; 1; 2; 3]. cbn [for_each].
  assert (forall va phys w, va / 4096 <> GUARD / 4096 -> page_added va phys w GUARD = w GUARD) as Hw
    by (intros va phys w' Hne; unfold page_added; by rewrite decide_False by congruence).
  apply oom_bind. eapply oom_mono; [apply (stack_step root w s 0); [done|lia|apply Hp; lia|done]|]. intros [] s1 H1. cbv beta in H1.
  apply oom_bind. eapply oom_mono; [apply (stack_step root _ s1 1 H1); [lia|apply Hp; lia|by rewrite Hw by (by compute)]|]. intros [] s2 H2. cbv beta in H2.
  apply oom_bind. eapply oom_mono; [apply (stack_step root _ s2 2 H2); [lia|apply Hp; lia|by rewrite !Hw by (by compute)]|]. intros [] s3 H3. cbv beta in H3.
  apply oom_bind. eapply oom_mono; [apply (stack_step root _ s3 3 H3); [lia|apply Hp; lia|by rewrite !Hw by (by compute)]|]. intros [] s4 H4.
  by apply (oom_ret tt _ s4 s4).
Qed.

Lemma process_walk_eq tf v :
  page_added (PROC_KERN_STACK_START + 4096 * 3) (stack_page 3)
    (page_added (PROC_KERN_STACK_START + 4096 * 2) (stack_page 2)
    (page_added (PROC_KERN_STACK_START + 4096 * 1) (stack_page 1)
    (page_added (PROC_KERN_STACK_START + 4096 * 0) (stack_page 0)
    (page_added TRAPFRAME_ADDRESS tf (fun v => if KERN_MAPPING_BOTTOM <=? v then None else
       if KERNEL_VMA_START <=? v then Some (v - KERNEL_VMA_START, 15) else None))))) v = process_walk tf stack_page v.
Proof.
  unfold page_added, process_walk. assert (in_range PROC_KERN_STACK_START 4 v <->
    v / 4096 = 4503599627370490 \/ v / 4096 = 4503599627370491 \/ v / 4096 = 4503599627370492 \/ v / 4096 = 4503599627370493) as Hr.
  { unfold in_range. change (PROC_KERN_STACK_START / 4096) with 4503599627370490. lia. }
  change ((PROC_KERN_STACK_START + 4096 * 3) / 4096) with 4503599627370493.
  change ((PROC_KERN_STACK_START + 4096 * 2) / 4096) with 4503599627370492.
  change ((PROC_KERN_STACK_START + 4096 * 1) / 4096) with 4503599627370491.
  change ((PROC_KERN_STACK_START + 4096 * 0) / 4096) with 4503599627370490.
  change (PROC_KERN_STACK_START / 4096) with 4503599627370490.
  change (TRAPFRAME_ADDRESS / 4096) with 4503599627370494.
  destruct (decide (in_range PROC_KERN_STACK_START 4 v)) as [H|H]; rewrite Hr in H; clear Hr; revert H; generalize (v / 4096); intros p H.
  - destruct (decide (p = 4503599627370494)) as [->|]; [lia|]. by destruct H as [->|[->|[->| ->]]].
  - do 4 (rewrite decide_False by (intros ->; apply H; tauto)). done.
Qed.

Lemma map_process_runs s :
  ps_inv owned s -> (forall b j, b ∈ owned -> 0 <= j < 512 -> rd (mem s) (b + 8 * j) = rd m0 (b + 8 * j)) ->
  page_ok (rd m0 (proc_userspace_trapframe proc)) -> (forall i, 0 <= i < 4 -> page_ok (stack_page i)) ->
  oom_or (map_process proc) (fun _ s' => exists root,
    proc_space root (process_walk (rd m0 (proc_userspace_trapframe proc)) stack_page) s') s.
Proof.
  intros Hi Hm Htf Hst. unfold map_process. apply oom_bind. eapply oom_mono; [by apply created|]. intros [] s1 [root H1].
  apply oom_bind. eapply oom_mono; [by apply (top_cleared root)|]. intros [] s2 H2. cbv beta in H2.
  apply oom_bind. pose proof (field_kept root _ s2 3 H2 ltac:(lia) ltac:(lia)) as E.
  change (proc ⊕ 8 * 3) with (proc_userspace_trapframe proc) in E. eapply oom_ret; [exact E|].
  apply oom_bind. eapply oom_mono; [apply (kernel_page root _ s2 TRAPFRAME_ADDRESS _ H2 Htf); by compute|]. intros [] s3 H3. cbv beta in H3.
  eapply oom_mono; [by apply (stack_loop root _ s3 H3)|]. intros [] s4 [Q1 Q2 Q3 Q4]. exists root.
  split; [done|done| |done]. intros v Hv. by rewrite Q3, process_walk_eq.
Qed.
End Space.

(** C7: the address space every process starts with, the part of
    [new_blank_process] that is [map_process].  Unless pages run out, it gives the
    process a well-formed space of tables that are no pages of anybody else, in
    which the kernel half is mapped identically up to [KERN_MAPPING_BOTTOM],
    above it only the four pages of the kernel stack, from 0xFFFFFFFFFFFFA000 on,
    and right behind them, without a page between, the trap frame, at
    [TRAPFRAME_ADDRESS]; the pages below the stack and the one above the frame
    are not mapped, and the user half not at all.  Nothing else that the
    kernel holds is changed. *)
Theorem map_process_space {PS : PageSource pg_alloc} owned P k s :
  P ∈ owned -> 0 <= k /\ k + 24 <= 512 -> kblock (P + 8 * k) 192 -> ps_inv owned s ->
  page_ok (rd (mem s) (proc_userspace_trapframe (P + 8 * k))) ->
  (forall i, 0 <= i < 4 -> page_ok (rd (mem s) (proc_phys_kernel_stack_addr (P + 8 * k) i))) ->
  map_process (P + 8 * k) s = Panic "OUT_OF_FREE_PAGES" 0 0 0 \/
  exists root lv owned' s', map_process (P + 8 * k) s = Ret tt s' /\
    rd (mem s') (proc_vma_table (P + 8 * k)) = root /\
    ps_inv owned' s' /\ owned ⊆ owned' /\ space lv owned' root (mem s') /\ (forall l b, b ∈ lv l -> b ∉ owned) /\
    (forall v, canonical v -> sv39_walk (mem s') root v 2 =
       process_walk (rd (mem s) (proc_userspace_trapframe (P + 8 * k)))
         (fun i => rd (mem s) (proc_phys_kernel_stack_addr (P + 8 * k) i)) v) /\
    (forall b j, b ∈ owned -> 0 <= j < 512 -> b + 8 * j <> proc_vma_table (P + 8 * k) ->
       rd (mem s') (b + 8 * j) = rd (mem s) (b + 8 * j)).
Proof.
  intros HP Hk Hproc Hi Htf Hst.
  destruct (map_process_runs owned (mem s) P k HP Hk Hproc s Hi ltac:(done) Htf Hst)
    as [E|([] & s' & E & root & [Q1 (lv & owned' & Q2 & Q3 & Q4 & Q5) Q6 Q7])]; [by left|right].
  exists root, lv, owned', s'. split; [exact E|]. do 5 (split; [assumption|]). split; [exact Q6|exact Q7].
Qed.

(** ** Witness: a process in the first page of the demonstration state. *)
Definition demo_frame (i : Z) : Z := demo_table + 0x200000 + 4096 * i.
Definition demo_fields : list Z :=
  [1; 0; 0; demo_frame 0; 0; 0; 0; U64_MAX; 0; 0; 0; 0; 0; 0; demo_frame 1; demo_frame 2; demo_frame 3; demo_frame 4; 0; 0; 0; 0; 0; 0].
Definition demo_new_process : kstate :=
  set_mem (write_words (mem demo_space) (demo_idx + 8 * 128) demo_fields) demo_space.

Lemma demo_new_process_inv : ps_inv {[demo_idx; demo_data]} demo_new_process.
Proof. apply ps_write_words; [exact demo_space_inv|set_solver|lia|by compute]. Qed.

Lemma demo_field i v : demo_fields !! Z.to_nat i = Some v -> 0 <= i -> rd (mem demo_new_process) (demo_idx + 8 * 128 + 8 * i) = wrap64 v.
Proof. intros H Hi. by apply rd_write_words_in. Qed.

Lemma demo_frame_field : rd (mem demo_new_process) (proc_userspace_trapframe (demo_idx + 8 * 128)) = demo_frame 0.
Proof. exact (demo_field 3 (demo_frame 0) eq_refl ltac:(lia)). Qed.

Lemma map_process_space_witness :
  map_process (demo_idx + 8 * 128) demo_new_process = Panic "OUT_OF_FREE_PAGES" 0 0 0 \/
  exists root s', map_process (demo_idx + 8 * 128) demo_new_process = Ret tt s' /\
    sv39_walk (mem s') root TRAPFRAME_ADDRESS 2 = Some (demo_frame 0 - KERNEL_VMA_START, 199).
Proof.
  pose proof demo_frame_field as Et. assert (kblock (demo_idx + 8 * 128) 192) as Hb by (unfold kblock; zdone).
  assert (demo_idx ∈@{gset Z} {[demo_idx; demo_data]}) as Hin by set_solver.
  destruct (map_process_space {[demo_idx; demo_data]} demo_idx 128 demo_new_process Hin ltac:(split; zdone) Hb
    demo_new_process_inv) as [E|(root & lv & o & s' & E & _ & _ & _ & _ & _ & Hw & _)].
  - rewrite Et. unfold page_ok. zdone.
  - intros i Hi. assert (rd (mem demo_new_process) (proc_phys_kernel_stack_addr (demo_idx + 8 * 128) i) = demo_frame (i + 1)) as ->.
    { apply (forall_upto (fun i => rd (mem demo_new_process) (proc_phys_kernel_stack_addr (demo_idx + 8 * 128) i) = demo_frame (i + 1))
        4 _ eq_refl); [|done].
      constructor; [exact (demo_field 14 _ eq_refl ltac:(lia))|]. constructor; [exact (demo_field 15 _ eq_refl ltac:(lia))|].
      constructor; [exact (demo_field 16 _ eq_refl ltac:(lia))|]. constructor; [exact (demo_field 17 _ eq_refl ltac:(lia))|]. constructor. }
    unfold demo_frame, page_ok, KERNEL_VMA_START, demo_table. clear -Hi. split; [lia|]. dlia.
  - by left.
  - right. exists root, s'. split; [exact E|]. assert (canonical TRAPFRAME_ADDRESS) as Hc by (right; zdone).
    rewrite Et in Hw. exact (Hw TRAPFRAME_ADDRESS Hc).
Defined.
