(* ===== verification/Inode.v ===== *)
(** * Inodes and file descriptors ([kernel/file_system/inode.c],
    [file_descriptor.c])

    A file keeps its pages in 16 radix trees: root [i] has [i + 1] levels of 16
    entries, and its entry 0 is root [i - 1]. *)
From S2P Require Import Prelude Machine Objects Cpu Pager Allocator Radix.

(** ** The code of inode.c *)

Inductive inode_kind := INODE_FILE | INODE_SOCKET | INODE_PIPE | INODE_FOLDER.
Definition inode_kind_code (k : inode_kind) : Z :=
  match k with INODE_FILE => 0 | INODE_SOCKET => 1 | INODE_PIPE => 2 | INODE_FOLDER => 3 end.

Definition INODE_FILE_RADIX_LEVEL_DEPTH : Z := 4.
Definition INODE_FILE_RADIX_MAX_DEPTH : Z := 16.
Definition sizeof_inode : Z := 152.

Definition cleanup_file (file : Z) : M unit := mem_free file.

(** [refs += d] on a [u32]. *)
Definition add32 (field d : Z) : M unit := v ← load32 field; store32 field (wrap32 (v + d)).

Definition inode_inc_link (file : Z) : M unit := add32 (inode_link_refs file) 1.

(** The end of the two functions that count down. *)
Definition inode_drop (file : Z) : M unit :=
  link ← load32 (inode_link_refs file);
  if negb (link =? 0) then skip else
  open ← load32 (inode_open_refs file);
  when (open =? 0) (cleanup_file file).

Definition inode_dec_link (file : Z) : M unit := add32 (inode_link_refs file) (-1) ;; inode_drop file.
Definition inode_inc_open_cnt (file : Z) : M unit := add32 (inode_link_refs file) 1.
Definition inode_dec_open_cnt (file : Z) : M unit := add32 (inode_link_refs file) (-1) ;; inode_drop file.

Definition create_blank_inode_file : M Z :=
  file ← mem_alloc sizeof_inode;
  store32 (inode_type file) (inode_kind_code INODE_FILE) ;;
  store32 (inode_link_refs file) 0 ;;
  store32 (inode_open_refs file) 0 ;;
  store64 (inode_size file) 0 ;;
  _ ← for_fold (upto 0 INODE_FILE_RADIX_MAX_DEPTH) (fun cur_radix i =>
    new_radix ← radix_create INODE_FILE_RADIX_LEVEL_DEPTH;
    _ ← radix_insert new_radix 0 cur_radix 1 INODE_FILE_RADIX_LEVEL_DEPTH;
    store64 (inode_radix_root file i) new_radix ;;
    mret new_radix) 0;
  mret file.

Definition inode_file_debug_inject_data (src size file : Z) : M unit :=
  type ← load32 (inode_type file);
  if negb (type =? inode_kind_code INODE_FILE) then PANIC "inode_file_debug_inject_data_ON_NON_FILE" 0 0 0 else
  let page_cnt := ROUND_MOD_UP size 4096 / 4096 in
  for_each (upto 0 page_cnt) (fun i =>
    page_addr ← pg_alloc;
    (if negb (i =? page_cnt ⊖ 1) then
       for_each (upto 0 512) (fun j =>
         v ← load64 (elem64 src (512 * i + j)); store64 (elem64 page_addr j) v)
     else
       for_each (upto 0 (size mod 4096)) (fun j =>
         v ← load8 (src ⊕ (4096 * i + j)); store8 (page_addr ⊕ j) v)) ;;
    root ← load64 (inode_radix_root file (INODE_FILE_RADIX_MAX_DEPTH - 1));
    old_addr ← radix_insert root i page_addr INODE_FILE_RADIX_MAX_DEPTH INODE_FILE_RADIX_LEVEL_DEPTH;
    if negb (old_addr =? 0) then PANIC "inode_file_debug_inject_data_ALREADY_CONTENTS" 0 0 0 else skip) ;;
  store64 (inode_size file) size.

(** ** The code of file_descriptor.c *)

Definition file_descriptor_open (file : Z) : M Z :=
  inode_inc_open_cnt file ;;
  if file =? 0 then mret 0 else
  desc ← mem_alloc sizeof_file_descriptor;
  store64 (fd_virt_mapped_loc desc) 0 ;;
  store8 (fd_access_mode desc) 0 ;;
  store64 (fd_seek_pos desc) 0 ;;
  store64 (fd_file desc) file ;;
  mret desc.

Definition release_file_descriptor (desc : Z) : M unit :=
  irq_disable ;;
  mapped ← load64 (fd_virt_mapped_loc desc);
  if negb (mapped =? 0) then PANIC "RELEASE_MAPPED_FILE_DESCRIPTOR_NOT_SUPPORTED" 0 0 0 else
  file ← load64 (fd_file desc);
  inode_dec_open_cnt file ;;
  mem_free desc ;;
  irq_enable.

(** The tree that serves page [page_num]. *)
Definition radix_level_of (page_num : Z) : Z := (63 - clz64 (page_num ⊕ 1)) / INODE_FILE_RADIX_LEVEL_DEPTH.

Definition find_page_start (offset file : Z) : M Z :=
  let page_num := offset / 4096 in
  let radix_level := radix_level_of page_num in
  while_true (fun page_location =>
    if negb (page_location =? 0) then mret (inr page_location) else
    root ← load64 (inode_radix_root file radix_level);
    page_location ← radix_get root page_num (radix_level + 1) INODE_FILE_RADIX_LEVEL_DEPTH;
    if negb (page_location =? 0) then mret (inl page_location) else
    file_size ← load64 (inode_size file);
    if file_size <=? offset then
      page_location ← pg_alloc;
      root ← load64 (inode_radix_root file radix_level);
      _ ← radix_insert root page_num page_location (radix_level + 1) INODE_FILE_RADIX_LEVEL_DEPTH;
      mret (inl page_location)
    else PANIC "READ/WRITE_OUT_OF_BOUNDS_FILE_DESC_UNIMPLENTED" 0 0 0) 0.

(** The locals of the copying loops. *)
Record cursor := mkCursor { offset : Z; size_left : Z; other_offset : Z }.

Definition increase_offset (c : cursor) : cursor :=
  mkCursor (offset c ⊕ 1) (size_left c ⊖ 1) (other_offset c ⊕ 1).

(** The two nested loops; [move page_start c] copies the byte at [c]. *)
Definition move_bytes (file : Z) (move : Z -> cursor -> M unit) (c : cursor) : M cursor :=
  while_true (fun c =>
    if size_left c =? 0 then mret (inr c) else
    page_start ← find_page_start (offset c) file;
    let page_end := MIN (size_left c) (4096 - offset c mod 4096) in
    c ← for_fold (upto 0 page_end) (fun c _ => move page_start c ;; mret (increase_offset c)) c;
    mret (inl c)) c.

Definition file_descriptor_read (desc dest size : Z) : M Z :=
  irq_disable ;;
  file ← load64 (fd_file desc);
  type ← load32 (inode_type file);
  if type =? inode_kind_code INODE_SOCKET then PANIC "ATTEMPT WRITE TO socket" 0 0 0
  else if type =? inode_kind_code INODE_PIPE then PANIC "ATTEMPT WRITE TO PIPE" 0 0 0
  else if type =? inode_kind_code INODE_FOLDER then PANIC "ATTEMPT WRITE TO FOLDER" 0 0 0
  else if type =? inode_kind_code INODE_FILE then
    file_size ← load64 (inode_size file);
    seek_pos ← load64 (fd_seek_pos desc);
    let read_size := MIN size (file_size ⊖ seek_pos) in
    if file_size <? seek_pos then mret 0
    else if read_size =? 0 then mret 0
    else
      c ← move_bytes file (fun page_start c =>
        b ← load8 (page_start ⊕ offset c mod 4096); store8 (dest ⊕ other_offset c) b)
        (mkCursor seek_pos read_size 0);
      store64 (fd_seek_pos desc) (offset c) ;;
      mret read_size
  else PANIC "UNKNOWN_READ_FILE_TYPE" type 0 0.

Definition file_descriptor_write (desc src size : Z) : M Z :=
  irq_disable ;;
  file ← load64 (fd_file desc);
  type ← load32 (inode_type file);
  if type =? inode_kind_code INODE_SOCKET then PANIC "ATTEMPT WRITE TO socket" 0 0 0
  else if type =? inode_kind_code INODE_PIPE then PANIC "ATTEMPT WRITE TO PIPE" 0 0 0
  else if type =? inode_kind_code INODE_FOLDER then PANIC "ATTEMPT WRITE TO FOLDER" 0 0 0
  else if type =? inode_kind_code INODE_FILE then
    seek_pos ← load64 (fd_seek_pos desc);
    c ← move_bytes file (fun page_start c =>
      b ← load8 (src ⊕ other_offset c); store8 (page_start ⊕ offset c mod 4096) b)
      (mkCursor seek_pos size 0);
    store64 (fd_seek_pos desc) (offset c) ;;
    file_size ← load64 (inode_size file);
    seek_pos ← load64 (fd_seek_pos desc);
    store64 (inode_size file) (MAX file_size (size ⊕ seek_pos)) ;;
    mret size
  else PANIC "UNKNOWN_WRITE_FILE_TYPE" type 0 0.

Definition file_descriptor_seek (desc seek_pos : Z) : M unit :=
  irq_disable ;;
  store64 (fd_seek_pos desc) seek_pos ;;
  irq_enable.
