(* ===== verification/FileIO.v ===== *)
(** * Reading and writing files: what [file_descriptor_read] and
    [file_descriptor_write] do

    Files of at most 15 pages: their pages are the entries of the first radix
    tree. *)
From S2P Require Import Prelude Machine Strings Objects Cpu Radix Inode.

(** ** The copying loops *)

Section Move.
Context (file off n : Z) (page A B : Z -> Z) (s : kstate) (move : Z -> cursor -> M unit).
Context (total : Z) (Htotal : n <= total).
Context (Hoff : 0 <= off) (Hn : 0 <= n) (Hend : off + total < 18446744073709551616).
Context (Hinj : forall j k, 0 <= j < n -> 0 <= k < n -> B j = B k -> j = k).
Context (Hdis : forall j k, 0 <= j < n -> 0 <= k < n -> A j <> B k).
Context (Hfind : forall m i k, 0 <= i <= n -> 0 <= k < n -> moved (mem s) m i A B ->
  find_page_start (off + k) file (set_mem m s) = Ret (page ((off + k) / 4096)) (set_mem m s)).
Context (Hmove : forall m k left, 0 <= k < n ->
  move (page ((off + k) / 4096)) (mkCursor (off + k) left k) (set_mem m s) =
    Ret tt (set_mem (wr_field 1 m (B k) (byte m (A k))) s)).

(** [i] bytes of the [total] to move are moved; only the first [n] are known to be there. *)
Definition at_byte (i : Z) (c : cursor) (s' : kstate) : Prop :=
  c = mkCursor (off + i) (total - i) i /\ exists m, s' = set_mem m s /\ moved (mem s) m i A B.

Lemma cursor_step i : 0 <= i < n ->
  increase_offset (mkCursor (off + i) (total - i) i) = mkCursor (off + (i + 1)) (total - (i + 1)) (i + 1).
Proof. intros Hi. unfold increase_offset. cbn [offset size_left other_offset]. rewrite !wrap64_small by lia. f_equal; lia. Qed.

Lemma move_page i s' :
  0 <= i < n -> at_byte i (mkCursor (off + i) (total - i) i) s' ->
  let page_end := MIN (total - i) (4096 - (off + i) mod 4096) in
  page_end <= n - i ->
  wp (for_fold (upto 0 page_end) (fun c _ => move (page ((off + i) / 4096)) c ;; mret (increase_offset c))
        (mkCursor (off + i) (total - i) i)) (at_byte (i + page_end)) s'.
Proof.
  intros Hi (_ & m & -> & Hm) page_end Hle.
  assert (0 < page_end /\ page_end <= 4096 - (off + i) mod 4096) as Hpe.
  { unfold page_end, MIN. pose proof (Z.mod_pos_bound (off + i) 4096). destruct (Z.ltb_spec (total - i) (4096 - (off + i) mod 4096)); lia. }
  apply (wp_for_fold (fun j c s' => at_byte (i + j) c s')); [lia| | |].
  - rewrite Z.add_0_r. split; [done|]. by exists m.
  - intros j c s1 Hj (-> & m1 & -> & Hm1). unfold wp.
    assert ((off + i) / 4096 = (off + (i + j)) / 4096) as -> by dlia.
    rewrite (bind_Ret _ _ _ _ _ (Hmove m1 (i + j) (total - (i + j)) ltac:(lia))).
    cbn [mret M_ret]. rewrite cursor_step by lia. replace (i + (j + 1)) with (i + j + 1) by lia.
    split; [done|]. eexists. split; [done|]. apply (moved_step _ _ n); [lia|done..].
  - done.
Qed.

Lemma move_bytes_spec : total = n ->
  exists m, move_bytes file move (mkCursor off n 0) s = Ret (mkCursor (off + n) 0 n) (set_mem m s) /\
    moved (mem s) m n A B.
Proof.
  intros Et. assert (wp (move_bytes file move (mkCursor off n 0)) (at_byte n) s) as H.
  { unfold move_bytes.
    apply (wp_while (fun c s' => exists i, 0 <= i <= n /\ at_byte i c s') (fun c _ => size_left c)).
    - intros c s' (i & Hi & -> & _). cbn. lia.
    - intros c s' (i & Hi & -> & m & -> & Hm). cbn [size_left offset]. unfold wp.
      destruct (Z.eqb_spec (total - i) 0) as [E|E].
      + assert (i = n) as -> by lia. cbn [mret M_ret]. split; [done|]. by exists m.
      + rewrite (bind_Ret _ _ _ _ _ (Hfind m i i ltac:(lia) ltac:(lia) Hm)).
        destruct (wp_inv _ _ _ (move_page i (set_mem m s) ltac:(lia) ltac:(by split; [|exists m])
          ltac:(unfold MIN; destruct (Z.ltb_spec (total - i) (4096 - (off + i) mod 4096)); lia)))
          as (c & s1 & E1 & Hc). rewrite (bind_Ret _ _ _ _ _ E1). cbn [mret M_ret].
        assert (0 < MIN (total - i) (4096 - (off + i) mod 4096) <= total - i) as Hpe.
        { unfold MIN. pose proof (Z.mod_pos_bound (off + i) 4096).
          destruct (Z.ltb_spec (total - i) (4096 - (off + i) mod 4096)); lia. }
        split; [eexists; split; [|exact Hc]; lia|]. destruct Hc as (-> & _). cbn [size_left]. lia.
    - exists 0. split; [lia|]. unfold at_byte. rewrite !Z.add_0_r, !Z.sub_0_r, Et. split; [done|]. exists (mem s). split; [|apply moved_nil].
      by rewrite set_mem_id.
    - cbn. lia. }
  destruct (wp_inv _ _ _ H) as (c & s' & E & -> & m & -> & Hm). exists m. rewrite E, Et, Z.sub_diag. done.
Qed.

(** With more to move than there is: the panic of [find_page_start] at the first page that is missing. *)
Lemma move_bytes_missing : n < total -> (off + n) mod 4096 = 0 ->
  (forall m, moved (mem s) m n A B -> find_page_start (off + n) file (set_mem m s) =
     Panic "READ/WRITE_OUT_OF_BOUNDS_FILE_DESC_UNIMPLENTED" 0 0 0) ->
  move_bytes file move (mkCursor off total 0) s = Panic "READ/WRITE_OUT_OF_BOUNDS_FILE_DESC_UNIMPLENTED" 0 0 0.
Proof.
  intros Ht Hm Hmiss. unfold move_bytes.
  apply (while_panics (fun c s' => exists i, 0 <= i <= n /\ at_byte i c s') (fun c _ => size_left c)).
  - intros c s' (i & Hi & -> & _). cbn. lia.
  - intros c s' (i & Hi & -> & m & -> & Hmv). cbn [size_left offset]. replace (total - i =? 0) with false by lia.
    destruct (Z.eq_dec i n) as [->|Hne].
    + left. apply bind_Panic. by apply Hmiss.
    + right. rewrite (bind_Ret _ _ _ _ _ (Hfind m i i ltac:(lia) ltac:(lia) Hmv)).
      assert (MIN (total - i) (4096 - (off + i) mod 4096) <= n - i) as Hle.
      { unfold MIN. clear -Hm Hi Hne Ht. destruct (Z.ltb_spec (total - i) (4096 - (off + i) mod 4096)); dlia. }
      destruct (wp_inv _ _ _ (move_page i (set_mem m s) ltac:(lia) ltac:(by split; [|exists m]) Hle)) as (c & s1 & E1 & Hc).
      rewrite (bind_Ret _ _ _ _ _ E1). exists c, s1. split; [done|].
      assert (0 < MIN (total - i) (4096 - (off + i) mod 4096)) as Hpe.
      { unfold MIN. pose proof (Z.mod_pos_bound (off + i) 4096). destruct (Z.ltb_spec (total - i) (4096 - (off + i) mod 4096)); lia. }
      split; [eexists; split; [|exact Hc]; lia|]. destruct Hc as (-> & _). cbn [size_left]. lia.
  - exists 0. split; [lia|]. unfold at_byte. rewrite !Z.add_0_r, !Z.sub_0_r. split; [done|]. exists (mem s). split; [|apply moved_nil].
    by rewrite set_mem_id.
  - cbn. lia.
Qed.
End Move.

(** ** A file of at most 15 pages *)

Definition disjoint (a n b k : Z) : Prop := a + n <= b \/ b + k <= a.

(** The words that say where the data is: the descriptor, the inode and the
    node of the first radix tree. *)
Definition meta (desc file root a : Z) : Prop :=
  desc <= a < desc + 32 \/ file <= a < file + 152 \/ root <= a < root + 128.

Record open_file (desc file root : Z) (page : Z -> Z) (pages sz off : Z) (m : gmap Z Z) : Prop := {
  of_desc : kblock desc 32;
  of_inode : kblock file 152;
  of_node : kblock root (8 * 16);
  of_file : rd m desc = file;
  of_seek : rd m (desc + 8) = off;
  of_type : rd_field 4 m (file + 8) = inode_kind_code INODE_FILE;
  of_size : rd m (file + 16) = sz;
  of_root : rd m (file + 24) = root;
  of_cnt : 0 <= pages <= 15;
  of_page k : 0 <= k < pages -> rd m (root + 8 * k) = page k /\ kblock (page k) 4096;
  of_apart k a : 0 <= k < pages -> meta desc file root a -> a < page k \/ page k + 4096 <= a;
  of_pages j k : 0 <= j < pages -> 0 <= k < pages -> j <> k -> disjoint (page j) 4096 (page k) 4096;
  of_structs : disjoint desc 32 file 152 /\ disjoint desc 32 root 128 /\ disjoint file 152 root 128;
}.

(** Where the byte [k] of the file is. *)
Definition byte_at (page : Z -> Z) (k : Z) : Z := page (k / 4096) + k mod 4096.

Lemma radix_level_small p : 0 <= p < 15 -> radix_level_of p = 0.
Proof.
  intros Hp. unfold radix_level_of, clz64. rewrite wrap64_small by lia.
  assert (Z.log2 (p + 1) < 4) by (apply Z.log2_lt_pow2; lia). pose proof (Z.log2_nonneg (p + 1)).
  unfold INODE_FILE_RADIX_LEVEL_DEPTH. apply Z.div_small. lia.
Qed.

Lemma first_position p s : 0 <= p < 16 -> level_position p 1 4 1 15 s = Ret p s.
Proof.
  intros Hp. unfold level_position, shr. change ((1 - 1) * 4) with 0. change (0 <? 64) with true. cbv iota.
  erewrite bind_Ret by reflexivity. change 15 with (Z.ones 4). rewrite Z.shiftr_0_r, Z.land_ones by lia.
  change (2 ^ 4) with 16. by rewrite Z.mod_small.
Qed.

Lemma radix_get_first root p s :
  kblock root (8 * 16) -> 0 <= p < 16 -> radix_get root p 1 4 s = Ret (rd (mem s) (root + 8 * p)) s.
Proof.
  intros Hk Hp. unfold radix_get, shl_one. change (4 <? 64) with true. cbv iota.
  erewrite bind_Ret by reflexivity. cbv zeta. change (upto 1 (1 + 1)) with [1]. cbn [for_until].
  change (BIT 4 ⊖ 1) with 15. rewrite !bind_assoc, (bind_Ret _ _ _ _ _ (first_position p s Hp)).
  rewrite (kblock_elem_eq root 16), bind_assoc by done. kstep.
  destruct (Z.eqb_spec (rd (mem s) (root + 8 * p)) 0) as [E|E]; [|done].
  rewrite E. done.
Qed.

Section File.
Context (desc file root : Z) (page : Z -> Z) (pages sz off : Z) (s : kstate).
Context (Hf : open_file desc file root page pages sz off (mem s)).

Lemma page_nonzero k : 0 <= k < pages -> page k <> 0.
Proof. intros Hk. destruct (of_page _ _ _ _ _ _ _ _ Hf k Hk) as [_ (H & _)]. unfold KERNEL_VMA_START in H. lia. Qed.

Lemma find_page_eq k : 0 <= k < 4096 * pages -> find_page_start k file s = Ret (page (k / 4096)) s.
Proof.
  intros Hk. pose proof (of_cnt _ _ _ _ _ _ _ _ Hf) as Hc. assert (0 <= k / 4096 < pages) as Hp by dlia.
  pose proof (page_nonzero _ Hp) as Hnz. destruct (of_page _ _ _ _ _ _ _ _ Hf _ Hp) as [Ep _].
  unfold find_page_start. rewrite radix_level_small by lia. cbv zeta.
  rewrite (while_second _ _ _ (page (k / 4096)) s); [apply while_exit| |].
  - by destruct (Z.eqb_spec (page (k / 4096)) 0).
  - cbn [Z.eqb negb]. unfold inode_radix_root. change (24 + 8 * 0) with 24.
    rewrite (bind_Ret _ _ _ _ _ (load_field_addr file 152 24 s (of_inode _ _ _ _ _ _ _ _ Hf) ltac:(lia) ltac:(lia) eq_refl)).
    rewrite (of_root _ _ _ _ _ _ _ _ Hf).
    rewrite (bind_Ret _ _ _ _ _ (radix_get_first root (k / 4096) s (of_node _ _ _ _ _ _ _ _ Hf) ltac:(lia))), Ep.
    by destruct (Z.eqb_spec (page (k / 4096)) 0).
  - by destruct (Z.eqb_spec (page (k / 4096)) 0).
Qed.

Lemma byte_at_page k : 0 <= k < 4096 * pages ->
  exists p, 0 <= p < pages /\ kblock (page p) 4096 /\ page p <= byte_at page k < page p + 4096 /\ byte_at page k = page p + k mod 4096 /\ p = k / 4096.
Proof.
  intros Hk. exists (k / 4096). assert (0 <= k / 4096 < pages) as Hp by dlia. split; [done|].
  split; [by apply (of_page _ _ _ _ _ _ _ _ Hf)|]. unfold byte_at. pose proof (Z.mod_pos_bound k 4096). split_and!; [lia|lia|done|done].
Qed.

Lemma byte_at_inj j k : 0 <= j < 4096 * pages -> 0 <= k < 4096 * pages -> byte_at page j = byte_at page k -> j = k.
Proof.
  intros Hj Hk E. destruct (byte_at_page j Hj) as (p & Hp & _ & Rp & Ep & Dp), (byte_at_page k Hk) as (q & Hq & _ & Rq & Eq & Dq).
  destruct (Z.eq_dec p q) as [<-|Hne].
  - rewrite (Z.div_mod j 4096), (Z.div_mod k 4096) by lia. lia.
  - pose proof (of_pages _ _ _ _ _ _ _ _ Hf p q Hp Hq Hne). unfold disjoint in *. lia.
Qed.

Lemma byte_at_meta k a : 0 <= k < 4096 * pages -> meta desc file root a -> byte_at page k <> a.
Proof.
  intros Hk Ha. destruct (byte_at_page k Hk) as (p & Hp & _ & Rp & _).
  pose proof (of_apart _ _ _ _ _ _ _ _ Hf p a Hp Ha). lia.
Qed.

(** Memory that differs outside the words above is still that file. *)
Lemma open_file_same m' :
  (forall a, meta desc file root a -> byte m' a = byte (mem s) a) -> open_file desc file root page pages sz off m'.
Proof.
  intros H. destruct Hf as [Hd Hi Hn E1 E2 E3 E4 E5 Hc Hp Ha Hpp Hs].
  pose proof Hd as (_ & _ & Md). pose proof Hi as (_ & _ & Mi). pose proof Hn as (_ & _ & Mn).
  assert (forall a, a mod 8 = 0 -> (forall k, 0 <= k < 8 -> meta desc file root (a + k)) -> rd m' a = rd (mem s) a) as Hrd.
  { intros a Ma Hm. apply rd_bytes; [done|]. intros k Hk. apply H, Hm, Hk. }
  split; try done.
  - rewrite Hrd; [done|done|]. unfold meta. lia.
  - rewrite Hrd; [done|clear -Md; dlia|]. unfold meta. lia.
  - rewrite <- E3. unfold rd_field. assert (word_of (file + 8) = file + 8) as -> by (unfold word_of; clear -Mi; dlia).
    rewrite Hrd; [done|clear -Mi; dlia|]. unfold meta. lia.
  - rewrite Hrd; [done|clear -Mi; dlia|]. unfold meta. lia.
  - rewrite Hrd; [done|clear -Mi; dlia|]. unfold meta. lia.
  - intros k Hk. rewrite Hrd; [by apply Hp|clear -Mn; dlia|]. unfold meta. lia.
Qed.
End File.

(** A field of the three structs changes: the seek position or the size. *)
Lemma open_file_seek desc file root page pages sz off m off' :
  open_file desc file root page pages sz off m -> u64 off' ->
  open_file desc file root page pages sz off' (wr m (desc + 8) off').
Proof.
  intros [Hd Hi Hn E1 E2 E3 E4 E5 Hc Hp Ha Hpp Hs] Hu. unfold disjoint in Hs.
  split; try done; try (rewrite rd_wr_ne by lia; done).
  - by rewrite rd_wr_eq, wrap64_small.
  - rewrite <- E3. unfold rd_field. destruct Hi as (_ & _ & Mi).
    assert (word_of (file + 8) = file + 8) as -> by (unfold word_of; clear -Mi; dlia). by rewrite rd_wr_ne by lia.
  - intros k Hk. rewrite rd_wr_ne by lia. by apply Hp.
Qed.

Lemma open_file_size desc file root page pages sz off m sz' :
  open_file desc file root page pages sz off m -> u64 sz' ->
  open_file desc file root page pages sz' off (wr m (file + 16) sz').
Proof.
  intros [Hd Hi Hn E1 E2 E3 E4 E5 Hc Hp Ha Hpp Hs] Hu. unfold disjoint in Hs.
  split; try done; try (rewrite rd_wr_ne by lia; done).
  - rewrite <- E3. unfold rd_field. destruct Hi as (_ & _ & Mi).
    assert (word_of (file + 8) = file + 8) as -> by (unfold word_of; clear -Mi; dlia). by rewrite rd_wr_ne by lia.
  - by rewrite rd_wr_eq, wrap64_small.
  - intros k Hk. rewrite rd_wr_ne by lia. by apply Hp.
Qed.

Lemma byte_wr_out m a v b : a mod 8 = 0 -> b < a \/ a + 8 <= b -> byte (wr m a v) b = byte m b.
Proof. intros Ha Hb. rewrite byte_wr by done. by replace ((a <=? b) && (b <? a + 8)) with false by lia. Qed.

Section Access.
Context (desc file root : Z) (page : Z -> Z) (pages sz off : Z) (s : kstate).
Context (Hf : open_file desc file root page pages sz off (mem s)).
Local Abbreviation opened := (open_file desc file root page pages).

(** The loads both functions start with. *)
Lemma load_file : load64 (fd_file desc) s = Ret file s.
Proof.
  unfold fd_file. rewrite (load_field_addr desc 32 0 s (of_desc _ _ _ _ _ _ _ _ Hf) ltac:(lia) ltac:(lia) eq_refl).
  by rewrite Z.add_0_r, (of_file _ _ _ _ _ _ _ _ Hf).
Qed.

Lemma load_type : load32 (inode_type file) s = Ret 0 s.
Proof.
  unfold inode_type. rewrite (load_narrow file 152 4 8 s (of_inode _ _ _ _ _ _ _ _ Hf) ltac:(right; right; by left) ltac:(lia) ltac:(lia) eq_refl).
  by rewrite (of_type _ _ _ _ _ _ _ _ Hf).
Qed.

Lemma load_size : load64 (inode_size file) s = Ret sz s.
Proof.
  unfold inode_size. rewrite (load_field_addr file 152 16 s (of_inode _ _ _ _ _ _ _ _ Hf) ltac:(lia) ltac:(lia) eq_refl).
  by rewrite (of_size _ _ _ _ _ _ _ _ Hf).
Qed.

Lemma load_seek : load64 (fd_seek_pos desc) s = Ret off s.
Proof.
  unfold fd_seek_pos. rewrite (load_field_addr desc 32 8 s (of_desc _ _ _ _ _ _ _ _ Hf) ltac:(lia) ltac:(lia) eq_refl).
  by rewrite (of_seek _ _ _ _ _ _ _ _ Hf).
Qed.

Lemma store_seek v : store64 (fd_seek_pos desc) v s = Ret tt (set_mem (wr (mem s) (desc + 8) v) s).
Proof. by apply (store_field_addr desc 32 8 v s (of_desc _ _ _ _ _ _ _ _ Hf)). Qed.

Lemma store_size v : store64 (inode_size file) v s = Ret tt (set_mem (wr (mem s) (file + 16) v) s).
Proof. by apply (store_field_addr file 152 16 v s (of_inode _ _ _ _ _ _ _ _ Hf)). Qed.

Lemma off_u64 : u64 off.
Proof. rewrite <- (of_seek _ _ _ _ _ _ _ _ Hf). apply rd_u64. Qed.

Lemma size_u64 : u64 sz.
Proof. rewrite <- (of_size _ _ _ _ _ _ _ _ Hf). apply rd_u64. Qed.

(** A byte of the file, addressed as the loops do. *)
Lemma page_byte k : 0 <= k < 4096 * pages ->
  kbytes (page (k / 4096)) 4096 /\ 0 <= k mod 4096 < 4096 /\ page (k / 4096) + k mod 4096 = byte_at page k.
Proof.
  intros Hk. destruct (byte_at_page _ _ _ _ _ _ _ _ Hf k Hk) as (p & Hp & (K1 & K2 & _) & _ & E & ->).
  split; [by split|]. split; [by apply Z.mod_pos_bound|done].
Qed.

(** A buffer away from the file. *)
Definition buffer (a n : Z) : Prop :=
  kbytes a n /\ forall b, a <= b < a + n -> ~ meta desc file root b /\
    forall k, 0 <= k < 4096 * pages -> byte_at page k <> b.

Lemma read_bytes dest n :
  buffer dest n -> 0 <= n -> off + n <= 4096 * pages ->
  exists m, move_bytes file (fun page_start c =>
        b ← load8 (page_start ⊕ offset c mod 4096); store8 (dest ⊕ other_offset c) b) (mkCursor off n 0) s =
      Ret (mkCursor (off + n) 0 n) (set_mem m s) /\
    moved (mem s) m n (fun k => byte_at page (off + k)) (fun k => dest + k).
Proof.
  intros [Hd Hb] Hn Hend. pose proof (of_cnt _ _ _ _ _ _ _ _ Hf). pose proof (proj1 off_u64).
  apply (move_bytes_spec file off n page _ _ _ _ n); try lia.
  - intros j k Hj Hk E. destruct (Hb (dest + k) ltac:(lia)) as [_ H']. apply (H' (off + j)); [lia|done].
  - intros m i k Hi Hk [_ Hm]. apply (find_page_eq desc file root page pages sz off); [|lia].
    apply (open_file_same _ _ _ _ _ _ _ _ Hf). intros a Ha. apply Hm. intros j Hj ->.
    destruct (Hb (dest + j) ltac:(lia)) as [Hmeta _]. by apply Hmeta.
  - intros m k left Hk. cbn [offset other_offset]. destruct (page_byte (off + k) ltac:(lia)) as (K & R & E).
    rewrite (bind_Ret _ _ _ _ _ (load8_byte _ _ _ _ K R)), E. by rewrite (store8_byte dest n k _ _ Hd Hk).
Qed.

Lemma write_bytes src n :
  buffer src n -> 0 <= n -> off + n <= 4096 * pages ->
  exists m, move_bytes file (fun page_start c =>
        b ← load8 (src ⊕ other_offset c); store8 (page_start ⊕ offset c mod 4096) b) (mkCursor off n 0) s =
      Ret (mkCursor (off + n) 0 n) (set_mem m s) /\
    moved (mem s) m n (fun k => src + k) (fun k => byte_at page (off + k)).
Proof.
  intros [Hd Hb] Hn Hend. pose proof (of_cnt _ _ _ _ _ _ _ _ Hf). pose proof (proj1 off_u64).
  apply (move_bytes_spec file off n page _ _ _ _ n); try lia.
  - intros j k Hj Hk E. apply (byte_at_inj _ _ _ _ _ _ _ _ Hf) in E; lia.
  - intros j k Hj Hk E. destruct (Hb (src + j) ltac:(lia)) as [_ H']. by apply (H' (off + k)); [lia|].
  - intros m i k Hi Hk [_ Hm]. apply (find_page_eq desc file root page pages sz off); [|lia].
    apply (open_file_same _ _ _ _ _ _ _ _ Hf). intros a Ha. apply Hm. intros j Hj ->.
    by apply (byte_at_meta _ _ _ _ _ _ _ _ Hf (off + j) _ ltac:(lia) Ha).
  - intros m k left Hk. cbn [offset other_offset]. destruct (page_byte (off + k) ltac:(lia)) as (K & R & E).
    rewrite (bind_Ret _ _ _ _ _ (load8_byte src n k _ Hd Hk)), (store8_byte _ _ _ _ _ K R), E. done.
Qed.
End Access.

(** ** Reading *)

(** How many bytes a read of [size] gets. *)
Definition readable (sz off size : Z) : Z := if off <? sz then MIN size (sz - off) else 0.

Lemma readable_bounds sz off size : 0 <= size -> 0 <= readable sz off size <= size.
Proof. intros H. unfold readable, MIN. bool_cases; lia. Qed.

Lemma file_read_correct' desc file root page pages sz off dest size s :
  open_file desc file root page pages sz off (mem s) -> 0 <= size ->
  let n := readable sz off size in
  (0 < n -> off + n <= 4096 * pages) -> buffer desc file root page pages dest size ->
  exists m', file_descriptor_read desc dest size s = Ret n (set_mem m' (set_irq false s)) /\
    open_file desc file root page pages sz (off + n) m' /\
    (forall k, 0 <= k < n -> byte m' (dest + k) = byte (mem s) (byte_at page (off + k))) /\
    (forall k, 0 <= k < 4096 * pages -> byte m' (byte_at page k) = byte (mem s) (byte_at page k)) /\
    (forall b, b < dest \/ dest + n <= b -> b < desc + 8 \/ desc + 16 <= b -> byte m' b = byte (mem s) b).
Proof.
  intros Hf Hsize n Hsz Hbuf. set (s0 := set_irq false s).
  assert (open_file desc file root page pages sz off (mem s0)) as Hf0 by done.
  pose proof (off_u64 _ _ _ _ _ _ _ _ Hf) as Ho. pose proof (size_u64 _ _ _ _ _ _ _ _ Hf) as [Hu1 Hu2].
  pose proof (of_cnt _ _ _ _ _ _ _ _ Hf) as Hc. pose proof (proj2 Ho) as Ho2. pose proof (proj1 Ho) as Ho1.
  unfold file_descriptor_read, irq_disable. erewrite bind_Ret by reflexivity. fold s0.
  rewrite (bind_Ret _ _ _ _ _ (load_file _ _ _ _ _ _ _ _ Hf0)), (bind_Ret _ _ _ _ _ (load_type _ _ _ _ _ _ _ _ Hf0)).
  cbn [inode_kind_code Z.eqb].
  rewrite (bind_Ret _ _ _ _ _ (load_size _ _ _ _ _ _ _ _ Hf0)), (bind_Ret _ _ _ _ _ (load_seek _ _ _ _ _ _ _ _ Hf0)).
  cbv zeta. destruct (Z.ltb_spec off sz) as [Hlt|Hge].
  2: { assert (n = 0) as -> by (unfold n, readable; destruct (Z.ltb_spec off sz); lia).
    exists (mem s). change (set_mem (mem s) (set_irq false s)) with s0. rewrite Z.add_0_r.
    split; [|split; [done|split; [lia|done]]].
    destruct (Z.ltb_spec sz off); [done|]. assert (off = sz) as -> by lia. rewrite Z.sub_diag. change (wrap64 0) with 0.
    unfold MIN. destruct (Z.ltb_spec size 0); [lia|]. done. }
  destruct (Z.ltb_spec sz off); [lia|]. rewrite (wrap64_small (sz - off)) by lia.
  assert (n = MIN size (sz - off)) as En by (unfold n, readable; by destruct (Z.ltb_spec off sz); [|lia]). rewrite <- En.
  assert (0 <= n <= size /\ off + n <= sz) as [Hn Hns].
  { rewrite En. unfold MIN. destruct (Z.ltb_spec size (sz - off)); lia. }
  destruct (Z.eqb_spec n 0) as [E0|E0].
  { exists (mem s). rewrite E0, Z.add_0_r. split; [done|]. split; [done|]. split; [lia|done]. }
  assert (buffer desc file root page pages dest n) as Hbn.
  { destruct Hbuf as [[K1 K2] Hb]. split; [split; [done|lia]|]. intros b Hb'. apply Hb. lia. }
  destruct (read_bytes _ _ _ _ _ _ _ _ Hf0 dest n Hbn ltac:(lia) (Hsz ltac:(lia))) as (m & E & H1 & H2).
  rewrite (bind_Ret _ _ _ _ _ E). cbn [offset].
  assert (open_file desc file root page pages sz off m) as Hf1.
  { apply (open_file_same _ _ _ _ _ _ _ _ Hf). intros a Ha. apply H2. intros k Hk ->.
    destruct Hbn as [_ Hb]. by destruct (Hb (dest + k) ltac:(lia)). }
  rewrite (bind_Ret _ _ _ _ _ (store_seek _ _ _ _ _ _ _ (set_mem m s0) Hf1 (off + n))).
  exists (wr m (desc + 8) (off + n)). split; [done|].
  destruct (of_desc _ _ _ _ _ _ _ _ Hf) as (_ & _ & Md). assert ((desc + 8) mod 8 = 0) as Md8 by (clear -Md; dlia).
  assert (forall k, 0 <= k < 4096 * pages -> byte_at page k < desc + 8 \/ desc + 8 + 8 <= byte_at page k) as Hpd.
  { intros k Hk. destruct (Z.lt_ge_cases (byte_at page k) (desc + 8)); [by left|].
    destruct (Z.lt_ge_cases (byte_at page k) (desc + 8 + 8)); [|by right].
    exfalso. refine (byte_at_meta _ _ _ _ _ _ _ _ Hf k _ Hk _ eq_refl). left. lia. }
  assert (forall k, 0 <= k < n -> dest + k < desc + 8 \/ desc + 8 + 8 <= dest + k) as Hdd.
  { intros k Hk. destruct Hbn as [_ Hb]. destruct (Hb (dest + k) ltac:(lia)) as [Hm _]. unfold meta in Hm. lia. }
  split; [apply (open_file_seek _ _ _ _ _ _ off); [done|unfold u64; lia]|]. split; [|split].
  - intros k Hk. rewrite byte_wr_out by auto. by apply H1.
  - intros k Hk. rewrite byte_wr_out by auto. apply H2. intros j Hj Ej.
    destruct Hbn as [_ Hb]. destruct (Hb (dest + j) ltac:(lia)) as [_ Hp]. by apply (Hp k Hk).
  - intros b Hb Hbd. rewrite byte_wr_out by (done || lia). apply H2. intros k Hk ->. lia.
Qed.

(** C14: reading from a file of at most 15 pages.  [file_descriptor_read] answers
    how many bytes there were, at most to the end of the file as its size says;
    when the pages of the file reach that far, exactly those are copied from the
    seek position on, across pages, and the seek position moves past them; the
    file itself is as before.  Where they do not, it is a panic
    ([file_past_pages_panics]).  Interrupts are off afterwards: the function returns
    before it turns them on again. *)
Theorem file_read_correct desc file root page pages sz off dest size s :
  open_file desc file root page pages sz off (mem s) -> 0 <= size ->
  let n := readable sz off size in
  (0 < n -> off + n <= 4096 * pages) -> buffer desc file root page pages dest size ->
  exists m', file_descriptor_read desc dest size s = Ret n (set_mem m' (set_irq false s)) /\
    open_file desc file root page pages sz (off + n) m' /\
    (forall k, 0 <= k < n -> byte m' (dest + k) = byte (mem s) (byte_at page (off + k))) /\
    (forall k, 0 <= k < 4096 * pages -> byte m' (byte_at page k) = byte (mem s) (byte_at page k)) /\
    (forall b, b < dest \/ dest + n <= b -> b < desc + 8 \/ desc + 16 <= b -> byte m' b = byte (mem s) b).
Proof. apply file_read_correct'. Qed.

(** ** Writing *)

Lemma file_write_correct' desc file root page pages sz off src size s :
  open_file desc file root page pages sz off (mem s) -> 0 <= size -> off + size <= 4096 * pages ->
  buffer desc file root page pages src size ->
  exists m', file_descriptor_write desc src size s = Ret size (set_mem m' (set_irq false s)) /\
    open_file desc file root page pages (Z.max sz (off + 2 * size)) (off + size) m' /\
    (forall k, 0 <= k < size -> byte m' (byte_at page (off + k)) = byte (mem s) (src + k)) /\
    (forall k, 0 <= k < 4096 * pages -> k < off \/ off + size <= k -> byte m' (byte_at page k) = byte (mem s) (byte_at page k)) /\
    (forall b, ~ meta desc file root b -> (forall k, 0 <= k < size -> b <> byte_at page (off + k)) -> byte m' b = byte (mem s) b).
Proof.
  intros Hf Hsize Hend Hbuf. set (s0 := set_irq false s).
  assert (open_file desc file root page pages sz off (mem s0)) as Hf0 by done.
  pose proof (off_u64 _ _ _ _ _ _ _ _ Hf) as [Ho1 Ho2]. pose proof (of_cnt _ _ _ _ _ _ _ _ Hf) as Hc.
  pose proof (size_u64 _ _ _ _ _ _ _ _ Hf) as Hu.
  unfold file_descriptor_write, irq_disable. erewrite bind_Ret by reflexivity. fold s0.
  rewrite (bind_Ret _ _ _ _ _ (load_file _ _ _ _ _ _ _ _ Hf0)), (bind_Ret _ _ _ _ _ (load_type _ _ _ _ _ _ _ _ Hf0)).
  cbn [inode_kind_code Z.eqb]. rewrite (bind_Ret _ _ _ _ _ (load_seek _ _ _ _ _ _ _ _ Hf0)).
  destruct (write_bytes _ _ _ _ _ _ _ _ Hf0 src size Hbuf ltac:(lia) ltac:(lia)) as (m & E & H1 & H2).
  rewrite (bind_Ret _ _ _ _ _ E). cbn [offset].
  assert (open_file desc file root page pages sz off m) as Hf1.
  { apply (open_file_same _ _ _ _ _ _ _ _ Hf). intros a Ha. apply H2. intros k Hk ->.
    by apply (byte_at_meta _ _ _ _ _ _ _ _ Hf (off + k) _ ltac:(lia) Ha). }
  rewrite (bind_Ret _ _ _ _ _ (store_seek _ _ _ _ _ _ _ (set_mem m s0) Hf1 (off + size))).
  pose proof (open_file_seek _ _ _ _ _ _ _ _ (off + size) Hf1 ltac:(unfold u64; lia)) as Hf2.
  set (s2 := set_mem (wr m (desc + 8) (off + size)) s0).
  change (set_mem (wr (mem (set_mem m s0)) (desc + 8) (off + size)) (set_mem m s0)) with s2.
  assert (open_file desc file root page pages sz (off + size) (mem s2)) as Hf2' by exact Hf2.
  rewrite (bind_Ret _ _ _ _ _ (load_size _ _ _ _ _ _ _ _ Hf2')), (bind_Ret _ _ _ _ _ (load_seek _ _ _ _ _ _ _ _ Hf2')).
  rewrite (wrap64_small (size + (off + size))) by lia.
  assert (MAX sz (size + (off + size)) = Z.max sz (off + 2 * size)) as -> by (unfold MAX; bool_cases; lia).
  rewrite (bind_Ret _ _ _ _ _ (store_size _ _ _ _ _ _ _ _ Hf2' _)).
  exists (wr (wr m (desc + 8) (off + size)) (file + 16) (Z.max sz (off + 2 * size))). split; [done|].
  destruct (of_desc _ _ _ _ _ _ _ _ Hf) as (_ & _ & Md), (of_inode _ _ _ _ _ _ _ _ Hf) as (_ & _ & Mi).
  assert (forall b, ~ meta desc file root b ->
    byte (wr (wr m (desc + 8) (off + size)) (file + 16) (Z.max sz (off + 2 * size))) b = byte m b) as Hout.
  { intros b Hb. unfold meta in Hb. rewrite byte_wr_out by ((clear -Mi; dlia) || lia).
    apply byte_wr_out; [clear -Md; dlia|lia]. }
  assert (forall k, 0 <= k < 4096 * pages -> ~ meta desc file root (byte_at page k)) as Hmeta.
  { intros k Hk Hm. by apply (byte_at_meta _ _ _ _ _ _ _ _ Hf k _ Hk Hm). }
  split; [apply (open_file_size _ _ _ _ _ sz); [done|unfold u64 in *; lia]|]. split; [|split].
  - intros k Hk. rewrite Hout by (apply Hmeta; lia). by apply H1.
  - intros k Hk Hko. rewrite Hout by (apply Hmeta; lia). apply H2. intros j Hj Ej.
    apply (byte_at_inj _ _ _ _ _ _ _ _ Hf) in Ej; lia.
  - intros b Hb Hbk. rewrite Hout by done. by apply H2.
Qed.

(** Writing into the pages a file has.  [file_descriptor_write] copies the
    [size] bytes of the buffer to the seek position, across pages, answers [size]
    and moves the seek position past them.  The size of the file becomes the
    maximum of the old one and [off + 2 * size]: what was written is counted
    twice. *)
Theorem file_write_correct desc file root page pages sz off src size s :
  open_file desc file root page pages sz off (mem s) -> 0 <= size -> off + size <= 4096 * pages ->
  buffer desc file root page pages src size ->
  exists m', file_descriptor_write desc src size s = Ret size (set_mem m' (set_irq false s)) /\
    open_file desc file root page pages (Z.max sz (off + 2 * size)) (off + size) m' /\
    (forall k, 0 <= k < size -> byte m' (byte_at page (off + k)) = byte (mem s) (src + k)) /\
    (forall k, 0 <= k < 4096 * pages -> k < off \/ off + size <= k -> byte m' (byte_at page k) = byte (mem s) (byte_at page k)) /\
    (forall b, ~ meta desc file root b -> (forall k, 0 <= k < size -> b <> byte_at page (off + k)) -> byte m' b = byte (mem s) b).
Proof. apply file_write_correct'. Qed.

Lemma seek_eq desc file root page pages sz off pos s :
  open_file desc file root page pages sz off (mem s) ->
  file_descriptor_seek desc pos s = Ret tt (set_mem (wr (mem s) (desc + 8) pos) (set_irq true s)).
Proof.
  intros Hf. unfold file_descriptor_seek, irq_disable, irq_enable. erewrite bind_Ret by reflexivity.
  by rewrite (bind_Ret _ _ _ _ _ (store_seek _ _ _ _ _ _ _ (set_irq false s) Hf pos)).
Qed.

(** C11: round trip: what is written to a file, within the pages it already has, at most
    15, is read back from the same position, byte for byte. *)
Theorem file_write_read desc file root page pages sz off src dest size s :
  open_file desc file root page pages sz off (mem s) -> 0 <= size -> off + size <= 4096 * pages ->
  buffer desc file root page pages src size -> buffer desc file root page pages dest size ->
  exists s', (written ← file_descriptor_write desc src size;
              file_descriptor_seek desc off ;;
              read ← file_descriptor_read desc dest size;
              mret (written, read)) s = Ret (size, size) s' /\
    forall k, 0 <= k < size -> byte (mem s') (dest + k) = byte (mem s) (src + k).
Proof.
  intros Hf Hsize Hend Hsrc Hdest.
  destruct (file_write_correct' _ _ _ _ _ _ _ _ _ _ Hf Hsize Hend Hsrc) as (m1 & E1 & Hf1 & W & _).
  rewrite (bind_Ret _ _ _ _ _ E1). set (s1 := set_mem m1 (set_irq false s)) in *.
  pose proof (seek_eq _ _ _ _ _ _ _ off s1 Hf1) as E2. rewrite (bind_Ret _ _ _ _ _ E2). cbv beta.
  pose proof (open_file_seek _ _ _ _ _ _ _ _ off Hf1 (off_u64 _ _ _ _ _ _ _ _ Hf)) as Hf2.
  set (s2 := set_mem (wr (mem s1) (desc + 8) off) (set_irq true s1)) in *.
  assert (readable (Z.max sz (off + 2 * size)) off size = size) as Er by (unfold readable, MIN; bool_cases; lia).
  destruct (file_read_correct' desc file root page pages (Z.max sz (off + 2 * size)) off dest size s2 Hf2 Hsize
    ltac:(rewrite Er; lia) Hdest) as (m2 & E3 & _ & R & _).
  rewrite Er in E3, R. rewrite (bind_Ret _ _ _ _ _ E3). eexists. split; [done|]. intros k Hk.
  cbn [mem set_mem]. rewrite R by done. rewrite <- W by done. unfold s2. cbn [mem set_mem].
  destruct (of_desc _ _ _ _ _ _ _ _ Hf) as (_ & _ & Md). apply byte_wr_out; [clear -Md; dlia|].
  destruct (Z.lt_ge_cases (byte_at page (off + k)) (desc + 8)); [by left|].
  destruct (Z.lt_ge_cases (byte_at page (off + k)) (desc + 8 + 8)); [|by right].
  pose proof (off_u64 _ _ _ _ _ _ _ _ Hf) as [Ho _].
  exfalso. refine (byte_at_meta _ _ _ _ _ _ _ _ Hf (off + k) _ _ _ eq_refl); [lia|]. left. lia.
Qed.

(** ** Past the pages of a file *)

(** The file has no page number [pages], but its size says that there is one. *)
Definition page_missing (root pages sz : Z) (m : gmap Z Z) : Prop :=
  pages < 15 /\ rd m (root + 8 * pages) = 0 /\ 4096 * pages < sz.

Section Missing.
Context (desc file root : Z) (page : Z -> Z) (pages sz off : Z) (s : kstate).
Context (Hf : open_file desc file root page pages sz off (mem s)) (Hmiss : page_missing root pages sz (mem s)).
Context (Hoff : off <= 4096 * pages).

Lemma find_missing m :
  (forall a, meta desc file root a -> byte m a = byte (mem s) a) ->
  find_page_start (4096 * pages) file (set_mem m s) = Panic "READ/WRITE_OUT_OF_BOUNDS_FILE_DESC_UNIMPLENTED" 0 0 0.
Proof.
  intros Hm. pose proof (open_file_same _ _ _ _ _ _ _ s Hf m Hm) as Hf'. destruct Hmiss as (Hp & Hz & Hsz).
  pose proof (of_cnt _ _ _ _ _ _ _ _ Hf) as Hc. pose proof (of_node _ _ _ _ _ _ _ _ Hf) as Hn.
  unfold find_page_start. rewrite (Z.mul_comm 4096), Z.div_mul by lia. rewrite radix_level_small by lia. cbv zeta.
  apply while_panic. cbn [Z.eqb negb]. unfold inode_radix_root, inode_size. change (24 + 8 * 0) with 24.
  rewrite (bind_Ret _ _ _ _ _ (load_field_addr file 152 24 (set_mem m s) (of_inode _ _ _ _ _ _ _ _ Hf') ltac:(lia) ltac:(lia) eq_refl)).
  cbn [mem set_mem]. rewrite (of_root _ _ _ _ _ _ _ _ Hf').
  rewrite (bind_Ret _ _ _ _ _ (radix_get_first root pages (set_mem m s) Hn ltac:(lia))). cbn [mem set_mem].
  assert (rd m (root + 8 * pages) = 0) as ->.
  { rewrite <- Hz. destruct Hn as (_ & _ & Mn). apply rd_bytes; [clear -Mn; dlia|]. intros k Hk. apply Hm. right. right. lia. }
  cbn [Z.eqb negb].
  rewrite (bind_Ret _ _ _ _ _ (load_field_addr file 152 16 (set_mem m s) (of_inode _ _ _ _ _ _ _ _ Hf') ltac:(lia) ltac:(lia) eq_refl)).
  cbn [mem set_mem]. rewrite (of_size _ _ _ _ _ _ _ _ Hf'). by destruct (Z.leb_spec sz (pages * 4096)); [lia|].
Qed.

Lemma read_missing dest n : buffer desc file root page pages dest n -> 4096 * pages < off + n -> off + n < 18446744073709551616 ->
  move_bytes file (fun page_start c =>
        b ← load8 (page_start ⊕ offset c mod 4096); store8 (dest ⊕ other_offset c) b) (mkCursor off n 0) s =
    Panic "READ/WRITE_OUT_OF_BOUNDS_FILE_DESC_UNIMPLENTED" 0 0 0.
Proof.
  intros [Hd Hb] Hn Hu. pose proof (of_cnt _ _ _ _ _ _ _ _ Hf). pose proof (proj1 (off_u64 _ _ _ _ _ _ _ _ Hf)).
  assert (forall m i, i <= n -> moved (mem s) m i (fun k => byte_at page (off + k)) (fun k => dest + k) ->
    forall a, meta desc file root a -> byte m a = byte (mem s) a) as Hsame.
  { intros m i Hi [_ Hm] a Ha. apply Hm. intros k Hk ->. destruct (Hb (dest + k) ltac:(lia)) as [Hmeta _]. by apply Hmeta. }
  apply (move_bytes_missing file off (4096 * pages - off) page (fun k => byte_at page (off + k)) (fun k => dest + k)); try lia.
  - intros j k Hj Hk E. destruct (Hb (dest + k) ltac:(lia)) as [_ H']. apply (H' (off + j)); [lia|done].
  - intros m i k Hi Hk Hm. apply (find_page_eq desc file root page pages sz off); [|lia].
    apply (open_file_same _ _ _ _ _ _ _ _ Hf). apply (Hsame m i); [lia|done].
  - intros m k left Hk. cbn [offset other_offset]. destruct (page_byte _ _ _ _ _ _ _ _ Hf (off + k) ltac:(lia)) as (K & R & E).
    rewrite (bind_Ret _ _ _ _ _ (load8_byte _ _ _ _ K R)), E. by rewrite (store8_byte dest n k _ _ Hd ltac:(lia)).
  - replace (off + (4096 * pages - off)) with (pages * 4096) by lia. apply Z_mod_mult.
  - intros m Hm. replace (off + (4096 * pages - off)) with (4096 * pages) by lia. apply find_missing, (Hsame m (4096 * pages - off) ltac:(lia) Hm).
Qed.

Lemma write_missing src n : buffer desc file root page pages src n -> 4096 * pages < off + n -> off + n < 18446744073709551616 ->
  move_bytes file (fun page_start c =>
        b ← load8 (src ⊕ other_offset c); store8 (page_start ⊕ offset c mod 4096) b) (mkCursor off n 0) s =
    Panic "READ/WRITE_OUT_OF_BOUNDS_FILE_DESC_UNIMPLENTED" 0 0 0.
Proof.
  intros [Hd Hb] Hn Hu. pose proof (of_cnt _ _ _ _ _ _ _ _ Hf). pose proof (proj1 (off_u64 _ _ _ _ _ _ _ _ Hf)).
  assert (forall m i, i <= 4096 * pages - off -> moved (mem s) m i (fun k => src + k) (fun k => byte_at page (off + k)) ->
    forall a, meta desc file root a -> byte m a = byte (mem s) a) as Hsame.
  { intros m i Hi [_ Hm] a Ha. apply Hm. intros k Hk ->. by apply (byte_at_meta _ _ _ _ _ _ _ _ Hf (off + k) _ ltac:(lia) Ha). }
  apply (move_bytes_missing file off (4096 * pages - off) page (fun k => src + k) (fun k => byte_at page (off + k))); try lia.
  - intros j k Hj Hk E. apply (byte_at_inj _ _ _ _ _ _ _ _ Hf) in E; lia.
  - intros j k Hj Hk E. destruct (Hb (src + j) ltac:(lia)) as [_ H']. by apply (H' (off + k)); [lia|].
  - intros m i k Hi Hk Hm. apply (find_page_eq desc file root page pages sz off); [|lia].
    apply (open_file_same _ _ _ _ _ _ _ _ Hf). apply (Hsame m i); [lia|done].
  - intros m k left Hk. cbn [offset other_offset]. destruct (page_byte _ _ _ _ _ _ _ _ Hf (off + k) ltac:(lia)) as (K & R & E).
    rewrite (bind_Ret _ _ _ _ _ (load8_byte src n k _ Hd ltac:(lia))), (store8_byte _ _ _ _ _ K R), E. done.
  - replace (off + (4096 * pages - off)) with (pages * 4096) by lia. apply Z_mod_mult.
  - intros m Hm. replace (off + (4096 * pages - off)) with (4096 * pages) by lia. apply find_missing, (Hsame m (4096 * pages - off) ltac:(lia) Hm).
Qed.
End Missing.


(** ** Witnesses: a file of 5000 bytes in two pages, opened at 4094 *)
Definition demo_desc : Z := 0xffffffc080000000.
Definition demo_file : Z := demo_desc + 64.
Definition demo_node : Z := demo_desc + 256.
Definition demo_page (k : Z) : Z := demo_desc + 4096 * (k + 1).
Definition demo_buf : Z := demo_desc + 12288.
Definition demo_open : kstate :=
  set_mem (wr (wr (wr (wr (wr (wr (wr (wr ∅ demo_desc demo_file) (demo_desc + 8) 4094) (demo_file + 16) 5000)
    (demo_file + 24) demo_node) demo_node (demo_page 0)) (demo_node + 8) (demo_page 1))
    (demo_page 0 + 4088) 0x0201000000000000) (demo_page 1) 0x0403) zero_state.

Lemma demo_open_file : open_file demo_desc demo_file demo_node demo_page 2 5000 4094 (mem demo_open).
Proof.
  split; [unfold kblock; zdone|unfold kblock; zdone|unfold kblock; zdone
    |vm_compute; reflexivity|vm_compute; reflexivity|vm_compute; reflexivity|vm_compute; reflexivity|vm_compute; reflexivity|zdone| | | |].
  - intros k Hk. assert (k = 0 \/ k = 1) as [->| ->] by lia; (split; [vm_compute; reflexivity|unfold kblock; zdone]).
  - intros k a Hk Ha. unfold meta, demo_page, demo_file, demo_node in *. lia.
  - intros j k Hj Hk Hne. unfold disjoint, demo_page. lia.
  - unfold disjoint. zdone.
Qed.

Lemma demo_buffer a n : demo_buf <= a -> 0 <= n -> a + n <= demo_buf + 8192 ->
  buffer demo_desc demo_file demo_node demo_page 2 a n.
Proof.
  intros Ha Hn Hb. unfold demo_buf, demo_desc in *. split.
  - split; unfold KERNEL_VMA_START; lia.
  - intros b Hb'. unfold meta, demo_file, demo_node, byte_at, demo_page, demo_desc. split; [lia|]. intros k Hk. dlia.
Qed.

Lemma file_read_correct_witness :
  exists m', file_descriptor_read demo_desc demo_buf 4 demo_open = Ret 4 (set_mem m' (set_irq false demo_open)) /\
    byte m' (demo_buf + 1) = 2 /\ byte m' (demo_buf + 2) = 3.
Proof.
  destruct (file_read_correct demo_desc demo_file demo_node demo_page 2 5000 4094 demo_buf 4 demo_open
    demo_open_file ltac:(lia) ltac:(intros _; zdone) (demo_buffer demo_buf 4 ltac:(lia) ltac:(lia) ltac:(lia)))
    as (m' & E & _ & R & _).
  exists m'. split; [exact E|]. split; [exact (R 1 ltac:(zdone))|exact (R 2 ltac:(zdone))].
Defined.

Lemma file_write_correct_witness :
  exists m', file_descriptor_write demo_desc demo_buf 1000 demo_open = Ret 1000 (set_mem m' (set_irq false demo_open)) /\
    rd m' (demo_file + 16) = 6094.
Proof.
  destruct (file_write_correct demo_desc demo_file demo_node demo_page 2 5000 4094 demo_buf 1000 demo_open
    demo_open_file ltac:(lia) ltac:(lia) (demo_buffer demo_buf 1000 ltac:(lia) ltac:(lia) ltac:(lia)))
    as (m' & E & Hf & _).
  exists m'. split; [exact E|]. exact (of_size _ _ _ _ _ _ _ _ Hf).
Defined.

Lemma file_write_read_witness :
  exists s', (written ← file_descriptor_write demo_desc demo_buf 4;
              file_descriptor_seek demo_desc 4094 ;;
              read ← file_descriptor_read demo_desc (demo_buf + 4096) 4;
              mret (written, read)) demo_open = Ret (4, 4) s'.
Proof.
  destruct (file_write_read demo_desc demo_file demo_node demo_page 2 5000 4094 demo_buf (demo_buf + 4096) 4 demo_open
    demo_open_file ltac:(lia) ltac:(lia) (demo_buffer demo_buf 4 ltac:(lia) ltac:(lia) ltac:(lia))
    (demo_buffer (demo_buf + 4096) 4 ltac:(lia) ltac:(lia) ltac:(lia))) as (s' & E & _).
  exists s'. exact E.
Defined.

(** One page, 3000 bytes written, and the size that leaves. *)
Definition demo_written : kstate :=
  set_mem (wr (wr (wr (wr (wr ∅ demo_desc demo_file) (demo_desc + 8) 3000) (demo_file + 16) 6000)
    (demo_file + 24) demo_node) demo_node (demo_page 0)) zero_state.

