(* ===== verification/Dentry.v ===== *)
(** * Directories ([kernel/file_system/dentry.c], [file_open_path])

    A folder keeps the addresses of its children in a sectioned list. *)
From S2P Require Import Prelude Machine Strings Objects Uart Cpu Pager Allocator List Inode.

(** ** The code *)

Inductive dentry_kind := DENTRY_FOLDER | DENTRY_OTHER.
Definition dentry_kind_code (k : dentry_kind) : Z := match k with DENTRY_FOLDER => 0 | DENTRY_OTHER => 1 end.

Definition cleanup_dentry (item : Z) : M unit :=
  parent ← load64 (dentry_parent item);
  when (negb (parent =? 0)) (add32 (dentry_link_refs parent) (-1)) ;;
  mem_free item.

Definition dentry_inc_link (entry : Z) : M unit := add32 (dentry_link_refs entry) 1.

Definition dentry_drop (entry : Z) : M unit :=
  link ← load32 (dentry_link_refs entry);
  if negb (link =? 0) then skip else
  open ← load32 (dentry_open_refs entry);
  when (open =? 0) (cleanup_dentry entry).

Definition dentry_dec_link (entry : Z) : M unit := add32 (dentry_link_refs entry) (-1) ;; dentry_drop entry.
Definition dentry_inc_open_cnt (entry : Z) : M unit := add32 (dentry_link_refs entry) 1.
Definition dentry_dec_open_cnt (entry : Z) : M unit := add32 (dentry_link_refs entry) (-1) ;; dentry_drop entry.

(** A loop over the children: [body iter child] after [list_iter_next]. *)
Definition for_children {R} (item : Z) (body : list_iter -> Z -> M (option R)) : M (option R) :=
  iter ← list_iter_create (dentry_union item);
  while_true (fun iter =>
    item_cnt ← load64 (elem64 (cur_list iter) 2);
    if negb (cur_upto iter <? item_cnt) then mret (inr None) else
    '(ptr, iter) ← list_iter_next iter;
    child ← load64 ptr;
    r ← body iter child;
    mret (match r with Some v => inr (Some v) | None => inl iter end)) iter.

Definition get_child (item child_name : Z) : M Z :=
  lits ← gets literals;
  c ← strcmp child_name (lit_dot lits);
  if c =? 0 then mret item else
  c ← strcmp child_name (lit_dotdot lits);
  if c =? 0 then load64 (dentry_parent item) else
  r ← for_children item (fun _ child =>
    c ← strcmp (dentry_name child) child_name;
    mret (if c =? 0 then Some child else None));
  mret (default 0 r).

Definition remove_child (child child_name : Z) : M unit :=
  r ← for_children child (fun iter child =>
    c ← strcmp (dentry_name child) child_name;
    if c =? 1 then
      dentry_dec_link child ;;
      list_remove (dentry_union child) (cur_upto iter) ;;
      mret (Some tt)
    else mret None);
  match r with Some _ => skip | None => PANIC "DENTRY_FAILED_TO_REMOVE_CHILD" child 0 0 end.

Definition insert_child (folder dentry_item : Z) : M unit :=
  item ← gets (fun s => loc_item (locals s));
  store64 item dentry_item ;;
  dentry_inc_link dentry_item ;;
  list_append (dentry_union folder) item.

Definition SLASH : Z := 47.

Definition dentry_get_path_step (filename : Z) '((cur_char, cur_node) : Z * Z) : M (Z * Z + Z) :=
  c ← load8 cur_char;
  if c =? 0 then mret (inr cur_node) else
  slash ← strchr cur_char SLASH;
  next_slash ← (if slash =? 0 then len ← strlen cur_char; mret (cur_char ⊕ len) else mret slash);
  let name_size := next_slash ⊖ cur_char in
  if 256 <? name_size then mret (inr 0) else
  strscpy filename cur_char 257 ;;
  cur_node ← get_child cur_node filename;
  if cur_node =? 0 then uart_println_lit "no child by name" ;; mret (inr 0)
  else mret (inl (next_slash ⊕ 1, cur_node)).

Definition dentry_get_path (cwd path : Z) : M Z :=
  filename ← gets (fun s => loc_filename (locals s));
  first ← load8 path;
  root ← gets root_dentry_folder;
  while_true (dentry_get_path_step filename) (if first =? SLASH then (path ⊕ 1, root) else (path, cwd)).

Definition create_dentry (parent name file : Z) : M Z :=
  when (negb (parent =? 0)) (add32 (dentry_link_refs parent) 1) ;;
  folder ← mem_alloc sizeof_dentry;
  store32 (dentry_link_refs folder) 0 ;;
  store32 (dentry_open_refs folder) 0 ;;
  (if file =? 0 then
     store32 (dentry_type folder) (dentry_kind_code DENTRY_FOLDER) ;;
     list_create (dentry_union folder) 8
   else
     inode_inc_link file ;;
     store32 (dentry_type folder) (dentry_kind_code DENTRY_OTHER) ;;
     store64 (dentry_union folder) file) ;;
  strscpy (dentry_name folder) name 256 ;;
  when (negb (parent =? 0)) (insert_child parent folder) ;;
  mret folder.

Definition init_dentry : M unit :=
  lits ← gets literals;
  folder ← create_dentry 0 (lit_empty lits) 0;
  store32 (dentry_link_refs folder) 100 ;;
  modify (set_root_dentry folder) ;;
  len ← strlen (lit_example_text lits);
  let size := len ⊕ 1 in
  example_file ← create_blank_inode_file;
  inode_file_debug_inject_data (lit_example_text lits) size example_file ;;
  root ← gets root_dentry_folder;
  _ ← create_dentry root (lit_example_name lits) example_file;
  skip.

(** [file_open_path] of file_descriptor.c. *)
Definition file_open_path (cwd path : Z) : M Z :=
  irq_disable ;;
  dentry ← dentry_get_path cwd path;
  if dentry =? 0 then mret 0 else
  type ← load32 (dentry_type dentry);
  if negb (type =? dentry_kind_code DENTRY_OTHER) then mret 0 else
  file ← load64 (dentry_union dentry);
  if file =? 0 then mret 0 else
  file_desc ← file_descriptor_open file;
  irq_enable ;;
  mret file_desc.

(** ** Names in a folder

    A folder with children: the list of them, and what the look-up meets after
    the first one.  [list_iter_next] does not move on in the section but moves the
    list by the size of the struct: what the second round takes for the number of
    children is the word after the folder, which a fresh block has as 0. *)
Record folder (d section cnt : Z) (s : kstate) : Prop := {
  fo_block : kblock d 320;
  fo_list : short_list (d + 264) section cnt 8 s;
  fo_some : 0 < cnt;
  fo_after : rd (mem s) (d + 312) = 0;
}.

(** The child [child] called [name] is the first one. *)
Record first_child (section child : Z) (name : list Z) (s : kstate) : Prop := {
  fi_entry : rd (mem s) (section + 8) = child;
  fi_name : cstring (mem s) child name;
}.

Definition DOT : list Z := [46].
Definition DOTDOT : list Z := [46; 46].

Lemma cstring_same m m' a l :
  cstring m a l -> (forall b, a <= b < a + Z.of_nat (length l) + 1 -> byte m' b = byte m b) -> cstring m' a l.
Proof.
  intros [H1 H2 H3] H. split; [done| |rewrite H by lia; done]. intros k c Hk. apply lookup_lt_Some in Hk as Hlt.
  rewrite H by lia. by apply H2.
Qed.

Section Lookup.
Context (d section cnt child : Z) (name : list Z) (s : kstate).
Context (Hd : folder d section cnt s) (Hc : first_child section child name s).
Context (Hdot : cstring (mem s) (lit_dot (literals s)) DOT) (Hdotdot : cstring (mem s) (lit_dotdot (literals s)) DOTDOT).

Lemma dentry_name_eq : dentry_name child = child.
Proof.
  destruct (cs_mapped _ _ _ (fi_name _ _ _ _ Hc)) as [H1 H2]. unfold dentry_name, KERNEL_VMA_START in *.
  rewrite Z.add_0_r. apply wrap64_small. lia.
Qed.

Lemma folder_field k : 0 <= k < 320 -> d ⊕ k = d + k.
Proof. intros Hk. destruct (fo_block _ _ _ _ Hd) as (H1 & H2 & _). unfold KERNEL_VMA_START in H1. apply wrap64_small. lia. Qed.

Lemma list_iter_eq iter :
  cur_list iter = d + 264 -> cur_upto iter = 0 -> section_upto iter = section -> max_iter_per_section iter = 511 ->
  exists next, list_iter_next iter s = Ret (section + 8, mkIter (d + 296) 0 next 511) s.
Proof.
  destruct iter as [l u sec mx]. cbn [cur_list cur_upto section_upto max_iter_per_section]. intros -> -> -> ->.
  pose proof (fo_list _ _ _ _ Hd) as Hl.
  destruct (list_elem _ _ _ _ _ Hl 0 ltac:(lia)) as [E0 V0]. destruct (list_elem _ _ _ _ _ Hl 3 ltac:(lia)) as [E3 V3].
  unfold list_iter_next. cbn [cur_list cur_upto section_upto max_iter_per_section Z.eqb]. rewrite Z.mod_0_l by done.
  rewrite E0, (bind_Ret _ _ _ _ _ (load64_eq _ _ V0)), (sl_first _ _ _ _ _ Hl), E3,
    (bind_Ret _ _ _ _ _ (load64_eq _ _ V3)), (sl_size _ _ _ _ _ Hl).
  pose proof (sl_section _ _ _ _ _ Hl) as Hk. destruct (kblock_elem section 512 0 Hk ltac:(lia)) as [Es Vs].
  rewrite (bind_Ret _ _ _ _ _ (load64_eq _ _ Vs)). eexists. cbn [mret M_ret Z.eqb].
  destruct (fo_block _ _ _ _ Hd) as (D1 & D2 & _). destruct Hk as (K1 & K2 & _).
  unfold KERNEL_VMA_START, KERNEL_PAGE_SIZE, sizeof_list in *. change (8 ⊗ 0) with 0. rewrite Z.add_0_r.
  rewrite (wrap64_small (section + 8)) by lia. rewrite wrap64_small by lia. rewrite (wrap64_small (d + 264 + 32)) by lia.
  by replace (d + 264 + 32) with (d + 296) by lia.
Qed.

(** What [get_child] finds: the folder, its parent, the first child, or none. *)
Definition child_named (l : list Z) : Z :=
  if decide (l = DOT) then d else if decide (l = DOTDOT) then rd (mem s) (d + 304) else
  if decide (l = name) then child else 0.

Lemma get_child_eq child_name l : cstring (mem s) child_name l -> get_child d child_name s = Ret (child_named l) s.
Proof.
  intros Hn. unfold get_child, child_named. erewrite bind_Ret by reflexivity.
  rewrite (bind_Ret _ _ _ _ _ (strcmp_eq _ _ _ _ _ Hn Hdot)). pose proof (str_compare_eq l DOT) as Q1.
  destruct (Z.eqb_spec (str_compare l DOT) 0) as [E1|E1].
  { rewrite decide_True by (by apply Q1). done. }
  rewrite decide_False by (intros E; by apply E1, Q1). rewrite (bind_Ret _ _ _ _ _ (strcmp_eq _ _ _ _ _ Hn Hdotdot)).
  pose proof (str_compare_eq l DOTDOT) as Q2. destruct (Z.eqb_spec (str_compare l DOTDOT) 0) as [E2|E2].
  { rewrite decide_True by (by apply Q2). unfold dentry_parent. by apply (load_field_addr d 320 304 s (fo_block _ _ _ _ Hd)). }
  rewrite decide_False by (intros E; by apply E2, Q2). pose proof (fo_list _ _ _ _ Hd) as Hl.
  assert (for_children d (fun _ child => c ← strcmp (dentry_name child) child_name; mret (if c =? 0 then Some child else None)) s =
    Ret (if decide (l = name) then Some child else None) s) as Ef; [|rewrite (bind_Ret _ _ _ _ _ Ef); by destruct (decide (l = name))].
  unfold for_children, list_iter_create, dentry_union. rewrite folder_field by lia.
  destruct (list_elem _ _ _ _ _ Hl 0 ltac:(lia)) as [E0 V0]. destruct (list_elem _ _ _ _ _ Hl 2 ltac:(lia)) as [E2' V2].
  rewrite E0, (bind_Ret _ _ (mkIter (d + 264) 0 section 511) s s).
  2: { rewrite (bind_Ret _ _ _ _ _ (load64_eq _ _ V0)), (sl_first _ _ _ _ _ Hl),
         (bind_Ret _ _ _ _ _ (section_max_eq _ _ _ _ _ Hl)). done. }
  destruct (list_iter_eq (mkIter (d + 264) 0 section 511) eq_refl eq_refl eq_refl eq_refl) as (next & En).
  set (body := fun iter : list_iter => _).
  assert (body (mkIter (d + 264) 0 section 511) s =
    Ret (if decide (l = name) then inr (Some child) else inl (mkIter (d + 296) 0 next 511)) s) as Eb1.
  { unfold body. cbn [cur_list cur_upto]. rewrite E2', (bind_Ret _ _ _ _ _ (load64_eq _ _ V2)), (sl_cnt _ _ _ _ _ Hl).
    pose proof (fo_some _ _ _ _ Hd). destruct (Z.ltb_spec 0 cnt); [|lia]. cbn [negb]. rewrite (bind_Ret _ _ _ _ _ En).
    pose proof (kblock_elem section 512 1 (sl_section _ _ _ _ _ Hl) ltac:(lia)) as [Ee Ve]. rewrite Ee in Ve.
    rewrite (bind_Ret _ _ _ _ _ (load64_eq (section + 8) s Ve)), (fi_entry _ _ _ _ Hc), dentry_name_eq, bind_assoc.
    rewrite (bind_Ret _ _ _ _ _ (strcmp_eq _ _ _ _ _ (fi_name _ _ _ _ Hc) Hn)). cbn [mret M_ret mbind M_bind].
    pose proof (str_compare_eq name l) as Q. destruct (Z.eqb_spec (str_compare name l) 0) as [E|E].
    - rewrite decide_True by (symmetry; by apply Q). done.
    - rewrite decide_False by (intros ->; by apply E, Q). done. }
  destruct (decide (l = name)) as [->|Hne]; [by apply while_exit|].
  assert (body (mkIter (d + 296) 0 next 511) s = Ret (inr None) s) as Eb2.
  { unfold body. cbn [cur_list cur_upto]. assert (elem64 (d + 296) 2 = d + 312 /\ valid64 (d + 312)) as [E V].
    { pose proof (kblock_elem d 40 39 (fo_block _ _ _ _ Hd) ltac:(lia)) as [Ee Ve]. rewrite Ee in Ve.
      replace (d + 8 * 39) with (d + 312) in Ve by lia. split; [|done].
      destruct (fo_block _ _ _ _ Hd) as (D1 & D2 & _). unfold KERNEL_VMA_START in *.
      unfold elem64. change (8 ⊗ 2) with 16. rewrite wrap64_small by lia. lia. }
    by rewrite E, (bind_Ret _ _ _ _ _ (load64_eq _ _ V)), (fo_after _ _ _ _ Hd). }
  rewrite (while_second _ _ _ _ _ Eb1); [by apply while_exit|]. unfold ends. by rewrite Eb2.
Qed.
End Lookup.

(** A name with a slash in it is no child's. *)
Lemma no_slash d child name s l : SLASH ∉ name -> SLASH ∈ l -> child_named d child name s l = 0.
Proof.
  intros Hname Hin. unfold child_named, SLASH in *.
  rewrite !decide_False; [done| | |]; intros ->; [by apply Hname|..]; unfold DOT, DOTDOT in Hin; set_solver.
Qed.

(** ** Paths *)

(** The characters of a path start at [q], a second 0 follows the terminator, and
    the buffer for the names is apart from all that is read. *)
Record path_ready (d section child q : Z) (name l : list Z) (s : kstate) : Prop := {
  pr_string : cstring (mem s) q l;
  pr_kbytes : kbytes q (Z.of_nat (length l) + 2);
  pr_after : byte (mem s) (q + Z.of_nat (length l) + 1) = 0;
  pr_some : l <> [];
  pr_short : Z.of_nat (length l) <= 256;
  pr_buffer : kbytes (loc_filename (locals s)) 257;
  pr_apart : Forall (fun '(a, n) => apart (loc_filename (locals s)) 257 a n)
    [(d, 320); (section, 16); (child, Z.of_nat (length name) + 1); (lit_dot (literals s), 2); (lit_dotdot (literals s), 3);
     (q, Z.of_nat (length l) + 2)];
}.

Section Path.
Context (d section cnt child : Z) (name l : list Z) (q : Z) (s : kstate).
Context (Hd : folder d section cnt s) (Hc : first_child section child name s).
Context (Hdot : cstring (mem s) (lit_dot (literals s)) DOT) (Hdotdot : cstring (mem s) (lit_dotdot (literals s)) DOTDOT).
Context (Hname : SLASH ∉ name) (Hp : path_ready d section child q name l s).
Local Abbreviation fn := (loc_filename (locals s)).

Section Copied.
Context (m : gmap Z Z) (Hm : forall b, b < fn \/ fn + 257 <= b -> byte m b = byte (mem s) b).

Lemma path_same a n b :
  (a, n) ∈ [(d, 320); (section, 16); (child, Z.of_nat (length name) + 1); (lit_dot (literals s), 2); (lit_dotdot (literals s), 3);
     (q, Z.of_nat (length l) + 2)] -> a <= b < a + n -> byte m b = byte (mem s) b.
Proof.
  intros Hin Hb. apply Hm. pose proof (pr_apart _ _ _ _ _ _ _ Hp) as Ha. rewrite list.Forall_forall in Ha.
  specialize (Ha _ Hin). cbn in Ha. unfold apart in Ha. lia.
Qed.

Lemma path_same_rd a n k :
  (a, n) ∈ [(d, 320); (section, 16); (child, Z.of_nat (length name) + 1); (lit_dot (literals s), 2); (lit_dotdot (literals s), 3);
     (q, Z.of_nat (length l) + 2)] -> a mod 8 = 0 -> 0 <= k -> k mod 8 = 0 -> k + 8 <= n -> rd m (a + k) = rd (mem s) (a + k).
Proof.
  intros Hin Ha Hk Hk8 Hn. apply rd_bytes; [clear -Ha Hk8; dlia|]. intros j Hj. apply (path_same a n); [done|lia].
Qed.

Lemma folder_copied : folder d section cnt (set_mem m s) /\ rd m (d + 304) = rd (mem s) (d + 304).
Proof.
  pose proof (fo_block _ _ _ _ Hd) as (B1 & B2 & B3).
  assert (forall k, 0 <= k -> k mod 8 = 0 -> k + 8 <= 320 -> rd m (d + k) = rd (mem s) (d + k)) as H.
  { intros k Hk H8 Hn. apply (path_same_rd d 320); [constructor|done..]. }
  split; [|by apply H]. split; [done| |apply (fo_some _ _ _ _ Hd)|cbn [mem set_mem]; rewrite H by done; apply (fo_after _ _ _ _ Hd)].
  apply (list_elem_same _ _ _ _ _ (fo_list _ _ _ _ Hd)). intros k Hk. cbn [mem set_mem].
  rewrite <- Z.add_assoc. apply H; [lia|clear; dlia|lia].
Qed.

Lemma child_copied : first_child section child name (set_mem m s).
Proof.
  destruct Hc as [He Hn]. split; cbn [mem set_mem].
  - rewrite <- He. destruct (sl_section _ _ _ _ _ (fo_list _ _ _ _ Hd)) as (_ & _ & H8).
    apply (path_same_rd section 16); [repeat constructor|done..].
  - apply (cstring_same (mem s)); [done|]. intros b Hb. apply (path_same child (Z.of_nat (length name) + 1)); [repeat constructor|lia].
Qed.

Lemma dots_copied : cstring m (lit_dot (literals s)) DOT /\ cstring m (lit_dotdot (literals s)) DOTDOT.
Proof.
  split; (apply (cstring_same (mem s)); [done|]); intros b Hb; cbn in Hb.
  - apply (path_same (lit_dot (literals s)) 2); [repeat constructor|lia].
  - apply (path_same (lit_dotdot (literals s)) 3); [repeat constructor|lia].
Qed.
End Copied.

(** Where the loop takes the name to end. *)
Definition name_end : Z := match list_find (fun x => x = SLASH) l with Some (k, _) => Z.of_nat k | None => Z.of_nat (length l) end.

Lemma name_end_range : 0 <= name_end <= Z.of_nat (length l) /\ (SLASH ∉ l -> name_end = Z.of_nat (length l)).
Proof.
  unfold name_end. destruct (list_find _ l) as [[k x]|] eqn:E; [|split; [lia|done]].
  apply list_find_Some in E as (E & -> & _). apply lookup_lt_Some in E as Hlt. split; [lia|].
  intros []. by eapply list_elem_of_lookup_2.
Qed.

Lemma next_slash_eq :
  (slash ← strchr q SLASH; (if slash =? 0 then len ← strlen q; mret (q ⊕ len) else mret slash)) s = Ret (q + name_end) s.
Proof.
  pose proof (pr_string _ _ _ _ _ _ _ Hp) as Hs. destruct (pr_kbytes _ _ _ _ _ _ _ Hp) as [K1 K2].
  rewrite (bind_Ret _ _ _ _ _ (strchr_correct _ _ _ SLASH Hs)). unfold name_end. unfold KERNEL_VMA_START in K1.
  destruct (list_find _ l) as [[k x]|].
  - by destruct (Z.eqb_spec (q + Z.of_nat k) 0); [lia|].
  - cbn [Z.eqb]. rewrite (bind_Ret _ _ _ _ _ (strlen_correct _ _ _ Hs)). cbn [mret M_ret]. by rewrite wrap64_small by lia.
Qed.

Lemma path_found : exists s', while_true (dentry_get_path_step fn) (q, d) s = Ret (child_named d child name s l) s' /\
  (forall b, b < fn \/ fn + 257 <= b -> byte (mem s') b = byte (mem s) b).
Proof.
  destruct (pr_kbytes _ _ _ _ _ _ _ Hp) as [K1 K2]. pose proof (pr_short _ _ _ _ _ _ _ Hp) as Hshort.
  pose proof (pr_string _ _ _ _ _ _ _ Hp) as Hs. destruct name_end_range as [N1 N2]. unfold KERNEL_VMA_START in K1.
  destruct (strscpy_copies fn q 257 l s Hs (pr_buffer _ _ _ _ _ _ _ Hp) ltac:(lia)) as (m & Em & Cm & Hm).
  { pose proof (pr_apart _ _ _ _ _ _ _ Hp) as Ha. rewrite list.Forall_forall in Ha.
    specialize (Ha (q, Z.of_nat (length l) + 2) ltac:(repeat constructor)). cbn in Ha. unfold apart in Ha. lia. }
  rewrite take_ge in Cm by lia.
  destruct (folder_copied m Hm) as [Fm Pm]. destruct (dots_copied m Hm) as [D1 D2].
  pose proof (get_child_eq d section cnt child name (set_mem m s) Fm (child_copied m Hm) D1 D2 fn l Cm) as Eg.
  assert (child_named d child name (set_mem m s) l = child_named d child name s l) as Ec by (unfold child_named; cbn [mem set_mem]; by rewrite Pm).
  rewrite Ec in Eg. set (r := child_named d child name s l) in *.
  assert (dentry_get_path_step fn (q, d) s = (if r =? 0 then uart_println_lit "no child by name" ;; mret (inr 0) else mret (inl (q + name_end + 1, r)))
    (set_mem m s)) as E1.
  { unfold dentry_get_path_step. pose proof (cstring_load _ _ _ Hs [] l s eq_refl eq_refl) as El. cbn [length] in El.
    rewrite Z.add_0_r, wrap64_small in El by lia.
    assert (exists c r', l = c :: r') as (c & r' & El').
    { destruct l as [|c r']; [by destruct (pr_some _ _ _ _ _ _ _ Hp)|by eexists _, _]. }
    pose proof (cstring_nonzero _ _ _ Hs [] c r' El') as Hc0. rewrite El' in El.
    rewrite (bind_Ret _ _ _ _ _ El). destruct (Z.eqb_spec c 0); [lia|].
    rewrite <- bind_assoc, (bind_Ret _ _ _ _ _ next_slash_eq). cbv zeta.
    replace ((q + name_end) ⊖ q) with name_end by (rewrite wrap64_small; lia).
    destruct (Z.ltb_spec 256 name_end); [lia|]. rewrite (bind_Ret _ _ _ _ _ Em), (bind_Ret _ _ _ _ _ Eg).
    rewrite wrap64_small by lia. done. }
  destruct (Z.eqb_spec r 0) as [Er|Er].
  - destruct (prints_line "no child by name" (set_mem m s)) as [t Et].
    rewrite (bind_Ret _ _ _ _ _ Et) in E1. eexists. split; [rewrite Er; by apply while_exit|]. exact Hm.
  - exists (set_mem m s). split; [|exact Hm].
    assert (SLASH ∉ l) as Hns by (intros Hin; apply Er; by apply no_slash).
    rewrite N2 in E1 by done. assert (dentry_get_path_step fn (q + Z.of_nat (length l) + 1, r) (set_mem m s) = Ret (inr r) (set_mem m s)) as E2.
    { unfold dentry_get_path_step. pose proof (load8_byte q _ (Z.of_nat (length l) + 1) (set_mem m s) (pr_kbytes _ _ _ _ _ _ _ Hp) ltac:(lia)) as El.
      rewrite wrap64_small, Z.add_assoc in El by lia. rewrite (bind_Ret _ _ _ _ _ El). cbn [mem set_mem].
      rewrite (path_same m Hm q (Z.of_nat (length l) + 2)) by (repeat constructor || lia).
      rewrite (pr_after _ _ _ _ _ _ _ Hp). done. }
    rewrite (while_second _ _ _ _ _ E1); [by apply while_exit|]. unfold ends. by rewrite E2.
Qed.
End Path.

(** C37: looking up a path.  In a folder with children, a path that is one
    name, absolute or from the current folder, leads to the folder itself for
    [.], to its parent for [..], to the first child when it has that name, and to
    nothing for any other name, also one that a later child has: the iterator
    never gets past the first.  A path of more than one name leads nowhere,
    because the rest of the path is taken for part of the first name.  Nothing but
    the buffer for the name is written.  Two things the code does not see to are
    supposed: the byte after the terminator of the path is 0 too ([pr_after]), since the
    loop goes on one character past the terminator; and so is the word after the
    struct of the folder ([fo_after]), where [list_iter_next], which moves the pointer to
    the list and not the position in it, makes [get_child] look for the number of children
    after the first. *)
Theorem dentry_get_path_finds d section cnt child name l q cwd path (absolute : bool) s :
  folder d section cnt s -> first_child section child name s -> SLASH ∉ name ->
  cstring (mem s) (lit_dot (literals s)) DOT -> cstring (mem s) (lit_dotdot (literals s)) DOTDOT ->
  path_ready d section child q name l s ->
  (if absolute then cstring (mem s) path (SLASH :: l) /\ q = path + 1 /\ root_dentry_folder s = d
   else q = path /\ cwd = d /\ head l <> Some SLASH) ->
  (exists s', dentry_get_path cwd path s = Ret (child_named d child name s l) s' /\
     forall b, b < loc_filename (locals s) \/ loc_filename (locals s) + 257 <= b -> byte (mem s') b = byte (mem s) b) /\
  (SLASH ∈ l -> child_named d child name s l = 0).
Proof.
  intros Hd Hc Hname Hdot Hdotdot Hp Habs. split; [|by apply no_slash].
  destruct (path_found d section cnt child name l q s Hd Hc Hdot Hdotdot Hname Hp) as (s' & E & Hb).
  exists s'. split; [|exact Hb]. unfold dentry_get_path. erewrite bind_Ret by reflexivity.
  pose proof (pr_string _ _ _ _ _ _ _ Hp) as Hq. destruct absolute.
  - destruct Habs as (Hs & -> & <-). pose proof (cstring_load _ _ _ Hs [] _ s eq_refl eq_refl) as El.
    destruct (cs_mapped _ _ _ Hs) as [K1 K2]. cbn [length] in *. unfold KERNEL_VMA_START in K1.
    rewrite Z.add_0_r, wrap64_small in El by lia. rewrite (bind_Ret _ _ _ _ _ El). erewrite bind_Ret by reflexivity.
    rewrite Z.eqb_refl, wrap64_small by lia. exact E.
  - destruct Habs as (<- & -> & Hh). pose proof (cstring_load _ _ _ Hq [] _ s eq_refl eq_refl) as El.
    destruct (cs_mapped _ _ _ Hq) as [K1 K2]. cbn [length] in *. unfold KERNEL_VMA_START in K1.
    rewrite Z.add_0_r, wrap64_small in El by lia. rewrite (bind_Ret _ _ _ _ _ El). erewrite bind_Ret by reflexivity.
    destruct l as [|c l']; [by destruct (pr_some _ _ _ _ _ _ _ Hp)|]. cbn [head] in Hh.
    destruct (Z.eqb_spec c SLASH) as [->|]; [done|exact E].
Qed.

(** ** Witness: the file ab in the root folder *)
Definition demo_folder : Z := 0xffffffc080000000.
Definition demo_child : Z := demo_folder + 8192.
Definition demo_path : Z := demo_folder + 16384.
Definition demo_tree : kstate :=
  mkState (put_bytes (put_bytes (put_bytes (put_bytes (write_words (write_words ∅ (demo_folder + 264)
      [demo_folder + 4096; 4096; 1; 8]) (demo_folder + 4096) [0; demo_child])
      demo_child (chars "ab" ++ [0])) (demo_folder + 12288) (DOT ++ [0])) (demo_folder + 12304) (DOTDOT ++ [0]))
      demo_path (chars "/ab" ++ [0]))
    false false 0 [] 0 [] 0 (pager zero_state) (allocator zero_state) (scheduler zero_state) (vma zero_state)
    (devices zero_state) 0 demo_folder (symbols zero_state) (mkLocals 0 0 (demo_folder + 20480) 0 0 0)
    (mkLiterals (demo_folder + 12288) (demo_folder + 12304) 0 0 0 0 0 0 0 0) (sbi zero_state) (io zero_state).

Ltac demo_string := apply cstring_checked; vm_compute; reflexivity.

Lemma dentry_get_path_finds_witness :
  exists s', dentry_get_path 0 demo_path demo_tree = Ret demo_child s'.
Proof.
  destruct (dentry_get_path_finds demo_folder (demo_folder + 4096) 1 demo_child (chars "ab") (chars "ab") (demo_path + 1) 0 demo_path true
    demo_tree) as [(s' & E & _) _].
  - split; [unfold kblock; zdone| |lia|vm_compute; reflexivity]. split; unfold kblock, apart; zdone.
  - split; [vm_compute; reflexivity|demo_string].
  - intros H. repeat (apply elem_of_cons in H as [H|H]; [discriminate H|]). by apply not_elem_of_nil in H.
  - demo_string.
  - demo_string.
  - split; [demo_string|unfold kbytes; zdone|vm_compute; reflexivity|done|zdone|unfold kbytes; zdone|].
    repeat (constructor; [unfold apart; zdone|]). constructor.
  - split; [demo_string|]. split; vm_compute; reflexivity.
  - exists s'. exact E.
Defined.
