(* ===== verification/Syscalls.v ===== *)
(** * System calls ([kernel/syscall])

    The descriptor table of a process is a chain of pages: word 0 is the next
    page, the others are descriptors. *)
From S2P Require Import Prelude Machine Objects Uart Cpu Pager Allocator UserAccess TrapParser Inode Dentry.

(** ** The code of file_system/handler.c *)

(** File descriptors a page of the table holds. *)
Definition fd_page_cnt : Z := KERNEL_PAGE_SIZE / 8 - 1.

(** The page [page_num] links after the first, unless the chain ends before. *)
Definition fd_page (page page_num : Z) : M (option Z) :=
  r ← for_until (upto 0 page_num) (fun cur_page _ =>
    next ← load64 (elem64 cur_page 0);
    mret (if next =? 0 then inr tt else inl next)) page;
  mret (match r with inl cur_page => Some cur_page | inr _ => None end).

Definition fd_get_local (local_id proc : Z) : M Z :=
  let page_num := local_id / fd_page_cnt in
  let page_loc := local_id mod fd_page_cnt in
  page ← load64 (proc_file_desc_pg proc);
  cur_page ← fd_page page page_num;
  match cur_page with Some cur_page => load64 (elem64 cur_page (page_loc + 2)) | None => mret 0 end.

Definition fd_insert_local (fd proc : Z) : M Z :=
  page ← load64 (proc_file_desc_pg proc);
  while_true (fun '(page, page_num) =>
    r ← for_find (upto 0 fd_page_cnt) (fun i =>
      e ← load64 (elem64 page (i + 1));
      if e =? 0 then store64 (elem64 page (i + 1)) fd ;; mret (Some (page_num ⊗ fd_page_cnt ⊕ i)) else mret None);
    match r with
    | Some id => mret (inr id)
    | None =>
        next ← load64 (elem64 page 0);
        when (next =? 0) (irq_disable ;; p ← pg_alloc; store64 (elem64 page 0) p ;; irq_enable) ;;
        next ← load64 (elem64 page 0);
        mret (inl (next, page_num ⊕ 1))
    end) (page, 0).

Definition fd_remove_local (local_id proc : Z) : M unit :=
  let page_num := local_id / fd_page_cnt in
  let page_loc := local_id mod fd_page_cnt + 1 in
  page ← load64 (proc_file_desc_pg proc);
  cur_page ← fd_page page page_num;
  match cur_page with
  | Some cur_page =>
      e ← load64 (elem64 cur_page page_loc);
      if e =? 0 then skip else store64 (elem64 cur_page page_loc) 0
  | None => skip
  end.

Definition MAX_OPEN_FILE_DESCRIPTORS : Z := 1024.

(** The handlers answer with the trap whose [return_reg] they set; -1 is [U64_MAX]. *)
Definition syscall_fs_open (trap : trap_data) : M trap_data :=
  let proc := process_ptr trap in
  file_desc_cnt ← load64 (proc_file_desc_cnt proc);
  if MAX_OPEN_FILE_DESCRIPTORS <=? file_desc_cnt then mret (set_return U64_MAX trap) else
  let path_user_addr := arg1_reg trap in
  path ← gets (fun s => loc_path (locals s));
  for_each (upto 0 257) (fun i => store8 (path ⊕ i) 0) ;;
  _ ← kernel_read_user path_user_addr 256 path proc;
  first ← load8 path;
  if first =? 0 then mret (set_return U64_MAX trap) else
  cwd ← load64 (proc_working_dir proc);
  fd ← file_open_path cwd path;
  if fd =? 0 then mret (set_return U64_MAX trap) else
  local_id ← fd_insert_local fd proc;
  file_desc_cnt ← load64 (proc_file_desc_cnt proc);
  store64 (proc_file_desc_cnt proc) (file_desc_cnt ⊕ 1) ;;
  mret (set_return local_id trap).

(** [size] is an [s64]: [size % 4096] and [size / 4096] round towards zero, and
    the loop compares the quotient as a [u64]. *)
Definition pages_of (size : Z) : Z := wrap64 (Z.quot (to_s64 size) 4096).
Definition rest_of (size : Z) : Z := wrap64 (Z.rem (to_s64 size) 4096).

(** A page for the transfer, freed at its end. *)
Definition with_page {A} (body : Z -> M A) : M A :=
  irq_disable ;;
  page ← pg_alloc;
  irq_enable ;;
  r ← body page;
  irq_disable ;;
  pg_free page ;;
  irq_enable ;;
  mret r.

(** A round of the loop; the state is [i], [read_size], [cur_addr], the result
    has [size_left] last. *)
Definition syscall_fs_read_page (fd page proc size : Z) '((i, read_size, cur_addr) : Z * Z * Z) :
    M (Z * Z * Z + Z * Z * Z) :=
  if negb (i <? pages_of size) then mret (inr (read_size, cur_addr, rest_of size)) else
  read_cnt ← file_descriptor_read fd page 4096;
  let read_size := read_size ⊕ read_cnt in
  if read_cnt <? 4096 then mret (inr (read_size, cur_addr, 0)) else
  _ ← kernel_write_user cur_addr 4096 page proc;
  mret (inl (i ⊕ 1, read_size, cur_addr ⊕ 4096)).

(** What happens while the page is there. *)
Definition syscall_fs_read_through (fd page proc size user_buf_loc : Z) : M Z :=
  '(read_size, cur_addr, size_left) ← while_true (syscall_fs_read_page fd page proc size) (0, 0, user_buf_loc);
  if 0 <? size_left then
    read_cnt ← file_descriptor_read fd page size_left;
    _ ← kernel_write_user cur_addr read_cnt page proc;
    mret (read_size ⊕ read_cnt)
  else mret read_size.

Definition syscall_fs_read (trap : trap_data) : M trap_data :=
  let proc := process_ptr trap in
  let size := arg3_reg trap in
  fd ← fd_get_local (arg1_reg trap) proc;
  if fd =? 0 then mret (set_return U64_MAX trap) else
  read_size ← with_page (fun page => syscall_fs_read_through fd page proc size (arg2_reg trap));
  mret (set_return read_size trap).

Definition syscall_fs_write_page (fd page proc size : Z) '((i, write_size, cur_addr) : Z * Z * Z) :
    M (Z * Z * Z + Z * Z * Z) :=
  if negb (i <? pages_of size) then mret (inr (write_size, cur_addr, rest_of size)) else
  is_user_read ← kernel_read_user cur_addr 4096 page proc;
  if negb is_user_read then mret (inr (write_size, cur_addr, 0)) else
  write_cnt ← file_descriptor_write fd page 4096;
  let write_size := write_size ⊕ write_cnt in
  if write_cnt <? 4096 then mret (inr (write_size, cur_addr, 0)) else
  mret (inl (i ⊕ 1, write_size, cur_addr ⊕ 4096)).

Definition syscall_fs_write_through (fd page proc size user_buf_loc : Z) : M Z :=
  '(write_size, cur_addr, size_left) ← while_true (syscall_fs_write_page fd page proc size) (0, 0, user_buf_loc);
  if 0 <? size_left then
    is_user_read ← kernel_read_user cur_addr size_left page proc;
    write_cnt ← file_descriptor_write fd page (if is_user_read : bool then size_left else 0);
    mret (write_size ⊕ write_cnt)
  else mret write_size.

Definition syscall_fs_write (trap : trap_data) : M trap_data :=
  let proc := process_ptr trap in
  let size := arg3_reg trap in
  fd ← fd_get_local (arg1_reg trap) proc;
  if fd =? 0 then mret (set_return U64_MAX trap) else
  write_size ← with_page (fun page => syscall_fs_write_through fd page proc size (arg2_reg trap));
  mret (set_return write_size trap).

Definition syscall_fs_seek (trap : trap_data) : M trap_data :=
  fd ← fd_get_local (arg1_reg trap) (process_ptr trap);
  if fd =? 0 then mret (set_return U64_MAX trap) else
  store64 (fd_seek_pos fd) (arg2_reg trap) ;;
  mret trap.

(** ** The code of uart/handler.c *)

(** The handlers that answer with a status, and the trap as they leave it. *)
Definition syscall_uart (trap : trap_data) (async : bool) : M (Z * trap_data) :=
  if arg1_reg trap =? 0 then uart_print_char (wrap8 (arg2_reg trap)) ;; mret (TRAP_HANDLED, trap)
  else if arg1_reg trap =? 1 then
    let str_src := arg2_reg trap in
    let str_size := arg3_reg trap in
    if negb async then mret (U64_MAX, trap) else
    if (512 <? str_size) || (str_size =? 0) then mret (TRAP_HANDLED, set_return U64_MAX trap) else
    irq_disable ;;
    location ← mem_alloc str_size;
    irq_enable ;;
    response ← kernel_read_user str_src str_size location (process_ptr trap);
    (when response (for_each (upto 0 str_size) (fun i => c ← load8 (location ⊕ i); uart_print_char c))) ;;
    irq_disable ;;
    mem_free location ;;
    irq_enable ;;
    mret (TRAP_HANDLED, set_return (if response : bool then 0 else U64_MAX) trap)
  else mret (TRAP_UNHANDLED, trap).

(** ** The code of handler.c *)

Definition SYSCALL_UART_PRINT : Z := 1.
Definition SYSCALL_IDLE_HANG : Z := 3.
Definition SYSCALL_FS_OPEN : Z := 4.
Definition SYSCALL_FS_READ : Z := 5.
Definition SYSCALL_FS_WRITE : Z := 6.
Definition SYSCALL_FS_SEEK : Z := 7.

Definition syscall_sync_handler (trap : trap_data) : M (Z * trap_data) :=
  if arg0_reg trap =? SYSCALL_UART_PRINT then syscall_uart trap false
  else mret (TRAP_UNHANDLED, trap).

Definition handled (c : M trap_data) : M (Z * trap_data) := t ← c; mret (TRAP_HANDLED, t).

Definition syscall_async_handler (trap : trap_data) : M (Z * trap_data) :=
  let n := arg0_reg trap in
  if n =? SYSCALL_UART_PRINT then syscall_uart trap true
  else if n =? SYSCALL_IDLE_HANG then handled (idle_loop_system ;; mret trap)
  else if n =? SYSCALL_FS_OPEN then handled (syscall_fs_open trap)
  else if n =? SYSCALL_FS_READ then handled (syscall_fs_read trap)
  else if n =? SYSCALL_FS_WRITE then handled (syscall_fs_write trap)
  else if n =? SYSCALL_FS_SEEK then handled (syscall_fs_seek trap)
  else
    uart_println_lit "process error: unknown syscall " ;;
    uart_print_lit "process ID: " ;;
    id ← load32 (proc_process_id (process_ptr trap));
    uart_println_u64 id ;;
    uart_print_lit "arg0: " ;;
    uart_println_u64 (arg0_reg trap) ;;
    uart_print_lit "arg1: " ;;
    uart_println_u64 (arg1_reg trap) ;;
    uart_print_lit "arg2: " ;;
    uart_println_u64 (arg2_reg trap) ;;
    uart_print_lit "arg3: " ;;
    uart_println_u64 (arg3_reg trap) ;;
    mret (TRAP_UNHANDLED, trap).

(** ** The table of open files

    A page of it: the address of the next page, then 511 descriptors. *)
Record fd_table (proc page : Z) (s : kstate) : Prop := {
  ft_proc : kblock proc sizeof_process;
  ft_page : kblock page (8 * 512);
  ft_link : rd (mem s) (proc + 64) = page;
  ft_apart : proc + 72 <= page \/ page + 4096 <= proc + 64;
}.

Definition fd_slot (page i : Z) (s : kstate) : Z := rd (mem s) (page + 8 * (i + 1)).

Lemma load_file_desc_pg proc page s :
  fd_table proc page s -> load64 (proc_file_desc_pg proc) s = Ret page s.
Proof.
  intros [Hp _ <- _]. by apply (load_field_addr proc sizeof_process).
Qed.

Lemma fd_table_wr proc page s i v :
  fd_table proc page s -> 0 <= i < 511 -> fd_table proc page (set_mem (wr (mem s) (page + 8 * (i + 1)) v) s).
Proof. intros [Hp Hg Hl Ha] Hi. split; [done|done| |done]. cbn [mem set_mem]. rewrite rd_wr_ne by lia. done. Qed.

(** The page an id below 511 belongs to. *)
Lemma fd_first_page page s : fd_page page 0 s = Ret (Some page) s.
Proof. done. Qed.

Lemma fd_insert_eq proc page fd k s :
  fd_table proc page s -> 0 <= k < 511 -> fd_slot page k s = 0 ->
  (forall i, 0 <= i < k -> fd_slot page i s <> 0) ->
  fd_insert_local fd proc s = Ret k (set_mem (wr (mem s) (page + 8 * (k + 1)) fd) s).
Proof.
  intros Ht Hk Hz Hnz. unfold fd_insert_local. rewrite (bind_Ret _ _ _ _ _ (load_file_desc_pg _ _ _ Ht)).
  apply while_exit. change fd_page_cnt with 511. pose proof (ft_page _ _ _ Ht) as Hg.
  rewrite (bind_Ret _ _ (Some k) s (set_mem (wr (mem s) (page + 8 * (k + 1)) fd) s)); [done|].
  rewrite (for_find_hit 0 511 k); [|done|].
  - erewrite bind_Ret.
    2: { rewrite (kblock_elem_eq page 512) by (done || lia). kstep. fold (fd_slot page k s).
         rewrite Hz. cbn [Z.eqb]. kstep. reflexivity. }
    cbv beta iota. rewrite Z.mul_0_l. change (wrap64 0) with 0. by rewrite Z.add_0_l, wrap64_small by lia.
  - intros i Hi. rewrite (kblock_elem_eq page 512) by (done || lia). kstep. fold (fd_slot page i s).
    destruct (Z.eqb_spec (fd_slot page i s) 0) as [E|]; [|done]. by apply Hnz in E.
Qed.

Lemma fd_get_eq proc page k s :
  fd_table proc page s -> 0 <= k < 510 -> fd_get_local k proc s = Ret (fd_slot page (k + 1) s) s.
Proof.
  intros Ht Hk. unfold fd_get_local. change fd_page_cnt with 511. rewrite Z.div_small, Z.mod_small by lia.
  rewrite (bind_Ret _ _ _ _ _ (load_file_desc_pg _ _ _ Ht)), (bind_Ret _ _ _ _ _ (fd_first_page page s)).
  cbv beta iota. pose proof (ft_page _ _ _ Ht) as Hg. rewrite (kblock_elem_eq page 512), load64_eq by (done || lia || kvalid).
  unfold fd_slot. do 3 f_equal. lia.
Qed.

Lemma fd_remove_eq proc page k s :
  fd_table proc page s -> 0 <= k < 511 ->
  fd_remove_local k proc s = Ret tt (if fd_slot page k s =? 0 then s else set_mem (wr (mem s) (page + 8 * (k + 1)) 0) s).
Proof.
  intros Ht Hk. unfold fd_remove_local. change fd_page_cnt with 511. rewrite Z.div_small, Z.mod_small by lia.
  rewrite (bind_Ret _ _ _ _ _ (load_file_desc_pg _ _ _ Ht)), (bind_Ret _ _ _ _ _ (fd_first_page page s)).
  cbv beta iota. pose proof (ft_page _ _ _ Ht) as Hg. rewrite (kblock_elem_eq page 512) by (done || lia).
  kstep. fold (fd_slot page k s). destruct (fd_slot page k s =? 0); [done|].
  by rewrite store64_eq by kvalid.
Qed.

(** [fd_insert_local] takes the first free entry [k] of the table and
    answers [k]; [fd_remove_local] of [k] frees that entry again.  But
    [fd_get_local] reads one entry further on: what it finds under the new id is
    entry [k + 1], so the file just opened is not found under its own id. *)
Theorem fd_get_reads_next_entry proc page fd k s :
  fd_table proc page s -> 0 <= k < 510 -> u64 fd -> fd <> 0 ->
  fd_slot page k s = 0 -> (forall i, 0 <= i < k -> fd_slot page i s <> 0) ->
  exists s', fd_insert_local fd proc s = Ret k s' /\ fd_table proc page s' /\
    fd_slot page k s' = fd /\ (forall i, 0 <= i -> i <> k -> fd_slot page i s' = fd_slot page i s) /\
    fd_get_local k proc s' = Ret (fd_slot page (k + 1) s) s' /\
    (exists s'', fd_remove_local k proc s' = Ret tt s'' /\
       forall i, 0 <= i -> fd_slot page i s'' = fd_slot page i s).
Proof.
  intros Ht Hk Hu Hfd Hz Hnz. pose proof (fd_insert_eq proc page fd k s Ht ltac:(lia) Hz Hnz) as E.
  pose proof (fd_table_wr proc page s k fd Ht ltac:(lia)) as Ht'.
  set (s' := set_mem _ _) in *. exists s'. split; [exact E|]. split; [exact Ht'|].
  assert (fd_slot page k s' = fd) as Ek by (unfold fd_slot, s'; cbn [mem set_mem]; by rewrite rd_wr_eq, wrap64_small).
  assert (forall i, 0 <= i -> i <> k -> fd_slot page i s' = fd_slot page i s) as Hother.
  { intros i Hi Hne. unfold fd_slot, s'. cbn [mem set_mem]. rewrite rd_wr_ne by lia. done. }
  split; [exact Ek|]. split; [exact Hother|]. split.
  - rewrite (fd_get_eq _ _ _ _ Ht') by lia. rewrite Hother by lia. done.
  - eexists. split; [apply (fd_remove_eq _ _ _ _ Ht'); lia|]. rewrite Ek. destruct (Z.eqb_spec fd 0); [done|].
    intros i Hi. unfold fd_slot at 1. cbn [mem set_mem]. destruct (Z.eq_dec i k) as [->|Hne].
    + rewrite rd_wr_eq, Hz. done.
    + rewrite rd_wr_ne by lia. apply Hother; lia.
Qed.

(** ** Witnesses: a process with one open file *)
Definition demo_proc : Z := 0xffffffc080000000.
Definition demo_fd_page : Z := demo_proc + 4096.
Definition demo_files : kstate :=
  set_mem (wr (wr ∅ (demo_proc + 64) demo_fd_page) (demo_fd_page + 8) 77) zero_state.

Lemma demo_fd_table : fd_table demo_proc demo_fd_page demo_files.
Proof. split; [unfold kblock; zdone|unfold kblock; zdone|by vm_compute|left; zdone]. Qed.

Lemma fd_get_reads_next_entry_witness :
  exists s', fd_insert_local 99 demo_proc demo_files = Ret 1 s' /\ fd_get_local 1 demo_proc s' = Ret 0 s'.
Proof.
  destruct (fd_get_reads_next_entry demo_proc demo_fd_page 99 1 demo_files demo_fd_table) as (s' & E & _ & _ & _ & G & _).
  - lia.
  - unfold u64; lia.
  - lia.
  - by vm_compute.
  - intros i Hi. assert (i = 0) as -> by lia. by vm_compute.
  - exact (ex_intro _ s' (conj E G)).
Defined.
