(* ===== verification/FileCalls.v ===== *)
(** * What the system calls write and read do to a file and to user memory
    ([kernel/syscall/file_system/handler.c])

    The calls move the data through a page of the kernel, 4096 bytes at a time.
    This file puts together the page allocator, the table of open files, the
    copies from and to user memory and the file itself. *)
From S2P Require Import Prelude Machine Strings Objects Cpu Pager Pages Vma VmaSpace UserAccess TrapParser Inode FileIO Syscalls.

(** ** A page for the time of a call *)

(** The state but for memory, the page allocator, and the interrupt and SUM bits. *)
Definition kernel_rest (s : kstate) : kstate := set_mem ∅ (set_irq false (set_sum false (set_pager (pager zero_state) s))).

Lemma rest_satp s s' : kernel_rest s' = kernel_rest s -> satp s' = satp s.
Proof. intros E. exact (f_equal satp E). Qed.

Lemma rest_shape s s' : kernel_rest s' = kernel_rest s ->
  s' = set_irq (irq_on s') (set_sum (sum_on s') (set_pager (pager s') (set_mem (mem s') s))).
Proof. destruct s, s'. unfold kernel_rest. cbn. intros [=]. by subst. Qed.

Lemma new_page_bytes {PS : PageSource pg_alloc} owned s a s' b :
  ps_inv owned s -> new_page owned s a s' -> held owned b ->
  byte (mem s') b = byte (mem s) b /\ ~ a <= b < a + KERNEL_PAGE_SIZE.
Proof.
  intros Hi Hn (p & Hp & Hb). destruct (ps_page _ _ _ Hi Hp) as [(_ & _ & H8) Hal]. split.
  - apply (byte_of_word _ _ p); [done|done|]. intros k Hk. by apply (np_frame _ _ _ _ Hn).
  - intros Hr. pose proof (np_aligned _ _ _ _ Hn) as Ha. apply (np_fresh _ _ _ _ Hn).
    assert (a = p) as ->; [|done]. unfold KERNEL_PAGE_SIZE in *. dlia.
Qed.

(** The page is none of those held, which the call is given and gives back. *)
Record call_page {PS : PageSource pg_alloc} (owned : gset Z) (s : kstate) (pg : Z) (s' : kstate) : Prop := {
  cp_block : kblock pg KERNEL_PAGE_SIZE;
  cp_apart b : held owned b -> ~ pg <= b < pg + KERNEL_PAGE_SIZE;
  cp_same b : held owned b -> byte (mem s') b = byte (mem s) b;
  cp_rest : kernel_rest s' = kernel_rest s;
  cp_inv : ps_inv ({[pg]} ∪ owned) s';
}.

Lemma with_page_runs {PS : PageSource pg_alloc} {PH : PageHeap PS pg_free} {A} (body : Z -> M A) (Q : A -> kstate -> Prop) owned s :
  ps_inv owned s ->
  (forall pg s1, call_page owned s pg s1 -> wp (body pg) (fun r s2 => ps_inv ({[pg]} ∪ owned) s2 /\ Q r s2) s1) ->
  oom_or (with_page body) (fun r s' => ps_inv owned s' /\
    exists s2, Q r s2 /\ kernel_rest s' = kernel_rest s2 /\ forall b, held owned b -> byte (mem s') b = byte (mem s2) b) s.
Proof.
  intros Hi Hbody. unfold with_page, irq_disable, irq_enable. apply oom_bind, (oom_ret tt _ _ (set_irq false s)); [done|].
  assert (ps_inv owned (set_irq false s)) as Hi0 by (by apply (ps_same owned s)).
  apply oom_bind. destruct (ps_alloc owned _ Hi0) as [E|(pg & s1 & E & Hn & Hi1)]; [by left|].
  apply (oom_ret pg _ _ s1 _ E). apply oom_bind, (oom_ret tt _ _ (set_irq true s1)); [done|].
  assert (call_page owned s pg (set_irq true s1)) as Hc.
  { split.
    - exact (np_block _ _ _ _ Hn).
    - intros b Hb. by apply (new_page_bytes owned (set_irq false s) pg s1).
    - intros b Hb. by apply (new_page_bytes owned (set_irq false s) pg s1).
    - by rewrite (np_rest _ _ _ _ Hn).
    - by apply (ps_same _ s1). }
  destruct (wp_inv _ _ _ (Hbody pg _ Hc)) as (r & s2 & E2 & Hi2 & HQ).
  apply oom_bind, (oom_ret r _ _ s2 _ E2). apply oom_bind, (oom_ret tt _ _ (set_irq false s2)); [done|].
  assert (ps_inv ({[pg]} ∪ owned) (set_irq false s2)) as Hi3 by (by apply (ps_same _ s2)).
  destruct (ph_free _ _ pg Hi3 ltac:(set_solver)) as (s3 & E3 & Hi4 & Hb & Er).
  assert (({[pg]} ∪ owned) ∖ {[pg]} = owned) as Eo by (pose proof (np_fresh _ _ _ _ Hn); set_solver).
  rewrite Eo in Hi4, Hb. apply oom_bind, (oom_ret tt _ _ s3 _ E3). apply oom_bind, (oom_ret tt _ _ (set_irq true s3)); [done|].
  apply (oom_ret r _ _ (set_irq true s3)); [done|]. split; [by apply (ps_same _ s3)|].
  exists s2. split; [exact HQ|]. split; [|exact Hb]. rewrite Er. done.
Qed.

(** ** A call of a process on one of its open files *)

Section Calls.
Context {PS : PageSource pg_alloc} {PH : PageHeap PS pg_free} (owned : gset Z).
Context (proc table id desc file root : Z) (page : Z -> Z) (pages sz off : Z) (s : kstate).

(** The bytes that belong to the process and the file. *)
Definition of_call (b : Z) : Prop :=
  proc <= b < proc + sizeof_process \/ meta desc file root b \/ exists k, 0 <= k < 4096 * pages /\ b = byte_at page k.

Definition not_file (b : Z) : Prop := ~ meta desc file root b /\ forall k, 0 <= k < 4096 * pages -> b <> byte_at page k.

(** Bytes a call does not change: neither the file's nor the flag of the
    process. *)
Definition quiet (b : Z) : Prop := held owned b /\ b <> proc + 152 /\ not_file b.

Record file_call : Prop := {
  fc_pages : ps_inv owned s;
  fc_table : fd_table proc table s;
  fc_id : 0 <= id < 510;
  fc_desc : fd_slot table (id + 1) s = desc;
  fc_file : open_file desc file root page pages sz off (mem s);
  fc_held b : of_call b -> held owned b;
  fc_process b : proc <= b < proc + sizeof_process -> not_file b;
  fc_entries b : table <= b < table + 4096 -> quiet b;
}.

(** The user's buffer of [size] bytes at [va], in memory at [A]. *)
Record user_buffer (perm va size : Z) (A : Z -> Z) : Prop := {
  ub_walk k : 0 <= k < size -> translate (set_sum true s) perm (va + k) = Some (A k);
  ub_bytes k : 0 <= k < size -> kbytes (A k) 1;
  ub_quiet k : 0 <= k < size -> quiet (A k);
  ub_tables k a b : 0 <= k < size -> a ∈ walk_words (mem s) (satp_root s) (va + k) 2 -> a <= b < a + 8 -> quiet b;
}.

Context (Hc : file_call).

Lemma fc_flag : not_file (proc + 152).
Proof. apply (fc_process Hc). unfold sizeof_process. lia. Qed.

Lemma call_desc : fd_get_local id proc s = Ret desc s /\ (desc =? 0) = false.
Proof.
  split; [by rewrite (fd_get_eq _ _ _ _ (fc_table Hc) (fc_id Hc)), (fc_desc Hc)|].
  destruct (of_desc _ _ _ _ _ _ _ _ (fc_file Hc)) as (H & _). unfold KERNEL_VMA_START in H. lia.
Qed.

Section Page.
Context (pg : Z) (s1 : kstate) (Hpg : call_page owned s pg s1).

Lemma page_not_held n : 0 <= n <= 4096 -> buffer desc file root page pages pg n.
Proof.
  intros Hn. destruct (cp_block _ _ _ _ Hpg) as (K1 & K2 & _). unfold KERNEL_PAGE_SIZE in K2. split; [split; lia|]. intros b Hb. split.
  - intros Hm. apply (cp_apart _ _ _ _ Hpg b); [|unfold KERNEL_PAGE_SIZE; lia]. apply (fc_held Hc). right. by left.
  - intros k Hk <-. apply (cp_apart _ _ _ _ Hpg (byte_at page k)); [|unfold KERNEL_PAGE_SIZE; lia].
    apply (fc_held Hc). right. right. by exists k.
Qed.

Lemma page_apart_process n : 0 <= n <= 4096 -> pg + n <= proc \/ proc + sizeof_process <= pg.
Proof.
  intros Hn. destruct (Z.lt_ge_cases proc pg) as [H|H].
  - destruct (Z.lt_ge_cases pg (proc + sizeof_process)); [|by right]. exfalso.
    apply (cp_apart _ _ _ _ Hpg pg); [apply (fc_held Hc); left; lia|unfold KERNEL_PAGE_SIZE; lia].
  - destruct (Z.lt_ge_cases proc (pg + 4096)); [|left; lia]. exfalso.
    apply (cp_apart _ _ _ _ Hpg proc); [apply (fc_held Hc); left; unfold sizeof_process; lia|unfold KERNEL_PAGE_SIZE; lia].
Qed.

Lemma page_kbytes n : 0 <= n <= 4096 -> kbytes pg n.
Proof. intros Hn. by destruct (page_not_held n Hn). Qed.

Lemma page_quiet n b : 0 <= n <= 4096 -> quiet b -> ~ pg <= b < pg + n.
Proof. intros Hn (Hh & _) Hb. apply (cp_apart _ _ _ _ Hpg b Hh). unfold KERNEL_PAGE_SIZE. lia. Qed.

Lemma flag_held : held owned (proc + 152).
Proof. apply (fc_held Hc). left. unfold sizeof_process. lia. Qed.

Lemma held_more b : held owned b -> held ({[pg]} ∪ owned) b.
Proof. intros (p & Hp & Hb). exists p. split; [set_solver|done]. Qed.

Lemma held_page n b : 0 <= n <= 4096 -> pg <= b < pg + n -> held ({[pg]} ∪ owned) b.
Proof. intros Hn Hb. exists pg. split; [set_solver|unfold KERNEL_PAGE_SIZE; lia]. Qed.

(** Copies between the page, the file and quiet memory keep the allocator. *)
Lemma call_inv s' m s'' :
  ps_inv ({[pg]} ∪ owned) s' -> mem s'' = m -> pager s'' = pager s' ->
  (forall b, ~ pg <= b < pg + 4096 -> ~ held owned b -> byte m b = byte (mem s') b) -> ps_inv ({[pg]} ∪ owned) s''.
Proof.
  intros Hi Em Ep Hm. apply (ps_same _ (set_mem m s')); [|by rewrite Em|by rewrite Ep]. apply ph_bytes; [done|].
  intros b Hb. apply Hm; intros H; apply Hb; [by apply (held_page 4096)|by apply held_more].
Qed.
End Page.

(** Memory as far as the user and the tables are concerned, but for [D]. *)
Definition undisturbed (D : Z -> Prop) (s' : kstate) : Prop :=
  kernel_rest s' = kernel_rest s /\ forall b, quiet b -> ~ D b -> byte (mem s') b = byte (mem s) b.
Definition nothing (b : Z) : Prop := False.

Lemma user_at D perm va size A s' k :
  user_buffer perm va size A -> undisturbed D s' -> 0 <= k < size ->
  (forall a b, a ∈ walk_words (mem s) (satp_root s) (va + k) 2 -> a <= b < a + 8 -> ~ D b) ->
  translate (set_sum true s') perm (va + k) = Some (A k) /\
  forall a b, a ∈ walk_words (mem s') (satp_root s') (va + k) 2 -> a <= b < a + 8 -> quiet b /\ ~ D b.
Proof.
  intros Hu [Hs Hq] Hk HD.
  destruct (translate_same perm (va + k) (A k) s (set_sum true s') (ub_walk _ _ _ _ Hu k Hk) (rest_satp _ _ Hs) eq_refl) as [E W].
  - intros a b Ha Hb. apply Hq; [|by apply (HD a)]. by apply (ub_tables _ _ _ _ Hu k a b).
  - split; [exact E|]. cbn [mem set_sum] in W. change (satp_root (set_sum true s')) with (satp_root s') in W.
    rewrite W. intros a b Ha Hb. split; [by apply (ub_tables _ _ _ _ Hu k a b)|by apply (HD a)].
Qed.

(** ** Writing *)

Lemma pages_rest n : 0 <= n < 9223372036854775808 -> pages_of n = n / 4096 /\ rest_of n = n mod 4096.
Proof.
  intros Hn. unfold pages_of, rest_of. rewrite to_s64_small, Z.quot_div_nonneg, Z.rem_mod_nonneg by lia.
  split; apply wrap64_small; dlia.
Qed.

Section Write.
Context (pg : Z) (s1 : kstate) (Hpg : call_page owned s pg s1).
Context (va size : Z) (A : Z -> Z) (Hu : user_buffer VMA_READ va size A).
Context (Hva : 0 <= va) (Hend : va + size < KERNEL_VMA_START) (Hroom : off + size <= 4096 * pages).

(** [n] bytes of the buffer are in the file. *)
Record written (n : Z) (s' : kstate) : Prop := {
  wn_pages : ps_inv ({[pg]} ∪ owned) s';
  wn_quiet : undisturbed nothing s';
  wn_file : exists sz', open_file desc file root page pages sz' (off + n) (mem s') /\ sz <= sz' /\ (0 < n -> off + n <= sz');
  wn_new k : 0 <= k < n -> byte (mem s') (byte_at page (off + k)) = byte (mem s) (A k);
  wn_old k : 0 <= k < 4096 * pages -> k < off \/ off + n <= k ->
    byte (mem s') (byte_at page k) = byte (mem s) (byte_at page k);
}.

Lemma written_none : written 0 s1.
Proof.
  split.
  - exact (cp_inv _ _ _ _ Hpg).
  - split; [exact (cp_rest _ _ _ _ Hpg)|]. intros b [Hb _] _. by apply (cp_same _ _ _ _ Hpg).
  - exists sz. rewrite Z.add_0_r. split; [|lia]. apply (open_file_same _ _ _ _ _ _ _ _ (fc_file Hc)).
    intros a Ha. apply (cp_same _ _ _ _ Hpg), (fc_held Hc). right. by left.
  - lia.
  - intros k Hk _. apply (cp_same _ _ _ _ Hpg), (fc_held Hc). right. right. by exists k.
Qed.

Lemma chunk_readable n len s' : undisturbed nothing s' -> 0 <= n -> 0 <= len <= 4096 -> n + len <= size ->
  user_readable (va + n) len pg proc (fun k => A (n + k)) s'.
Proof.
  intros Hq Hn Hlen Hsize.
  assert (forall k, 0 <= k < len -> translate (set_sum true s') VMA_READ (va + n + k) = Some (A (n + k)) /\
    forall a b, a ∈ walk_words (mem s') (satp_root s') (va + n + k) 2 -> a <= b < a + 8 -> quiet b /\ ~ nothing b) as Hat.
  { intros k Hk. rewrite <- Z.add_assoc. apply user_at with size; [done|done|lia|]. intros a b _ _ []. }
  split.
  - exact (ft_proc _ _ _ (fc_table Hc)).
  - by apply (page_kbytes pg s1).
  - by apply (page_apart_process pg s1).
  - intros k Hk. by apply Hat.
  - intros k Hk. apply (ub_bytes _ _ _ _ Hu). lia.
  - intros k Hk. pose proof (ub_quiet _ _ _ _ Hu (n + k) ltac:(lia)) as Hqk. split; [apply Hqk|].
    by apply (page_quiet pg s1 Hpg len).
  - intros k a Hk Ha. destruct (Hat k Hk) as [_ Hb]. split.
    + destruct (Z.lt_ge_cases (proc + 152) a); [by right|left].
      destruct (Z.lt_ge_cases (proc + 152) (a + 8)); [|lia]. exfalso.
      by apply (proj1 (proj2 (proj1 (Hb a (proc + 152) Ha ltac:(lia))))).
    + destruct (Z.lt_ge_cases pg (a + 8)); [|left; lia]. destruct (Z.lt_ge_cases a (pg + len)); [|right; lia]. exfalso.
      apply (page_quiet pg s1 Hpg len (Z.max a pg)); [done|apply (Hb a); [done|lia]|lia].
Qed.

Lemma write_chunk n len s' : written n s' -> 0 <= n -> 0 < len <= 4096 -> n + len <= size ->
  exists s2 s3, kernel_read_user (va + n) len pg proc s' = Ret true s2 /\
    file_descriptor_write desc pg len s2 = Ret len s3 /\ written (n + len) s3.
Proof.
  intros [Wi Wq (sz' & Wf & Ws & Wn) Wnew Wold] Hn Hlen Hsize.
  pose proof (of_seek _ _ _ _ _ _ _ _ (fc_file Hc)) as Ho. pose proof (rd_u64 (mem s) (desc + 8)) as Hou. rewrite Ho in Hou. unfold u64 in Hou.
  pose proof (of_cnt _ _ _ _ _ _ _ _ (fc_file Hc)) as Hcnt. destruct fc_flag as [Fm Fb].
  destruct (read_user_copies (va + n) len pg proc (fun k => A (n + k)) s'
    ltac:(apply chunk_readable; [done|lia..]) ltac:(lia) ltac:(lia) ltac:(lia)) as (m & E & M1 & M2).
  set (s2 := set_irq true (set_sum false (set_mem m s'))) in *.
  assert (kernel_read_user (va + n) len pg proc s' = Ret true s2) as Er.
  { unfold kernel_read_user. unfold KERNEL_VMA_START in Hend.
    rewrite guard_range by (unfold u64; lia).
    replace (user_range (va + n) len) with true by (unfold user_range, KERNEL_VMA_START; lia). exact E. }
  pose proof (page_not_held pg s1 Hpg len ltac:(lia)) as Hbuf. pose proof Hbuf as [_ Hbuf'].
  assert (forall b, meta desc file root b \/ (exists k, 0 <= k < 4096 * pages /\ b = byte_at page k) -> byte m b = byte (mem s') b) as Mf.
  { intros b Hb. apply M2.
    - intros ->. destruct Hb as [Hb|(k & Hk & Eb)]; [by apply Fm|by apply (Fb k Hk)].
    - intros Hin. destruct (Hbuf' b Hin) as [Hm Hp]. destruct Hb as [Hb|(k & Hk & Eb)]; [by apply Hm|by apply (Hp k)]. }
  assert (open_file desc file root page pages sz' (off + n) (mem s2)) as Hf2.
  { apply (open_file_same _ _ _ _ _ _ _ _ Wf). intros a Ha. apply Mf. by left. }
  destruct (file_write_correct' desc file root page pages sz' (off + n) pg len s2 Hf2 ltac:(lia) ltac:(lia) Hbuf)
    as (m' & Ew & Hf3 & W1 & W2 & W3).
  exists s2, (set_mem m' (set_irq false s2)). split; [exact Er|]. split; [exact Ew|].
  change (mem s2) with m in *.
  assert (forall b, quiet b -> byte m' b = byte (mem s') b) as Q.
  { intros b Hb. pose proof Hb as (Hh & Hb1 & Hb2 & Hb3). rewrite W3; [|done|intros k Hk; apply Hb3; lia].
    apply M2; [done|]. apply (page_quiet pg s1 Hpg len); [lia|done]. }
  split.
  - apply (call_inv pg s1 Hpg s' m'); [done..|]. intros b Hb1 Hb2.
    rewrite W3; [apply M2; [|lia]| |].
    + intros ->. by apply Hb2, flag_held.
    + intros Hm. apply Hb2, (fc_held Hc). right. by left.
    + intros k Hk ->. apply Hb2, (fc_held Hc). right. right. exists (off + n + k). split; [lia|done].
  - destruct Wq as [Wq1 Wq2]. split; [exact Wq1|]. intros b Hb Hd. cbn [mem set_mem]. rewrite Q by done. by apply Wq2.
  - exists (Z.max sz' (off + n + 2 * len)). cbn [mem set_mem]. rewrite Z.add_assoc. split; [exact Hf3|lia].
  - intros k Hk. cbn [mem set_mem]. destruct (Z.lt_ge_cases k n) as [Hlt|Hge].
    + rewrite W2 by lia. rewrite Mf by (right; exists (off + k); split; [lia|done]). by apply Wnew; lia.
    + replace (off + k) with (off + n + (k - n)) by lia. rewrite W1, M1 by lia. replace (n + (k - n)) with k by lia.
      apply Wq; [|by intros []]. apply (ub_quiet _ _ _ _ Hu). lia.
  - intros k Hk Hko. cbn [mem set_mem]. rewrite W2 by lia. rewrite Mf by (right; by exists k). apply Wold; lia.
Qed.

Lemma write_loop : 0 <= size ->
  wp (while_true (syscall_fs_write_page desc pg proc size) (0, 0, va))
    (fun r s' => r = (4096 * (size / 4096), va + 4096 * (size / 4096), size mod 4096) /\ written (4096 * (size / 4096)) s') s1.
Proof.
  intros Hsize. pose proof (of_cnt _ _ _ _ _ _ _ _ (fc_file Hc)) as Hcnt.
  pose proof (rd_u64 (mem s) (desc + 8)) as Hou. rewrite (of_seek _ _ _ _ _ _ _ _ (fc_file Hc)) in Hou. unfold u64 in Hou.
  destruct (pages_rest size ltac:(lia)) as [Ep Er]. unfold KERNEL_VMA_START in Hend.
  apply (wp_while (fun st s' => exists i, 0 <= i <= size / 4096 /\ st = (i, 4096 * i, va + 4096 * i) /\ written (4096 * i) s')
    (fun '(i, _, _) _ => size / 4096 - i)).
  - intros st s' (i & Hi & -> & _). lia.
  - intros st s' (i & Hi & -> & Hw). unfold syscall_fs_write_page. rewrite Ep, Er. destruct (Z.ltb_spec i (size / 4096)) as [Hlt|Hge]; cbn [negb].
    + destruct (write_chunk (4096 * i) 4096 s' Hw ltac:(lia) ltac:(lia) ltac:(dlia)) as (s2 & s3 & E1 & E2 & Hw').
      unfold wp. rewrite (bind_Ret _ _ _ _ _ E1). cbn [negb]. rewrite (bind_Ret _ _ _ _ _ E2). cbn [mret M_ret Z.ltb Z.compare Pos.compare Pos.compare_cont].
      rewrite !wrap64_small by dlia. split; [|lia]. exists (i + 1). split; [lia|].
      replace (4096 * (i + 1)) with (4096 * i + 4096) by lia. split; [f_equal; lia|done].
    + apply wp_ret. assert (i = size / 4096) as -> by lia. done.
  - exists 0. split; [split; [lia|apply Z.div_pos; lia]|]. split; [f_equal; lia|exact written_none].
  - dlia.
Qed.

Lemma write_body : 0 <= size ->
  wp (syscall_fs_write_through desc pg proc size va) (fun r s' => r = size /\ written size s') s1.
Proof.
  intros Hsize. unfold syscall_fs_write_through. apply wp_bind. eapply wp_mono; [apply write_loop, Hsize|].
  intros r s' [-> Hw]. pose proof (of_cnt _ _ _ _ _ _ _ _ (fc_file Hc)) as Hcnt.
  pose proof (rd_u64 (mem s) (desc + 8)) as Hou. rewrite (of_seek _ _ _ _ _ _ _ _ (fc_file Hc)) in Hou. unfold u64 in Hou.
  pose proof (Z.div_mod size 4096 ltac:(lia)) as Hdm. pose proof (Z.mod_pos_bound size 4096 ltac:(lia)) as Hmod.
  destruct (Z.ltb_spec 0 (size mod 4096)) as [Hlt|Hge].
  - destruct (write_chunk (4096 * (size / 4096)) (size mod 4096) s' Hw ltac:(lia) ltac:(lia) ltac:(lia)) as (s2 & s3 & E1 & E2 & Hw').
    unfold wp. rewrite (bind_Ret _ _ _ _ _ E1), (bind_Ret _ _ _ _ _ E2). cbn [mret M_ret].
    rewrite <- Hdm in *. split; [apply wrap64_small; lia|done].
  - apply wp_ret. replace (4096 * (size / 4096)) with size in * by lia. done.
Qed.
End Write.

(** ** Reading *)

Section Read.
Context (pg : Z) (s1 : kstate) (Hpg : call_page owned s pg s1).
Context (va size : Z) (B : Z -> Z) (Hu : user_buffer VMA_WRITE va size B).

(** The bytes of the buffer are written: each once, and none is in a table the
    writing goes through. *)
Definition in_buffer (b : Z) : Prop := exists j, 0 <= j < size /\ b = B j.
Record separate_buffer : Prop := {
  sb_inj j k : 0 <= j < size -> 0 <= k < size -> B j = B k -> j = k;
  sb_tables k a b : 0 <= k < size -> a ∈ walk_words (mem s) (satp_root s) (va + k) 2 -> a <= b < a + 8 -> ~ in_buffer b;
}.
Context (Hb : separate_buffer) (Hva : 0 < va) (Hend : va + size < 9223372036854775808).
Context (Hsz : 0 < readable sz off size -> off + readable sz off size <= 4096 * pages).

(** [n] bytes of the file are read, and [c] of them are in the buffer. *)
Record fetched (c n : Z) (s' : kstate) : Prop := {
  fe_pages : ps_inv ({[pg]} ∪ owned) s';
  fe_quiet : undisturbed in_buffer s';
  fe_file : open_file desc file root page pages sz (off + n) (mem s');
  fe_user k : 0 <= k < size ->
    byte (mem s') (B k) = if k <? c then byte (mem s) (byte_at page (off + k)) else byte (mem s) (B k);
  fe_bytes k : 0 <= k < 4096 * pages -> byte (mem s') (byte_at page k) = byte (mem s) (byte_at page k);
}.

Lemma off_range : 0 <= off < 18446744073709551616.
Proof.
  pose proof (rd_u64 (mem s) (desc + 8)) as H. by rewrite (of_seek _ _ _ _ _ _ _ _ (fc_file Hc)) in H.
Qed.

Lemma fetched_none : fetched 0 0 s1.
Proof.
  split.
  - exact (cp_inv _ _ _ _ Hpg).
  - split; [exact (cp_rest _ _ _ _ Hpg)|]. intros b [Hh _] _. by apply (cp_same _ _ _ _ Hpg).
  - rewrite Z.add_0_r. apply (open_file_same _ _ _ _ _ _ _ _ (fc_file Hc)).
    intros a Ha. apply (cp_same _ _ _ _ Hpg), (fc_held Hc). right. by left.
  - intros k Hk. destruct (Z.ltb_spec k 0); [lia|]. apply (cp_same _ _ _ _ Hpg). by apply (ub_quiet _ _ _ _ Hu).
  - intros k Hk. apply (cp_same _ _ _ _ Hpg), (fc_held Hc). right. right. by exists k.
Qed.

Lemma fetch_page c n len s' : fetched c n s' -> 0 <= n -> 0 <= len <= 4096 -> n + len <= size ->
  let a := readable sz (off + n) len in
  exists s2, file_descriptor_read desc pg len s' = Ret a s2 /\ fetched c (n + a) s2 /\
    forall k, 0 <= k < a -> byte (mem s2) (pg + k) = byte (mem s) (byte_at page (off + n + k)).
Proof.
  intros [Fi Fq Ff Fu Fb] Hn Hlen Hsize a. pose proof off_range as Ho.
  pose proof (readable_bounds sz (off + n) len ltac:(lia)) as Ha. fold a in Ha.
  assert (0 < a -> off + n + a <= 4096 * pages) as Hroom by (unfold a; revert Hsz; unfold readable, MIN; bool_cases; lia).
  destruct (file_read_correct' desc file root page pages sz (off + n) pg len s' Ff ltac:(lia)) as (m & E & Hf & R1 & R2 & R3).
  - intros H. fold a in H |- *. lia.
  - by apply (page_not_held pg s1).
  - fold a in E, Hf, R1, R3. exists (set_mem m (set_irq false s')). split; [exact E|].
    assert (forall b, quiet b -> byte m b = byte (mem s') b) as Q.
    { intros b (Hh & _ & Hm & _). pose proof (cp_apart _ _ _ _ Hpg b Hh) as Hp. unfold KERNEL_PAGE_SIZE in Hp.
      unfold meta in Hm. apply R3; lia. }
    split.
    + split.
      * apply (call_inv pg s1 Hpg s' m); [done..|]. intros b Hb1 Hb2.
        assert (~ meta desc file root b) as Hm by (intros Hm; apply Hb2, (fc_held Hc); right; by left).
        unfold meta in Hm. apply R3; lia.
      * destruct Fq as [Fq1 Fq2]. split; [exact Fq1|]. intros b Hq Hd. cbn [mem set_mem]. rewrite Q by done. by apply Fq2.
      * cbn [mem set_mem]. by rewrite Z.add_assoc.
      * intros k Hk. cbn [mem set_mem]. rewrite Q by (by apply (ub_quiet _ _ _ _ Hu)). by apply Fu.
      * intros k Hk. cbn [mem set_mem]. rewrite R2 by done. by apply Fb.
    + intros k Hk. cbn [mem set_mem]. rewrite R1 by done. apply Fb. lia.
Qed.

Lemma chunk_writable n len s' : undisturbed in_buffer s' -> 0 <= n -> 0 <= len <= 4096 -> n + len <= size ->
  user_writable pg len (va + n) proc (fun k => B (n + k)) s'.
Proof.
  intros Hq Hn Hlen Hsize.
  assert (forall k, 0 <= k < len -> translate (set_sum true s') VMA_WRITE (va + n + k) = Some (B (n + k)) /\
    forall a b, a ∈ walk_words (mem s') (satp_root s') (va + n + k) 2 -> a <= b < a + 8 -> quiet b /\ ~ in_buffer b) as Hat.
  { intros k Hk. rewrite <- Z.add_assoc. apply user_at with size; [done|done|lia|].
    intros a b Ha. by apply (sb_tables Hb (n + k) a b ltac:(lia)). }
  split.
  - exact (ft_proc _ _ _ (fc_table Hc)).
  - by apply (page_kbytes pg s1).
  - by apply (page_apart_process pg s1).
  - intros k Hk. by apply Hat.
  - intros k Hk. apply (ub_bytes _ _ _ _ Hu). lia.
  - intros j k Hj Hk E. apply (sb_inj Hb) in E; lia.
  - intros k Hk. pose proof (ub_quiet _ _ _ _ Hu (n + k) ltac:(lia)) as Hqk. split; [apply Hqk|].
    by apply (page_quiet pg s1 Hpg len).
  - intros k a b Hk Ha Hr. destruct (Hat k Hk) as [_ H]. destruct (H a b Ha Hr) as [(_ & Hne & _) Hd].
    split; [exact Hne|]. intros j Hj ->. apply Hd. exists (n + j). split; [lia|done].
Qed.

Lemma write_user n len s' : fetched n (n + len) s' -> 0 <= n -> 0 <= len <= 4096 -> n + len <= size ->
  (forall k, 0 <= k < len -> byte (mem s') (pg + k) = byte (mem s) (byte_at page (off + n + k))) ->
  exists s2, kernel_write_user (va + n) len pg proc s' = Ret true s2 /\ fetched (n + len) (n + len) s2.
Proof.
  intros [Fi Fq Ff Fu Fb] Hn Hlen Hsize Hpage. destruct fc_flag as [Gm Gb].
  destruct (kernel_write_user_copies pg len (va + n) proc (fun k => B (n + k)) s'
    ltac:(by apply chunk_writable) ltac:(lia) ltac:(lia) ltac:(unfold KERNEL_VMA_START; lia)) as (m & E & M1 & M2).
  exists (set_irq true (set_sum false (set_mem m s'))). split; [exact E|].
  assert (forall b, meta desc file root b \/ (exists k, 0 <= k < 4096 * pages /\ b = byte_at page k) -> byte m b = byte (mem s') b) as Mf.
  { intros b Hb'. apply M2.
    - intros ->. destruct Hb' as [H|(k & Hk & Eb)]; [by apply Gm|by apply (Gb k)].
    - intros k Hk ->. destruct (ub_quiet _ _ _ _ Hu (n + k) ltac:(lia)) as (_ & _ & Qm & Qb).
      destruct Hb' as [H|(j & Hj & Eb)]; [by apply Qm|by apply (Qb j)]. }
  split.
  - apply (call_inv pg s1 Hpg s' m); [done..|]. intros b _ Hb2. apply M2.
    + intros ->. by apply Hb2, flag_held.
    + intros k Hk ->. apply Hb2. apply (ub_quiet _ _ _ _ Hu). lia.
  - destruct Fq as [Fq1 Fq2]. split; [exact Fq1|]. intros b Hq Hd. cbn [mem set_mem set_irq set_sum].
    rewrite M2; [by apply Fq2|by apply Hq|]. intros k Hk ->. apply Hd. exists (n + k). split; [lia|done].
  - apply (open_file_same _ _ _ _ _ _ _ _ Ff). intros a Ha. apply Mf. by left.
  - intros k Hk. cbn [mem set_mem set_irq set_sum]. destruct (decide (n <= k < n + len)) as [Hin|Hout].
    + replace (B k) with (B (n + (k - n))) by (f_equal; lia). rewrite M1, Hpage by lia.
      replace (k <? n + len) with true by lia. do 2 f_equal. lia.
    + rewrite M2, Fu; [|done| |].
      * destruct (Z.ltb_spec k n), (Z.ltb_spec k (n + len)); try done; lia.
      * by apply (ub_quiet _ _ _ _ Hu).
      * intros j Hj E'. apply (sb_inj Hb) in E'; lia.
  - intros k Hk. cbn [mem set_mem set_irq set_sum]. rewrite Mf by (right; by exists k). by apply Fb.
Qed.

(** What a read of [size] bytes gets, and how much of it reaches the user. *)
Definition read_answer : Z := readable sz off size.
Definition delivered : Z := if 4096 * (size / 4096) <=? read_answer then read_answer else 4096 * (read_answer / 4096).

Lemma read_loop : 0 <= size ->
  wp (while_true (syscall_fs_read_page desc pg proc size) (0, 0, va))
    (fun r s' =>
       4096 * (size / 4096) <= read_answer /\ fetched (4096 * (size / 4096)) (4096 * (size / 4096)) s' /\
         r = (4096 * (size / 4096), va + 4096 * (size / 4096), size mod 4096) \/
       read_answer < 4096 * (size / 4096) /\ fetched (4096 * (read_answer / 4096)) read_answer s' /\
         exists cur, r = (read_answer, cur, 0)) s1.
Proof.
  intros Hsize. pose proof off_range as Ho.
  destruct (pages_rest size ltac:(lia)) as [Ep Er].
  assert (0 <= size / 4096 /\ 4096 * (size / 4096) <= size) as Hq by dlia.
  apply (wp_while (fun st s' => exists i, 0 <= i <= size / 4096 /\ st = (i, 4096 * i, va + 4096 * i) /\
      (0 < i -> off + 4096 * i <= sz) /\ fetched (4096 * i) (4096 * i) s')
    (fun '(i, _, _) _ => size / 4096 - i)).
  - intros st s' (i & Hi & -> & _). lia.
  - intros st s' (i & Hi & -> & Hin & Hf). unfold syscall_fs_read_page. rewrite Ep, Er.
    destruct (Z.ltb_spec i (size / 4096)) as [Hlt|Hge]; cbn [negb].
    + destruct (fetch_page _ _ 4096 s' Hf ltac:(lia) ltac:(lia) ltac:(lia)) as (s2 & E & Hf2 & Hp).
      pose proof (readable_bounds sz (off + 4096 * i) 4096 ltac:(lia)) as Hr.
      unfold wp. rewrite (bind_Ret _ _ _ _ _ E). cbv zeta. rewrite (wrap64_small (4096 * i + _)) by lia.
      destruct (Z.ltb_spec (readable sz (off + 4096 * i) 4096) 4096) as [Hless|Hfull].
      * assert (read_answer = 4096 * i + readable sz (off + 4096 * i) 4096) as Ea.
        { unfold read_answer. revert Hless. unfold readable, MIN. bool_cases; lia. }
        cbn [mret M_ret]. right. rewrite Ea in *. split; [lia|].
        replace ((4096 * i + readable sz (off + 4096 * i) 4096) / 4096) with i by dlia. split; [exact Hf2|]. by eexists.
      * assert (readable sz (off + 4096 * i) 4096 = 4096) as Er' by lia. rewrite Er' in *.
        destruct (write_user (4096 * i) 4096 s2 Hf2 ltac:(lia) ltac:(lia) ltac:(lia) Hp) as (s3 & E3 & Hf3).
        rewrite (bind_Ret _ _ _ _ _ E3). cbn [mret M_ret]. rewrite !wrap64_small by lia. split; [|lia].
        exists (i + 1). replace (4096 * (i + 1)) with (4096 * i + 4096) by lia.
        split; [lia|]. split; [f_equal; lia|]. split; [|exact Hf3]. intros _. revert Er'. unfold readable, MIN. bool_cases; lia.
    + apply wp_ret. left. assert (i = size / 4096) as -> by lia. split; [|done].
      unfold read_answer, readable, MIN. destruct (Z.eq_dec (size / 4096) 0); [bool_cases; lia|]. bool_cases; lia.
  - exists 0. split; [lia|]. split; [f_equal; lia|]. split; [lia|exact fetched_none].
  - lia.
Qed.

Lemma read_body : 0 <= size ->
  wp (syscall_fs_read_through desc pg proc size va) (fun r s' => r = read_answer /\ fetched delivered read_answer s') s1.
Proof.
  intros Hsize. unfold syscall_fs_read_through. apply wp_bind. eapply wp_mono; [apply read_loop, Hsize|].
  pose proof off_range as Ho. pose proof (readable_bounds sz off size Hsize) as Ha. fold read_answer in Ha.
  pose proof (Z.div_mod size 4096 ltac:(lia)) as Hdm. pose proof (Z.mod_pos_bound size 4096 ltac:(lia)) as Hmod.
  unfold delivered. intros r s' [(Hq & Hf & ->)|(Hq & Hf & cur & ->)].
  - destruct (Z.leb_spec (4096 * (size / 4096)) read_answer); [|lia].
    destruct (Z.ltb_spec 0 (size mod 4096)) as [Hlt|Hge].
    + destruct (fetch_page _ _ (size mod 4096) s' Hf ltac:(lia) ltac:(lia) ltac:(lia)) as (s2 & E & Hf2 & Hp).
      assert (read_answer = 4096 * (size / 4096) + readable sz (off + 4096 * (size / 4096)) (size mod 4096)) as Ea.
      { unfold read_answer in *. revert Hq. unfold readable, MIN. bool_cases; lia. }
      pose proof (readable_bounds sz (off + 4096 * (size / 4096)) (size mod 4096) ltac:(lia)) as Hr.
      rewrite Ea in Ha.
      destruct (write_user (4096 * (size / 4096)) (readable sz (off + 4096 * (size / 4096)) (size mod 4096)) s2
        Hf2 ltac:(lia) ltac:(lia) ltac:(lia) Hp) as (s3 & E3 & Hf3).
      unfold wp. rewrite (bind_Ret _ _ _ _ _ E), (bind_Ret _ _ _ _ _ E3). cbn [mret M_ret].
      rewrite wrap64_small by lia. rewrite <- Ea in *. by split.
    + apply wp_ret. assert (read_answer = 4096 * (size / 4096)) as -> by lia. done.
  - destruct (Z.leb_spec (4096 * (size / 4096)) read_answer); [lia|]. by apply wp_ret.
Qed.
End Read.

(** ** The calls *)

(** A call passes the identifier of the file, the buffer and its size. *)
Definition call_args (trap : trap_data) (va size : Z) : Prop :=
  process_ptr trap = proc /\ arg1_reg trap = id /\ arg2_reg trap = va /\ arg3_reg trap = size.

(** What remains of [s2] when the page is given back. *)
Lemma after_call s2 s' : (forall b, held owned b -> byte (mem s') b = byte (mem s2) b) ->
  (forall sz' off', open_file desc file root page pages sz' off' (mem s2) -> open_file desc file root page pages sz' off' (mem s')) /\
  (forall k, 0 <= k < 4096 * pages -> byte (mem s') (byte_at page k) = byte (mem s2) (byte_at page k)) /\
  (forall b, quiet b -> byte (mem s') b = byte (mem s2) b).
Proof.
  intros H. split; [|split].
  - intros sz' off' Hf. apply (open_file_same _ _ _ _ _ _ _ _ Hf). intros a Ha. apply H, (fc_held Hc). right. by left.
  - intros k Hk. apply H, (fc_held Hc). right. right. by exists k.
  - intros b [Hb _]. by apply H.
Qed.

Lemma write_call va size A trap :
  user_buffer VMA_READ va size A -> call_args trap va size ->
  0 <= va -> 0 <= size -> va + size < KERNEL_VMA_START -> off + size <= 4096 * pages ->
  oom_or (syscall_fs_write trap) (fun t s' => t = set_return size trap /\ ps_inv owned s' /\
    exists s2 pg, written pg A size s2 /\ kernel_rest s' = kernel_rest s2 /\ forall b, held owned b -> byte (mem s') b = byte (mem s2) b) s.
Proof.
  intros Hu (Ep & E1 & E2 & E3) Hva Hsize Hend Hroom. destruct call_desc as [Ed Hnz].
  unfold syscall_fs_write. rewrite Ep, E1, E2, E3. apply oom_bind, (oom_ret desc _ _ s _ Ed). rewrite Hnz.
  apply oom_bind. eapply oom_mono.
  - apply (with_page_runs _ (fun r s2 => r = size /\ exists pg, written pg A size s2) owned); [exact (fc_pages Hc)|].
    intros pg s1 Hpg. eapply wp_mono; [by apply (write_body pg s1 Hpg va size A)|].
    intros r s2 [-> Hw]. split; [apply Hw|]. split; [done|]. by exists pg.
  - intros r s' (Hi & s2 & (-> & pg & Hw) & Hsat & Hs). apply (oom_ret (set_return size trap) _ _ s'); [done|].
    split; [done|]. split; [done|]. by exists s2, pg.
Qed.

Lemma read_call va size B trap :
  user_buffer VMA_WRITE va size B -> separate_buffer va size B -> call_args trap va size ->
  0 < va -> 0 <= size -> va + size < 9223372036854775808 -> (0 < read_answer size -> off + read_answer size <= 4096 * pages) ->
  oom_or (syscall_fs_read trap) (fun t s' => t = set_return (read_answer size) trap /\ ps_inv owned s' /\
    exists s2 pg, fetched pg size B (delivered size) (read_answer size) s2 /\
      kernel_rest s' = kernel_rest s2 /\ forall b, held owned b -> byte (mem s') b = byte (mem s2) b) s.
Proof.
  intros Hu Hb (Ep & E1 & E2 & E3) Hva Hsize Hend Hsz. destruct call_desc as [Ed Hnz].
  unfold syscall_fs_read. rewrite Ep, E1, E2, E3. apply oom_bind, (oom_ret desc _ _ s _ Ed). rewrite Hnz.
  apply oom_bind. eapply oom_mono.
  - apply (with_page_runs _ (fun r s2 => r = read_answer size /\ exists pg, fetched pg size B (delivered size) (read_answer size) s2) owned);
      [exact (fc_pages Hc)|].
    intros pg s1 Hpg. eapply wp_mono; [by apply (read_body pg s1 Hpg va size B)|].
    intros r s2 [-> Hw]. split; [apply Hw|]. split; [done|]. by exists pg.
  - intros r s' (Hi & s2 & (-> & pg & Hw) & Hsat & Hs). apply (oom_ret (set_return (read_answer size) trap) _ _ s'); [done|].
    split; [done|]. split; [done|]. by exists s2, pg.
Qed.
End Calls.

(** ** One call after another *)

(** A state from which the process can make its next call. *)
Record next_call {PS : PageSource pg_alloc} (owned : gset Z) (proc desc file root : Z) (page : Z -> Z)
    (pages sz off : Z) (s s' : kstate) : Prop := {
  nc_pages : ps_inv owned s';
  nc_satp : satp s' = satp s;
  nc_quiet b : quiet owned proc desc file root page pages b -> byte (mem s') b = byte (mem s) b;
  nc_file : open_file desc file root page pages sz off (mem s');
}.

Section Again.
Context {PS : PageSource pg_alloc} (owned : gset Z).
Context (proc table id desc file root : Z) (page : Z -> Z) (pages sz off sz' off' : Z) (s s' : kstate).
Context (Hc : file_call owned proc table id desc file root page pages sz off s).
Context (Hn : next_call owned proc desc file root page pages sz' off' s s').
Local Abbreviation quiet := (quiet owned proc desc file root page pages).

Lemma quiet_word a : a mod 8 = 0 -> (forall b, a <= b < a + 8 -> quiet b) -> rd (mem s') a = rd (mem s) a.
Proof. intros Ha Hq. apply rd_bytes; [done|]. intros k Hk. apply (nc_quiet _ _ _ _ _ _ _ _ _ _ _ Hn), Hq. lia. Qed.

Lemma call_again : file_call owned proc table id desc file root page pages sz' off' s'.
Proof.
  destruct Hc as [Hi [Tp Tg Tl Ta] Hid Hd Hf Hh Hp He]. split.
  - exact (nc_pages _ _ _ _ _ _ _ _ _ _ _ Hn).
  - split; [done|done| |done]. rewrite <- Tl. destruct Tp as (_ & _ & T8). apply quiet_word; [clear -T8; dlia|].
    intros b Hb. unfold sizeof_process in *. split; [apply Hh; left; unfold sizeof_process; lia|]. split; [lia|apply Hp; lia].
  - exact Hid.
  - rewrite <- Hd. unfold fd_slot. destruct Tg as (_ & _ & T8). apply quiet_word; [clear -T8; dlia|].
    intros b Hb. apply He. lia.
  - exact (nc_file _ _ _ _ _ _ _ _ _ _ _ Hn).
  - exact Hh.
  - exact Hp.
  - exact He.
Qed.

Lemma walk_again perm va size A k : user_buffer owned proc desc file root page pages s perm va size A -> 0 <= k < size ->
  translate (set_sum true s') perm (va + k) = Some (A k) /\
  walk_words (mem s') (satp_root s') (va + k) 2 = walk_words (mem s) (satp_root s) (va + k) 2.
Proof.
  intros Hu Hk. apply (translate_same perm (va + k) (A k) s (set_sum true s') (ub_walk _ _ _ _ _ _ _ _ _ _ _ _ Hu k Hk));
    [exact (nc_satp _ _ _ _ _ _ _ _ _ _ _ Hn)|done|].
  intros a b Ha Hb. apply (nc_quiet _ _ _ _ _ _ _ _ _ _ _ Hn). by apply (ub_tables _ _ _ _ _ _ _ _ _ _ _ _ Hu k a b).
Qed.

Lemma buffer_again perm va size A : user_buffer owned proc desc file root page pages s perm va size A ->
  user_buffer owned proc desc file root page pages s' perm va size A.
Proof.
  intros Hu. split.
  - intros k Hk. by apply (walk_again perm va size A k Hu).
  - apply (ub_bytes _ _ _ _ _ _ _ _ _ _ _ _ Hu).
  - apply (ub_quiet _ _ _ _ _ _ _ _ _ _ _ _ Hu).
  - intros k a b Hk. rewrite (proj2 (walk_again perm va size A k Hu Hk)). by apply (ub_tables _ _ _ _ _ _ _ _ _ _ _ _ Hu k a b).
Qed.

Lemma separate_again perm va size B : user_buffer owned proc desc file root page pages s perm va size B ->
  separate_buffer s va size B -> separate_buffer s' va size B.
Proof.
  intros Hu [H1 H2]. split; [exact H1|]. intros k a b Hk. rewrite (proj2 (walk_again perm va size B k Hu Hk)). by apply (H2 k a b).
Qed.

Lemma seek_call {PH : PageHeap PS pg_free} trap pos :
  process_ptr trap = proc -> arg1_reg trap = id -> arg2_reg trap = pos -> u64 pos ->
  exists s2, syscall_fs_seek trap s' = Ret trap s2 /\ next_call owned proc desc file root page pages sz' pos s s2 /\
    forall k, 0 <= k < 4096 * pages -> byte (mem s2) (byte_at page k) = byte (mem s') (byte_at page k).
Proof.
  intros Ep E1 E2 Hpos. destruct (call_desc _ _ _ _ _ _ _ _ _ _ _ _ call_again) as [Ed Hnz].
  pose proof (nc_file _ _ _ _ _ _ _ _ _ _ _ Hn) as Hf. exists (set_mem (wr (mem s') (desc + 8) pos) s').
  assert ((desc + 8) mod 8 = 0) as H8 by (destruct (of_desc _ _ _ _ _ _ _ _ Hf) as (_ & _ & H); clear -H; dlia).
  assert (forall b, ~ meta desc file root b -> byte (wr (mem s') (desc + 8) pos) b = byte (mem s') b) as Hout.
  { intros b Hb. unfold meta in Hb. apply byte_wr_out; [done|lia]. }
  split; [|split; [split|]].
  - unfold syscall_fs_seek. rewrite Ep, E1, E2, (bind_Ret _ _ _ _ _ Ed), Hnz.
    by rewrite (bind_Ret _ _ _ _ _ (store_seek _ _ _ _ _ _ _ _ Hf pos)).
  - apply ph_bytes; [exact (nc_pages _ _ _ _ _ _ _ _ _ _ _ Hn)|]. intros b Hb. apply Hout. intros Hm.
    apply Hb, (fc_held _ _ _ _ _ _ _ _ _ _ _ _ Hc). right. by left.
  - exact (nc_satp _ _ _ _ _ _ _ _ _ _ _ Hn).
  - intros b Hb. cbn [mem set_mem]. rewrite Hout by (by apply Hb). by apply (nc_quiet _ _ _ _ _ _ _ _ _ _ _ Hn).
  - by apply (open_file_seek _ _ _ _ _ _ off').
  - intros k Hk. cbn [mem set_mem]. apply Hout. intros Hm. by apply (byte_at_meta _ _ _ _ _ _ _ _ Hf k _ Hk Hm).
Qed.
End Again.

(** C12: a process writes [size] bytes of its memory to a file it has open: to the
    descriptor in the entry of its table after the one the number was given
    for, which is the one [fd_get_local] finds.  The range written lies within
    the pages the file already has, at most 15 of them (for a page it does not have
    [find_page_start] takes a new one or panics, see [file_past_pages_panics]).
    Then the call answers [size]; the bytes of the file from the seek position on
    are those of the buffer as the process sees it, the seek position is after
    them, and the size of the file covers them; the other bytes of the file and
    everything else the kernel holds but the flag of the process are as before, and
    the page the data went through is given back.  Only when there is no page for
    the data to go through, such a call ends in a panic. *)
Theorem syscall_write_file {PS : PageSource pg_alloc} {PH : PageHeap PS pg_free}
    owned proc table id desc file root page pages sz off va size A trap s :
  file_call owned proc table id desc file root page pages sz off s ->
  user_buffer owned proc desc file root page pages s VMA_READ va size A -> call_args proc id trap va size ->
  0 <= va -> 0 <= size -> va + size < KERNEL_VMA_START -> off + size <= 4096 * pages ->
  syscall_fs_write trap s = Panic "OUT_OF_FREE_PAGES" 0 0 0 \/
  exists sz' s', syscall_fs_write trap s = Ret (set_return size trap) s' /\ ps_inv owned s' /\
    open_file desc file root page pages sz' (off + size) (mem s') /\ sz <= sz' /\ (0 < size -> off + size <= sz') /\
    (forall k, 0 <= k < size -> byte (mem s') (byte_at page (off + k)) = byte (mem s) (A k)) /\
    (forall k, 0 <= k < 4096 * pages -> k < off \/ off + size <= k ->
       byte (mem s') (byte_at page k) = byte (mem s) (byte_at page k)) /\
    (forall b, quiet owned proc desc file root page pages b -> byte (mem s') b = byte (mem s) b).
Proof.
  intros Hc Hu Ha Hva Hsize Hend Hroom.
  destruct (write_call _ _ _ _ _ _ _ _ _ _ _ _ Hc va size A trap Hu Ha Hva Hsize Hend Hroom)
    as [E|(t & s' & E & -> & Hi & s2 & pg & [_ [_ Hq] (sz' & Hf & H1 & H2) Hnew Hold] & _ & Hs)]; [by left|right].
  destruct (after_call _ _ _ _ _ _ _ _ _ _ _ _ Hc s2 s' Hs) as (Kf & Kb & Kq).
  pose proof (rd_u64 (mem s) (desc + 8)) as Ho. rewrite (of_seek _ _ _ _ _ _ _ _ (fc_file _ _ _ _ _ _ _ _ _ _ _ _ Hc)) in Ho.
  unfold u64 in Ho. exists sz', s'. split; [exact E|]. split; [exact Hi|]. split; [by apply Kf|].
  split; [exact H1|]. split; [exact H2|]. split; [|split].
  - intros k Hk. rewrite Kb by lia. by apply Hnew.
  - intros k Hk Hko. rewrite Kb by lia. by apply Hold.
  - intros b Hb. rewrite Kq by done. apply Hq; [done|by intros []].
Qed.

(** C13: a process reads [size] bytes from a file it has open, as the
    descriptor in the entry of its table after that of the number.  What is there to read,
    from the seek position to the end of the file, at most [size], lies
    within the pages of the file, at most 15 (the size the code keeps may promise
    more: [file_past_pages_panics]).  Then the call answers that number and moves the seek
    position past them, but the buffer only gets [got] of them: when the file
    ends within the whole pages asked for, what the last of these reads found is
    counted and dropped.  So a read of 4096 bytes or more from a file with fewer
    left answers how many there are and leaves the buffer as it was.  The rest
    of the buffer, the file and everything else the kernel holds but the flag
    of the process are as before.  Only when there is no page for the data to go
    through, such a call ends in a panic. *)
Theorem syscall_read_file {PS : PageSource pg_alloc} {PH : PageHeap PS pg_free}
    owned proc table id desc file root page pages sz off va size B trap s :
  file_call owned proc table id desc file root page pages sz off s ->
  user_buffer owned proc desc file root page pages s VMA_WRITE va size B ->
  separate_buffer s va size B -> call_args proc id trap va size ->
  0 < va -> 0 <= size -> va + size < 9223372036854775808 ->
  let n := readable sz off size in (0 < n -> off + n <= 4096 * pages) ->
  let got := if 4096 * (size / 4096) <=? n then n else 4096 * (n / 4096) in
  syscall_fs_read trap s = Panic "OUT_OF_FREE_PAGES" 0 0 0 \/
  exists s', syscall_fs_read trap s = Ret (set_return n trap) s' /\ ps_inv owned s' /\
    open_file desc file root page pages sz (off + n) (mem s') /\
    (forall k, 0 <= k < size ->
       byte (mem s') (B k) = if k <? got then byte (mem s) (byte_at page (off + k)) else byte (mem s) (B k)) /\
    (forall k, 0 <= k < 4096 * pages -> byte (mem s') (byte_at page k) = byte (mem s) (byte_at page k)) /\
    (forall b, quiet owned proc desc file root page pages b -> (forall k, 0 <= k < size -> b <> B k) ->
       byte (mem s') b = byte (mem s) b).
Proof.
  intros Hc Hu Hb Ha Hva Hsize Hend n Hsz got.
  destruct (read_call _ _ _ _ _ _ _ _ _ _ _ _ Hc va size B trap Hu Hb Ha Hva Hsize Hend Hsz)
    as [E|(t & s' & E & -> & Hi & s2 & pg & [_ [_ Hq] Hf Hus Hby] & _ & Hs)]; [by left|right].
  destruct (after_call _ _ _ _ _ _ _ _ _ _ _ _ Hc s2 s' Hs) as (Kf & Kb & Kq).
  exists s'. split; [exact E|]. split; [exact Hi|]. split; [by apply Kf|]. split; [|split].
  - intros k Hk. rewrite Kq by (by apply (ub_quiet _ _ _ _ _ _ _ _ _ _ _ _ Hu)). by apply Hus.
  - intros k Hk. rewrite Kb by done. by apply Hby.
  - intros b Hb1 Hb2. rewrite Kq by done. apply Hq; [done|]. intros (j & Hj & ->). by apply (Hb2 j).
Qed.

(** What a process writes it reads back.  It writes [size] bytes to a file
    it has open, seeks to where it started and reads as many into another buffer:
    the three calls succeed, unless there is no page for them, and the second
    buffer then has the bytes the first one had, whatever the size. *)
Theorem process_reads_back {PS : PageSource pg_alloc} {PH : PageHeap PS pg_free}
    owned proc table id desc file root page pages sz off va vb size A B write seek read s :
  file_call owned proc table id desc file root page pages sz off s ->
  user_buffer owned proc desc file root page pages s VMA_READ va size A ->
  user_buffer owned proc desc file root page pages s VMA_WRITE vb size B -> separate_buffer s vb size B ->
  call_args proc id write va size -> call_args proc id read vb size ->
  process_ptr seek = proc -> arg1_reg seek = id -> arg2_reg seek = off ->
  0 <= va -> 0 < vb -> 0 <= size -> va + size < 9223372036854775808 -> vb + size < 9223372036854775808 ->
  off + size <= 4096 * pages ->
  let calls := _ ← syscall_fs_write write; _ ← syscall_fs_seek seek; syscall_fs_read read in
  calls s = Panic "OUT_OF_FREE_PAGES" 0 0 0 \/
  exists s', calls s = Ret (set_return size read) s' /\
    forall k, 0 <= k < size -> byte (mem s') (B k) = byte (mem s) (A k).
Proof.
  intros Hc Hu Hv Hb Hw Hr P1 P2 P3 Hva Hvb Hsize Ea Eb Hroom calls.
  pose proof (rd_u64 (mem s) (desc + 8)) as Ho. rewrite (of_seek _ _ _ _ _ _ _ _ (fc_file _ _ _ _ _ _ _ _ _ _ _ _ Hc)) in Ho.
  cut (oom_or calls (fun t s' => t = set_return size read /\ forall k, 0 <= k < size -> byte (mem s') (B k) = byte (mem s) (A k)) s).
  { intros [E|(t & s' & E & -> & H)]; [by left|right; by exists s']. }
  apply oom_bind. eapply oom_mono.
  { apply (write_call _ _ _ _ _ _ _ _ _ _ _ _ Hc va size A write Hu Hw); (done || (unfold KERNEL_VMA_START; lia)). }
  intros t s1 (_ & Hi1 & s1' & pg & [_ [Hsat Hq] (sz' & Hf & H1 & H2) Hnew _] & Hs1 & Hb1).
  destruct (after_call _ _ _ _ _ _ _ _ _ _ _ _ Hc s1' s1 Hb1) as (Kf & Kb & Kq).
  assert (next_call owned proc desc file root page pages sz' (off + size) s s1) as Hn1.
  { split; [done|by apply rest_satp; rewrite Hs1| |by apply Kf]. intros b Hqb. rewrite Kq by done. apply Hq; [done|by intros []]. }
  destruct (seek_call _ _ _ _ _ _ _ _ _ _ _ _ _ _ _ Hc Hn1 seek off P1 P2 P3 Ho) as (s2 & E2 & Hn2 & Hb2).
  apply oom_bind, (oom_ret _ _ _ _ _ E2).
  assert (readable sz' off size = size) as En by (unfold readable, MIN; bool_cases; lia).
  pose proof (call_again _ _ _ _ _ _ _ _ _ _ _ _ _ _ _ Hc Hn2) as Hc2.
  eapply oom_mono.
  { apply (read_call _ _ _ _ _ _ _ _ _ _ _ _ Hc2 vb size B read).
    - eapply buffer_again; eassumption.
    - eapply separate_again; eassumption.
    - done.
    - done.
    - done.
    - done.
    - unfold read_answer. rewrite En. lia. }
  intros t' s3 (-> & _ & s3' & pg' & [_ _ _ Hus _] & _ & Hb3). unfold read_answer, delivered in *. rewrite En in *.
  split; [done|]. intros k Hk. rewrite Hb3 by (by apply (ub_quiet _ _ _ _ _ _ _ _ _ _ _ _ Hv)). rewrite Hus by done.
  replace (4096 * (size / 4096) <=? read_answer sz' off size) with true by (unfold read_answer; rewrite En; dlia).
  unfold read_answer. rewrite En. replace (k <? size) with true by lia.
  unfold u64 in Ho. rewrite Hb2, Kb by lia. by apply Hnew.
Qed.

(** ** Witnesses

    Twelve pages of the demonstration region: the process, its table of files, the
    descriptor with the inode and the node of the file, the page of the file (100
    bytes, opened at 10), three tables, the user page at 0x1000, and for the file
    ProcessIO two tables of the trap frame, the frame and the frame of the kernel. *)
Definition call_at (i : Z) : Z := demo_table + 4096 * (i + 1).
Definition call_owned : gset Z := list_to_set (call_at <$> upto 0 12).
Definition call_page_of (k : Z) : Z := call_at 3 + 4096 * k.
Definition call_words : list (Z * Z) :=
  [(demo_table + 256, 4095); (call_at 0 + 64, call_at 1); (call_at 1 + 16, call_at 2); (call_at 2, call_at 2 + 64);
   (call_at 2 + 8, 10); (call_at 2 + 80, 100); (call_at 2 + 88, call_at 2 + 256); (call_at 2 + 256, call_at 3);
   (call_at 4, create_branch (call_at 5)); (call_at 5, create_branch (call_at 6)); (call_at 6 + 8, pte 0x80008 215);
   (call_at 7, 0x0807060504030201);
   (call_at 0 + 24, call_at 10); (call_at 0 + 32, call_at 11); (call_at 0 + 48, call_at 4);
   (call_at 4 + 8 * 511, create_branch (call_at 8)); (call_at 8 + 8 * 511, create_branch (call_at 9));
   (call_at 9 + 8 * 510, pte 0x8000b 199); (call_at 10 + 280, call_at 0)].
Definition call_memory : gmap Z Z := foldr (fun '(a, v) m => wr m a v) (mem demo_pager) call_words.
Definition call_state : kstate := set_satp 0x80005 (set_mem call_memory demo_pager).
Definition call_trap (va size : Z) : trap_data :=
  mkTrap (call_at 0) TRAP_TYPE_EXCEPTION TRAP_MODE_USER TRAP_SYSCALL 0 0 SYSCALL_FS_WRITE 0 va size 0 0.

Lemma call_state_inv : ps_inv call_owned call_state.
Proof.
  exists [demo_region]. split.
  - split; [exact demo_layout| |].
    + split; [zdone|]. intros [|i] r Hr; [injection Hr as <-|done]. unfold table_entry; zdone.
    + split; [zdone|]. intros i r p Hr Hp [H|H]; unfold allocatable in Hp; cbn in *; lia.
  - intros a Ha. apply elem_of_list_to_set, list_elem_of_fmap in Ha as (i & -> & Hi). apply elem_of_upto in Hi.
    exists 0%nat, demo_region, i. split; [done|]. split; [cbn [demo_region r_cnt]; lia|].
    split; [unfold call_at, page_addr, demo_region, KERNEL_PAGE_SIZE; cbn [r_base]; lia|].
    assert (0 <= i < 12) as Hi' by lia. clear Hi. revert i Hi'.
    apply (forall_upto (fun i => page_used (mem call_state) demo_region i = true) 12 _ eq_refl). repeat constructor.
Qed.

Lemma call_held i b : 0 <= i < 12 -> call_at i <= b < call_at i + 4096 -> held call_owned b.
Proof.
  intros Hi Hb. exists (call_at i). split; [|exact Hb]. apply elem_of_list_to_set, list_elem_of_fmap.
  exists i. split; [done|]. apply elem_of_upto. lia.
Qed.

Lemma call_open : open_file (call_at 2) (call_at 2 + 64) (call_at 2 + 256) call_page_of 1 100 10 call_memory.
Proof.
  split; [unfold kblock; zdone|unfold kblock; zdone|unfold kblock; zdone
    |vm_compute; reflexivity|vm_compute; reflexivity|vm_compute; reflexivity|vm_compute; reflexivity|vm_compute; reflexivity|zdone| | | |].
  - intros k Hk. assert (k = 0) as -> by lia. split; [vm_compute; reflexivity|unfold kblock; zdone].
  - intros k a Hk Ha. unfold meta, call_page_of, call_at in *. lia.
  - intros j k Hj Hk Hne. lia.
  - unfold disjoint. zdone.
Qed.

Lemma call_byte k : 0 <= k < 4096 * 1 -> byte_at call_page_of k = call_at 3 + k.
Proof. intros Hk. unfold byte_at, call_page_of, call_at. dlia. Qed.

Lemma call_not_file i b : 0 <= i < 2 \/ 4 <= i < 12 -> call_at i <= b < call_at i + 4096 ->
  not_file (call_at 2) (call_at 2 + 64) (call_at 2 + 256) call_page_of 1 b.
Proof.
  intros Hi Hb. unfold call_at, meta in *. split; [unfold meta; lia|].
  intros k Hk. rewrite call_byte by done. unfold call_at. lia.
Qed.

Lemma call_ready : file_call call_owned (call_at 0) (call_at 1) 0 (call_at 2) (call_at 2 + 64) (call_at 2 + 256) call_page_of 1 100 10 call_state.
Proof.
  split.
  - exact call_state_inv.
  - split; [unfold kblock; zdone|unfold kblock; zdone|vm_compute; reflexivity|left; zdone].
  - lia.
  - vm_compute; reflexivity.
  - exact call_open.
  - intros b [Hb|[Hb|(k & Hk & ->)]].
    + apply (call_held 0); [lia|]. unfold sizeof_process in Hb. lia.
    + apply (call_held 2); [lia|]. unfold meta in Hb. lia.
    + apply (call_held 3); [lia|]. rewrite call_byte by done. lia.
  - intros b Hb. apply (call_not_file 0); [lia|]. unfold sizeof_process in Hb. lia.
  - intros b Hb. split; [by apply (call_held 1)|]. split; [unfold call_at in *; lia|]. by apply (call_not_file 1); [lia|].
Qed.

(** The walk from an address of the user page. *)
Lemma call_vpn k : 0 <= k < 4096 -> vpn (0x1000 + k) 2 = 0 /\ vpn (0x1000 + k) 1 = 0 /\ vpn (0x1000 + k) 0 = 1.
Proof.
  intros Hk. unfold vpn. change (2 ^ level_shift 2) with 1073741824. change (2 ^ level_shift 1) with 2097152.
  change (2 ^ level_shift 0) with 4096. split_and!; dlia.
Qed.

Lemma call_walk va : vpn va 2 = 0 -> vpn va 1 = 0 -> vpn va 0 = 1 ->
  sv39_walk call_memory (call_at 4) va 2 = Some (0x80008000 + va mod 4096, 215) /\
  walk_words call_memory (call_at 4) va 2 = [call_at 4; call_at 5; call_at 6 + 8].
Proof.
  intros H2 H1 H0.
  assert (page_ok (call_at 5) /\ page_ok (call_at 6)) as [P5 P6] by (split; unfold page_ok; zdone). split.
  - rewrite (walk_created_branch _ _ _ 1 (call_at 5)) by (rewrite ?H2; (exact P5 || (vm_compute; reflexivity))).
    rewrite (walk_created_branch _ _ _ 0 (call_at 6)) by (rewrite ?H1; (exact P6 || (vm_compute; reflexivity))).
    rewrite (walk_leaf _ _ _ 0 0x80008 215); [done|rewrite H0; vm_compute; reflexivity|zdone..].
  - cbn [walk_words]. rewrite H2, H1, H0. vm_compute. reflexivity.
Qed.

Lemma call_quiet i b : 4 <= i < 12 -> call_at i <= b < call_at i + 4096 ->
  quiet call_owned (call_at 0) (call_at 2) (call_at 2 + 64) (call_at 2 + 256) call_page_of 1 b.
Proof.
  intros Hi Hb. split; [by apply (call_held i); [lia|]|]. split; [unfold call_at in *; lia|]. by apply (call_not_file i); [lia|].
Qed.

Lemma call_buffer perm o size : 0 <= o -> o + size <= 4096 -> perm = VMA_READ \/ perm = VMA_WRITE ->
  user_buffer call_owned (call_at 0) (call_at 2) (call_at 2 + 64) (call_at 2 + 256) call_page_of 1 call_state perm (0x1000 + o) size
    (Z.add (call_at 7 + o)).
Proof.
  intros Ho Hsize Hperm. assert (satp_root call_state = call_at 4) as Er by (vm_compute; reflexivity). split.
  - intros k Hk. rewrite <- (Z.add_assoc 0x1000). destruct (call_vpn (o + k) ltac:(lia)) as (V2 & V1 & V0). unfold translate.
    replace (canonicalb (0x1000 + (o + k))) with true by (unfold canonicalb, KERNEL_VMA_START; lia). cbn [negb].
    change (satp_root (set_sum true call_state)) with (satp_root call_state). rewrite Er.
    change (mem (set_sum true call_state)) with call_memory. rewrite (proj1 (call_walk _ V2 V1 V0)).
    replace ((0x1000 + (o + k)) mod 4096) with (o + k) by dlia.
    destruct Hperm as [->| ->]; (replace (negb _ && _) with true by (vm_compute; reflexivity));
      (f_equal; unfold call_at, demo_table, KERNEL_VMA_START; lia).
  - intros k Hk. unfold kbytes, call_at, demo_table, KERNEL_VMA_START. lia.
  - intros k Hk. apply (call_quiet 7); [lia|]. lia.
  - intros k a b Hk. rewrite <- (Z.add_assoc 0x1000). destruct (call_vpn (o + k) ltac:(lia)) as (V2 & V1 & V0). rewrite Er.
    change (mem call_state) with call_memory. rewrite (proj2 (call_walk _ V2 V1 V0)). intros Ha Hb.
    apply elem_of_cons in Ha as [->|Ha]; [apply (call_quiet 4); lia|].
    apply elem_of_cons in Ha as [->|Ha]; [apply (call_quiet 5); lia|].
    apply elem_of_cons in Ha as [->|Ha]; [apply (call_quiet 6); lia|]. by apply not_elem_of_nil in Ha.
Qed.

Lemma call_separate o size : 0 <= o -> o + size <= 4096 -> separate_buffer call_state (0x1000 + o) size (Z.add (call_at 7 + o)).
Proof.
  intros Ho Hsize. assert (satp_root call_state = call_at 4) as Er by (vm_compute; reflexivity). split.
  - intros j k _ _ E. lia.
  - intros k a b Hk. rewrite <- (Z.add_assoc 0x1000). destruct (call_vpn (o + k) ltac:(lia)) as (V2 & V1 & V0). rewrite Er.
    change (mem call_state) with call_memory. rewrite (proj2 (call_walk _ V2 V1 V0)). intros Ha Hb (j & Hj & ->).
    unfold call_at in *. repeat (apply elem_of_cons in Ha as [->|Ha]; [lia|]). by apply not_elem_of_nil in Ha.
Qed.

Lemma call_args_ok va size : call_args (call_at 0) 0 (call_trap va size) va size.
Proof. done. Qed.

Lemma syscall_write_file_witness :
  syscall_fs_write (call_trap 0x1000 8) call_state = Panic "OUT_OF_FREE_PAGES" 0 0 0 \/
  exists s', syscall_fs_write (call_trap 0x1000 8) call_state = Ret (set_return 8 (call_trap 0x1000 8)) s' /\
    byte (mem s') (call_at 3 + 12) = 3.
Proof.
  destruct (syscall_write_file call_owned (call_at 0) (call_at 1) 0 (call_at 2) (call_at 2 + 64) (call_at 2 + 256) call_page_of 1
    100 10 (0x1000 + 0) 8 (Z.add (call_at 7 + 0)) (call_trap 0x1000 8) call_state call_ready
    (call_buffer VMA_READ 0 8 ltac:(lia) ltac:(lia) ltac:(by left))
    (call_args_ok 0x1000 8) ltac:(lia) ltac:(lia) ltac:(unfold KERNEL_VMA_START; lia) ltac:(lia))
    as [E|(sz' & s' & E & _ & _ & _ & _ & W & _)]; [left; exact E|right].
  exists s'. split; [exact E|]. specialize (W 2 ltac:(lia)). rewrite call_byte in W by lia.
  rewrite (W : byte (mem s') (call_at 3 + 12) = _). vm_compute. reflexivity.
Defined.

(** A read of a whole page: the 90 bytes there are do not arrive. *)
Lemma syscall_read_file_witness :
  syscall_fs_read (call_trap 0x1000 4096) call_state = Panic "OUT_OF_FREE_PAGES" 0 0 0 \/
  exists s', syscall_fs_read (call_trap 0x1000 4096) call_state = Ret (set_return 90 (call_trap 0x1000 4096)) s' /\
    byte (mem s') (call_at 7 + 2) = 3.
Proof.
  destruct (syscall_read_file call_owned (call_at 0) (call_at 1) 0 (call_at 2) (call_at 2 + 64) (call_at 2 + 256) call_page_of 1
    100 10 (0x1000 + 0) 4096 (Z.add (call_at 7 + 0)) (call_trap 0x1000 4096) call_state call_ready
    (call_buffer VMA_WRITE 0 4096 ltac:(lia) ltac:(lia) ltac:(by right))
    (call_separate 0 4096 ltac:(lia) ltac:(lia)) (call_args_ok 0x1000 4096) ltac:(lia) ltac:(lia) ltac:(lia) ltac:(intros _; zdone))
    as [E|(s' & E & _ & _ & W & _)]; [left; exact E|right].
  exists s'. split; [exact E|]. specialize (W 2 ltac:(lia)). rewrite (W : byte (mem s') (call_at 7 + 2) = _). vm_compute. reflexivity.
Defined.

Lemma process_reads_back_witness :
  let calls := _ ← syscall_fs_write (call_trap 0x1000 8); _ ← syscall_fs_seek (call_trap 10 0); syscall_fs_read (call_trap 0x1100 8) in
  calls call_state = Panic "OUT_OF_FREE_PAGES" 0 0 0 \/
  exists s', calls call_state = Ret (set_return 8 (call_trap 0x1100 8)) s' /\ byte (mem s') (call_at 7 + 256 + 4) = 5.
Proof.
  destruct (process_reads_back call_owned (call_at 0) (call_at 1) 0 (call_at 2) (call_at 2 + 64) (call_at 2 + 256) call_page_of 1
    100 10 (0x1000 + 0) (0x1000 + 256) 8 (Z.add (call_at 7 + 0)) (Z.add (call_at 7 + 256)) (call_trap 0x1000 8) (call_trap 10 0)
    (call_trap 0x1100 8) call_state call_ready
    (call_buffer VMA_READ 0 8 ltac:(lia) ltac:(lia) ltac:(by left)) (call_buffer VMA_WRITE 256 8 ltac:(lia) ltac:(lia) ltac:(by right))
    (call_separate 256 8 ltac:(lia) ltac:(lia)) (call_args_ok 0x1000 8) (call_args_ok 0x1100 8) eq_refl eq_refl eq_refl
    ltac:(lia) ltac:(lia) ltac:(lia) ltac:(lia) ltac:(lia) ltac:(lia)) as [E|(s' & E & W)]; [left; exact E|right].
  exists s'. split; [exact E|]. specialize (W 4 ltac:(lia)). rewrite (W : byte (mem s') (call_at 7 + 256 + 4) = _). vm_compute. reflexivity.
Defined.
