(* ===== verification/Traps.v ===== *)
(** * Trap handling ([kernel/trap])

    [handle_sync_trap] runs with interrupts off on the stack of the hart;
    [handle_async_trap] runs on the kernel stack of the process for what the
    first one leaves unhandled. *)
From S2P Require Import Prelude Machine Objects Uart Scheduler Cpu Vma UserAccess TrapParser Process Syscalls.

(** ** The code *)

Definition state_of_code (v : Z) : option process_trap_state :=
  match v with
  | 0 => Some PROC_TRAP_PROCESS
  | 1 => Some PROC_TRAP_PROCESS_UNINTERRUPTABLE_TRAP
  | 2 => Some PROC_TRAP_PROCESS_INTERRUPTABLE_TRAP
  | 3 => Some PROC_TRAP_PROCESS_READ_USERSPACE
  | _ => None
  end.

Definition trap_change_process (trap : trap_data) : M unit :=
  let old_process := process_ptr trap in
  type ← load32 (proc_process_type old_process);
  (if type =? process_type_code PROC_TYPE_NORMAL then
     block_waiting ← load64 (proc_block_waiting old_process);
     when (block_waiting =? 0) (scheduler_queue_process old_process)
   else skip) ;;
  next_process ← scheduler_next (hart_id trap);
  context_change_process next_process (hart_id trap) ;;
  timer_set_future_ms 4.

(** *** uninterruptible *)

(** The three handlers that kill the process of a user fault. *)
Definition kill_faulting (message : string) (trap : trap_data) (past_proc_state : Z) : M Z :=
  if negb (past_proc_state =? trap_state_code PROC_TRAP_PROCESS) || negb (bool_decide (privilege trap = TRAP_MODE_USER))
  then PANIC message (privilege_num (privilege trap)) (fault_addr trap) (fault_pc trap) else
  id ← load32 (proc_process_id (process_ptr trap));
  kill_process id ;;
  trap_change_process trap ;;
  mret TRAP_HANDLED.

Definition uninterruptible_trap_access_misaligned := kill_faulting "KERNEL_TRAP_ACCESS_MISALIGNED".
Definition uninterruptible_trap_access_fault := kill_faulting "KERNEL_TRAP_ACCESS_FAULT".
Definition uninterruptible_trap_instruction_invalid := kill_faulting "KERNEL_TRAP_INSTRUCTION_INVALID".

Definition uninterruptible_trap_page_fault (trap : trap_data) (past_proc_state : Z) : M Z :=
  if past_proc_state =? trap_state_code PROC_TRAP_PROCESS then mret TRAP_UNHANDLED else
  reading ← load8 (proc_reading_userspace (process_ptr trap));
  if reading =? 0
  then PANIC "KERNEL_TRAP_PAGE_FAULT" (privilege_num (privilege trap)) (fault_addr trap) (fault_pc trap)
  else mret TRAP_UNHANDLED.

Definition uninterruptible_trap_syscall (trap : trap_data) : M Z :=
  '(response, trap) ← syscall_sync_handler trap;
  if response =? TRAP_UNHANDLED then mret TRAP_UNHANDLED else
  trap_data_set_response trap ;;
  trap_data_iter_instruction ;;
  mret TRAP_HANDLED.

Definition uninterruptible_trap_timer (trap : trap_data) : M Z :=
  if bool_decide (privilege trap <> TRAP_MODE_SUPERVISOR)
  then PANIC "KERNEL_TRAP_TIMER_NON_SUPERVISOR_PRIVILEGE" (privilege_num (privilege trap)) (fault_addr trap) (fault_pc trap)
  else mret TRAP_SWAP_PROCESS.

(** *** handler.c *)

Definition dispatch_sync_trap (trap : trap_data) (past_proc_state : Z) : M Z :=
  let unimplemented msg := PANIC msg (privilege_num (privilege trap)) (fault_addr trap) (fault_pc trap) in
  match code trap with
  | TRAP_ACCESS_MISALIGNED => uninterruptible_trap_access_misaligned trap past_proc_state
  | TRAP_ACCESS_FAULT => uninterruptible_trap_access_fault trap past_proc_state
  | TRAP_INSTRUCTION_INVALID => uninterruptible_trap_instruction_invalid trap past_proc_state
  | TRAP_BREAKPOINT => unimplemented "KERNEL_TRAP_UNIMPLENTED_BREAKPOINT"%string
  | TRAP_SYSCALL => uninterruptible_trap_syscall trap
  | TRAP_PAGE_FAULT => uninterruptible_trap_page_fault trap past_proc_state
  | TRAP_DOUBLE_TRAP => unimplemented "KERNEL_TRAP_DOUBLE_TRAP"%string
  | TRAP_SOFTWARE_CHECK => unimplemented "KERNEL_TRAP_UNIMPLENTED_SOFTWARE_CHECK"%string
  | TRAP_HARDWARE_ERROR => unimplemented "KERNEL_TRAP_UNIMPLENTED_HARDWARE_ERROR"%string
  | TRAP_SOFTWARE_INTERRUPT => unimplemented "KERNEL_TRAP_UNIMPLENTED_SOFTWARE_INTERRUPT"%string
  | TRAP_TIMER_INTERRUPT => uninterruptible_trap_timer trap
  | TRAP_EXTERNAL_INTERRUPT => unimplemented "KERNEL_TRAP_UNIMPLENTED_EXTERNAL_INTERRUPT"%string
  end.

(** The stack for the handler on the process side: the top of its kernel stack.
    The [response] computed for the other case is not used. *)
Definition process_stack : Z := ROUND_MOD_DOWN (PROC_KERN_STACK_TOP ⊖ 8) 8.

Definition handle_sync_trap (stale : Z) : M Z :=
  trap ← trapframe_parse stale;
  let proc := process_ptr trap in
  past_proc_state ← load32 (proc_trap_state proc);
  store32 (proc_trap_state proc) (trap_state_code PROC_TRAP_PROCESS_UNINTERRUPTABLE_TRAP) ;;
  is_handled ← dispatch_sync_trap trap past_proc_state;
  store32 (proc_trap_state proc) past_proc_state ;;
  if is_handled =? TRAP_UNHANDLED then
    if past_proc_state =? trap_state_code PROC_TRAP_PROCESS_UNINTERRUPTABLE_TRAP then
      tf ← load64 (proc_kernelspace_trapframe proc);
      _ ← trapframe_stack_ptr tf;
      mret is_handled
    else mret process_stack
  else if is_handled =? TRAP_SWAP_PROCESS then trap_change_process trap ;; mret TRAP_HANDLED
  else mret is_handled.

(** *** interruptible *)

Record interruptable_trap_response := mkResponse {
  queued_response : Z;
  skip_instruction : bool;
  kill : bool;
  send_response : bool;
}.

Definition no_response : interruptable_trap_response := mkResponse 0 false false false.

(** [pgfault_load] is a stub. *)
Definition pgfault_load (trap : trap_data) : M bool := mret false.

Definition interruptable_trap_page_fault (trap : trap_data) (response : interruptable_trap_response)
  : M interruptable_trap_response :=
  page_loaded ← pgfault_load trap;
  st ← load32 (proc_trap_state (process_ptr trap));
  if st =? trap_state_code PROC_TRAP_PROCESS_READ_USERSPACE then
    mret (mkResponse (if page_loaded : bool then 0 else 1) (negb page_loaded) (kill response) (negb page_loaded))
  else if negb page_loaded then
    uart_println_lit "process set to be killed. Invalid page for page fault" ;;
    mret (mkResponse (queued_response response) (skip_instruction response) true (send_response response))
  else mret response.

Definition interruptable_trap_syscall (trap : trap_data) (response : interruptable_trap_response)
  : M (trap_data * interruptable_trap_response) :=
  '(async_response, trap) ← syscall_async_handler trap;
  let killed := (async_response =? TRAP_UNHANDLED) || kill response in
  mret (trap, mkResponse (queued_response response) true killed (send_response response)).

(** *** process_handler.c *)

(** The frame traps of the process use from now on. *)
Definition map_trapframe (proc frame : Z) : M unit :=
  vma_map_kernel proc TRAPFRAME_ADDRESS KERNEL_PAGE_SIZE frame (Z.lor VMA_READ VMA_WRITE).

Definition enter_async (trap : trap_data) (past_proc_state : Z) : M unit :=
  let proc := process_ptr trap in
  match state_of_code past_proc_state with
  | Some PROC_TRAP_PROCESS_UNINTERRUPTABLE_TRAP => PANIC "INTERRUPTABLE_TRAP_ENTERED_FROM_UNINTERRUPTABLE" 0 0 0
  | Some PROC_TRAP_PROCESS_INTERRUPTABLE_TRAP =>
      bad ← (if bool_decide (code trap <> TRAP_PAGE_FAULT) then mret true
             else reading ← load8 (proc_reading_userspace proc); mret (reading =? 0));
      if bad : bool then
        id ← load32 (proc_process_id proc);
        PANIC "DOUBLE_PROCESS_TRAP_NOT_PAGE_FAULT" (code_num (code trap)) id 0
      else
        frame ← load64 (proc_page_fault_trapframe proc);
        map_trapframe proc frame ;;
        store32 (proc_trap_state proc) (trap_state_code PROC_TRAP_PROCESS_READ_USERSPACE)
  | Some PROC_TRAP_PROCESS =>
      frame ← load64 (proc_kernelspace_trapframe proc);
      map_trapframe proc frame ;;
      store32 (proc_trap_state proc) (trap_state_code PROC_TRAP_PROCESS_INTERRUPTABLE_TRAP)
  | Some PROC_TRAP_PROCESS_READ_USERSPACE =>
      id ← load32 (proc_process_id proc);
      PANIC "PAGE_FAULT_FROM_KERNEL_READ_USERSPACE" (code_num (code trap)) id 0
  | None => skip
  end.

Definition run_async (trap : trap_data) : M (trap_data * interruptable_trap_response) :=
  match code trap with
  | TRAP_SYSCALL => interruptable_trap_syscall trap no_response
  | TRAP_PAGE_FAULT => r ← interruptable_trap_page_fault trap no_response; mret (trap, r)
  | c => PANIC "UNHANDLED_KERNEL_PROCESS_TRAP" (code_num c) (fault_addr trap) (fault_pc trap)
  end.

Definition leave_async (trap : trap_data) (past_proc_state : Z) : M unit :=
  let proc := process_ptr trap in
  match state_of_code past_proc_state with
  | Some PROC_TRAP_PROCESS => frame ← load64 (proc_userspace_trapframe proc); map_trapframe proc frame
  | Some PROC_TRAP_PROCESS_INTERRUPTABLE_TRAP =>
      frame ← load64 (proc_kernelspace_trapframe proc); map_trapframe proc frame
  | Some PROC_TRAP_PROCESS_UNINTERRUPTABLE_TRAP =>
      PANIC "UNEXPECTED_UNINTERUPTABLE_EXIT_WITH_PROC_TRAP_PROCESS_UNINTERRUPTABLE_TRAP" 0 0 0
  | Some PROC_TRAP_PROCESS_READ_USERSPACE =>
      PANIC "UNEXPECTED_UNINTERUPTABLE_EXIT_WITH_PROC_TRAP_PROCESS_READ_USERSPACE" 0 0 0
  | None => skip
  end.

Definition answer (trap : trap_data) (r : interruptable_trap_response) : M unit :=
  when (send_response r) (trap_data_set_response (set_return (queued_response r) trap)) ;;
  when (skip_instruction r) trap_data_iter_instruction ;;
  when (kill r)
    (trap_change_process trap ;;
     id ← load32 (proc_process_id (process_ptr trap));
     kill_process id).

Definition handle_async_trap (stale : Z) : M unit :=
  trap ← trapframe_parse stale;
  let proc := process_ptr trap in
  past_proc_state ← load32 (proc_trap_state proc);
  enter_async trap past_proc_state ;;
  irq_enable ;;
  '(trap, response) ← run_async trap;
  irq_disable ;;
  leave_async trap past_proc_state ;;
  store32 (proc_trap_state proc) past_proc_state ;;
  answer trap response.

(** ** A process running with its trap frame mapped *)
Record running (proc tf t1 t0 : Z) (s : kstate) : Prop := {
  rn_frame : trap_frame tf t1 t0 s;
  rn_proc : kblock proc sizeof_process;
  rn_ptr : rd (mem s) (tf + 280) = proc;
  rn_apart : proc + 192 <= tf \/ tf + 4096 <= proc;
  rn_path_proc a : on_path t1 t0 s a -> a < proc \/ proc + 192 <= a;
  rn_path_frame a : on_path t1 t0 s a -> a < tf \/ tf + 4096 <= a;
}.

Section Running.
Context (proc tf t1 t0 : Z) (s : kstate) (Hr : running proc tf t1 t0 s).

Lemma running_wr a v :
  ~ on_path t1 t0 s a -> a <> tf + 280 -> running proc tf t1 t0 (set_mem (wr (mem s) a v) s).
Proof.
  intros Hp Ha. destruct Hr as [Hf Hk Hptr Hap H1 H2]. split; [by apply frame_wr|done| |done|exact H1|exact H2].
  cbn [mem set_mem]. by rewrite rd_wr_ne.
Qed.

Lemma proc_word_free a : proc <= a < proc + 192 -> ~ on_path t1 t0 s a /\ a <> tf + 280.
Proof.
  intros Ha. destruct Hr as [_ _ _ Hap H1 _]. split; [|lia]. intros Hp. specialize (H1 a Hp). lia.
Qed.

Lemma frame_word_free a : tf <= a < tf + 280 -> ~ on_path t1 t0 s a /\ a <> tf + 280.
Proof. intros Ha. destruct Hr as [_ _ _ _ _ H2]. split; [|lia]. intros Hp. specialize (H2 a Hp). lia. Qed.

(** [trap_state], the low half of the third word. *)
Definition past_state : Z := rd_field 4 (mem s) (proc + 16).
Definition with_state (v : Z) : kstate := set_mem (wr_field 4 (mem s) (proc + 16) v) s.

Lemma load_trap_state : load32 (proc_trap_state proc) s = Ret past_state s.
Proof. apply (load_narrow proc sizeof_process); [apply (rn_proc _ _ _ _ _ Hr)|right; right; by left|by compute..]. Qed.

Lemma store_trap_state v : store32 (proc_trap_state proc) v s = Ret tt (with_state v).
Proof. apply (store_narrow proc sizeof_process); [apply (rn_proc _ _ _ _ _ Hr)|right; right; by left|by compute..]. Qed.

Lemma trap_state_word : word_of (proc + 16) = proc + 16.
Proof. destruct (rn_proc _ _ _ _ _ Hr) as (_ & _ & H). unfold word_of. clear -H. dlia. Qed.

Lemma with_state_running v : running proc tf t1 t0 (with_state v).
Proof.
  unfold with_state, wr_field. rewrite trap_state_word.
  destruct (proc_word_free (proc + 16) ltac:(lia)). by apply running_wr.
Qed.

Lemma with_state_rd v a : a <> proc + 16 -> rd (mem (with_state v)) a = rd (mem s) a.
Proof. intros H. unfold with_state. cbn [mem set_mem]. apply rd_wr_field_word. rewrite trap_state_word. done. Qed.

Lemma frame_rd v k : 0 <= k < 4096 -> rd (mem (with_state v)) (tf + k) = rd (mem s) (tf + k).
Proof. intros Hk. apply with_state_rd. pose proof (rn_apart _ _ _ _ _ Hr). lia. Qed.

(** The first steps of [handle_sync_trap]. *)
Lemma handle_sync_enter stale ty mode c :
  classify (frame_cause tf s) = Some (ty, mode, c) ->
  let trap := trap_of tf stale s ty mode c in
  handle_sync_trap stale s =
    (is_handled ← dispatch_sync_trap trap past_state;
     store32 (proc_trap_state proc) past_state ;;
     if is_handled =? TRAP_UNHANDLED then
       if past_state =? trap_state_code PROC_TRAP_PROCESS_UNINTERRUPTABLE_TRAP then
         tf ← load64 (proc_kernelspace_trapframe proc);
         _ ← trapframe_stack_ptr tf;
         mret is_handled
       else mret process_stack
     else if is_handled =? TRAP_SWAP_PROCESS then trap_change_process trap ;; mret TRAP_HANDLED
     else mret is_handled) (with_state 1).
Proof.
  intros Hc trap. unfold handle_sync_trap.
  assert (trapframe_parse stale s = Ret trap s) as E
    by (rewrite (trapframe_parse_eq tf t1 t0 stale s (rn_frame _ _ _ _ _ Hr)), Hc; done).
  rewrite (bind_Ret _ _ _ _ _ E). cbv beta zeta.
  assert (process_ptr trap = proc) as -> by apply (rn_ptr _ _ _ _ _ Hr).
  rewrite (bind_Ret _ _ _ _ _ load_trap_state). cbv beta.
  by rewrite (bind_Ret _ _ _ _ _ (store_trap_state _)).
Qed.
End Running.

(** ** Faults of user code *)

(** The exceptions for a misaligned or faulting access and for an invalid
    instruction, and the message each handler panics with. *)
Definition fault_message (scause : Z) : option string :=
  match scause with
  | 0 | 4 | 6 => Some "KERNEL_TRAP_ACCESS_MISALIGNED"%string
  | 1 | 5 | 7 => Some "KERNEL_TRAP_ACCESS_FAULT"%string
  | 2 => Some "KERNEL_TRAP_INSTRUCTION_INVALID"%string
  | _ => None
  end.

Lemma fault_message_in n msg : fault_message n = Some msg -> n ∈ upto 0 8.
Proof.
  intros H. apply elem_of_upto. destruct n as [|p|p]; cbn in H; [lia| |done].
  do 3 (destruct p as [p|p|]; try done; try lia).
Qed.

(** C22: whatever a process was doing, a misaligned access, an access fault or an
    invalid instruction of user code does not kill the process: the code takes
    the mode from bit 8 of scause, which no such exception sets, reads it as
    supervisor mode (1) and panics the kernel. *)
Theorem user_fault_panics proc tf t1 t0 stale s msg :
  running proc tf t1 t0 s -> fault_message (frame_cause tf s) = Some msg ->
  handle_sync_trap stale s = Panic msg 1 (rd (mem s) (tf + 264)) (rd (mem s) (tf + 256)).
Proof.
  intros Hr Hm. pose proof (fault_message_in _ _ Hm) as Hin.
  assert (exists c, classify (frame_cause tf s) = Some (TRAP_TYPE_EXCEPTION, TRAP_MODE_SUPERVISOR, c) /\
    forall trap past, privilege trap = TRAP_MODE_SUPERVISOR -> code trap = c ->
      dispatch_sync_trap trap past = PANIC msg 1 (fault_addr trap) (fault_pc trap)) as (c & Ec & Hd).
  { revert Hm Hin. generalize (frame_cause tf s). intros n Hm Hin.
    change (upto 0 8) with [0; 1; 2; 3; 4; 5; 6; 7] in Hin.
    repeat (apply elem_of_cons in Hin as [->|Hin]; [cbn in Hm; try done; injection Hm as <-; eexists;
      (split; [by vm_compute|]); intros trap past Hp Hcode; unfold dispatch_sync_trap; rewrite Hcode;
      unfold uninterruptible_trap_access_misaligned, uninterruptible_trap_access_fault,
        uninterruptible_trap_instruction_invalid, kill_faulting; rewrite Hp;
      rewrite (bool_decide_false (TRAP_MODE_SUPERVISOR = TRAP_MODE_USER)), orb_true_r by done; done|]).
    by apply not_elem_of_nil in Hin. }
  rewrite (handle_sync_enter proc tf t1 t0 s Hr stale _ _ _ Ec). by rewrite Hd.
Qed.

(** ** Console calls of user code *)

(** The bytes [uart_print_char] sends for a character. *)
Definition char_bytes (c : Z) : list Z := if c =? 10 then [10; 13] else [c].

Lemma print_char_bytes c s : 0 <= c < 256 -> uart_print_char c s = Ret tt (sent (char_bytes c) s).
Proof.
  intros Hc. unfold char_bytes. destruct (Z.eqb_spec c 10) as [->|]; [apply print_newline|by apply print_char_sent].
Qed.

Lemma running_sent proc tf t1 t0 l s : running proc tf t1 t0 s -> running proc tf t1 t0 (sent l s).
Proof. intros [[] ? ? ? H1 H2]. split; [by split|done..|exact H1|exact H2]. Qed.

(** What [syscall_uart] prints without leaving the first handler. *)
Definition sync_uart_bytes (arg1 arg2 : Z) : list Z := if arg1 =? 0 then char_bytes (wrap8 arg2) else [].

Lemma sync_uart_eq trap s :
  arg0_reg trap = SYSCALL_UART_PRINT -> arg1_reg trap = 0 \/ arg1_reg trap = 1 ->
  exists r, r <> TRAP_UNHANDLED /\
    syscall_sync_handler trap s = Ret (r, trap) (sent (sync_uart_bytes (arg1_reg trap) (arg2_reg trap)) s).
Proof.
  intros H0 H1. unfold syscall_sync_handler, sync_uart_bytes. rewrite H0. change (SYSCALL_UART_PRINT =? SYSCALL_UART_PRINT) with true.
  unfold syscall_uart. destruct H1 as [-> | ->]; cbn [Z.eqb Pos.eqb negb].
  - exists TRAP_HANDLED. split; [done|]. by rewrite (bind_Ret _ _ _ _ _ (print_char_bytes _ _ (wrap8_range _))).
  - exists U64_MAX. split; [done|]. by rewrite sent_nil.
Qed.

(** The answer in the trap frame, and the next instruction. *)
Lemma answer_frame proc tf t1 t0 trap s :
  running proc tf t1 t0 s ->
  exists s', (trap_data_set_response trap ;; trap_data_iter_instruction) s = Ret tt s' /\
    running proc tf t1 t0 s' /\ s' = set_mem (mem s') s /\
    rd (mem s') (tf + 72) = wrap64 (return_reg trap) /\ rd (mem s') (tf + 256) = rd (mem s) (tf + 256) ⊕ 4 /\
    (forall a, a <> tf + 72 -> a <> tf + 256 -> rd (mem s') a = rd (mem s) a).
Proof.
  intros Hr. unfold trap_data_set_response, trap_data_iter_instruction, tf_a0, tf_register, tf_sepc.
  change (8 * (10 - 1)) with 72.
  rewrite (bind_Ret _ _ _ _ _ (store_tf_eq tf t1 t0 s (rn_frame _ _ _ _ _ Hr) 72 (return_reg trap) ltac:(lia) eq_refl)).
  destruct (frame_word_free proc tf t1 t0 s Hr (tf + 72) ltac:(lia)) as [P72 N72].
  pose proof (running_wr proc tf t1 t0 s Hr (tf + 72) (return_reg trap) P72 N72) as Hr1. set (s1 := set_mem _ _) in *.
  rewrite (bind_Ret _ _ _ _ _ (load_tf_eq tf t1 t0 s1 (rn_frame _ _ _ _ _ Hr1) 256 ltac:(lia) eq_refl)). cbv beta.
  assert (rd (mem s1) (tf + 256) = rd (mem s) (tf + 256)) as -> by (apply rd_wr_ne; lia).
  destruct (frame_word_free proc tf t1 t0 s1 Hr1 (tf + 256) ltac:(lia)) as [P256 N256].
  eexists. split; [apply (store_tf_eq tf t1 t0 s1 (rn_frame _ _ _ _ _ Hr1) 256 _ ltac:(lia) eq_refl)|].
  split; [by apply running_wr|]. split; [done|]. cbn [mem set_mem]. split_and!.
  - rewrite rd_wr_ne by lia. unfold s1. cbn [mem set_mem]. apply rd_wr_eq.
  - by rewrite rd_wr_eq, wrap64_idem.
  - intros a H1 H2. rewrite rd_wr_ne by done. unfold s1. cbn [mem set_mem]. by rewrite rd_wr_ne.
Qed.

(** The console system call of user code.  Printing a character (first
    argument 0) sends it; printing a string (1) sends nothing, although the
    first handler means to leave it to the second one: both come back as
    handled, with the instruction skipped and the caller's own register 10 as the
    answer.  Of memory, those two words of the frame and the word of the trap
    state of the process are written. *)
Theorem uart_string_call_lost proc tf t1 t0 stale s :
  running proc tf t1 t0 s -> frame_cause tf s = 8 ->
  rd (mem s) (tf + 72) = SYSCALL_UART_PRINT -> rd (mem s) (tf + 80) = 0 \/ rd (mem s) (tf + 80) = 1 ->
  exists m, let s' := sent (sync_uart_bytes (rd (mem s) (tf + 80)) (rd (mem s) (tf + 88))) (set_mem m s) in
    handle_sync_trap stale s = Ret TRAP_HANDLED s' /\ running proc tf t1 t0 s' /\
    rd m (tf + 72) = SYSCALL_UART_PRINT /\ rd m (tf + 256) = rd (mem s) (tf + 256) ⊕ 4 /\
    past_state proc s' = past_state proc s /\
    (forall a, a <> proc + 16 -> a <> tf + 72 -> a <> tf + 256 -> rd m a = rd (mem s) a).
Proof.
  intros Hr Hc H0 H1.
  rewrite (handle_sync_enter proc tf t1 t0 s Hr stale _ _ _ ltac:(rewrite Hc; reflexivity)).
  set (trap := trap_of _ _ _ _ _ _). pose proof (with_state_running proc tf t1 t0 s Hr 1) as Hr1.
  pose proof (with_state_rd proc tf t1 t0 s Hr 1) as W1. set (s1 := with_state proc s 1) in *.
  destruct (sync_uart_eq trap s1 H0 H1) as (r & Hne & E).
  pose proof (running_sent _ _ _ _ (sync_uart_bytes (arg1_reg trap) (arg2_reg trap)) _ Hr1) as Hr2.
  destruct (answer_frame _ _ _ _ trap _ Hr2) as (s3 & E3 & Hr3 & Hsh & H72 & H256 & Hother).
  assert (dispatch_sync_trap trap (past_state proc s) s1 = Ret TRAP_HANDLED s3) as Ed.
  { unfold dispatch_sync_trap. change (code trap) with TRAP_SYSCALL. cbv iota. unfold uninterruptible_trap_syscall.
    rewrite (bind_Ret _ _ _ _ _ E). cbv beta iota. destruct (Z.eqb_spec r TRAP_UNHANDLED); [done|].
    revert E3. unfold mbind, M_bind. destruct (trap_data_set_response trap _) as [[] s4| | | | |]; try done.
    by intros ->. }
  rewrite (bind_Ret _ _ _ _ _ Ed). cbv beta.
  rewrite (bind_Ret _ _ _ _ _ (store_trap_state proc tf t1 t0 s3 Hr3 _)). cbn [Z.eqb TRAP_HANDLED TRAP_UNHANDLED TRAP_SWAP_PROCESS].
  pose proof (with_state_rd proc tf t1 t0 s3 Hr3 (past_state proc s)) as W3. pose proof (rn_apart _ _ _ _ _ Hr) as Hap.
  pose proof (with_state_running _ _ _ _ _ Hr3 (past_state proc s)) as Hr4.
  set (s4 := with_state proc s3 (past_state proc s)) in *. exists (mem s4).
  assert (sent (sync_uart_bytes (rd (mem s) (tf + 80)) (rd (mem s) (tf + 88))) (set_mem (mem s4) s) = s4) as ->
    by (unfold s4, with_state; rewrite Hsh; done).
  change (mem (sent _ s1)) with (mem s1) in *.
  split; [done|]. split; [done|]. split_and!.
  - rewrite W3, H72 by lia. change (return_reg trap) with (rd (mem s) (tf + 72)). by rewrite H0.
  - rewrite W3, H256 by lia. by rewrite W1 by lia.
  - unfold past_state at 1, s4, with_state. cbn [mem set_mem]. rewrite rd_wr_field.
    + apply Z.mod_small, rd_field_range. lia.
    + right; right; by left.
    + destruct (rn_proc _ _ _ _ _ Hr) as (_ & _ & H). clear -H. dlia.
  - intros a A1 A2 A3. by rewrite W3, Hother, W1.
Qed.

(** ** The answer of a system call served on the kernel stack *)

Lemma change_process_set_return v trap : trap_change_process (set_return v trap) = trap_change_process trap.
Proof. done. Qed.

Lemma async_syscall_response trap t r s s' :
  interruptable_trap_syscall trap no_response s = Ret (t, r) s' ->
  send_response r = false /\ skip_instruction r = true.
Proof.
  unfold interruptable_trap_syscall, mbind, M_bind. destruct (syscall_async_handler trap s) as [[a t'] s1| | | | |]; try done.
  intros [= <- <- <-]. done.
Qed.

(** A system call served on the kernel stack of the process (open, read,
    write, seek, string output) never delivers its result: whatever value [v]
    the handler leaves as the return value, what reaches the trap frame is the
    same, the instruction is skipped and register 10 is not written. *)
Theorem async_result_lost trap t r s s' :
  code trap = TRAP_SYSCALL -> run_async trap s = Ret (t, r) s' ->
  skip_instruction r = true /\
  (forall v s'', answer (set_return v t) r s'' = answer t r s'') /\
  (forall s'', answer t r s'' =
     (trap_data_iter_instruction ;;
      when (kill r) (trap_change_process t ;; id ← load32 (proc_process_id (process_ptr t)); kill_process id)) s'').
Proof.
  intros Hc E. unfold run_async in E. rewrite Hc in E.
  destruct (async_syscall_response _ _ _ _ _ E) as [Hs Hk]. split; [done|]. unfold answer. rewrite Hs, Hk.
  split; [intros v s''; by rewrite change_process_set_return|done].
Qed.

(** ** Witnesses: a process whose trap frame is mapped through three tables *)
Definition demo_root : Z := 0xffffffc080000000.
Definition demo_t1 : Z := demo_root + 4096.
Definition demo_t0 : Z := demo_root + 8192.
Definition demo_tf : Z := demo_root + 12288.
Definition demo_task : Z := demo_root + 16384.
Definition demo_ring : Z := demo_root + 20480.

(** The process stopped by a trap with this cause, at 0x1000, calling the console
    with a string. *)
Definition demo_trap (cause : Z) : kstate :=
  set_satp 0x80000 (set_scheduler (mkScheduler demo_ring 512 0 0 0) (set_mem
    (wr (wr (wr (wr (wr (wr (wr (wr ∅ (demo_root + 8 * 511) (create_branch demo_t1))
      (demo_t1 + 8 * 511) (create_branch demo_t0)) (demo_t0 + 8 * 510) (pte 0x80003 199))
      (demo_tf + 280) demo_task) (demo_tf + 248) cause) (demo_tf + 256) 0x1000)
      (demo_tf + 72) 1) (demo_tf + 80) 1) zero_state)).

Lemma demo_running cause : running demo_task demo_tf demo_t1 demo_t0 (demo_trap cause).
Proof.
  assert (satp_root (demo_trap cause) = demo_root) as Er by reflexivity.
  split; [split; rewrite ?Er; try (unfold page_ok; zdone); by vm_compute|unfold kblock; zdone|by vm_compute
    |right; zdone| |]; unfold on_path; rewrite Er; intros a [->|[->| ->]]; zdone.
Qed.

Lemma user_fault_panics_witness :
  handle_sync_trap 0 (demo_trap 2) = Panic "KERNEL_TRAP_INSTRUCTION_INVALID" 1 0 0x1000.
Proof.
  exact (user_fault_panics demo_task demo_tf demo_t1 demo_t0 0 (demo_trap 2) _ (demo_running 2) eq_refl).
Defined.

Lemma uart_string_call_lost_witness :
  exists s', handle_sync_trap 0 (demo_trap 8) = Ret TRAP_HANDLED s' /\ tx s' = [] /\
    rd (mem s') (demo_tf + 256) = 0x1004.
Proof.
  destruct (uart_string_call_lost demo_task demo_tf demo_t1 demo_t0 0 (demo_trap 8) (demo_running 8)
    ltac:(by vm_compute) ltac:(by vm_compute) ltac:(right; by vm_compute)) as (m & E & _ & _ & Hpc & _).
  eexists. split; [exact E|]. split; [reflexivity|exact Hpc].
Defined.


(** A seek on a descriptor that is not open: -1 is left as the result. *)
Definition demo_seek : trap_data :=
  mkTrap demo_task TRAP_TYPE_EXCEPTION TRAP_MODE_USER TRAP_SYSCALL 0x1000 0 SYSCALL_FS_SEEK 3 0 0 7 0.
Definition demo_seek_state : kstate :=
  set_mem (wr ∅ (demo_task + 64) demo_ring) zero_state.

Lemma async_result_lost_witness :
  run_async demo_seek demo_seek_state =
    Ret (set_return U64_MAX demo_seek, mkResponse 0 true false false) demo_seek_state /\
  answer (set_return U64_MAX demo_seek) (mkResponse 0 true false false) demo_seek_state =
  answer demo_seek (mkResponse 0 true false false) demo_seek_state.
Proof.
  assert (run_async demo_seek demo_seek_state =
    Ret (set_return U64_MAX demo_seek, mkResponse 0 true false false) demo_seek_state) as E by (vm_compute; reflexivity).
  split; [exact E|]. destruct (async_result_lost demo_seek _ _ _ _ eq_refl E) as (_ & Hv & _).
  exact (eq_sym (Hv 7 demo_seek_state)).
Defined.

Lemma trapframe_parse_mode_witness :
  trapframe_parse 0 (demo_trap 8) = Ret (trap_of demo_tf 0 (demo_trap 8) TRAP_TYPE_EXCEPTION TRAP_MODE_USER TRAP_SYSCALL) (demo_trap 8).
Proof.
  assert (frame_cause demo_tf (demo_trap 8) = 8) as Hc by (by vm_compute).
  pose proof (proj1 (trapframe_parse_mode demo_tf demo_t1 demo_t0 0 (demo_trap 8) (rn_frame _ _ _ _ _ (demo_running 8)))) as H.
  rewrite Hc in H. exact H.
Defined.
