(* ===== verification/Preempt.v ===== *)
(** * Preemption: the timer interrupt and the change of process

    [handle_sync_trap] on a timer interrupt, through [trap_change_process] of
    [kernel/trap/handler.c], the scheduler and [context_change_process]. *)
From S2P Require Import Prelude Machine Objects Scheduler Cpu Vma VmaSpace UserAccess TrapParser Process Syscalls Traps.

Lemma running_ring proc tf t1 t0 count start s :
  running proc tf t1 t0 s -> running proc tf t1 t0 (set_ring count start s).
Proof. intros [[] ? ? ? H1 H2]. split; [by split|done..|exact H1|exact H2]. Qed.

Lemma running_timers proc tf t1 t0 l s : running proc tf t1 t0 s -> running proc tf t1 t0 (set_timers l s).
Proof. intros [[] ? ? ? H1 H2]. split; [by split|done..|exact H1|exact H2]. Qed.

(** The ring of the scheduler is none of the words the trap path reads. *)
Definition ring_apart (proc tf t1 t0 : Z) (s : kstate) : Prop :=
  let ring := process_queue (scheduler s) in
  (forall a, on_path t1 t0 s a -> a < ring \/ ring + 4096 <= a) /\
  (tf + 280 < ring \/ ring + 4096 <= tf + 280).

Lemma slot_addr_range s k :
  sched_inv s -> process_queue (scheduler s) <= slot_addr (scheduler s) k < process_queue (scheduler s) + 4096.
Proof. intros [_ Hs _ _]. unfold slot_addr. rewrite Hs. dlia. Qed.

Definition ring_free (s : kstate) (a n : Z) : Prop :=
  a + n <= process_queue (scheduler s) \/ process_queue (scheduler s) + 4096 <= a.

(** The queue is read from the ring alone. *)
Lemma queue_of_same s s' :
  sched_inv s -> scheduler s' = scheduler s ->
  (forall a, process_queue (scheduler s) <= a < process_queue (scheduler s) + 4096 -> a mod 8 = 0 ->
    rd (mem s') a = rd (mem s) a) ->
  queue_of s' = queue_of s.
Proof.
  intros Hinv E H. unfold queue_of, slot. rewrite E. apply list_fmap_ext. intros _ k _.
  apply H; [apply (slot_addr_range s k Hinv)|]. destruct (si_page _ Hinv) as (_ & _ & Hm). unfold slot_addr.
  clear -Hm. rewrite Z.add_mod, Hm, (Z.mul_comm 8), Z_mod_mult by done. done.
Qed.

(** ** The way to the scheduler *)

(** A timer interrupt while [proc], which can run on, runs. *)
Record ticking (proc tf t1 t0 : Z) (s : kstate) : Prop := {
  tk_running : running proc tf t1 t0 s;
  tk_cause : frame_cause tf s = 9223372036854775813;
  tk_sched : sched_inv s;
  tk_ring : ring_apart proc tf t1 t0 s;
  tk_ring_proc : ring_free s proc sizeof_process;
  tk_room : Z.of_nat (length (queue_of s)) < 512;
  tk_normal : rd_field 4 (mem s) (proc + 104) = process_type_code PROC_TYPE_NORMAL;
  tk_runnable : rd (mem s) (proc + 8) = 0;
  tk_timer : sbi_set_timer (sbi s) (clock s ⊕ 40000) = 0;
}.

(** After the process has been queued. *)
Record requeued (proc tf t1 t0 : Z) (s s' : kstate) : Prop := {
  rq_running : running proc tf t1 t0 s';
  rq_sched : sched_inv s';
  rq_ring : process_queue (scheduler s') = process_queue (scheduler s);
  rq_queue : queue_of s' = queue_of s ++ [proc];
  rq_same a : a <> proc + 16 -> ring_free s a 8 -> a mod 8 = 0 -> rd (mem s') a = rd (mem s) a;
  rq_clock : clock s' = clock s;
  rq_timers : timers s' = timers s;
  rq_sbi : sbi s' = sbi s;
  rq_vma : vma s' = vma s;
  rq_shape : exists m count start, s' = set_ring count start (set_mem m s);
}.

Lemma load_process_type p s : kblock p sizeof_process ->
  load32 (proc_process_type p) s = Ret (rd_field 4 (mem s) (p + 104)) s.
Proof. intros H. apply (load_narrow p sizeof_process); [done|right; right; by left|by compute..]. Qed.

Lemma rd_type p m m' : p mod 8 = 0 -> rd m' (p + 104) = rd m (p + 104) -> rd_field 4 m' (p + 104) = rd_field 4 m (p + 104).
Proof. intros Hp H. unfold rd_field. assert (word_of (p + 104) = p + 104) as -> by (unfold word_of; clear -Hp; dlia). by rewrite H. Qed.

Section Tick.
Context (proc tf t1 t0 stale : Z) (s : kstate) (Hk : ticking proc tf t1 t0 s).

Definition after_tick : M unit :=
  next_process ← scheduler_next stale; context_change_process next_process stale ;; timer_set_future_ms 4.

Lemma tick_requeues : exists s', requeued proc tf t1 t0 s s' /\
  handle_sync_trap stale s = (after_tick ;; mret TRAP_HANDLED) s'.
Proof.
  destruct Hk as [Hr Hc Hinv Hap Hrp Hroom Hty Hbw _].
  rewrite (handle_sync_enter proc tf t1 t0 s Hr stale _ _ _ ltac:(rewrite Hc; reflexivity)).
  set (trap := trap_of _ _ _ _ _ _).
  pose proof (with_state_running proc tf t1 t0 s Hr 1) as Hr1.
  pose proof (with_state_rd proc tf t1 t0 s Hr 1) as W1. set (s1 := with_state proc s 1) in *.
  assert (dispatch_sync_trap trap (past_state proc s) s1 = Ret TRAP_SWAP_PROCESS s1) as Ed by reflexivity.
  rewrite (bind_Ret _ _ _ _ _ Ed). cbv beta.
  rewrite (bind_Ret _ _ _ _ _ (store_trap_state proc tf t1 t0 s1 Hr1 _)).
  cbn [Z.eqb Pos.eqb TRAP_HANDLED TRAP_UNHANDLED TRAP_SWAP_PROCESS].
  pose proof (with_state_running proc tf t1 t0 s1 Hr1 (past_state proc s)) as Hr2.
  pose proof (with_state_rd proc tf t1 t0 s1 Hr1 (past_state proc s)) as W2.
  set (s2 := with_state proc s1 (past_state proc s)) in *.
  assert (forall a, a <> proc + 16 -> rd (mem s2) a = rd (mem s) a) as W by (intros a Ha; by rewrite W2, W1).
  assert (sched_inv s2) as Hinv2 by (by apply (sched_inv_eq s)).
  pose proof (rn_proc _ _ _ _ _ Hr) as Hp.
  assert (queue_of s2 = queue_of s) as Hq2.
  { apply queue_of_same; [done..|]. intros a Ha _. apply W. unfold ring_free, sizeof_process in Hrp. lia. }
  assert (u64 proc) as Hu by (rewrite <- (rn_ptr _ _ _ _ _ Hr); apply rd_u64).
  pose proof (length_queue_of s2 Hinv2) as Hlen. rewrite Hq2 in Hlen.
  destruct (queue_process_spec proc s2 Hinv2 Hu ltac:(lia)) as (s3 & E3 & Hinv3 & Hq3 & _ & Hout).
  pose proof (scheduler_queue_eq proc s2 Hinv2) as E3'. rewrite E3, <- Hlen in E3'.
  destruct (Z.eqb_spec (Z.of_nat (length (queue_of s))) 512); [lia|].
  assert (s3 = set_ring (Z.of_nat (length (queue_of s)) + 1) (process_queue_start (scheduler s))
    (set_mem (wr (mem s2) (slot_addr (scheduler s) (Z.of_nat (length (queue_of s)))) proc) s2)) as Es3 by (by injection E3').
  pose proof (slot_addr_range s2 (Z.of_nat (length (queue_of s))) Hinv2) as Hslot. change (scheduler s2) with (scheduler s) in *.
  exists s3. split.
  - split; [|done|by rewrite Es3|by rewrite Hq3, Hq2| |by rewrite Es3..|by rewrite Es3; do 3 eexists].
    + rewrite Es3. apply running_ring, running_wr; [exact Hr2| |destruct Hap; lia].
      intros Hpath. destruct Hap as [Hap _]. specialize (Hap _ Hpath). lia.
    + intros a Ha Hfree Hm. rewrite Hout; [by apply W|]. unfold ring_free in Hfree.
      destruct (si_page _ Hinv) as (_ & _ & Hrm). clear -Hfree Hm Hrm. dlia.
  - unfold after_tick, trap_change_process. change (hart_id trap) with stale.
    assert (process_ptr trap = proc) as -> by apply (rn_ptr _ _ _ _ _ Hr). rewrite !bind_assoc.
    rewrite (bind_Ret _ _ _ _ _ (load_process_type proc s2 Hp)).
    rewrite (rd_type proc (mem s) (mem s2)), Hty; [|by destruct Hp as (_ & _ & ?)|apply W; lia].
    rewrite Z.eqb_refl. unfold proc_block_waiting.
    rewrite !bind_assoc.
    rewrite (bind_Ret _ _ _ _ _ (load_field_addr proc sizeof_process 8 s2 Hp ltac:(lia) ltac:(by compute) eq_refl)).
    rewrite W, Hbw by lia. cbn [Z.eqb when]. rewrite (bind_Ret _ _ _ _ _ E3). by rewrite !bind_assoc.
Qed.

Lemma timer_again s' : clock s' = clock s -> timers s' = timers s -> sbi s' = sbi s ->
  timer_set_future_ms 4 s' = Ret tt (set_timers (timers s ++ [clock s ⊕ 40000]) s').
Proof.
  intros E1 E2 E3. rewrite timer_set_future_eq. unfold deadline. rewrite E1, E2, E3. change (10000 ⊗ 4) with 40000.
  by rewrite (tk_timer _ _ _ _ _ Hk).
Qed.
End Tick.

(** Memory and the ring apart, and the timers: what a timer interrupt leaves
    of the state when no other process takes over. *)
Definition ticked (m : gmap Z Z) (count start : Z) (s : kstate) : kstate :=
  set_timers (timers s ++ [clock s ⊕ 40000]) (set_ring count start (set_mem m s)).

Lemma tick_alone proc tf t1 t0 stale s :
  ticking proc tf t1 t0 s -> queue_of s = [] ->
  exists m count start s', s' = ticked m count start s /\ handle_sync_trap stale s = Ret TRAP_HANDLED s' /\
    running proc tf t1 t0 s' /\ sched_inv s' /\ queue_of s' = [] /\
    (forall a, a <> proc + 16 -> ring_free s a 8 -> a mod 8 = 0 -> rd m a = rd (mem s) a).
Proof.
  intros Hk Hq. destruct (tick_requeues proc tf t1 t0 stale s Hk) as (s3 & [Hr3 Hi3 _ Hq3 W3 Ck Tm Sb _ (m & c3 & st3 & E3)] & ->).
  rewrite Hq in Hq3. destruct (scheduler_next_spec stale s3 proc [] Hi3 Hq3) as (s4 & E4 & Hi4 & Hq4 & _).
  pose proof (length_queue_of s3 Hi3) as Hlen. rewrite Hq3 in Hlen. cbn in Hlen.
  pose proof (scheduler_next_eq stale s3 Hi3 ltac:(lia)) as E4'. rewrite E4 in E4'. injection E4' as _ Es4.
  assert (running proc tf t1 t0 s4) as Hr4 by (rewrite Es4; by apply running_ring).
  exists m, (process_queue_count (scheduler s3) - 1), ((process_queue_start (scheduler s3) + 1) mod 512),
    (set_timers (timers s ++ [clock s ⊕ 40000]) s4).
  assert (ticked m (process_queue_count (scheduler s3) - 1) ((process_queue_start (scheduler s3) + 1) mod 512) s =
    set_timers (timers s ++ [clock s ⊕ 40000]) s4) as Et by (rewrite Es4, E3; done).
  split; [done|]. split; [|split; [by apply running_timers|split; [by destruct Hi4; split|split; [exact Hq4|]]]].
  2:{ intros a H1 H2 H3. rewrite <- (W3 a H1 H2 H3). by rewrite E3. }
  unfold after_tick. rewrite !bind_assoc, (bind_Ret _ _ _ _ _ E4). rewrite bind_assoc.
  assert (context_change_process proc stale s4 = Ret tt s4) as Ec.
  { unfold context_change_process, tf_process_ptr.
    rewrite (bind_Ret _ _ _ _ _ (load_tf_eq tf t1 t0 s4 (rn_frame _ _ _ _ _ Hr4) 280 ltac:(lia) eq_refl)).
    cbv beta. by rewrite (rn_ptr _ _ _ _ _ Hr4), Z.eqb_refl. }
  rewrite (bind_Ret _ _ _ _ _ Ec), (bind_Ret _ _ _ _ _ (timer_again proc tf t1 t0 s Hk s4 ltac:(by rewrite Es4) ltac:(by rewrite Es4) ltac:(by rewrite Es4))).
  done.
Qed.

(** A timer interrupt while a process that can run is the only one: it goes
    through the queue and runs on, the queue is empty again, and the timer is set
    4 ms ahead, so the next interrupt comes. *)
Theorem timer_tick_alone proc tf t1 t0 stale s :
  ticking proc tf t1 t0 s -> queue_of s = [] ->
  exists s', handle_sync_trap stale s = Ret TRAP_HANDLED s' /\ running proc tf t1 t0 s' /\
    queue_of s' = [] /\ timers s' = timers s ++ [clock s ⊕ 40000].
Proof.
  intros Hk Hq. destruct (tick_alone proc tf t1 t0 stale s Hk Hq) as (m & c & st & s' & -> & E & Hr & _ & Hq' & _).
  by exists (ticked m c st s).
Qed.

(** ** The change of process *)

(** [q] last ran on this hart and has an address-space identifier. *)
Record switchable (q hart t a : Z) (s : kstate) : Prop := {
  sw_block : kblock q sizeof_process;
  sw_ring : ring_free s q sizeof_process;
  sw_hart : rd (mem s) (q + 160) = hart;
  sw_asid : rd (mem s) (q + 56) = a /\ 0 <= a < 65536;
  sw_table : rd (mem s) (q + 48) = t /\ page_ok t;
  sw_ids : max_asid (vma s) <> 0;
}.

(** satp for the tables at [t]. *)
Definition satp_of (t a : Z) : Z :=
  Z.lor (Z.lor (wrap64 (Z.shiftl a 44)) (wrap64 (Z.shiftl 8 60))) ((t ⊖ KERNEL_VMA_START) / 4096).

Lemma vma_swap_known q hart t a s :
  switchable q hart t a s -> vma_swap q s = Ret tt (set_satp (satp_of t a) s).
Proof.
  intros [Hq _ _ [Ea Ha] [Et _] Hm]. unfold vma_swap, proc_vma_addr_space_id, proc_vma_table.
  rewrite (bind_Ret _ _ _ _ _ (load_field_addr q _ 56 s Hq ltac:(lia) ltac:(by compute) eq_refl)), Ea. kstep.
  replace (a =? U64_MAX) with false by (unfold U64_MAX; lia). replace (max_asid (vma s) =? 0) with false by lia.
  cbn [orb when]. erewrite bind_Ret by reflexivity.
  rewrite (bind_Ret _ _ _ _ _ (load_field_addr q _ 56 s Hq ltac:(lia) ltac:(by compute) eq_refl)), Ea.
  rewrite (bind_Ret _ _ _ _ _ (load_field_addr q _ 48 s Hq ltac:(lia) ltac:(by compute) eq_refl)), Et.
  do 2 (erewrite bind_Ret by reflexivity). cbn [vma set_satp].
  replace (max_asid (vma s) =? 0) with false by lia. done.
Qed.

(** Memory after the change from [p] to [q]. *)
Definition switched (p q hart : Z) (m : gmap Z Z) : gmap Z Z :=
  wr_field 1 (wr (wr_field 1 m (q + 82) 1) (q + 160) hart) (p + 82) 0.

Lemma context_switch p q tf t1 t0 hart t a s :
  running p tf t1 t0 s -> switchable q hart t a s -> q + 192 <= p \/ p + 192 <= q ->
  rd_field 4 (mem s) (p + 104) = process_type_code PROC_TYPE_NORMAL ->
  context_change_process q hart s = Ret tt (set_mem (switched p q hart (mem s)) (set_satp (satp_of t a) s)).
Proof.
  intros Hr Hs Hap Hty. pose proof (rn_proc _ _ _ _ _ Hr) as Hp. pose proof (sw_block _ _ _ _ _ Hs) as Hq.
  unfold context_change_process, tf_process_ptr.
  rewrite (bind_Ret _ _ _ _ _ (load_tf_eq tf t1 t0 s (rn_frame _ _ _ _ _ Hr) 280 ltac:(lia) eq_refl)).
  cbv beta. rewrite (rn_ptr _ _ _ _ _ Hr). replace (p =? q) with false by lia.
  unfold change_context, process_update_context_switch, proc_last_hart.
  rewrite !bind_assoc, (bind_Ret _ _ _ _ _ (load_field_addr q _ 160 s Hq ltac:(lia) ltac:(by compute) eq_refl)).
  rewrite (sw_hart _ _ _ _ _ Hs), Z.eqb_refl. erewrite bind_Ret by reflexivity.
  rewrite (bind_Ret _ _ _ _ _ (vma_swap_known q hart t a s Hs)).
  unfold proc_running.
  rewrite (bind_Ret _ _ _ _ _ (store_narrow q sizeof_process 1 82 1 _ Hq (or_introl eq_refl) ltac:(lia) ltac:(by compute) eq_refl)).
  rewrite (bind_Ret _ _ _ _ _ (store_field_addr q sizeof_process 160 hart _ Hq ltac:(lia) ltac:(by compute) eq_refl)).
  rewrite (bind_Ret _ _ _ _ _ (load_process_type p _ Hp)). cbn [mem set_mem set_satp].
  rewrite (rd_type p (mem s)), Hty; [|by destruct Hp as (_ & _ & ?)|].
  - change (process_type_code PROC_TYPE_NORMAL =? process_type_code PROC_TYPE_NORMAL) with true. cbv iota.
    by rewrite (store_narrow p sizeof_process 1 82 0 _ Hp (or_introl eq_refl) ltac:(lia) ltac:(by compute) eq_refl).
  - destruct Hq as (_ & _ & Hq8). rewrite rd_wr_ne by lia. apply rd_wr_field_word. unfold word_of. clear -Hap Hq8. dlia.
Qed.

Lemma switched_rd p q hart m a :
  p mod 8 = 0 -> q mod 8 = 0 -> a mod 8 = 0 -> a <> p + 80 -> a <> q + 80 -> a <> q + 160 ->
  rd (switched p q hart m) a = rd m a.
Proof.
  intros Hp Hq Ha H1 H2 H3. unfold switched. rewrite rd_wr_field_word, rd_wr_ne, rd_wr_field_word; [done|..].
  - unfold word_of. clear -H2 Hq. dlia.
  - lia.
  - unfold word_of. clear -H1 Hp. dlia.
Qed.

(** What a timer interrupt leaves when [q] takes over: its tables too. *)
Definition tick_switched (m : gmap Z Z) (v count start : Z) (s : kstate) : kstate :=
  set_satp v (ticked m count start s).

Section Switch.
Context (proc q : Z) (rest : list Z) (tf t1 t0 hart t a : Z) (s : kstate).
Hypothesis Hk : ticking proc tf t1 t0 s.
Hypothesis Hq : queue_of s = q :: rest.
Hypothesis Hs : switchable q hart t a s.
Hypothesis Hap : q + 192 <= proc \/ proc + 192 <= q.

(** The state in which the scheduler has chosen [q]. *)
Lemma tick_chooses : exists s4, handle_sync_trap hart s =
    (context_change_process q hart ;; timer_set_future_ms 4 ;; mret TRAP_HANDLED) s4 /\
  sched_inv s4 /\ queue_of s4 = rest ++ [proc] /\ running proc tf t1 t0 s4 /\ switchable q hart t a s4 /\
  rd_field 4 (mem s4) (proc + 104) = process_type_code PROC_TYPE_NORMAL /\
  (exists count start, s4 = set_ring count start (set_mem (mem s4) s)) /\
  (forall b, b <> proc + 16 -> ring_free s b 8 -> b mod 8 = 0 -> rd (mem s4) b = rd (mem s) b).
Proof.
  destruct (tick_requeues proc tf t1 t0 hart s Hk) as (s3 & [Hr3 Hi3 Er3 Hq3 W3 Ck Tm Sb Vm (m & c3 & st3 & E3)] & ->).
  rewrite Hq in Hq3. cbn [app] in Hq3.
  destruct (scheduler_next_spec hart s3 q (rest ++ [proc]) Hi3 Hq3) as (s4 & E4 & Hi4 & Hq4 & _).
  pose proof (length_queue_of s3 Hi3) as Hlen. rewrite Hq3 in Hlen. cbn [length] in Hlen.
  pose proof (scheduler_next_eq hart s3 Hi3 ltac:(lia)) as E4'. rewrite E4 in E4'. injection E4' as _ Es4.
  assert (mem s4 = mem s3) as Em by (by rewrite Es4).
  pose proof Hs as [Hqb Hqr H160 [H56 Ha] [H48 Ht] Hm]. pose proof Hqb as (_ & _ & Hq8).
  pose proof (rn_proc _ _ _ _ _ Hr3) as (_ & _ & Hp8). pose proof (tk_ring_proc _ _ _ _ _ Hk) as Hpr.
  unfold ring_free, sizeof_process in Hqr, Hpr.
  assert (forall k, 0 <= k <= 184 -> k mod 8 = 0 -> rd (mem s4) (q + k) = rd (mem s) (q + k)) as Wq.
  { intros k Hk1 Hk2. rewrite Em. apply W3; [lia|unfold ring_free; lia|clear -Hq8 Hk2; dlia]. }
  exists s4. split; [|split; [done|split; [done|split; [by rewrite Es4; apply running_ring|split; [|split; [|split]]]]]].
  - unfold after_tick. by rewrite !bind_assoc, (bind_Ret _ _ _ _ _ E4), bind_assoc.
  - split; [done|unfold ring_free, sizeof_process; rewrite Es4; cbn; lia|by rewrite Wq|by rewrite Wq|by rewrite Wq|by rewrite Es4; cbn; rewrite Vm].
  - rewrite <- (tk_normal _ _ _ _ _ Hk). apply rd_type; [done|]. rewrite Em. apply W3; [lia|unfold ring_free; lia|clear -Hp8; dlia].
  - rewrite Es4, E3. by do 2 eexists.
  - intros b. rewrite Em. apply W3.
Qed.

Lemma tick_switch : exists m count start s', s' = tick_switched m (satp_of t a) count start s /\
  handle_sync_trap hart s = Ret TRAP_HANDLED s' /\ sched_inv s' /\ queue_of s' = rest ++ [proc] /\
  byte m (q + 82) = 1 /\ byte m (proc + 82) = 0 /\ rd m (q + 160) = hart /\
  (forall b, b <> proc + 16 -> b <> proc + 80 -> b <> q + 80 -> b <> q + 160 -> ring_free s b 8 -> b mod 8 = 0 ->
    rd m b = rd (mem s) b).
Proof.
  destruct tick_chooses as (s4 & -> & Hi4 & Hq4 & Hr4 & Hs4 & Hty & (c & st & Es4) & W).
  pose proof (sw_block _ _ _ _ _ Hs) as Hqb. pose proof Hqb as (_ & _ & Hq8).
  pose proof (rn_proc _ _ _ _ _ Hr4) as (_ & _ & Hp8). pose proof (tk_ring_proc _ _ _ _ _ Hk) as Hpr.
  pose proof (sw_ring _ _ _ _ _ Hs) as Hqr. unfold ring_free, sizeof_process in Hqr, Hpr.
  set (m4 := mem s4) in *. assert (process_queue (scheduler s4) = process_queue (scheduler s)) as Er4 by (by rewrite Es4).
  exists (switched proc q hart m4), c, st, (tick_switched (switched proc q hart m4) (satp_of t a) c st s). split; [done|].
  split; [|split_and!].
  - rewrite (bind_Ret _ _ _ _ _ (context_switch proc q tf t1 t0 hart t a s4 Hr4 Hs4 Hap Hty)). set (s5 := set_mem _ _).
    rewrite (bind_Ret _ _ _ _ _ (timer_again proc tf t1 t0 s Hk s5 ltac:(by unfold s5; rewrite Es4) ltac:(by unfold s5; rewrite Es4) ltac:(by unfold s5; rewrite Es4))).
    unfold s5. by rewrite Es4.
  - rewrite Es4 in Hi4. by destruct Hi4; split.
  - rewrite <- Hq4. apply queue_of_same; [done|by rewrite Es4|]. intros b Hb Hb8. cbn.
    rewrite Er4 in Hb. apply switched_rd; (done || lia).
  - unfold switched. rewrite byte_wr8. replace (q + 82 =? proc + 82) with false by lia. rewrite byte_wr by (clear -Hq8; dlia).
    replace ((q + 160 <=? q + 82) && _) with false by lia. by rewrite byte_wr8, Z.eqb_refl.
  - unfold switched. by rewrite byte_wr8, Z.eqb_refl.
  - unfold switched. rewrite rd_wr_field_word by (unfold word_of; clear -Hap Hq8 Hp8; dlia). rewrite rd_wr_eq. rewrite <- (sw_hart _ _ _ _ _ Hs).
    apply wrap64_small, rd_u64.
  - intros b H1 H2 H3 H4 H5 H6. rewrite switched_rd by done. by apply W.
Qed.
End Switch.

(** The change of process.  A timer interrupt while [proc] runs and [q] is
    the first of the queue: [q] runs on its own tables under its own
    identifier, [proc] is the last of the queue and not running, the rest of
    the queue moves up, and the next interrupt is set 4 ms ahead. *)
Theorem timer_tick_switches proc q rest tf t1 t0 hart t a s :
  ticking proc tf t1 t0 s -> queue_of s = q :: rest -> switchable q hart t a s ->
  q + 192 <= proc \/ proc + 192 <= q ->
  exists s', handle_sync_trap hart s = Ret TRAP_HANDLED s' /\ queue_of s' = rest ++ [proc] /\
    satp s' mod 2 ^ 44 = (t - KERNEL_VMA_START) / 4096 /\ satp s' / 2 ^ 44 mod 2 ^ 16 = a /\ satp s' / 2 ^ 60 = 8 /\
    byte (mem s') (q + 82) = 1 /\ byte (mem s') (proc + 82) = 0 /\ timers s' = timers s ++ [clock s ⊕ 40000].
Proof.
  intros Hk Hq Hs Hap.
  destruct (tick_switch proc q rest tf t1 t0 hart t a s Hk Hq Hs Hap) as (m & c & st & s' & -> & E & _ & Hq' & B1 & B2 & _ & _).
  eexists. split; [exact E|]. split; [done|]. destruct Hs as [_ _ _ [_ Ha] [_ Ht] _].
  destruct (page_number t Ht) as [Hn _]. destruct Ht as [[T1 T2] _].
  destruct (satp_fields a ((t - KERNEL_VMA_START) / 4096) Ha Hn) as (F1 & F2 & F3).
  change (satp (tick_switched m (satp_of t a) c st s)) with (satp_of t a).
  unfold satp_of. by rewrite (wrap64_small (t - _)) by (unfold KERNEL_VMA_START in *; lia).
Qed.

(** ** Witnesses: the process of file Traps, alone and with another one queued *)
Definition timer_cause : Z := 9223372036854775813.

Lemma demo_ticking : ticking demo_task demo_tf demo_t1 demo_t0 (demo_trap timer_cause).
Proof.
  split; [apply demo_running|by vm_compute| | |left; zdone|by vm_compute|by vm_compute|by vm_compute|by vm_compute].
  - split; [unfold kblock; zdone|done|zdone|zdone].
  - split; [|left; zdone]. intros a [->|[->| ->]]; left; zdone.
Qed.

Lemma timer_tick_alone_witness :
  exists s', handle_sync_trap 0 (demo_trap timer_cause) = Ret TRAP_HANDLED s' /\ timers s' = [40000].
Proof.
  destruct (timer_tick_alone demo_task demo_tf demo_t1 demo_t0 0 (demo_trap timer_cause) demo_ticking ltac:(by vm_compute))
    as (s' & E & _ & _ & Ht).
  exists s'. split; [exact E|exact Ht].
Defined.

Definition demo_other : Z := demo_task + 192.
Definition demo_tables : Z := demo_ring + 4096.

(** [demo_other] is queued; it has tables of its own and identifier 7. *)
Definition demo_two : kstate :=
  set_vma (mkVma 100 9) (set_scheduler (mkScheduler demo_ring 512 1 0 0) (set_mem
    (wr (wr (wr (mem (demo_trap timer_cause)) demo_ring demo_other) (demo_other + 48) demo_tables) (demo_other + 56) 7)
    (demo_trap timer_cause))).

Lemma demo_two_ticking : ticking demo_task demo_tf demo_t1 demo_t0 demo_two.
Proof.
  assert (satp_root demo_two = demo_root) as Er by reflexivity.
  split; [|by vm_compute| | |left; zdone|by vm_compute|by vm_compute|by vm_compute|by vm_compute].
  - split; [split; rewrite ?Er; try (unfold page_ok; zdone); by vm_compute|unfold kblock; zdone|by vm_compute
      |right; zdone| |]; unfold on_path; rewrite Er; intros a [->|[->| ->]]; zdone.
  - split; [unfold kblock; zdone|done|zdone|zdone].
  - split; [|left; zdone]. intros a [->|[->| ->]]; left; zdone.
Qed.

Lemma timer_tick_switches_witness :
  exists s', handle_sync_trap 0 demo_two = Ret TRAP_HANDLED s' /\ queue_of s' = [demo_task] /\ satp s' / 2 ^ 44 mod 2 ^ 16 = 7.
Proof.
  destruct (timer_tick_switches demo_task demo_other [] demo_tf demo_t1 demo_t0 0 demo_tables 7 demo_two demo_two_ticking
    ltac:(by vm_compute)) as (s' & E & Hq & _ & Hs & _).
  - split; [unfold kblock; zdone|left; zdone|by vm_compute|split; [by vm_compute|zdone]|split; [by vm_compute|unfold page_ok; zdone]|zdone].
  - right. zdone.
  - exists s'. split; [exact E|]. split; [exact Hq|exact Hs].
Defined.
