(* ===== verification/DeviceTree.v ===== *)
(** * The device tree ([arch_device_tree/dtb.c], [kernel/devices/device_tree.c])

    The blob is unfolded into records linked by first child and next sibling,
    written from the end of the kernel on. *)
From S2P Require Import Prelude Machine Strings Endian Uart Objects.

(** ** The code of dtb.c *)

Definition set_dtb (v : Z) (s : kstate) : kstate :=
  set_devices (mkDevices v (root_device_node (devices s)) (kernel_device_end (devices s)) (root_entry (devices s))) s.

Definition dtb_set_dst (new_dtb : Z) : M unit := modify (set_dtb new_dtb).

(** The shift of the first byte into the sign bit of an [int] is read the way
    the compilers the build uses define it. *)
Definition dtb_read_int (ptr : Z) : M Z :=
  b0 ← load8 (ptr ⊕ 0);
  b1 ← load8 (ptr ⊕ 1);
  b2 ← load8 (ptr ⊕ 2);
  b3 ← load8 (ptr ⊕ 3);
  mret (Z.lor (Z.lor (Z.lor (Z.shiftl b0 24) (Z.shiftl b1 16)) (Z.shiftl b2 8)) b3).

(** [device_info] *)
Definition dev_first_child (d : Z) : Z := d ⊕ 0.
Definition dev_next_sibling (d : Z) : Z := d ⊕ 8.
Definition dev_name (d : Z) : Z := d ⊕ 16.
Definition dev_is_leaf (d : Z) : Z := d ⊕ 24.               (* u8 *)
Definition dev_value (d : Z) : Z := d ⊕ 32.
Definition dev_value_len (d : Z) : Z := d ⊕ 40.
Definition sizeof_device_info : Z := 48.

(** The fields of [dtb_header] that are used. *)
Record dtb_header := mkHeader {
  magic_header : Z;
  struct_offset : Z;
  strings_offset : Z;
  version : Z;
  comptaible_version : Z;
  struct_size : Z;
}.

Definition read_header (dtb : Z) : M dtb_header :=
  for_each (upto 0 10) (fun k => _ ← load32 (dtb ⊕ 4 * k); skip) ;;
  magic ← dtb_read_int dtb;
  _ ← dtb_read_int (dtb ⊕ 4);
  structs ← dtb_read_int (dtb ⊕ 8);
  strings ← dtb_read_int (dtb ⊕ 12);
  _ ← dtb_read_int (dtb ⊕ 16);
  version ← dtb_read_int (dtb ⊕ 20);
  compatible ← dtb_read_int (dtb ⊕ 24);
  _ ← dtb_read_int (dtb ⊕ 28);
  _ ← dtb_read_int (dtb ⊕ 32);
  size ← dtb_read_int (dtb ⊕ 36);
  mret (mkHeader magic structs strings version compatible size).

(** The locals of the walk.  An element of [node_stack] that was never written
    is [None]; only the first three are. *)
Record walk := mkWalk {
  byte_location : Z;          (* u32 *)
  cur_loc : Z;
  node_stack : list (option Z);
  node_depth : Z;             (* s32 *)
}.

Definition stack_read (st : list (option Z)) (i : Z) : M Z :=
  if i <? 0 then undef "array index" else
  match st !! Z.to_nat i with
  | Some (Some v) => mret v
  | Some None => undef "read of an uninitialised local"
  | None => undef "array index"
  end.

Definition stack_write (st : list (option Z)) (i v : Z) : M (list (option Z)) :=
  if (0 <=? i) && (i <? Z.of_nat (length st)) then mret (<[Z.to_nat i := Some v]> st) else undef "array index".

(** The links of a new entry at the current depth. *)
Definition link_entry (w : walk) (entry : Z) : M (list (option Z)) :=
  sibling ← stack_read (node_stack w) (node_depth w);
  when (negb (sibling =? 0)) (store64 (dev_next_sibling sibling) entry) ;;
  when (0 <? node_depth w)
    (parent ← stack_read (node_stack w) (node_depth w - 1);
     child ← load64 (dev_first_child parent);
     when (child =? 0) (store64 (dev_first_child parent) entry)) ;;
  stack_write (node_stack w) (node_depth w) entry.

Definition node_start (dtb : Z) (w : walk) : M walk :=
  let node := cur_loc w in
  store64 (dev_name node) (dtb ⊕ wrap32 (byte_location w + 4)) ;;
  store8 (dev_is_leaf node) 0 ;;
  store64 (dev_first_child node) 0 ;;
  store64 (dev_next_sibling node) 0 ;;
  st ← link_entry w node;
  let depth := node_depth w + 1 in
  if 14 <=? depth then PANIC "DTB_STACK_DEPTH_TO_HIGH" (byte_location w) 0 0 else
  offset ← while_true (fun offset =>
    c ← load8 (dtb ⊕ wrap32 (byte_location w + offset + 4));
    mret (if c =? 0 then inr offset else inl (offset + 1))) 0;
  mret (mkWalk (wrap32 (byte_location w + (offset + 4) / 4 * 4)) (node ⊕ sizeof_device_info) st depth).

Definition node_end (w : walk) : M walk :=
  st ← stack_write (node_stack w) (node_depth w) 0;
  let depth := node_depth w - 1 in
  if depth <? 0 then PANIC "DTB_STACK_DEPTH_LESS_ZERO" (byte_location w) 0 0
  else mret (mkWalk (byte_location w) (cur_loc w) st depth).

Definition property (dtb strings : Z) (w : walk) : M walk :=
  prop_size ← dtb_read_int (dtb ⊕ wrap32 (byte_location w + 4));
  name_offset ← dtb_read_int (dtb ⊕ wrap32 (byte_location w + 8));
  let device := cur_loc w in
  store8 (dev_is_leaf device) 1 ;;
  store64 (dev_name device) (dtb ⊕ wrap32 (strings + name_offset)) ;;
  store64 (dev_value device) (dtb ⊕ wrap32 (byte_location w + 12)) ;;
  store64 (dev_value_len device) prop_size ;;
  store64 (dev_next_sibling device) 0 ;;
  store64 (dev_first_child device) 0 ;;
  st ← link_entry w device;
  let padded_len := wrap32 (prop_size + 3) / 4 * 4 in
  mret (mkWalk (wrap32 (byte_location w + padded_len + 8)) (device ⊕ sizeof_device_info) st (node_depth w)).

(** One round of the loop over the structure block. *)
Definition walk_step (dtb : Z) (h : dtb_header) (w : walk) : M (walk + walk) :=
  if negb (byte_location w <? wrap32 (struct_offset h + struct_size h)) then mret (inr w) else
  item_value ← dtb_read_int (dtb ⊕ byte_location w);
  w ← (if item_value =? 1 then node_start dtb w
       else if item_value =? 2 then node_end w
       else if item_value =? 4 then mret w
       else if item_value =? 3 then property dtb (strings_offset h) w
       else if item_value =? 9 then mret w
       else PANIC "DTB_UNEXPECTED_CODE" item_value (byte_location w) 0);
  mret (inl (mkWalk (wrap32 (byte_location w + 4)) (cur_loc w) (node_stack w) (node_depth w))).

(** The response: the root, and the end of what was written. *)
Definition dtb_dump (output_location : Z) : M (Z * Z) :=
  uart_println_lit "Parsing DTB" ;;
  dtb ← gets (fun s => dtb (devices s));
  h ← read_header dtb;
  if negb (magic_header h =? 0xD00DFEED) then PANIC "INCORRECT_DTB_MAGIC_HEADER" (comptaible_version h) 0 0
  else if negb (comptaible_version h =? 16) then PANIC "INCORRECT_DTB_VERSION" (comptaible_version h) (version h) 0
  else
  w ← while_true (walk_step dtb h)
        (mkWalk (struct_offset h) output_location ([Some 0; Some 0; Some 0] ++ replicate 13 None) 0);
  if output_location =? 0 then PANIC "INVALID_DEVICE_TREE_DUMP_LOCATION" 0 0 0 else
  root ← stack_read (node_stack w) 0;
  mret (root, cur_loc w).

Definition dtb_hart_cnt : M Z := mret 1.

Definition device_tree_prefix_get_child (device prefix iter_num : Z) : M Z :=
  first ← load64 (dev_first_child device);
  while_true (fun '(cur_device, iter_upto) =>
    if cur_device =? 0 then mret (inr 0) else
    name ← load64 (dev_name cur_device);
    starts ← str_starts_with name prefix;
    if starts && (iter_num =? iter_upto) then mret (inr cur_device) else
    next ← load64 (dev_next_sibling cur_device);
    mret (inl (next, if starts : bool then wrap32 (iter_upto + 1) else iter_upto))) (first, 0).

(** ** The code of device_tree.c *)

Definition device_tree_init (kernel_end : Z) : M unit :=
  '(root, end_loc) ← dtb_dump kernel_end;
  modify (fun s => set_devices (mkDevices (dtb (devices s)) root end_loc (root_entry (devices s))) s) ;;
  uart_println_lit "printing out devices" ;;
  lits ← gets literals;
  address_cells_device ← device_tree_prefix_get_child root (lit_address_cells lits) 0;
  if address_cells_device =? 0 then PANIC "FAILED_TO_GET_ADDRESS_CELL_SIZE_INFO" 0 0 0 else
  cell_size_device ← device_tree_prefix_get_child root (lit_size_cells lits) 0;
  if cell_size_device =? 0 then PANIC "FAILED_TO_GET_ADDRESS_CELL_SIZE_INFO" 0 0 0 else
  value ← load64 (dev_value address_cells_device);
  v ← load32 value;
  address_cells ← big_endian_u32_to_host v;
  value ← load64 (dev_value cell_size_device);
  v ← load32 value;
  cell_size ← big_endian_u32_to_host v;
  if negb (address_cells =? 2) then PANIC "THE_ADDRESS_CELL_NOT_TWO" address_cells 0 0
  else if negb (cell_size =? 2) then PANIC "THE_CELL_SIZE_NOT_TWO" cell_size 0 0
  else skip.

Definition device_tree_ptr : M Z :=
  g ← gets devices;
  if kernel_device_end g =? 0 then PANIC "DEVICE_TREE_FETCHED_BUT_NOT_INIT" 0 0 0 else mret (root_device_node g).

Definition device_tree_end_ptr : M Z :=
  g ← gets devices;
  if kernel_device_end g =? 0 then PANIC "DEVICE_TREE_FETCHED_BUT_NOT_INIT" 0 0 0 else mret (kernel_device_end g).

Definition print_bars (cur_depth : Z) : M unit := for_each (upto 0 cur_depth) (fun _ => uart_print_lit " | ").

(** [fuel] bounds the recursion over the nodes. *)
Fixpoint device_tree_print_node (fuel : nat) (device cur_depth : Z) : M unit :=
  match fuel with
  | O => out_of_fuel
  | S fuel =>
      print_bars cur_depth ;;
      is_leaf ← load8 (dev_is_leaf device);
      (if is_leaf =? 1 then uart_print_lit "- " else uart_print_lit "> ") ;;
      name ← load64 (dev_name device);
      uart_println_str name ;;
      when (is_leaf =? 1)
        (print_bars cur_depth ;;
         uart_print_lit "  ^ len : " ;;
         len ← load64 (dev_value_len device);
         uart_println_u64 len ;;
         print_bars cur_depth ;;
         uart_print_lit "  ^ value : " ;;
         value ← load64 (dev_value device);
         for_each (upto 0 len) (fun i => b ← load8 (value ⊕ i); uart_print_u8_hex b) ;;
         uart_println_lit EmptyString) ;;
      child ← load64 (dev_first_child device);
      when (negb (child =? 0)) (device_tree_print_node fuel child (cur_depth ⊕ 1)) ;;
      next ← load64 (dev_next_sibling device);
      when (negb (next =? 0)) (device_tree_print_node fuel next cur_depth)
  end.

Definition device_tree_print (fuel : nat) : M unit :=
  _ ← device_tree_ptr;
  g ← gets devices;
  device_tree_print_node fuel (root_device_node g) 0.

(** ** Looking for a child *)

(** The records from [a] on, linked by next sibling, with their names. *)
Fixpoint siblings (m : gmap Z Z) (a : Z) (l : list (Z * list Z)) : Prop :=
  match l with
  | [] => a = 0
  | (d, name) :: l' => a = d /\ a <> 0 /\ kblock a sizeof_device_info /\
      cstring m (rd m (a + 16)) name /\ siblings m (rd m (a + 8)) l'
  end.

(** The children a search counts. *)
Definition matching (prefix : list Z) (l : list (Z * list Z)) : list Z :=
  (filter (fun dn => is_prefix prefix dn.2 = true) l).*1.

Lemma matching_cons prefix d name l :
  matching prefix ((d, name) :: l) = if is_prefix prefix name then d :: matching prefix l else matching prefix l.
Proof. unfold matching. rewrite filter_cons. cbn [snd]. by destruct (is_prefix prefix name). Qed.

(** C36: [device_tree_prefix_get_child] gives the child number [n], from 0, among
    those whose name starts with the prefix, NULL when there are no more, and
    changes nothing. *)
Theorem prefix_get_child_correct device prefix n l lp s :
  kblock device sizeof_device_info -> siblings (mem s) (rd (mem s) device) l -> cstring (mem s) prefix lp ->
  0 <= n < 4294967296 -> Z.of_nat (length l) < 4294967296 ->
  device_tree_prefix_get_child device prefix n s = Ret (nth (Z.to_nat n) (matching lp l) 0) s.
Proof.
  intros Hd Hl Hp Hn Hlen. apply wp_exact. unfold device_tree_prefix_get_child, dev_first_child. apply wp_bind.
  unfold wp at 1. rewrite (load_field_addr device _ 0 s Hd ltac:(lia) ltac:(by compute) eq_refl), Z.add_0_r.
  apply (wp_while_bounded (fun k '(a, i) s' => s' = s /\ exists r, siblings (mem s) a r /\ k = Z.of_nat (length r) /\
      0 <= i <= n /\ i + k <= Z.of_nat (length l) /\
      nth (Z.to_nat n) (matching lp l) 0 = nth (Z.to_nat (n - i)) (matching lp r) 0) _ _) with (n := Z.of_nat (length l)).
  - intros k [a i] s' (_ & r & _ & -> & _). lia.
  - intros k [a i] s' (-> & r & Hr & -> & Hi & Hik & E). unfold wp. destruct r as [|[d name] r]; cbn [siblings] in Hr.
    + subst a. split; [|done]. rewrite E. by destruct (Z.to_nat (n - i)).
    + destruct Hr as (<- & Ha & Hb & Hname & Hr). replace (a =? 0) with false by lia. unfold dev_name, dev_next_sibling.
      rewrite (bind_Ret _ _ _ _ _ (load_field_addr a _ 16 s Hb ltac:(lia) ltac:(by compute) eq_refl)).
      rewrite (bind_Ret _ _ _ _ _ (str_starts_with_correct s _ prefix name lp Hname Hp)).
      rewrite matching_cons in E. cbn [length] in Hik. destruct (is_prefix lp name) eqn:Ep; cbn [andb].
      * destruct (Z.eqb_spec n i) as [->|Hne].
        -- split; [|done]. rewrite E. by replace (Z.to_nat (i - i)) with O by lia.
        -- rewrite (bind_Ret _ _ _ _ _ (load_field_addr a _ 8 s Hb ltac:(lia) ltac:(by compute) eq_refl)).
           cbn [mret M_ret]. exists (Z.of_nat (length r)). split; [|cbn [length]; lia]. split; [done|].
           exists r. rewrite wrap32_small by lia. split_and!; try done; try lia.
           rewrite E. by replace (Z.to_nat (n - i)) with (S (Z.to_nat (n - (i + 1)))) by lia.
      * rewrite (bind_Ret _ _ _ _ _ (load_field_addr a _ 8 s Hb ltac:(lia) ltac:(by compute) eq_refl)).
        cbn [mret M_ret]. exists (Z.of_nat (length r)). split; [|cbn [length]; lia]. split; [done|].
        exists r. split_and!; try done; lia.
  - split; [done|]. exists l. rewrite Z.sub_0_r. split_and!; try done; lia.
  - lia.
Qed.

(** ** Witness: a device with the children "c0", "m0" and "c1" *)
Definition tree_device : Z := 0xffffffc080000000.
Definition tree_child (k : Z) : Z := tree_device + 64 * (k + 1).
Definition tree_name (k : Z) : Z := tree_device + 512 + 8 * k.
Definition tree_state : kstate :=
  let name m k c i := put_bytes m (tree_name k) [c; i; 0] in
  set_mem (put_bytes (name (name (name
    (wr (wr (wr (wr (wr (wr ∅ tree_device (tree_child 0)) (tree_child 0 + 8) (tree_child 1)) (tree_child 1 + 8) (tree_child 2))
      (tree_child 0 + 16) (tree_name 0)) (tree_child 1 + 16) (tree_name 1)) (tree_child 2 + 16) (tree_name 2))
    0 99 48) 1 109 48) 2 99 49) (tree_name 3) [99; 0]) zero_state.

Lemma two_chars m a c d :
  kbytes a 3 -> byte m a = c -> byte m (a + 1) = d -> byte m (a + 2) = 0 -> 0 < c -> 0 < d -> cstring m a [c; d].
Proof.
  intros Ha H1 H2 H3 Hc Hd. split; [exact Ha| |exact H3].
  intros [|[|k]] x Hx; cbn in Hx; [injection Hx as <-|injection Hx as <-|done]; [by rewrite Z.add_0_r|done].
Qed.

Ltac sibling :=
  split; [reflexivity|]; split; [by compute|]; split; [unfold kblock; zdone|];
  split; [apply two_chars; [unfold kbytes; zdone|by vm_compute..]|].

Lemma prefix_get_child_correct_witness :
  device_tree_prefix_get_child tree_device (tree_name 3) 1 tree_state = Ret (tree_child 2) tree_state.
Proof.
  apply (prefix_get_child_correct tree_device (tree_name 3) 1
    [(tree_child 0, [99; 48]); (tree_child 1, [109; 48]); (tree_child 2, [99; 49])] [99] tree_state).
  - unfold kblock. zdone.
  - assert (rd (mem tree_state) tree_device = tree_child 0) as -> by (by vm_compute).
    assert (rd (mem tree_state) (tree_child 0 + 8) = tree_child 1) as E1 by (by vm_compute).
    assert (rd (mem tree_state) (tree_child 1 + 8) = tree_child 2) as E2 by (by vm_compute).
    cbn [siblings]. rewrite E1, E2.
    do 3 sibling. by vm_compute.
  - split; [unfold kbytes; zdone| |by vm_compute].
    intros [|k] c Hc; cbn in Hc; [injection Hc as <-|done]. split; [by vm_compute|lia].
  - lia.
  - by vm_compute.
Defined.
