(* ===== verification/Drivers.v ===== *)
(** * Boot drivers ([kernel/devices/driver_manager.c])

    A linked list of entries in memory, ordered by boot stage. *)
From Stdlib Require Import Sorting.Sorted.
From S2P Require Import Prelude Machine.

(** ** The code *)

Definition entry_stage (e : Z) : Z := e ⊕ 0.                (* u32 *)
Definition entry_next (e : Z) : Z := e ⊕ 8.

Definition set_root_entry (v : Z) (s : kstate) : kstate :=
  set_devices (mkDevices (dtb (devices s)) (root_device_node (devices s)) (kernel_device_end (devices s)) v) s.

Definition append_driver (new_entry : Z) : M unit :=
  store64 (entry_next new_entry) 0 ;;
  g ← gets devices;
  if root_entry g =? 0 then modify (set_root_entry new_entry) else
  stage ← load32 (entry_stage new_entry);
  root_stage ← load32 (entry_stage (root_entry g));
  if stage <=? root_stage then
    store64 (entry_next new_entry) (root_entry g) ;;
    modify (set_root_entry new_entry)
  else
    while_true (fun cur_entry =>
      next_entry ← load64 (entry_next cur_entry);
      if next_entry =? 0 then store64 (entry_next cur_entry) new_entry ;; mret (inr tt) else
      stage ← load32 (entry_stage new_entry);
      next_stage ← load32 (entry_stage next_entry);
      if stage <=? next_stage then
        store64 (entry_next new_entry) next_entry ;;
        store64 (entry_next cur_entry) new_entry ;;
        mret (inr tt)
      else mret (inl next_entry)) (root_entry g).

Definition fetch_driver (cur_stage : Z) : M Z :=
  g ← gets devices;
  if root_entry g =? 0 then mret 0 else
  stage ← load32 (entry_stage (root_entry g));
  if cur_stage <? stage then mret 0 else
  next ← load64 (entry_next (root_entry g));
  modify (set_root_entry next) ;;
  mret (root_entry g).

Definition init_drivers : M unit := modify (set_root_entry 0).

(** ** The list in memory *)

Definition stage_of (m : gmap Z Z) (e : Z) : Z := rd_field 4 m e.
Definition next_of (m : gmap Z Z) (e : Z) : Z := rd m (e + 8).

(** An entry is two words. *)
Definition entry_ok (e : Z) : Prop := kblock e 16.
(** No entry starts in the second word of another. *)
Definition entries_apart (l : list Z) : Prop := forall x y, x ∈ l -> y ∈ l -> x <> y + 8.

Fixpoint chain (m : gmap Z Z) (a : Z) (l : list Z) : Prop :=
  match l with
  | [] => a = 0
  | e :: l' => a = e /\ entry_ok e /\ chain m (next_of m e) l'
  end.

(** The abstract insertion: before the first entry whose stage is not lower. *)
Fixpoint place (stage : Z -> Z) (e : Z) (l : list Z) : list Z :=
  match l with
  | [] => [e]
  | x :: l' => if stage e <=? stage x then e :: x :: l' else x :: place stage e l'
  end.

Definition by_stage (stage : Z -> Z) (x y : Z) : Prop := stage x <= stage y.

Lemma place_perm stage e l : place stage e l ≡ₚ e :: l.
Proof.
  induction l as [|x l IH]; cbn; [done|]. destruct (stage e <=? stage x); [done|].
  rewrite IH. apply Permutation_swap.
Qed.

Lemma place_sorted stage e l : Sorted (by_stage stage) l -> Sorted (by_stage stage) (place stage e l).
Proof.
  induction l as [|x l IH]; cbn; intros H; [by repeat constructor|].
  destruct (Z.leb_spec (stage e) (stage x)) as [Hle|Hlt]; [by constructor; [|constructor]|].
  apply Sorted_inv in H as [Hs Hh]. constructor; [by apply IH|].
  destruct l as [|y l]; cbn; [constructor; unfold by_stage; lia|].
  destruct (stage e <=? stage y); constructor; [unfold by_stage; lia|by inversion Hh].
Qed.

Section Entry.
Context (e : Z) (He : entry_ok e).

Lemma entry_words : entry_next e = e + 8 /\ valid64 (e + 8) /\ entry_stage e = e /\ access_ok 4 e = true /\ e <> 0.
Proof.
  destruct (kblock_elem e 2 1 He ltac:(lia)) as [E V]. rewrite E in V.
  destruct He as (H1 & H2 & H3). unfold KERNEL_VMA_START in *. unfold entry_next, entry_stage.
  rewrite Z.add_0_r, !wrap64_small by lia. split_and!; [done|done|done| |lia].
  unfold access_ok, kernel_mapped, KERNEL_VMA_START. apply andb_true_iff. split; [lia|].
  apply Z.eqb_eq. clear -H3. dlia.
Qed.

Lemma load_stage s : load32 (entry_stage e) s = Ret (stage_of (mem s) e) s.
Proof. destruct entry_words as (_ & _ & -> & H & _). unfold load_field. by rewrite H. Qed.

Lemma load_next s : load64 (entry_next e) s = Ret (next_of (mem s) e) s.
Proof. destruct entry_words as (-> & H & _). by rewrite load64_eq. Qed.

Definition link (m : gmap Z Z) (v : Z) : gmap Z Z := wr m (e + 8) v.

Lemma store_next v s : store64 (entry_next e) v s = Ret tt (set_mem (link (mem s) v) s).
Proof. destruct entry_words as (-> & H & _). by rewrite store64_eq. Qed.

Lemma next_link m v : u64 v -> next_of (link m v) e = v.
Proof. intros Hv. unfold next_of, link. rewrite rd_wr_eq. by apply wrap64_small. Qed.

Lemma stage_link m v x : entry_ok x -> x <> e + 8 -> stage_of (link m v) x = stage_of m x.
Proof.
  intros Hx Hne. unfold stage_of, rd_field, link, word_of. destruct Hx as (_ & _ & ->).
  by rewrite Z.sub_0_r, rd_wr_ne by done.
Qed.
End Entry.

Lemma next_link_ne e m v x : x <> e -> next_of (link e m v) x = next_of m x.
Proof. intros H. unfold next_of, link. apply rd_wr_ne. lia. Qed.

Lemma link_link e m v w : link e (link e m v) w = link e m w.
Proof. unfold link, wr. apply insert_insert_eq. Qed.

Lemma next_u64 m x : u64 (next_of m x).
Proof. apply rd_u64. Qed.

Lemma chain_frame m m' a l :
  (forall x, x ∈ l -> next_of m' x = next_of m x) -> chain m a l -> chain m' a l.
Proof.
  revert a. induction l as [|x l IH]; intros a H; [done|]. cbn [chain]. intros (-> & Hx & Hc).
  split; [done|]. split; [done|]. rewrite H by (by left). apply IH; [|done]. intros y Hy. apply H. by right.
Qed.

Lemma chain_ok m a l x : chain m a l -> x ∈ l -> entry_ok x.
Proof.
  revert a. induction l as [|y l IH]; intros a; [by intros _ ?%not_elem_of_nil|]. cbn [chain].
  intros (-> & Hy & Hc) [->|Hx]%elem_of_cons; [done|]. by eapply IH.
Qed.

Lemma entry_u64 e : entry_ok e -> u64 e.
Proof. intros (H1 & H2 & _). unfold u64, KERNEL_VMA_START in *. lia. Qed.

Lemma entry_pos e : entry_ok e -> 1 <= e < 18446744073709551616.
Proof. intros (H1 & H2 & _). unfold KERNEL_VMA_START in *. lia. Qed.

Lemma chain_insert m a pre cur post e :
  entry_ok e -> NoDup (e :: pre ++ cur :: post) -> chain m a (pre ++ cur :: post) ->
  chain (link cur (link e m (next_of m cur)) e) a (pre ++ cur :: e :: post).
Proof.
  intros He Hnd. revert a. induction pre as [|x pre IH]; intros a.
  - cbn [app] in *. apply list.NoDup_cons in Hnd as [Hn1 [Hn2 Hnd]%list.NoDup_cons].
    assert (cur <> e) as Hne by (intros ->; apply Hn1; by left).
    intros (-> & Hcur & Hc). split; [done|]. split; [done|].
    rewrite (next_link cur) by (by apply entry_u64). split; [done|]. split; [done|].
    rewrite next_link_ne, next_link by (done || apply next_u64).
    eapply chain_frame; [|exact Hc]. intros y Hy.
    rewrite !next_link_ne; [done|intros ->; apply Hn1; by right|by intros ->].
  - cbn [app] in *. intros (-> & Hx & Hc). split; [done|]. split; [done|].
    apply list.NoDup_cons in Hnd as [Hn1 [Hn2 Hnd]%list.NoDup_cons]. rewrite not_elem_of_cons in Hn1.
    rewrite !next_link_ne.
    + apply IH; [|done]. apply list.NoDup_cons. split; [exact (proj2 Hn1)|done].
    + intros ->. exact (proj1 Hn1 eq_refl).
    + intros ->. apply Hn2. rewrite elem_of_app. right. by left.
Qed.

(** [e] goes after the entries of lower stage. *)
Lemma place_after stage e l1 l2 :
  Forall (fun x => stage x < stage e) l1 -> place stage e (l1 ++ l2) = l1 ++ place stage e l2.
Proof.
  induction 1 as [|x l Hx _ IH]; cbn; [done|]. by destruct (Z.leb_spec (stage e) (stage x)); [lia|rewrite IH].
Qed.

Lemma list_eq_nil_dec (l : list Z) : l = [] \/ exists x l', l = x :: l'.
Proof. destruct l as [|x l]; [by left|right; eauto]. Qed.

(** ** The list of the drivers left to start *)

Record driver_list (s : kstate) (l : list Z) : Prop := {
  dl_chain : chain (mem s) (root_entry (devices s)) l;
  dl_nodup : NoDup l;
  dl_apart : entries_apart l;
  dl_sorted : Sorted (by_stage (stage_of (mem s))) l;
}.

Lemma sorted_ext (f g : Z -> Z) l :
  (forall x, x ∈ l -> f x = g x) -> Sorted (by_stage f) l -> Sorted (by_stage g) l.
Proof.
  intros H. induction 1 as [|x l Hs IH Hh]; constructor.
  - apply IH. intros y Hy. apply H. by right.
  - destruct Hh as [|y l Hy]; constructor. unfold by_stage in *. rewrite <- !H; [done|right; left|left].
Qed.

Section Append.
Context (s : kstate) (l : list Z) (e : Z) (Hl : driver_list s l) (He : entry_ok e).
Context (Hnd : NoDup (e :: l)) (Hap : entries_apart (e :: l)).
Local Abbreviation stage := (stage_of (mem s)).

(** What [append_driver] leaves behind. *)
Definition placed (s' : kstate) : Prop :=
  chain (mem s') (root_entry (devices s')) (place stage e l) /\
  (forall x, x ∈ e :: l -> stage_of (mem s') x = stage x).

Lemma ok_in x : x ∈ e :: l -> entry_ok x.
Proof. intros [->|Hx]%elem_of_cons; [done|]. by eapply chain_ok; [apply (dl_chain _ _ Hl)|]. Qed.

Lemma stage_kept m v c x :
  c ∈ e :: l -> x ∈ e :: l -> stage_of m x = stage x -> stage_of (link c m v) x = stage x.
Proof. intros Hc Hx <-. apply stage_link; [by apply ok_in|by apply Hap]. Qed.

Lemma list_short : Z.of_nat (length l) < 18446744073709551616.
Proof.
  assert (l ⊆+ upto 1 18446744073709551616) as H%submseteq_length.
  { apply NoDup_submseteq; [apply (dl_nodup _ _ Hl)|]. intros x Hx. apply elem_of_upto.
    exact (entry_pos x (ok_in x (list_elem_of_further x e l Hx))). }
  rewrite length_upto in H. apply inj_le in H. rewrite Z2Nat.id in H by discriminate.
  eapply Z.le_lt_trans; [exact H|]. reflexivity.
Qed.

Lemma chain_first m : m = link e (mem s) 0 -> chain m (root_entry (devices s)) l.
Proof.
  intros ->. eapply chain_frame; [|apply (dl_chain _ _ Hl)]. intros x Hx. apply next_link_ne.
  intros ->. apply list.NoDup_cons in Hnd as [? _]. done.
Qed.

Lemma rebind m : set_mem m (set_mem (link e (mem s) 0) s) = set_mem m s.
Proof. done. Qed.

Lemma chain_split m a pre cur post :
  chain m a (pre ++ cur :: post) -> chain m cur (cur :: post).
Proof.
  revert a. induction pre as [|x pre IH]; intros a; cbn [app]; [by intros (-> & H)|].
  intros (_ & _ & H). by eapply IH.
Qed.

(** The two stores that link [e] after [cur]. *)
Lemma placed_after pre cur post :
  l = pre ++ cur :: post -> Forall (fun x => stage x < stage e) (pre ++ [cur]) ->
  (forall x post', post = x :: post' -> stage e <= stage x) ->
  placed (set_mem (link cur (link e (mem s) (next_of (mem s) cur)) e) s).
Proof.
  intros El Hlow Hpost. split; cbn [mem set_mem devices].
  - replace (place stage e l) with (pre ++ cur :: e :: post).
    + apply chain_insert; [done| |rewrite <- El; apply (dl_chain _ _ Hl)]. by rewrite <- El.
    + rewrite El. change (pre ++ cur :: post) with (pre ++ [cur] ++ post).
      rewrite app_assoc, place_after by done. rewrite <- app_assoc. f_equal. cbn. f_equal.
      destruct post as [|x post]; [done|]. cbn. specialize (Hpost x post eq_refl).
      by destruct (Z.leb_spec (stage e) (stage x)); [|lia].
  - assert (cur ∈ e :: l) by (right; rewrite El, elem_of_app; right; left).
    intros x Hx. by repeat (apply stage_kept; [done || by left|done|]).
Qed.

Lemma append_loop first rest :
  l = first :: rest -> stage first < stage e ->
  wp (while_true (fun cur_entry =>
      next_entry ← load64 (entry_next cur_entry);
      if next_entry =? 0 then store64 (entry_next cur_entry) e ;; mret (inr tt) else
      stage ← load32 (entry_stage e);
      next_stage ← load32 (entry_stage next_entry);
      if stage <=? next_stage then
        store64 (entry_next e) next_entry ;;
        store64 (entry_next cur_entry) e ;;
        mret (inr tt)
      else mret (inl next_entry)) first) (fun _ s' => placed s') (set_mem (link e (mem s) 0) s).
Proof.
  intros El0 Hfirst.
  apply (wp_while_bounded (fun n cur s' => s' = set_mem (link e (mem s) 0) s /\ exists pre post,
    n = Z.of_nat (length post) /\ l = pre ++ cur :: post /\ Forall (fun x => stage x < stage e) (pre ++ [cur])) _ _)
    with (n := Z.of_nat (length rest)).
  - intros n cur s' (_ & pre & post & -> & _). lia.
  - intros n cur s' (-> & pre & post & -> & El & Hlow).
    assert (cur ∈ l) as Hcur by (rewrite El, elem_of_app; right; left).
    assert (cur <> e) as Hne by (intros ->; by apply list.NoDup_cons in Hnd as [? _]).
    pose proof (ok_in cur ltac:(by right)) as Okc. unfold wp.
    rewrite (bind_Ret _ _ _ _ _ (load_next cur Okc _)). cbn [mem set_mem]. rewrite next_link_ne by done.
    pose proof (dl_chain _ _ Hl) as Hc. rewrite El in Hc. apply chain_split in Hc. cbn [chain] in Hc.
    destruct Hc as (_ & _ & Hc). destruct post as [|x post].
    + cbn [chain] in Hc. rewrite Hc. cbn [Z.eqb]. rewrite (bind_Ret _ _ _ _ _ (store_next cur Okc e _)), rebind.
      cbn [mret M_ret mem set_mem]. rewrite <- Hc. by eapply placed_after.
    + cbn [chain] in Hc. destruct Hc as (En & Okx & _). rewrite En.
      destruct (entry_words x Okx) as (_ & _ & _ & _ & Hx0). destruct (Z.eqb_spec x 0); [done|].
      assert (x ∈ e :: l) as Hx by (right; rewrite El, elem_of_app; right; right; left).
      assert (e ∈ e :: l) as Hee by left.
      rewrite (bind_Ret _ _ _ _ _ (load_stage e He _)), (bind_Ret _ _ _ _ _ (load_stage x Okx _)).
      cbn [mem set_mem]. rewrite !stage_kept by done.
      destruct (Z.leb_spec (stage e) (stage x)) as [Hle|Hlt].
      * rewrite (bind_Ret _ _ _ _ _ (store_next e He x _)), (bind_Ret _ _ _ _ _ (store_next cur Okc e _)).
        cbn [mret M_ret mem set_mem]. rewrite link_link.
        rewrite <- En at 1. apply (placed_after pre cur (x :: post) El Hlow). by intros y post' [= <- <-].
      * cbn [mret M_ret]. exists (Z.of_nat (length post)). split; [|cbn [length]; lia]. split; [done|].
        exists (pre ++ [cur]), post. rewrite <- app_assoc. split; [done|]. split; [done|].
        apply Forall_app. split; [done|]. by constructor.
  - split; [done|]. exists [], rest. split; [done|]. split; [done|]. by constructor.
  - pose proof list_short as H. rewrite El0 in H. cbn [length] in H. lia.
Qed.

Lemma chain_head m x l' : chain m (root_entry (devices s)) (x :: l') -> root_entry (devices s) = x.
Proof. by intros [-> _]. Qed.

Lemma append_placed : wp (append_driver e) (fun _ s' => placed s') s.
Proof.
  unfold wp, append_driver. rewrite (bind_Ret _ _ _ _ _ (store_next e He 0 s)).
  erewrite bind_Ret by reflexivity. cbn [devices set_mem]. pose proof (chain_first _ eq_refl) as Hc.
  assert (e ∈ e :: l) as Hee by left.
  destruct (list_eq_nil_dec l) as [El|(first & rest & El)].
  - rewrite El in Hc. cbn [chain] in Hc. rewrite Hc. cbn [Z.eqb modify]. split; cbn [mem set_root_entry set_devices set_mem devices root_entry].
    + rewrite El. cbn [place chain]. split; [done|]. split; [done|]. by apply next_link.
    + intros x Hx. by apply stage_kept.
  - assert (first ∈ e :: l) as Hx by (rewrite El; right; left).
    pose proof (ok_in first Hx) as Okx. destruct (entry_words first Okx) as (_ & _ & _ & _ & Hx0).
    assert (root_entry (devices s) = first) as Er by (rewrite El in Hc; by eapply chain_head).
    rewrite Er. destruct (Z.eqb_spec first 0); [done|].
    rewrite (bind_Ret _ _ _ _ _ (load_stage e He _)), (bind_Ret _ _ _ _ _ (load_stage first Okx _)).
    cbn [mem set_mem]. rewrite !stage_kept by done.
    destruct (Z.leb_spec (stage e) (stage first)) as [Hle|Hlt]; [|by apply (append_loop first rest)].
    rewrite (bind_Ret _ _ _ _ _ (store_next e He first _)). cbn [modify mem set_mem]. rewrite link_link.
    split; cbn [mem set_root_entry set_devices set_mem devices root_entry]; [|intros x Hx'; by apply stage_kept].
    rewrite El. cbn [place]. destruct (Z.leb_spec (stage e) (stage first)); [|lia].
    split; [done|]. split; [done|]. rewrite next_link, <- El, <- Er by (by apply entry_u64).
    rewrite <- (link_link e (mem s) 0). eapply chain_frame; [|exact Hc]. intros x Hx'. apply next_link_ne.
    intros ->. by apply list.NoDup_cons in Hnd as [? _].
Qed.

Lemma append_keeps s' : placed s' -> driver_list s' (place stage e l).
Proof.
  intros [Hc Hs]. pose proof (place_perm stage e l) as Hp. split; [done|by rewrite Hp| |].
  - intros x y Hx Hy. rewrite Hp in Hx, Hy. by apply Hap.
  - eapply sorted_ext; [|apply place_sorted, (dl_sorted _ _ Hl)]. intros x Hx. rewrite Hp in Hx. symmetry. by apply Hs.
Qed.
End Append.

(** [fetch_driver] on a list. *)
Lemma fetch_head s x l cur :
  driver_list s (x :: l) ->
  fetch_driver cur s = if cur <? stage_of (mem s) x then Ret 0 s
                       else Ret x (set_root_entry (next_of (mem s) x) s).
Proof.
  intros Hl. pose proof (dl_chain _ _ Hl) as (Er & Okx & _). unfold fetch_driver. erewrite bind_Ret by reflexivity.
  rewrite Er. destruct (entry_words x Okx) as (_ & _ & _ & _ & Hx0). destruct (Z.eqb_spec x 0); [done|].
  rewrite (bind_Ret _ _ _ _ _ (load_stage x Okx s)). destruct (cur <? stage_of (mem s) x); [done|].
  by rewrite (bind_Ret _ _ _ _ _ (load_next x Okx s)).
Qed.

Lemma fetch_tail s x l : driver_list s (x :: l) -> driver_list (set_root_entry (next_of (mem s) x) s) l.
Proof.
  intros [(Er & Okx & Hc) Hn Ha Hs]. split; [done|by apply list.NoDup_cons in Hn as []| |by apply Sorted_inv in Hs as []].
  intros a b Ha' Hb. apply Ha; by right.
Qed.

(** [append_driver] keeps the list of boot drivers in memory ordered by
    stage: the new entry goes before the first one whose stage is not lower,
    nothing else of the list moves and no stage changes.  [fetch_driver] then
    hands out the first entry, and only if its stage has been reached; the rest
    stays an ordered list. *)
Theorem drivers_in_stage_order s l e :
  driver_list s l -> entry_ok e -> NoDup (e :: l) -> entries_apart (e :: l) ->
  exists s', append_driver e s = Ret tt s' /\ driver_list s' (place (stage_of (mem s)) e l) /\
    place (stage_of (mem s)) e l ≡ₚ e :: l /\
    (forall x, x ∈ e :: l -> stage_of (mem s') x = stage_of (mem s) x) /\
    (forall cur x l', place (stage_of (mem s)) e l = x :: l' ->
       if cur <? stage_of (mem s) x then fetch_driver cur s' = Ret 0 s'
       else exists s'', fetch_driver cur s' = Ret x s'' /\ driver_list s'' l').
Proof.
  intros Hl He Hnd Hap. destruct (wp_inv _ _ _ (append_placed s l e Hl He Hnd Hap)) as ([] & s' & E & Hp).
  pose proof (append_keeps s l e Hl Hnd Hap s' Hp) as Hd. exists s'. split; [done|]. split; [done|].
  split; [apply place_perm|]. split; [apply Hp|]. intros cur x l' El. rewrite El in Hd.
  assert (x ∈ e :: l) as Hx by (rewrite <- (place_perm (stage_of (mem s)) e l), El; left).
  pose proof (fetch_head s' x l' cur Hd) as F. rewrite (proj2 Hp x Hx) in F.
  destruct (cur <? stage_of (mem s) x); [done|]. eexists. split; [exact F|]. by apply fetch_tail.
Qed.

(** ** Witness: a second driver of a lower stage *)
Definition demo_first : Z := 0xffffffc080000000.
Definition demo_second : Z := demo_first + 16.
Definition demo_drivers : kstate :=
  set_root_entry demo_first (set_mem (wr (wr ∅ demo_first 3) demo_second 1) zero_state).

Lemma demo_driver_list : driver_list demo_drivers [demo_first].
Proof.
  split; [split; [done|split; [unfold entry_ok, kblock; zdone|by vm_compute]]| | |].
  - apply NoDup_singleton.
  - intros x y ->%list_elem_of_singleton ->%list_elem_of_singleton. by vm_compute.
  - repeat constructor.
Qed.

Lemma drivers_in_stage_order_witness :
  exists s', append_driver demo_second demo_drivers = Ret tt s' /\ driver_list s' [demo_second; demo_first].
Proof.
  destruct (drivers_in_stage_order demo_drivers [demo_first] demo_second demo_driver_list) as (s' & E & Hl & _).
  - unfold entry_ok, kblock; zdone.
  - apply list.NoDup_cons. split; [|apply NoDup_singleton]. intros H%list_elem_of_singleton. by vm_compute in H.
  - intros x y Hx Hy. apply elem_of_cons in Hx as [->| ->%list_elem_of_singleton];
      apply elem_of_cons in Hy as [->| ->%list_elem_of_singleton]; by vm_compute.
  - exists s'. split; [exact E|exact Hl].
Defined.
