(* ===== verification/PagerInit.v ===== *)
(** * Finding the free memory ([kernel/memory/pager.c], 17-228)

    The regions of the device tree, the removal of the reserved ones, and the
    table of page pools that [pg_alloc] reads.  The two arrays of 32 regions
    are lists of the entries written so far; an entry past the last one is
    never read. *)
From S2P Require Import Prelude Machine Endian Uart Pager DeviceTree.

(** ** The code *)

Definition MAX_MEMORY_REGIONS : Z := 32.

Record memory_region := mkMemory { start : Z; size : Z }.

Definition region_end (r : memory_region) : Z := start r ⊕ size r.

Record memory_region_list := mkMemorys {
  reserved_regions : list memory_region;
  free_regions : list memory_region;
}.

(** [regions[cnt] = r; cnt++]. *)
Definition add_region (r : memory_region) (l : list memory_region) : M (list memory_region) :=
  if Z.of_nat (length l) <? MAX_MEMORY_REGIONS then mret (l ++ [r]) else undef "array index".

(** The region a [reg] property holds. *)
Definition read_region (memory_reg : Z) : M memory_region :=
  value ← load64 (dev_value memory_reg);
  v ← load64 (elem64 value 0);
  start ← big_endian_u64_to_host v;
  v ← load64 (elem64 value 1);
  size ← big_endian_u64_to_host v;
  mret (mkMemory (start ⊕ KERNEL_VMA_START) size).

(** Both loops over the children of a node: up to the first child without a
    [reg] property. *)
Definition collect_regions (device prefix : Z) (l : list memory_region) : M (list memory_region) :=
  lits ← gets literals;
  while_true (fun '(mem_iter, l) =>
    memory ← device_tree_prefix_get_child device prefix mem_iter;
    if memory =? 0 then mret (inr l) else
    memory_reg ← device_tree_prefix_get_child memory (lit_reg lits) 0;
    if memory_reg =? 0 then mret (inr l) else
    r ← read_region memory_reg;
    l ← add_region r l;
    mret (inl (wrap32 (mem_iter + 1), l))) (0, l).

Definition find_memory_regions (device : Z) (memory_regions : memory_region_list) : M memory_region_list :=
  lits ← gets literals;
  free ← collect_regions device (lit_memory lits) (free_regions memory_regions);
  root_reserved_memory ← device_tree_prefix_get_child device (lit_reserved_memory lits) 0;
  if root_reserved_memory =? 0 then PANIC "NO_RESERVED_MEMORY" 0 0 0 else
  reserved ← collect_regions root_reserved_memory (lit_empty lits) (reserved_regions memory_regions);
  mret (mkMemorys reserved free).

(** The body of the inner loop at region [j]; the result is the next [j]. *)
Definition trim_region (reserved_region : memory_region) (j : nat) (free_region : memory_region)
    (l : list memory_region) : M (nat * list memory_region) :=
  let reserved_start := start reserved_region in
  let reserved_region_end := region_end reserved_region in
  let free_region_end := region_end free_region in
  if (reserved_start <=? start free_region) && (free_region_end <=? reserved_region_end) then
    let last := nth (length l - 1) l free_region in
    mret (j, firstn (length l - 1) (<[j := last]> l))
  else if (reserved_start <=? start free_region) && (reserved_region_end <? free_region_end) then
    mret (S j, <[j := mkMemory reserved_region_end
                       (size free_region ⊖ (reserved_region_end ⊖ reserved_region_end))]> l)
  else if (start free_region <? reserved_start) && (free_region_end <=? reserved_region_end) then
    mret (S j, <[j := mkMemory (start free_region)
                       (size free_region ⊖ (start free_region ⊖ reserved_start))]> l)
  else if (start free_region <? reserved_start) && (reserved_region_end <? free_region_end) then
    l ← add_region (mkMemory reserved_region_end (free_region_end ⊖ reserved_region_end))
          (<[j := mkMemory (start free_region)
                    (size free_region ⊖ (free_region_end ⊖ reserved_start))]> l);
    mret (j, l)
  else mret (S j, l).

(** One reserved region against all free ones. *)
Definition remove_reserved_region (reserved_region : memory_region) (l : list memory_region) : M (list memory_region) :=
  while_true (fun '(j, l) =>
    match l !! j with
    | None => mret (inr l)
    | Some free_region => '(j, l) ← trim_region reserved_region j free_region l; mret (inl (j, l))
    end) (O, l).

Definition remove_reserved_memory_regions (r : memory_region_list) : M memory_region_list :=
  free ← for_fold (reserved_regions r) (fun l reserved_region => remove_reserved_region reserved_region l) (free_regions r);
  mret (mkMemorys (reserved_regions r) free).

(** [(((s64)p + 7) / 8) * 8]: the division of C truncates. *)
Definition bitmap_location_of (start_location : Z) : Z := wrap64 (Z.quot (to_s64 start_location + 7) 8 * 8).

(** What [pager_init] reserves for the kernel: [_kernel_start] is read as the
    byte there. *)
Definition kernel_region (start_location kernel_start : Z) : memory_region :=
  mkMemory kernel_start (start_location ⊖ kernel_start ⊕ 8 ⊕ MAX_MEMORY_REGIONS * 24).

Definition log_region (region : memory_region) : M unit :=
  uart_print_lit "memory region from 0x" ;;
  uart_print_u64_hex (start region) ;;
  uart_print_lit " and size of " ;;
  uart_print_u64 (size region) ;;
  uart_print_lit "   -   0x" ;;
  uart_print_u64_hex (start region) ;;
  uart_print_lit "-0x" ;;
  uart_println_u64_hex (start region ⊕ size region ⊖ 1).

(** The pages of the pool made of a region: [page_offset] of them are given up
    for the bitmap. *)
Definition pool_page_offset (region : memory_region) : Z := to_s32 (size region / KERNEL_PAGE_SIZE / 8 / KERNEL_PAGE_SIZE + 2).
Definition pool_page_cnt (region : memory_region) : Z := size region / KERNEL_PAGE_SIZE ⊖ pool_page_offset region.
Definition pool_page_start (region : memory_region) : Z := wrap64 ((start region / KERNEL_PAGE_SIZE + 1) * KERNEL_PAGE_SIZE).

Definition clear_bitmap (bitmap_ptr page_cnt : Z) : M unit :=
  while_true (fun j =>
    if (page_cnt ⊕ 63) / 64 <=? j then mret (inr tt) else
    store64 (elem64 bitmap_ptr j) 0 ;;
    if j =? 2147483647 then undef "s32 overflow" else mret (inl (j + 1))) 0.

Definition init_region (bitmap_list i : Z) (region : memory_region) : M unit :=
  let page_cnt := pool_page_cnt region in
  store64 (elem64 bitmap_list (1 + i * 3)) page_cnt ;;
  store64 (elem64 bitmap_list (2 + i * 3)) (start region) ;;
  store64 (elem64 bitmap_list (3 + i * 3)) (pool_page_start region) ;;
  uart_print_lit "0x" ;;
  uart_print_u64_hex (start region) ;;
  uart_print_lit " can store " ;;
  uart_print_u64 page_cnt ;;
  uart_println_lit " pages" ;;
  clear_bitmap (start region) page_cnt.

(** The second half of [pager_init], from the list of free regions on. *)
Definition init_regions (bitmap_list : Z) (r : memory_region_list) : M unit :=
  for_each (free_regions r) log_region ;;
  let free_cnt := Z.of_nat (length (free_regions r)) in
  if free_cnt =? 0
  then PANIC "NO_MEMORY_REGIONS_FOR_PAGER" free_cnt (Z.of_nat (length (reserved_regions r))) 0
  else
    store64 (elem64 bitmap_list 0) free_cnt ;;
    for_each (zip (upto 0 free_cnt) (free_regions r)) (fun '(i, region) => init_region bitmap_list i region).

Definition pager_init : M unit :=
  device_info ← device_tree_ptr;
  start_location ← device_tree_end_ptr;
  let bitmap_location := bitmap_location_of start_location in
  modify (fun s => set_pager (mkPager bitmap_location (last_free_bitmap (pager s)) (last_free_page_num (pager s))) s) ;;
  uart_print_lit "finding memory regions" ;;
  memory_locations ← find_memory_regions device_info (mkMemorys [] []);
  uart_println_lit "Removing reserved from memory region" ;;
  kernel_start ← gets (fun s => sym_kernel_start_byte (symbols s));
  reserved ← add_region (kernel_region start_location kernel_start) (reserved_regions memory_locations);
  memory_locations ← remove_reserved_memory_regions (mkMemorys reserved (free_regions memory_locations));
  init_regions bitmap_location memory_locations.

(** ** The table of pools *)

(** The pool [pg_alloc] sees for a region. *)
Definition pool_of (r : memory_region) : region := mkRegion (pool_page_cnt r) (start r) (pool_page_start r).

Lemma zero_words_snoc m a j : 0 <= j -> zero_words m a (j + 1) = wr (zero_words m a j) (a + 8 * j) 0.
Proof.
  intros Hj. unfold zero_words. replace (Z.to_nat (j + 1)) with (Z.to_nat j + 1)%nat by lia.
  rewrite replicate_add. cbn [replicate]. rewrite write_words_snoc, length_replicate. by rewrite Z2Nat.id.
Qed.

Lemma clear_bitmap_eq a cnt s :
  0 <= cnt -> (cnt + 63) / 64 <= 2147483647 -> kblock a (8 * ((cnt + 63) / 64)) ->
  clear_bitmap a cnt s = Ret tt (set_mem (zero_words (mem s) a ((cnt + 63) / 64)) s).
Proof.
  intros Hc Hw Hk. apply wp_exact. unfold clear_bitmap. rewrite wrap64_small by dlia.
  set (n := (cnt + 63) / 64) in *. assert (0 <= n) as Hn by (unfold n; clear -Hc; dlia). clearbody n.
  apply (wp_while (fun j s' => 0 <= j <= n /\ s' = set_mem (zero_words (mem s) a j) s) (fun j _ => n - j)).
  - intros j s' (Hj & _). lia.
  - intros j s' (Hj & ->). unfold wp. destruct (Z.leb_spec n j).
    + assert (j = n) as -> by lia. done.
    + rewrite (kblock_elem_eq a n) by (done || lia). kstep. destruct (Z.eqb_spec j 2147483647); [lia|].
      cbn [mret M_ret]. split; [|lia]. split; [lia|]. by rewrite zero_words_snoc by lia.
  - split; [lia|]. symmetry. apply set_mem_id.
  - lia.
Qed.

(** What [init_region] writes. *)
Definition region_written (lst i : Z) (r : memory_region) (m : gmap Z Z) : gmap Z Z :=
  let p := pool_of r in
  zero_words (wr (wr (wr m (lst + 8 * (1 + i * 3)) (r_cnt p)) (lst + 8 * (2 + i * 3)) (r_bitmap p))
    (lst + 8 * (3 + i * 3)) (r_base p)) (r_bitmap p) (bitmap_words p).

Section Init.
Context (lst : Z) (rs : list memory_region) (Hlay : pager_layout lst (pool_of <$> rs)).

Lemma layout_word k : 0 <= k < 1 + 3 * Z.of_nat (length rs) -> elem64 lst k = lst + 8 * k /\ valid64 (lst + 8 * k).
Proof.
  intros Hk. pose proof (lay_table _ _ Hlay) as Ht. unfold table_size in Ht. rewrite length_fmap in Ht.
  destruct (kblock_elem lst _ k Ht Hk) as [E V]. split; [exact E|]. by rewrite <- E.
Qed.

Lemma layout_pool (i : nat) r : rs !! i = Some r -> region_ok (pool_of r) /\ table_apart lst (pool_of <$> rs) (pool_of r).
Proof.
  intros Hi. assert ((pool_of <$> rs) !! i = Some (pool_of r)) as Hi' by (by rewrite list_lookup_fmap, Hi).
  split; [by eapply lay_region|by eapply lay_apart_table].
Qed.

Lemma init_region_eq (i : nat) r s :
  rs !! i = Some r ->
  exists l, init_region lst (Z.of_nat i) r s = Ret tt (set_mem (region_written lst (Z.of_nat i) r (mem s)) (set_tx l s)).
Proof.
  intros Hi. destruct (layout_pool i r Hi) as [Hok _]. pose proof (lookup_lt_Some _ _ _ Hi) as Hlt.
  destruct (layout_word (1 + Z.of_nat i * 3) ltac:(lia)) as [E1 V1].
  destruct (layout_word (2 + Z.of_nat i * 3) ltac:(lia)) as [E2 V2].
  destruct (layout_word (3 + Z.of_nat i * 3) ltac:(lia)) as [E3 V3].
  unfold init_region. cbv zeta. rewrite E1, E2, E3. kstep. kstep. kstep.
  destruct (ok_cnt _ Hok) as [C1 C2]. pose proof (ok_bitmap _ Hok) as Hb. unfold KERNEL_PAGE_SIZE in C2.
  cbn [pool_of r_cnt r_bitmap] in C1, C2, Hb. unfold bitmap_words in Hb. cbn [pool_of r_cnt] in Hb.
  do 5 (apply prints_then; [unfold uart_print_u64_hex; auto with kernel|intros ?]).
  rewrite (clear_bitmap_eq (start r) (pool_page_cnt r) _ ltac:(lia) ltac:(clear -C1 C2; dlia) Hb).
  eexists. reflexivity.
Qed.

(** The table and the bitmaps of the first [n] regions. *)
Record written (n : nat) (m : gmap Z Z) : Prop := {
  wt_len : rd m lst = Z.of_nat (length rs);
  wt_entry (k : nat) r : (k < n)%nat -> rs !! k = Some r -> table_entry m lst (Z.of_nat k) (pool_of r);
  wt_bitmap (k : nat) r j : (k < n)%nat -> rs !! k = Some r -> 0 <= j < bitmap_words (pool_of r) ->
    rd m (r_bitmap (pool_of r) + 8 * j) = 0;
}.

(** A pool's own numbers fit a word. *)
Lemma pool_u64 (i : nat) r : rs !! i = Some r ->
  u64 (r_cnt (pool_of r)) /\ u64 (r_bitmap (pool_of r)) /\ u64 (r_base (pool_of r)) /\ 0 <= bitmap_words (pool_of r).
Proof.
  intros Hi. destruct (layout_pool i r Hi) as [[[C1 C2] (B1 & B2 & _) (P1 & P2 & _) _ _] _].
  unfold bitmap_words, KERNEL_PAGE_SIZE, KERNEL_VMA_START, u64 in *.
  assert (0 < (r_cnt (pool_of r) + 63) / 64) by (clear -C1; dlia).
  split; [clear -C1 C2; lia|]. split; [clear -B1 B2 H; lia|]. split; [clear -P1 P2 C1; lia|lia].
Qed.

Lemma table_word_apart (i : nat) r k j :
  rs !! i = Some r -> 0 <= k <= 3 * Z.of_nat (length rs) -> 0 <= j < bitmap_words (pool_of r) ->
  lst + 8 * k <> r_bitmap (pool_of r) + 8 * j.
Proof.
  intros Hi Hk Hj. destruct (layout_pool i r Hi) as [_ [Ht _]]. unfold apart, table_size in Ht. rewrite length_fmap in Ht. lia.
Qed.

Lemma table_word_kept (i : nat) r k m :
  rs !! i = Some r -> 0 <= k <= 3 * Z.of_nat (length rs) ->
  rd (region_written lst (Z.of_nat i) r m) (lst + 8 * k) =
    if (1 + Z.of_nat i * 3 <=? k) && (k <=? 3 + Z.of_nat i * 3)
    then nth (Z.to_nat (k - (1 + Z.of_nat i * 3))) [r_cnt (pool_of r); r_bitmap (pool_of r); r_base (pool_of r)] 0
    else rd m (lst + 8 * k).
Proof.
  intros Hi Hk. destruct (pool_u64 i r Hi) as (U1 & U2 & U3 & Hw). unfold region_written, zero_words. cbv zeta.
  rewrite rd_write_words_out.
  2: { rewrite length_replicate, Z2Nat.id by done. intros j Hj. by apply (table_word_apart i r). }
  destruct ((1 + Z.of_nat i * 3 <=? k) && (k <=? 3 + Z.of_nat i * 3)) eqn:E.
  - assert (k = 1 + Z.of_nat i * 3 \/ k = 2 + Z.of_nat i * 3 \/ k = 3 + Z.of_nat i * 3) as [->|[->| ->]] by lia.
    + replace (Z.to_nat _) with 0%nat by lia. rewrite !rd_wr_ne, rd_wr_eq, wrap64_small by (done || lia). done.
    + replace (Z.to_nat _) with 1%nat by lia. rewrite rd_wr_ne, rd_wr_eq, wrap64_small by (done || lia). done.
    + replace (Z.to_nat _) with 2%nat by lia. rewrite rd_wr_eq, wrap64_small by done. done.
  - by rewrite !rd_wr_ne by lia.
Qed.

Lemma bitmap_word_kept (i k : nat) r r' j m :
  (k < i)%nat -> rs !! i = Some r -> rs !! k = Some r' -> 0 <= j < bitmap_words (pool_of r') ->
  rd (region_written lst (Z.of_nat i) r m) (r_bitmap (pool_of r') + 8 * j) = rd m (r_bitmap (pool_of r') + 8 * j).
Proof.
  intros Hki Hi Hk Hj. destruct (pool_u64 i r Hi) as (_ & _ & _ & Hw). unfold region_written. cbv zeta.
  assert (regions_apart (pool_of r') (pool_of r)) as [Hap _ _].
  { eapply (lay_apart _ _ Hlay k i); [lia|by rewrite list_lookup_fmap, Hk|by rewrite list_lookup_fmap, Hi]. }
  pose proof (lookup_lt_Some _ _ _ Hi). unfold apart in Hap. rewrite rd_zero_words_out by lia.
  rewrite !rd_wr_ne; [done|..]; apply (table_word_apart k r'); (done || lia).
Qed.

Lemma written_step (i : nat) r m : rs !! i = Some r -> written i m -> written (S i) (region_written lst (Z.of_nat i) r m).
Proof.
  intros Hi [Hl He Hb]. pose proof (lookup_lt_Some _ _ _ Hi) as Hlt. split.
  - pose proof (table_word_kept i r 0 m Hi ltac:(lia)) as E. rewrite Z.mul_0_r, Z.add_0_r in E. rewrite E.
    by replace (1 + Z.of_nat i * 3 <=? 0) with false by lia.
  - intros k r' Hk Hk'. pose proof (lookup_lt_Some _ _ _ Hk') as Hltk. unfold table_entry.
    rewrite !(table_word_kept i r) by (done || lia). destruct (decide (k = i)) as [->|Hne].
    + assert (r' = r) as -> by congruence.
      rewrite !(proj2 (andb_true_iff _ _)) by lia.
      replace (Z.to_nat (1 + _ - _)) with 0%nat by lia. replace (Z.to_nat (2 + _ - _)) with 1%nat by lia.
      by replace (Z.to_nat (3 + _ - _)) with 2%nat by lia.
    + replace (1 + Z.of_nat i * 3 <=? 1 + Z.of_nat k * 3) with false by lia.
      replace (1 + Z.of_nat i * 3 <=? 2 + Z.of_nat k * 3) with false by lia.
      replace (1 + Z.of_nat i * 3 <=? 3 + Z.of_nat k * 3) with false by lia. apply He; [lia|done].
  - intros k r' j Hk Hk' Hj. destruct (decide (k = i)) as [->|Hne].
    + assert (r' = r) as -> by congruence. unfold region_written. cbv zeta. by apply rd_zero_words_in.
    + rewrite (bitmap_word_kept i k r r') by (done || lia). apply (Hb k); [lia|done|done].
Qed.

Lemma init_loop l : forall (i : nat) s, l = drop i rs -> written i (mem s) ->
  exists m t, for_each (zip (upto (Z.of_nat i) (Z.of_nat (length rs))) l)
      (fun '(i, region) => init_region lst i region) s = Ret tt (set_mem m (set_tx t s)) /\ written (length rs) m.
Proof.
  induction l as [|r l IH]; intros i s El Hw.
  - exists (mem s), (tx s). rewrite zip_with_nil_r. cbn [for_each]. split; [by destruct s|].
    assert (length rs <= i)%nat as Hge by (pose proof (f_equal length El) as E; rewrite length_drop in E; cbn in E; lia).
    destruct Hw as [W1 W2 W3]. split; [done|intros k r Hk; apply W2; lia|intros k r j Hk; apply W3; lia].
  - assert (rs !! i = Some r) as Hi by (rewrite <- (Nat.add_0_r i), <- lookup_drop, <- El; done).
    pose proof (lookup_lt_Some _ _ _ Hi) as Hlt. rewrite upto_cons by lia. cbn [zip zip_with for_each].
    destruct (init_region_eq i r s Hi) as (t & E). rewrite (bind_Ret _ _ _ _ _ E).
    replace (Z.of_nat i + 1) with (Z.of_nat (S i)) by lia.
    destruct (IH (S i) (set_mem (region_written lst (Z.of_nat i) r (mem s)) (set_tx t s))) as (m & t' & E' & Hw').
    + rewrite <- Nat.add_1_r, <- drop_drop, <- El. done.
    + by apply written_step.
    + exists m, t'. rewrite E'. done.
Qed.
End Init.

Lemma log_prints l : prints (for_each l log_region).
Proof.
  apply prints_for_each. intros r. unfold log_region, uart_println_u64_hex, uart_print_u64_hex.
  auto 12 with kernel.
Qed.

(** A region big enough for a page and at most 2 GiB, in the kernel half, whose bitmap ends before its first page:
    [pager_init] starts the pages at the page boundary after the start of the
    region, wherever the bitmap ends. *)
Record region_fits (r : memory_region) : Prop := {
  rf_start : KERNEL_VMA_START <= start r /\ start r mod 8 = 0;
  rf_size : 3 * KERNEL_PAGE_SIZE <= size r <= 2147483648;
  rf_end : start r + size r <= 18446744073709551616;
  rf_bitmap : start r + 8 * ((pool_page_cnt r + 63) / 64) <= (start r / KERNEL_PAGE_SIZE + 1) * KERNEL_PAGE_SIZE;
}.

(** Regions apart from each other and from the table. *)
Record regions_fit (lst : Z) (rs : list memory_region) : Prop := {
  rs_table : kblock lst (8 * (1 + 3 * Z.of_nat (length rs)));
  rs_few : Z.of_nat (length rs) <= 32;
  rs_fits r : r ∈ rs -> region_fits r;
  rs_apart_table r : r ∈ rs -> apart lst (8 * (1 + 3 * Z.of_nat (length rs))) (start r) (size r);
  rs_apart (i j : nat) r1 r2 : i <> j -> rs !! i = Some r1 -> rs !! j = Some r2 -> apart (start r1) (size r1) (start r2) (size r2);
}.

Lemma pool_numbers r : region_fits r ->
  pool_page_cnt r = size r / 4096 - (size r / 4096 / 8 / 4096 + 2) /\ pool_page_start r = (start r / 4096 + 1) * 4096.
Proof.
  intros [[H1 _] [S1 S2] H3 _]. unfold KERNEL_PAGE_SIZE, KERNEL_VMA_START in *. unfold pool_page_cnt, pool_page_start, pool_page_offset, KERNEL_PAGE_SIZE.
  unfold to_s32, wrap32. rewrite (Z.mod_small (_ + 2)) by (clear -S1 S2; dlia).
  replace (_ + 2 <? 2147483648) with true by (clear -S1 S2; dlia).
  split; apply wrap64_small; [clear -S1 S2|clear -H1 H3 S1]; dlia.
Qed.

(** The pages of a region lie behind its bitmap and inside the region. *)
Lemma pool_inside r : region_fits r ->
  0 < pool_page_cnt r /\ start r + 8 * bitmap_words (pool_of r) <= pool_page_start r /\
  pool_page_start r + 4096 * pool_page_cnt r <= start r + size r /\ pool_page_start r mod 4096 = 0.
Proof.
  intros Hf. destruct (pool_numbers r Hf) as [Ec Ep]. destruct Hf as [[H1 _] [S1 S2] H3 H4]. unfold KERNEL_PAGE_SIZE in *.
  unfold bitmap_words. cbn [pool_of r_cnt]. rewrite Ep. split; [rewrite Ec; clear -S1 S2; dlia|]. split; [lia|].
  split; [rewrite Ec; clear -S1 S2; dlia|]. apply Z_mod_mult.
Qed.

Lemma fit_layout lst rs : regions_fit lst rs -> pager_layout lst (pool_of <$> rs).
Proof.
  intros [Ht Hn Hf Hat Ha].
  assert (forall (i : nat) p, (pool_of <$> rs) !! i = Some p -> exists r, rs !! i = Some r /\ p = pool_of r) as Hp.
  { intros i p Hi. rewrite list_lookup_fmap in Hi. destruct (rs !! i) as [r|]; [|done]. injection Hi as <-. by exists r. }
  split; unfold table_size; rewrite ?length_fmap; [exact Ht|exact Hn|..].
  - intros i p (r & Hi & ->)%Hp. apply list_elem_of_lookup_2 in Hi. pose proof (Hf r Hi) as Hr.
    destruct (pool_inside r Hr) as (I1 & I2 & I3 & I4). destruct Hr as [[H1 H8] [S1 S2] H3 H4].
    unfold bitmap_words in *. cbn [pool_of r_cnt] in *. unfold KERNEL_VMA_START, KERNEL_PAGE_SIZE in *.
    assert (0 <= (pool_page_cnt r + 63) / 64) as Hw by (clear -I1; dlia).
    split; unfold kblock, apart, bitmap_words, KERNEL_VMA_START, KERNEL_PAGE_SIZE; cbn [pool_of r_cnt r_bitmap r_base].
    + clear -I1 I2 I3 S2 Hw. lia.
    + clear -I1 I2 I3 H1 H3 H8. lia.
    + clear -I1 I2 I3 I4 H1 H3 Hw. split; [lia|]. split; [lia|]. dlia.
    + exact I4.
    + left. exact I2.
  - intros i p (r & Hi & ->)%Hp. apply list_elem_of_lookup_2 in Hi. destruct (pool_inside r (Hf r Hi)) as (I1 & I2 & I3 & I4).
    pose proof (Hat r Hi) as Hr. split; unfold table_size, apart, KERNEL_PAGE_SIZE, bitmap_words in *; rewrite ?length_fmap;
      cbn [pool_of r_cnt r_bitmap r_base] in *; (assert (0 <= (pool_page_cnt r + 63) / 64) by (clear -I1; dlia)); lia.
  - intros i j p1 p2 Hne (r1 & Hi & ->)%Hp (r2 & Hj & ->)%Hp. pose proof (Ha i j r1 r2 Hne Hi Hj) as Hr.
    apply list_elem_of_lookup_2 in Hi, Hj.
    destruct (pool_inside r1 (Hf r1 Hi)) as (I1 & I2 & I3 & _). destruct (pool_inside r2 (Hf r2 Hj)) as (J1 & J2 & J3 & _).
    split; unfold apart, KERNEL_PAGE_SIZE, bitmap_words in *; cbn [pool_of r_cnt r_bitmap r_base] in *;
      (assert (0 <= (pool_page_cnt r1 + 63) / 64 /\ 0 <= (pool_page_cnt r2 + 63) / 64) by (clear -I1 J1; split; dlia)); lia.
Qed.

(** Where the bitmap does not end before the first page, its last word is in the pages
    that are handed out: any region that starts at a page boundary and has more than 32768 pages. *)
Lemma bitmap_overlaps r : start r mod KERNEL_PAGE_SIZE = 0 -> 32768 < pool_page_cnt r ->
  (start r / KERNEL_PAGE_SIZE + 1) * KERNEL_PAGE_SIZE <= start r + 8 * (bitmap_words (pool_of r) - 1).
Proof. unfold bitmap_words, KERNEL_PAGE_SIZE. cbn [pool_of r_cnt]. intros. dlia. Qed.

(** C5: the last part of [pager_init], [init_regions], hands the page allocator a
    well-formed state. Let the free regions, at most 32, be apart from each
    other and from the table, each in the kernel half, of three pages to 2 GiB, and let the bitmap
    of each, which lies at its start, end before the next page boundary, where the
    pages begin: nothing in the code sees to that ([bitmap_overlaps]). Then
    the table is written and the bitmaps are cleared: the invariant [pg_alloc] and
    [pg_free] rely on holds for the pools, which lie inside their regions, and
    every page is free. *)
Theorem init_regions_pools reserved rs s :
  let pools := pool_of <$> rs in
  rs <> [] -> regions_fit (pager_bitmap_list (pager s)) rs ->
  last_free_bitmap (pager s) = 0 -> last_free_page_num (pager s) = 0 ->
  exists s', init_regions (pager_bitmap_list (pager s)) (mkMemorys reserved rs) s = Ret tt s' /\
    pager_inv pools s' /\ pager s' = pager s /\
    (forall r, r ∈ rs -> start r < r_base (pool_of r) /\ 0 < r_cnt (pool_of r) /\
       r_base (pool_of r) + KERNEL_PAGE_SIZE * r_cnt (pool_of r) <= start r + size r) /\
    (forall r p, r ∈ pools -> 0 <= p < r_cnt r -> page_used (mem s') r p = false).
Proof.
  intros pools Hne Hfit Hb Hp. set (lst := pager_bitmap_list (pager s)) in *. pose proof (fit_layout lst rs Hfit) as Hlay.
  unfold init_regions. cbn [free_regions reserved_regions].
  apply prints_then; [apply log_prints|]. intros t. cbv zeta. set (s1 := sent t s).
  destruct (Z.eqb_spec (Z.of_nat (length rs)) 0) as [E|_]; [by destruct rs|].
  destruct (layout_word lst rs Hlay 0 ltac:(lia)) as [E0 V0]. rewrite E0. rewrite Z.mul_0_r, Z.add_0_r in *.
  rewrite (bind_Ret _ _ _ _ _ (store64_eq _ _ s1 V0)). set (s2 := set_mem _ s1).
  assert (Z.of_nat (length rs) <= 32) as Hfew by (pose proof (lay_few _ _ Hlay) as H; unfold pools in H; by rewrite length_fmap in H).
  assert (written lst rs 0 (mem s2)) as Hw.
  { split; [|lia|lia]. unfold s2. cbn [mem set_mem]. rewrite rd_wr_eq, wrap64_small by lia. done. }
  destruct (init_loop lst rs Hlay rs 0 s2 eq_refl Hw) as (m & t' & El & [W1 W2 W3]).
  eexists. split; [exact El|]. cbn [pager set_mem set_tx mem].
  assert (forall (k : nat) r, pools !! k = Some r -> exists r0, rs !! k = Some r0 /\ r = pool_of r0) as Hpool.
  { intros k r Hk. unfold pools in Hk. rewrite list_lookup_fmap in Hk. destruct (rs !! k) as [r0|]; [|done].
    injection Hk as <-. by exists r0. }
  split; [split; cbn [pager set_mem set_tx mem]|].
  - exact Hlay.
  - split; [unfold pools; rewrite length_fmap; exact W1|]. intros k r Hk. destruct (Hpool k r Hk) as (r0 & Hk0 & ->).
    apply W2; [by eapply lookup_lt_Some|done].
  - change (cursor_ok m pools (last_free_bitmap (pager s)) (last_free_page_num (pager s))). rewrite Hb, Hp.
    split; [lia|]. intros k r p Hk Ha Hbef.
    unfold before, allocatable in *. lia.
  - split; [done|]. split.
    { intros r Hr. destruct (pool_inside r (rs_fits _ _ Hfit r Hr)) as (I1 & I2 & I3 & _). unfold bitmap_words, KERNEL_PAGE_SIZE in *.
      cbn [pool_of r_cnt r_base] in *. assert (0 < (pool_page_cnt r + 63) / 64) by (clear -I1; dlia). lia. }
    intros r p (k & Hk)%list_elem_of_lookup_1 Hpr. destruct (Hpool k r Hk) as (r0 & Hk0 & ->).
    unfold page_used, bitmap_word_addr. rewrite (W3 k); [apply Z.testbit_0_l|by eapply lookup_lt_Some|done|].
    apply page_in_words; [by eapply layout_pool|done].
Qed.

(** A bank of 130 pages behind the table of the demo of file Pager: 128 of
    them become its pool. *)
Lemma init_regions_pools_witness :
  exists s', init_regions demo_table (mkMemorys [] [mkMemory (demo_table + 256) (130 * 4096)])
      (set_pager (mkPager demo_table 0 0) zero_state) = Ret tt s' /\ pager_inv [demo_region] s'.
Proof.
  assert ([pool_of (mkMemory (demo_table + 256) (130 * 4096))] = [demo_region]) as E by (by vm_compute).
  destruct (init_regions_pools [] [mkMemory (demo_table + 256) (130 * 4096)] (set_pager (mkPager demo_table 0 0) zero_state))
    as (s' & Er & Hi & _).
  - done.
  - split; [unfold kblock; zdone|zdone| | |].
    + intros r ->%list_elem_of_singleton. split; zdone.
    + intros r ->%list_elem_of_singleton. left. zdone.
    + intros [|i] [|j] r1 r2 Hne H1 H2; done.
  - done.
  - done.
  - exists s'. split; [exact Er|]. rewrite <- E. exact Hi.
Defined.

(** ** Reserved regions *)

(** What is left of the regions that start above a reserved one. *)
Definition moved_up (rr : memory_region) (l : list memory_region) : list memory_region :=
  (fun r => mkMemory (region_end rr) (size r)) <$> filter (fun r => region_end rr < region_end r) l.

(** The last region takes the place of the one removed. *)
Lemma swap_remove (a b : list memory_region) r : exists b',
  firstn (length (a ++ r :: b) - 1) (<[length a := nth (length (a ++ r :: b) - 1) (a ++ r :: b) r]> (a ++ r :: b)) = a ++ b'
  /\ b' ≡ₚ b.
Proof.
  destruct b as [|x b _] using rev_ind.
  - exists []. split; [|done]. rewrite length_app. cbn [length]. rewrite Nat.add_sub.
    rewrite insert_app_r_alt, Nat.sub_diag by lia. cbn. by rewrite take_app_length, app_nil_r.
  - exists (x :: b). split; [|by rewrite Permutation_app_comm].
    assert (length (a ++ r :: b ++ [x]) - 1 = length (a ++ r :: b))%nat as -> by (rewrite !length_app; cbn; rewrite length_app; cbn; lia).
    replace (a ++ r :: b ++ [x]) with ((a ++ r :: b) ++ [x]) by (by rewrite <- app_assoc).
    rewrite app_nth2, Nat.sub_diag by lia. cbn [nth].
    rewrite insert_app_l by (rewrite length_app; cbn; lia). rewrite <- length_insert with (i := length a) (x := x) at 1.
    rewrite take_app_length, insert_app_r_alt, Nat.sub_diag by lia. done.
Qed.

Lemma moved_up_cons rr r l :
  moved_up rr (r :: l) =
    (if region_end rr <? region_end r then [mkMemory (region_end rr) (size r)] else []) ++ moved_up rr l.
Proof.
  unfold moved_up. rewrite filter_cons. destruct (Z.ltb_spec (region_end rr) (region_end r)), (decide (region_end rr < region_end r)); (lia || done).
Qed.

(** A region that does not start below [rr]. *)
Definition above (rr r : memory_region) : Prop := start rr <= start r /\ u64 (size r).

(** Against free regions none of which starts below it, the removal of a
    reserved region terminates; a region that ends inside the reserved one
    disappears, and every other one is moved down to the end of the reserved
    region with its size unchanged, whether the two overlap or not. *)
Theorem remove_reserved_moves rr l s :
  Forall (above rr) l -> Z.of_nat (length l) <= MAX_MEMORY_REGIONS ->
  exists l', remove_reserved_region rr l s = Ret l' s /\ l' ≡ₚ moved_up rr l.
Proof.
  intros Hs Hlen. unfold MAX_MEMORY_REGIONS in Hlen.
  assert (wp (remove_reserved_region rr l) (fun l' s' => s' = s /\ l' ≡ₚ moved_up rr l) s) as H.
  2: { unfold wp in H. destruct (remove_reserved_region rr l s) as [l' s'| | | | |]; try done. destruct H as [-> H]. by exists l'. }
  unfold remove_reserved_region.
  apply (wp_while (fun '(j, l') s' => s' = s /\ exists a b, l' = a ++ b /\ j = length a /\
      Forall (above rr) b /\ a ++ moved_up rr b ≡ₚ moved_up rr l)
    (fun '(j, l') _ => Z.of_nat (length l') - Z.of_nat j)).
  - intros [j l'] s' (_ & a & b & -> & -> & _). rewrite length_app. lia.
  - intros [j l'] s' (-> & a & b & -> & -> & Hb & Hp). destruct b as [|r b].
    + rewrite app_nil_r, (proj2 (lookup_ge_None a (length a))) by lia. split; [done|]. by rewrite <- Hp, app_nil_r.
    + rewrite list_lookup_middle by done. inversion_clear Hb as [|? ? Hr Hb']. rewrite moved_up_cons in Hp.
      unfold trim_region. cbv zeta. destruct (Hr) as [Hr1 Hr2]. replace (start rr <=? start r) with true by lia.
      replace (start r <? start rr) with false by lia. cbn [andb]. rewrite Z.ltb_antisym in Hp.
      destruct (Z.leb_spec (region_end r) (region_end rr)) as [H|H]; cbn [negb] in Hp.
      * destruct (swap_remove a b r) as (b' & E & Hpb). rewrite E. apply wp_ret. split.
        -- split; [done|]. exists a, b'. split; [done|]. split; [done|]. split; [by rewrite Hpb|].
           rewrite <- Hp. apply Permutation_app_head. cbn. unfold moved_up. by rewrite Hpb.
        -- rewrite !length_app, Hpb. cbn [length]. lia.
      * replace (region_end rr <? region_end r) with true by lia. apply wp_ret. split.
        -- split; [done|]. exists (a ++ [mkMemory (region_end rr) (size r)]), b.
           rewrite insert_app_r_alt, Nat.sub_diag by lia. cbn [list_insert insert].
           rewrite Z.sub_diag. change (wrap64 0) with 0. rewrite Z.sub_0_r, wrap64_small by exact Hr2.
           split; [by rewrite <- app_assoc|]. split; [by rewrite length_app, Nat.add_1_r|]. split; [done|].
           by rewrite <- app_assoc.
        -- rewrite length_insert, !length_app. cbn [length]. lia.
  - split; [done|]. exists [], l. done.
  - lia.
Qed.

(** A region inside the reserved one and a bank far above it, which moves. *)
Lemma remove_reserved_moves_witness :
  exists l', remove_reserved_region (mkMemory 4096 4096) [mkMemory 5000 100; mkMemory 65536 8192] zero_state = Ret l' zero_state /\
    l' ≡ₚ [mkMemory 8192 8192].
Proof.
  apply (remove_reserved_moves (mkMemory 4096 4096) [mkMemory 5000 100; mkMemory 65536 8192] zero_state).
  - repeat constructor; vm_compute; congruence.
  - vm_compute. congruence.
Defined.
