(* ===== verification/Elf.v ===== *)
(** * Reading ELF files ([kernel/process/elf_parser.c])

    The 64 bytes read are those of the array [read_data], whose address is a
    field of [locals]. *)
From S2P Require Import Prelude Machine Endian Uart Objects Inode.

(** ** The code *)

Inductive kep_code :=
| KEP_SUCCESS | KEP_RNSR | KEP_IMH | KEP_IV | KEP_IABI | KEP_NSET | KEP_NSAM | KEP_IBF | KEP_IOC | KEP_RF.

#[export] Instance kep_code_eq_dec : EqDecision kep_code.
Proof. solve_decision. Defined.

Definition OS_CODE : Z := 0x54.
Definition ELF_TYPE_EXECUTABLE : Z := 2.
Definition ELF_MACHINE_RISC_V : Z := 0xF3.

Record elf_header := mkElf {
  is_big_endian : bool;
  operating_system : Z;
  abi : Z;
  object_type : Z;
  arch_type : Z;
  entry : Z;
  start_program_header : Z;
  start_section_header : Z;
  cnt_program_header : Z;
  cnt_section_header : Z;
  idx_section_names : Z;
  arch_flags : Z;
}.

(** What an early return leaves of the header before the call. *)
Definition set_big_endian (b : bool) (h : elf_header) : elf_header :=
  mkElf b (operating_system h) (abi h) (object_type h) (arch_type h) (entry h) (start_program_header h)
    (start_section_header h) (cnt_program_header h) (cnt_section_header h) (idx_section_names h) (arch_flags h).
Definition set_system (os a : Z) (h : elf_header) : elf_header :=
  mkElf (is_big_endian h) os a (object_type h) (arch_type h) (entry h) (start_program_header h)
    (start_section_header h) (cnt_program_header h) (cnt_section_header h) (idx_section_names h) (arch_flags h).
Definition set_types (o a : Z) (h : elf_header) : elf_header :=
  mkElf (is_big_endian h) (operating_system h) (abi h) o a (entry h) (start_program_header h)
    (start_section_header h) (cnt_program_header h) (cnt_section_header h) (idx_section_names h) (arch_flags h).

Definition read_u8 (ptr : Z) (header : elf_header) : M Z := load8 ptr.
Definition read_u16 (ptr : Z) (header : elf_header) : M Z :=
  v ← load16 ptr;
  if is_big_endian header then big_endian_u16_to_host v else little_endian_u16_to_host v.
Definition read_u32 (ptr : Z) (header : elf_header) : M Z :=
  v ← load32 ptr;
  if is_big_endian header then big_endian_u32_to_host v else little_endian_u32_to_host v.
Definition read_u64 (ptr : Z) (header : elf_header) : M Z :=
  v ← load64 ptr;
  if is_big_endian header then big_endian_u64_to_host v else little_endian_u64_to_host v.

(** The checks of [parse_header] and the fields they fill, on the 64 bytes at
    [read_data]. *)
Definition check_header (read_data : Z) (header : elf_header) : M (kep_code * elf_header) :=
  let header := set_big_endian true header in
  magic ← read_u32 (read_data ⊕ 0) header;
  if magic =? 0x7F454c46 then
    uart_println_lit "ELF_PARSER : Invalid magic header" ;; mret (KEP_IMH, header)
  else
  bits ← read_u8 (read_data ⊕ 4) header;
  if negb (bits =? 2) then
    uart_println_lit "ELF_PARSER : Incorrect arch bit format" ;; mret (KEP_IBF, header)
  else
  order ← read_u8 (read_data ⊕ 5) header;
  let header := set_big_endian (order =? 2) header in
  os ← read_u8 (read_data ⊕ 7) header;
  abi ← read_u8 (read_data ⊕ 8) header;
  let header := set_system os abi header in
  if negb (os =? OS_CODE) then
    uart_print_lit "ELF_PARSER : Invalid OS code (" ;;
    uart_print_u8_hex os ;;
    uart_print_lit ")" ;; mret (KEP_IOC, header)
  else
  object ← read_u16 (read_data ⊕ 16) header;
  arch ← read_u16 (read_data ⊕ 18) header;
  let header := set_types object arch header in
  if negb (object =? ELF_TYPE_EXECUTABLE) then
    uart_println_lit "ELF_PARSER : Unsupported elf type" ;; mret (KEP_NSET, header)
  else if negb (arch =? ELF_MACHINE_RISC_V) then
    uart_println_lit "ELF_PARSER : Unsupported architecture machine" ;; mret (KEP_NSAM, header)
  else
  version ← read_u8 (read_data ⊕ 20) header;
  if negb (version =? 1) then
    uart_println_lit "ELF_PARSER : Unsupported elf version" ;; mret (KEP_IV, header)
  else
  entry ← read_u64 (read_data ⊕ 24) header;
  program ← read_u64 (read_data ⊕ 32) header;
  section ← read_u64 (read_data ⊕ 40) header;
  flags ← read_u32 (read_data ⊕ 48) header;
  program_cnt ← read_u16 (read_data ⊕ 56) header;
  section_cnt ← read_u16 (read_data ⊕ 60) header;
  names ← read_u16 (read_data ⊕ 62) header;
  mret (KEP_SUCCESS, mkElf (is_big_endian header) os abi object arch entry program section program_cnt section_cnt names flags).

Definition parse_header (file : Z) (header : elf_header) (offset : Z) : M (kep_code * elf_header) :=
  file_descriptor_seek file offset ;;
  read_data ← gets (fun s => loc_read_data (locals s));
  read ← file_descriptor_read file read_data 0x40;
  if read <? 0x40 then mret (KEP_RF, set_big_endian true header) else check_header read_data header.

Record elf_section := mkSection {
  section_type : Z;
  section_flags : Z;
  section_virt_addr : Z;
  section_file_loc : Z;
  section_size : Z;
  linked_section_idx : Z;
  extra_info : Z;
  section_alignment : Z;
  entrys_size : Z;
}.

(** [None]: the structure is left as it was. *)
Definition parse_section (file offset : Z) (mheader : elf_header) : M (kep_code * option elf_section) :=
  file_descriptor_seek file offset ;;
  read_data ← gets (fun s => loc_read_data (locals s));
  read ← file_descriptor_read file read_data 0x40;
  if read <? 0x40 then mret (KEP_RF, None) else
  type ← read_u32 (read_data ⊕ 4) mheader;
  flags ← read_u64 (read_data ⊕ 8) mheader;
  virt_addr ← read_u64 (read_data ⊕ 16) mheader;
  file_loc ← read_u64 (read_data ⊕ 24) mheader;
  size ← read_u64 (read_data ⊕ 32) mheader;
  linked ← read_u32 (read_data ⊕ 40) mheader;
  extra ← read_u32 (read_data ⊕ 44) mheader;
  alignment ← read_u64 (read_data ⊕ 48) mheader;
  entrys ← read_u64 (read_data ⊕ 56) mheader;
  mret (KEP_SUCCESS, Some (mkSection type flags virt_addr file_loc size linked extra alignment entrys)).

Record elf_program := mkProgram {
  program_type : Z;
  program_flags : Z;
  program_file_loc : Z;
  virt_mem_addr : Z;
  phys_mem_addr : Z;
  program_file_size : Z;
  program_mem_size : Z;
  program_alignment : Z;
}.

Definition parse_program (file offset : Z) (mheader : elf_header) : M (kep_code * option elf_program) :=
  file_descriptor_seek file offset ;;
  read_data ← gets (fun s => loc_read_data (locals s));
  read ← file_descriptor_read file read_data 0x38;
  if read <? 0x38 then mret (KEP_RF, None) else
  type ← read_u32 (read_data ⊕ 0) mheader;
  flags ← read_u32 (read_data ⊕ 4) mheader;
  file_loc ← read_u64 (read_data ⊕ 8) mheader;
  virt ← read_u64 (read_data ⊕ 16) mheader;
  phys ← read_u64 (read_data ⊕ 24) mheader;
  file_size ← read_u64 (read_data ⊕ 32) mheader;
  mem_size ← read_u64 (read_data ⊕ 40) mheader;
  alignment ← read_u64 (read_data ⊕ 48) mheader;
  mret (KEP_SUCCESS, Some (mkProgram type flags file_loc virt phys file_size mem_size alignment)).

(** [stale] is what the uninitialised [header] happens to hold. *)
Definition parse_elf (stale : elf_header) (file : Z) : M Z :=
  '(_, header) ← parse_header file stale 0;
  for_each (upto 0 (cnt_program_header header)) (fun i =>
    _ ← parse_program file (start_program_header header ⊕ 0x38 * i) header; skip) ;;
  for_each (upto 0 (cnt_section_header header)) (fun i =>
    _ ← parse_section file (start_section_header header ⊕ 0x40 * i) header; skip) ;;
  mret 1.

(** ** The checks *)

(** The number at [a], most significant byte first when [big]. *)
Definition number (big : bool) (m : gmap Z Z) (a n : Z) : Z :=
  if big then be_value (bytes_at m a n) else rd_field n m a.

(** The verdict on the 64 bytes at [a]. *)
Definition verdict (m : gmap Z Z) (a : Z) : kep_code :=
  let big := byte m (a + 5) =? 2 in
  if number true m a 4 =? 0x7F454c46 then KEP_IMH
  else if negb (byte m (a + 4) =? 2) then KEP_IBF
  else if negb (byte m (a + 7) =? OS_CODE) then KEP_IOC
  else if negb (number big m (a + 16) 2 =? ELF_TYPE_EXECUTABLE) then KEP_NSET
  else if negb (number big m (a + 18) 2 =? ELF_MACHINE_RISC_V) then KEP_NSAM
  else if negb (byte m (a + 20) =? 1) then KEP_IV
  else KEP_SUCCESS.

(** The header read. *)
Definition header_at (m : gmap Z Z) (a : Z) : elf_header :=
  let big := byte m (a + 5) =? 2 in
  let num := number big m in
  mkElf big (byte m (a + 7)) (byte m (a + 8)) (num (a + 16) 2) (num (a + 18) 2) (num (a + 24) 8)
    (num (a + 32) 8) (num (a + 40) 8) (num (a + 56) 2) (num (a + 60) 2) (num (a + 62) 2) (num (a + 48) 4).

Lemma kblock_add a n k : kblock a n -> 0 <= k < n -> a ⊕ k = a + k.
Proof. unfold kblock, KERNEL_VMA_START. intros H Hk. apply wrap64_small. lia. Qed.

Lemma kblock_access a n k w : kblock a n -> 0 <= k -> k + w <= n -> width w -> k mod w = 0 -> access_ok w (a + k) = true.
Proof.
  unfold kblock, access_ok, kernel_mapped, KERNEL_VMA_START, width. intros (H1 & H2 & H3) Hk Hw W Hm.
  apply andb_true_intro. split; [lia|]. apply Z.eqb_eq. destruct W as [->|[->|[->| ->]]]; dlia.
Qed.

Section Header.
Context (a : Z) (s : kstate) (Hk : kblock a 64) (He : endian_type s = LITTLE_ENDIAN).

(** A field inside the block. *)
Definition inside (k w : Z) : Prop := 0 <= k /\ k + w <= 64 /\ width w /\ k mod w = 0.

Lemma load_inside w k : inside k w -> load_field w (a ⊕ k) s = Ret (rd_field w (mem s) (a + k)) s.
Proof.
  intros (H1 & H2 & H3 & H4). rewrite (kblock_add a 64) by (done || (unfold width in H3; lia)). unfold load_field.
  by rewrite (kblock_access a 64) by done.
Qed.

Lemma inside_mod k w : inside k w -> (a + k) mod w = 0.
Proof. destruct Hk as (_ & _ & Ha). intros (_ & _ & [->|[->|[->| ->]]] & H); dlia. Qed.

Lemma host_order w k (to_be to_le : Z -> M Z) flip b :
  to_be = to_host BIG_ENDIAN flip -> to_le = to_host LITTLE_ENDIAN flip ->
  flip (rd_field w (mem s) (a + k)) = be_value (bytes_at (mem s) (a + k) w) ->
  (if b : bool then to_be (rd_field w (mem s) (a + k)) else to_le (rd_field w (mem s) (a + k))) s =
    Ret (number b (mem s) (a + k) w) s.
Proof. intros -> -> E. unfold to_host. destruct b; kstep; rewrite He; unfold number; [by rewrite <- E|done]. Qed.

Lemma read_u8_eq k h : inside k 1 -> read_u8 (a ⊕ k) h s = Ret (byte (mem s) (a + k)) s.
Proof. apply load_inside. Qed.

Lemma read_u16_eq k h : inside k 2 -> read_u16 (a ⊕ k) h s = Ret (number (is_big_endian h) (mem s) (a + k) 2) s.
Proof.
  intros H. unfold read_u16. rewrite (bind_Ret _ _ _ _ _ (load_inside 2 k H)).
  eapply host_order; [reflexivity..|]. apply flip_u16_value, (inside_mod k 2 H).
Qed.

Lemma read_u32_eq k h : inside k 4 -> read_u32 (a ⊕ k) h s = Ret (number (is_big_endian h) (mem s) (a + k) 4) s.
Proof.
  intros H. unfold read_u32. rewrite (bind_Ret _ _ _ _ _ (load_inside 4 k H)).
  eapply host_order; [reflexivity..|]. apply flip_u32_value, (inside_mod k 4 H).
Qed.

Lemma read_u64_eq k h : inside k 8 -> read_u64 (a ⊕ k) h s = Ret (number (is_big_endian h) (mem s) (a + k) 8) s.
Proof.
  intros H. unfold read_u64. pose proof (inside_mod k 8 H) as Ha. pose proof (rd_field_8 (mem s) (a + k) Ha) as E.
  assert (load64 (a ⊕ k) s = Ret (rd_field 8 (mem s) (a + k)) s) as El.
  2: rewrite (bind_Ret _ _ _ _ _ El).
  - rewrite E. destruct H as (H1 & H2 & H3 & H4). rewrite (kblock_add a 64) by (done || lia).
    apply load64_eq. by apply (kblock_access a 64).
  - eapply host_order; [reflexivity..|]. rewrite E. by apply flip_u64_value.
Qed.
End Header.

Ltac inside := unfold inside, width; split; [lia|split; [lia|split; [lia|reflexivity]]].

Ltac read_step :=
  match goal with
  | Hk : kblock ?a 64, He : endian_type ?s = LITTLE_ENDIAN |- context [(read_u8 (?a ⊕ ?k) ?h ≫= _) ?s] =>
      rewrite (bind_Ret _ _ _ _ _ (read_u8_eq a s Hk k h ltac:(inside)))
  | Hk : kblock ?a 64, He : endian_type ?s = LITTLE_ENDIAN |- context [(read_u16 (?a ⊕ ?k) ?h ≫= _) ?s] =>
      rewrite (bind_Ret _ _ _ _ _ (read_u16_eq a s Hk He k h ltac:(inside)))
  | Hk : kblock ?a 64, He : endian_type ?s = LITTLE_ENDIAN |- context [(read_u32 (?a ⊕ ?k) ?h ≫= _) ?s] =>
      rewrite (bind_Ret _ _ _ _ _ (read_u32_eq a s Hk He k h ltac:(inside)))
  | Hk : kblock ?a 64, He : endian_type ?s = LITTLE_ENDIAN |- context [(read_u64 (?a ⊕ ?k) ?h ≫= _) ?s] =>
      rewrite (bind_Ret _ _ _ _ _ (read_u64_eq a s Hk He k h ltac:(inside)))
  end.

(** The end of a refusal: a message, and the code. *)
Lemma refused (msg : M unit) (c : kep_code) (h0 : elf_header) (P : kep_code -> elf_header -> Prop) s :
  prints msg -> P c h0 ->
  exists l h, (msg ;; mret (c, h0)) s = Ret (c, h) (sent l s) /\ P c h.
Proof. intros Hm HP. destruct (Hm s) as (l & E). exists l, h0. by rewrite (bind_Ret _ _ _ _ _ E). Qed.

Lemma refused_more (msg : M unit) (k : M (kep_code * elf_header)) c (P : elf_header -> Prop) s :
  prints msg -> (forall s, exists l h, k s = Ret (c, h) (sent l s) /\ P h) ->
  exists l h, (msg ;; k) s = Ret (c, h) (sent l s) /\ P h.
Proof.
  intros Hm Hk. destruct (Hm s) as (l & E). rewrite (bind_Ret _ _ _ _ _ E).
  destruct (Hk (sent l s)) as (l' & h & E' & HP). exists (l ++ l'), h. by rewrite E', sent_sent.
Qed.

(** C38: the header check ends in the verdict the 64 bytes deserve, and on
    success the header has their fields, each in the byte order byte 5
    names.  The magic number is refused, not required. *)
Theorem check_header_verdict a h s :
  kblock a 64 -> endian_type s = LITTLE_ENDIAN ->
  exists l h', check_header a h s = Ret (verdict (mem s) a, h') (sent l s) /\
    (verdict (mem s) a = KEP_SUCCESS -> h' = header_at (mem s) a).
Proof.
  intros Hk He. unfold check_header, verdict. cbv zeta. read_step. cbn [is_big_endian set_big_endian].
  rewrite Z.add_0_r. destruct (number true (mem s) a 4 =? _).
  { apply (refused _ _ _ (fun c h' => c = KEP_SUCCESS -> _)); [auto with kernel|done]. }
  read_step. destruct (byte (mem s) (a + 4) =? 2); cbn [negb].
  2: { apply (refused _ _ _ (fun c h' => c = KEP_SUCCESS -> _)); [auto with kernel|done]. }
  do 3 read_step. destruct (byte (mem s) (a + 7) =? OS_CODE); cbn [negb].
  2: { do 2 (apply refused_more; [unfold uart_print_u8_hex; auto with kernel|intros ?]).
       apply (refused _ _ _ (fun c h' => c = KEP_SUCCESS -> _)); [auto with kernel|done]. }
  do 2 read_step. cbn [is_big_endian set_big_endian set_system].
  destruct (number _ (mem s) (a + 16) 2 =? _); cbn [negb].
  2: { apply (refused _ _ _ (fun c h' => c = KEP_SUCCESS -> _)); [auto with kernel|done]. }
  destruct (number _ (mem s) (a + 18) 2 =? _); cbn [negb].
  2: { apply (refused _ _ _ (fun c h' => c = KEP_SUCCESS -> _)); [auto with kernel|done]. }
  read_step. destruct (byte (mem s) (a + 20) =? 1); cbn [negb].
  2: { apply (refused _ _ _ (fun c h' => c = KEP_SUCCESS -> _)); [auto with kernel|done]. }
  do 7 read_step. exists []. eexists. split; [by rewrite sent_nil|done].
Qed.

(** The first word of a 64-bit little-endian ELF file. *)
Definition demo_elf : kstate :=
  set_endian LITTLE_ENDIAN (set_mem (write_words ∅ KERNEL_VMA_START [0x00010102464c457f]) zero_state).

Lemma check_header_verdict_witness :
  exists l h, check_header KERNEL_VMA_START (mkElf false 0 0 0 0 0 0 0 0 0 0 0) demo_elf = Ret (KEP_IMH, h) (sent l demo_elf).
Proof.
  destruct (check_header_verdict KERNEL_VMA_START (mkElf false 0 0 0 0 0 0 0 0 0 0 0) demo_elf) as (l & h & E & _).
  - unfold kblock. vm_compute. by split_and!.
  - by vm_compute.
  - exists l, h. rewrite E. by replace (verdict (mem demo_elf) KERNEL_VMA_START) with KEP_IMH by (by vm_compute).
Defined.
