(* ===== verification/Unsafe.v ===== *)
(** * Traps before the kernel runs ([arch_trap/unsafe_handler.c])

    Until [attach_trap_handler] every trap ends in a panic that names it. *)
From S2P Require Import Prelude Machine.

(** ** The code *)

(** The fields of [raw_trap_info]. *)
Definition raw_scause (trap : Z) : Z := trap.
Definition raw_sepc (trap : Z) : Z := trap ⊕ 8.
Definition raw_stval (trap : Z) : Z := trap ⊕ 16.
Definition raw_sstatus (trap : Z) : Z := trap ⊕ 24.

Open Scope string_scope.

Definition unsafe_interrupt_message (trap_code : Z) : string :=
  match trap_code with
  | 1 => "PRE_BOOT_TRAP_SUPERVISOR_SOFTWARE_INTERRUPT"
  | 3 => "PRE_BOOT_TRAP_MACHINE_SOFTWARE_INTERRUPT"
  | 5 => "PRE_BOOT_TRAP_SUPERVISOR_TIMER_INTERRUPT"
  | 7 => "PRE_BOOT_TRAP_MACHINE_TIMER_INTERRUPT"
  | 9 => "PRE_BOOT_TRAP_SUPERVISOR_EXTERNAL_INTERRUPT"
  | 11 => "PRE_BOOT_TRAP_MACHINE_EXTERNAL_INTERRUPT"
  | 13 => "PRE_BOOT_TRAP_COUNTER_OVERFLOW"
  | _ => "PRE_BOOT_TRAP_INTERRUPT_UNHANDED"
  end.

Definition unsafe_exception_message (trap_code : Z) : string :=
  match trap_code with
  | 0 => "PRE_BOOT_TRAP_INSTRUCTION_ADDRESS_MISALIGNED"
  | 1 => "PRE_BOOT_TRAP_INSTRUCTION_ACCESS_FAULT"
  | 2 => "PRE_BOOT_TRAP_INSTRUCTION_INVALID"
  | 3 => "PRE_BOOT_TRAP_BREAKPOINT"
  | 4 => "PRE_BOOT_TRAP_LOAD_ADDRESS_MISALIGNED_FAULT"
  | 5 => "PRE_BOOT_TRAP_LOAD_ACCESS_FAULT"
  | 6 => "PRE_BOOT_TRAP_STORE_MISALIGNED_FAULT"
  | 7 => "PRE_BOOT_TRAP_STORE_ACCESS_FAULT"
  | 8 => "PRE_BOOT_TRAP_USER_ENVIRONMENT_CALL"
  | 9 => "PRE_BOOT_TRAP_SUPERVISOR_ENVIRONMENT_CALL"
  | 11 => "PRE_BOOT_TRAP_MACHINE_ENVIRONMENT_CALL"
  | 12 => "PRE_BOOT_TRAP_INSTRUCTION_PAGE_FAULT"
  | 13 => "PRE_BOOT_TRAP_LOAD_PAGE_FAULT"
  | 15 => "PRE_BOOT_TRAP_STORE_PAGE_FAULT"
  | 16 => "PRE_BOOT_TRAP_DOUBLE_TRAP"
  | 18 => "PRE_BOOT_TRAP_SOFTWARE_CHECK"
  | 19 => "PRE_BOOT_TRAP_HARDWARE_ERROR"
  | _ => "PRE_BOOT_TRAP_EXCEPTION_UNHANDED"
  end.

Close Scope string_scope.

Definition handle_unsafe_trap (trap : Z) : M unit :=
  scause ← load64 (raw_scause trap);
  let is_interrupt := Z.land scause (BIT 63) in
  let trap_code := Z.land scause 0x7FFFFFFFFFFFFFFF in
  fault_addr ← load64 (raw_stval trap);
  fault_pc ← load64 (raw_sepc trap);
  PANIC (if negb (is_interrupt =? 0) then unsafe_interrupt_message trap_code else unsafe_exception_message trap_code)
    trap_code fault_addr fault_pc.
