(* ===== verification/TrapEntry.v ===== *)
(** * Entering and leaving the kernel ([arch_trap/trap.S], [arch_trap/state.S],
    [arch_trap/unsafe_trap.S])

    The instructions the assembly uses, on the registers and trap CSRs of a
    hart, and its three pieces of code as lists of them.  The C functions they
    call are those of the file Traps; what a call leaves in the registers
    besides its result is a parameter. *)
From S2P Require Import Prelude Machine Objects Uart Scheduler Cpu Vma VmaSpace UserAccess Irq TrapParser Process Syscalls Traps Preempt Unsafe.

(** ** The hart *)

(** [status] holds the bits of sstatus other than SIE and SUM, which are fields
    of [kstate]. *)
Record hart := mkHart {
  xregs : gmap Z Z;
  pc : Z;
  mode : privilege_mode;
  status : Z;
  sscratch : Z;
  scause : Z;
  sepc : Z;
  stval : Z;
}.

Definition reg (h : hart) (n : Z) : Z := if n =? 0 then 0 else rd (xregs h) n.
Definition set_xregs (x : gmap Z Z) (h : hart) : hart :=
  mkHart x (pc h) (mode h) (status h) (sscratch h) (scause h) (sepc h) (stval h).
Definition set_reg (n v : Z) (h : hart) : hart := if n =? 0 then h else set_xregs (wr (xregs h) n v) h.
Definition set_pc (v : Z) (h : hart) : hart :=
  mkHart (xregs h) v (mode h) (status h) (sscratch h) (scause h) (sepc h) (stval h).

Definition SIE : Z := 1.
Definition SPIE : Z := 5.
Definition SPP : Z := 8.
Definition SUM : Z := 18.

Definition put_bit (n : Z) (b : bool) (v : Z) : Z := if b then Z.lor v (BIT n) else Z.ldiff v (BIT n).

(** ** Instructions *)

Inductive csr := CSR_sscratch | CSR_scause | CSR_sepc | CSR_stval | CSR_sstatus.

Definition csr_read (c : csr) (h : hart) : M Z :=
  match c with
  | CSR_sscratch => mret (sscratch h)
  | CSR_scause => mret (scause h)
  | CSR_sepc => mret (sepc h)
  | CSR_stval => mret (stval h)
  | CSR_sstatus => gets (fun s => put_bit SUM (sum_on s) (put_bit SIE (irq_on s) (status h)))
  end.

Definition csr_write (c : csr) (v : Z) (h : hart) : M hart :=
  match c with
  | CSR_sscratch => mret (mkHart (xregs h) (pc h) (mode h) (status h) v (scause h) (sepc h) (stval h))
  | CSR_scause => mret (mkHart (xregs h) (pc h) (mode h) (status h) (sscratch h) v (sepc h) (stval h))
  | CSR_sepc => mret (mkHart (xregs h) (pc h) (mode h) (status h) (sscratch h) (scause h) v (stval h))
  | CSR_stval => mret (mkHart (xregs h) (pc h) (mode h) (status h) (sscratch h) (scause h) (sepc h) v)
  | CSR_sstatus =>
      modify (fun s => set_irq (Z.testbit v SIE) (set_sum (Z.testbit v SUM) s)) ;;
      mret (mkHart (xregs h) (pc h) (mode h) v (sscratch h) (scause h) (sepc h) (stval h))
  end.

Inductive instr :=
| Li (rd : Z) (imm : Z)                  (* li, la *)
| Add (rd rs1 rs2 : Z)
| Addi (rd rs1 imm : Z)
| Ld (rd offset base : Z)
| Sd (rs offset base : Z)
| Csrr (rd : Z) (c : csr)
| Csrw (c : csr) (rs : Z)
| Fence.                                 (* fence rw, rw *)

(** In supervisor mode; addresses are translated. *)
Definition exec (i : instr) (h : hart) : M hart :=
  match i with
  | Li rd imm => mret (set_reg rd imm h)
  | Add rd rs1 rs2 => mret (set_reg rd (reg h rs1 ⊕ reg h rs2) h)
  | Addi rd rs1 imm => mret (set_reg rd (reg h rs1 ⊕ imm) h)
  | Ld rd offset base => v ← load_virt (reg h base ⊕ offset); mret (set_reg rd v h)
  | Sd rs offset base => store_virt (reg h base ⊕ offset) (reg h rs) ;; mret h
  | Csrr rd c => v ← csr_read c h; mret (set_reg rd v h)
  | Csrw c rs => csr_write c (reg h rs) h
  | Fence => mret h
  end.

Fixpoint run (l : list instr) (h : hart) : M hart :=
  match l with
  | [] => mret h
  | i :: l' => h ← exec i h; run l' h
  end.

(** Names of the calling convention. *)
Definition ra : Z := 1.
Definition sp : Z := 2.
Definition t0 : Z := 5.
Definition a0 : Z := 10.
Definition a1 : Z := 11.
Definition a2 : Z := 12.
Definition a3 : Z := 13.

(** ** Traps of the hardware *)

(** A trap is taken: the cause and where it happened in the CSRs, interrupts
    off, on to the handler. *)
Definition take_trap (cause value : Z) (h : hart) : M hart :=
  handler ← gets (fun s => stvec (io s));
  interrupts ← gets irq_on;
  modify (set_irq false) ;;
  let st := put_bit SPP (negb (bool_decide (mode h = TRAP_MODE_USER))) (put_bit SPIE interrupts (status h)) in
  mret (mkHart (xregs h) handler TRAP_MODE_SUPERVISOR st (sscratch h) cause (pc h) value).

Definition sret (h : hart) : M hart :=
  modify (set_irq (Z.testbit (status h) SPIE)) ;;
  let m := if Z.testbit (status h) SPP then TRAP_MODE_SUPERVISOR else TRAP_MODE_USER in
  mret (mkHart (xregs h) (sepc h) m (put_bit SPP false (put_bit SPIE true (status h))) (sscratch h) (scause h) (sepc h) (stval h)).

(** ** state.S *)

(** The offset of register [n] in the frame. *)
Definition tf_offset (n : Z) : Z := 8 * (n - 1).

Definition STORE_TRAP_FRAME : list instr :=
  [Csrw CSR_sscratch ra; Li ra TRAPFRAME_ADDRESS] ++
  ((fun n => Sd n (tf_offset n) ra) <$> upto 1 32) ++
  [Csrr a0 CSR_scause; Csrr a1 CSR_sepc; Csrr a2 CSR_stval; Csrr a3 CSR_sstatus;
   Sd a0 248 ra; Sd a1 256 ra; Sd a2 264 ra; Sd a3 272 ra;
   Add sp ra 0; Csrr ra CSR_sscratch; Sd ra 0 sp; Fence].

Definition LOAD_TRAP_FRAME : list instr :=
  [Li ra TRAPFRAME_ADDRESS;
   Ld a0 248 ra; Ld a1 256 ra; Ld a2 264 ra; Ld a3 272 ra;
   Csrw CSR_sepc a1; Csrw CSR_sstatus a3] ++
  ((fun n => Ld n (tf_offset n) ra) <$> upto 2 32) ++
  [Ld ra 0 ra].

(** ** trap.S *)

Definition HART_KERN_STACK_TOP : Z := HART_KERN_STACK_START + HART_KERN_STACK_SIZE - 1.

Section Entry.

(** [call f]: the result in [a0]; the rest of the registers is up to the compiled body
    of [f]. *)
Context (left_over : gmap Z Z -> gmap Z Z).
(** What the local [trap_data] of the handlers has in [hart_id]; the address of
    [_hart_stacks_start]. *)
Context (stale hart_stacks_start : Z).

Definition call (f : M Z) (h : hart) : M hart := r ← f; mret (set_reg a0 r (set_xregs (left_over (xregs h)) h)).
Definition call_void (f : M unit) (h : hart) : M hart := f ;; mret (set_xregs (left_over (xregs h)) h).

Definition run_process_kernel_trap (h : hart) : M hart :=
  h ← run [Add sp a0 0] h;
  call_void (handle_async_trap stale) h.

Definition resume_process (h : hart) : M hart :=
  h ← run LOAD_TRAP_FRAME h;
  sret h.

Definition trap_entry (h : hart) : M hart :=
  h ← run STORE_TRAP_FRAME h;
  h ← run [Li t0 TRAPFRAME_ADDRESS; Li sp hart_stacks_start; Li sp HART_KERN_STACK_TOP; Li a0 TRAPFRAME_ADDRESS] h;
  h ← call (handle_sync_trap stale) h;
  h ← (if negb (reg h a0 =? 0) then run_process_kernel_trap h else mret h);
  resume_process h.

(** *** unsafe_trap.S

    [handle_unsafe_trap] does not return. *)
Definition store_raw_trap (stack_top : Z) : list instr :=
  [Li sp stack_top; Csrr a0 CSR_scause; Csrr a1 CSR_sepc; Csrr a2 CSR_stval; Csrr a3 CSR_sstatus;
   Sd a0 0 sp; Sd a1 8 sp; Sd a2 16 sp; Sd a3 24 sp; Addi a0 sp 0; Addi sp sp (-32)].

Definition unsafe_trap_entry (stack_top : Z) (h : hart) : M hart :=
  h ← run (store_raw_trap stack_top) h;
  call_void (handle_unsafe_trap (reg h a0)) h.

(** A trap of a process, when [attach_trap_handler] has run: from the instruction it
    stops at to the one the hart goes on with. *)
Definition trap (cause value : Z) (h : hart) : M hart :=
  h ← take_trap cause value h;
  entry ← gets (fun s => sym_trap_entry (symbols s));
  if pc h =? entry then trap_entry h else undef "the handler is not trap_entry".
End Entry.

(** ** Instructions on registers *)

Lemma reg_set n v h k : 0 < n -> reg (set_reg n v h) k = if k =? n then wrap64 v else reg h k.
Proof.
  intros Hn. unfold reg, set_reg. replace (n =? 0) with false by lia. cbn [xregs set_xregs].
  destruct (Z.eqb_spec k 0); [by replace (k =? n) with false by lia|].
  destruct (Z.eqb_spec k n) as [->|]; [apply rd_wr_eq|by apply rd_wr_ne].
Qed.

Lemma reg_u64 h n : u64 (reg h n).
Proof. unfold reg. destruct (n =? 0); [unfold u64; lia|apply rd_u64]. Qed.

(** What instructions on registers leave alone. *)
Definition same_csrs (h h' : hart) : Prop :=
  pc h' = pc h /\ mode h' = mode h /\ status h' = status h /\ sscratch h' = sscratch h /\ scause h' = scause h /\
  sepc h' = sepc h /\ stval h' = stval h.

Lemma set_reg_csrs n v h : same_csrs h (set_reg n v h).
Proof. unfold set_reg. destruct (n =? 0); repeat split. Qed.

Lemma run_app l l' h s : run (l ++ l') h s = (h' ← run l h; run l' h') s.
Proof.
  revert h s. induction l as [|i l IH]; intros h s; [done|]. cbn [app run]. rewrite bind_assoc.
  unfold mbind, M_bind. destruct (exec i h s) as [h1 s1| | | | |]; [|done..]. apply IH.
Qed.

Lemma run_cons i l h h' s s' : exec i h s = Ret h' s' -> run (i :: l) h s = run l h' s'.
Proof. intros E. cbn [run]. by rewrite (bind_Ret _ _ _ _ _ E). Qed.

(** ** The trap frame, saved and loaded *)

(** The frame is mapped, and the tables on the way to it lie outside. *)
Record frame_mapped (tf t1 t0 : Z) (s : kstate) : Prop := {
  fm_frame : trap_frame tf t1 t0 s;
  fm_apart a : on_path t1 t0 s a -> a < tf \/ tf + 4096 <= a;
}.

(** Register [n] in the frame. *)
Definition frame_reg (tf : Z) (m : gmap Z Z) (n : Z) : Z := rd m (tf + tf_offset n).

Section Frame.
Context (tf t1 t0' : Z) (s : kstate) (Hf : frame_mapped tf t1 t0' s).

Lemma frame_mapped_wr k v : 0 <= k < 4096 -> frame_mapped tf t1 t0' (set_mem (wr (mem s) (tf + k) v) s).
Proof.
  intros Hk. destruct Hf as [H1 H2]. split; [|exact H2]. apply frame_wr; [done|]. intros Hp. specialize (H2 _ Hp). lia.
Qed.

Lemma exec_sd rs k base h : reg h base = TRAPFRAME_ADDRESS -> 0 <= k < 4096 -> k mod 8 = 0 ->
  exec (Sd rs k base) h s = Ret h (set_mem (wr (mem s) (tf + k) (reg h rs)) s).
Proof.
  intros Eb Hk Hm. cbn [exec]. rewrite Eb.
  by rewrite (bind_Ret _ _ _ _ _ (store_tf_eq tf t1 t0' s (fm_frame _ _ _ _ Hf) k (reg h rs) Hk Hm)).
Qed.

Lemma exec_ld n k base h : reg h base = TRAPFRAME_ADDRESS -> 0 <= k < 4096 -> k mod 8 = 0 ->
  exec (Ld n k base) h s = Ret (set_reg n (rd (mem s) (tf + k)) h) s.
Proof.
  intros Eb Hk Hm. cbn [exec]. rewrite Eb.
  by rewrite (bind_Ret _ _ _ _ _ (load_tf_eq tf t1 t0' s (fm_frame _ _ _ _ Hf) k Hk Hm)).
Qed.
End Frame.

Lemma offset_range n : 1 <= n < 32 -> 0 <= tf_offset n < 248 /\ tf_offset n mod 8 = 0.
Proof. intros Hn. unfold tf_offset. split; [lia|]. rewrite Z.mul_comm. by apply Z_mod_mult. Qed.

(** *** Runs of stores and of loads *)

Definition stores (tf : Z) (f : Z -> Z) (l : list Z) (m : gmap Z Z) : gmap Z Z :=
  foldl (fun m n => wr m (tf + tf_offset n) (f n)) m l.
Definition loads (tf : Z) (m : gmap Z Z) (l : list Z) (h : hart) : hart :=
  foldl (fun h n => set_reg n (frame_reg tf m n) h) h l.

Lemma stores_cons tf f n l m : stores tf f (n :: l) m = stores tf f l (wr m (tf + tf_offset n) (f n)).
Proof. done. Qed.

Lemma loads_cons tf m n l h : loads tf m (n :: l) h = loads tf m l (set_reg n (frame_reg tf m n) h).
Proof. done. Qed.

Lemma rd_stores_out tf f l m a : (forall n, n ∈ l -> a <> tf + tf_offset n) -> rd (stores tf f l m) a = rd m a.
Proof.
  revert m. induction l as [|n l IH]; intros m H; [done|]. rewrite stores_cons.
  rewrite IH by (intros k Hk; apply H; by right). apply rd_wr_ne. intros E. by apply (H n); [left|].
Qed.

Lemma rd_stores_in tf f l m n : n ∈ l -> rd (stores tf f l m) (tf + tf_offset n) = wrap64 (f n).
Proof.
  revert m. induction l as [|k l IH]; intros m H; [by apply not_elem_of_nil in H|]. rewrite stores_cons.
  destruct (decide (n ∈ l)) as [Hin|Hin]; [by apply IH|]. apply elem_of_cons in H as [->|]; [|done].
  rewrite rd_stores_out; [apply rd_wr_eq|]. intros k' Hk' E. unfold tf_offset in E. assert (k' = k) by lia. by subst.
Qed.

Lemma reg_loads tf m l h k : (forall n, n ∈ l -> 1 <= n < 32) ->
  reg (loads tf m l h) k = if decide (k ∈ l) then frame_reg tf m k else reg h k.
Proof.
  revert h. induction l as [|n l IH]; intros h Hl; [done|]. rewrite loads_cons.
  rewrite IH by (intros j Hj; apply Hl; by right). rewrite reg_set by (specialize (Hl n ltac:(by left)); lia).
  destruct (decide (k ∈ l)) as [Hk|Hk]; [by rewrite decide_True by (by right)|].
  destruct (Z.eqb_spec k n) as [->|]; [rewrite decide_True by (by left); apply wrap64_small, rd_u64|].
  rewrite decide_False; [done|]. intros [?|?]%elem_of_cons; done.
Qed.

Lemma loads_csrs tf m l h : same_csrs h (loads tf m l h).
Proof.
  revert h. induction l as [|n l IH]; intros h; [by repeat split|]. rewrite loads_cons.
  destruct (IH (set_reg n (frame_reg tf m n) h)) as (?&?&?&?&?&?&?), (set_reg_csrs n (frame_reg tf m n) h) as (?&?&?&?&?&?&?).
  split_and!; congruence.
Qed.

Lemma run_stores tf t1 t0' l h s :
  frame_mapped tf t1 t0' s -> reg h ra = TRAPFRAME_ADDRESS -> (forall n, n ∈ l -> 1 <= n < 32) ->
  run ((fun n => Sd n (tf_offset n) ra) <$> l) h s = Ret h (set_mem (stores tf (reg h) l (mem s)) s) /\
  frame_mapped tf t1 t0' (set_mem (stores tf (reg h) l (mem s)) s).
Proof.
  intros Hf Ea. revert s Hf. induction l as [|n l IH]; intros s Hf Hl; [by destruct s|].
  destruct (offset_range n (Hl n ltac:(by left))) as [Hr Hm].
  cbn [fmap list_fmap]. rewrite (run_cons _ _ _ _ _ _ (exec_sd _ _ _ _ Hf n (tf_offset n) ra h Ea ltac:(lia) Hm)).
  apply (IH _ (frame_mapped_wr _ _ _ _ Hf (tf_offset n) (reg h n) ltac:(lia))). intros k Hk. apply Hl. by right.
Qed.

Lemma run_loads tf t1 t0' l h s :
  frame_mapped tf t1 t0' s -> reg h ra = TRAPFRAME_ADDRESS -> (forall n, n ∈ l -> 2 <= n < 32) ->
  run ((fun n => Ld n (tf_offset n) ra) <$> l) h s = Ret (loads tf (mem s) l h) s.
Proof.
  intros Hf. revert h. induction l as [|n l IH]; intros h Ea Hl; [done|].
  pose proof (Hl n ltac:(by left)). destruct (offset_range n ltac:(lia)) as [Hr Hm].
  cbn [fmap list_fmap]. rewrite (run_cons _ _ _ _ _ _ (exec_ld _ _ _ _ Hf n (tf_offset n) ra h Ea ltac:(lia) Hm)).
  apply IH; [|intros k Hk; apply Hl; by right]. rewrite reg_set by lia. by replace (ra =? n) with false by (unfold ra; lia).
Qed.

(** *** The two macros *)

(** sstatus as [csrr] reads it. *)
Definition sstatus_of (h : hart) (s : kstate) : Z := put_bit SUM (sum_on s) (put_bit SIE (irq_on s) (status h)).

Record saved (tf : Z) (h : hart) (s : kstate) (m : gmap Z Z) : Prop := {
  sv_regs n : 1 <= n < 32 -> frame_reg tf m n = reg h n;
  sv_cause : rd m (tf + 248) = wrap64 (scause h);
  sv_pc : rd m (tf + 256) = wrap64 (sepc h);
  sv_value : rd m (tf + 264) = wrap64 (stval h);
  sv_status : rd m (tf + 272) = wrap64 (sstatus_of h s);
  sv_other a : a < tf \/ tf + 280 <= a -> rd m a = rd (mem s) a;
}.

Ltac reg_step := erewrite run_cons by reflexivity.
Ltac reg_eval := rewrite ?reg_set by (unfold ra, sp, a0, a1, a2, a3; lia); cbn [Z.eqb Pos.eqb ra sp a0 a1 a2 a3].

Lemma store_frame tf t1 t0' h s :
  frame_mapped tf t1 t0' s -> exists h' m,
    run STORE_TRAP_FRAME h s = Ret h' (set_mem m s) /\ frame_mapped tf t1 t0' (set_mem m s) /\ saved tf h s m.
Proof.
  intros Hf. unfold STORE_TRAP_FRAME. cbn [app]. do 2 reg_step. rewrite run_app.
  set (h1 := set_reg ra TRAPFRAME_ADDRESS _).
  assert (forall n, reg h1 n = if n =? 1 then TRAPFRAME_ADDRESS else reg h n) as R1 by (intros n; unfold h1; by reg_eval).
  assert (forall n, n ∈ upto 1 32 -> 1 <= n < 32) as Hin by (intros n; apply elem_of_upto).
  destruct (run_stores tf t1 t0' (upto 1 32) h1 s Hf (R1 1) Hin) as [E1 Hf1].
  rewrite (bind_Ret _ _ _ _ _ E1). set (m1 := stores tf (reg h1) (upto 1 32) (mem s)) in *.
  do 4 reg_step. set (h2 := set_reg a3 _ _).
  assert (reg h2 ra = TRAPFRAME_ADDRESS) as Era by (unfold h2; reg_eval; apply R1).
  assert (reg h2 a0 = wrap64 (scause h) /\ reg h2 a1 = wrap64 (sepc h) /\ reg h2 a2 = wrap64 (stval h) /\
    reg h2 a3 = wrap64 (sstatus_of h s)) as (V0 & V1 & V2 & V3) by (unfold h2; split_and!; by reg_eval).
  rewrite (run_cons _ _ _ _ _ _ (exec_sd _ _ _ _ Hf1 a0 248 ra h2 Era ltac:(lia) eq_refl)).
  pose proof (frame_mapped_wr _ _ _ _ Hf1 248 (reg h2 a0) ltac:(lia)) as Hf2.
  rewrite (run_cons _ _ _ _ _ _ (exec_sd _ _ _ _ Hf2 a1 256 ra h2 Era ltac:(lia) eq_refl)).
  pose proof (frame_mapped_wr _ _ _ _ Hf2 256 (reg h2 a1) ltac:(lia)) as Hf3.
  rewrite (run_cons _ _ _ _ _ _ (exec_sd _ _ _ _ Hf3 a2 264 ra h2 Era ltac:(lia) eq_refl)).
  pose proof (frame_mapped_wr _ _ _ _ Hf3 264 (reg h2 a2) ltac:(lia)) as Hf4.
  rewrite (run_cons _ _ _ _ _ _ (exec_sd _ _ _ _ Hf4 a3 272 ra h2 Era ltac:(lia) eq_refl)).
  pose proof (frame_mapped_wr _ _ _ _ Hf4 272 (reg h2 a3) ltac:(lia)) as Hf5.
  do 2 reg_step. set (h3 := set_reg ra _ _).
  assert (reg h3 sp = TRAPFRAME_ADDRESS) as Esp by (unfold h3; reg_eval; by rewrite Era).
  assert (reg h3 ra = reg h 1) as Er3 by (unfold h3; reg_eval; apply wrap64_small, reg_u64).
  rewrite (run_cons _ _ _ _ _ _ (exec_sd _ _ _ _ Hf5 ra 0 sp h3 Esp ltac:(lia) eq_refl)).
  pose proof (frame_mapped_wr _ _ _ _ Hf5 0 (reg h3 ra) ltac:(lia)) as Hf6. reg_step.
  cbn [mem set_mem] in *. eexists h3, _. split; [reflexivity|]. split; [exact Hf6|]. rewrite V0, V1, V2, V3, Er3.
  split; unfold frame_reg.
  - intros n Hn. destruct (offset_range n Hn) as [Ho _]. destruct (Z.eq_dec n 1) as [->|Hne].
    + change (tf_offset 1) with 0. rewrite rd_wr_eq. apply wrap64_small, reg_u64.
    + rewrite !rd_wr_ne by (unfold tf_offset in *; lia). unfold m1. rewrite rd_stores_in by (by apply elem_of_upto).
      rewrite R1. replace (n =? 1) with false by lia. apply wrap64_small, reg_u64.
  - rewrite !(rd_wr_ne _ _ (tf + 248)) by lia. by rewrite rd_wr_eq, wrap64_idem.
  - rewrite !(rd_wr_ne _ _ (tf + 256)) by lia. by rewrite rd_wr_eq, wrap64_idem.
  - rewrite !(rd_wr_ne _ _ (tf + 264)) by lia. by rewrite rd_wr_eq, wrap64_idem.
  - rewrite !(rd_wr_ne _ _ (tf + 272)) by lia. by rewrite rd_wr_eq, wrap64_idem.
  - intros a Ha. rewrite !rd_wr_ne by lia. apply rd_stores_out. intros n Hn%Hin.
    destruct (offset_range n Hn). lia.
Qed.

(** *** Back to the process *)

(** The registers of [h] are those of the frame, and it goes on where the
    frame says, in the mode and with the interrupts it says. *)
Record resumed (tf : Z) (m : gmap Z Z) (h : hart) : Prop := {
  rs_regs n : 1 <= n < 32 -> reg h n = frame_reg tf m n;
  rs_pc : pc h = rd m (tf + 256);
  rs_mode : mode h = if Z.testbit (rd m (tf + 272)) SPP then TRAP_MODE_SUPERVISOR else TRAP_MODE_USER;
}.

(** The bits of sstatus the kernel state holds, after [sret]. *)
Definition resume_bits (v : Z) (s : kstate) : kstate := set_irq (Z.testbit v SPIE) (set_sum (Z.testbit v SUM) s).

Lemma frame_mapped_ext tf t1 t0' s s' :
  mem s' = mem s -> satp s' = satp s -> frame_mapped tf t1 t0' s -> frame_mapped tf t1 t0' s'.
Proof.
  intros Em Es [[] H]. assert (satp_root s' = satp_root s) as Er by (unfold satp_root; by rewrite Es).
  split; [split; by rewrite ?Er, ?Em|]. intros a Ha. apply H. revert Ha. unfold on_path. by rewrite Er.
Qed.

(** Up to the general registers: the CSRs are read into [a0] to [a3]. *)
Lemma load_status tf t1 t0' h s :
  frame_mapped tf t1 t0' s -> let v := rd (mem s) (tf + 272) in exists h',
    run [Li ra TRAPFRAME_ADDRESS; Ld a0 248 ra; Ld a1 256 ra; Ld a2 264 ra; Ld a3 272 ra; Csrw CSR_sepc a1; Csrw CSR_sstatus a3] h s =
      Ret h' (set_irq (Z.testbit v SIE) (set_sum (Z.testbit v SUM) s)) /\
    reg h' ra = TRAPFRAME_ADDRESS /\ sepc h' = rd (mem s) (tf + 256) /\ status h' = v.
Proof.
  intros Hf v. reg_step. set (h1 := set_reg ra _ _).
  assert (reg h1 ra = TRAPFRAME_ADDRESS) as R1 by (unfold h1; by reg_eval).
  rewrite (run_cons _ _ _ _ _ _ (exec_ld _ _ _ _ Hf a0 248 ra h1 R1 ltac:(lia) eq_refl)). set (h2 := set_reg a0 _ h1).
  assert (reg h2 ra = TRAPFRAME_ADDRESS) as R2 by (unfold h2; by reg_eval).
  rewrite (run_cons _ _ _ _ _ _ (exec_ld _ _ _ _ Hf a1 256 ra h2 R2 ltac:(lia) eq_refl)). set (h3 := set_reg a1 _ h2).
  assert (reg h3 ra = TRAPFRAME_ADDRESS) as R3 by (unfold h3; by reg_eval).
  rewrite (run_cons _ _ _ _ _ _ (exec_ld _ _ _ _ Hf a2 264 ra h3 R3 ltac:(lia) eq_refl)). set (h4 := set_reg a2 _ h3).
  assert (reg h4 ra = TRAPFRAME_ADDRESS) as R4 by (unfold h4; by reg_eval).
  rewrite (run_cons _ _ _ _ _ _ (exec_ld _ _ _ _ Hf a3 272 ra h4 R4 ltac:(lia) eq_refl)). set (h5 := set_reg a3 _ h4).
  assert (reg h5 a1 = rd (mem s) (tf + 256) /\ reg h5 a3 = v /\ reg h5 ra = TRAPFRAME_ADDRESS) as (V1 & V3 & V).
  { unfold h5, h4, h3. split_and!; reg_eval; [apply wrap64_small, rd_u64..|done]. }
  cbn [run exec csr_write]. rewrite V1. erewrite bind_Ret by reflexivity.
  change (reg (mkHart _ _ _ _ _ _ _ _) a3) with (reg h5 a3). rewrite V3.
  eexists. split; [reflexivity|]. by split_and!.
Qed.

Lemma resume_frame tf t1 t0' h s :
  frame_mapped tf t1 t0' s -> exists h',
    resume_process h s = Ret h' (resume_bits (rd (mem s) (tf + 272)) s) /\ resumed tf (mem s) h'.
Proof.
  intros Hf. destruct (load_status tf t1 t0' h s Hf) as (h1 & E1 & R1 & P1 & S1).
  set (v := rd (mem s) (tf + 272)) in *. set (s1 := set_irq _ _) in E1.
  pose proof (frame_mapped_ext tf t1 t0' s s1 eq_refl eq_refl Hf) as Hf1.
  assert (forall n, n ∈ upto 2 32 -> 2 <= n < 32) as Hin by (intros n; apply elem_of_upto).
  pose proof (run_loads tf t1 t0' (upto 2 32) h1 s1 Hf1 R1 Hin) as E2. change (mem s1) with (mem s) in E2.
  set (h2 := loads tf (mem s) (upto 2 32) h1) in *.
  assert (forall k, reg h2 k = if decide (k ∈ upto 2 32) then frame_reg tf (mem s) k else reg h1 k) as R2
    by (intros k; apply reg_loads; intros n Hn%Hin; lia).
  assert (reg h2 ra = TRAPFRAME_ADDRESS) as Era by (rewrite R2, decide_False by (intros Hx%Hin; unfold ra in Hx; lia); done).
  destruct (loads_csrs tf (mem s) (upto 2 32) h1) as (_ & _ & S2 & _ & _ & P2 & _). fold h2 in S2, P2. rewrite S1 in S2. rewrite P1 in P2.
  pose proof (exec_ld tf t1 t0' s1 Hf1 ra 0 ra h2 Era ltac:(lia) eq_refl) as E3. set (h3 := set_reg ra _ h2) in E3.
  assert (status h3 = v /\ sepc h3 = rd (mem s) (tf + 256)) as [S3 P3] by done.
  unfold resume_process. erewrite (bind_Ret (run _ h)).
  2:{ unfold LOAD_TRAP_FRAME. rewrite run_app, (bind_Ret _ _ _ _ _ E1), run_app, (bind_Ret _ _ _ _ _ E2), (run_cons _ _ _ _ _ _ E3).
      reflexivity. }
  unfold sret. rewrite S3, P3. erewrite bind_Ret by reflexivity. eexists. split; [reflexivity|].
  split; [|done|done]. intros n Hn. change (reg (mkHart _ _ _ _ _ _ _ _) n) with (reg h3 n). unfold h3. rewrite reg_set by (unfold ra; lia).
  unfold ra. destruct (Z.eqb_spec n 1) as [->|]; [apply wrap64_small, rd_u64|].
  by rewrite R2, decide_True by (apply elem_of_upto; lia).
Qed.

(** ** Traps of a process *)

Lemma put_bit_testbit n b v k : 0 <= n < 64 -> 0 <= k -> Z.testbit (put_bit n b v) k = if k =? n then b else Z.testbit v k.
Proof.
  intros Hn Hk. unfold put_bit. destruct b; [rewrite Z.lor_spec|rewrite Z.ldiff_spec]; rewrite testbit_BIT by lia;
    destruct (k =? n); by rewrite ?orb_true_r, ?orb_false_r, ?andb_true_r, ?andb_false_r.
Qed.

(** The frame holds the registers of [h], stopped in user mode in [s]. *)
Record user_frame (tf : Z) (h : hart) (s : kstate) (m : gmap Z Z) : Prop := {
  uf_regs n : 1 <= n < 32 -> frame_reg tf m n = reg h n;
  uf_pc : rd m (tf + 256) = wrap64 (pc h);
  uf_spp : Z.testbit (rd m (tf + 272)) SPP = false;
  uf_spie : Z.testbit (rd m (tf + 272)) SPIE = irq_on s;
  uf_sum : Z.testbit (rd m (tf + 272)) SUM = sum_on s;
}.

(** Nothing else of memory has changed. *)
Record user_saved (tf cause : Z) (h : hart) (s : kstate) (m : gmap Z Z) : Prop := {
  us_frame : user_frame tf h s m;
  us_cause : rd m (tf + 248) = wrap64 cause;
  us_other a : a < tf \/ tf + 280 <= a -> rd m a = rd (mem s) a;
}.

Definition same_frame (tf : Z) (m m' : gmap Z Z) : Prop :=
  forall k, 0 <= k < 280 -> k mod 8 = 0 -> rd m' (tf + k) = rd m (tf + k).

Lemma user_frame_same tf h s m m' : same_frame tf m m' -> user_frame tf h s m -> user_frame tf h s m'.
Proof.
  intros H [R P A B C]. split; rewrite ?H by (lia || done); try done.
  intros n Hn. destruct (offset_range n Hn). unfold frame_reg in *. rewrite H by (lia || done). by apply R.
Qed.

Lemma resumed_same tf m m' h : same_frame tf m m' -> resumed tf m' h -> resumed tf m h.
Proof.
  intros H [R P A]. split; rewrite <- ?H by (lia || done); try done.
  intros n Hn. destruct (offset_range n Hn). unfold frame_reg in *. rewrite <- H by (lia || done). by apply R.
Qed.

(** A frame that is saved and loaded gives the registers back. *)
Record same_user (h h' : hart) : Prop := {
  su_regs n : 1 <= n < 32 -> reg h' n = reg h n;
  su_pc : pc h' = pc h;
  su_mode : mode h' = TRAP_MODE_USER;
}.

Lemma resumed_user tf h s m h' : u64 (pc h) -> user_frame tf h s m -> resumed tf m h' -> same_user h h'.
Proof.
  intros Hpc [R P A B C] [R' P' A']. split.
  - intros n Hn. by rewrite R', R.
  - rewrite P', P. by apply wrap64_small.
  - by rewrite A', A.
Qed.

Lemma running_words proc tf t1 t0' s s' :
  satp s' = satp s -> (forall a, on_path t1 t0' s a \/ a = tf + 280 -> rd (mem s') a = rd (mem s) a) ->
  running proc tf t1 t0' s -> running proc tf t1 t0' s'.
Proof.
  intros Es Em [Hf Hp Hptr Hap H1 H2]. assert (satp_root s' = satp_root s) as Er by (unfold satp_root; by rewrite Es).
  split; [|done|rewrite Em; [done|by right]|done| |].
  - destruct Hf as [F1 F2 F3 F4 F5 F6 F7].
    split; rewrite ?Er; try done; (rewrite Em by (unfold on_path; tauto)); done.
  - intros a Ha. apply H1. revert Ha. unfold on_path. by rewrite Er.
  - intros a Ha. apply H2. revert Ha. unfold on_path. by rewrite Er.
Qed.

Lemma running_same proc tf t1 t0' s s' :
  satp s' = satp s -> (forall a, a < tf \/ tf + 280 <= a -> rd (mem s') a = rd (mem s) a) ->
  running proc tf t1 t0' s -> running proc tf t1 t0' s'.
Proof.
  intros Es Em Hr. apply (running_words _ _ _ _ s); [done| |done].
  intros a [Ha| ->]; apply Em; [|lia]. destruct (rn_path_frame _ _ _ _ _ Hr a Ha); lia.
Qed.

Lemma on_path_aligned tf t1 t0' s a : trap_frame tf t1 t0' s -> on_path t1 t0' s a -> a mod 8 = 0.
Proof.
  intros [[_ Hr] [_ H1] [_ H0] _ _ _ _] [-> | [-> | ->]]; [clear -Hr; dlia|clear -H1; dlia|clear -H0; dlia].
Qed.

Lemma running_frame proc tf t1 t0' s : running proc tf t1 t0' s -> frame_mapped tf t1 t0' s.
Proof. intros [? _ _ _ _ ?]. by split. Qed.

(** [attach_trap_handler] has run. *)
Definition attached (s : kstate) : Prop := stvec (io s) = sym_trap_entry (symbols s).

Section UserTrap.
Context (left_over : gmap Z Z -> gmap Z Z) (stale stacks : Z).
Context (proc tf t1 t0' : Z) (s : kstate) (h : hart) (cause value : Z).
Hypothesis Hr : running proc tf t1 t0' s.
Hypothesis Ha : attached s.
Hypothesis Hu : mode h = TRAP_MODE_USER.

(** [handle_sync_trap], and [handle_async_trap] when its result is a stack. *)
Lemma user_trap_both : exists m, let s1 := set_mem m (set_irq false s) in
  running proc tf t1 t0' s1 /\ user_saved tf cause h s m /\
  (forall r s2 s3 tf2 t12 t02, handle_sync_trap stale s1 = Ret r s2 ->
    (if wrap64 r =? 0 then s3 = s2 else handle_async_trap stale s2 = Ret tt s3) -> frame_mapped tf2 t12 t02 s3 -> exists h',
    trap left_over stale stacks cause value h s = Ret h' (resume_bits (rd (mem s3) (tf2 + 272)) s3) /\ resumed tf2 (mem s3) h') /\
  (forall r s2 msg v1 v2 v3, handle_sync_trap stale s1 = Ret r s2 -> wrap64 r <> 0 ->
    handle_async_trap stale s2 = Panic msg v1 v2 v3 -> trap left_over stale stacks cause value h s = Panic msg v1 v2 v3).
Proof.
  set (s0 := set_irq false s).
  set (h1 := mkHart (xregs h) (stvec (io s)) TRAP_MODE_SUPERVISOR
    (put_bit SPP false (put_bit SPIE (irq_on s) (status h))) (sscratch h) cause (pc h) value).
  assert (take_trap cause value h s = Ret h1 s0) as Et.
  { unfold take_trap. do 3 (erewrite bind_Ret by reflexivity). rewrite Hu.
    by rewrite (bool_decide_true (TRAP_MODE_USER = TRAP_MODE_USER)) by done. }
  pose proof (running_frame _ _ _ _ _ (running_same proc tf t1 t0' s s0 eq_refl (fun _ _ => eq_refl) Hr)) as Hf.
  destruct (store_frame tf t1 t0' h1 s0 Hf) as (h2 & m & E1 & Hf1 & [R C P V S O]).
  assert (forall k, 0 <= k < 64 -> Z.testbit (rd m (tf + 272)) k =
    if k =? SUM then sum_on s else if k =? SIE then false else if k =? SPP then false else if k =? SPIE then irq_on s
    else Z.testbit (status h) k) as Hb.
  { intros k Hk. rewrite S, wrap64_testbit by done. unfold sstatus_of. cbn [status h1 irq_on sum_on s0 set_irq].
    by rewrite !put_bit_testbit by (unfold SUM, SIE, SPP, SPIE; lia). }
  exists m. split; [by apply (running_same proc tf t1 t0' s)|]. split.
  { split; [split; [exact R|exact P|by rewrite Hb..]|exact C|exact O]. }
  assert (exists h3, forall r s2, handle_sync_trap stale (set_mem m s0) = Ret r s2 -> trap left_over stale stacks cause value h s =
    (let h4 := set_reg a0 r (set_xregs (left_over (xregs h3)) h3) in
     h5 ← (if negb (wrap64 r =? 0) then run_process_kernel_trap left_over stale h4 else mret h4); resume_process h5) s2) as (h3 & Hgo).
  { eexists. intros r s2 E. unfold trap. rewrite (bind_Ret _ _ _ _ _ Et). erewrite bind_Ret by reflexivity.
    change (pc h1) with (stvec (io s)). change (symbols s0) with (symbols s). rewrite Ha, Z.eqb_refl.
    unfold trap_entry. rewrite (bind_Ret _ _ _ _ _ E1). erewrite bind_Ret by reflexivity.
    unfold call. rewrite bind_assoc, (bind_Ret _ _ _ _ _ E). erewrite bind_Ret by reflexivity.
    rewrite reg_set by (unfold a0; lia). rewrite Z.eqb_refl. reflexivity. }
  unfold run_process_kernel_trap, call_void in Hgo. split.
  - intros r s2 s3 tf2 t12 t02 E E3 Hf3. rewrite (Hgo r s2 E). destruct (wrap64 r =? 0); cbn [negb].
    + erewrite bind_Ret by reflexivity. subst s3. by apply (resume_frame tf2 t12 t02).
    + rewrite bind_assoc. erewrite bind_Ret by reflexivity.
      rewrite !bind_assoc, (bind_Ret _ _ _ _ _ E3). erewrite bind_Ret by reflexivity. by apply (resume_frame tf2 t12 t02).
  - intros r s2 msg v1 v2 v3 E Hne E3. rewrite (Hgo r s2 E). replace (wrap64 r =? 0) with false by lia. cbn [negb].
    rewrite bind_assoc. erewrite bind_Ret by reflexivity. rewrite !bind_assoc. by apply bind_Panic.
Qed.

Lemma user_trap : exists m, let s1 := set_mem m (set_irq false s) in
  running proc tf t1 t0' s1 /\ user_saved tf cause h s m /\
  forall s2 tf2 t12 t02, handle_sync_trap stale s1 = Ret TRAP_HANDLED s2 -> frame_mapped tf2 t12 t02 s2 -> exists h',
    trap left_over stale stacks cause value h s = Ret h' (resume_bits (rd (mem s2) (tf2 + 272)) s2) /\ resumed tf2 (mem s2) h'.
Proof.
  destruct user_trap_both as (m & H1 & H2 & H3 & _). exists m. split; [done|]. split; [done|].
  intros s2 tf2 t12 t02 E Hf. by apply (H3 TRAP_HANDLED s2 s2 tf2 t12 t02).
Qed.
End UserTrap.

(** *** The timer interrupt *)

(** A process in user mode that a timer interrupt may stop. *)
Record preemptible (proc tf t1 t0 : Z) (s : kstate) : Prop := {
  pe_running : running proc tf t1 t0 s;
  pe_attached : attached s;
  pe_sched : sched_inv s;
  pe_ring : ring_apart proc tf t1 t0 s;
  pe_ring_frame : ring_free s tf 4096;
  pe_ring_proc : ring_free s proc sizeof_process;
  pe_room : Z.of_nat (length (queue_of s)) < 512;
  pe_normal : rd_field 4 (mem s) (proc + 104) = process_type_code PROC_TYPE_NORMAL;
  pe_runnable : rd (mem s) (proc + 8) = 0;
  pe_timer : sbi_set_timer (sbi s) (clock s ⊕ 40000) = 0;
}.

(** What [s'] shares with [s] as far as another interrupt is concerned. *)
Record alike (proc tf : Z) (s s' : kstate) : Prop := {
  al_satp : satp s' = satp s;
  al_io : io s' = io s;
  al_symbols : symbols s' = symbols s;
  al_sbi : sbi s' = sbi s;
  al_clock : clock s' = clock s;
  al_vma : vma s' = vma s;
  al_ring : process_queue (scheduler s') = process_queue (scheduler s);
  al_mem a : a <> proc + 16 -> a < tf \/ tf + 280 <= a -> ring_free s a 8 -> a mod 8 = 0 -> rd (mem s') a = rd (mem s) a;
}.

Lemma process_words proc tf t1 t0' s : preemptible proc tf t1 t0' s -> forall k, 0 <= k < 192 -> k mod 8 = 0 ->
  (proc + k < tf \/ tf + 280 <= proc + k) /\ ring_free s (proc + k) 8 /\ (proc + k) mod 8 = 0.
Proof.
  intros Hp k Hk Hm. pose proof (rn_apart _ _ _ _ _ (pe_running _ _ _ _ _ Hp)) as Hap.
  pose proof (pe_ring_proc _ _ _ _ _ Hp) as Hrp. unfold ring_free, sizeof_process in *.
  destruct (rn_proc _ _ _ _ _ (pe_running _ _ _ _ _ Hp)) as (_ & _ & H8).
  split; [lia|]. split; [clear -Hk Hm Hrp; dlia|]. clear -H8 Hm. dlia.
Qed.

Lemma preemptible_alike proc tf t1 t0' s s' :
  alike proc tf s s' -> preemptible proc tf t1 t0' s -> running proc tf t1 t0' s' -> sched_inv s' ->
  Z.of_nat (length (queue_of s')) < 512 -> preemptible proc tf t1 t0' s'.
Proof.
  intros [Es Eio Esy Esb Ec _ Er Em] Hp Hr' Hi' Hroom. pose proof (process_words _ _ _ _ _ Hp) as Hw.
  destruct Hp as [Hr Ha Hi [Hring1 Hring2] Hrf Hrp _ Hty Hbw Htm].
  assert (satp_root s' = satp_root s) as Eroot by (unfold satp_root; by rewrite Es).
  split; try done; unfold attached, ring_apart, ring_free, on_path in *; rewrite ?Eio, ?Esy, ?Esb, ?Ec, ?Er, ?Eroot; try done.
  - rewrite <- Hty. apply rd_type; [by destruct (rn_proc _ _ _ _ _ Hr) as (_ & _ & ?)|].
    destruct (Hw 104 ltac:(lia) eq_refl) as (H1 & H2 & H3). apply Em; [lia|done..].
  - destruct (Hw 8 ltac:(lia) eq_refl) as (H1 & H2 & H3). rewrite Em; [done|lia|done..].
Qed.

(** With the registers stored, the interrupt is the one of file Preempt. *)
Lemma ticking_saved proc tf t1 t0' h s m :
  preemptible proc tf t1 t0' s -> user_saved tf timer_cause h s m ->
  let s1 := set_mem m (set_irq false s) in
  running proc tf t1 t0' s1 -> ticking proc tf t1 t0' s1 /\ queue_of s1 = queue_of s.
Proof.
  intros Hp [_ Hc Ho] s1 Hr1. pose proof (process_words _ _ _ _ _ Hp) as Hw.
  destruct Hp as [Hr Ha Hi Hring Hrf Hrp Hroom Hty Hbw Htm].
  assert (queue_of s1 = queue_of s) as Hq.
  { apply queue_of_same; [done..|]. intros a Hin _. apply Ho. unfold ring_free in Hrf. lia. }
  split; [|done]. split; try done.
  - by destruct Hi; split.
  - by rewrite Hq.
  - rewrite <- Hty. apply rd_type; [by destruct (rn_proc _ _ _ _ _ Hr) as (_ & _ & ?)|].
    destruct (Hw 104 ltac:(lia) eq_refl) as (H1 & _). by apply Ho.
  - destruct (Hw 8 ltac:(lia) eq_refl) as (H1 & _). change (mem s1) with m. by rewrite Ho.
Qed.

(** The words of a frame: not the trap state of a process beside it, not the ring. *)
Lemma frame_word_apart (tf ring p k : Z) :
  page_ok tf -> (p + 192 <= tf \/ tf + 4096 <= p) -> (tf + 4096 <= ring \/ ring + 4096 <= tf) ->
  0 <= k < 4096 -> k mod 8 = 0 ->
  (forall o, 0 <= o < 192 -> tf + k <> p + o) /\ (tf + k + 8 <= ring \/ ring + 4096 <= tf + k) /\ (tf + k) mod 8 = 0.
Proof.
  intros [_ Hm] Hp Hring Hk Hk8. assert (tf mod 8 = 0) as H8 by (clear -Hm; dlia).
  split; [intros o Ho; lia|]. split; [clear -Hk Hk8 Hring; dlia|]. clear -H8 Hk8. dlia.
Qed.

Lemma running_status v proc tf t1 t0' s : running proc tf t1 t0' s -> running proc tf t1 t0' (resume_bits v s).
Proof. by apply running_same. Qed.

Section Alone.
Context (left_over : gmap Z Z -> gmap Z Z) (stale stacks : Z).
Context (proc tf t1 t0' : Z) (s : kstate) (h : hart) (value : Z).
Hypothesis Hp : preemptible proc tf t1 t0' s.
Hypothesis Hq : queue_of s = [].
Hypothesis Hu : mode h = TRAP_MODE_USER.
Hypothesis Hpc : u64 (pc h).

Lemma tick_alone_invisible : exists h' s', trap left_over stale stacks timer_cause value h s = Ret h' s' /\
  same_user h h' /\ irq_on s' = irq_on s /\ sum_on s' = sum_on s /\ tx s' = tx s /\
  timers s' = timers s ++ [clock s ⊕ 40000] /\
  alike proc tf s s' /\ preemptible proc tf t1 t0' s' /\ queue_of s' = [].
Proof.
  destruct (user_trap left_over stale stacks proc tf t1 t0' s h timer_cause value (pe_running _ _ _ _ _ Hp) (pe_attached _ _ _ _ _ Hp) Hu)
    as (m & Hr1 & Hs & Hgo).
  destruct (ticking_saved _ _ _ _ _ _ _ Hp Hs Hr1) as [Hk Hq1]. rewrite Hq in Hq1. set (s1 := set_mem m (set_irq false s)) in *.
  destruct (tick_alone proc tf t1 t0' stale s1 Hk Hq1) as (m2 & c & st & s2 & -> & E & Hr2 & Hi2 & Hq2 & W).
  destruct (Hgo _ _ _ _ E (running_frame _ _ _ _ _ Hr2)) as (h' & E' & Hres). destruct Hs as [Hs _ Uo].
  assert (same_frame tf m m2) as Wf.
  { intros k Hk1 Hk2. destruct (frame_word_apart tf (process_queue (scheduler s)) proc k (fr_tf _ _ _ _ (rn_frame _ _ _ _ _ (pe_running _ _ _ _ _ Hp)))
      (rn_apart _ _ _ _ _ (pe_running _ _ _ _ _ Hp)) (pe_ring_frame _ _ _ _ _ Hp) ltac:(lia) Hk2) as (A1 & A2 & A3).
    apply W; [apply A1; lia|exact A2|exact A3]. }
  set (s2 := ticked m2 c st s1) in *. change (mem s2) with m2 in *. set (s' := resume_bits _ _) in E'.
  pose proof (user_frame_same _ _ _ _ _ Wf Hs) as Hs2. destruct (Hs2) as [_ _ _ Uie Usum].
  assert (alike proc tf s s') as Hal.
  { split; try done. intros a A1 A2 A3 A4. change (mem s') with m2. rewrite W by done. by apply Uo. }
  assert (queue_of s' = []) as Hq' by (rewrite <- Hq2; done).
  exists h', s'. split; [exact E'|]. split; [by apply (resumed_user tf h s m2)|]. split; [exact Uie|]. split; [exact Usum|].
  split; [reflexivity|]. split; [reflexivity|]. split; [exact Hal|]. split; [|exact Hq'].
  apply (preemptible_alike _ _ _ _ s s' Hal Hp (running_status _ _ _ _ _ _ Hr2)); [by destruct Hi2; split|by rewrite Hq'].
Qed.
End Alone.

(** *** The change of process *)

(** [q] waits while [proc] runs: it is ready to run on this hart with its
    own tables ([switchable]), under which its frame is mapped, and nothing of it lies
    in what the interrupt writes. *)
Record waiting (q tfq t1q t0q hart t a proc tf : Z) (s : kstate) : Prop := {
  wt_switch : switchable q hart t a s;
  wt_running : running q tfq t1q t0q (set_satp (satp_of t a) s);
  wt_procs : q + 192 <= proc \/ proc + 192 <= q;
  wt_frames : tfq + 4096 <= tf \/ tf + 4096 <= tfq;
  wt_proc_frame : proc + 192 <= tfq \/ tfq + 4096 <= proc;
  wt_frame_proc : q + 192 <= tf \/ tf + 4096 <= q;
  wt_ring_frame : ring_free s tfq 4096;
  wt_path b : on_path t1q t0q (set_satp (satp_of t a) s) b ->
    ring_free s b 8 /\ (b < proc \/ proc + 192 <= b) /\ (b < tf \/ tf + 4096 <= b);
}.

(** What the change from [proc] to [q] leaves as it was: all but the ring, the frame
    [tf] and three words of the two processes. *)
Record handed_over (proc tf q hart : Z) (s s' : kstate) : Prop := {
  ho_io : io s' = io s;
  ho_symbols : symbols s' = symbols s;
  ho_sbi : sbi s' = sbi s;
  ho_vma : vma s' = vma s;
  ho_ring : process_queue (scheduler s') = process_queue (scheduler s);
  ho_sched : sched_inv s';
  ho_hart : rd (mem s') (q + 160) = hart;
  ho_mem b : b <> proc + 16 -> b <> proc + 80 -> b <> q + 80 -> b <> q + 160 -> b < tf \/ tf + 280 <= b ->
    ring_free s b 8 -> b mod 8 = 0 -> rd (mem s') b = rd (mem s) b;
}.

Section Switch.
Context (left_over : gmap Z Z -> gmap Z Z) (hart stacks : Z).
Context (proc tf t1 t0' q tfq t1q t0q t a : Z) (rest : list Z) (s : kstate) (h : TrapEntry.hart) (value : Z).
Hypothesis Hp : preemptible proc tf t1 t0' s.
Hypothesis Hq : queue_of s = q :: rest.
Hypothesis Hw : waiting q tfq t1q t0q hart t a proc tf s.
Hypothesis Hu : mode h = TRAP_MODE_USER.

Lemma switchable_saved m : (forall b, b < tf \/ tf + 280 <= b -> rd m b = rd (mem s) b) ->
  switchable q hart t a (set_mem m (set_irq false s)).
Proof.
  intros Ho. destruct (wt_switch _ _ _ _ _ _ _ _ _ _ Hw) as [Hb Hr Hh [Ha Hra] [Ht Hpt] Hm].
  pose proof (wt_frame_proc _ _ _ _ _ _ _ _ _ _ Hw). cbn [mem set_mem].
  split; [done|done|rewrite Ho; [done|lia]|rewrite Ho; [done|lia]|rewrite Ho; [done|lia]|done].
Qed.

Lemma tick_switch_frames : exists h' s', trap left_over hart stacks timer_cause value h s = Ret h' s' /\
  resumed tfq (mem s) h' /\ irq_on s' = Z.testbit (rd (mem s) (tfq + 272)) SPIE /\
  sum_on s' = Z.testbit (rd (mem s) (tfq + 272)) SUM /\
  queue_of s' = rest ++ [proc] /\ satp s' = satp_of t a /\ running q tfq t1q t0q s' /\ user_frame tf h s (mem s') /\
  byte (mem s') (q + 82) = 1 /\ byte (mem s') (proc + 82) = 0 /\ timers s' = timers s ++ [clock s ⊕ 40000] /\
  handed_over proc tf q hart s s'.
Proof.
  destruct (user_trap left_over hart stacks proc tf t1 t0' s h timer_cause value (pe_running _ _ _ _ _ Hp) (pe_attached _ _ _ _ _ Hp) Hu)
    as (m & Hr1 & Hs & Hgo).
  destruct (ticking_saved _ _ _ _ _ _ _ Hp Hs Hr1) as [Hk Hq1]. rewrite Hq in Hq1. destruct Hs as [Hs _ Uo].
  pose proof (switchable_saved m Uo) as Hsw. set (s1 := set_mem m (set_irq false s)) in *.
  destruct (tick_switch proc q rest tf t1 t0' hart t a s1 Hk Hq1 Hsw (wt_procs _ _ _ _ _ _ _ _ _ _ Hw))
    as (m2 & c & st & s2 & -> & E & Hi2 & Hq2 & By1 & By2 & Hh2 & W).
  pose proof (pe_running _ _ _ _ _ Hp) as Hr. pose proof (rn_proc _ _ _ _ _ Hr) as Hpb. pose proof (rn_apart _ _ _ _ _ Hr) as Hpf.
  destruct Hw as [_ Hrq Hpq Hff Hpfq Hqf Hrf Hpath]. pose proof (rn_apart _ _ _ _ _ Hrq) as Hqfq. pose proof (rn_frame _ _ _ _ _ Hrq) as Hfq.
  assert (same_frame tf m m2) as Wp.
  { intros k K1 K2. destruct (frame_word_apart tf (process_queue (scheduler s)) proc k (fr_tf _ _ _ _ (rn_frame _ _ _ _ _ Hr))
      Hpf (pe_ring_frame _ _ _ _ _ Hp) ltac:(lia) K2) as (A1 & A2 & A3).
    apply W; [apply A1; lia|apply A1; lia|lia|lia|exact A2|exact A3]. }
  assert (forall k, 0 <= k < 4096 -> k mod 8 = 0 -> rd m2 (tfq + k) = rd (mem s) (tfq + k)) as Wq.
  { intros k K1 K2. destruct (frame_word_apart tfq (process_queue (scheduler s)) proc k (fr_tf _ _ _ _ Hfq) Hpfq Hrf ltac:(lia) K2) as (A1 & A2 & A3).
    rewrite W; [apply Uo; lia|apply A1; lia|apply A1; lia|lia|lia|exact A2|exact A3]. }
  set (s2 := tick_switched m2 (satp_of t a) c st s1) in *.
  assert (running q tfq t1q t0q s2) as Hrq2.
  { apply (running_words _ _ _ _ (set_satp (satp_of t a) s)); [done| |exact Hrq]. intros b [Hb| ->]; [|by apply Wq].
    pose proof (on_path_aligned _ _ _ _ _ Hfq Hb) as H8. pose proof (rn_path_proc _ _ _ _ _ Hrq b Hb). destruct (Hpath b Hb) as (B1 & B2 & B3).
    change (rd m2 b = rd (mem s) b). rewrite W; [apply Uo; lia|lia|lia|lia|lia|exact B1|exact H8]. }
  destruct (Hgo _ _ _ _ E (running_frame _ _ _ _ _ Hrq2)) as (h' & E' & Hres). change (mem s2) with m2 in *.
  rewrite Wq in E' by (lia || done). set (s' := resume_bits _ _) in E'.
  exists h', s'. split; [exact E'|]. split; [apply (resumed_same _ _ m2); [|done]; intros k K1 K2; apply Wq; [lia|done]|].
  split; [reflexivity|]. split; [reflexivity|]. split; [rewrite <- Hq2; done|]. split; [reflexivity|].
  split; [by apply running_status|]. split; [by apply (user_frame_same _ _ _ m)|]. split; [exact By1|].
  split; [exact By2|]. split; [done|]. split; [done..|by destruct Hi2; split|exact Hh2|].
  intros b B1 B2 B3 B4 B5 B6 B7. change (mem s') with m2. rewrite W by done. by apply Uo.
Qed.
End Switch.

(** *** Console calls *)

Section Call.
Context (left_over : gmap Z Z -> gmap Z Z) (stale stacks : Z).
Context (proc tf t1 t0' : Z) (s : kstate) (h : hart) (value : Z).
Hypothesis Hr : running proc tf t1 t0' s.
Hypothesis Ha : attached s.
Hypothesis Hu : mode h = TRAP_MODE_USER.
Hypothesis Hpc : u64 (pc h).
Hypothesis Hcall : reg h a0 = SYSCALL_UART_PRINT.
Hypothesis Harg : reg h a1 = 0 \/ reg h a1 = 1.

(** [ecall] in user mode is exception 8. *)
Lemma uart_call_returns : exists h' m,
  let s' := sent (sync_uart_bytes (reg h a1) (reg h a2)) (set_mem m s) in
  trap left_over stale stacks 8 value h s = Ret h' s' /\ same_user (set_pc (pc h ⊕ 4) h) h' /\
  running proc tf t1 t0' s' /\
  (forall a, a <> proc + 16 -> a < tf \/ tf + 280 <= a -> rd m a = rd (mem s) a).
Proof.
  destruct (user_trap left_over stale stacks proc tf t1 t0' s h 8 value Hr Ha Hu) as (m & Hr1 & [Hs Hc Uo] & Hgo).
  set (s1 := set_mem m (set_irq false s)) in *.
  assert (rd m (tf + 72) = reg h a0 /\ rd m (tf + 80) = reg h a1 /\ rd m (tf + 88) = reg h a2) as (E0 & E1 & E2)
    by (split_and!; by rewrite <- (uf_regs _ _ _ _ Hs) by (unfold a0, a1, a2; lia)).
  destruct (uart_string_call_lost proc tf t1 t0' stale s1 Hr1) as (m2 & E & Hr2 & H72 & H256 & _ & W);
    [exact Hc|change (rd m (tf + 72) = SYSCALL_UART_PRINT); by rewrite E0|change (rd m (tf + 80) = 0 \/ rd m (tf + 80) = 1); by rewrite E1|].
  change (mem s1) with m in *. rewrite E1, E2 in E, Hr2. rewrite (uf_pc _ _ _ _ Hs), (wrap64_small (pc h)) in H256 by done.
  set (s2 := sent _ _) in *. destruct (Hgo _ _ _ _ E (running_frame _ _ _ _ _ Hr2)) as (h' & E' & [Rr Rp Rm]).
  pose proof (rn_apart _ _ _ _ _ Hr) as Hap. destruct Hs as [R P A B C].
  change (mem s2) with m2 in *. rewrite (W (tf + 272)) in E', Rm by lia. unfold resume_bits in E'. rewrite B, C in E'. rewrite A in Rm.
  exists h', m2. split; [|split; [|split]].
  - rewrite E'. unfold s2, s1, sent. by destruct s.
  - split; [|by rewrite Rp, H256|done]. intros n Hn. rewrite Rr by done. change (reg (set_pc _ h) n) with (reg h n). unfold frame_reg.
    destruct (Z.eq_dec n a0) as [->|Hne].
    + rewrite Hcall. exact H72.
    + unfold a0 in Hne. rewrite W; [by apply R|unfold tf_offset; lia..].
  - unfold s2 in Hr2. revert Hr2. by apply running_same.
  - intros a A1 A2. rewrite W by lia. by apply Uo.
Qed.
End Call.

(** C19: a timer interrupt does not show in the process it stops.  When no other
    process waits, [trap_change_process] queues the process and takes it again,
    where the notes of the repository say that the scheduler does not pick the
    only process again, and the hart comes out of [trap_entry] in user mode at the
    instruction it was stopped at, with all 31 registers and the interrupt and SUM
    bits of sstatus as they were, whatever the compiled C code leaves in the
    registers; nothing is printed, the next interrupt is set, and the state is again
    one an interrupt may stop. *)
Theorem timer_tick_invisible left_over stale stacks proc tf t1 t0' s h value :
  preemptible proc tf t1 t0' s -> queue_of s = [] -> mode h = TRAP_MODE_USER -> u64 (pc h) ->
  exists h' s', trap left_over stale stacks timer_cause value h s = Ret h' s' /\
    same_user h h' /\ irq_on s' = irq_on s /\ sum_on s' = sum_on s /\ tx s' = tx s /\
    timers s' = timers s ++ [clock s ⊕ 40000] /\ preemptible proc tf t1 t0' s' /\ queue_of s' = [].
Proof.
  intros Hp Hq Hu Hpc.
  destruct (tick_alone_invisible left_over stale stacks proc tf t1 t0' s h value Hp Hq Hu Hpc)
    as (h' & s' & E & H1 & H2 & H3 & H4 & H5 & _ & H6 & H7).
  exists h', s'. by split_and!.
Qed.

(** C8: a process that is preempted goes on later as if nothing had happened.
    A timer interrupt while [q] waits gives the hart the registers, the
    instruction and the mode of [q]'s frame, on [q]'s tables, with [proc] last
    of the queue, [q] marked as running and [proc] not, and the next interrupt 4 ms
    ahead.  From then on, whenever another interrupt stops whatever process
    [r] then runs, finds [proc] first in the queue and its frame untouched, the hart
    goes on in [proc]: all 31 registers, the instruction, user mode and the
    interrupt and SUM bits are those of the moment it was stopped.  This is for a
    hart with address-space identifiers, processes that have one, and, as the
    hart number the handler goes by is a local that nothing sets ([stale] in
    [trapframe_parse]), for the case that what it holds is the hart each of the
    processes ran on last; with another number [context_change_process] would map
    the stacks of that hart. *)
Theorem preempted_process_resumes left_over stacks proc tf t1 t0' q tfq t1q t0q hart t a rest s h value :
  preemptible proc tf t1 t0' s -> queue_of s = q :: rest -> waiting q tfq t1q t0q hart t a proc tf s ->
  mode h = TRAP_MODE_USER -> u64 (pc h) ->
  exists h1 s1, trap left_over hart stacks timer_cause value h s = Ret h1 s1 /\
    resumed tfq (mem s) h1 /\ queue_of s1 = rest ++ [proc] /\ satp s1 = satp_of t a /\
    byte (mem s1) (q + 82) = 1 /\ byte (mem s1) (proc + 82) = 0 /\ timers s1 = timers s ++ [clock s ⊕ 40000] /\
    forall r tfr t1r t0r tp ap rest2 s2 h2 value2,
      preemptible r tfr t1r t0r s2 -> queue_of s2 = proc :: rest2 ->
      waiting proc tf t1 t0' hart tp ap r tfr s2 -> mode h2 = TRAP_MODE_USER -> same_frame tf (mem s1) (mem s2) ->
      exists h3 s3, trap left_over hart stacks timer_cause value2 h2 s2 = Ret h3 s3 /\
        same_user h h3 /\ irq_on s3 = irq_on s /\ sum_on s3 = sum_on s /\ satp s3 = satp_of tp ap.
Proof.
  intros Hp Hq Hw Hu Hpc.
  destruct (tick_switch_frames left_over hart stacks proc tf t1 t0' q tfq t1q t0q t a rest s h value Hp Hq Hw Hu)
    as (h1 & s1 & E1 & R1 & _ & _ & Q1 & S1 & _ & F1 & B1 & B2 & T1 & _).
  exists h1, s1. do 7 (split; [done|]).
  intros r tfr t1r t0r tp ap rest2 s2 h2 value2 Hp2 Hq2 Hw2 Hu2 Hsame.
  destruct (tick_switch_frames left_over hart stacks r tfr t1r t0r proc tf t1 t0' tp ap rest2 s2 h2 value2 Hp2 Hq2 Hw2 Hu2)
    as (h3 & s3 & E3 & R3 & I3 & U3 & _ & S3 & _).
  pose proof (user_frame_same _ _ _ _ _ Hsame F1) as F2. exists h3, s3. split; [done|].
  split; [by apply (resumed_user tf h s (mem s2))|]. destruct F2 as [_ _ _ H1 H2]. by rewrite I3, U3, H1, H2.
Qed.

(** ** Traps before [attach_trap_handler] *)

Lemma boot_virt perm a s : boot_tables (satp_root s) (mem s) -> KERNEL_VMA_START <= a < 18446744073709551616 ->
  Z.land 0xEF perm <> 0 -> virt perm a s = Ret a s.
Proof.
  intros Hb Ha Hp. pose proof Ha as [H1 H2]. unfold KERNEL_VMA_START in H1.
  destruct (boot_walk _ _ (a - KERNEL_VMA_START) Hb) as [_ Hw]; [unfold KERNEL_VMA_START; lia|].
  rewrite Z.sub_add in Hw. unfold virt, translate.
  assert (canonicalb a = true) as -> by (unfold canonicalb, KERNEL_VMA_START; apply orb_true_iff; right; apply andb_true_iff; lia).
  rewrite Hw. cbn [negb]. rewrite (proj2 (Z.eqb_neq _ _) Hp). change (Z.land 0xEF VMA_USER =? 0) with true.
  rewrite orb_true_r. cbn. by rewrite Z.sub_add.
Qed.

(** The tables are none of the words written. *)
Lemma boot_tables_wr root m a v : boot_tables root m -> a < root \/ root + 4096 <= a -> boot_tables root (wr m a v).
Proof. intros Hb Ha i Hi. destruct (Hb i Hi) as [H1 H2]. by rewrite !rd_wr_ne by lia. Qed.

(** What a trap before the kernel runs is called, by the whole of scause. *)
Definition unsafe_names : list (Z * string) := [
  (0x8000000000000001, "PRE_BOOT_TRAP_SUPERVISOR_SOFTWARE_INTERRUPT");
  (0x8000000000000005, "PRE_BOOT_TRAP_SUPERVISOR_TIMER_INTERRUPT");
  (0x8000000000000009, "PRE_BOOT_TRAP_SUPERVISOR_EXTERNAL_INTERRUPT");
  (0x8000000000000003, "PRE_BOOT_TRAP_MACHINE_SOFTWARE_INTERRUPT");
  (0x8000000000000007, "PRE_BOOT_TRAP_MACHINE_TIMER_INTERRUPT");
  (0x800000000000000B, "PRE_BOOT_TRAP_MACHINE_EXTERNAL_INTERRUPT");
  (0x800000000000000D, "PRE_BOOT_TRAP_COUNTER_OVERFLOW");
  (0, "PRE_BOOT_TRAP_INSTRUCTION_ADDRESS_MISALIGNED");
  (4, "PRE_BOOT_TRAP_LOAD_ADDRESS_MISALIGNED_FAULT");
  (6, "PRE_BOOT_TRAP_STORE_MISALIGNED_FAULT");
  (1, "PRE_BOOT_TRAP_INSTRUCTION_ACCESS_FAULT");
  (5, "PRE_BOOT_TRAP_LOAD_ACCESS_FAULT");
  (7, "PRE_BOOT_TRAP_STORE_ACCESS_FAULT");
  (12, "PRE_BOOT_TRAP_INSTRUCTION_PAGE_FAULT");
  (13, "PRE_BOOT_TRAP_LOAD_PAGE_FAULT");
  (15, "PRE_BOOT_TRAP_STORE_PAGE_FAULT");
  (2, "PRE_BOOT_TRAP_INSTRUCTION_INVALID");
  (3, "PRE_BOOT_TRAP_BREAKPOINT");
  (8, "PRE_BOOT_TRAP_USER_ENVIRONMENT_CALL");
  (9, "PRE_BOOT_TRAP_SUPERVISOR_ENVIRONMENT_CALL");
  (11, "PRE_BOOT_TRAP_MACHINE_ENVIRONMENT_CALL");
  (16, "PRE_BOOT_TRAP_DOUBLE_TRAP");
  (18, "PRE_BOOT_TRAP_SOFTWARE_CHECK");
  (19, "PRE_BOOT_TRAP_HARDWARE_ERROR")
].

Definition unsafe_message (cause : Z) : string :=
  default (if 0x8000000000000000 <=? cause then "PRE_BOOT_TRAP_INTERRUPT_UNHANDED" else "PRE_BOOT_TRAP_EXCEPTION_UNHANDED")
    (entry_of unsafe_names cause).

Lemma unsafe_large n : 20 <= n ->
  unsafe_interrupt_message n = "PRE_BOOT_TRAP_INTERRUPT_UNHANDED" /\ unsafe_exception_message n = "PRE_BOOT_TRAP_EXCEPTION_UNHANDED".
Proof. intros H. destruct n as [|p|p]; [lia| |lia]. do 5 (destruct p as [p|p|]; try lia); split; reflexivity. Qed.

(** The code's own tables say the same. *)
Lemma unsafe_message_eq cause : u64 cause ->
  (if Z.testbit cause 63 then unsafe_interrupt_message (cause mod 9223372036854775808)
   else unsafe_exception_message (cause mod 9223372036854775808)) = unsafe_message cause.
Proof.
  intros Hu. destruct (cause_cases cause Hu) as [H|[H|(H1 & H2 & H3)]]; [each_cause H|each_cause H|].
  destruct (unsafe_large _ H1) as [-> ->]. rewrite (testbit_63 cause Hu). unfold unsafe_message.
  rewrite entry_of_none; [done|]. unfold unsafe_names. cbn [fmap list_fmap fst]. repeat constructor; lia.
Qed.

(** Space for [raw_trap_info] at the stack top, apart from the table. *)
Record trap_space (stack_top : Z) (s : kstate) : Prop := {
  ts_tables : boot_tables (satp_root s) (mem s);
  ts_block : kblock stack_top 32;
  ts_top : stack_top + 32 < 18446744073709551616;
  ts_apart : stack_top + 32 <= satp_root s \/ satp_root s + 4096 <= stack_top;
}.

Lemma trap_space_wr stack_top s k v : trap_space stack_top s -> 0 <= k < 32 ->
  trap_space stack_top (set_mem (wr (mem s) (stack_top + k) v) s).
Proof.
  intros [Hb H1 H2 Hap] Hk. split; [|done..]. change (satp_root (set_mem _ s)) with (satp_root s).
  apply boot_tables_wr; [done|lia].
Qed.

Lemma trap_space_word stack_top s k : trap_space stack_top s -> 0 <= k < 32 -> k mod 8 = 0 ->
  stack_top ⊕ k = stack_top + k /\ KERNEL_VMA_START <= stack_top + k < 18446744073709551616 /\ valid64 (stack_top + k).
Proof.
  intros [_ (K1 & K2 & K3) Htop _] Hk Hm. assert ((stack_top + k) mod 8 = 0) as H8 by (clear -K3 Hm; dlia).
  unfold KERNEL_VMA_START, valid64, access_ok, kernel_mapped in *. split; [apply wrap64_small; lia|]. split; [lia|].
  apply andb_true_iff. split; [apply andb_true_iff; unfold KERNEL_VMA_START; lia|by apply Z.eqb_eq].
Qed.

Lemma exec_sd_stack stack_top rs k h s : trap_space stack_top s -> reg h sp = stack_top -> 0 <= k < 32 -> k mod 8 = 0 ->
  exec (Sd rs k sp) h s = Ret h (set_mem (wr (mem s) (stack_top + k) (reg h rs)) s).
Proof.
  intros Hsp Er Hk Hm. destruct (trap_space_word _ _ _ Hsp Hk Hm) as (E & Hr & Hv). cbn [exec]. rewrite Er, E. unfold store_virt.
  rewrite bind_assoc, (bind_Ret _ _ _ _ _ (boot_virt VMA_WRITE (stack_top + k) s (ts_tables _ _ Hsp) Hr ltac:(done))).
  by rewrite (bind_Ret _ _ _ _ _ (store64_eq _ _ _ Hv)).
Qed.

Lemma raw_trap_stored stack_top h s :
  trap_space stack_top s -> u64 (scause h) -> u64 (sepc h) -> u64 (stval h) ->
  exists h' m, run (store_raw_trap stack_top) h s = Ret h' (set_mem m s) /\ reg h' a0 = stack_top /\
    rd m stack_top = scause h /\ rd m (stack_top + 8) = sepc h /\ rd m (stack_top + 16) = stval h.
Proof.
  intros Hsp Uc Up Uv. pose proof (ts_block _ _ Hsp) as (K1 & _ & _). pose proof (ts_top _ _ Hsp) as K2. unfold KERNEL_VMA_START in K1.
  unfold store_raw_trap. do 5 reg_step. set (h1 := set_reg a3 _ _).
  assert (reg h1 sp = stack_top /\ reg h1 a0 = scause h /\ reg h1 a1 = sepc h /\ reg h1 a2 = stval h) as (Rs & R0 & R1 & R2)
    by (unfold h1; split_and!; reg_eval; apply wrap64_small; (done || lia)).
  rewrite (run_cons _ _ _ _ _ _ (exec_sd_stack stack_top a0 0 h1 s Hsp Rs ltac:(lia) eq_refl)).
  pose proof (trap_space_wr _ _ 0 (reg h1 a0) Hsp ltac:(lia)) as Hsp0.
  rewrite (run_cons _ _ _ _ _ _ (exec_sd_stack stack_top a1 8 h1 _ Hsp0 Rs ltac:(lia) eq_refl)).
  pose proof (trap_space_wr _ _ 8 (reg h1 a1) Hsp0 ltac:(lia)) as Hsp1.
  rewrite (run_cons _ _ _ _ _ _ (exec_sd_stack stack_top a2 16 h1 _ Hsp1 Rs ltac:(lia) eq_refl)).
  pose proof (trap_space_wr _ _ 16 (reg h1 a2) Hsp1 ltac:(lia)) as Hsp2.
  rewrite (run_cons _ _ _ _ _ _ (exec_sd_stack stack_top a3 24 h1 _ Hsp2 Rs ltac:(lia) eq_refl)).
  do 2 reg_step. set (h2 := set_reg sp _ _). cbn [mem set_mem]. rewrite R0, R1, R2, Z.add_0_r.
  eexists h2, _. split; [reflexivity|]. split.
  { unfold h2. reg_eval. rewrite Rs, Z.add_0_r, wrap64_idem. apply wrap64_small. lia. }
  split_and!; rewrite ?rd_wr_ne by lia; rewrite rd_wr_eq; by apply wrap64_small.
Qed.

(** C30: a trap before the kernel is set up ends in a panic that names it.
    On the tables of the start-up code, [unsafe_trap_entry] stores scause, sepc, stval and
    sstatus above the stack top as the struct [handle_unsafe_trap] reads: the panic carries the
    code of the cause, the faulting address and the instruction. *)
Theorem unsafe_trap_reports left_over stack_top h s :
  trap_space stack_top s -> u64 (scause h) -> u64 (sepc h) -> u64 (stval h) ->
  unsafe_trap_entry left_over stack_top h s =
    Panic (unsafe_message (scause h)) (scause h mod 9223372036854775808) (stval h) (sepc h).
Proof.
  intros Hsp Uc Up Uv. destruct (raw_trap_stored stack_top h s Hsp Uc Up Uv) as (h' & m & E & Ra & V0 & V1 & V2).
  unfold unsafe_trap_entry. rewrite (bind_Ret _ _ _ _ _ E), Ra. set (s' := set_mem m s).
  assert (forall k, 0 <= k < 32 -> k mod 8 = 0 -> load64 (stack_top ⊕ k) s' = Ret (rd m (stack_top + k)) s') as Hload.
  { intros k Hk Hm. destruct (trap_space_word _ _ _ Hsp Hk Hm) as (-> & _ & Hv). by apply load64_eq. }
  pose proof (Hload 0 ltac:(lia) eq_refl) as L0. pose proof (ts_block _ _ Hsp) as (K1 & _ & _). pose proof (ts_top _ _ Hsp) as K2.
  unfold KERNEL_VMA_START in K1. rewrite Z.add_0_r, V0, (wrap64_small stack_top) in L0 by lia.
  pose proof (Hload 8 ltac:(lia) eq_refl) as L1. rewrite V1 in L1. pose proof (Hload 16 ltac:(lia) eq_refl) as L2. rewrite V2 in L2.
  unfold call_void. apply bind_Panic. unfold handle_unsafe_trap, raw_scause, raw_stval, raw_sepc.
  rewrite (bind_Ret _ _ _ _ _ L0). cbv zeta. rewrite (bind_Ret _ _ _ _ _ L2), (bind_Ret _ _ _ _ _ L1), <- (unsafe_message_eq _ Uc). unfold PANIC.
  change 9223372036854775807 with (Z.ones 63). rewrite Z.land_ones by lia. change (2 ^ 63) with 9223372036854775808.
  destruct (Z.testbit (scause h) 63) eqn:Eb.
  - rewrite (proj2 (Z.eqb_neq _ _)); [done|]. intros H. apply land_BIT_zero in H; [by rewrite H in Eb|lia].
  - apply land_BIT_zero in Eb; [|lia]. by rewrite Eb.
Qed.

(** ** Witnesses: the processes of the files Traps and Preempt, in user mode *)

Definition with_entry (entry : Z) (s : kstate) : kstate :=
  mkState (mem s) (irq_on s) (sum_on s) (satp s) (tx s) (clock s) (timers s) (endian_type s) (pager s)
    (allocator s) (scheduler s) (vma s) (devices s) (hart_stacks_list s) (root_dentry_folder s)
    (mkSymbols 0 0 0 0 0 0 1 2 3 4 entry) (locals s) (literals s) (sbi s)
    (mkIO 0 [] (fun _ _ => 0) 0 entry []).

Definition demo_entry : Z := demo_root + 0x200000.

(** Register [n] holds 100 [n]; the C functions leave nothing in the registers. *)
Definition demo_hart : hart :=
  mkHart (list_to_map ((fun n => (n, 100 * n)) <$> upto 1 32)) 0x1008 TRAP_MODE_USER 0 0 0 0 0.
Definition no_regs (x : gmap Z Z) : gmap Z Z := ∅.

Definition demo_lone : kstate := with_entry demo_entry (demo_trap 0).

Lemma demo_lone_preemptible : preemptible demo_task demo_tf demo_t1 demo_t0 demo_lone.
Proof.
  split; [|reflexivity| | |left; zdone|left; zdone|by vm_compute|by vm_compute|by vm_compute|by vm_compute].
  - apply (running_same _ _ _ _ (demo_trap 0)); [done|done|apply demo_running].
  - split; [unfold kblock; zdone|done|zdone|zdone].
  - split; [|left; zdone]. intros a [->|[->| ->]]; left; zdone.
Qed.

Lemma timer_tick_invisible_witness :
  exists h' s', trap no_regs 0 0 timer_cause 0 demo_hart demo_lone = Ret h' s' /\ reg h' 31 = 3100 /\ pc h' = 0x1008 /\
    timers s' = [40000].
Proof.
  destruct (timer_tick_invisible no_regs 0 0 demo_task demo_tf demo_t1 demo_t0 demo_lone demo_hart 0 demo_lone_preemptible
    ltac:(by vm_compute) eq_refl ltac:(unfold u64; zdone)) as (h' & s' & E & [R P _] & _ & _ & _ & T & _).
  exists h', s'. split; [exact E|]. split; [|split; [exact P|exact T]].
  rewrite (R 31 ltac:(zdone)). vm_compute. reflexivity.
Defined.

(** [demo_other] waits with its own tables and frame; [demo_task] has the tables at
    [demo_root] and identifier 5. *)
Definition other_t1 : Z := demo_tables + 4096.
Definition other_t0 : Z := demo_tables + 8192.
Definition other_tf : Z := demo_tables + 12288.

Definition demo_pair : kstate :=
  with_entry demo_entry (set_vma (mkVma 100 9) (set_scheduler (mkScheduler demo_ring 512 1 0 0) (set_mem
    (wr (wr (wr (wr (wr (wr (wr (wr (wr (wr (wr (mem (demo_trap 0)) demo_ring demo_other) (demo_other + 48) demo_tables) (demo_other + 56) 7)
      (demo_task + 48) demo_root) (demo_task + 56) 5)
      (demo_tables + 8 * 511) (create_branch other_t1)) (other_t1 + 8 * 511) (create_branch other_t0))
      (other_t0 + 8 * 510) (pte 0x80009 199)) (other_tf + 280) demo_other) (other_tf + 256) 0x2000) (other_tf + 8) 77)
    (demo_trap 0)))).

Lemma demo_pair_root : satp_root demo_pair = demo_root /\ satp_root (set_satp (satp_of demo_tables 7) demo_pair) = demo_tables.
Proof. split; by vm_compute. Qed.

Lemma demo_pair_task : preemptible demo_task demo_tf demo_t1 demo_t0 demo_pair.
Proof.
  destruct demo_pair_root as [Er _].
  split; [|reflexivity| | |left; zdone|left; zdone|by vm_compute|by vm_compute|by vm_compute|by vm_compute].
  - split; [split; rewrite ?Er; try (unfold page_ok; zdone); by vm_compute|unfold kblock; zdone|by vm_compute|right; zdone| |];
      unfold on_path; rewrite Er; clear Er; intros a [->|[->| ->]]; zdone.
  - split; [unfold kblock; zdone|done|zdone|zdone].
  - split; [|left; zdone]. unfold on_path. rewrite Er; clear Er. intros a [->|[->| ->]]; left; zdone.
Qed.

Lemma demo_pair_other : waiting demo_other other_tf other_t1 other_t0 0 demo_tables 7 demo_task demo_tf demo_pair.
Proof.
  destruct demo_pair_root as [_ Er].
  split; [| |zdone|zdone|zdone|zdone|right; zdone|].
  - split; [unfold kblock; zdone|left; zdone|by vm_compute|split; [by vm_compute|zdone]|split; [by vm_compute|unfold page_ok; zdone]|zdone].
  - split; [split; rewrite ?Er; try (unfold page_ok; zdone); by vm_compute|unfold kblock; zdone|by vm_compute|zdone| |];
      unfold on_path; rewrite Er; clear Er; intros a [->|[->| ->]]; zdone.
  - unfold on_path, ring_free. rewrite Er; clear Er. intros b [->|[->| ->]]; zdone.
Qed.

(** After the first interrupt, when it returns; then [demo_other] is stopped at once. *)
Definition demo_second : kstate :=
  match trap no_regs 0 0 timer_cause 0 demo_hart demo_pair with Ret _ s => s | _ => demo_pair end.

Lemma demo_second_root : satp_root demo_second = demo_tables /\ satp_root (set_satp (satp_of demo_root 5) demo_second) = demo_root.
Proof. split; by vm_compute. Qed.

Lemma demo_second_other : preemptible demo_other other_tf other_t1 other_t0 demo_second.
Proof.
  destruct demo_second_root as [Er _].
  split; [|by vm_compute| | |right; zdone|left; zdone|by vm_compute|by vm_compute|by vm_compute|by vm_compute].
  - split; [split; rewrite ?Er; try (unfold page_ok; zdone); by vm_compute|unfold kblock; zdone|by vm_compute|zdone| |];
      unfold on_path; rewrite Er; clear Er; intros a [->|[->| ->]]; zdone.
  - split; [unfold kblock; zdone|by vm_compute|zdone|zdone].
  - split; [|right; zdone]. unfold on_path. rewrite Er; clear Er. intros a [->|[->| ->]]; right; zdone.
Qed.

Lemma demo_second_task : waiting demo_task demo_tf demo_t1 demo_t0 0 demo_root 5 demo_other other_tf demo_second.
Proof.
  destruct demo_second_root as [_ Er].
  split; [| |zdone|zdone|zdone|zdone|left; zdone|].
  - split; [unfold kblock; zdone|left; zdone|by vm_compute|split; [by vm_compute|zdone]|split; [by vm_compute|unfold page_ok; zdone]|zdone].
  - split; [split; rewrite ?Er; try (unfold page_ok; zdone); by vm_compute|unfold kblock; zdone|by vm_compute|zdone| |];
      unfold on_path; rewrite Er; clear Er; intros a [->|[->| ->]]; zdone.
  - unfold on_path, ring_free. rewrite Er; clear Er. intros b [->|[->| ->]]; zdone.
Qed.

Lemma preempted_process_resumes_witness :
  exists h1 s1 h3 s3, trap no_regs 0 0 timer_cause 0 demo_hart demo_pair = Ret h1 s1 /\ reg h1 2 = 77 /\ pc h1 = 0x2000 /\
    trap no_regs 0 0 timer_cause 0 h1 s1 = Ret h3 s3 /\ reg h3 31 = 3100 /\ pc h3 = 0x1008.
Proof.
  destruct (preempted_process_resumes no_regs 0 demo_task demo_tf demo_t1 demo_t0 demo_other other_tf other_t1 other_t0 0
    demo_tables 7 [] demo_pair demo_hart 0 demo_pair_task ltac:(by vm_compute) demo_pair_other eq_refl ltac:(unfold u64; zdone))
    as (h1 & s1 & E & [R1 P1 M1] & Q1 & _ & _ & _ & _ & Hnext).
  assert (s1 = demo_second) as Es by (unfold demo_second; rewrite E; reflexivity).
  assert (mode h1 = TRAP_MODE_USER) as Hm by (rewrite M1; vm_compute; reflexivity).
  destruct (Hnext demo_other other_tf other_t1 other_t0 demo_root 5 [] s1 h1 0) as (h3 & s3 & E3 & [R3 P3 _] & _).
  - rewrite Es. exact demo_second_other.
  - rewrite Es. vm_compute. reflexivity.
  - rewrite Es. exact demo_second_task.
  - exact Hm.
  - intros k _ _. reflexivity.
  - exists h1, s1, h3, s3. split; [exact E|]. split; [rewrite (R1 2 ltac:(zdone)); vm_compute; reflexivity|].
    split; [rewrite P1; vm_compute; reflexivity|]. split; [exact E3|]. split; [rewrite (R3 31 ltac:(zdone)); vm_compute; reflexivity|exact P3].
Defined.

(** An invalid instruction at 0x80200010, on the tables of file Irq. *)
Lemma unsafe_trap_reports_witness :
  unsafe_trap_entry no_regs (0xffffffc080310000) (mkHart ∅ 0 TRAP_MODE_SUPERVISOR 0 0 2 0x80200010 0) after_boot =
    Panic "PRE_BOOT_TRAP_INSTRUCTION_INVALID" 2 0 0x80200010.
Proof.
  refine (unsafe_trap_reports no_regs 0xffffffc080310000 (mkHart ∅ 0 TRAP_MODE_SUPERVISOR 0 0 2 0x80200010 0) after_boot
    _ _ _ _); [split; [exact after_boot_tables|unfold kblock; zdone..]|unfold u64; zdone..].
Defined.
