(* ===== verification/Rounds.v ===== *)
(** * Rounds of the scheduler over the processes of a hart

    The timer interrupt of file TrapEntry, again and again, with whatever the
    processes do in between: [trap_entry], [handle_sync_trap],
    [trap_change_process], the scheduler and [context_change_process]
    ([kernel/trap/handler.c], [kernel/process/scheduler.c],
    [kernel/process/context.c]) on any number of processes. *)
From S2P Require Import Prelude Machine Objects Scheduler Cpu Vma VmaSpace UserAccess TrapParser Process Traps Preempt TrapEntry.

(** ** The processes *)

(** A process, its frame, the tables on the way to the frame, the address of the root of its
    tables and its address-space identifier. *)
Record task := mkTask {
  task_proc : Z;
  task_frame : Z;
  task_t1 : Z;
  task_t0 : Z;
  task_root : Z;
  task_asid : Z;
}.

#[export] Instance task_eq_dec : EqDecision task.
Proof. solve_decision. Defined.

Definition task_satp (x : task) : Z := satp_of (task_root x) (task_asid x).

(** The entries on the way to its frame. *)
Definition task_path (x : task) (b : Z) : Prop :=
  b = task_root x + 8 * 511 \/ b = task_t1 x + 8 * 511 \/ b = task_t0 x + 8 * 510.

(** It can run on hart [hid], on which it ran last, and nothing of it is in the ring. *)
Record ready (hid : Z) (x : task) (s : kstate) : Prop := {
  rdy_switch : switchable (task_proc x) hid (task_root x) (task_asid x) s;
  rdy_running : running (task_proc x) (task_frame x) (task_t1 x) (task_t0 x) (set_satp (task_satp x) s);
  rdy_normal : rd_field 4 (mem s) (task_proc x + 104) = process_type_code PROC_TYPE_NORMAL;
  rdy_runnable : rd (mem s) (task_proc x + 8) = 0;
  rdy_ring_frame : ring_free s (task_frame x) 4096;
  rdy_ring_path b : task_path x b -> ring_free s b 8;
}.

(** Nothing of [x] is where the interrupt of [y] writes. *)
Record beside (x y : task) : Prop := {
  bs_procs : task_proc x + 192 <= task_proc y \/ task_proc y + 192 <= task_proc x;
  bs_frames : task_frame x + 4096 <= task_frame y \/ task_frame y + 4096 <= task_frame x;
  bs_proc_frame : task_proc x + 192 <= task_frame y \/ task_frame y + 4096 <= task_proc x;
  bs_path b : task_path x b -> (b < task_proc y \/ task_proc y + 192 <= b) /\ (b < task_frame y \/ task_frame y + 4096 <= b);
}.

(** [cur] runs and the tasks [queued] wait, in that order. *)
Record world (hid : Z) (cur : task) (queued : list task) (s : kstate) : Prop := {
  wd_ready x : x ∈ cur :: queued -> ready hid x s;
  wd_beside x y : x ∈ cur :: queued -> y ∈ cur :: queued -> x <> y -> beside x y;
  wd_nodup : NoDup (cur :: queued);
  wd_satp : satp s = task_satp cur;
  wd_queue : queue_of s = task_proc <$> queued;
  wd_room : Z.of_nat (length queued) < 512;
  wd_sched : sched_inv s;
  wd_user x : x ∈ queued -> Z.testbit (rd (mem s) (task_frame x + 272)) SPP = false;
  wd_attached : attached s;
  wd_timer d : sbi_set_timer (sbi s) d = 0;
}.

(** ** One interrupt *)

Lemma satp_root_of t a s : page_ok t -> 0 <= a < 65536 -> satp_root (set_satp (satp_of t a) s) = t.
Proof.
  intros Ht Ha. destruct (page_number t Ht) as [Hn E]. destruct (satp_fields a ((t - KERNEL_VMA_START) / 4096) Ha Hn) as (F & _).
  destruct Ht as [[H1 H2] _]. unfold satp_root, satp_of. cbn [satp set_satp]. unfold KERNEL_VMA_START in H1.
  rewrite (wrap64_small (t - _)) by (unfold KERNEL_VMA_START; lia). rewrite F. unfold KERNEL_VMA_START in *. lia.
Qed.

Section Ready.
Context (hid : Z) (x : task) (s : kstate) (Hx : ready hid x s).

Lemma ready_root : satp_root (set_satp (task_satp x) s) = task_root x.
Proof. destruct (rdy_switch _ _ _ Hx) as [_ _ _ [_ Ha] [_ Ht] _]. by apply satp_root_of. Qed.

Lemma ready_path b : on_path (task_t1 x) (task_t0 x) (set_satp (task_satp x) s) b <-> task_path x b.
Proof. unfold on_path, task_path. by rewrite ready_root. Qed.

Lemma ready_aligned b : task_path x b -> b mod 8 = 0.
Proof. intros Hb. eapply on_path_aligned; [exact (rn_frame _ _ _ _ _ (rdy_running _ _ _ Hx))|by apply ready_path]. Qed.

(** All that makes it ready is in a few words. *)
Lemma ready_words s' :
  vma s' = vma s -> process_queue (scheduler s') = process_queue (scheduler s) ->
  (forall b, b ∈ [task_proc x + 8; task_proc x + 48; task_proc x + 56; task_proc x + 104; task_frame x + 280] \/ task_path x b ->
    rd (mem s') b = rd (mem s) b) ->
  rd (mem s') (task_proc x + 160) = hid -> ready hid x s'.
Proof.
  intros Ev Eq Em Eh. destruct Hx as [[Hb Hr H160 [H56 Ha] [H48 Ht] Hm] Hrun Hty Hbw Hrf Hrp]. pose proof ready_root as Eroot.
  assert (forall b n, ring_free s b n -> ring_free s' b n) as Hring by (intros b n; unfold ring_free; by rewrite Eq).
  split; [split| | | | |].
  - done.
  - by apply Hring.
  - done.
  - rewrite Em; [done|left; set_solver].
  - rewrite Em; [done|left; set_solver].
  - by rewrite Ev.
  - apply (running_words _ _ _ _ (set_satp (task_satp x) s)); [done| |done]. intros b [Hp%ready_path| ->]; apply Em; [by right|left; set_solver].
  - rewrite <- Hty. apply rd_type; [by destruct Hb as (_ & _ & ?)|]. apply Em. left. set_solver.
  - rewrite Em; [done|left; set_solver].
  - by apply Hring.
  - intros b Hp. by apply Hring, Hrp.
Qed.
End Ready.

Section World.
Context (hid : Z) (cur : task) (queued : list task) (s : kstate) (Hw : world hid cur queued s).

Lemma world_current : ready hid cur s.
Proof. apply (wd_ready _ _ _ _ Hw). by left. Qed.

Lemma world_running : running (task_proc cur) (task_frame cur) (task_t1 cur) (task_t0 cur) s.
Proof. pose proof (rdy_running _ _ _ world_current) as H. revert H. apply running_words; [exact (wd_satp _ _ _ _ Hw)|done]. Qed.

Lemma world_preemptible : preemptible (task_proc cur) (task_frame cur) (task_t1 cur) (task_t0 cur) s.
Proof.
  pose proof world_current as Hc. pose proof Hc as [[Hb Hr _ _ _ _] Hrun Hty Hbw Hrf Hrp].
  split; try done; [exact world_running|exact (wd_attached _ _ _ _ Hw)|exact (wd_sched _ _ _ _ Hw)| | |exact (wd_timer _ _ _ _ Hw _)].
  - pose proof (fr_tf _ _ _ _ (rn_frame _ _ _ _ _ Hrun)) as Htf. split.
    + intros b Hp. assert (task_path cur b) as Hpath.
      { apply (ready_path hid cur s Hc). revert Hp. unfold on_path, satp_root. cbn [satp set_satp]. by rewrite (wd_satp _ _ _ _ Hw). }
      specialize (Hrp b Hpath). unfold ring_free in Hrp. lia.
    + unfold ring_free in Hrf. lia.
  - rewrite (wd_queue _ _ _ _ Hw), length_fmap. exact (wd_room _ _ _ _ Hw).
Qed.

Lemma world_waiting q : q ∈ queued ->
  waiting (task_proc q) (task_frame q) (task_t1 q) (task_t0 q) hid (task_root q) (task_asid q) (task_proc cur) (task_frame cur) s.
Proof.
  intros Hq. assert (q ∈ cur :: queued) as Hin by (by right). pose proof (wd_ready _ _ _ _ Hw q Hin) as Hr.
  assert (q <> cur) as Hne by (intros ->; pose proof (wd_nodup _ _ _ _ Hw) as Hn; by apply list.NoDup_cons in Hn as [? _]).
  destruct (wd_beside _ _ _ _ Hw q cur Hin ltac:(by left) Hne) as [B1 B2 B3 B4].
  destruct (wd_beside _ _ _ _ Hw cur q ltac:(by left) Hin (not_eq_sym Hne)) as [_ _ B5 _].
  pose proof Hr as [R1 R2 _ _ R5 R6]. split; try done.
  intros b Hp%(ready_path hid q s Hr). destruct (B4 b Hp). split; [by apply R6|done].
Qed.
(** The words of a process and the way to its frame, away from the ring and from the frame of the process that runs. *)
Lemma world_word x b : x ∈ cur :: queued ->
  b ∈ [task_proc x + 8; task_proc x + 48; task_proc x + 56; task_proc x + 104; task_frame x + 280] \/
    b = task_proc x + 160 \/ b = task_frame x + 272 /\ x ∈ queued \/ task_path x b ->
  (b < task_frame cur \/ task_frame cur + 280 <= b) /\ ring_free s b 8 /\ b mod 8 = 0 /\ b <> task_proc cur + 16 /\ b <> task_proc cur + 80.
Proof.
  intros Hin Hb. pose proof (wd_ready _ _ _ _ Hw x Hin) as Hr. pose proof Hr as [[(_ & _ & P8) Hrp _ _ _ _] Hrun _ _ Hrf Hpath].
  destruct (fr_tf _ _ _ _ (rn_frame _ _ _ _ _ Hrun)) as [_ F8]. pose proof (rn_apart _ _ _ _ _ Hrun) as Hap.
  assert (x ∈ queued -> beside x cur) as Hbes.
  { intros Hq. apply (wd_beside _ _ _ _ Hw); [done|by left|]. intros ->. pose proof (wd_nodup _ _ _ _ Hw) as Hn.
    by apply list.NoDup_cons in Hn as [? _]. }
  assert (x ∈ queued -> beside cur x) as Hbes2.
  { intros Hq. apply (wd_beside _ _ _ _ Hw); [by left|done|]. intros ->. pose proof (wd_nodup _ _ _ _ Hw) as Hn.
    by apply list.NoDup_cons in Hn as [? _]. }
  unfold ring_free, sizeof_process in *.
  assert (forall o, 0 <= o < 192 -> o mod 8 = 0 -> o <> 16 -> o <> 80 -> b = task_proc x + o ->
    (b < task_frame cur \/ task_frame cur + 280 <= b) /\ (b + 8 <= process_queue (scheduler s) \/ process_queue (scheduler s) + 4096 <= b) /\
    b mod 8 = 0 /\ b <> task_proc cur + 16 /\ b <> task_proc cur + 80) as Hstruct.
  { intros o Ho Ho8 N1 N2 ->. split_and!; [| |clear -P8 Ho8; dlia|..]; [|clear -Hrp Ho Ho8; dlia|..];
      apply elem_of_cons in Hin as [->|Hq]; try lia; destruct (Hbes Hq) as [B1 B2 B3 _]; lia. }
  assert (forall o, o = 272 /\ x ∈ queued \/ o = 280 -> b = task_frame x + o ->
    (b < task_frame cur \/ task_frame cur + 280 <= b) /\ (b + 8 <= process_queue (scheduler s) \/ process_queue (scheduler s) + 4096 <= b) /\
    b mod 8 = 0 /\ b <> task_proc cur + 16 /\ b <> task_proc cur + 80) as Hframe.
  { intros o Ho ->. split_and!; [|lia|clear -F8 Ho; dlia|..].
    - apply elem_of_cons in Hin as [->|Hq]; [destruct Ho as [[_ Hq]|]; [destruct (Hbes Hq)|]; lia|destruct (Hbes Hq) as [B1 B2 B3 _]; lia].
    - apply elem_of_cons in Hin as [->|Hq]; [lia|destruct (Hbes2 Hq) as [B1 B2 B3 _]; lia].
    - apply elem_of_cons in Hin as [->|Hq]; [lia|destruct (Hbes2 Hq) as [B1 B2 B3 _]; lia]. }
  destruct Hb as [Hb|[Hb|[[Hb Hq]|Hb]]].
  - repeat (apply elem_of_cons in Hb as [Hb|Hb]; [first [apply (Hframe 280); [by right|exact Hb] | revert Hb; apply Hstruct; first [lia|done]]|]).
    by apply not_elem_of_nil in Hb.
  - revert Hb. apply Hstruct; first [lia|done].
  - apply (Hframe 272); [by left|exact Hb].
  - pose proof (ready_aligned hid x s Hr b Hb) as B8. specialize (Hpath b Hb). apply (ready_path hid x s Hr) in Hb as Hp.
    pose proof (rn_path_proc _ _ _ _ _ Hrun b Hp). pose proof (rn_path_frame _ _ _ _ _ Hrun b Hp).
    split_and!; [|done|done|..]; (apply elem_of_cons in Hin as [->|Hq]; [lia|]; destruct (bs_path _ _ (Hbes Hq) b Hb); lia).
Qed.

(** The words an interrupt changes in the struct of [y] are none of those of [x] that count. *)
Lemma world_apart x y b o : x ∈ cur :: queued -> y ∈ cur :: queued -> o = 80 \/ o = 160 ->
  b ∈ [task_proc x + 8; task_proc x + 48; task_proc x + 56; task_proc x + 104; task_frame x + 280] \/
    b = task_proc x + 160 /\ x <> y \/ b = task_frame x + 272 \/ task_path x b -> b <> task_proc y + o.
Proof.
  intros Hx Hy Ho Hb ->. pose proof (wd_ready _ _ _ _ Hw x Hx) as Hr. pose proof (rdy_running _ _ _ Hr) as Hrun.
  pose proof (rn_apart _ _ _ _ _ Hrun) as Hap.
  destruct (decide (x = y)) as [<-|Hne].
  - destruct Hb as [Hb|[[_ Hb]|[Hb|Hb]]]; [|done|lia|].
    + repeat (apply elem_of_cons in Hb as [Hb|Hb]; [lia|]). by apply not_elem_of_nil in Hb.
    + apply (ready_path hid x s Hr) in Hb. pose proof (rn_path_proc _ _ _ _ _ Hrun _ Hb). lia.
  - destruct (wd_beside _ _ _ _ Hw x y Hx Hy Hne) as [B1 _ _ B4].
    destruct (wd_beside _ _ _ _ Hw y x Hy Hx (not_eq_sym Hne)) as [_ _ B3 _].
    destruct Hb as [Hb|[[Hb _]|[Hb|Hb]]]; [|lia|lia|destruct (B4 _ Hb); lia].
    repeat (apply elem_of_cons in Hb as [Hb|Hb]; [lia|]). by apply not_elem_of_nil in Hb.
Qed.
End World.

(** What an interrupt does to the processes, whichever runs next: [s'] has every word of
    theirs as it was. *)
Lemma world_moves hid cur queued next queued' s s' :
  world hid cur queued s -> next :: queued' ≡ₚ cur :: queued ->
  vma s' = vma s -> process_queue (scheduler s') = process_queue (scheduler s) -> io s' = io s -> symbols s' = symbols s -> sbi s' = sbi s ->
  (forall x b, x ∈ cur :: queued ->
    b ∈ [task_proc x + 8; task_proc x + 48; task_proc x + 56; task_proc x + 104; task_frame x + 280] \/ task_path x b -> rd (mem s') b = rd (mem s) b) ->
  (forall x, x ∈ cur :: queued -> rd (mem s') (task_proc x + 160) = hid) ->
  (forall x, x ∈ queued' -> Z.testbit (rd (mem s') (task_frame x + 272)) SPP = false) ->
  satp s' = task_satp next -> queue_of s' = task_proc <$> queued' -> sched_inv s' -> world hid next queued' s'.
Proof.
  intros Hw Hperm Ev Eq Eio Esy Esb Em Eh Eu Es Equ Hi. pose proof (Permutation_length Hperm) as Hlen. cbn [length] in Hlen.
  split; [| | |done|done|pose proof (wd_room _ _ _ _ Hw); lia|done|done| |].
  - intros x Hx. rewrite Hperm in Hx. apply (ready_words hid x s); [by apply (wd_ready _ _ _ _ Hw)|done|done| |by apply Eh].
    intros b. by apply Em.
  - intros x y Hx Hy. rewrite Hperm in Hx, Hy. by apply (wd_beside _ _ _ _ Hw).
  - rewrite Hperm. exact (wd_nodup _ _ _ _ Hw).
  - unfold attached. rewrite Eio, Esy. exact (wd_attached _ _ _ _ Hw).
  - intros d. rewrite Esb. exact (wd_timer _ _ _ _ Hw d).
Qed.

Section Step.
Context (left_over : gmap Z Z -> gmap Z Z) (hid stacks : Z) (cur : task) (s : kstate) (h : hart) (value : Z).
Hypothesis Hu : mode h = TRAP_MODE_USER.
Hypothesis Hpc : u64 (pc h).

(** With one queued, it runs and [cur] is queued. *)
Lemma world_switch q rest : world hid cur (q :: rest) s ->
  exists h' s', trap left_over hid stacks timer_cause value h s = Ret h' s' /\ mode h' = TRAP_MODE_USER /\
    world hid q (rest ++ [cur]) s'.
Proof.
  intros Hw. assert (q ∈ q :: rest) as Hq by (by left). assert (q ∈ cur :: q :: rest) as Hq' by (by right).
  pose proof (world_waiting hid cur _ s Hw q Hq) as Hwait.
  pose proof (wd_queue _ _ _ _ Hw) as Hqu. cbn [fmap list_fmap] in Hqu.
  destruct (tick_switch_frames left_over hid stacks (task_proc cur) (task_frame cur) (task_t1 cur) (task_t0 cur) (task_proc q) (task_frame q)
    (task_t1 q) (task_t0 q) (task_root q) (task_asid q) (task_proc <$> rest) s h value (world_preemptible hid cur _ s Hw) Hqu Hwait Hu)
    as (h' & s' & E & [_ _ Hm] & _ & _ & Hqu' & Es' & _ & Huf & _ & _ & _ & [Eio Esy Esb Ev Er Hi Eh Em]).
  exists h', s'. split; [done|]. split; [by rewrite Hm, (wd_user _ _ _ _ Hw q Hq)|].
  apply (world_moves hid cur (q :: rest) q (rest ++ [cur]) s); try done.
  - rewrite Permutation_app_comm. cbn [app]. by rewrite Permutation_swap.
  - intros x b Hx Hb. destruct (world_word hid cur _ s Hw x b Hx ltac:(tauto)) as (W1 & W2 & W3 & W4 & W5).
    apply Em; [done|done| | |done|done|done]; apply (world_apart hid cur _ s Hw x); tauto.
  - intros x Hx. destruct (decide (x = q)) as [->|Hne]; [done|].
    destruct (world_word hid cur _ s Hw x _ Hx (or_intror (or_introl eq_refl))) as (W1 & W2 & W3 & W4 & W5).
    rewrite Em; [exact (sw_hart _ _ _ _ _ (rdy_switch _ _ _ (wd_ready _ _ _ _ Hw x Hx)))|done|done| | |done|done|done];
      apply (world_apart hid cur _ s Hw x); tauto.
  - intros x [Hx|Hx%list_elem_of_singleton]%elem_of_app.
    + assert (x ∈ q :: rest) as Hx1 by (by right). assert (x ∈ cur :: q :: rest) as Hx2 by (by right).
      destruct (world_word hid cur _ s Hw x (task_frame x + 272) Hx2 ltac:(tauto)) as (W1 & W2 & W3 & W4 & W5).
      rewrite Em; [exact (wd_user _ _ _ _ Hw x Hx1)|done|done| | |done|done|done]; apply (world_apart hid cur _ s Hw x); tauto.
    + subst x. exact (uf_spp _ _ _ _ Huf).
  - by rewrite Hqu', fmap_app.
Qed.

(** With none queued, [cur] goes on. *)
Lemma world_alone : world hid cur [] s ->
  exists h' s', trap left_over hid stacks timer_cause value h s = Ret h' s' /\ mode h' = TRAP_MODE_USER /\ world hid cur [] s'.
Proof.
  intros Hw. destruct (tick_alone_invisible left_over hid stacks (task_proc cur) (task_frame cur) (task_t1 cur) (task_t0 cur) s h value
    (world_preemptible hid cur [] s Hw) (wd_queue _ _ _ _ Hw) Hu Hpc)
    as (h' & s' & E & Hsame & _ & _ & _ & _ & [Es Eio Esy Esb _ Ev Er Em] & Hp & Hq).
  exists h', s'. split; [done|]. split; [exact (su_mode _ _ Hsame)|].
  apply (world_moves hid cur [] cur [] s); try done.
  - intros x b Hx Hb. destruct (world_word hid cur [] s Hw x b Hx ltac:(tauto)) as (W1 & W2 & W3 & W4 & W5). by apply Em.
  - intros x Hx. destruct (world_word hid cur [] s Hw x _ Hx (or_intror (or_introl eq_refl))) as (W1 & W2 & W3 & W4 & W5).
    rewrite Em by done. exact (sw_hart _ _ _ _ _ (rdy_switch _ _ _ (wd_ready _ _ _ _ Hw x Hx))).
  - intros x Hx. by apply not_elem_of_nil in Hx.
  - rewrite Es. exact (wd_satp _ _ _ _ Hw).
  - exact (pe_sched _ _ _ _ _ Hp).
Qed.
End Step.

(** ** Rounds *)

(** What happens between two interrupts: [user] is any function of the hart and the state
    that leaves the hart in user mode and does not write to the ring, to the struct and the frame of
    a process or to the entries on the way to a frame. *)
Record lets_run (cur : task) (queued : list task) (s : kstate) (h' : hart) (s' : kstate) : Prop := {
  lr_mode : mode h' = TRAP_MODE_USER;
  lr_pc : u64 (pc h');
  lr_satp : satp s' = satp s;
  lr_vma : vma s' = vma s;
  lr_scheduler : scheduler s' = scheduler s;
  lr_io : io s' = io s;
  lr_symbols : symbols s' = symbols s;
  lr_sbi : sbi s' = sbi s;
  lr_ring b : process_queue (scheduler s) <= b < process_queue (scheduler s) + 4096 -> rd (mem s') b = rd (mem s) b;
  lr_task x b : x ∈ cur :: queued ->
    task_proc x <= b < task_proc x + 192 \/ task_frame x <= b < task_frame x + 4096 \/ task_path x b -> rd (mem s') b = rd (mem s) b;
}.

Lemma world_lets_run hid cur queued s h' s' : world hid cur queued s -> lets_run cur queued s h' s' -> world hid cur queued s'.
Proof.
  intros Hw [_ _ Es Ev Ec Eio Esy Esb Er Em]. pose proof (wd_sched _ _ _ _ Hw) as Hi.
  apply (world_moves hid cur queued cur queued s); try done.
  - by rewrite Ec.
  - intros x b Hx [Hb|Hb]; apply (Em x b Hx); [|by right; right].
    repeat (apply elem_of_cons in Hb as [->|Hb]; [lia|]). by apply not_elem_of_nil in Hb.
  - intros x Hx. rewrite (Em x) by (done || lia). exact (sw_hart _ _ _ _ _ (rdy_switch _ _ _ (wd_ready _ _ _ _ Hw x Hx))).
  - intros x Hx. rewrite (Em x) by (lia || by right). by apply (wd_user _ _ _ _ Hw).
  - rewrite Es. exact (wd_satp _ _ _ _ Hw).
  - rewrite <- (wd_queue _ _ _ _ Hw). apply queue_of_same; [done|done|]. intros a Ha _. by apply Er.
  - by apply (sched_inv_eq s).
Qed.

Section Rounds.
Context (left_over : gmap Z Z -> gmap Z Z) (hid stacks value : Z) (user : hart -> kstate -> hart * kstate).

(** [n] timer interrupts on hart [hid], and the process each of them leaves running: the one whose
    frame is mapped when it is over. *)
Fixpoint interrupts (n : nat) (h : hart) : M (list Z) := fun s =>
  match n with
  | O => Ret [] s
  | S n =>
      let '(h1, s1) := user h s in
      (h2 ← trap left_over hid stacks timer_cause value h1;
       running_process ← load_tf tf_process_ptr;
       ps ← interrupts n h2;
       mret (running_process :: ps)) s1
  end.

Hypothesis Huser : forall cur queued h s, world hid cur queued s -> mode h = TRAP_MODE_USER ->
  lets_run cur queued s (fst (user h s)) (snd (user h s)).

Lemma frame_process cur queued s : world hid cur queued s -> load_tf tf_process_ptr s = Ret (task_proc cur) s.
Proof.
  intros Hw. pose proof (world_running hid cur queued s Hw) as Hr.
  etransitivity; [exact (load_tf_eq _ _ _ s (rn_frame _ _ _ _ _ Hr) 280 ltac:(lia) eq_refl)|].
  by rewrite (rn_ptr _ _ _ _ _ Hr).
Qed.

(** One interrupt takes the first of the queue, or [cur] if it is alone. *)
Lemma interrupt_step cur queued next rest n h s :
  world hid cur queued s -> mode h = TRAP_MODE_USER -> queued ++ [cur] = next :: rest ->
  exists h' s', mode h' = TRAP_MODE_USER /\
    world hid next rest s' /\ interrupts (S n) h s = (ps ← interrupts n h'; mret (task_proc next :: ps)) s'.
Proof.
  intros Hw Hu Hq. pose proof (Huser _ _ _ _ Hw Hu) as Hl. pose proof (world_lets_run _ _ _ _ _ _ Hw Hl) as Hw1.
  pose proof (lr_mode _ _ _ _ _ Hl) as Hu1. pose proof (lr_pc _ _ _ _ _ Hl) as Hpc1.
  cbn [interrupts]. destruct (user h s) as [h1 s1]. cbn [fst snd] in *.
  assert (exists h2 s2, trap left_over hid stacks timer_cause value h1 s1 = Ret h2 s2 /\ mode h2 = TRAP_MODE_USER /\ world hid next rest s2)
    as (h2 & s2 & E & Hu2 & Hw2).
  { destruct queued as [|q qs]; cbn [app] in Hq; injection Hq as <- <-; [by apply world_alone|by apply world_switch]. }
  exists h2, s2. split; [done|]. split; [done|].
  by rewrite (bind_Ret _ _ _ _ _ E), (bind_Ret _ _ _ _ _ (frame_process next rest s2 Hw2)).
Qed.

Lemma interrupts_rotate l1 : forall l2 cur queued h s,
  world hid cur queued s -> mode h = TRAP_MODE_USER -> queued ++ [cur] = l1 ++ l2 ->
  exists s' cur' queued', interrupts (length l1) h s = Ret (task_proc <$> l1) s' /\ world hid cur' queued' s' /\ queued' ++ [cur'] = l2 ++ l1.
Proof.
  induction l1 as [|x l1 IH]; intros l2 cur queued h s Hw Hu Hl; cbn [app length] in *.
  - exists s, cur, queued. by rewrite app_nil_r.
  - destruct (interrupt_step cur queued x (l1 ++ l2) (length l1) h s Hw Hu Hl) as (h' & s1 & Hu1 & Hw1 & E).
    destruct (IH (l2 ++ [x]) x (l1 ++ l2) h' s1 Hw1 Hu1 ltac:(by rewrite app_assoc)) as (s' & cur' & queued' & E' & Hw' & Hl').
    exists s', cur', queued'. rewrite E, (bind_Ret _ _ _ _ _ E'). split; [done|]. split; [done|]. by rewrite Hl', <- app_assoc.
Qed.
End Rounds.


(** ** Witness: the two processes of file TrapEntry, and user code that only counts in its register 5 *)

Definition demo_tick_user (h : hart) (s : kstate) : hart * kstate := (set_pc 0x3000 (set_reg 5 (reg h 5 + 1) h), s).

Definition demo_first : task := mkTask demo_task demo_tf demo_t1 demo_t0 demo_root 5.
Definition demo_next : task := mkTask demo_other other_tf other_t1 other_t0 demo_tables 7.

Lemma demo_rounds_root : satp_root (set_satp (task_satp demo_first) demo_pair) = demo_root /\
  satp_root (set_satp (task_satp demo_next) demo_pair) = demo_tables.
Proof. split; by vm_compute. Qed.

Ltac demo_path := intros b [->|[->| ->]]; zdone.

Lemma demo_first_ready : ready 0 demo_first demo_pair.
Proof.
  destruct demo_rounds_root as [Er _]. unfold demo_first in *. split; cbn [task_proc task_frame task_t1 task_t0 task_root task_asid] in *.
  - split; [unfold kblock; zdone|left; zdone|by vm_compute|split; [by vm_compute|zdone]|split; [by vm_compute|unfold page_ok; zdone]|zdone].
  - split; [split; rewrite ?Er; try (unfold page_ok; zdone); by vm_compute|unfold kblock; zdone|by vm_compute|zdone| |];
      unfold on_path; rewrite Er; clear Er; intros a [->|[->| ->]]; zdone.
  - by vm_compute.
  - by vm_compute.
  - left. zdone.
  - unfold task_path, ring_free. cbn [task_root task_t1 task_t0]. demo_path.
Qed.

Lemma demo_next_ready : ready 0 demo_next demo_pair.
Proof.
  destruct demo_rounds_root as [_ Er]. unfold demo_next in *. split; cbn [task_proc task_frame task_t1 task_t0 task_root task_asid] in *.
  - split; [unfold kblock; zdone|left; zdone|by vm_compute|split; [by vm_compute|zdone]|split; [by vm_compute|unfold page_ok; zdone]|zdone].
  - split; [split; rewrite ?Er; try (unfold page_ok; zdone); by vm_compute|unfold kblock; zdone|by vm_compute|zdone| |];
      unfold on_path; rewrite Er; clear Er; intros a [->|[->| ->]]; zdone.
  - by vm_compute.
  - by vm_compute.
  - right. zdone.
  - unfold task_path, ring_free. cbn [task_root task_t1 task_t0]. demo_path.
Qed.

Lemma ready_satp hid x v s : ready hid x s -> ready hid x (set_satp v s).
Proof.
  intros Hx. apply (ready_words hid x s Hx); [done|done|done|]. exact (sw_hart _ _ _ _ _ (rdy_switch _ _ _ Hx)).
Qed.

Definition demo_rounds : kstate := set_satp (task_satp demo_first) demo_pair.

Lemma demo_world : world 0 demo_first [demo_next] demo_rounds.
Proof.
  split; [| | |reflexivity|vm_compute; reflexivity|reflexivity| | |vm_compute; reflexivity|reflexivity].
  - intros x [->|[->|Hx%not_elem_of_nil]%elem_of_cons]%elem_of_cons; [| |done].
    + exact (ready_satp 0 demo_first _ demo_pair demo_first_ready).
    + exact (ready_satp 0 demo_next _ demo_pair demo_next_ready).
  - intros x y [->|[->|Hx%not_elem_of_nil]%elem_of_cons]%elem_of_cons [->|[->|Hy%not_elem_of_nil]%elem_of_cons]%elem_of_cons Hne; try done;
      (split; cbn [task_proc task_frame task_t1 task_t0 task_root task_asid demo_first demo_next]; [zdone..|]; unfold task_path;
       cbn [task_root task_t1 task_t0 demo_first demo_next]; demo_path).
  - by apply list.NoDup_cons; split; [intros Hx%list_elem_of_singleton|apply list.NoDup_singleton].
  - split; [unfold kblock; zdone|reflexivity|zdone|zdone].
  - intros x ->%list_elem_of_singleton. vm_compute. reflexivity.
Qed.

