(* ===== verification/InitProcess.v ===== *)
(** * The first processes ([process/init_process.s], [process/idle_process.s])

    The user programs of the kernel (and one of the C library) as lists of instructions, run in user mode
    by the hart of file TrapEntry: an [ecall] goes through [trap_entry], and a timer
    interrupt may come before every instruction.  What init prints is proved for every
    such run. *)
From S2P Require Import Prelude Machine Objects Uart Scheduler Vma UserAccess TrapParser Process Syscalls Traps Preempt TrapEntry.

(** ** Programs *)

Inductive user_instr :=
| ULi (rd : Z) (imm : Z)      (* li *)
| ULa (rd : Z)                (* la rd, words *)
| UJ (target : nat)           (* j, to an instruction by its number *)
| Ecall.

Definition init_process : list user_instr :=
  [ULi a0 1; ULi a1 0;
   ULi a2 105; Ecall;         (* 'i' *)
   ULi a2 110; Ecall;         (* 'n' *)
   ULi a2 105; Ecall;         (* 'i' *)
   ULi a2 116; Ecall;         (* 't' *)
   ULi a2 10; Ecall;
   ULi a0 1; ULi a1 1; ULa a2; ULi a3 5; Ecall;
   UJ 0].

Definition idle_process : list user_instr := [ULi a0 3; Ecall; UJ 0].

(** ** Running a program *)

Section Run.

(** Where the assembler and the linker put the instructions (number [length prog]
    is the end) and [words]. *)
Context (prog : list user_instr) (addr : nat -> Z) (words : Z).

Fixpoint fetch (l : list user_instr) (i : nat) (at_pc : Z) : option (nat * user_instr) :=
  match l with
  | [] => None
  | u :: l' => if at_pc =? addr i then Some (i, u) else fetch l' (S i) at_pc
  end.

Definition user_step (left_over : gmap Z Z -> gmap Z Z) (stale stacks : Z) (h : hart) : M hart :=
  match fetch prog 0 (pc h) with
  | Some (i, ULi rd imm) => mret (set_pc (addr (S i)) (set_reg rd imm h))
  | Some (i, ULa rd) => mret (set_pc (addr (S i)) (set_reg rd words h))
  | Some (i, UJ target) => mret (set_pc (addr target) h)
  | Some (i, Ecall) => trap left_over stale stacks 8 0 h
  | None => undef "outside the program"
  end.

(** One instruction, or an interrupt of the timer before it. *)
Inductive step : hart * kstate -> hart * kstate -> Prop :=
| step_instr left_over stale stacks h s h' s' :
    user_step left_over stale stacks h s = Ret h' s' -> step (h, s) (h', s')
| step_tick left_over stale stacks value h s h' s' :
    trap left_over stale stacks timer_cause value h s = Ret h' s' -> step (h, s) (h', s').

(** Instructions alone, [n] of them. *)
Fixpoint user_steps (left_over : gmap Z Z -> gmap Z Z) (stale stacks : Z) (n : nat) (h : hart) : M hart :=
  match n with
  | O => mret h
  | S n' => h ← user_step left_over stale stacks h; user_steps left_over stale stacks n' h
  end.
End Run.

(** ** What a program prints, read off its text

    The registers whose value is known before an instruction, and the bytes printed since
    the start of the program.  Defined for programs whose every call is one
    of the console with a character, or with a string, which prints nothing. *)
Record known := mkKnown { known_regs : gmap Z Z; known_out : list Z }.

Definition know (k : known) (u : user_instr) : option known :=
  match u with
  | ULi rd imm =>
      if (0 <? rd) && (rd <? 32) && (0 <=? imm) && (imm <? 18446744073709551616)
      then Some (mkKnown (<[rd := imm]> (known_regs k)) (known_out k)) else None
  | ULa rd => if (0 <? rd) && (rd <? 32) then Some (mkKnown (delete rd (known_regs k)) (known_out k)) else None
  | UJ _ => None
  | Ecall =>
      match known_regs k !! a0, known_regs k !! a1, known_regs k !! a2 with
      | Some 1, Some 0, Some c => Some (mkKnown (known_regs k) (known_out k ++ char_bytes (wrap8 c)))
      | Some 1, Some 1, _ => Some k
      | _, _, _ => None
      end
  end.

Fixpoint know_all (k : known) (l : list user_instr) : option known :=
  match l with
  | [] => Some k
  | u :: l' => k' ← know k u; know_all k' l'
  end.

Definition know_start : known := mkKnown ∅ [].

(** What one round of the loop prints: the instructions before the jump back. *)
Definition console_loop (body : list user_instr) (line : list Z) : Prop :=
  exists k, know_all know_start body = Some k /\ known_out k = line.

Lemma know_all_app k l l' : know_all k (l ++ l') = (k' ← know_all k l; know_all k' l').
Proof. revert k. induction l as [|u l IH]; intros k; [done|]. cbn. by destruct (know k u) as [k'|]; cbn. Qed.

(** Up to instruction [i] and over it. *)
Lemma know_point body k i u : know_all know_start body = Some k -> body !! i = Some u ->
  exists k1 k2, know_all know_start (take i body) = Some k1 /\ know k1 u = Some k2 /\
    know_all know_start (take (S i) body) = Some k2.
Proof.
  intros Hk Hu. rewrite <- (take_drop_middle body i u Hu), know_all_app in Hk.
  destruct (know_all know_start (take i body)) as [k1|] eqn:E1; [|done]. cbn in Hk.
  destruct (know k1 u) as [k2|] eqn:E2; [|done]. exists k1, k2. split; [done|]. split; [done|].
  by rewrite (take_S_r _ _ u Hu), know_all_app, E1; cbn; rewrite E2.
Qed.

(** The registers of the hart agree with what is known. *)
Definition agrees (k : known) (h : hart) : Prop :=
  forall n v, known_regs k !! n = Some v -> 0 < n < 32 /\ reg h n = v.

Lemma agrees_same k h h' : same_user h h' -> agrees k h -> agrees k h'.
Proof. intros [R _ _] H n v Hn. destruct (H n v Hn) as [H1 <-]. split; [done|]. apply R. lia. Qed.

Lemma agrees_pc k v h : agrees k h -> agrees k (set_pc v h).
Proof. done. Qed.

Lemma agrees_li k k' rd imm h : know k (ULi rd imm) = Some k' -> agrees k h ->
  agrees k' (set_reg rd imm h) /\ known_out k' = known_out k.
Proof.
  cbn. destruct (_ && _) eqn:Hb; [|done]. intros [= <-] H. split; [|done]. intros n v. cbn.
  rewrite reg_set by lia. destruct (Z.eqb_spec n rd) as [->|Hne].
  - rewrite lookup_insert_eq. intros [= <-]. split; [lia|]. apply wrap64_small. lia.
  - rewrite lookup_insert_ne by done. apply H.
Qed.

Lemma agrees_la k k' rd x h : know k (ULa rd) = Some k' -> agrees k h ->
  agrees k' (set_reg rd x h) /\ known_out k' = known_out k.
Proof.
  cbn. destruct (_ && _) eqn:Hb; [|done]. intros [= <-] H. split; [|done]. intros n v. cbn.
  rewrite reg_set by lia. destruct (Z.eqb_spec n rd) as [->|Hne].
  - by rewrite lookup_delete_eq.
  - rewrite lookup_delete_ne by done. apply H.
Qed.

Lemma agrees_ecall k k' h : know k Ecall = Some k' -> agrees k h ->
  reg h a0 = SYSCALL_UART_PRINT /\ (reg h a1 = 0 \/ reg h a1 = 1) /\ known_regs k' = known_regs k /\
  known_out k' = known_out k ++ sync_uart_bytes (reg h a1) (reg h a2).
Proof.
  intros E H. cbn in E.
  destruct (known_regs k !! a0) as [[|[]|]|] eqn:E0; try done. destruct (H _ _ E0) as [_ ->].
  destruct (known_regs k !! a1) as [[|[]|]|] eqn:E1; try done; destruct (H _ _ E1) as [_ ->].
  - destruct (known_regs k !! a2) as [c|] eqn:E2; [|done]. destruct (H _ _ E2) as [_ ->]. injection E as <-.
    split_and!; auto.
  - injection E as <-. split_and!; auto. unfold sync_uart_bytes. cbn. by rewrite app_nil_r.
Qed.

(** ** Every run of a console loop *)

(** Where the instructions may lie: apart, and a call in the four bytes of [ecall]. *)
Record placed (prog : list user_instr) (addr : nat -> Z) : Prop := {
  pl_apart i j : (i < length prog)%nat -> (j < length prog)%nat -> addr i = addr j -> i = j;
  pl_u64 i : (i < length prog)%nat -> u64 (addr i);
  pl_ecall i : prog !! i = Some Ecall -> addr (S i) = addr i ⊕ 4;
}.

Section Loop.
Context (body : list user_instr) (line : list Z) (addr : nat -> Z) (words : Z).
Context (proc tf t1 t0' : Z) (sent0 : list Z).
Local Abbreviation prog := (body ++ [UJ 0]).
Hypothesis Hloop : console_loop body line.
Hypothesis Hplaced : placed prog addr.

Lemma fetch_from l d i u : (forall k, (k < d)%nat -> addr (d + i) <> addr k) ->
  (forall j, (j < i)%nat -> addr (d + i) <> addr (d + j)) -> l !! i = Some u -> fetch addr l d (addr (d + i)) = Some ((d + i)%nat, u).
Proof.
  revert d i. induction l as [|x l IH]; intros d i Hd Hi Hu; [done|]. destruct i as [|i]; cbn [fetch].
  - rewrite Nat.add_0_r, Z.eqb_refl. by injection Hu as <-.
  - rewrite (proj2 (Z.eqb_neq _ _)); [|by pose proof (Hi 0%nat ltac:(lia)) as H; rewrite Nat.add_0_r in H].
    replace (d + S i)%nat with (S d + i)%nat in * by lia. apply (IH (S d) i); [| |done].
    + intros k Hk. destruct (decide (k = d)) as [->|]; [|apply Hd; lia].
      specialize (Hi 0%nat ltac:(lia)). by rewrite Nat.add_0_r in Hi.
    + intros j Hj. replace (S d + j)%nat with (d + S j)%nat by lia. apply Hi. lia.
Qed.

Lemma fetch_at i u : prog !! i = Some u -> fetch addr prog 0 (addr i) = Some (i, u).
Proof.
  intros Hu. pose proof (lookup_lt_Some _ _ _ Hu) as Hi.
  apply (fetch_from prog 0 i u); [intros k Hk; lia| |done]. intros j Hj E. cbn in E.
  apply (pl_apart _ _ Hplaced) in E; lia.
Qed.

(** In user mode before instruction [i], [rounds] times round the loop. *)
Record at_point (i rounds : nat) (h : hart) (s : kstate) : Prop := {
  ap_process : preemptible proc tf t1 t0' s;
  ap_queue : queue_of s = [];
  ap_mode : mode h = TRAP_MODE_USER;
  ap_inside : (i < length prog)%nat;
  ap_pc : pc h = addr i;
  ap_known : exists k, know_all know_start (take i body) = Some k /\ agrees k h /\
    tx s = sent0 ++ mjoin (replicate rounds line) ++ known_out k;
}.

Lemma ap_u64 i r h s : at_point i r h s -> u64 (pc h).
Proof. intros H. rewrite (ap_pc _ _ _ _ H). apply (pl_u64 _ _ Hplaced), (ap_inside _ _ _ _ H). Qed.

(** An interrupt changes nothing. *)
Lemma tick_point left_over stale stacks value i r h s : at_point i r h s ->
  exists h' s', trap left_over stale stacks timer_cause value h s = Ret h' s' /\ at_point i r h' s'.
Proof.
  intros Hat. pose proof (ap_u64 _ _ _ _ Hat) as Hu. destruct Hat as [Hp Hq Hm Hi Epc (k & Hk & Ha & Ht)].
  destruct (tick_alone_invisible left_over stale stacks proc tf t1 t0' s h value Hp Hq Hm Hu)
    as (h' & s' & E & Hs & _ & _ & Ht' & _ & _ & Hp' & Hq').
  exists h', s'. split; [done|]. pose proof Hs as [_ Epc' Hm'].
  split; [done|done|done|done|by rewrite Epc'|]. exists k. split; [done|]. split; [by apply (agrees_same k h)|by rewrite Ht'].
Qed.

(** A console call prints and goes on behind the [ecall]. *)
Lemma call_point left_over stale stacks i r h s :
  at_point i r h s -> body !! i = Some Ecall ->
  exists h' s', trap left_over stale stacks 8 0 h s = Ret h' s' /\ at_point (S i) r h' s'.
Proof.
  intros Hat Hu. pose proof (ap_u64 _ _ _ _ Hat) as Hu64. destruct Hat as [Hp Hq Hm Hi Epc (k & Hk & Ha & Ht)].
  destruct Hloop as (kf & Hkf & _). destruct (know_point body kf i Ecall Hkf Hu) as (k1 & k2 & E1 & E2 & E3).
  rewrite Hk in E1. injection E1 as <-. destruct (agrees_ecall k k2 h E2 Ha) as (R0 & R1 & Rk & Ro).
  destruct (uart_call_returns left_over stale stacks proc tf t1 t0' s h 0 (pe_running _ _ _ _ _ Hp) (pe_attached _ _ _ _ _ Hp) Hm Hu64 R0 R1)
    as (h' & m & E & Hs & Hr' & Hmem).
  set (s' := sent _ _) in *. exists h', s'. split; [done|]. pose proof Hs as [_ Epc' Hm'].
  assert (alike proc tf s s') as Hal by (split; try done; intros a A1 A2 _ _; by apply Hmem).
  assert (sched_inv s') as Hi' by (destruct (pe_sched _ _ _ _ _ Hp); by split).
  assert (queue_of s' = []) as Hq'.
  { rewrite <- Hq. apply queue_of_same; [apply (pe_sched _ _ _ _ _ Hp)|done|]. intros a Hin _.
    pose proof (pe_ring_frame _ _ _ _ _ Hp) as F1. pose proof (pe_ring_proc _ _ _ _ _ Hp) as F2.
    unfold ring_free, sizeof_process in *. apply Hmem; lia. }
  pose proof (lookup_lt_Some _ _ _ Hu) as Hlt.
  split; [|done|done|rewrite length_app; cbn; lia| |].
  - apply (preemptible_alike _ _ _ _ s s' Hal Hp Hr' Hi'). by rewrite Hq'.
  - rewrite Epc'. cbn. rewrite Epc. symmetry. apply (pl_ecall _ _ Hplaced). by rewrite lookup_app_l.
  - exists k2. split; [done|]. split; [intros n v; rewrite Rk; by apply (agrees_same k (set_pc (pc h ⊕ 4) h) h' Hs)|].
    change (tx s') with (tx s ++ sync_uart_bytes (reg h a1) (reg h a2)). by rewrite Ht, Ro, !app_assoc.
Qed.

(** Every instruction leads to the next point. *)
Definition next_point (i r : nat) : nat * nat := if decide (i = length body) then (0%nat, S r) else (S i, r).

Lemma instr_point left_over stale stacks i r h s : at_point i r h s ->
  exists h' s', user_step prog addr words left_over stale stacks h s = Ret h' s' /\
    at_point (next_point i r).1 (next_point i r).2 h' s'.
Proof.
  intros Hat. pose proof (ap_inside _ _ _ _ Hat) as Hi. rewrite length_app in Hi. cbn in Hi. unfold next_point.
  pose proof Hloop as (kf & Hkf & Hline). unfold user_step. rewrite (ap_pc _ _ _ _ Hat).
  destruct (decide (i = length body)) as [->|Hne].
  - rewrite (fetch_at (length body) (UJ 0)) by (by rewrite lookup_app_r, Nat.sub_diag by lia).
    destruct Hat as [Hp Hq Hm _ Epc (k & Hk & Ha & Ht)]. rewrite firstn_all, Hkf in Hk. injection Hk as <-.
    eexists _, _. split; [reflexivity|]. split; [done|done|done|rewrite length_app; cbn; lia|done|].
    exists know_start. split; [done|]. split; [done|].
    cbn [snd]. rewrite Ht, Hline, replicate_S_end, join_app. cbn. by rewrite !app_nil_r.
  - destruct (lookup_lt_is_Some_2 body i ltac:(lia)) as [u Hu].
    rewrite (fetch_at i u) by (by apply lookup_app_l_Some).
    destruct (know_point body kf i u Hkf Hu) as (k1 & k2 & E1 & E2 & E3).
    destruct u as [rd imm|rd|target|]; [| |done|by apply call_point].
    all: destruct Hat as [Hp Hq Hm _ Epc (k & Hk & Ha & Ht)]; rewrite Hk in E1; injection E1 as <-.
    + destruct (agrees_li _ _ _ _ h E2 Ha) as [Ha' Ho]. eexists _, _. split; [reflexivity|].
      split; [done|done| |rewrite length_app; cbn; lia|done|exists k2; by rewrite Ho].
      cbn [fst snd]. by destruct (set_reg_csrs rd imm h) as (_ & Em & _); rewrite <- Hm, <- Em.
    + destruct (agrees_la _ _ _ words h E2 Ha) as [Ha' Ho]. eexists _, _. split; [reflexivity|].
      split; [done|done| |rewrite length_app; cbn; lia|done|exists k2; by rewrite Ho].
      cbn [fst snd]. by destruct (set_reg_csrs rd words h) as (_ & Em & _); rewrite <- Hm, <- Em.
Qed.

Lemma steps_add left_over stale stacks n m h s :
  user_steps prog addr words left_over stale stacks (n + m) h s =
  (h' ← user_steps prog addr words left_over stale stacks n h; user_steps prog addr words left_over stale stacks m h') s.
Proof.
  revert h s. induction n as [|n IH]; intros h s; [done|]. cbn [Nat.add user_steps]. rewrite bind_assoc.
  unfold mbind, M_bind. destruct (user_step _ _ _ _ _ _ _ _) as [h1 s1| | | | |]; [|done..]. apply IH.
Qed.

Lemma steps_inside left_over stale stacks d i r h s : at_point i r h s -> (i + d <= length body)%nat ->
  exists h' s', user_steps prog addr words left_over stale stacks d h s = Ret h' s' /\ at_point (i + d) r h' s'.
Proof.
  revert i h s. induction d as [|d IH]; intros i h s Hat Hd; [exists h, s; by rewrite Nat.add_0_r|].
  destruct (instr_point left_over stale stacks i r h s Hat) as (h1 & s1 & E1 & Hat1).
  unfold next_point in Hat1. rewrite decide_False in Hat1 by lia.
  destruct (IH (S i) h1 s1 Hat1 ltac:(lia)) as (h' & s' & E & Hat'). exists h', s'.
  cbn [user_steps]. rewrite (bind_Ret _ _ _ _ _ E1). by replace (i + S d)%nat with (S i + d)%nat by lia.
Qed.

(** A round of the loop. *)
Lemma steps_round left_over stale stacks r h s : at_point 0 r h s ->
  exists h' s', user_steps prog addr words left_over stale stacks (length body + 1) h s = Ret h' s' /\ at_point 0 (S r) h' s'.
Proof.
  intros Hat. destruct (steps_inside left_over stale stacks (length body) 0 r h s Hat ltac:(lia)) as (h1 & s1 & E1 & Hat1).
  destruct (instr_point left_over stale stacks _ r h1 s1 Hat1) as (h' & s' & E' & Hat').
  unfold next_point in Hat'. rewrite decide_True in Hat' by done. exists h', s'. split; [|exact Hat'].
  rewrite steps_add, (bind_Ret _ _ _ _ _ E1). cbn [user_steps]. by rewrite (bind_Ret _ _ _ _ _ E').
Qed.

Lemma steps_rounds left_over stale stacks n r h s : at_point 0 r h s ->
  exists h' s', user_steps prog addr words left_over stale stacks (n * (length body + 1)) h s = Ret h' s' /\ at_point 0 (n + r) h' s'.
Proof.
  revert r h s. induction n as [|n IH]; intros r h s Hat; [by exists h, s|].
  destruct (steps_round left_over stale stacks r h s Hat) as (h1 & s1 & E1 & Hat1).
  destruct (IH (S r) h1 s1 Hat1) as (h' & s' & E' & Hat'). exists h', s'. cbn [Nat.mul].
  rewrite steps_add, (bind_Ret _ _ _ _ _ E1). split; [exact E'|]. by replace (S n + r)%nat with (n + S r)%nat by lia.
Qed.

(** Every reachable state is before some instruction. *)
Lemma reachable_point p p' : rtc (step prog addr words) p p' ->
  (exists i r, at_point i r p.1 p.2) -> exists i r, at_point i r p'.1 p'.2.
Proof.
  induction 1 as [p|p q p' Hstep _ IH]; [done|]. intros (i & r & Hat). apply IH.
  destruct Hstep as [left_over stale stacks h s h' s' E|left_over stale stacks value h s h' s' E]; cbn [fst snd] in *.
  - destruct (instr_point left_over stale stacks i r h s Hat) as (h1 & s1 & E1 & Hat1). rewrite E in E1. injection E1 as <- <-. eauto.
  - destruct (tick_point left_over stale stacks value i r h s Hat) as (h1 & s1 & E1 & Hat1). rewrite E in E1. injection E1 as <- <-. eauto.
Qed.

Lemma know_out_prefix k l k' : know_all k l = Some k' -> known_out k `prefix_of` known_out k'.
Proof.
  revert k. induction l as [|u l IH]; intros k; cbn; [by intros [= <-]|].
  destruct (know k u) as [k1|] eqn:E; [|done]. cbn. intros H. transitivity (known_out k1); [|by apply IH].
  clear H. destruct u as [rd imm|rd|t|]; cbn in E; [| |done|].
  - destruct (_ && _); [|done]. by injection E as <-.
  - destruct (_ && _); [|done]. by injection E as <-.
  - destruct (known_regs k !! a0) as [[|[]|]|]; try done. destruct (known_regs k !! a1) as [[|[]|]|]; try done.
    + destruct (known_regs k !! a2); [|done]. injection E as <-. by apply prefix_app_r.
    + by injection E as <-.
Qed.

Lemma point_output i r h s : at_point i r h s ->
  exists part, tx s = sent0 ++ mjoin (replicate r line) ++ part /\ part `prefix_of` line.
Proof.
  intros [_ _ _ _ _ (k & Hk & _ & Ht)]. exists (known_out k). split; [done|].
  destruct Hloop as (kf & Hkf & <-). rewrite <- (take_drop i body), know_all_app, Hk in Hkf. by eapply know_out_prefix.
Qed.
End Loop.

(** ** Init *)

Definition init_body : list user_instr := take 17 init_process.

(** "init" and a line end, as the console sends it. *)
Definition init_line : list Z := [105; 110; 105; 116; 10; 13].

Lemma init_prints_line : console_loop init_body init_line.
Proof. eexists. split; [vm_compute; reflexivity|reflexivity]. Qed.

Lemma init_start proc tf t1 t0' addr s h : preemptible proc tf t1 t0' s -> queue_of s = [] -> mode h = TRAP_MODE_USER ->
  pc h = addr 0%nat -> at_point init_body init_line addr proc tf t1 t0' (tx s) 0 0 h s.
Proof.
  intros Hp Hq Hm Hpc. split; [done..|cbn; lia|done|]. exists know_start. split; [done|]. split; [done|]. cbn. by rewrite app_nil_r.
Qed.

(** C9: what the first process does, whatever interrupts it.  In every state
    reachable by its instructions and by timer interrupts between them, in any order and with
    anything left over in the registers by the kernel, the console has received whole lines
    "init" and then a part of one, and nothing else: the string the program prints with
    the second call of every round never appears.  And no such state is the last: its next
    instruction, and an interrupt instead of it, come back. *)
Theorem init_process_output proc tf t1 t0' addr words s h h' s' :
  placed init_process addr -> preemptible proc tf t1 t0' s -> queue_of s = [] -> mode h = TRAP_MODE_USER -> pc h = addr 0%nat ->
  rtc (step init_process addr words) (h, s) (h', s') ->
  (exists rounds part, tx s' = tx s ++ mjoin (replicate rounds init_line) ++ part /\ part `prefix_of` init_line) /\
  (forall left_over stale stacks, exists h2 s2,
     user_step init_process addr words left_over stale stacks h' s' = Ret h2 s2) /\
  (forall left_over stale stacks value, exists h2 s2,
     trap left_over stale stacks timer_cause value h' s' = Ret h2 s2).
Proof.
  intros Hpl Hp Hq Hm Hpc Hrun. pose proof (init_start proc tf t1 t0' addr s h Hp Hq Hm Hpc) as H0.
  destruct (reachable_point init_body init_line addr words proc tf t1 t0' (tx s) init_prints_line Hpl _ _ Hrun) as (i & r & Hat); [by exists 0%nat, 0%nat|].
  cbn [fst snd] in Hat. split; [|split].
  - exists r. by apply (point_output init_body init_line addr proc tf t1 t0' (tx s) init_prints_line i r h' s').
  - intros left_over stale stacks.
    destruct (instr_point init_body init_line addr words proc tf t1 t0' (tx s) init_prints_line Hpl left_over stale stacks i r h' s' Hat)
      as (h2 & s2 & E & _). by exists h2, s2.
  - intros left_over stale stacks value.
    destruct (tick_point init_body init_line addr proc tf t1 t0' (tx s) Hpl left_over stale stacks value i r h' s' Hat)
      as (h2 & s2 & E & _). by exists h2, s2.
Qed.

(** C20: init prints line after line: [18 n] of its instructions, six of every 18 of them
    calls of the kernel, come back, print [n] lines and lead to the first one again. *)
Theorem init_process_prints proc tf t1 t0' addr words s h left_over stale stacks n :
  placed init_process addr -> preemptible proc tf t1 t0' s -> queue_of s = [] -> mode h = TRAP_MODE_USER -> pc h = addr 0%nat ->
  exists h' s', user_steps init_process addr words left_over stale stacks (n * 18) h s = Ret h' s' /\
    pc h' = addr 0%nat /\ tx s' = tx s ++ mjoin (replicate n init_line).
Proof.
  intros Hpl Hp Hq Hm Hpc. pose proof (init_start proc tf t1 t0' addr s h Hp Hq Hm Hpc) as H0.
  destruct (steps_rounds init_body init_line addr words proc tf t1 t0' (tx s) init_prints_line Hpl left_over stale stacks n 0 h s H0)
    as (h' & s' & E & Hat). exists h', s'. split; [exact E|]. destruct Hat as [_ _ _ _ Epc (k & [= <-] & _ & Ht)].
  split; [done|]. by rewrite Ht, Nat.add_0_r; cbn; rewrite app_nil_r.
Qed.

(** ** A program of the C library ([userspace/libc/src/startup.c], [userspace/init/src/main.c])

    [print] sets three registers and calls; the calls and returns of the compiler and the
    registers it saves are left out.  The size of the string, the argument in
    register 13, is not set. *)
Definition print : list user_instr := [ULi a0 1; ULi a1 1; ULa a2; Ecall].
Definition main : list user_instr := print ++ [ULi a0 0].

(** [main] returns 0, and its message never appears: the kernel answers a call for a string
    before it reads it. *)
Lemma main_prints_nothing proc tf t1 t0' addr words left_over stale stacks s h :
  placed main addr -> running proc tf t1 t0' s -> attached s -> mode h = TRAP_MODE_USER -> pc h = addr 0%nat ->
  exists h' s', user_steps main addr words left_over stale stacks 5 h s = Ret h' s' /\
    pc h' = addr 5%nat /\ reg h' a0 = 0 /\ tx s' = tx s /\ running proc tf t1 t0' s'.
Proof.
  intros Hpl Hr Ha Hm Hpc.
  assert (forall i u, main !! i = Some u -> fetch addr main 0 (addr i) = Some (i, u)) as Hf.
  { intros i u Hu. pose proof (lookup_lt_Some _ _ _ Hu) as Hi. apply (fetch_from addr main 0 i u); [intros k Hk; lia| |done].
    intros j Hj E. apply (pl_apart _ _ Hpl) in E; [|exact Hi|]; cbn in *; lia. }
  set (h1 := set_pc (addr 1%nat) (set_reg a0 1 h)). set (h2 := set_pc (addr 2%nat) (set_reg a1 1 h1)).
  set (h3 := set_pc (addr 3%nat) (set_reg a2 words h2)).
  destruct (uart_call_returns left_over stale stacks proc tf t1 t0' s h3 0 Hr Ha Hm) as (h4 & m & E & [R P M] & Hr' & _).
  - exact (pl_u64 _ _ Hpl 3%nat ltac:(cbn; lia)).
  - change (reg (set_reg a2 words (set_reg a1 1 (set_reg a0 1 h))) a0 = 1). by rewrite !reg_set by (unfold a0, a1, a2; lia).
  - right. change (reg (set_reg a2 words (set_reg a1 1 (set_reg a0 1 h))) a1 = 1). by rewrite !reg_set by (unfold a0, a1, a2; lia).
  - set (step := user_step main addr words left_over stale stacks).
    assert (step h s = Ret h1 s) as S0 by (unfold step, user_step; by rewrite Hpc, (Hf 0%nat _ eq_refl)).
    assert (step h1 s = Ret h2 s) as S1 by (unfold step, user_step; change (pc h1) with (addr 1%nat); by rewrite (Hf 1%nat _ eq_refl)).
    assert (step h2 s = Ret h3 s) as S2 by (unfold step, user_step; change (pc h2) with (addr 2%nat); by rewrite (Hf 2%nat _ eq_refl)).
    assert (step h3 s = trap left_over stale stacks 8 0 h3 s) as S3
      by (unfold step, user_step; change (pc h3) with (addr 3%nat); by rewrite (Hf 3%nat _ eq_refl)).
    rewrite E in S3. assert (pc h4 = addr 4%nat) as E4 by (rewrite P; symmetry; exact (pl_ecall _ _ Hpl 3%nat eq_refl)).
    cbn [user_steps]. fold step. rewrite (bind_Ret _ _ _ _ _ S0), (bind_Ret _ _ _ _ _ S1), (bind_Ret _ _ _ _ _ S2), (bind_Ret _ _ _ _ _ S3).
    unfold step, user_step. rewrite E4, (Hf 4%nat _ eq_refl).
    eexists _, _. split; [reflexivity|]. split; [done|].
    split; [change (reg (set_reg a0 0 h4) a0 = 0); by rewrite reg_set by (unfold a0; lia)|]. split; [|exact Hr']. unfold sent. cbn [tx].
    change (reg h3 a1) with (reg (set_reg a2 words (set_reg a1 1 (set_reg a0 1 h))) a1).
    rewrite !reg_set by (unfold a0, a1, a2; lia). apply app_nil_r.
Qed.

(** ** Witnesses: the process of file TrapEntry runs init from 0x1000 *)

(** [la] takes eight bytes, the other instructions four. *)
Definition demo_addr (i : nat) : Z := 0x1000 + 4 * Z.of_nat i + (if (14 <? i)%nat then 4 else 0).

Lemma demo_placed : placed init_process demo_addr.
Proof.
  assert (forall i, demo_addr i = 0x1000 + 4 * Z.of_nat i \/ demo_addr i = 0x1000 + 4 * Z.of_nat i + 4 /\ (14 < i)%nat) as H.
  { intros i. unfold demo_addr. destruct (Nat.ltb_spec 14 i); [right; split; lia|left; lia]. }
  split.
  - intros i j _ _. unfold demo_addr. destruct (Nat.ltb_spec 14 i), (Nat.ltb_spec 14 j); lia.
  - intros i Hi. cbn in Hi. unfold u64. destruct (H i); lia.
  - intros i Hi. pose proof (lookup_lt_Some _ _ _ Hi) as Hl. cbn in Hl.
    do 18 (destruct i as [|i]; [first [discriminate Hi|vm_compute; reflexivity]|]). cbn in Hl. lia.
Qed.

Definition demo_start : hart := mkHart ∅ 0x1000 TRAP_MODE_USER 0 0 0 0 0.

Lemma steps_reach prog addr words left_over stale stacks n h s h' s' :
  user_steps prog addr words left_over stale stacks n h s = Ret h' s' -> rtc (step prog addr words) (h, s) (h', s').
Proof.
  revert h s. induction n as [|n IH]; intros h s; cbn [user_steps]; [intros [= <- <-]; apply rtc_refl|].
  unfold mbind, M_bind. destruct (user_step _ _ _ _ _ _ _ _) as [h1 s1| | | | |] eqn:E; [|done..]. intros H.
  eapply rtc_l; [by eapply step_instr|by apply IH].
Qed.

(** Up to the first call and over it. *)
Lemma demo_first_call : exists h' s',
  rtc (step init_process demo_addr 0) (demo_start, demo_lone) (h', s') /\ pc h' = 0x1010 /\ tx s' = [105].
Proof.
  destruct (steps_inside init_body init_line demo_addr 0 demo_task demo_tf demo_t1 demo_t0 (tx demo_lone) init_prints_line demo_placed
    no_regs 0 0 4 0 0 demo_start demo_lone) as (h' & s' & E & [_ _ _ _ Epc (k & Hk & _ & Ht)]).
  - apply init_start; [exact demo_lone_preemptible|by vm_compute|done|done].
  - cbn. lia.
  - exists h', s'. split; [exact (steps_reach _ _ _ _ _ _ _ _ _ _ _ E)|]. split; [exact Epc|].
    vm_compute in Hk. injection Hk as <-. exact Ht.
Qed.

Lemma init_process_output_witness : exists h' s', tx s' = [105] /\
  rtc (step init_process demo_addr 0) (demo_start, demo_lone) (h', s') /\
  (exists rounds part, tx s' = mjoin (replicate rounds init_line) ++ part /\ part `prefix_of` init_line) /\
  exists h2 s2, trap no_regs 0 0 timer_cause 0 h' s' = Ret h2 s2.
Proof.
  destruct demo_first_call as (h' & s' & Hrun & _ & Ht).
  destruct (init_process_output demo_task demo_tf demo_t1 demo_t0 demo_addr 0 demo_lone demo_start h' s'
    demo_placed demo_lone_preemptible ltac:(by vm_compute) eq_refl eq_refl Hrun)
    as ((rounds & part & Et & Hpart) & _ & Htick).
  exists h', s'. split; [exact Ht|]. split; [exact Hrun|].
  split; [exists rounds, part; split; [exact Et|exact Hpart]|exact (Htick no_regs 0 0 0)].
Defined.

Lemma init_process_prints_witness : exists h' s',
  user_steps init_process demo_addr 0 no_regs 0 0 36 demo_start demo_lone = Ret h' s' /\
  tx s' = [105; 110; 105; 116; 10; 13; 105; 110; 105; 116; 10; 13].
Proof.
  destruct (init_process_prints demo_task demo_tf demo_t1 demo_t0 demo_addr 0 demo_lone demo_start no_regs 0 0 2
    demo_placed demo_lone_preemptible ltac:(by vm_compute) eq_refl eq_refl) as (h' & s' & E & _ & Et).
  exists h', s'. split; [exact E|exact Et].
Defined.
