(* ===== verification/AsyncCall.v ===== *)
(** * System calls served on the kernel stack of the process ([kernel/trap/process_handler.c])

    From the [ecall] of a process through [handle_async_trap] and back: the
    frame for traps is changed to the kernel's and back by mapping another page at
    its address. *)
From S2P Require Import Prelude Machine Objects Uart Scheduler Cpu Pages Vma VmaFence VmaSpace UserAccess TrapParser Process Syscalls Traps TrapEntry.

(** ** Mapping another frame *)

(** The page after the frame; nothing is mapped there. *)
Definition GUARD : Z := TRAPFRAME_ADDRESS + 4096.

Lemma guard_outside : ~ in_range TRAPFRAME_ADDRESS 1 GUARD.
Proof. intros [_ H]. vm_compute in H. discriminate. Qed.

Lemma frame_range_eq phys t s :
  range_mem TRAPFRAME_ADDRESS 1 phys 199 t s =
    wr (mem s) (t + 8 * 510) (pte ((phys - KERNEL_VMA_START) / 4096) 199).
Proof.
  unfold range_mem, new_entries, new_ppn. change (vpn TRAPFRAME_ADDRESS 0) with 510.
  change (upto 0 1) with [0]. cbn. by rewrite Z.add_0_r.
Qed.

(** The tables of the process that runs, with the frame's path in them. *)
Record frame_space (lv : nat -> gset Z) (owned : gset Z) (t1 t0 : Z) (s : kstate) : Prop := {
  fsp_space : space lv owned (satp_root s) (mem s);
  fsp_t1 : t1 ∈ lv 1%nat;
  fsp_t0 : t0 ∈ lv 0%nat;
  fsp_root_entry : rd (mem s) (satp_root s + 8 * 511) = create_branch t1;
  fsp_t1_entry : rd (mem s) (t1 + 8 * 511) = create_branch t0;
  fsp_guard : sv39_walk (mem s) (satp_root s) GUARD 2 = None;
}.

(** The entry that maps the frame at [phys]. *)
Definition frame_entry (phys : Z) : Z := pte ((phys - KERNEL_VMA_START) / 4096) 199.

Lemma table_there lv owned root s l T k t jmp :
  space lv owned root (mem s) -> T ∈ lv (S l) -> 0 <= k < 512 -> t ∈ lv l -> rd (mem s) (T + 8 * k) = create_branch t ->
  table_of_entry (elem64 T k) true jmp s = Ret t s.
Proof.
  intros Hs HT Hk Ht E. destruct (space_valid _ _ _ Hs HT Hk) as [Ek V]. unfold table_of_entry.
  rewrite Ek, (bind_Ret _ _ _ _ _ (load64_eq _ _ V)).
  destruct (table_present _ _ _ _ _ _ _ _ Hs HT Hk Ht E) as [-> Hne]. by replace (t =? 0) with false by lia.
Qed.

Section Remap.
Context (lv : nat -> gset Z) (owned : gset Z) (t1 t0 proc phys : Z) (s : kstate).
Hypothesis Hs : frame_space lv owned t1 t0 s.
Hypothesis Hproc : kblock proc sizeof_process.
Hypothesis Hroot : rd (mem s) (proc + 48) = satp_root s.
Hypothesis Hphys : page_ok phys.

Definition frame_fence : tlb_fence := 
  Sfence (Some TRAPFRAME_ADDRESS) (Some (if max_asid (vma s) =? 0 then 0 else rd (mem s) (proc + 56))).
Definition remapped : kstate := add_fences [frame_fence] (set_mem (wr (mem s) (t0 + 8 * 510) (frame_entry phys)) s).

Lemma frame_leaf_ok : 199 = 0 \/ (page_ok phys /\ phys + 1 * 4096 <= 18446744073709551616 /\
  0 <= 199 < 1024 /\ Z.testbit 199 0 = true /\ Z.land 199 14 <> 0).
Proof. right. split; [done|]. destruct Hphys as [[_ H1] H2]. split; [clear -H1 H2; dlia|]. split; [lia|done]. Qed.

Lemma map_trapframe_eq : map_trapframe proc phys s = Ret tt remapped.
Proof.
  destruct Hs as [Hsp H1 H0 E2 E1 Hg]. unfold map_trapframe. change (vma_map_kernel proc) with (vma_map 193 proc).
  assert (valid64 (proc + 48) /\ proc_vma_table proc = proc + 48 /\ valid64 (proc + 56) /\ proc_vma_addr_space_id proc = proc + 56)
    as (V1 & A1 & V2 & A2).
  { destruct (field_addr proc sizeof_process 48 Hproc ltac:(lia) ltac:(by compute) eq_refl) as [E48 ?],
      (field_addr proc sizeof_process 56 Hproc ltac:(lia) ltac:(by compute) eq_refl) as [E56 ?]. by split_and!. }
  rewrite (vma_map_eq 193 proc (satp_root s) (satp_root s) s); rewrite ?A1, ?A2; try done.
  change (Z.lor (Z.lor VMA_READ VMA_WRITE) 193) with 199. change KERNEL_PAGE_SIZE with (1 * 4096).
  destruct (range_stages (satp_root s) TRAPFRAME_ADDRESS 1 phys 199 (rd (mem s) (proc + 56)) s
    ltac:(right; zdone) eq_refl ltac:(done) ltac:(lia) ltac:(zdone) frame_leaf_ok TRAPFRAME_ADDRESS GUARD eq_refl eq_refl)
    as (rest & -> & Hrest).
  - unfold range_walk. by rewrite decide_True by (unfold in_range; lia).
  - unfold range_walk. by rewrite decide_False by (exact guard_outside).
  - change (vpn TRAPFRAME_ADDRESS 2) with 511 in *. change (vpn TRAPFRAME_ADDRESS 1) with 511 in *.
    pose proof (sp_root _ _ _ _ Hsp) as Hr.
    rewrite (bind_Ret _ _ _ _ _ (table_there _ _ _ _ 1 _ 511 t1 _ Hsp Hr ltac:(lia) H1 E2)).
    rewrite (bind_Ret _ _ _ _ _ (table_there _ _ _ _ 0 _ 511 t0 _ Hsp H1 ltac:(lia) H0 E1)).
    rewrite (Hrest t1 t0 lv owned s Hsp H1 H0 E2 E1 (fun _ => eq_refl)), frame_range_eq. reflexivity.
Qed.

Lemma remapped_space : frame_space lv owned t1 t0 remapped.
Proof.
  destruct Hs as [Hsp H1 H0 E2 E1 Hg].
  pose proof (range_space (satp_root s) TRAPFRAME_ADDRESS 1 phys 199 eq_refl ltac:(lia) ltac:(zdone) frame_leaf_ok t0 lv owned s Hsp H0) as Hsp'.
  pose proof (range_walks (satp_root s) TRAPFRAME_ADDRESS 1 phys 199 s ltac:(right; zdone) eq_refl ltac:(lia) ltac:(zdone) frame_leaf_ok
    t1 t0 lv owned s Hsp H1 H0 E2 E1 (fun _ => eq_refl) GUARD ltac:(right; zdone)) as Hw.
  rewrite frame_range_eq in Hsp', Hw. unfold range_walk in Hw. rewrite decide_False in Hw by (exact guard_outside).
  pose proof (sp_root _ _ _ _ Hsp) as Hr.
  assert (forall l b, b ∈ lv (S l) -> b + 8 * 511 <> t0 + 8 * 510) as Hne.
  { intros l b Hb. apply page_ok_ne; [by eapply table_ok|by eapply table_ok|lia|lia|]. left. intros ->.
    by pose proof (sp_apart _ _ _ _ Hsp _ _ _ Hb H0). }
  split; [exact Hsp'|done|done| | |by rewrite <- Hg].
  - change (rd (wr (mem s) (t0 + 8 * 510) (frame_entry phys)) (satp_root s + 8 * 511) = create_branch t1).
    rewrite rd_wr_ne; [done|]. intros E. by apply (Hne 1%nat (satp_root s)).
  - change (rd (wr (mem s) (t0 + 8 * 510) (frame_entry phys)) (t1 + 8 * 511) = create_branch t0).
    rewrite rd_wr_ne; [done|]. intros E. by apply (Hne 0%nat t1).
Qed.
End Remap.

(** ** What entering and leaving leave alone *)

Lemma frame_space_same lv owned t1 t0 s s' :
  satp s' = satp s -> (forall l t i, t ∈ lv l -> 0 <= i < 512 -> rd (mem s') (t + 8 * i) = rd (mem s) (t + 8 * i)) ->
  frame_space lv owned t1 t0 s -> frame_space lv owned t1 t0 s'.
Proof.
  intros Es Em [Hsp H1 H0 E2 E1 Hg]. assert (satp_root s' = satp_root s) as Er by (unfold satp_root; by rewrite Es).
  pose proof (sp_root _ _ _ _ Hsp) as Hr.
  split; rewrite ?Er; [|done|done|by rewrite (Em 2%nat _ 511 Hr)|by rewrite (Em 1%nat _ 511 H1)|].
  - destruct Hsp as [S1 S2 S3 S4 S5]. split; [done|done|done| |].
    + intros l t i Ht Hi. rewrite (Em l t i Ht Hi). by apply S4.
    + intros l a b i j t Ha Hb Hi Hj Ht. rewrite (Em _ _ _ Ha Hi), (Em _ _ _ Hb Hj). exact (S5 l a b i j t Ha Hb Hi Hj Ht).
  - rewrite <- Hg. apply (walk_frame lv owned (satp_root s)); [done|done|]. intros l b j _ Hb Hj. exact (Em l b j Hb Hj).
Qed.

(** The process of the call: its own frame, the frame [ktf] for traps of the
    kernel on its behalf, and tables apart from both and from its struct. *)
Record callable (lv : nat -> gset Z) (owned : gset Z) (proc tf ktf t1 t0 : Z) (s : kstate) : Prop := {
  ca_running : running proc tf t1 t0 s;
  ca_space : frame_space lv owned t1 t0 s;
  ca_root : rd (mem s) (proc + 48) = satp_root s;
  ca_tf : rd (mem s) (proc + 24) = tf;
  ca_ktf : rd (mem s) (proc + 32) = ktf;
  ca_page : page_ok ktf;
  ca_proc l t : t ∈ lv l -> t + 4096 <= proc \/ proc + sizeof_process <= t;
  ca_frame l t : t ∈ lv l -> t <> tf;
  ca_state : past_state proc s = trap_state_code PROC_TRAP_PROCESS;
}.

(** What a handler may not change while the frame of the process is away. *)
Record unharmed (lv : nat -> gset Z) (proc tf : Z) (s s' : kstate) : Prop := {
  un_satp : satp s' = satp s;
  un_vma : vma s' = vma s;
  un_tables l t i : t ∈ lv l -> 0 <= i < 512 -> rd (mem s') (t + 8 * i) = rd (mem s) (t + 8 * i);
  un_proc k : 0 <= k < 64 -> k mod 8 = 0 -> rd (mem s') (proc + k) = rd (mem s) (proc + k);
  un_frame k : 0 <= k < 288 -> k mod 8 = 0 -> rd (mem s') (tf + k) = rd (mem s) (tf + k);
}.

Section Async.
Context (lv : nat -> gset Z) (owned : gset Z) (proc tf ktf t1 t0 : Z).

Definition leaf_word : Z := t0 + 8 * 510.

Lemma state_store v s : kblock proc sizeof_process -> store32 (proc_trap_state proc) v s = Ret tt (with_state proc s v).
Proof. intros H. apply (store_narrow proc sizeof_process); [done|right; right; by left|by compute..]. Qed.

Lemma state_word_of : kblock proc sizeof_process -> word_of (proc + 16) = proc + 16.
Proof. intros (_ & _ & H). unfold word_of. clear -H. dlia. Qed.

(** The frame at [phys] is mapped and the trap state is [v]. *)
Definition frame_switched (phys v : Z) (s : kstate) : kstate := with_state proc (remapped t0 proc phys s) v.

Lemma switched_mem phys v s :
  mem (frame_switched phys v s) = wr_field 4 (wr (mem s) leaf_word (frame_entry phys)) (proc + 16) v.
Proof. done. Qed.

Lemma frame_switched_rd phys v s a : kblock proc sizeof_process -> a <> proc + 16 -> a <> leaf_word ->
  rd (mem (frame_switched phys v s)) a = rd (mem s) a.
Proof.
  intros Hk H16 Hl. rewrite switched_mem.
  rewrite rd_wr_field_word by (rewrite state_word_of; done). by rewrite rd_wr_ne.
Qed.

Lemma switched_leaf phys v s : kblock proc sizeof_process -> leaf_word <> proc + 16 ->
  rd (mem (frame_switched phys v s)) leaf_word = wrap64 (frame_entry phys).
Proof.
  intros Hk H16. rewrite switched_mem.
  rewrite rd_wr_field_word by (rewrite state_word_of; done). apply rd_wr_eq.
Qed.

Lemma switched_state phys v s : kblock proc sizeof_process -> 0 <= v < 4294967296 -> past_state proc (frame_switched phys v s) = v.
Proof.
  intros (_ & _ & H8) Hv. unfold past_state. rewrite switched_mem.
  rewrite rd_wr_field; [by apply Z.mod_small|right; right; by left|]. clear -H8. dlia.
Qed.

(** The change of frame as the handler makes it, on entry and at the end. *)
Record changeable (phys : Z) (s : kstate) : Prop := {
  ch_space : frame_space lv owned t1 t0 s;
  ch_proc : kblock proc sizeof_process;
  ch_root : rd (mem s) (proc + 48) = satp_root s;
  ch_phys : page_ok phys;
  ch_apart l t : t ∈ lv l -> t + 4096 <= proc \/ proc + sizeof_process <= t;
}.

Section Change.
Context (phys v : Z) (s : kstate) (Hc : changeable phys s).

Lemma change_eq : (map_trapframe proc phys ;; store32 (proc_trap_state proc) v) s = Ret tt (frame_switched phys v s).
Proof.
  destruct Hc as [Hs Hp Hr Hph _].
  rewrite (bind_Ret _ _ _ _ _ (map_trapframe_eq lv owned t1 t0 proc phys s Hs Hp Hr Hph)). by apply state_store.
Qed.

Lemma change_space : frame_space lv owned t1 t0 (frame_switched phys v s).
Proof.
  destruct Hc as [Hs Hp Hr Hph Ha].
  apply (frame_space_same lv owned t1 t0 (remapped t0 proc phys s)); [done| |by apply remapped_space].
  intros l t i Ht Hi. apply rd_wr_field_word. rewrite state_word_of by done. specialize (Ha l t Ht). unfold sizeof_process in Ha. lia.
Qed.

Lemma leaf_apart k : 0 <= k < 192 -> leaf_word <> proc + k.
Proof. intros Hk E. pose proof (ch_apart _ _ Hc _ _ (fsp_t0 _ _ _ _ _ (ch_space _ _ Hc))) as H. unfold leaf_word, sizeof_process in *. lia. Qed.

Lemma change_proc k : 0 <= k < 192 -> k <> 16 -> rd (mem (frame_switched phys v s)) (proc + k) = rd (mem s) (proc + k).
Proof. intros Hk Hn. apply frame_switched_rd; [apply Hc|lia|]. intros E. by apply (leaf_apart k). Qed.

End Change.

(** ** The handler on the kernel stack *)

Section Handler.
Context (stale : Z) (s : kstate).
Hypothesis Hc : callable lv owned proc tf ktf t1 t0 s.
Hypothesis Hcause : frame_cause tf s = 8.

Definition call_trap : trap_data := trap_of tf stale s TRAP_TYPE_EXCEPTION TRAP_MODE_USER TRAP_SYSCALL.
(** The state in which the system call is served. *)
Definition in_call : kstate := set_irq true (frame_switched ktf 2 s).

Lemma call_parse : trapframe_parse stale s = Ret call_trap s.
Proof. by rewrite (trapframe_parse_eq tf t1 t0 stale s (rn_frame _ _ _ _ _ (ca_running _ _ _ _ _ _ _ _ Hc))), Hcause. Qed.

Lemma call_process : process_ptr call_trap = proc.
Proof. exact (rn_ptr _ _ _ _ _ (ca_running _ _ _ _ _ _ _ _ Hc)). Qed.

Lemma call_proc : kblock proc sizeof_process.
Proof. exact (rn_proc _ _ _ _ _ (ca_running _ _ _ _ _ _ _ _ Hc)). Qed.

Lemma call_changeable : changeable ktf s.
Proof. pose proof call_proc. by destruct Hc. Qed.

Lemma enter_call : enter_async call_trap (trap_state_code PROC_TRAP_PROCESS) s = Ret tt (frame_switched ktf 2 s).
Proof.
  unfold enter_async. rewrite call_process. cbn [state_of_code trap_state_code]. unfold proc_kernelspace_trapframe.
  rewrite (bind_Ret _ _ _ _ _ (load_field_addr proc sizeof_process 32 s call_proc ltac:(lia) ltac:(by compute) eq_refl)).
  rewrite (ca_ktf _ _ _ _ _ _ _ _ Hc). exact (change_eq ktf 2 s call_changeable).
Qed.

Lemma in_call_proc k : 0 <= k < 192 -> k <> 16 -> rd (mem in_call) (proc + k) = rd (mem s) (proc + k).
Proof. intros. by apply (change_proc ktf 2 s call_changeable). Qed.

Lemma frame_apart k : 0 <= k < 4096 -> tf + k <> proc + 16 /\ tf + k <> leaf_word.
Proof.
  intros Hk. destruct (ca_running _ _ _ _ _ _ _ _ Hc) as [_ _ _ Ha _ Hp].
  split; [lia|]. specialize (Hp leaf_word ltac:(right; by right)). lia.
Qed.

Lemma in_call_frame k : 0 <= k < 4096 -> rd (mem in_call) (tf + k) = rd (mem s) (tf + k).
Proof. intros Hk. destruct (frame_apart k Hk). by apply frame_switched_rd; [apply call_proc| |]. Qed.

(** The handler up to the system call. *)
Lemma handle_async_enter : handle_async_trap stale s =
  ('(t, response) ← interruptable_trap_syscall call_trap no_response;
   irq_disable ;; leave_async t (trap_state_code PROC_TRAP_PROCESS) ;; store32 (proc_trap_state proc) 0 ;; answer t response) in_call.
Proof.
  unfold handle_async_trap. rewrite (bind_Ret _ _ _ _ _ call_parse). cbv beta zeta. rewrite call_process.
  rewrite (bind_Ret _ _ _ _ _ (load_trap_state proc tf t1 t0 s (ca_running _ _ _ _ _ _ _ _ Hc))), (ca_state _ _ _ _ _ _ _ _ Hc).
  rewrite (bind_Ret _ _ _ _ _ enter_call). unfold irq_enable. by erewrite bind_Ret by reflexivity.
Qed.

Lemma handle_async_panics msg v1 v2 v3 :
  syscall_async_handler call_trap in_call = Panic msg v1 v2 v3 -> handle_async_trap stale s = Panic msg v1 v2 v3.
Proof. intros E. rewrite handle_async_enter. unfold interruptable_trap_syscall. rewrite bind_assoc. by apply bind_Panic. Qed.

(** What the system call leaves: [sF], and the trap with its result. *)
Context (t : trap_data) (sF : kstate).
Hypothesis Hserved : syscall_async_handler call_trap in_call = Ret (TRAP_HANDLED, t) sF.
Hypothesis Ht : process_ptr t = proc.
Hypothesis Hun : unharmed lv proc tf in_call sF.

Lemma left_changeable : changeable tf (set_irq false sF).
Proof.
  pose proof call_changeable as Hch. destruct Hun as [Us _ Ut Up Uf].
  assert (satp_root sF = satp_root s) as Er by (unfold satp_root; by rewrite Us).
  pose proof (fr_tf _ _ _ _ (rn_frame _ _ _ _ _ (ca_running _ _ _ _ _ _ _ _ Hc))) as Htf.
  split; [|apply Hch| |done|apply Hch].
  - apply (frame_space_same lv owned t1 t0 (frame_switched ktf 2 s)); [done|done|by apply change_space].
  - change (rd (mem sF) (proc + 48) = satp_root sF). rewrite Up by (lia || done).
    rewrite in_call_proc, Er by lia. apply Hc.
Qed.

Definition left_call : kstate := frame_switched tf 0 (set_irq false sF).

Lemma leave_call : leave_async t (trap_state_code PROC_TRAP_PROCESS) (set_irq false sF) = Ret tt (remapped t0 proc tf (set_irq false sF)).
Proof.
  unfold leave_async. rewrite Ht. cbn [state_of_code trap_state_code]. unfold proc_userspace_trapframe.
  rewrite (bind_Ret _ _ _ _ _ (load_field_addr proc sizeof_process 24 (set_irq false sF) call_proc ltac:(lia) ltac:(by compute) eq_refl)).
  change (mem (set_irq false sF)) with (mem sF). rewrite (un_proc _ _ _ _ _ Hun) by (lia || done).
  rewrite in_call_proc, (ca_tf _ _ _ _ _ _ _ _ Hc) by lia. destruct left_changeable as [? ? ? ? _]. by apply (map_trapframe_eq lv owned t1 t0).
Qed.

Lemma left_frame k : 0 <= k < 288 -> k mod 8 = 0 -> rd (mem left_call) (tf + k) = rd (mem s) (tf + k).
Proof.
  intros Hk Hm. destruct (frame_apart k ltac:(lia)). unfold left_call.
  rewrite frame_switched_rd by (done || apply call_proc). change (mem (set_irq false sF)) with (mem sF).
  rewrite (un_frame _ _ _ _ _ Hun) by done. apply in_call_frame. lia.
Qed.

Lemma frame_entry_u64 : wrap64 (frame_entry tf) = frame_entry tf.
Proof.
  unfold frame_entry. rewrite <- (fr_leaf _ _ _ _ (rn_frame _ _ _ _ _ (ca_running _ _ _ _ _ _ _ _ Hc))).
  apply wrap64_small, rd_u64.
Qed.

Lemma left_running : running proc tf t1 t0 left_call.
Proof.
  pose proof left_changeable as Hch. pose proof (change_space tf 0 _ Hch) as [Sp _ _ B1 B0 _].
  assert (satp_root left_call = satp_root s) as Er by (unfold satp_root; change (satp left_call) with (satp sF); by rewrite (un_satp _ _ _ _ _ Hun)).
  destruct (ca_running _ _ _ _ _ _ _ _ Hc) as [[F1 F2 F3 F4 _ _ _] Hp Hptr Hap H1 H2]. split; [|done| |done| |].
  - split; rewrite ?Er; [done..|by rewrite <- Er|done|]. unfold left_call. fold leaf_word. rewrite switched_leaf; [apply frame_entry_u64|done|].
    by apply (leaf_apart _ _ Hch).
  - by rewrite left_frame.
  - intros a Ha. apply H1. revert Ha. unfold on_path. by rewrite Er.
  - intros a Ha. apply H2. revert Ha. unfold on_path. by rewrite Er.
Qed.

(** Memory after the call, but for the words of entering and leaving. *)
Lemma left_rd a : a <> proc + 16 -> a <> leaf_word -> rd (mem left_call) a = rd (mem sF) a.
Proof.
  intros. change (mem sF) with (mem (set_irq false sF)). by apply frame_switched_rd; [apply call_proc| |].
Qed.

(** The state the handler ends in: the frame is back, and the next instruction is in it. *)
Definition after_call : kstate := set_mem (wr (mem left_call) (tf + 256) (rd (mem s) (tf + 256) ⊕ 4)) left_call.

Lemma handle_async_eq : handle_async_trap stale s = Ret tt after_call.
Proof.
  rewrite handle_async_enter. unfold interruptable_trap_syscall. rewrite !bind_assoc, (bind_Ret _ _ _ _ _ Hserved). cbn [mret M_ret].
  erewrite bind_Ret by reflexivity. cbv beta iota. erewrite bind_Ret by reflexivity.
  rewrite (bind_Ret _ _ _ _ _ leave_call). rewrite (bind_Ret _ _ _ _ _ (state_store _ _ call_proc)). fold (frame_switched tf 0 (set_irq false sF)).
  fold left_call. unfold answer. cbn [send_response skip_instruction kill no_response Z.eqb TRAP_HANDLED TRAP_UNHANDLED orb when].
  unfold trap_data_iter_instruction, tf_sepc.
  pose proof (rn_frame _ _ _ _ _ left_running) as Hf.
  erewrite bind_Ret by reflexivity. rewrite !bind_assoc, (bind_Ret _ _ _ _ _ (load_tf_eq tf t1 t0 left_call Hf 256 ltac:(lia) eq_refl)).
  rewrite left_frame by (lia || done).
  by rewrite (bind_Ret _ _ _ _ _ (store_tf_eq tf t1 t0 left_call Hf 256 _ ltac:(lia) eq_refl)).
Qed.

Lemma after_rd a : a <> proc + 16 -> a <> leaf_word -> a <> tf + 256 -> rd (mem after_call) a = rd (mem sF) a.
Proof. intros. unfold after_call. cbn [mem set_mem]. rewrite rd_wr_ne by done. by apply left_rd. Qed.

Lemma after_leaf : rd (mem after_call) leaf_word = rd (mem s) leaf_word.
Proof.
  pose proof left_changeable as Hch. destruct (frame_apart 256 ltac:(lia)) as [_ Hne]. unfold after_call. cbn [mem set_mem].
  rewrite rd_wr_ne by done. unfold left_call. rewrite switched_leaf by (apply call_proc || by apply (leaf_apart _ _ Hch)).
  rewrite frame_entry_u64. symmetry. exact (fr_leaf _ _ _ _ (rn_frame _ _ _ _ _ (ca_running _ _ _ _ _ _ _ _ Hc))).
Qed.

Lemma after_frame k : 0 <= k < 288 -> k mod 8 = 0 -> k <> 256 -> rd (mem after_call) (tf + k) = rd (mem s) (tf + k).
Proof. intros Hk Hm Hne. unfold after_call. cbn [mem set_mem]. rewrite rd_wr_ne by lia. by apply left_frame. Qed.

Lemma after_pc : rd (mem after_call) (tf + 256) = rd (mem s) (tf + 256) ⊕ 4.
Proof. unfold after_call. cbn [mem set_mem]. by rewrite rd_wr_eq, wrap64_idem. Qed.
End Handler.

(** ** The process can call again *)

Lemma table_word_off_frame l t i s : callable lv owned proc tf ktf t1 t0 s -> t ∈ lv l -> 0 <= i < 512 ->
  t + 8 * i < tf \/ tf + 4096 <= t + 8 * i.
Proof.
  intros Hc Ht Hi. pose proof (ca_frame _ _ _ _ _ _ _ _ Hc l t Ht) as Hne.
  destruct (table_ok _ _ _ _ (fsp_space _ _ _ _ _ (ca_space _ _ _ _ _ _ _ _ Hc)) _ _ Ht) as [_ A].
  destruct (fr_tf _ _ _ _ (rn_frame _ _ _ _ _ (ca_running _ _ _ _ _ _ _ _ Hc))) as [_ B]. clear -Hne A B Hi. dlia.
Qed.

Lemma callable_words s s' :
  callable lv owned proc tf ktf t1 t0 s -> satp s' = satp s ->
  (forall l t i, t ∈ lv l -> 0 <= i < 512 -> rd (mem s') (t + 8 * i) = rd (mem s) (t + 8 * i)) ->
  (forall k, 24 <= k < 64 -> k mod 8 = 0 -> rd (mem s') (proc + k) = rd (mem s) (proc + k)) ->
  rd (mem s') (tf + 280) = rd (mem s) (tf + 280) -> past_state proc s' = 0 ->
  callable lv owned proc tf ktf t1 t0 s'.
Proof.
  intros Hc Es Et Ep Ef Ez. pose proof Hc as [R S A B C D E F _].
  assert (satp_root s' = satp_root s) as Er by (unfold satp_root; by rewrite Es).
  split; rewrite ?Ep, ?Er by (lia || done); try done; [|by apply (frame_space_same _ _ _ _ s)].
  pose proof (sp_root _ _ _ _ (fsp_space _ _ _ _ _ S)) as Hroot.
  apply (running_words _ _ _ _ s); [done| |done]. intros a [[->|[->| ->]]| ->]; [..|done].
  - by apply (Et 2%nat).
  - apply (Et 1%nat); [by apply S|lia].
  - apply (Et 0%nat); [by apply S|lia].
Qed.

Lemma proc_word_apart l t i k s : callable lv owned proc tf ktf t1 t0 s -> t ∈ lv l -> 0 <= i < 512 -> 0 <= k < 192 -> t + 8 * i <> proc + k.
Proof. intros Hc Ht Hi Hk. pose proof (ca_proc _ _ _ _ _ _ _ _ Hc l t Ht) as H. unfold sizeof_process in H. lia. Qed.

Lemma after_call_callable s sF :
  callable lv owned proc tf ktf t1 t0 s -> unharmed lv proc tf (in_call s) sF ->
  callable lv owned proc tf ktf t1 t0 (after_call s sF).
Proof.
  intros Hc Hun.
  pose proof (call_proc s Hc) as Hp.
  apply (callable_words s); [done|exact (un_satp _ _ _ _ _ Hun)| | | |].
  - intros l b i Hb Hi. destruct (Z.eq_dec (b + 8 * i) leaf_word) as [->|Hne]; [by apply after_leaf|].
    pose proof (proc_word_apart l b i 16 s Hc Hb Hi ltac:(lia)). pose proof (table_word_off_frame l b i s Hc Hb Hi).
    rewrite after_rd by (done || lia). rewrite (un_tables _ _ _ _ _ Hun l) by done. by apply frame_switched_rd.
  - intros k Hk Hm. pose proof (rn_apart _ _ _ _ _ (ca_running _ _ _ _ _ _ _ _ Hc)) as Ha.
    pose proof (proc_word_apart 0 t0 510 k s Hc (fsp_t0 _ _ _ _ _ (ca_space _ _ _ _ _ _ _ _ Hc)) ltac:(lia) ltac:(lia)) as Hne.
    rewrite after_rd by (done || (unfold leaf_word; lia)). rewrite (un_proc _ _ _ _ _ Hun) by (lia || done). apply in_call_proc; [done|lia..].
  - by rewrite after_frame.
  - pose proof (rn_apart _ _ _ _ _ (ca_running _ _ _ _ _ _ _ _ Hc)) as Ha.
    unfold past_state, after_call. cbn [mem set_mem]. rewrite rd_field_wr by (rewrite state_word_of by done; lia).
    by apply switched_state.
Qed.

(** ** From the instruction of the process and back *)

(** The first handler leaves every call but the console's to the second. *)
Lemma sync_leaves stale s :
  callable lv owned proc tf ktf t1 t0 s -> frame_cause tf s = 8 -> rd (mem s) (tf + 72) <> SYSCALL_UART_PRINT ->
  handle_sync_trap stale s = Ret process_stack (with_state proc (with_state proc s 1) 0).
Proof.
  intros Hc Hcause Hne. pose proof (ca_running _ _ _ _ _ _ _ _ Hc) as Hr.
  rewrite (handle_sync_enter proc tf t1 t0 s Hr stale _ _ _ ltac:(rewrite Hcause; reflexivity)).
  rewrite (ca_state _ _ _ _ _ _ _ _ Hc). cbn [trap_state_code].
  set (trap := trap_of _ _ _ _ _ _).
  assert (dispatch_sync_trap trap 0 (with_state proc s 1) = Ret TRAP_UNHANDLED (with_state proc s 1)) as E.
  { unfold dispatch_sync_trap. change (code trap) with TRAP_SYSCALL. cbv iota. unfold uninterruptible_trap_syscall, syscall_sync_handler.
    change (arg0_reg trap) with (rd (mem s) (tf + 72)). destruct (Z.eqb_spec (rd (mem s) (tf + 72)) SYSCALL_UART_PRINT); [done|].
    by erewrite bind_Ret by reflexivity. }
  rewrite (bind_Ret _ _ _ _ _ E), (bind_Ret _ _ _ _ _ (state_store _ _ (rn_proc _ _ _ _ _ Hr))). done.
Qed.

(** The system call of [h] is about to be served in [sE]. *)
Record entered (h : hart) (s : kstate) (trap : trap_data) (sE : kstate) : Prop := {
  en_shape : sE = set_irq true (set_mem (mem sE) (add_fences [frame_fence proc s] s));
  en_mem a : a <> proc + 16 -> a <> leaf_word -> a < tf \/ tf + 280 <= a -> rd (mem sE) a = rd (mem s) a;
  en_process : process_ptr trap = proc;
  en_arg0 : arg0_reg trap = reg h a0;
  en_arg1 : arg1_reg trap = reg h a1;
  en_arg2 : arg2_reg trap = reg h a2;
  en_arg3 : arg3_reg trap = reg h a3;
}.

(** The process is back in [s'], and the call left [sF]. *)
Record came_back (s sF s' : kstate) : Prop := {
  cb_shape : s' = set_irq (irq_on s) (set_sum (sum_on s) (set_mem (mem s') (add_fences [frame_fence proc s] sF)));
  cb_leaf : rd (mem s') leaf_word = rd (mem s) leaf_word;
  cb_mem a : a <> proc + 16 -> a <> leaf_word -> a < tf \/ tf + 280 <= a -> rd (mem s') a = rd (mem sF) a;
}.

Lemma saved_callable h s m : callable lv owned proc tf ktf t1 t0 s -> user_saved tf 8 h s m ->
  callable lv owned proc tf ktf t1 t0 (set_mem m (set_irq false s)).
Proof.
  intros Hc [_ _ Ho]. pose proof (rn_apart _ _ _ _ _ (ca_running _ _ _ _ _ _ _ _ Hc)) as Ha. pose proof (call_proc s Hc) as Hp.
  apply (callable_words s); [done|done| | | |]; cbn [mem set_mem].
  - intros l t i Ht Hi. apply Ho. pose proof (table_word_off_frame l t i s Hc Ht Hi). lia.
  - intros k Hk _. apply Ho. lia.
  - apply Ho. lia.
  - unfold past_state, rd_field. rewrite state_word_of by done. cbn [mem set_mem]. rewrite Ho by lia.
    pose proof (ca_state _ _ _ _ _ _ _ _ Hc) as E. unfold past_state, rd_field in E. by rewrite state_word_of in E.
Qed.

Lemma with_state_callable s : callable lv owned proc tf ktf t1 t0 s ->
  callable lv owned proc tf ktf t1 t0 (with_state proc (with_state proc s 1) 0).
Proof.
  intros Hc. pose proof (ca_running _ _ _ _ _ _ _ _ Hc) as Hr. pose proof (rn_apart _ _ _ _ _ Hr) as Ha. pose proof (call_proc s Hc) as Hp.
  pose proof (with_state_running _ _ _ _ _ Hr 1) as Hr1.
  assert (forall a, a <> proc + 16 -> rd (mem (with_state proc (with_state proc s 1) 0)) a = rd (mem s) a) as W.
  { intros a Hne. rewrite (with_state_rd _ _ _ _ _ Hr1 0 a Hne). exact (with_state_rd _ _ _ _ _ Hr 1 a Hne). }
  apply (callable_words s); [done|done| | | |].
  - intros l t i Ht Hi. apply W. exact (proc_word_apart l t i 16 s Hc Ht Hi ltac:(lia)).
  - intros k Hk _. apply W. lia.
  - apply W. lia.
  - unfold past_state, with_state at 1. cbn [mem set_mem]. rewrite rd_wr_field; [done|right; right; by left|].
    destruct Hp as (_ & _ & H8). clear -H8. dlia.
Qed.

Section Call.
Context (left_over : gmap Z Z -> gmap Z Z) (stale stacks : Z) (s : kstate) (h : hart) (value : Z).
Hypothesis Hc : callable lv owned proc tf ktf t1 t0 s.
Hypothesis Ha : attached s.
Hypothesis Hu : mode h = TRAP_MODE_USER.
Hypothesis Hpc : u64 (pc h).
Hypothesis Hcall : reg h a0 <> SYSCALL_UART_PRINT.

(** Between the two handlers: the registers are in the frame, in memory [m]. *)
Section Between.
Context (m : gmap Z Z) (Hsv : user_saved tf 8 h s m).

Definition between : kstate := with_state proc (with_state proc (set_mem m (set_irq false s)) 1) 0.

Lemma between_callable : callable lv owned proc tf ktf t1 t0 between.
Proof. apply with_state_callable. by apply (saved_callable h). Qed.

Lemma between_rd a : a <> proc + 16 -> rd (mem between) a = rd m a.
Proof.
  intros Hne. pose proof (ca_running _ _ _ _ _ _ _ _ (saved_callable h s m Hc Hsv)) as Hr.
  pose proof (with_state_running _ _ _ _ _ Hr 1) as Hr1. unfold between. rewrite (with_state_rd _ _ _ _ _ Hr1 0 a Hne).
  exact (with_state_rd _ _ _ _ _ Hr 1 a Hne).
Qed.

Lemma between_frame k : 0 <= k < 4096 -> rd (mem between) (tf + k) = rd m (tf + k).
Proof. intros Hk. apply between_rd. pose proof (rn_apart _ _ _ _ _ (ca_running _ _ _ _ _ _ _ _ Hc)). lia. Qed.

Lemma between_cause : frame_cause tf between = 8.
Proof. unfold frame_cause. rewrite between_frame by lia. apply Hsv. Qed.

Lemma between_fence : frame_fence proc between = frame_fence proc s.
Proof.
  pose proof (rn_apart _ _ _ _ _ (ca_running _ _ _ _ _ _ _ _ Hc)). unfold frame_fence.
  change (vma between) with (vma s). by rewrite between_rd, (us_other _ _ _ _ _ Hsv) by lia.
Qed.

Lemma saved_arg n : 10 <= n < 14 -> rd m (tf + 8 * (n - 1)) = reg h n.
Proof. intros Hn. exact (uf_regs _ _ _ _ (us_frame _ _ _ _ _ Hsv) n ltac:(lia)). Qed.

Lemma between_entered : entered h s (call_trap stale between) (in_call between).
Proof.
  pose proof between_callable as Hc2. split; [| |exact (call_process stale between Hc2)|..].
  - unfold in_call, frame_switched, remapped. rewrite between_fence. done.
  - intros a H1 H2 H3. change (mem (in_call between)) with (mem (frame_switched ktf 2 between)).
    rewrite frame_switched_rd by (done || exact (call_proc between Hc2)). rewrite between_rd by done. by apply Hsv.
  - change (rd (mem between) (tf + 8 * (10 - 1)) = reg h 10). by rewrite between_frame, saved_arg by lia.
  - change (rd (mem between) (tf + 8 * (11 - 1)) = reg h 11). by rewrite between_frame, saved_arg by lia.
  - change (rd (mem between) (tf + 8 * (12 - 1)) = reg h 12). by rewrite between_frame, saved_arg by lia.
  - change (rd (mem between) (tf + 8 * (13 - 1)) = reg h 13). by rewrite between_frame, saved_arg by lia.
Qed.

Lemma sync_to_between : handle_sync_trap stale (set_mem m (set_irq false s)) = Ret process_stack between.
Proof.
  apply sync_leaves; [by apply (saved_callable h)|apply Hsv|].
  change (rd m (tf + 8 * (10 - 1)) <> SYSCALL_UART_PRINT). by rewrite saved_arg by lia.
Qed.

Context (sF : kstate) (Hun : unharmed lv proc tf (in_call between) sF).

(** The frame after the call, as the process is resumed from it. *)
Lemma resumed_frame k : 0 <= k < 288 -> k mod 8 = 0 -> k <> 256 -> rd (mem (after_call between sF)) (tf + k) = rd m (tf + k).
Proof. intros Hk Hm Hne. rewrite (after_frame between between_callable sF Hun) by done. apply between_frame. lia. Qed.

Lemma resumed_call h' : resumed tf (mem (after_call between sF)) h' -> same_user (set_pc (pc h ⊕ 4) h) h'.
Proof.
  intros [Rr Rp Rm]. destruct (us_frame _ _ _ _ _ Hsv) as [R P A _ _]. rewrite resumed_frame in Rm by (lia || done). rewrite A in Rm.
  split; [| |done].
  - intros n Hn. rewrite Rr by done. change (reg (set_pc _ h) n) with (reg h n). unfold frame_reg.
    destruct (offset_range n Hn) as [O1 O2]. rewrite resumed_frame by lia. by apply R.
  - rewrite Rp, (after_pc between sF), between_frame, P by lia. by rewrite (wrap64_small (pc h)) by done.
Qed.

Lemma resumed_came_back : came_back s sF (set_irq (irq_on s) (set_sum (sum_on s) (after_call between sF))).
Proof.
  pose proof (fsp_t0 _ _ _ _ _ (ca_space _ _ _ _ _ _ _ _ Hc)) as H0. pose proof between_callable as Hc2. split.
  - assert (frame_fence proc (set_irq false sF) = frame_fence proc s) as Ef.
    { rewrite <- between_fence. unfold frame_fence. change (mem (set_irq false sF)) with (mem sF).
      change (vma (set_irq false sF)) with (vma sF). rewrite (un_vma _ _ _ _ _ Hun). change (vma (in_call between)) with (vma between).
      by rewrite (un_proc _ _ _ _ _ Hun), (in_call_proc between Hc2) by (lia || done). }
    unfold after_call, left_call, frame_switched, remapped. rewrite Ef. done.
  - change (rd (mem (after_call between sF)) leaf_word = rd (mem s) leaf_word). rewrite (after_leaf between Hc2 sF Hun).
    pose proof (table_word_off_frame 0 t0 510 s Hc H0 ltac:(lia)). pose proof (proc_word_apart 0 t0 510 16 s Hc H0 ltac:(lia) ltac:(lia)).
    unfold leaf_word. rewrite between_rd by done. apply Hsv. lia.
  - intros a H1 H2 H3. change (rd (mem (after_call between sF)) a = rd (mem sF) a). apply (after_rd between Hc2 sF); [done|done|lia].
Qed.
End Between.

(** A call in which [syscall_async_handler] panics is a panic.  One that it serves, with
    the effect [Q], comes back to the process: at the next instruction, with every register as it was. *)
Lemma call_returns (Q : kstate -> kstate -> Prop) :
  (forall t sE, entered h s t sE ->
     (exists msg v1 v2 v3, syscall_async_handler t sE = Panic msg v1 v2 v3) \/
     exists t' sF, syscall_async_handler t sE = Ret (TRAP_HANDLED, t') sF /\
       process_ptr t' = proc /\ unharmed lv proc tf sE sF /\ Q sE sF) ->
  (exists t sE msg v1 v2 v3, entered h s t sE /\ syscall_async_handler t sE = Panic msg v1 v2 v3 /\
     trap left_over stale stacks 8 value h s = Panic msg v1 v2 v3) \/
  exists t sE sF h' s', entered h s t sE /\ Q sE sF /\
    trap left_over stale stacks 8 value h s = Ret h' s' /\ same_user (set_pc (pc h ⊕ 4) h) h' /\
    came_back s sF s' /\ callable lv owned proc tf ktf t1 t0 s'.
Proof.
  intros Hserve.
  destruct (user_trap_both left_over stale stacks proc tf t1 t0 s h 8 value (ca_running _ _ _ _ _ _ _ _ Hc) Ha Hu)
    as (m & _ & Hsv & Hgo & Hpanic).
  pose proof (between_callable m Hsv) as Hc2. pose proof (between_cause m Hsv) as Hcause.
  pose proof (sync_to_between m Hsv) as E1. pose proof (between_entered m Hsv) as Hen. set (s2 := between m) in *.
  destruct (Hserve _ _ Hen) as [(msg & v1 & v2 & v3 & Es)|(t & sF & Es & Et & Hun & HQ)].
  - left. exists (call_trap stale s2), (in_call s2), msg, v1, v2, v3. split; [done|]. split; [done|].
    apply (Hpanic process_stack s2); [done|done|]. by apply (handle_async_panics stale s2 Hc2 Hcause).
  - right. pose proof (after_call_callable s2 sF Hc2 Hun) as Hc3.
    destruct (Hgo process_stack s2 (after_call s2 sF) tf t1 t0 E1 (handle_async_eq stale s2 Hc2 Hcause t sF Es Et Hun)
      (running_frame _ _ _ _ _ (ca_running _ _ _ _ _ _ _ _ Hc3))) as (h' & E & Hres).
    pose proof (resumed_frame m Hsv sF Hun 272 ltac:(lia) eq_refl ltac:(lia)) as E272. fold s2 in E272.
    rewrite E272 in E. unfold resume_bits in E.
    destruct (us_frame _ _ _ _ _ Hsv) as [_ _ _ B C]. rewrite B, C in E.
    exists (call_trap stale s2), (in_call s2), sF, h', (set_irq (irq_on s) (set_sum (sum_on s) (after_call s2 sF))).
    split; [done|]. split; [done|]. split; [exact E|]. split; [by apply (resumed_call m Hsv sF Hun)|].
    split; [by apply resumed_came_back|]. apply (callable_words (after_call s2 sF)); [done..|]. exact (ca_state _ _ _ _ _ _ _ _ Hc3).
Qed.
End Call.

(** ** Seek *)

(** The descriptor [desc] of number [id], apart from the process, its frame and its tables. *)
Record seekable (table id desc : Z) (s : kstate) : Prop := {
  sk_table : fd_table proc table s;
  sk_id : 0 <= id < 510;
  sk_slot : fd_slot table (id + 1) s = desc;
  sk_desc : kblock desc sizeof_file_descriptor;
  sk_table_proc : table + 4096 <= proc \/ proc + sizeof_process <= table;
  sk_table_frame : table + 4096 <= tf \/ tf + 4096 <= table;
  sk_desc_proc : desc + sizeof_file_descriptor <= proc \/ proc + sizeof_process <= desc;
  sk_desc_frame : desc + sizeof_file_descriptor <= tf \/ tf + 4096 <= desc;
  sk_tables l t : t ∈ lv l -> (table + 4096 <= t \/ t + 4096 <= table) /\ (desc + sizeof_file_descriptor <= t \/ t + 4096 <= desc);
}.

Lemma seek_served table desc s h t sE :
  callable lv owned proc tf ktf t1 t0 s -> reg h a0 = SYSCALL_FS_SEEK -> seekable table (reg h a1) desc s -> entered h s t sE ->
  syscall_async_handler t sE = Ret (TRAP_HANDLED, t) (set_mem (wr (mem sE) (desc + 8) (reg h a2)) sE) /\
  unharmed lv proc tf sE (set_mem (wr (mem sE) (desc + 8) (reg h a2)) sE).
Proof.
  intros Hc Hcall [Hft Hid Hslot Hd Htp Htf Hdp Hdf Htb] [Esh Em Ep E0 E1 E2 _]. unfold sizeof_process, sizeof_file_descriptor in *.
  pose proof (fsp_t0 _ _ _ _ _ (ca_space _ _ _ _ _ _ _ _ Hc)) as H0.
  assert (fd_table proc table sE) as Hft'.
  { destruct Hft as [F1 F2 F3 F4]. split; [done|done| |done]. rewrite Em; [done|lia| |].
    - pose proof (ca_proc _ _ _ _ _ _ _ _ Hc 0 t0 H0) as Hp. unfold leaf_word, sizeof_process in *. lia.
    - pose proof (rn_apart _ _ _ _ _ (ca_running _ _ _ _ _ _ _ _ Hc)). lia. }
  assert (fd_slot table (reg h a1 + 1) sE = desc) as Hslot'.
  { rewrite <- Hslot. unfold fd_slot. destruct (Htb _ _ H0) as [Ht _]. apply Em; unfold leaf_word; lia. }
  split.
  - unfold syscall_async_handler. rewrite E0, Hcall. cbn [Z.eqb Pos.eqb SYSCALL_FS_SEEK SYSCALL_UART_PRINT SYSCALL_IDLE_HANG SYSCALL_FS_OPEN SYSCALL_FS_READ SYSCALL_FS_WRITE].
    unfold handled, syscall_fs_seek. rewrite bind_assoc, E1, Ep, (bind_Ret _ _ _ _ _ (fd_get_eq _ _ _ _ Hft' Hid)), Hslot'.
    replace (desc =? 0) with false by (destruct Hd as (Hd & _); unfold KERNEL_VMA_START in Hd; lia).
    unfold fd_seek_pos. rewrite bind_assoc, E2.
    by rewrite (bind_Ret _ _ _ _ _ (store_field_addr desc 32 8 (reg h a2) sE Hd ltac:(lia) ltac:(lia) eq_refl)).
  - split; [done|done| | |]; cbn [mem set_mem].
    + intros l b i Hb Hi. destruct (Htb _ _ Hb) as [_ Hx]. apply rd_wr_ne. lia.
    + intros k Hk _. apply rd_wr_ne. lia.
    + intros k Hk _. apply rd_wr_ne. lia.
Qed.
End Async.

(** C31: a seek of a process, from its [ecall] to its next instruction: through
    the trap frame, the first handler, the second one on the kernel stack with
    interrupts on and the kernel's frame mapped in place of the process's, and
    back through the process's frame.  The position set is that of the
    descriptor in the entry after the one [fd_insert_local] gave the number to
    ([fd_get_local] is off by one); every other word of memory but the
    frame and the word of the trap state is as before, the two changes of frame
    are fenced, under the identifier of the process or, on a hart without
    identifiers, under 0, and the process can make its next call.  All 31
    registers are as before the call: where the answer should be there is still
    the number of the call. *)
Theorem seek_call_returns lv owned proc tf ktf t1 t0 table desc left_over stale stacks s h value :
  callable lv owned proc tf ktf t1 t0 s -> attached s -> mode h = TRAP_MODE_USER -> u64 (pc h) ->
  reg h a0 = SYSCALL_FS_SEEK -> seekable lv proc tf table (reg h a1) desc s ->
  exists h' s', trap left_over stale stacks 8 value h s = Ret h' s' /\ same_user (set_pc (pc h ⊕ 4) h) h' /\
    rd (mem s') (desc + 8) = reg h a2 /\
    (forall a, a <> desc + 8 -> a <> proc + 16 -> a < tf \/ tf + 280 <= a -> rd (mem s') a = rd (mem s) a) /\
    s' = set_mem (mem s') (add_fences [frame_fence proc s; frame_fence proc s] s) /\
    callable lv owned proc tf ktf t1 t0 s'.
Proof.
  intros Hc Ha Hu Hpc Hcall Hsk.
  destruct (call_returns lv owned proc tf ktf t1 t0 left_over stale stacks s h value Hc Ha Hu Hpc ltac:(by rewrite Hcall)
    (fun sE sF => sF = set_mem (wr (mem sE) (desc + 8) (reg h a2)) sE))
    as [(t & sE & msg & v1 & v2 & v3 & Hen & E & _)|(t & sE & sF & h' & s' & Hen & -> & E & Hs & Hb & Hc')].
  { intros t sE Hen. right. destruct (seek_served lv owned proc tf ktf t1 t0 table desc s h t sE Hc Hcall Hsk Hen) as [E Hun].
    exists t, (set_mem (wr (mem sE) (desc + 8) (reg h a2)) sE). split_and!; [done|exact (en_process _ _ _ _ _ _ _ Hen)|done|done]. }
  { exfalso. destruct (seek_served lv owned proc tf ktf t1 t0 table desc s h t sE Hc Hcall Hsk Hen) as [E' _].
    rewrite E in E'. clear -E'. discriminate. }
  pose proof (fsp_t0 _ _ _ _ _ (ca_space _ _ _ _ _ _ _ _ Hc)) as H0.
  destruct Hb as [Bs Bl Bm]. cbn [mem set_mem] in Bm. destruct Hsk as [_ _ _ _ _ _ Hdp Hdf Htb]. destruct (Htb _ _ H0) as [_ Hdt].
  unfold sizeof_process, sizeof_file_descriptor in *.
  exists h', s'. split; [done|]. split; [done|]. split_and!; [| | |done].
  - rewrite Bm by (unfold leaf_word; lia). rewrite rd_wr_eq. apply wrap64_small, reg_u64.
  - intros a A1 A2 A3. destruct (Z.eq_dec a (leaf_word t0)) as [->|Hl]; [done|].
    rewrite Bm by done. rewrite rd_wr_ne by done. by apply (en_mem _ _ _ _ _ _ _ Hen).
  - rewrite (en_shape _ _ _ _ _ _ _ Hen) in Bs. rewrite Bs at 1. destruct s as [? ? ? ? ? ? ? ? ? ? ? ? ? ? ? ? ? ? ? []].
    unfold add_fences. cbn. by rewrite <- app_assoc.
Qed.

(** ** Witness: descriptor 3 of the process of file Traps, in user mode *)

Definition demo_ktf : Z := demo_root + 0x8000.
Definition demo_fd_page : Z := demo_root + 0x9000.
Definition demo_fd : Z := demo_root + 0xa000.

Definition demo_words : list (Z * Z) :=
  [(demo_root + 8 * 511, create_branch demo_t1); (demo_t1 + 8 * 511, create_branch demo_t0);
   (demo_t0 + 8 * 510, frame_entry demo_tf); (demo_tf + 280, demo_task); (demo_task + 24, demo_tf);
   (demo_task + 32, demo_ktf); (demo_task + 48, demo_root); (demo_task + 64, demo_fd_page);
   (demo_fd_page + 8 * 5, demo_fd)].

Definition demo_calling : kstate :=
  with_entry demo_entry (set_satp 0x80000 (set_mem (list_to_map demo_words) zero_state)).

Definition demo_tables_of (l : nat) : gset Z :=
  match l with 0%nat => {[demo_t0]} | 1%nat => {[demo_t1]} | 2%nat => {[demo_root]} | _ => ∅ end.

Lemma demo_word_zero a : a ∉ demo_words.*1 -> rd (mem demo_calling) a = 0.
Proof.
  intros Ha. unfold rd. change (mem demo_calling) with (list_to_map demo_words : gmap Z Z).
  by rewrite (not_elem_of_list_to_map_1 _ _ Ha).
Qed.

Lemma demo_level l t : t ∈ demo_tables_of l ->
  l = 2%nat /\ t = demo_root \/ l = 1%nat /\ t = demo_t1 \/ l = 0%nat /\ t = demo_t0.
Proof. destruct l as [|[|[|l]]]; cbn [demo_tables_of]; rewrite ?elem_of_singleton, ?elem_of_empty; auto; done. Qed.

(** The one entry of each table. *)
Definition demo_last (l : nat) : Z := match l with 0%nat => 510 | _ => 511 end.
Definition demo_entry_of (l : nat) : Z :=
  match l with 0%nat => frame_entry demo_tf | 1%nat => create_branch demo_t0 | _ => create_branch demo_t1 end.

Lemma demo_table_entry l t i : t ∈ demo_tables_of l -> 0 <= i < 512 ->
  rd (mem demo_calling) (t + 8 * i) = if i =? demo_last l then demo_entry_of l else 0.
Proof.
  intros Ht Hi. destruct (Z.eqb_spec i (demo_last l)) as [->|Hne].
  - by destruct (demo_level l t Ht) as [[-> ->]|[[-> ->]|[-> ->]]]; vm_compute.
  - apply demo_word_zero.
    assert (Forall (fun a => t + 8 * i <> a) demo_words.*1) as H; [|intros Hin; by rewrite list.Forall_forall in H; by apply (H _ Hin)].
    unfold demo_words. cbn [fmap list_fmap fst].
    destruct (demo_level l t Ht) as [[-> ->]|[[-> ->]|[-> ->]]]; cbn [demo_last] in Hne;
      unfold demo_t1, demo_t0, demo_tf, demo_task, demo_fd_page, demo_root; repeat constructor; lia.
Qed.

Lemma demo_calling_space : frame_space demo_tables_of {[demo_root; demo_t1; demo_t0]} demo_t1 demo_t0 demo_calling.
Proof.
  assert (satp_root demo_calling = demo_root) as Er by reflexivity.
  assert (page_ok demo_root /\ page_ok demo_t1 /\ page_ok demo_t0) as (P2 & P1 & P0) by (split_and!; unfold page_ok; zdone).
  assert (space demo_tables_of {[demo_root; demo_t1; demo_t0]} demo_root (mem demo_calling)) as Hs.
  { split.
    - cbn [demo_tables_of]. set_solver.
    - intros l t Ht. destruct (demo_level l t Ht) as [[-> ->]|[[-> ->]|[-> ->]]]; (split; [lia|]; split; [set_solver|done]).
    - intros l l' t Hl Hl'. apply demo_level in Hl, Hl'.
      unfold demo_t1, demo_t0 in *. clear -Hl Hl'. lia.
    - intros l t i Ht Hi. rewrite (demo_table_entry l) by done. destruct (i =? demo_last l).
      + destruct (demo_level l t Ht) as [[-> _]|[[-> _]|[-> _]]]; cbn [demo_entry_of]; constructor; [cbn; set_solver..|].
        split; [zdone|reflexivity|right; split; [zdone|done]|done].
      + change 0 with (pte 0 0). constructor. split; [|by rewrite Z.mod_0_l by (apply Z.pow_nonzero; lia)|by left|done].
        destruct (demo_level l t Ht) as [[-> _]|[[-> _]|[-> _]]]; zdone.
    - intros l a b i j t Ha Hb Hi Hj Ht. rewrite (demo_table_entry _ a), (demo_table_entry _ b) by done.
      assert (demo_last (S l) = 511) as -> by done.
      assert (create_branch t <> 0) as Hnz by (by destruct (demo_level l t Ht) as [[-> ->]|[[-> ->]|[-> ->]]]; vm_compute).
      revert Hnz. generalize (create_branch t). intros e Hnz E1 E2.
      assert (a = b) as -> by (apply demo_level in Ha, Hb; clear -Ha Hb; lia).
      destruct (Z.eqb_spec i 511), (Z.eqb_spec j 511); split; congruence. }
  split; rewrite ?Er; [done|cbn; set_solver|cbn; set_solver|by vm_compute..].
Qed.

Definition demo_seeking : hart := set_reg a0 SYSCALL_FS_SEEK (set_reg a1 3 (set_reg a2 0x1234 demo_hart)).

Lemma demo_callable : callable demo_tables_of {[demo_root; demo_t1; demo_t0]} demo_task demo_tf demo_ktf demo_t1 demo_t0 demo_calling.
Proof.
  assert (satp_root demo_calling = demo_root) as Er by reflexivity.
  split; [|exact demo_calling_space|by vm_compute|by vm_compute|by vm_compute|unfold page_ok; zdone| | |by vm_compute].
  - split; [split; rewrite ?Er; try (unfold page_ok; zdone); by vm_compute|unfold kblock; zdone|by vm_compute
      |right; zdone| |]; unfold on_path; rewrite Er; intros a [->|[->| ->]]; zdone.
  - intros l t [[_ ->]|[[_ ->]|[_ ->]]]%demo_level; left; zdone.
  - intros l t [[_ ->]|[[_ ->]|[_ ->]]]%demo_level; zdone.
Qed.

Lemma demo_seekable : seekable demo_tables_of demo_task demo_tf demo_fd_page 3 demo_fd demo_calling.
Proof.
  split; [|lia|by vm_compute|unfold kblock; zdone|right; zdone|right; zdone|right; zdone|right; zdone|].
  - split; [unfold kblock; zdone|unfold kblock; zdone|by vm_compute|left; zdone].
  - intros l t [[_ ->]|[[_ ->]|[_ ->]]]%demo_level; split; right; zdone.
Qed.

Lemma seek_call_returns_witness :
  exists h' s', trap no_regs 0 0 8 0 demo_seeking demo_calling = Ret h' s' /\ rd (mem s') (demo_fd + 8) = 0x1234 /\
    reg h' a0 = SYSCALL_FS_SEEK /\ pc h' = 0x100c.
Proof.
  destruct (seek_call_returns demo_tables_of {[demo_root; demo_t1; demo_t0]} demo_task demo_tf demo_ktf demo_t1 demo_t0
    demo_fd_page demo_fd no_regs 0 0 demo_calling demo_seeking 0 demo_callable ltac:(by vm_compute) eq_refl
    ltac:(unfold u64; zdone) eq_refl demo_seekable) as (h' & s' & E & [R P _] & Ed & _).
  exists h', s'. split; [exact E|]. split; [exact Ed|]. split; [|exact P].
  rewrite (R a0 ltac:(zdone)). reflexivity.
Defined.
