(* ===== verification/ProcessIO.v ===== *)
(** * Files from user code: the calls write and read from the [ecall] to the next
    instruction

    The calls of the file FileCalls in the frame of those of the file AsyncCall:
    the trap, the two handlers, the change of trap frame and back, the page the
    data goes through, the copy from or to the memory the process sees, and the
    file. *)
From S2P Require Import Prelude Machine Strings Objects Cpu Pager Pages Vma VmaSpace UserAccess TrapParser Inode FileIO Syscalls FileCalls Traps TrapEntry AsyncCall.

Section ProcessIO.
Context {PS : PageSource pg_alloc} {PH : PageHeap PS pg_free}.
Context (lv : nat -> gset Z) (tables owned : gset Z) (proc tf ktf t1 t0 : Z).
Context (table id desc file root : Z) (page : Z -> Z) (pages : Z).

Local Abbreviation not_file := (not_file desc file root page pages).
Local Abbreviation quiet := (quiet owned proc desc file root page pages).
Local Abbreviation file_call := (file_call owned proc table id desc file root page pages).
Local Abbreviation entered := (entered proc tf t0).
Local Abbreviation callable := (callable lv tables proc tf ktf t1 t0).

(** The words a trap changes: the trap state, the entry of the frame, the frame. *)
Definition touched (b : Z) : Prop :=
  proc + 16 <= b < proc + 24 \/ leaf_word t0 <= b < leaf_word t0 + 8 \/ tf <= b < tf + 280.

(** The process can trap, and has the file open; its page tables and its frame are
    pages the kernel holds and are no part of the file or of the table of open files. *)
Record io_ready (sz off : Z) (s : kstate) : Prop := {
  io_callable : callable s;
  io_attached : attached s;
  io_file : file_call sz off s;
  io_tables l t b : t ∈ lv l -> t <= b < t + 4096 -> held owned b /\ not_file b;
  io_frame b : tf <= b < tf + 4096 -> held owned b /\ not_file b;
  io_entries b : table <= b < table + 4096 -> ~ touched b;
}.

(** Where all this is, whatever the state. *)
Record io_places : Prop := {
  pl_proc : kblock proc sizeof_process;
  pl_tf : tf mod 8 = 0;
  pl_leaf : t0 ∈ lv 0%nat;
  pl_aligned l t : t ∈ lv l -> t mod 4096 = 0;
  pl_apart l t : t ∈ lv l -> t + 4096 <= proc \/ proc + 192 <= t;
  pl_frame_apart : proc + 192 <= tf \/ tf + 4096 <= proc;
  pl_process b : proc <= b < proc + 192 -> held owned b /\ not_file b;
  pl_tables l t b : t ∈ lv l -> t <= b < t + 4096 -> held owned b /\ not_file b;
  pl_frame b : tf <= b < tf + 4096 -> held owned b /\ not_file b;
  pl_entries b : table <= b < table + 4096 -> ~ touched b;
}.

Lemma ready_places sz off s : io_ready sz off s -> io_places.
Proof.
  intros [Hc _ Hf Ht Hfr He]. pose proof (ca_running _ _ _ _ _ _ _ _ Hc) as Hr. pose proof (ca_space _ _ _ _ _ _ _ _ Hc) as Hs.
  split; [exact (rn_proc _ _ _ _ _ Hr)| |exact (fsp_t0 _ _ _ _ _ Hs)| |exact (ca_proc _ _ _ _ _ _ _ _ Hc)
    |exact (rn_apart _ _ _ _ _ Hr)| |exact Ht|exact Hfr|exact He].
  - destruct (fr_tf _ _ _ _ (rn_frame _ _ _ _ _ Hr)) as [_ H]. clear -H. dlia.
  - intros l t Hl. exact (proj2 (table_ok _ _ _ _ (fsp_space _ _ _ _ _ Hs) _ _ Hl)).
  - intros b Hb. split; [apply (fc_held _ _ _ _ _ _ _ _ _ _ _ _ Hf); by left|by apply (fc_process _ _ _ _ _ _ _ _ _ _ _ _ Hf)].
Qed.

Section Places.
Context (Hpl : io_places).

Lemma touched_not_file b : touched b -> held owned b /\ not_file b.
Proof.
  intros [Hb|[Hb|Hb]]; [apply (pl_process Hpl); lia| |apply (pl_frame Hpl); lia].
  apply (pl_tables Hpl 0%nat t0); [apply Hpl|unfold leaf_word in Hb; lia].
Qed.

(** Bytes of the tables, of the process and of its frame are quiet. *)
Lemma trap_byte_quiet b :
  (exists l t, t ∈ lv l /\ t <= b < t + 4096) \/ proc <= b < proc + 152 \/ tf <= b < tf + 4096 -> quiet b.
Proof.
  intros [(l & t & Ht & Hb)|[Hb|Hb]].
  - destruct (pl_tables Hpl l t b Ht Hb) as [H1 H2]. pose proof (pl_apart Hpl l t Ht). split; [done|]. split; [lia|done].
  - destruct (pl_process Hpl b ltac:(lia)) as [H1 H2]. split; [done|]. split; [lia|done].
  - destruct (pl_frame Hpl b Hb) as [H1 H2]. pose proof (pl_frame_apart Hpl). split; [done|]. split; [lia|done].
Qed.

(** A state that differs in touched bytes only. *)
Lemma words_bytes m m' :
  (forall a, a <> proc + 16 -> a <> leaf_word t0 -> a < tf \/ tf + 280 <= a -> rd m' a = rd m a) ->
  forall b, ~ touched b -> byte m' b = byte m b.
Proof.
  intros Hm b Hb. destruct Hpl as [(_ & _ & A1) A2 Hl A3 _ _ _ _ _ _]. specialize (A3 _ _ Hl).
  unfold byte, rd_field. rewrite Hm; [done|..]; unfold touched, word_of, leaf_word in *; clear -Hb A1 A2 A3; dlia.
Qed.

(** The file and its descriptor in such a state. *)
Lemma file_moves sz off s s' : file_call sz off s ->
  pager s' = pager s -> (forall b, ~ touched b -> byte (mem s') b = byte (mem s) b) -> file_call sz off s'.
Proof.
  intros [Hi [Tp Tg Tl Ta] Hid Hd Hf Hh Hp Hq] Ep Hm. pose proof (pl_apart Hpl _ _ (pl_leaf Hpl)) as Hal.
  pose proof (pl_frame_apart Hpl) as Ha. pose proof (pl_entries Hpl) as He. pose proof touched_not_file as Htf.
  destruct (pl_proc Hpl) as (_ & _ & A1). split; [| |done| | |done|done|done].
  - apply (ps_same _ (set_mem (mem s') s)); [|done|done]. apply ph_bytes; [done|]. intros b Hb. apply Hm. intros Ht. by apply Hb, Htf.
  - split; [done|done| |done]. rewrite <- Tl. apply rd_bytes; [clear -A1; dlia|]. intros k Hk. apply Hm.
    unfold touched, leaf_word. clear -Hk Hal Ha. lia.
  - rewrite <- Hd. unfold fd_slot. destruct Tg as (_ & _ & T8). apply rd_bytes; [clear -T8; dlia|].
    intros k Hk. apply Hm, He. clear -Hk Hid. lia.
  - apply (open_file_same _ _ _ _ _ _ _ _ Hf). intros b Hb. apply Hm. intros Ht. by apply (proj2 (Htf b Ht)).
Qed.

(** A buffer of the process away from what a trap changes, for the copy and for the walk. *)
Definition untouched_buffer (s : kstate) (va size : Z) (A : Z -> Z) : Prop :=
  forall k, 0 <= k < size -> ~ touched (A k) /\
    forall a b, a ∈ walk_words (mem s) (satp_root s) (va + k) 2 -> a <= b < a + 8 -> ~ touched b.

Lemma buffer_walk perm va size A s s' k :
  user_buffer owned proc desc file root page pages s perm va size A -> untouched_buffer s va size A -> satp s' = satp s ->
  (forall b, quiet b -> ~ touched b -> byte (mem s') b = byte (mem s) b) -> 0 <= k < size ->
  translate (set_sum true s') perm (va + k) = Some (A k) /\
  walk_words (mem s') (satp_root s') (va + k) 2 = walk_words (mem s) (satp_root s) (va + k) 2.
Proof.
  intros Hu Hb Es Hm Hk.
  apply (translate_same perm (va + k) (A k) s (set_sum true s') (ub_walk _ _ _ _ _ _ _ _ _ _ _ _ Hu k Hk)); [done|done|].
  intros a b Ha Hab. apply Hm; [by apply (ub_tables _ _ _ _ _ _ _ _ _ _ _ _ Hu k a b)|by apply (proj2 (Hb k Hk) a)].
Qed.

Lemma buffer_moves perm va size A s s' :
  user_buffer owned proc desc file root page pages s perm va size A -> untouched_buffer s va size A -> satp s' = satp s ->
  (forall b, quiet b -> ~ touched b -> byte (mem s') b = byte (mem s) b) ->
  user_buffer owned proc desc file root page pages s' perm va size A.
Proof.
  intros Hu Hb Es Hm. split.
  - intros k Hk. by apply (buffer_walk perm va size A s s' k).
  - apply (ub_bytes _ _ _ _ _ _ _ _ _ _ _ _ Hu).
  - apply (ub_quiet _ _ _ _ _ _ _ _ _ _ _ _ Hu).
  - intros k a b Hk. destruct (buffer_walk perm va size A s s' k Hu Hb Es Hm Hk) as [_ ->].
    by apply (ub_tables _ _ _ _ _ _ _ _ _ _ _ _ Hu k a b).
Qed.

Lemma untouched_moves perm va size A s s' :
  user_buffer owned proc desc file root page pages s perm va size A -> untouched_buffer s va size A -> satp s' = satp s ->
  (forall b, quiet b -> ~ touched b -> byte (mem s') b = byte (mem s) b) -> untouched_buffer s' va size A.
Proof.
  intros Hu Hb Es Hm k Hk. split; [apply (Hb k Hk)|]. destruct (buffer_walk perm va size A s s' k Hu Hb Es Hm Hk) as [_ ->].
  apply (Hb k Hk).
Qed.

Lemma separate_moves perm va size B s s' :
  user_buffer owned proc desc file root page pages s perm va size B -> untouched_buffer s va size B -> satp s' = satp s ->
  (forall b, quiet b -> ~ touched b -> byte (mem s') b = byte (mem s) b) -> separate_buffer s va size B -> separate_buffer s' va size B.
Proof.
  intros Hub Hun Es Hm [H1 H2]. split; [exact H1|]. intros k a b Hk.
  destruct (buffer_walk perm va size B s s' k Hub Hun Es Hm Hk) as [_ ->]. by apply (H2 k a b).
Qed.

(** What the system call finds. *)
Lemma entered_bytes h s t sE : entered h s t sE ->
  (forall b, ~ touched b -> byte (mem sE) b = byte (mem s) b) /\ pager sE = pager s /\ satp sE = satp s.
Proof.
  intros He. split; [|by rewrite (en_shape _ _ _ _ _ _ _ He)]. apply words_bytes. intros a H1 H2 H3.
  by apply (en_mem _ _ _ _ _ _ _ He).
Qed.

(** A system call that leaves the quiet bytes but those of [D] does no harm. *)
Lemma quiet_unharmed (D : Z -> Prop) sE sF :
  kernel_rest sF = kernel_rest sE -> (forall b, quiet b -> ~ D b -> byte (mem sF) b = byte (mem sE) b) ->
  (forall b, (exists l t, t ∈ lv l /\ t <= b < t + 4096) \/ proc <= b < proc + 152 \/ tf <= b < tf + 4096 -> ~ D b) ->
  unharmed lv proc tf sE sF.
Proof.
  intros Er Hq HD. destruct Hpl as [(_ & _ & A1) A2 _ A3 _ _ _ _ _ _].
  assert (forall a, a mod 8 = 0 -> (forall k, 0 <= k < 8 -> (exists l t, t ∈ lv l /\ t <= a + k < t + 4096) \/
    proc <= a + k < proc + 152 \/ tf <= a + k < tf + 4096) -> rd (mem sF) a = rd (mem sE) a) as Hw.
  { intros a Ha Hin. apply rd_bytes; [done|]. intros k Hk. specialize (Hin k Hk).
    apply Hq; [by apply trap_byte_quiet|by apply HD]. }
  split; [by apply rest_satp|exact (f_equal vma Er)| | |].
  - intros l t i Ht Hi. specialize (A3 l t Ht). apply Hw; [clear -A3; dlia|]. intros k Hk. left. exists l, t. split; [done|lia].
  - intros k Hk Hm. apply Hw; [clear -A1 Hm; dlia|]. intros j Hj. right. left. clear -Hk Hj Hm. dlia.
  - intros k Hk Hm. apply Hw; [clear -A2 Hm; dlia|]. intros j Hj. right. right. clear -Hk Hj Hm. dlia.
Qed.
End Places.

(** ** A call, whatever it does to the file *)

(** The file after a call that keeps the table of open files. *)
Lemma file_kept sz off sz' off' s s' : file_call sz off s -> ps_inv owned s' -> open_file desc file root page pages sz' off' (mem s') ->
  (forall b, proc <= b < proc + 152 \/ table <= b < table + 4096 -> byte (mem s') b = byte (mem s) b) -> file_call sz' off' s'.
Proof.
  intros [_ [Tp Tg Tl Ta] Hid Hd Hf Hh Hp Hq] Hi Hf' Hb. split; [done| |done| |done|done|done|done].
  - split; [done|done| |done]. rewrite <- Tl. destruct Tp as (_ & _ & T8).
    apply rd_bytes; [clear -T8; dlia|]. intros k Hk. apply Hb. lia.
  - rewrite <- Hd. unfold fd_slot. destruct Tg as (_ & _ & T8). apply rd_bytes; [clear -T8; dlia|]. intros k Hk. apply Hb. lia.
Qed.

Section Call.
Context (left_over : gmap Z Z -> gmap Z Z) (stale stacks : Z) (sz off : Z) (s : kstate) (h : hart) (value : Z).
Context (Hio : io_ready sz off s) (Hu : mode h = TRAP_MODE_USER) (Hpc : u64 (pc h)).

(** The call is served in [sE] and leaves [sF]: the file is one to call again with, and of the
    quiet bytes only those of [D] may have changed. *)
Record served (D : Z -> Prop) (sz' off' : Z) (sE sF : kstate) : Prop := {
  sv_rest : kernel_rest sF = kernel_rest sE;
  sv_quiet b : quiet b -> ~ D b -> byte (mem sF) b = byte (mem sE) b;
  sv_file : file_call sz' off' sF;
}.

(** Bytes no buffer of a process should be in: its tables, its struct, its frame, and
    its table of open files. *)
Definition off_limits (b : Z) : Prop :=
  (exists l t, t ∈ lv l /\ t <= b < t + 4096) \/ proc <= b < proc + 152 \/ tf <= b < tf + 4096 \/ table <= b < table + 4096.

(** The process after the call: at its next instruction, as ready as before. *)
Record returned (sz' off' : Z) (sF : kstate) (h' : hart) (s' : kstate) : Prop := {
  rt_user : same_user (set_pc (pc h ⊕ 4) h) h';
  rt_ready : io_ready sz' off' s';
  rt_satp : satp s' = satp s;
  rt_tx : tx s' = tx s;
  rt_bytes b : ~ touched b -> byte (mem s') b = byte (mem sF) b;
}.

Lemma process_call (D : Z -> Prop) (Q : Z -> Z -> kstate -> kstate -> Prop) :
  reg h a0 <> SYSCALL_UART_PRINT -> (forall b, off_limits b -> ~ D b) ->
  (forall t sE, entered h s t sE -> file_call sz off sE -> oom_or (syscall_async_handler t)
     (fun r sF => r = (TRAP_HANDLED, snd r) /\ process_ptr (snd r) = proc /\
        exists sz' off', served D sz' off' sE sF /\ Q sz' off' sE sF) sE) ->
  ((exists t sE, entered h s t sE /\ file_call sz off sE /\ syscall_async_handler t sE = Panic "OUT_OF_FREE_PAGES" 0 0 0) /\
   trap left_over stale stacks 8 value h s = Panic "OUT_OF_FREE_PAGES" 0 0 0) \/
  exists t sE sF sz' off' h' s', entered h s t sE /\ Q sz' off' sE sF /\
    trap left_over stale stacks 8 value h s = Ret h' s' /\ returned sz' off' sF h' s'.
Proof.
  intros Hcall HD Hserve. pose proof (ready_places _ _ _ Hio) as Hpl. pose proof Hio as [Hc Ha Hf H1 H2 H3].
  assert (forall t sE, entered h s t sE -> file_call sz off sE) as HfE.
  { intros t sE He. destruct (entered_bytes Hpl _ _ _ _ He) as (E1 & E2 & _). by apply (file_moves Hpl _ _ s). }
  destruct (call_returns lv tables proc tf ktf t1 t0 left_over stale stacks s h value Hc Ha Hu Hpc Hcall
    (fun sE sF => exists sz' off', served D sz' off' sE sF /\ Q sz' off' sE sF))
    as [(t & sE & msg & v1 & v2 & v3 & He & E & ->)|(t & sE & sF & h' & s' & He & (sz' & off' & Hsv & HQ) & E & Hs & [Bs Bl Bm] & Hc')].
  - intros t sE He. destruct (Hserve t sE He (HfE _ _ He)) as [E|([r t'] & sF & E & Er & Ep & sz' & off' & Hsv & HQ)].
    + left. by eexists _, _, _, _.
    + right. exists t', sF. cbn in Er, Ep. split; [by rewrite E, Er|]. split; [done|]. split; [|by exists sz', off'].
      destruct Hsv as [Sr Sq _]. apply (quiet_unharmed Hpl D); [done|done|].
      intros b Hb. apply HD. unfold off_limits. clear -Hb. tauto.
  - left. destruct (Hserve t sE He (HfE _ _ He)) as [E'|(r & sF & E' & _)]; rewrite E in E'; [|done].
    injection E' as -> -> -> ->. split; [|done]. exists t, sE. split; [done|]. split; [by apply HfE with t|done].
  - right. exists t, sE, sF, sz', off', h', s'. split; [done|]. split; [done|]. split; [done|]. destruct Hsv as [Sr Sq Sf].
    pose proof (words_bytes Hpl (mem sF) (mem s') Bm) as Hb.
    assert (forall X (f : kstate -> X), (forall s0, f s0 = f (kernel_rest s0)) -> f sF = f sE) as Kr
      by (intros X f Hx; rewrite (Hx sF), Sr; by rewrite <- Hx).
    assert (satp sE = satp s /\ tx sE = tx s /\ stvec (io sE) = stvec (io s) /\ symbols sE = symbols s) as (X1 & X2 & X3 & X4)
      by (by rewrite (en_shape _ _ _ _ _ _ _ He)).
    assert (satp s' = satp sF /\ tx s' = tx sF /\ stvec (io s') = stvec (io sF) /\ symbols s' = symbols sF /\ pager s' = pager sF)
      as (Y1 & Y2 & Y3 & Y4 & Y5) by (by rewrite Bs).
    assert (satp s' = satp s) as Z1 by (by rewrite Y1, (Kr _ satp)).
    split; [done| |done|by rewrite Y2, (Kr _ tx)|done].
    split; [done| | |done|done|done].
    + unfold attached. rewrite Y3, Y4, (Kr _ (fun s => stvec (io s))), (Kr _ symbols), X3, X4 by done. exact Ha.
    + by apply (file_moves Hpl _ _ sF).
Qed.

(** ** Writing *)

Lemma entered_args t sE va size : entered h s t sE -> reg h a1 = id -> reg h a2 = va -> reg h a3 = size -> call_args proc id t va size.
Proof. intros [_ _ Ep _ E1 E2 E3] <- <- <-. by split_and!. Qed.

Lemma process_writes size A :
  reg h a0 = SYSCALL_FS_WRITE -> reg h a1 = id -> reg h a3 = size -> let va := reg h a2 in
  user_buffer owned proc desc file root page pages s VMA_READ va size A -> untouched_buffer s va size A ->
  0 <= va -> 0 <= size -> va + size < KERNEL_VMA_START -> off + size <= 4096 * pages ->
  trap left_over stale stacks 8 value h s = Panic "OUT_OF_FREE_PAGES" 0 0 0 \/
  exists sz' sF h' s', trap left_over stale stacks 8 value h s = Ret h' s' /\ returned sz' (off + size) sF h' s' /\
    sz <= sz' /\ (0 < size -> off + size <= sz') /\
    (forall k, 0 <= k < size -> byte (mem s') (byte_at page (off + k)) = byte (mem s) (A k)) /\
    (forall k, 0 <= k < 4096 * pages -> k < off \/ off + size <= k ->
       byte (mem s') (byte_at page k) = byte (mem s) (byte_at page k)) /\
    (forall b, quiet b -> ~ touched b -> byte (mem s') b = byte (mem s) b).
Proof.
  intros Hcall Hid Hsz va Hu' Hun Hva Hsize Hend Hroom. pose proof (ready_places _ _ _ Hio) as Hpl.
  destruct (process_call nothing (fun sz' off' sE sF => off' = off + size /\ sz <= sz' /\ (0 < size -> off + size <= sz') /\
      (forall k, 0 <= k < size -> byte (mem sF) (byte_at page (off + k)) = byte (mem sE) (A k)) /\
      (forall k, 0 <= k < 4096 * pages -> k < off \/ off + size <= k -> byte (mem sF) (byte_at page k) = byte (mem sE) (byte_at page k)) /\
      (forall b, quiet b -> byte (mem sF) b = byte (mem sE) b)))
    as [[_ E]|(t & sE & sF & sz' & off' & h' & s' & He & (-> & R1 & R2 & R3 & R4 & R5) & E & Hret)].
  - by rewrite Hcall.
  - by intros b _ [].
  - intros t sE He HfE. destruct (entered_bytes Hpl _ _ _ _ He) as (Eb & _ & Es).
    pose proof (buffer_moves VMA_READ va size A s sE Hu' Hun Es (fun b _ => Eb b)) as HuE.
    unfold syscall_async_handler. rewrite (en_arg0 _ _ _ _ _ _ _ He), Hcall.
    cbn [Z.eqb Pos.eqb SYSCALL_FS_WRITE SYSCALL_UART_PRINT SYSCALL_IDLE_HANG SYSCALL_FS_OPEN SYSCALL_FS_READ].
    unfold handled. apply oom_bind. eapply oom_mono.
    + apply (write_call _ _ _ _ _ _ _ _ _ _ _ _ HfE va size A t HuE); [by apply (entered_args t sE)|done..].
    + intros t' sF (-> & Hi & s2 & pg & [_ [Hr Hq] (sz' & Hf & W1 & W2) Hnew Hold] & Hrest & Hb).
      apply (oom_ret (TRAP_HANDLED, set_return size t) _ _ sF); [done|]. cbn [fst snd]. split; [done|]. split; [exact (en_process _ _ _ _ _ _ _ He)|].
      destruct (FileCalls.after_call _ _ _ _ _ _ _ _ _ _ _ _ HfE s2 sF Hb) as (Kf & Kb & Kq).
      pose proof (off_range _ _ _ _ _ _ _ _ _ _ _ _ HfE) as Ho.
      exists sz', (off + size). assert (forall b, quiet b -> byte (mem sF) b = byte (mem sE) b) as Hqq.
      { intros b Hqb. rewrite Kq by done. apply Hq; [done|by intros []]. }
      split; [split|].
      * by rewrite Hrest.
      * intros b Hqb _. by apply Hqq.
      * apply (call_again _ _ _ _ _ _ _ _ _ _ _ _ _ _ _ HfE). split; [done| |done|by apply Kf].
        apply rest_satp. by rewrite Hrest.
      * split; [done|]. split; [done|]. split; [done|]. split; [|split; [|done]].
        -- intros k Hk. rewrite Kb by lia. by apply Hnew.
        -- intros k Hk Hko. rewrite Kb by done. by apply Hold.
  - by left.
  - right. exists sz', sF, h', s'. destruct (entered_bytes Hpl _ _ _ _ He) as (Eb & _ & _).
    pose proof (rt_bytes _ _ _ _ _ Hret) as Hb. pose proof (off_range _ _ _ _ _ _ _ _ _ _ _ _ (io_file _ _ _ Hio)) as Ho.
    assert (forall k, 0 <= k < 4096 * pages -> ~ touched (byte_at page k)) as Hpg.
    { intros k Hk Ht. destruct (touched_not_file Hpl _ Ht) as [_ [_ Hn]]. by apply (Hn k). }
    split; [done|]. split; [done|]. split; [done|]. split; [done|]. split; [|split].
    + intros k Hk. rewrite Hb, R3, Eb by (done || (apply Hpg; lia) || by apply Hun). done.
    + intros k Hk Hko. rewrite Hb, R4, Eb by (done || by apply Hpg). done.
    + intros b Hq Ht. by rewrite Hb, R5, Eb.
Qed.

(** ** Reading *)

Lemma process_reads size B :
  reg h a0 = SYSCALL_FS_READ -> reg h a1 = id -> reg h a3 = size -> let va := reg h a2 in
  user_buffer owned proc desc file root page pages s VMA_WRITE va size B -> untouched_buffer s va size B ->
  separate_buffer s va size B -> (forall k, 0 <= k < size -> ~ off_limits (B k)) ->
  0 < va -> 0 <= size -> va + size < 9223372036854775808 ->
  let n := readable sz off size in (0 < n -> off + n <= 4096 * pages) ->
  trap left_over stale stacks 8 value h s = Panic "OUT_OF_FREE_PAGES" 0 0 0 \/
  exists sF h' s', trap left_over stale stacks 8 value h s = Ret h' s' /\ returned sz (off + n) sF h' s' /\
    (forall k, 0 <= k < size ->
       byte (mem s') (B k) = if k <? delivered sz off size then byte (mem s) (byte_at page (off + k)) else byte (mem s) (B k)) /\
    (forall k, 0 <= k < 4096 * pages -> byte (mem s') (byte_at page k) = byte (mem s) (byte_at page k)).
Proof.
  intros Hcall Hid Hsz va Hu' Hun Hsep Hlim Hva Hsize Hend n Hroom. pose proof (ready_places _ _ _ Hio) as Hpl.
  pose proof (readable_bounds sz off size Hsize) as Hn. fold n in Hn.
  pose proof (off_range _ _ _ _ _ _ _ _ _ _ _ _ (io_file _ _ _ Hio)) as Ho.
  assert (delivered sz off size <= n /\ (0 < delivered sz off size -> off + delivered sz off size <= 4096 * pages)) as [Hdn Hdr].
  { unfold delivered, read_answer. fold n. destruct (4096 * (size / 4096) <=? n) eqn:E; [lia|]. clear -Hn Hroom. dlia. }
  destruct (process_call (in_buffer size B) (fun sz' off' sE sF => sz' = sz /\ off' = off + n /\
      (forall k, 0 <= k < size -> byte (mem sF) (B k) =
         if k <? delivered sz off size then byte (mem sE) (byte_at page (off + k)) else byte (mem sE) (B k)) /\
      (forall k, 0 <= k < 4096 * pages -> byte (mem sF) (byte_at page k) = byte (mem sE) (byte_at page k))))
    as [[_ E]|(t & sE & sF & sz' & off' & h' & s' & He & (-> & -> & R1 & R2) & E & Hret)].
  - by rewrite Hcall.
  - intros b Hb (k & Hk & ->). by apply (Hlim k).
  - intros t sE He HfE. destruct (entered_bytes Hpl _ _ _ _ He) as (Eb & _ & Es).
    pose proof (buffer_moves VMA_WRITE va size B s sE Hu' Hun Es (fun b _ => Eb b)) as HuE.
    pose proof (separate_moves VMA_WRITE va size B s sE Hu' Hun Es (fun b _ => Eb b) Hsep) as HsE.
    unfold syscall_async_handler. rewrite (en_arg0 _ _ _ _ _ _ _ He), Hcall.
    cbn [Z.eqb Pos.eqb SYSCALL_UART_PRINT SYSCALL_IDLE_HANG SYSCALL_FS_OPEN SYSCALL_FS_READ].
    unfold handled. apply oom_bind. eapply oom_mono.
    + apply (read_call _ _ _ _ _ _ _ _ _ _ _ _ HfE va size B t HuE HsE); [by apply (entered_args t sE)|done..].
    + intros t' sF (-> & Hi & s2 & pg & [_ [Hr Hq] Hf Hus Hby] & Hrest & Hb).
      apply (oom_ret (TRAP_HANDLED, set_return (read_answer sz off size) t) _ _ sF); [done|]. cbn [fst snd].
      split; [done|]. split; [exact (en_process _ _ _ _ _ _ _ He)|].
      destruct (FileCalls.after_call _ _ _ _ _ _ _ _ _ _ _ _ HfE s2 sF Hb) as (Kf & Kb & Kq).
      assert (forall b, quiet b -> ~ in_buffer size B b -> byte (mem sF) b = byte (mem sE) b) as Hqq.
      { intros b Hqb Hin. rewrite Kq by done. by apply Hq. }
      exists sz, (off + n). split; [split; [by rewrite Hrest|done|]|].
      * apply (file_kept sz off _ _ sE); [done|done|by apply Kf|]. intros b Hb'. apply Hqq.
        -- destruct Hb' as [Hb'|Hb']; [apply (trap_byte_quiet Hpl); tauto|].
           by apply (fc_entries _ _ _ _ _ _ _ _ _ _ _ _ HfE).
        -- intros (k & Hk & ->). apply (Hlim k Hk). unfold off_limits. clear -Hb'. tauto.
      * split; [done|]. split; [done|]. split.
        -- intros k Hk. rewrite Kq by (by apply (ub_quiet _ _ _ _ _ _ _ _ _ _ _ _ HuE)). by apply Hus.
        -- intros k Hk. rewrite Kb by done. by apply Hby.
  - by left.
  - right. exists sF, h', s'. destruct (entered_bytes Hpl _ _ _ _ He) as (Eb & _ & _).
    pose proof (rt_bytes _ _ _ _ _ Hret) as Hb.
    assert (forall k, 0 <= k < 4096 * pages -> ~ touched (byte_at page k)) as Hpg.
    { intros k Hk Ht. destruct (touched_not_file Hpl _ Ht) as [_ [_ Hx]]. by apply (Hx k). }
    split; [done|]. split; [done|]. split.
    + intros k Hk. destruct (Hun k Hk) as [Hk' _]. rewrite Hb, R1 by done.
      destruct (k <? delivered sz off size) eqn:Ek; rewrite Eb; try done. apply Hpg. lia.
    + intros k Hk. rewrite Hb, R2, Eb by (done || by apply Hpg). done.
Qed.

(** ** Seek *)

Lemma process_seeks pos :
  reg h a0 = SYSCALL_FS_SEEK -> reg h a1 = id -> reg h a2 = pos ->
  exists sF h' s', trap left_over stale stacks 8 value h s = Ret h' s' /\ returned sz pos sF h' s' /\
    (forall k, 0 <= k < 4096 * pages -> byte (mem s') (byte_at page k) = byte (mem s) (byte_at page k)) /\
    (forall b, quiet b -> ~ touched b -> byte (mem s') b = byte (mem s) b).
Proof.
  intros Hcall Hid Hpos. pose proof (ready_places _ _ _ Hio) as Hpl.
  assert (forall t sE, entered h s t sE -> file_call sz off sE -> exists sF,
    syscall_async_handler t sE = Ret (TRAP_HANDLED, t) sF /\ served nothing sz pos sE sF /\
    forall k, 0 <= k < 4096 * pages -> byte (mem sF) (byte_at page k) = byte (mem sE) (byte_at page k)) as Hserve.
  { intros t sE He HfE. pose proof (en_process _ _ _ _ _ _ _ He) as Ep. pose proof (en_arg1 _ _ _ _ _ _ _ He) as E1.
    pose proof (en_arg2 _ _ _ _ _ _ _ He) as E2.
    assert (next_call owned proc desc file root page pages sz off sE sE) as Hn
      by (split; [apply HfE|done|done|apply HfE]).
    destruct (seek_call _ _ _ _ _ _ _ _ _ _ _ _ _ _ _ HfE Hn t pos Ep ltac:(congruence) ltac:(congruence)
      ltac:(subst pos; apply reg_u64)) as (sF & E & Hn' & Hb).
    exists sF. split; [|split; [|done]].
    - unfold syscall_async_handler. rewrite (en_arg0 _ _ _ _ _ _ _ He), Hcall.
      cbn [Z.eqb Pos.eqb SYSCALL_FS_SEEK SYSCALL_UART_PRINT SYSCALL_IDLE_HANG SYSCALL_FS_OPEN SYSCALL_FS_READ SYSCALL_FS_WRITE].
      unfold handled. by rewrite (bind_Ret _ _ _ _ _ E).
    - split; [|intros b Hq _; by apply (nc_quiet _ _ _ _ _ _ _ _ _ _ _ Hn')|by apply (call_again _ _ _ _ _ _ _ _ _ _ _ _ _ _ _ HfE Hn')].
      destruct (call_desc _ _ _ _ _ _ _ _ _ _ _ _ HfE) as [Ed Hnz]. unfold syscall_fs_seek in E.
      rewrite Ep, E1, Hid, (bind_Ret _ _ _ _ _ Ed), Hnz in E. unfold mbind, M_bind, store64, store_field in E.
      destruct (access_ok _ _); [|done]. by injection E as <-. }
  destruct (process_call nothing (fun sz' off' sE sF => sz' = sz /\ off' = pos /\
      (forall k, 0 <= k < 4096 * pages -> byte (mem sF) (byte_at page k) = byte (mem sE) (byte_at page k)) /\
      (forall b, quiet b -> byte (mem sF) b = byte (mem sE) b)))
    as [[(t & sE & He & HfE & E) _]|(t & sE & sF & sz' & off' & h' & s' & He & (-> & -> & R1 & R2) & E & Hret)].
  - by rewrite Hcall.
  - by intros b _ [].
  - intros t sE He HfE. destruct (Hserve t sE He HfE) as (sF & E & Hsv & Hb). apply (oom_ret _ _ _ _ _ E). cbn [fst snd].
    split; [done|]. split; [exact (en_process _ _ _ _ _ _ _ He)|]. exists sz, pos. split; [done|]. split_and!; [done|done|done|].
    intros b Hq. apply (sv_quiet _ _ _ _ _ Hsv); [done|by intros []].
  - exfalso. destruct (Hserve t sE He HfE) as (sF & E' & _). rewrite E in E'. done.
  - exists sF, h', s'. destruct (entered_bytes Hpl _ _ _ _ He) as (Eb & _ & _). pose proof (rt_bytes _ _ _ _ _ Hret) as Hb.
    split; [done|]. split; [done|]. split.
    + intros k Hk. assert (~ touched (byte_at page k)) as Hk'
        by (intros Ht; destruct (touched_not_file Hpl _ Ht) as [_ [_ Hx]]; by apply (Hx k)).
      by rewrite Hb, R1, Eb.
    + intros b Hq Ht. by rewrite Hb, R2, Eb.
Qed.
End Call.
End ProcessIO.

(** A hart of a process that asks for the call [n]. *)
Record asks (n x y z : Z) (h : hart) : Prop := {
  as_mode : mode h = TRAP_MODE_USER;
  as_pc : u64 (pc h);
  as_call : reg h a0 = n;
  as_arg1 : reg h a1 = x;
  as_arg2 : reg h a2 = y;
  as_arg3 : reg h a3 = z;
}.

(** C10: what user code writes to a file it reads back, through the whole
    kernel. Three instructions [ecall] of a process, with any work on registers
    between them: one that writes [size] bytes at [va] to a file, one that seeks
    to where it started, and one that reads as many to [vb]. The file is open as
    the descriptor in the entry after that of the number [id] the calls name,
    which is where [fd_get_local] looks, and the range lies within the pages
    the file already has, at most 15 ([off + size <= 4096 * pages]).  Each
    call goes through trap entry, both handlers, the change of the trap
    frame and back, and returns to the instruction after it; at the end the
    buffer at [vb], as the process sees it, has the bytes that were at [va],
    and the process can call again. Under these conditions only the lack of a
    page for the data to go through ends a call in a panic. No call answers: the
    registers of the last one come back as they went in. *)
Theorem program_reads_back {PS : PageSource pg_alloc} {PH : PageHeap PS pg_free}
    lv tables owned proc tf ktf t1 t0 table id desc file root page pages sz off va vb size z A B
    left_over stale stacks value write seek read s :
  io_ready lv tables owned proc tf ktf t1 t0 table id desc file root page pages sz off s ->
  asks SYSCALL_FS_WRITE id va size write -> asks SYSCALL_FS_SEEK id off z seek -> asks SYSCALL_FS_READ id vb size read ->
  user_buffer owned proc desc file root page pages s VMA_READ va size A -> untouched_buffer proc tf t0 s va size A ->
  user_buffer owned proc desc file root page pages s VMA_WRITE vb size B -> untouched_buffer proc tf t0 s vb size B ->
  separate_buffer s vb size B -> (forall k, 0 <= k < size -> ~ off_limits lv proc tf table (B k)) ->
  0 <= va -> 0 < vb -> 0 <= size -> va + size < 9223372036854775808 -> vb + size < 9223372036854775808 ->
  off + size <= 4096 * pages ->
  let ecall := trap left_over stale stacks 8 value in
  let program := _ ← ecall write; _ ← ecall seek; ecall read in
  program s = Panic "OUT_OF_FREE_PAGES" 0 0 0 \/
  exists sz' h' s', program s = Ret h' s' /\ same_user (set_pc (pc read ⊕ 4) read) h' /\ tx s' = tx s /\
    io_ready lv tables owned proc tf ktf t1 t0 table id desc file root page pages sz' (off + size) s' /\
    forall k, 0 <= k < size -> byte (mem s') (B k) = byte (mem s) (A k).
Proof.
  intros Hio [Wm Wp W0 W1 W2 W3] [Sm Sp S0 S1 S2 _] [Rm Rp R0 R1 R2 R3] Hu Hun Hv Hvn Hsep Hlim Hva Hvb Hsize Ea Eb Hroom ecall program.
  pose proof (off_range _ _ _ _ _ _ _ _ _ _ _ _ (io_file _ _ _ _ _ _ _ _ _ _ _ _ _ _ _ _ _ _ Hio)) as Ho.
  unfold program, ecall. subst va vb.
  destruct (process_writes lv tables owned proc tf ktf t1 t0 table id desc file root page pages left_over stale stacks sz off s write value
    Hio Wm Wp size A W0 W1 W3 Hu Hun Hva Hsize ltac:(unfold KERNEL_VMA_START; lia) Hroom)
    as [E|(sz1 & sF1 & h1 & s1 & E & [_ Hio1 X1 T1 _] & Z1 & Z2 & Hnew & _ & Hq1)]; [left; by apply bind_Panic|].
  rewrite (bind_Ret _ _ _ _ _ E).
  destruct (process_seeks lv tables owned proc tf ktf t1 t0 table id desc file root page pages left_over stale stacks sz1 (off + size) s1 seek value
    Hio1 Sm Sp off S0 S1 S2) as (sF2 & h2 & s2 & E2 & [_ Hio2 X2 T2 _] & Hsame & Hq2).
  rewrite (bind_Ret _ _ _ _ _ E2).
  assert (satp s2 = satp s) as X by congruence.
  assert (forall b, quiet owned proc desc file root page pages b -> ~ touched proc tf t0 b -> byte (mem s2) b = byte (mem s) b) as Hq
    by (intros b Hb Ht; by rewrite Hq2, Hq1).
  assert (readable sz1 off size = size) as En by (unfold readable, MIN; bool_cases; lia).
  destruct (process_reads lv tables owned proc tf ktf t1 t0 table id desc file root page pages left_over stale stacks sz1 off s2 read value
    Hio2 Rm Rp size B R0 R1 R3 (buffer_moves _ _ _ _ _ _ _ _ _ VMA_WRITE (reg read a2) size B s s2 Hv Hvn X Hq)
    (untouched_moves _ _ _ _ _ _ _ _ _ VMA_WRITE (reg read a2) size B s s2 Hv Hvn X Hq)
    (separate_moves _ _ _ _ _ _ _ _ _ VMA_WRITE (reg read a2) size B s s2 Hv Hvn X Hq Hsep)
    Hlim Hvb Hsize Eb ltac:(rewrite En; lia)) as [E3|(sF3 & h3 & s3 & E3 & [U3 Hio3 X3 T3 _] & Hgot & _)]; [by left|right].
  rewrite En in Hio3. exists sz1, h3, s3. split; [done|]. split; [done|]. split; [congruence|]. split; [done|].
  intros k Hk. rewrite Hgot by done. unfold delivered, read_answer. rewrite En.
  replace (4096 * (size / 4096) <=? size) with true by (clear -Hsize; dlia). replace (k <? size) with true by lia.
  rewrite Hsame by lia. by apply Hnew.
Qed.

(** ** Witness: the process of file FileCalls, with its trap frame *)

Definition io_state : kstate := with_entry demo_entry call_state.

Definition io_levels (l : nat) : gset Z :=
  match l with 0%nat => {[call_at 6; call_at 9]} | 1%nat => {[call_at 5; call_at 8]} | 2%nat => {[call_at 4]} | _ => ∅ end.
Definition io_tables_set : gset Z := {[call_at 4; call_at 5; call_at 6; call_at 8; call_at 9]}.

Lemma io_level l t : t ∈ io_levels l -> exists n, t = call_at n /\
  (l = 2%nat /\ n = 4 \/ l = 1%nat /\ (n = 5 \/ n = 8) \/ l = 0%nat /\ (n = 6 \/ n = 9)).
Proof.
  destruct l as [|[|[|l]]]; cbn [io_levels]; rewrite ?elem_of_union, ?elem_of_singleton, ?elem_of_empty; [| | |done].
  - intros [->| ->]; eexists; (split; [reflexivity|tauto]).
  - intros [->| ->]; eexists; (split; [reflexivity|tauto]).
  - intros ->. eexists; (split; [reflexivity|tauto]).
Qed.

Lemma foldr_wr_out l m a : Forall (fun e => a <> e.1) l -> rd (foldr (fun '(x, v) m => wr m x v) m l) a = rd m a.
Proof. induction 1 as [|[x v] l Hx _ IH]; [done|]. cbn [foldr]. by rewrite rd_wr_ne. Qed.

(** Entry [i] of the table that is page [n]. *)
Definition io_entry_of (n i : Z) : Z :=
  match n with
  | 4 => if i =? 0 then create_branch (call_at 5) else if i =? 511 then create_branch (call_at 8) else 0
  | 5 => if i =? 0 then create_branch (call_at 6) else 0
  | 8 => if i =? 511 then create_branch (call_at 9) else 0
  | 6 => if i =? 1 then pte 0x80008 215 else 0
  | _ => if i =? 510 then pte 0x8000b 199 else 0
  end.

Lemma io_word_zero a : call_at 0 <= a -> Forall (fun e => a <> e.1) call_words -> rd (mem io_state) a = 0.
Proof.
  intros Ha H. change (mem io_state) with (foldr (fun '(x, v) m => wr m x v) (mem demo_pager) call_words).
  rewrite foldr_wr_out by done. unfold demo_pager. cbn [mem set_pager set_mem]. rewrite rd_write_words_out; [done|].
  unfold call_at in Ha. change (Z.of_nat (length [1; 128; demo_table + 256; demo_table + 4096])) with 4. lia.
Qed.

Lemma io_zero n i : 4 <= n < 10 -> 0 <= i < 512 -> n <> 7 -> n <> 4 \/ i <> 0 /\ i <> 511 -> n <> 5 \/ i <> 0 -> n <> 8 \/ i <> 511 ->
  n <> 6 \/ i <> 1 -> n <> 9 \/ i <> 510 -> rd (mem io_state) (call_at n + 8 * i) = 0.
Proof.
  intros Hn Hi H7 H4 H5 H8 H6 H9. apply io_word_zero; [unfold call_at; lia|].
  unfold call_words, call_at, demo_table. repeat (constructor; [cbn [fst]; lia|]). constructor.
Qed.

Lemma io_entry n i : n = 4 \/ n = 5 \/ n = 8 \/ n = 6 \/ n = 9 -> 0 <= i < 512 ->
  rd (mem io_state) (call_at n + 8 * i) = io_entry_of n i.
Proof.
  intros Hn Hi. destruct Hn as [->|[->|[->|[->| ->]]]]; cbn [io_entry_of].
  - destruct (Z.eqb_spec i 0) as [->|]; [by vm_compute|]. destruct (Z.eqb_spec i 511) as [->|]; [by vm_compute|]. apply io_zero; lia.
  - destruct (Z.eqb_spec i 0) as [->|]; [by vm_compute|]. apply io_zero; lia.
  - destruct (Z.eqb_spec i 511) as [->|]; [by vm_compute|]. apply io_zero; lia.
  - destruct (Z.eqb_spec i 1) as [->|]; [by vm_compute|]. apply io_zero; lia.
  - destruct (Z.eqb_spec i 510) as [->|]; [by vm_compute|]. apply io_zero; lia.
Qed.

(** An entry is 0, a user page or frame, or a table of the level below. *)
Lemma io_zero_ok l : (l <= 2)%nat -> entry_ok io_levels l 0.
Proof.
  intros Hl. change 0 with (pte 0 0). constructor. split; [|by rewrite Z.mod_0_l by (apply Z.pow_nonzero; lia)|by left|done].
  destruct l as [|[|[|l]]]; [zdone..|lia].
Qed.

Lemma io_entry_ok l n i :
  (l = 2%nat /\ n = 4 \/ l = 1%nat /\ (n = 5 \/ n = 8) \/ l = 0%nat /\ (n = 6 \/ n = 9)) -> entry_ok io_levels l (io_entry_of n i).
Proof.
  assert (forall ppn f, 0 <= ppn < 0x100000 -> f = 215 \/ f = 199 -> entry_ok io_levels 0 (pte ppn f)) as Hleaf.
  { intros ppn f Hp Hf. constructor. split; [cbn; lia|by rewrite Z.mod_1_r| |done].
    right. by destruct Hf as [->| ->]; (split; [lia|]). }
  assert (forall k, (k <= 1)%nat -> forall t, t ∈ io_levels k -> entry_ok io_levels (S k) (create_branch t)) as Hbr by (intros; by constructor).
  intros [[-> ->]|[[-> [->| ->]]|[-> [->| ->]]]]; cbn [io_entry_of]; repeat case_match; (apply io_zero_ok; lia) || (apply Hleaf; [lia|tauto]) || (apply Hbr; [lia|cbn; set_solver]).
Qed.

(** A table has one parent entry. *)
Lemma io_parent n i m : m = 5 \/ m = 8 \/ m = 6 \/ m = 9 -> n = 4 \/ n = 5 \/ n = 8 ->
  io_entry_of n i = create_branch (call_at m) ->
  n = (if (m =? 5) || (m =? 8) then 4 else if m =? 6 then 5 else 8) /\ i = (if (m =? 5) || (m =? 6) then 0 else 511).
Proof.
  intros Hm Hn. destruct Hm as [->|[->|[->| ->]]], Hn as [->|[->| ->]]; cbn [io_entry_of Z.eqb Pos.eqb orb];
    repeat case_match; intros E; try (exfalso; clear -E; vm_compute in E; discriminate E); split; try reflexivity; lia.
Qed.

Lemma io_space : space io_levels io_tables_set (call_at 4) (mem io_state).
Proof.
  assert (forall n, page_ok (call_at n) \/ n < 0 \/ 12 <= n) as Hok.
  { intros n. destruct (decide (0 <= n < 12)); [left|right; lia]. unfold page_ok, call_at, demo_table, KERNEL_VMA_START. split; [lia|dlia]. }
  split.
  - cbn. set_solver.
  - intros l t Ht. destruct (io_level l t Ht) as (n & -> & Hn). split; [lia|]. split; [|destruct (Hok n); [done|lia]].
    unfold io_tables_set. assert (n = 4 \/ n = 5 \/ n = 6 \/ n = 8 \/ n = 9) as Hc by tauto. clear -Hc.
    destruct Hc as [->|[->|[->|[->| ->]]]]; set_solver.
  - intros l l' t Hl Hl'. destruct (io_level l t Hl) as (n & -> & Hn), (io_level l' _ Hl') as (n' & E & Hn').
    assert (n' = n) as -> by (unfold call_at in E; lia). clear -Hn Hn'. lia.
  - intros l t i Ht Hi. destruct (io_level l t Ht) as (n & -> & Hn). rewrite io_entry by (tauto || done). by apply io_entry_ok.
  - intros l a b i j t Ha Hb Hi Hj Ht. destruct (io_level _ _ Ha) as (n & -> & Hn), (io_level _ _ Hb) as (n' & -> & Hn'), (io_level _ _ Ht) as (m & -> & Hm).
    rewrite (io_entry n i), (io_entry n' j) by (done || (clear -Hn Hn'; lia)). intros E E'.
    destruct (io_parent n i m ltac:(clear -Hn Hm; lia) ltac:(clear -Hn; lia) E) as [-> ->], (io_parent n' j m ltac:(clear -Hn Hm; lia) ltac:(clear -Hn'; lia) E') as [-> ->].
    done.
Qed.

Lemma io_root : satp_root io_state = call_at 4.
Proof. vm_compute. reflexivity. Qed.

Lemma io_callable_state : callable io_levels io_tables_set (call_at 0) (call_at 10) (call_at 11) (call_at 8) (call_at 9) io_state.
Proof.
  pose proof io_root as Er.
  assert (forall n, n = 4 \/ n = 8 \/ n = 9 \/ n = 10 \/ n = 11 -> page_ok (call_at n)) as Hok.
  { intros n Hn. unfold page_ok, call_at, demo_table, KERNEL_VMA_START. split; [lia|dlia]. }
  split.
  - split; [split; rewrite ?Er; [apply Hok; tauto..|vm_compute; reflexivity|vm_compute; reflexivity|vm_compute; reflexivity]
      |unfold kblock; zdone|vm_compute; reflexivity|left; zdone| |]; unfold on_path; rewrite Er; unfold call_at; intros a Ha;
      [right|left]; clear -Ha; lia.
  - split; rewrite ?Er; [exact io_space|cbn; set_solver|cbn; set_solver|vm_compute; reflexivity..].
  - rewrite Er. vm_compute. reflexivity.
  - vm_compute. reflexivity.
  - vm_compute. reflexivity.
  - apply Hok. tauto.
  - intros l t Ht. destruct (io_level l t Ht) as (n & -> & Hn). right. unfold call_at, sizeof_process. clear -Hn. lia.
  - intros l t Ht. destruct (io_level l t Ht) as (n & -> & Hn). unfold call_at. clear -Hn. lia.
  - vm_compute. reflexivity.
Qed.

Lemma io_is_ready : io_ready io_levels io_tables_set call_owned (call_at 0) (call_at 10) (call_at 11) (call_at 8) (call_at 9)
  (call_at 1) 0 (call_at 2) (call_at 2 + 64) (call_at 2 + 256) call_page_of 1 100 10 io_state.
Proof.
  split.
  - exact io_callable_state.
  - reflexivity.
  - destruct call_ready as [Hi [Tp Tg Tl Ta] Hid Hd Hf Hh Hp He]. split;
      [exact (ps_same _ call_state io_state Hi eq_refl eq_refl)|split; [exact Tp|exact Tg|exact Tl|exact Ta]|exact Hid|exact Hd|exact Hf|exact Hh|exact Hp|exact He].
  - intros l t b Ht Hb. destruct (io_level l t Ht) as (n & -> & Hn).
    split; [apply (call_held n); [clear -Hn; lia|done]|apply (call_not_file n); [clear -Hn; lia|done]].
  - intros b Hb. split; [by apply (call_held 10)|apply (call_not_file 10); [lia|done]].
  - intros b Hb. unfold touched, leaf_word, call_at in *. clear -Hb. lia.
Qed.

Lemma with_entry_buffer e s owned proc desc file root page pages perm va size A :
  user_buffer owned proc desc file root page pages s perm va size A ->
  user_buffer owned proc desc file root page pages (with_entry e s) perm va size A.
Proof. intros [U1 U2 U3 U4]. by split. Qed.

Lemma with_entry_separate e s va size B : separate_buffer s va size B -> separate_buffer (with_entry e s) va size B.
Proof. intros [S1 S2]. by split. Qed.

Lemma io_buffer perm o size : 0 <= o -> o + size <= 4096 -> perm = VMA_READ \/ perm = VMA_WRITE ->
  user_buffer call_owned (call_at 0) (call_at 2) (call_at 2 + 64) (call_at 2 + 256) call_page_of 1 io_state perm (0x1000 + o) size
    (Z.add (call_at 7 + o)).
Proof. intros H1 H2 H3. apply with_entry_buffer, call_buffer; done. Qed.

Lemma io_untouched o size : 0 <= o -> o + size <= 4096 ->
  untouched_buffer (call_at 0) (call_at 10) (call_at 9) io_state (0x1000 + o) size (Z.add (call_at 7 + o)).
Proof.
  intros Ho Hsize k Hk. split; [unfold touched, leaf_word, call_at; lia|]. intros a b.
  rewrite io_root, <- (Z.add_assoc 0x1000). destruct (call_vpn (o + k) ltac:(lia)) as (V2 & V1 & V0).
  change (mem io_state) with call_memory. rewrite (proj2 (call_walk _ V2 V1 V0)). intros Ha Hb. unfold touched, leaf_word, call_at in *.
  repeat (apply elem_of_cons in Ha as [->|Ha]; [lia|]). by apply not_elem_of_nil in Ha.
Qed.

Definition asking (n x y z : Z) : hart := set_reg a0 n (set_reg a1 x (set_reg a2 y (set_reg a3 z demo_hart))).

Lemma asking_asks n x y z : u64 n -> u64 x -> u64 y -> u64 z -> asks n x y z (asking n x y z).
Proof.
  intros Hn Hx Hy Hz. split; [reflexivity|unfold u64; zdone|..]; unfold asking; rewrite !reg_set by (unfold a0, a1, a2, a3; lia);
    cbn [Z.eqb Pos.eqb a0 a1 a2 a3]; by apply wrap64_small.
Qed.

(** The process writes eight bytes at 0x1000 to the file, at 10, and reads them to 0x1100. *)
Lemma program_reads_back_witness :
  let ecall := trap no_regs 0 0 8 0 in
  let program := _ ← ecall (asking SYSCALL_FS_WRITE 0 0x1000 8); _ ← ecall (asking SYSCALL_FS_SEEK 0 10 0);
                 ecall (asking SYSCALL_FS_READ 0 0x1100 8) in
  program io_state = Panic "OUT_OF_FREE_PAGES" 0 0 0 \/
  exists h' s', program io_state = Ret h' s' /\ pc h' = 0x100c /\ byte (mem s') (call_at 7 + 256 + 4) = 5.
Proof.
  destruct (program_reads_back io_levels io_tables_set call_owned (call_at 0) (call_at 10) (call_at 11) (call_at 8) (call_at 9)
    (call_at 1) 0 (call_at 2) (call_at 2 + 64) (call_at 2 + 256) call_page_of 1 100 10 (0x1000 + 0) (0x1000 + 256) 8 0
    (Z.add (call_at 7 + 0)) (Z.add (call_at 7 + 256)) no_regs 0 0 0 (asking SYSCALL_FS_WRITE 0 0x1000 8) (asking SYSCALL_FS_SEEK 0 10 0)
    (asking SYSCALL_FS_READ 0 0x1100 8) io_state io_is_ready)
    as [E|(sz' & h' & s' & E & [_ P _] & _ & _ & W)]; try (apply asking_asks; unfold u64; zdone);
    try (apply io_buffer; [lia|lia|tauto]); try (apply io_untouched; lia); try lia.
  - apply with_entry_separate, (call_separate 256 8); lia.
  - intros k Hk [(l & t & Ht & Hb)|Hb].
    + destruct (io_level l t Ht) as (n & -> & Hn). unfold call_at in Hb. clear -Hn Hb Hk. lia.
    + unfold call_at in Hb. clear -Hb Hk. lia.
  - left. exact E.
  - right. exists h', s'. split; [exact E|]. split; [exact P|].
    specialize (W 4 ltac:(lia)). rewrite (W : byte (mem s') (call_at 7 + 256 + 4) = _). vm_compute. reflexivity.
Defined.
