(* ===== verification/PanicReport.v ===== *)
(** * The report of a panic ([kernel/safety/panic.c])

    [PANIC] in the other files is the outcome [Panic]; this file has what
    [kernel_panic] prints before the hart stops.  Its file name, function name
    and message are addresses of strings in memory, and so is each entry of
    [panic_messages], to which [kernel_panic] adds the address the kernel was
    loaded at; the constants written out in its calls are [uart_print_lit]. *)
From S2P Require Import Prelude Machine Strings Uart Cpu.

(** ** The code *)

Open Scope string_scope.

(** What the strings of [panic_messages] say. *)
Definition panic_messages : list string := [
  "The experts call this not good and I call this not good.";
  "Who burnt the toast?";
  "<Insert funny joke>";
  "Call it a feature and ship it!";
  "I blame the t2 register again.";
  "Stack overflow?";
  "Ask r/osdev";
  "At least it didn't pan-Never mind actually.";
  "EVERYBODY PANIC";
  "Wait, why are we panicking?";
  "Time for a devlog entry!";
  "Clearly at least one of the lines of code was wrong.";
  "Rust would probably have fixed this.";
  "Must have been a hardware issue.";
  "For a full description of error load linux and 'cat /dev/urandom' and have a hunt.";
  "Fix for this issue can be found at 'cat /dev/urandom' (on linux computer). Just remove the boilerplate around it!";
  "Must have been a fault with qemu.";
  "Maybe the integer wasn't signed?";
  "Panic has been handled gracefully by forcefully killing everything.";
  "Was definitely userspace couldn't have been the kernel.";
  "The computer might be tired and needs more sleep.";
  "Might need to download more ram.";
  "ERROR: Couldn't pick a message in time.";
  "ERROR: Message too long.";
  "Error running linu-I mean toastium.";
  "The system as run into a err-INTERUPT: Invalid instruction.-or and wasn't able to recover.";
  "Could have been too many recursion layers deep.";
  "Good luck figuring out what the random data below means lol.";
  "Maybe https://osdev.org talks about this.";
  "Could have trapped badly.";
  "Likely users fault.";
  "Time to commit to a new commit.";
  "Bad pointer.";
  "Null pointer reference.";
  "Something went wrong, not sure what though.";
  "Might be bed time?";
  "Maybe it was named dinnerbone.";
  "Segmentation Fault Error. Not teapot";
  "Likely missing a semicolon";
  "FATAL : Off by one error... Or maybe off by a few... In a few different places";
  "ERROR: Undefined behavior, Expected to not panic";
  "Ran out of memory trying to remember everything being remembered.";
  "Race condition. System panicked after it lost the bet it had placed";
  "This message has just been printed now! So the code printing this is the latest to run as its being printed.";
  "Interrupt handler error. Was unable to handle it.";
  "Loaded in 65bit mode on mistake.";
  "Kernel lost he pointer, failed finding it.";
  "Throw some more bitwise math at it!";
  "CPU is taking a break from functioning correctly.";
  "Must be a CPU bug.";
  "The RNG was to random.";
  "Im hungry.";
  "What do you think the issue was?";
  "Im not sure...";
  "Not enough operating for the system.";
  "Accidentally clicked panic button.";
  "EMERGENCY MEETING!";
  "There is an imposter among us...";
  "The cake was a lie.";
  "GAME OVER"
].

Definition panic_banner : list string := [
  " _  ________ _____  _   _ ______ _        _____        _   _ _____ _____ ";
  "| |/ /  ____|  __ \| \ | |  ____| |      |  __ \ /\   | \ | |_   _/ ____|";
  "| ' /| |__  | |__) |  \| | |__  | |      | |__) /  \  |  \| | | || |     ";
  "|  < |  __| |  _  /| . ` |  __| | |      |  ___/ /\ \ | . ` | | || |     ";
  "| . \| |____| | \ \| |\  | |____| |____  | |  / ____ \| |\  |_| || |____ ";
  "|_|\_\______|_|  \_\_| \_|______|______| |_| /_/    \_\_| \_|_____\_____|"
].

Close Scope string_scope.

Definition PANIC_MESSAGE_CNT : Z := Z.of_nat (length panic_messages).

Definition report_value (label : string) (v : Z) : M unit :=
  uart_print_lit label ;;
  uart_print_u64_hex v ;;
  uart_print_lit " - (" ;;
  uart_print_s64 (to_s64 v) ;;
  uart_println_lit ")".

Section Build.
  (** What the build and the machine supply: [COMPILE_VERSION], [__DATE__], the
      cycle counter and the address of the array [panic_messages]. *)
  Context (COMPILE_VERSION compile_date : string) (cycle_cnt panic_messages_loc : Z).

(** Everything up to [freeze_system]. *)
Definition panic_report (file file_line function message extra_value_1 extra_value_2 extra_value_3 : Z) : M unit :=
  uart_println_lit EmptyString ;;
  for_each panic_banner uart_println_lit ;;
  time ← time_cnt;
  let random_value := time ⊕ extra_value_1 ⊕ extra_value_2 ⊕ extra_value_3 ⊕ cycle_cnt in
  panic_message ← load64 (elem64 panic_messages_loc (random_value mod PANIC_MESSAGE_CNT));
  kernel_start ← gets (fun s => sym_kernel_start (symbols s));
  uart_println_str (panic_message ⊕ kernel_start) ;;
  uart_println_lit EmptyString ;;
  uart_println_lit "Here is some info relating to what went wrong..." ;;
  uart_println_lit "-------------------------------------------------------------------------" ;;
  uart_print_lit "GIT VERSION HASH : " ;;
  uart_print_lit COMPILE_VERSION ;;
  uart_print_lit ", COMPILE DATE : " ;;
  uart_println_lit compile_date ;;
  uart_print_lit "LOCATION : " ;;
  uart_print_str file ;;
  uart_print_lit ":" ;;
  uart_print_s64 file_line ;;
  uart_print_lit " (" ;;
  uart_print_str function ;;
  uart_println_lit ")" ;;
  uart_print_lit "REASON   : " ;;
  uart_println_str message ;;
  report_value "VALUE 1 : 0x" extra_value_1 ;;
  report_value "VALUE 2 : 0x" extra_value_2 ;;
  report_value "VALUE 3 : 0x" extra_value_3.

Definition kernel_panic (file file_line function message extra_value_1 extra_value_2 extra_value_3 : Z) : M unit :=
  panic_report file file_line function message extra_value_1 extra_value_2 extra_value_3 ;;
  freeze_system.

(** ** What it prints *)

(** A line as it is sent. *)
Definition line (l : list Z) : list Z := l ++ [10; 13].

(** The line of a value: in hexadecimal, then signed in decimal. *)
Definition value_line (label : string) (v : Z) (l : list Z) : Prop :=
  exists x d, hex_text v x /\ signed_text (to_s64 v) d /\ l = line (chars label ++ x ++ chars " - (" ++ d ++ chars ")").

(** The whole report, line by line: [joke] is the message of number [time + v1 + v2 + v3 + cycle_cnt]
    modulo 2^64 and then modulo the sixty there are. *)
Definition report_text (time : Z) (file : list Z) (file_line : Z) (function message : list Z) (v1 v2 v3 : Z)
    (text : list Z) : Prop :=
  exists joke n l1 l2 l3,
    panic_messages !! Z.to_nat ((time + v1 + v2 + v3 + cycle_cnt) mod 18446744073709551616 mod 60) = Some joke /\
    signed_text file_line n /\ value_line "VALUE 1 : 0x" v1 l1 /\ value_line "VALUE 2 : 0x" v2 l2 /\
    value_line "VALUE 3 : 0x" v3 l3 /\
    text = line [] ++ concat ((fun b => line (chars b)) <$> panic_banner) ++
      line (chars joke) ++ line [] ++
      line (chars "Here is some info relating to what went wrong...") ++
      line (chars "-------------------------------------------------------------------------") ++
      line (chars "GIT VERSION HASH : " ++ chars COMPILE_VERSION ++ chars ", COMPILE DATE : " ++ chars compile_date) ++
      line (chars "LOCATION : " ++ file ++ chars ":" ++ n ++ chars " (" ++ function ++ chars ")") ++
      line (chars "REASON   : " ++ message) ++ l1 ++ l2 ++ l3.

(** The strings of [panic_messages] are where its entries, moved by the load address, point. *)
Record panic_strings (s : kstate) : Prop := {
  ps_entry i : 0 <= i < 60 -> valid64 (elem64 panic_messages_loc i);
  ps_string i joke : panic_messages !! i = Some joke ->
    cstring (mem s) (rd (mem s) (elem64 panic_messages_loc (Z.of_nat i)) ⊕ sym_kernel_start (symbols s)) (chars joke);
}.

(** Code that sends [l] in every state that has sent something since [s]. *)
Definition sends (s : kstate) (c : M unit) (l : list Z) : Prop := forall b, c (sent b s) = Ret tt (sent (b ++ l) s).

Section Sends.
Context (s : kstate).

Lemma sends_bind c k l1 l2 : sends s c l1 -> sends s k l2 -> sends s (c ;; k) (l1 ++ l2).
Proof. intros H1 H2 b. by rewrite (bind_Ret _ _ _ _ _ (H1 b)), H2, app_assoc. Qed.

Lemma sends_all c l : (forall s', c s' = Ret tt (sent l s')) -> sends s c l.
Proof. intros H b. by rewrite H, sent_sent. Qed.

Lemma sends_lit t : sends s (uart_print_lit t) (chars t).
Proof. apply sends_all. intros s'. apply print_lit_sent. Qed.

Lemma sends_newline : sends s (uart_print_char 10) [10; 13].
Proof. apply sends_all, print_newline. Qed.

Lemma sends_str a l : cstring (mem s) a l -> sends s (uart_print_str a) l.
Proof. intros H b. by rewrite (uart_print_str_correct a l (sent b s) H), sent_sent. Qed.

Lemma sends_line t : sends s (uart_println_lit t) (line (chars t)).
Proof. apply sends_bind; [apply sends_lit|apply sends_newline]. Qed.

Lemma sends_str_line a l : cstring (mem s) a l -> sends s (uart_println_str a) (line l).
Proof. intros H. apply sends_bind; [by apply sends_str|apply sends_newline]. Qed.

Lemma sends_lines ts : sends s (for_each ts uart_println_lit) (concat ((fun b => line (chars b)) <$> ts)).
Proof.
  induction ts as [|t ts IH]; [by apply sends_all; intros s'; rewrite sent_nil|]. cbn [for_each fmap list_fmap concat].
  apply sends_bind; [apply sends_line|exact IH].
Qed.

Lemma sends_value label v : u64 v -> to_s64 v <> -9223372036854775808 ->
  exists l, value_line label v l /\ sends s (report_value label v) l.
Proof.
  intros Hv Hm. destruct (print_hex_text v Hv) as (x & Hx & Ex).
  assert (-9223372036854775808 < to_s64 v < 9223372036854775808) as Hr.
  { revert Hm. unfold to_s64. rewrite wrap64_small by done. destruct Hv. destruct (Z.ltb_spec v 9223372036854775808); lia. }
  destruct (print_s64_text _ Hr) as (d & Hd & Ed).
  eexists. split; [by exists x, d|]. unfold line. rewrite <- !app_assoc.
  apply sends_bind; [apply sends_lit|]. apply sends_bind; [by apply sends_all|]. apply sends_bind; [apply sends_lit|].
  apply sends_bind; [by apply sends_all|]. apply sends_line.
Qed.

(** The same with what follows. *)
Section Then.
Context (k : M unit) (l : list Z) (Hk : sends s k l).

Lemma then_all c l' : (forall s', c s' = Ret tt (sent l' s')) -> sends s (c ;; k) (l' ++ l).
Proof. intros H. apply sends_bind; [by apply sends_all|done]. Qed.

Lemma then_lit t : sends s (uart_print_lit t ;; k) (chars t ++ l).
Proof. apply then_all. intros s'. apply print_lit_sent. Qed.

Lemma then_line t : sends s (uart_println_lit t ;; k) (chars t ++ [10; 13] ++ l).
Proof. rewrite app_assoc. apply sends_bind; [apply sends_line|done]. Qed.

Lemma then_str a t : cstring (mem s) a t -> sends s (uart_print_str a ;; k) (t ++ l).
Proof. intros H. apply sends_bind; [by apply sends_str|done]. Qed.

Lemma then_str_line a t : cstring (mem s) a t -> sends s (uart_println_str a ;; k) (t ++ [10; 13] ++ l).
Proof. intros H. rewrite app_assoc. apply sends_bind; [by apply sends_str_line|done]. Qed.

Lemma then_value label v lv : sends s (report_value label v) lv -> sends s (report_value label v ;; k) (lv ++ l).
Proof. intros H. by apply sends_bind. Qed.
End Then.

(** The random message. *)
Lemma sends_joke r : panic_strings s -> 0 <= r < 60 ->
  exists joke, panic_messages !! Z.to_nat r = Some joke /\ forall k l, sends s k l ->
    sends s (m ← load64 (elem64 panic_messages_loc r); kernel_start ← gets (fun s => sym_kernel_start (symbols s));
             uart_println_str (m ⊕ kernel_start) ;; k) (chars joke ++ [10; 13] ++ l).
Proof.
  intros [He Hj] Hr. destruct (panic_messages !! Z.to_nat r) as [joke|] eqn:E.
  2: { apply lookup_ge_None in E. change (length panic_messages) with 60%nat in E. lia. }
  exists joke. split; [done|]. intros k l Hk b. specialize (Hj _ _ E). rewrite Z2Nat.id in Hj by lia.
  rewrite (bind_Ret _ _ _ _ _ (load64_eq _ (sent b s) (He r Hr))). erewrite bind_Ret by reflexivity.
  exact (then_str_line k l Hk _ _ Hj b).
Qed.
End Sends.

(** One statement of the report. *)
Ltac send_next :=
  lazymatch goal with
  | |- sends _ (uart_print_lit _ ≫= _) _ => apply then_lit
  | |- sends _ (uart_println_lit _ ≫= _) _ => apply then_line
  | |- sends _ (uart_print_str _ ≫= _) _ => eapply then_str; [|eassumption]
  | |- sends _ (uart_println_str _ ≫= _) _ => eapply then_str_line; [|eassumption]
  | |- sends _ (report_value _ _ ≫= _) _ => eapply then_value; [|eassumption]
  | |- sends _ (uart_print_s64 _ ≫= _) _ => eapply then_all; [|eassumption]
  end.

Lemma random_value_eq a b c d e : a ⊕ b ⊕ c ⊕ d ⊕ e = (a + b + c + d + e) mod 18446744073709551616.
Proof. unfold wrap64. rewrite Zplus_mod_idemp_l. do 2 rewrite <- Z.add_assoc, Zplus_mod_idemp_l. f_equal. lia. Qed.

(** C39: what a panic prints and how it ends.  Let the file name, the name of
    the function, the message and the entries of [panic_messages] point at
    strings of the kernel's memory, the entries after the load address is added
    to them.  Then the console gets the report of [report_text], byte for byte
    and in that order: the banner, the message chosen by the clock, the values
    and the cycle counter among the sixty, never one outside the table, the
    build, the place, the reason and each value in hexadecimal and signed in
    decimal; nothing else changes, and then the hart stops.  The line number and
    the values may not be the smallest [s64], whose sign [uart_print_s64] cannot
    change, and the console is the one that takes every byte. *)
Theorem kernel_panic_reports file file_line function message v1 v2 v3 fl fn msg s :
  panic_strings s -> cstring (mem s) file fl -> cstring (mem s) function fn -> cstring (mem s) message msg ->
  -9223372036854775808 < file_line < 9223372036854775808 ->
  u64 v1 -> u64 v2 -> u64 v3 -> to_s64 v1 <> -9223372036854775808 ->
  to_s64 v2 <> -9223372036854775808 -> to_s64 v3 <> -9223372036854775808 ->
  exists text, report_text (clock s) fl file_line fn msg v1 v2 v3 text /\
    panic_report file file_line function message v1 v2 v3 s = Ret tt (set_tx (tx s ++ text) s) /\
    kernel_panic file file_line function message v1 v2 v3 s = Halt.
Proof.
  intros Hps Hfl Hfn Hmsg Hline U1 U2 U3 M1 M2 M3.
  destruct (sends_value s "VALUE 1 : 0x" v1 U1 M1) as (l1 & V1 & S1).
  destruct (sends_value s "VALUE 2 : 0x" v2 U2 M2) as (l2 & V2 & S2).
  destruct (sends_value s "VALUE 3 : 0x" v3 U3 M3) as (l3 & V3 & S3).
  destruct (print_s64_text _ Hline) as (n & Hn & Sn).
  set (r := (clock s + v1 + v2 + v3 + cycle_cnt) mod 18446744073709551616 mod 60).
  destruct (sends_joke s r Hps ltac:(apply Z.mod_pos_bound; lia)) as (joke & Hj & Sj).
  eassert (exists text, report_text (clock s) fl file_line fn msg v1 v2 v3 text /\
    panic_report file file_line function message v1 v2 v3 s = Ret tt (sent text s)) as (text & Ht & E).
  { eexists. split; [exists joke, n, l1, l2, l3; by split_and!|]. rewrite <- (sent_nil s) at 1. unfold panic_report, line at 1.
    rewrite (bind_Ret _ _ _ _ _ (sends_line s EmptyString [])), (bind_Ret _ _ _ _ _ (sends_lines s panic_banner _)).
    erewrite bind_Ret by reflexivity. cbv zeta. change (clock (sent _ s)) with (clock s).
    replace (_ mod PANIC_MESSAGE_CNT) with r
      by (unfold r; change PANIC_MESSAGE_CNT with 60; by rewrite random_value_eq).
    unfold line. rewrite <- !app_assoc, app_nil_l.
    etransitivity; [apply Sj|by rewrite <- !app_assoc].
    repeat send_next. exact S3. }
  exists text. split; [done|]. split; [exact E|]. unfold kernel_panic. by rewrite (bind_Ret _ _ _ _ _ E).
Qed.

End Build.

(** ** Witness: a kernel loaded at [demo_base] with its sixty messages, and an "OUT_OF_TOAST" *)

(** The strings [ts] from [a] on, and where each of them is. *)
Fixpoint put_strings (m : gmap Z Z) (a : Z) (ts : list string) : gmap Z Z * list Z :=
  match ts with
  | [] => (m, [])
  | t :: ts' =>
      let l := chars t in
      let '(m', at_) := put_strings (put_bytes m a (l ++ [0])) (a + Z.of_nat (length l) + 1) ts' in
      (m', a :: at_)
  end.

(** The messages are 64 KiB up, the table of their places in the image is 48 KiB up. *)
Definition demo_table : Z := demo_base + 0xC000.
Definition demo_image : gmap Z Z :=
  let '(m, at_) := put_strings ∅ (demo_base + 0x10000) panic_messages in
  put_bytes (put_bytes (put_bytes (write_words m demo_table ((fun a => a - demo_base) <$> at_))
    (demo_base + 0x1000) (chars "kernel/main.c" ++ [0])) (demo_base + 0x1100) (chars "main" ++ [0]))
    (demo_base + 0x1200) (chars "OUT_OF_TOAST" ++ [0]).

Definition demo_panicking : kstate :=
  mkState demo_image false false 0 [] 0 [] 0 (pager zero_state) (allocator zero_state) (scheduler zero_state) (vma zero_state)
    (devices zero_state) 0 0 (mkSymbols 0 demo_base 0 0 0 0 1 2 3 4 0) (locals zero_state) (literals zero_state) (sbi zero_state)
    (io zero_state).

Definition strings_check (m : gmap Z Z) (table base : Z) : bool :=
  forallb (fun i => access_ok 8 (elem64 table i)) (upto 0 60) &&
  forallb (fun p => cstring_check m (rd m (elem64 table (Z.of_nat (fst p))) ⊕ base) (chars (snd p))) (zip (seq 0 60) panic_messages).

Lemma strings_checked table s : strings_check (mem s) table (sym_kernel_start (symbols s)) = true -> panic_strings table s.
Proof.
  intros [H1 H2]%andb_prop. rewrite forallb_forall in H1, H2. split.
  - intros i Hi. apply H1, list_elem_of_In, elem_of_upto. lia.
  - intros i joke Hj. apply cstring_checked. apply (H2 (i, joke)), list_elem_of_In.
    apply (list_elem_of_lookup_2 _ i), lookup_zip_Some. split; [|done]. apply lookup_seq.
    apply lookup_lt_Some in Hj. change (length panic_messages) with 60%nat in Hj. lia.
Qed.

Lemma demo_panic_strings : panic_strings demo_table demo_panicking.
Proof. apply strings_checked. vm_compute. reflexivity. Qed.

Lemma kernel_panic_reports_witness :
  exists text, report_text "c0ffee" "Jan  1 2025" 42 0 (chars "kernel/main.c") 7 (chars "main") (chars "OUT_OF_TOAST")
      18446744073709551615 1 2 text /\
    kernel_panic "c0ffee" "Jan  1 2025" 42 demo_table (demo_base + 0x1000) 7 (demo_base + 0x1100) (demo_base + 0x1200)
      18446744073709551615 1 2 demo_panicking = Halt.
Proof.
  destruct (kernel_panic_reports "c0ffee" "Jan  1 2025" 42 demo_table (demo_base + 0x1000) 7 (demo_base + 0x1100) (demo_base + 0x1200)
    18446744073709551615 1 2 (chars "kernel/main.c") (chars "main") (chars "OUT_OF_TOAST") demo_panicking demo_panic_strings)
    as (text & H & _ & E).
  - apply cstring_checked. vm_compute. reflexivity.
  - apply cstring_checked. vm_compute. reflexivity.
  - apply cstring_checked. vm_compute. reflexivity.
  - lia.
  - unfold u64. lia.
  - unfold u64. lia.
  - unfold u64. lia.
  - vm_compute. discriminate.
  - vm_compute. discriminate.
  - vm_compute. discriminate.
  - exact (ex_intro _ text (conj H E)).
Defined.
