(* ===== verification/Tests.v ===== *)
(** * The tests the kernel can run at boot ([tests/])

    Compiled in by [QUICK_TEST_MODE] and [DEEP_TEST_MODE].  Text goes to the
    serial line; a test that fails prints and then loops without end, the
    outcome [Halt]. *)
From S2P Require Import Prelude Machine Strings Uart Pager Pages Allocator Hashmap Radix.

(** ** [kernel/safety/safety.c] *)

Definition kernel_safety_test : M unit := skip.

(** ** [tests/utils.c] *)

Definition tests_hang {A} (success : bool) : M A :=
  (if success then uart_println_lit "✅  All tests passed successfully" else uart_println_lit "❌  Tests failed") ;;
  halt.

Definition assert_u64 (first_value second_value : Z) : M unit :=
  if first_value =? second_value then skip else
  uart_print_lit "first value : " ;;
  uart_println_u64 first_value ;;
  uart_print_lit "second value : " ;;
  uart_println_u64 second_value ;;
  tests_hang false.

Definition test_print_step (text : string) (cur_step finish_step step_size : Z) : M unit :=
  let prev_percent := ((cur_step ⊖ step_size) ⊗ 100) / finish_step in
  let percent := (cur_step ⊗ 100) / finish_step in
  if prev_percent =? percent then skip else
  uart_print_char 13 ;;
  uart_print_lit text ;;
  uart_print_u64 percent ;;
  uart_print_lit "%".

Definition test_print_next : M unit := uart_print_char 10.

Definition test_print_stage_start (name : string) : M unit :=
  uart_print_lit "▶️  Running test " ;;
  uart_print_lit name ;;
  uart_print_char 10.

Definition test_print_stage_pass : M unit :=
  uart_print_lit "✅  test stage passed " ;;
  uart_print_char 10.

(** ** [tests/quick] *)

Definition test_quick_pager : M unit :=
  test_print_stage_start "Pager" ;;
  first_addr ← pg_alloc;
  let page i := first_addr ⊕ i ⊗ KERNEL_PAGE_SIZE in
  for_each (upto 1 10) (fun i => next_location ← pg_alloc; assert_u64 next_location (page i)) ;;
  pg_free (page 8) ;;
  pg_free (page 3) ;;
  pg_free (page 5) ;;
  next_loc ← pg_alloc;
  assert_u64 next_loc (page 3) ;;
  next_loc_2 ← pg_alloc;
  assert_u64 next_loc_2 (page 5) ;;
  next_loc_3 ← pg_alloc;
  assert_u64 next_loc_3 (page 8) ;;
  for_each (upto 0 10) (fun i => pg_free (page i)) ;;
  test_print_stage_pass.

Definition allocator_sizes : list Z := [1; 3; 4; 12; 131; 124; 623; 1000; 2020].

Definition next_iter_value (size past_value : Z) : Z := Z.lxor past_value size ⊗ 0x100000001b3.
Definition start_iter_value (size seed : Z) : Z :=
  next_iter_value seed (next_iter_value size 0x3E4C3161C5E6354A).

Definition set_size (start size seed : Z) : M unit :=
  _ ← for_fold (upto 0 size) (fun '(ptr, value) _ =>
    let value := next_iter_value size value in
    store8 ptr (value mod 256) ;; mret (ptr ⊕ 1, value)) (start, start_iter_value size seed);
  skip.

Definition confirm_size (start size seed : Z) : M unit :=
  _ ← for_fold (upto 0 size) (fun '(ptr, value) _ =>
    let value := next_iter_value size value in
    let expected := wrap8 (value mod 256) in
    v ← load8 ptr;
    assert_u64 expected v ;; mret (ptr ⊕ 1, value)) (start, start_iter_value size seed);
  skip.

(** The array [allocator_sizes_start] is a local list of the rows, its
    address is never taken. *)
Definition entry_at (rows : list (list Z)) (i j : Z) : Z :=
  nth (Z.to_nat j) (nth (Z.to_nat i) rows []) 0.
Definition size_at (i : Z) : Z := nth (Z.to_nat i) allocator_sizes 0.

Definition create_row (i : Z) : M (list Z) :=
  let size := size_at i in
  for_fold (upto 0 5) (fun row j => ptr ← mem_alloc size; set_size ptr size j ;; mret (row ++ [ptr])) [].
Definition create_values : M (list (list Z)) :=
  for_fold (upto 0 9) (fun rows i => row ← create_row i; mret (rows ++ [row])) [].

Definition confirm_values (rows : list (list Z)) : M unit :=
  for_each (upto 0 9) (fun i => for_each (upto 0 5) (fun j =>
    confirm_size (entry_at rows i j) (size_at i) j)).

Definition free_row (rows : list (list Z)) (i : Z) : M unit :=
  mem_free (entry_at rows i 1) ;; mem_free (entry_at rows i 3) ;; mem_free (entry_at rows i 2).
Definition free_values (rows : list (list Z)) : M unit := for_each (upto 0 9) (free_row rows).

Definition test_quick_allocator : M unit :=
  test_print_stage_start "Allocator" ;;
  allocator_sizes_start ← create_values;
  confirm_values allocator_sizes_start ;;
  free_values allocator_sizes_start ;;
  for_each (upto 0 9) (fun i =>
    let size := size_at i in
    a ← mem_alloc size; assert_u64 (entry_at allocator_sizes_start i 1) a ;;
    a ← mem_alloc size; assert_u64 (entry_at allocator_sizes_start i 2) a ;;
    a ← mem_alloc size; assert_u64 (entry_at allocator_sizes_start i 3) a) ;;
  for_each (upto 0 9) (fun i => for_each (upto 0 5) (fun j => mem_free (entry_at allocator_sizes_start i j))) ;;
  test_print_stage_pass.

Definition tests_run_quick (QUICK_TEST_MODE : bool) : M unit :=
  if negb QUICK_TEST_MODE then skip else
  test_quick_pager ;; test_quick_allocator ;; tests_hang true.

(** ** [tests/deep] *)

Definition test_pager : M unit :=
  test_print_stage_start "Pager" ;;
  let value_cnt := 2000 in
  first_loc ← pg_alloc;
  _ ← for_fold (upto 0 value_cnt) (fun last_loc i =>
    test_print_step "(1/3) Creating pager data... " i value_cnt 1 ;;
    loc ← pg_alloc;
    let loc_change := loc ⊖ last_loc in
    (if 4192 <? loc_change then PANIC "FOLLOWING_PAGE_TO_FAR" loc_change i 0 else skip) ;;
    (if negb (loc mod KERNEL_PAGE_SIZE =? 0) then PANIC "KERNEL_PAGE_NOT_ALIGNED" loc 0 0 else skip) ;;
    store64 loc (i ⊗ 312 ⊕ 86) ;;
    mret loc) first_loc;
  kernel_safety_test ;;
  test_print_next ;;
  test_print_step "(2/3) Releasing first page data... " 1 1 1 ;;
  pg_free first_loc ;;
  test_print_next ;;
  for_each (upto 0 value_cnt) (fun i =>
    let loc := first_loc ⊕ (i ⊕ 1) ⊗ KERNEL_PAGE_SIZE in
    test_print_step "(3/3) Releasing and confirming pager data... " i value_cnt 1 ;;
    pg_free loc ;;
    v ← load64 loc;
    assert_u64 v (i ⊗ 312 ⊕ 86)) ;;
  kernel_safety_test ;;
  test_print_stage_pass.

(** A block of 32 bytes, not far from the one before. *)
Definition near_block (old_location i : Z) : M Z :=
  location ← mem_alloc 32;
  let location_change := location ⊖ old_location in
  if 9000 <? location_change then PANIC "ALLOCATOR_CHANGE_LARGER_THEN_PAGE" location_change i 0
  else mret location.

(** Blocks number [lo] to [hi], with their values; [alloc_locations] is a local
    array. *)
Definition create_data (text : string) (lo hi value_cnt old_location : Z) (alloc_locations : list Z) : M (Z * list Z) :=
  for_fold (upto lo hi) (fun '(old_location, alloc_locations) i =>
    test_print_step text ((i - lo) ⊗ 2) value_cnt 2 ;;
    location ← near_block old_location i;
    store64 location (i ⊗ 653 ⊕ 3) ;;
    mret (location, alloc_locations ++ [location])) (old_location, alloc_locations).

Definition test_allocator : M unit :=
  test_print_stage_start "Allocator" ;;
  let value_cnt := 2000 in
  let blank_assigns := 200000 in
  let different_sizes := 10000 in
  old_location ← mem_alloc 32;
  '(_, alloc_locations) ← create_data "(1/8) Creating data 1st half... " 0 (value_cnt / 2) value_cnt old_location [];
  kernel_safety_test ;;
  old_location ← mem_alloc 32;
  test_print_next ;;
  _ ← for_fold (upto 0 blank_assigns) (fun old_location i =>
    test_print_step "(2/8) Creating blank, testing distance... " i blank_assigns 1 ;;
    near_block old_location i) old_location;
  test_print_next ;;
  for_each (upto 0 different_sizes) (fun i =>
    test_print_step "(3/8) Creating blank, all sizes... " i different_sizes 1 ;;
    for_each (upto 0 12) (fun j => _ ← mem_alloc (BIT j); skip)) ;;
  test_print_next ;;
  for_each (upto 0 (blank_assigns / 10)) (fun i =>
    test_print_step "(4/8) Creating blank... " i (blank_assigns / 10) 1 ;;
    _ ← mem_alloc 32; skip) ;;
  test_print_next ;;
  old_location ← mem_alloc 32;
  '(_, alloc_locations) ← create_data "(5/8) Creating data 2nd half... " (value_cnt / 2) value_cnt value_cnt
    old_location alloc_locations;
  test_print_next ;;
  test_print_step "(6/8) Random freeing and setting... " 1 1 1 ;;
  let at_ i := nth (Z.to_nat i) alloc_locations 0 in
  for_each [267; 965; 1233; 385; 1367] (fun i => mem_free (at_ i)) ;;
  for_each [267; 965; 1233; 385; 1367] (fun i => store64 (at_ i) 0) ;;
  for_each [267; 385; 965; 1233; 1367] (fun i => value ← mem_alloc 32; store64 value (i ⊗ 653 ⊕ 3)) ;;
  test_print_next ;;
  for_each (upto 0 value_cnt) (fun i =>
    test_print_step "(7/8) Verifying values... " i value_cnt 1 ;;
    v ← load64 (at_ i); assert_u64 v (i ⊗ 653 ⊕ 3)) ;;
  test_print_next ;;
  for_each (upto 0 value_cnt) (fun i =>
    test_print_step "(8/8) Releasing some of values... " i value_cnt 1 ;;
    mem_free (at_ i)) ;;
  kernel_safety_test ;;
  test_print_stage_pass.

Definition test_radix : M unit :=
  test_print_stage_start "Radix" ;;
  tree_root ← radix_create 4;
  uart_print_lit "table made at : " ;;
  uart_println_u64_hex tree_root ;;
  test_print_next ;;
  for_each (upto 0 100000) (fun i =>
    test_print_step "(1/3) Creating Data... " i 100000 1 ;;
    child_ptr ← mem_alloc 8;
    store64 child_ptr (i ⊗ i ⊕ 68359) ;;
    _ ← radix_insert tree_root i child_ptr 9 3; skip) ;;
  test_print_next ;;
  for_each (upto 0 100000) (fun i =>
    test_print_step "(2/3) Confirming Data... " i 100000 1 ;;
    child_ptr ← mem_alloc 8;
    store64 child_ptr i ;;
    child ← radix_get tree_root i 9 3;
    if child =? 0 then uart_println_lit "0" else
    v ← load64 child;
    if negb (v =? i ⊗ i ⊕ 68359) then
      uart_print_u64_hex child ;;
      uart_print_lit " : " ;;
      v ← load64 child;
      uart_println_u64 v
    else skip) ;;
  test_print_next ;;
  test_print_step "(3/3) Deleting Data... " 0 1 1 ;;
  radix_delete 9 tree_root true 3 ;;
  test_print_stage_pass.

Definition test_hashmap : M unit :=
  test_print_stage_start "Hashmap" ;;
  hmap ← gets (fun s => loc_hmap (locals s));
  loc ← pg_alloc;
  store64 (elem64 hmap 0) loc ;;
  store64 (elem64 hmap 1) (KERNEL_PAGE_SIZE / 8) ;;
  hashmap_create HASHMAP_TYPE_NUMBER hmap ;;
  test_print_next ;;
  for_each (upto 0 100000) (fun i =>
    test_print_step "(1/2) Creating data... " i 100000 1 ;;
    _ ← hashmap_insert hmap i (i ⊗ 32 ⊕ 36); skip) ;;
  test_print_next ;;
  for_each (upto 0 100000) (fun i =>
    test_print_step "(2/2) Confirming data... " i 100000 1 ;;
    data ← hashmap_get hmap i;
    assert_u64 (i ⊗ 32 ⊕ 36) data) ;;
  test_print_next ;;
  test_print_stage_pass.

Definition tests_run_deep (DEEP_TEST_MODE : bool) : M unit :=
  if negb DEEP_TEST_MODE then skip else
  test_pager ;; test_allocator ;; test_radix ;; test_hashmap ;; tests_hang true.

(** ** The quick test of the page allocator passes

    The pages that matter are ten in a row of one region, the first of them the
    first free page; [used] says which of them are in use. *)
Section QuickPager.
Context (rs : list region) (i : nat) (r : region) (p : Z) (m0 : gmap Z Z).
Context (Hr : rs !! i = Some r) (Hp : 0 <= p) (Hlast : allocatable r (p + 9)).
Context (Hbefore : forall (i' : nat) r' p', rs !! i' = Some r' -> allocatable r' p' ->
  before (Z.of_nat i') p' (Z.of_nat i) p -> page_used m0 r' p' = true).

Record marks (used : list bool) (s : kstate) : Prop := {
  mk_inv : pager_inv rs s;
  mk_used (j : nat) rj q : rs !! j = Some rj -> 0 <= q < r_cnt rj ->
    page_used (mem s) rj q =
      if bool_decide (j = i) && (p <=? q) && (q <? p + 10) then nth (Z.to_nat (q - p)) used false
      else page_used m0 rj q;
}.

Lemma ten_pages s k : pager_inv rs s -> 0 <= k < 10 -> 0 <= p + k < r_cnt r /\ allocatable r (p + k).
Proof.
  intros Hi Hk. pose proof (allocatable_bounds r (lay_region _ _ (inv_layout _ _ Hi) i r Hr) (p + 9) Hlast).
  unfold allocatable in *. lia.
Qed.

Lemma nth_set (l : list bool) (k j : nat) v : (k < length l)%nat ->
  nth j (<[k := v]> l) false = if decide (j = k) then v else nth j l false.
Proof.
  intros Hk. rewrite !nth_lookup. destruct (decide (j = k)) as [->|Hne].
  - by rewrite list_lookup_insert_eq.
  - by rewrite list_lookup_insert_ne.
Qed.

(** Taking the first page not in use. *)
Lemma wp_take used (k : nat) Q s :
  marks used s -> length used = 10%nat -> (k < 10)%nat -> take k used = replicate k true -> nth k used false = false ->
  (forall s', marks (<[k := true]> used) s' -> Q (page_addr r (p + Z.of_nat k)) s') -> wp pg_alloc Q s.
Proof.
  intros [Hi Hu] Hl Hk Ht Hf HQ. destruct (ten_pages s (Z.of_nat k) Hi ltac:(lia)) as [Hb Ha].
  assert (first_free (mem s) rs i r (p + Z.of_nat k)) as Hff.
  { split; [done|done| |].
    - rewrite (Hu i) by done. rewrite bool_decide_eq_true_2 by done.
      replace ((p <=? p + Z.of_nat k)) with true by lia. replace (p + Z.of_nat k <? p + 10) with true by lia. cbn [andb].
      by replace (Z.to_nat (p + Z.of_nat k - p)) with k by lia.
    - intros j rj q Hj Hq Hbf. pose proof (allocatable_bounds rj (lay_region _ _ (inv_layout _ _ Hi) j rj Hj) q Hq) as [Hqb _].
      rewrite (Hu j rj q Hj Hqb). destruct (bool_decide (j = i) && (p <=? q) && (q <? p + 10)) eqn:E.
      + apply andb_true_iff in E as [[->%bool_decide_eq_true E1]%andb_true_iff E2].
        assert (nth (Z.to_nat (q - p)) (take k used) false = true) as E3.
        { rewrite Ht, nth_lookup, lookup_replicate_2; [done|]. destruct Hbf as [?|[_ ?]]; lia. }
        rewrite nth_lookup, lookup_take in E3. rewrite nth_lookup. by case_decide.
      + apply Hbefore with j; [done..|]. destruct Hbf as [?|[? ?]]; [by left|right].
        split; [done|]. rewrite bool_decide_eq_true_2 in E by lia. lia. }
  eapply wp_Ret; [by apply (pg_alloc_takes rs)|]. apply HQ. split; [by apply take_page_inv|].
  intros j rj q Hj Hq. cbn [mem take_page set_mem].
  rewrite (page_used_take _ rs (inv_layout _ _ Hi) i r (p + Z.of_nat k) Hr Hb j rj q _ Hj Hq), (Hu j rj q Hj Hq).
  destruct (bool_decide_reflect (j = i)) as [->|]; cbn [andb]; [|by rewrite orb_false_r].
  destruct ((p <=? q) && (q <? p + 10)) eqn:E.
  - rewrite nth_set by lia. destruct (decide (Z.to_nat (q - p) = k)), (Z.eqb_spec q (p + Z.of_nat k)); try lia.
    by rewrite orb_false_r.
  - destruct (Z.eqb_spec q (p + Z.of_nat k)); [lia|]. by rewrite orb_false_r.
Qed.

(** Giving one of them back. *)
Lemma wp_give used (k : nat) Q s :
  marks used s -> length used = 10%nat -> (k < 10)%nat -> nth k used false = true ->
  (forall s', marks (<[k := false]> used) s' -> Q tt s') -> wp (pg_free (page_addr r (p + Z.of_nat k))) Q s.
Proof.
  intros [Hi Hu] Hl Hk Ht HQ. destruct (ten_pages s (Z.of_nat k) Hi ltac:(lia)) as [Hb _].
  pose proof (pg_free_found rs s Hi i r (p + Z.of_nat k) (page_addr r (p + Z.of_nat k)) Hr Hb (in_page_start _ _)) as E.
  assert (page_used (mem s) r (p + Z.of_nat k) = true) as Eu.
  { rewrite (Hu i), bool_decide_eq_true_2 by done. replace ((p <=? p + Z.of_nat k)) with true by lia.
    replace (p + Z.of_nat k <? p + 10) with true by lia. cbn [andb].
    by replace (Z.to_nat (p + Z.of_nat k - p)) with k by lia. }
  rewrite Eu in E. eapply wp_Ret; [exact E|]. apply HQ. split; [by apply release_page_inv|].
  intros j rj q Hj Hq. rewrite (release_page_used rs s Hi i r (p + Z.of_nat k) Hr Hb j rj q Hj Hq), (Hu j rj q Hj Hq).
  destruct (bool_decide_reflect (j = i)) as [->|]; cbn [andb negb]; [|by rewrite andb_true_r].
  destruct ((p <=? q) && (q <? p + 10)) eqn:E2.
  - rewrite nth_set by lia. destruct (decide (Z.to_nat (q - p) = k)), (Z.eqb_spec q (p + Z.of_nat k)); try lia; cbn [negb].
    by rewrite andb_true_r.
  - destruct (Z.eqb_spec q (p + Z.of_nat k)); [lia|]. by rewrite andb_true_r.
Qed.

Lemma wp_text used c Q s : prints c -> marks used s -> (forall s', marks used s' -> Q tt s') -> wp c Q s.
Proof.
  intros Hc [Hi Hu] HQ. destruct (Hc s) as [l E]. eapply wp_Ret; [exact E|]. apply HQ.
  split; [by apply (pager_inv_same rs s)|done].
Qed.

(** The address the test expects of page [k]. *)
Lemma nth_page s (k : nat) : pager_inv rs s -> (k < 10)%nat ->
  page_addr r p ⊕ Z.of_nat k ⊗ KERNEL_PAGE_SIZE = page_addr r (p + Z.of_nat k).
Proof.
  intros Hi Hk. destruct (ten_pages s (Z.of_nat k) Hi ltac:(lia)) as [Hb _].
  destruct (page_block r (lay_region _ _ (inv_layout _ _ Hi) i r Hr) _ Hb) as (B1 & B2 & _).
  unfold page_addr, KERNEL_PAGE_SIZE, KERNEL_VMA_START in *. rewrite (wrap64_small (Z.of_nat k * 4096)), wrap64_small by lia. lia.
Qed.

Lemma prints_assert a : prints (assert_u64 a a).
Proof. unfold assert_u64. rewrite Z.eqb_refl. exact prints_skip. Qed.

Lemma prints_stage name : prints (test_print_stage_start name).
Proof. apply prints_bind; [apply prints_lit|]. apply prints_bind; [apply prints_lit|apply prints_char]. Qed.

Lemma prints_pass : prints test_print_stage_pass.
Proof. apply prints_bind; [apply prints_lit|apply prints_char]. Qed.

(** The steps of the test.  [e] is the address it expects of page [k]. *)
Lemma take_step used (k e : Z) (c : M unit) Q s :
  marks used s -> e = page_addr r (p + k) -> length used = 10%nat -> 0 <= k < 10 ->
  take (Z.to_nat k) used = replicate (Z.to_nat k) true -> nth (Z.to_nat k) used false = false ->
  (forall s', marks (<[Z.to_nat k := true]> used) s' -> wp c Q s') -> wp (a ← pg_alloc; assert_u64 a e ;; c) Q s.
Proof.
  intros Hm -> Hl Hk Ht Hf HQ. apply wp_bind. apply (wp_take used (Z.to_nat k)); [done|done|lia|done..|]. intros s1 Hm1.
  rewrite Z2Nat.id by lia. apply wp_bind. eapply wp_text; [apply prints_assert|exact Hm1|exact HQ].
Qed.

Lemma give_step used (k e : Z) (c : M unit) Q s :
  marks used s -> e = page_addr r (p + k) -> length used = 10%nat -> 0 <= k < 10 -> nth (Z.to_nat k) used false = true ->
  (forall s', marks (<[Z.to_nat k := false]> used) s' -> wp c Q s') -> wp (pg_free e ;; c) Q s.
Proof.
  intros Hm -> Hl Hk Ht HQ. apply wp_bind. rewrite <- (Z2Nat.id k) by lia.
  apply (wp_give used (Z.to_nat k)); [done|done|lia|done|exact HQ].
Qed.

(** [k] values [a], and [b] from there to the tenth. *)
Definition up_to (a b : bool) (k : Z) : list bool := replicate (Z.to_nat k) a ++ replicate (Z.to_nat (10 - k)) b.

Lemma up_to_facts a b k : 0 <= k < 10 ->
  length (up_to a b k) = 10%nat /\ take (Z.to_nat k) (up_to a b k) = replicate (Z.to_nat k) a /\
  nth (Z.to_nat k) (up_to a b k) false = b /\ <[Z.to_nat k := a]> (up_to a b k) = up_to a b (k + 1).
Proof.
  intros Hk. revert k Hk. apply (forall_upto (fun k => length (up_to a b k) = 10%nat /\
    take (Z.to_nat k) (up_to a b k) = replicate (Z.to_nat k) a /\
    nth (Z.to_nat k) (up_to a b k) false = b /\ <[Z.to_nat k := a]> (up_to a b k) = up_to a b (k + 1)) 10 _ eq_refl).
  repeat (constructor; [done|]). constructor.
Qed.

Section Loops.
Variable page : Z -> Z.
Hypothesis page_eq : forall k, 0 <= k < 10 -> page k = page_addr r (p + k).

Lemma take_loop (c : M unit) Q s : marks (up_to true false 1) s -> (forall s', marks (up_to true false 10) s' -> wp c Q s') ->
  wp (for_each (upto 1 10) (fun i => next_location ← pg_alloc; assert_u64 next_location (page i)) ;; c) Q s.
Proof.
  intros Hm HQ. apply wp_bind. apply (wp_for_each (fun k => marks (up_to true false k))); [lia|done| |exact HQ].
  intros k s1 Hk Hm1. destruct (up_to_facts true false k ltac:(lia)) as (L & T & N & E).
  apply wp_bind. apply (wp_take (up_to true false k) (Z.to_nat k)); [done|done|lia|done..|]. intros s2 Hm2.
  rewrite Z2Nat.id, <- page_eq, <- E by lia.
  eapply wp_text; [apply prints_assert|exact Hm2|done].
Qed.

Lemma give_loop (c : M unit) Q s : marks (up_to false true 0) s -> (forall s', marks (up_to false true 10) s' -> wp c Q s') ->
  wp (for_each (upto 0 10) (fun i => pg_free (page i)) ;; c) Q s.
Proof.
  intros Hm HQ. apply wp_bind. apply (wp_for_each (fun k => marks (up_to false true k))); [lia|done| |exact HQ].
  intros k s1 Hk Hm1. destruct (up_to_facts false true k ltac:(lia)) as (L & T & N & E).
  pose proof (fun Q => wp_give (up_to false true k) (Z.to_nat k) Q s1 Hm1 L ltac:(lia) N) as H.
  rewrite Z2Nat.id in H by lia. rewrite page_eq, <- E by lia. by apply H.
Qed.
End Loops.

Lemma quick_pager_runs s : marks (up_to false false 0) s ->
  wp test_quick_pager (fun _ s' => marks (up_to false true 10) s') s.
Proof.
  intros Hm. unfold test_quick_pager. apply wp_bind. eapply wp_text; [apply prints_stage|exact Hm|]. intros s0 H0.
  apply wp_bind. apply (wp_take _ 0 _ _ H0); [done|lia|done..|]. intros s1 H1. rewrite Z.add_0_r.
  assert (forall k, 0 <= k < 10 -> page_addr r p ⊕ k ⊗ KERNEL_PAGE_SIZE = page_addr r (p + k)) as Hpg.
  { intros k Hk. pose proof (nth_page s1 (Z.to_nat k) (mk_inv _ _ H1) ltac:(lia)) as E. by rewrite Z2Nat.id in E by lia. }
  rewrite !Hpg by lia.
  apply (take_loop _ Hpg); [exact H1|]. intros s2 H2.
  apply (give_step _ 8 _ _ _ _ H2); [reflexivity|done|lia|done|]. intros s3 H3.
  apply (give_step _ 3 _ _ _ _ H3); [reflexivity|done|lia|done|]. intros s4 H4.
  apply (give_step _ 5 _ _ _ _ H4); [reflexivity|done|lia|done|]. intros s5 H5.
  apply (take_step _ 3 _ _ _ _ H5); [reflexivity|done|lia|done..|]. intros s6 H6.
  apply (take_step _ 5 _ _ _ _ H6); [reflexivity|done|lia|done..|]. intros s7 H7.
  apply (take_step _ 8 _ _ _ _ H7); [reflexivity|done|lia|done..|]. intros s8 H8.
  apply (give_loop _ Hpg); [exact H8|]. intros s9 H9.
  eapply wp_text; [apply prints_pass|exact H9|done].
Qed.
End QuickPager.

(** C25: the quick test of the page allocator passes.  Wherever the first free
    page is, if it and the nine after it are free pages of one region, the test
    returns and so every comparison it makes holds: ten pages come in a row,
    three of them given back come out again lowest first.  It leaves the
    allocator as it was: its invariant holds and each page is in use or free as
    before. *)
Theorem test_quick_pager_passes rs s i r p :
  pager_inv rs s -> first_free (mem s) rs i r p -> allocatable r (p + 9) ->
  (forall k, 0 <= k < 10 -> page_used (mem s) r (p + k) = false) ->
  exists s', test_quick_pager s = Ret tt s' /\ pager_inv rs s' /\
    forall (j : nat) rj q, rs !! j = Some rj -> 0 <= q < r_cnt rj ->
      page_used (mem s') rj q = page_used (mem s) rj q.
Proof.
  intros Hi Hff Hlast Hfree. pose proof (first_free_bounds _ _ _ _ _ _ (inv_layout _ _ Hi) Hff) as Hp.
  destruct Hff as [Hr _ _ Hb].
  assert (forall (j : nat) q, (bool_decide (j = i) && (p <=? q) && (q <? p + 10)) = true ->
    j = i /\ page_used (mem s) r q = false) as Hten.
  { intros j q [[->%bool_decide_eq_true E1]%andb_true_iff E2]%andb_true_iff. split; [done|].
    specialize (Hfree (q - p) ltac:(lia)). by replace (p + (q - p)) with q in Hfree by lia. }
  assert (forall n, nth n (replicate 10 false) false = false) as Hn.
  { intros n. rewrite nth_lookup. destruct (replicate 10 false !! n) eqn:E; [|done].
    by apply lookup_replicate in E as [-> _]. }
  assert (marks rs i p (mem s) (replicate 10 false) s) as Hm.
  { split; [done|]. intros j rj q Hj Hq. destruct (_ && _) eqn:E; [|done].
    destruct (Hten _ _ E) as [-> E1]. rewrite Hr in Hj. injection Hj as <-. by rewrite Hn. }
  destruct (wp_inv _ _ _ (quick_pager_runs rs i r p (mem s) Hr ltac:(lia) Hlast Hb s Hm)) as ([] & s' & E & [Hi' Hu]).
  exists s'. split; [exact E|]. split; [done|]. intros j rj q Hj Hq. rewrite (Hu j rj q Hj Hq).
  destruct (_ && _) eqn:E1; [|done]. destruct (Hten _ _ E1) as [-> E2]. rewrite Hr in Hj. injection Hj as <-.
  rewrite E2. apply Hn.
Qed.

Lemma test_quick_pager_passes_witness : exists s', test_quick_pager demo_pager = Ret tt s' /\ pager_inv [demo_region] s'.
Proof.
  destruct (test_quick_pager_passes [demo_region] demo_pager 0 demo_region 0 demo_inv demo_first) as (s' & E & Hi & _).
  - unfold allocatable. zdone.
  - apply (forall_upto (fun k => page_used (mem demo_pager) demo_region (0 + k) = false) 10 _ eq_refl).
    repeat (constructor; [vm_compute; reflexivity|]). constructor.
  - exists s'. split; [exact E|exact Hi].
Defined.

(** The quick test of the block allocator does not pass: of the five blocks of
    623 bytes the fourth lies in the second data page of its class, where
    [mem_free] looks for it in the wrong word (see
    [Allocator.second_page_block_not_freeable]).  The step of the test that
    releases them, on an allocator just set up: *)
Example quick_allocator_row_fails :
  match (allocator_init ;; row ← create_row 6; free_row [[]; []; []; []; []; []; row] 6) demo_pager with
  | Panic msg _ _ _ => msg
  | _ => EmptyString
  end = "ALLOCATOR_RELEASE_FREE".
Proof. vm_compute. reflexivity. Qed.
