(* ===== verification/Boot.v ===== *)
(** * Boot ([arch_boot.S], [arch_main.c], [kernel/main.c])

    From the first instruction to the first process: the order in which the parts are
    set up. *)
From S2P Require Import Prelude Machine Endian Uart Uart16550 Allocator Vma Irq Cpu TrapParser Process Dentry DeviceTree Drivers PagerInit TrapEntry Tests.

(** ** The code *)

(** [DEEP_TEST_MODE] and [QUICK_TEST_MODE] are the flags of the compiler. *)
Definition kernel_main (DEEP_TEST_MODE QUICK_TEST_MODE : bool) : M unit :=
  uart_init ;;
  uart_println_lit "Initializing kernel..." ;;
  sym ← gets symbols;
  uart_print_lit "kernel loaded at : 0x" ;;
  uart_print_u64_hex (sym_kernel_start sym ⊕ KERNEL_VMA_START) ;;
  uart_print_lit " - 0x" ;;
  uart_println_u64_hex (sym_kernel_end sym ⊕ KERNEL_VMA_START) ;;
  init_endian_conversion ;;
  kernel_safety_test ;;
  uart_println_lit "fetching core count" ;;
  hart_count ← dtb_hart_cnt;
  uart_println_lit "Initializing device tree" ;;
  device_tree_init (sym_kernel_end sym ⊕ 8) ;;
  uart_println_lit "Initializing pager" ;;
  pager_init ;;
  uart_println_lit "Initializing allocator" ;;
  allocator_init ;;
  uart_println_lit "Initializing VFS" ;;
  init_dentry ;;
  init_drivers ;;
  uart_println_lit "Initializing stacks" ;;
  stack_init hart_count ;;
  uart_println_lit "Initializing process handler" ;;
  processes_init hart_count ;;
  uart_println_lit "Initializing schedular" ;;
  schedular_init hart_count ;;
  uart_println_lit "Initializing virtual memory" ;;
  vma_init ;;
  uart_println_lit "Creating init process" ;;
  create_init_process ;;
  uart_println_lit "Initializing irq" ;;
  irq_init ;;
  irq_enable_type IRQ_TIMER ;;
  irq_enable_type IRQ_UART ;;
  irq_enable_type IRQ_SOFTWARE ;;
  irq_enable_type IRQ_EXTERNAL ;;
  uart_println_lit "Preforming schedular bootstrap" ;;
  context_bootstrap 0 ;;
  tests_run_deep DEEP_TEST_MODE ;;
  tests_run_quick QUICK_TEST_MODE ;;
  uart_println_lit "Running final safety test" ;;
  kernel_safety_test ;;
  uart_println_lit "attaching full trap handler" ;;
  attach_trap_handler ;;
  uart_println_lit "Finished initialization, now running kernel" ;;
  timer_set_future_ms 5.

Definition arch_main (DEEP_TEST_MODE QUICK_TEST_MODE : bool) (hart_id dtb_addr : Z) : M unit :=
  dtb_set_dst dtb_addr ;; kernel_main DEEP_TEST_MODE QUICK_TEST_MODE.

(** ** arch_boot.S

    The registers of the loop are its arguments; addresses are those the linker gives the
    symbols of the same names.  The C globals in .bss that are fields of [kstate] are
    zero from the start. *)
Definition clear_bss (bss_bottom bss_top : Z) : M unit :=
  while_true (fun t0 =>
    if bss_top <=? t0 then mret (inr tt) else
    store64 t0 0 ;; mret (inl (t0 ⊕ 8))) bss_bottom.

Section Start.
Context (DEEP_TEST_MODE QUICK_TEST_MODE : bool) (left_over : gmap Z Z -> gmap Z Z).
Context (table stack_top unsafe_trap bss_bottom bss_top : Z).

(** The firmware leaves the hart and the device tree in [a0] and [a1]. *)
Definition start_os (h : hart) : M hart :=
  h ← call_void left_over (arch_main DEEP_TEST_MODE QUICK_TEST_MODE (reg h a0) (reg h a1)) h;
  resume_process h.

(** The trap vector is first at the physical address of [unsafe_trap_entry]. *)
Definition start (h : hart) : M hart :=
  modify (set_stvec (unsafe_trap ⊖ KERNEL_VMA_START)) ;;
  setup_vma table ;;
  modify (set_stvec unsafe_trap) ;;
  clear_bss bss_bottom bss_top ;;
  start_os (set_reg sp stack_top h).
End Start.

(** All of .bss is zero, and nothing else is written. *)
Lemma clear_bss_zeroes bottom n s :
  kblock bottom (8 * n) -> 0 <= n -> bottom + 8 * n < 18446744073709551616 ->
  exists m, clear_bss bottom (bottom + 8 * n) s = Ret tt (set_mem m s) /\
    (forall i, 0 <= i < n -> rd m (bottom + 8 * i) = 0) /\
    (forall a, a < bottom \/ bottom + 8 * n <= a -> rd m a = rd (mem s) a).
Proof.
  intros Hb Hn Htop.
  assert (wp (clear_bss bottom (bottom + 8 * n)) (fun _ s' => exists m, s' = set_mem m s /\
    (forall i, 0 <= i < n -> rd m (bottom + 8 * i) = 0) /\
    (forall a, a < bottom \/ bottom + 8 * n <= a -> rd m a = rd (mem s) a)) s) as ([] & s' & E & m & -> & H)%wp_inv; [|by exists m].
  pose proof Hb as (Hlow & _ & _). unfold KERNEL_VMA_START in Hlow.
  unfold clear_bss. apply (wp_while (fun t0 s' => exists k, t0 = bottom + 8 * k /\ 0 <= k <= n /\ exists m, s' = set_mem m s /\
    (forall i, 0 <= i < k -> rd m (bottom + 8 * i) = 0) /\
    (forall a, a < bottom \/ bottom + 8 * n <= a -> rd m a = rd (mem s) a)) (fun t0 _ => bottom + 8 * n - t0)).
  - intros t0 s' (k & -> & Hk & _). lia.
  - intros t0 s' (k & -> & Hk & m & -> & Hz & Ho). destruct (Z.leb_spec (bottom + 8 * n) (bottom + 8 * k)).
    + apply wp_ret. exists m. split; [done|]. split; [|done]. intros i Hi. apply Hz. lia.
    + apply wp_bind, wp_store64; [apply (kblock_word_valid _ n _ Hb); lia|]. apply wp_ret.
      rewrite wrap64_small by lia. split; [|lia]. exists (k + 1). split; [lia|]. split; [lia|]. eexists. split; [reflexivity|].
      cbn [mem set_mem]. split.
      * intros i Hi. destruct (Z.eq_dec i k) as [->|]; [by rewrite rd_wr_eq|]. rewrite rd_wr_ne by lia. apply Hz. lia.
      * intros a Ha. rewrite rd_wr_ne by lia. by apply Ho.
  - exists 0. split; [lia|]. split; [lia|]. exists (mem s). split; [by destruct s|]. split; [intros i Hi; lia|done].
  - lia.
Qed.
